(* ===== verification/_CoqProject ===== *)
-Q . S2P
Prelude.v
Slist.v
CString.v
Printk.v
Screen.v
Layout.v
Sdcard.v
Fs.v
FsSpec.v
FsFile.v
FsFormat.v
FsDir.v
FsTotal.v
FileSystem.v
Mailbox.v
Shell.v
ShellFs.v
Mac.v
Loader.v
Kernel.v
Debug.v
Queue.v
Sched.v
Sync.v
Memory.v
MemorySpec.v
SchedSpec.v
KernelInv.v
Trap.v
Safety.v
Keeps.v
Run.v
SyncSpec.v
Isolation.v
Example.v
VmExample.v
IoProc.v
Witnesses.v
Syscalls.v
System.v
SystemSpec.v
Start.v
Machine.v
SystemExample.v
