(* ===== verification/Prelude.v ===== *)
(** * UCAS_OS: a verification development

    UCAS_OS is a small operating system for a 32-bit MIPS board (LS1C): a preemptive scheduler with
    at most 16 tasks, synchronisation objects, virtual memory with swapping to the SD card, a file
    system on the same card, a screen, mailboxes, a network driver and a shell. This library contains the
    kernel as definitions that follow the C functions, and theorems about them.

    ** The program and its parts

    The kernel is one program without threads of its own. The processor enters it through
    [exception_handler] ([arch/mips/kernel/asm.S]) for an interrupt, a system call or a TLB exception,
    always for the task [current_running]; it leaves it by returning to that task, or through
    [do_scheduler], which saves the kernel stack of the task and goes on with that of the task
    [scheduler] picks. Everything shared lies in global variables: the array [pcb] of process control
    blocks, the queues that link these blocks, the pools of page tables and frames, the TLB, the
    structures of the file system.

    Files, in dependency order, with the sources they model (under src/):

    - [Prelude]: machine integers, array accesses, the outcomes of C code, tactics. [Slist]:
      [libs/slist.c], the pool of numbered slots (process ids, page tables, frames, swap places, file
      descriptors), behind the class [SlotPool]. [CString]: [libs/string.c] and [memcopy] of
      [arch/mips/pmon/common.c]. [Printk]: [libs/printk.c], and [atoi] of [kernel/software/shell.c].
      [Screen]: [drivers/screen.c] and the printing functions that end in it.
    - [Layout]: the bytes of C structures. [Sdcard]: [sdread] and [sdwrite] of
      [arch/mips/pmon/common.c] over a block device, and the class [SdCard] the file system is
      written against. [Fs]: [kernel/fs/fs.c], [include/fs/fs.h] and [init_file_system] of
      [init/main.c]. [FsSpec], [FsFile], [FsFormat], [FsDir], [FsTotal]: specifications and lemmas, on
      allocation, on files as byte arrays, on formatting and mounting, on directories as maps, on
      termination. [FileSystem]: the theorems.
    - [Mailbox]: [libs/mailbox.c], with tasks taking turns. [Shell]: [kernel/software/shell.c], over an
      environment that answers its system calls. [ShellFs]: the shell with [Fs] answering those about
      files. [Mac]: [drivers/mac.c] and the set-up of the interrupt controller in
      [kernel/exception/irq.c]. [Loader]: [kernel/software/run.c] and the headers of [libs/elf32.h].
    - [Kernel]: the structs of [include/sched], [include/sync] and [include/mm], the kernel's state
      and the monad of its handlers. [Debug]: what [panic] of [libs/debug.c] prints. [Queue]: [kernel/sched/queue.c]. [Sched]:
      [kernel/sched/sched.c], [kernel/sched/time.c]. [Sync]: [kernel/lock/lock.c], [sem.c], [cond.c],
      [barrier.c]. [Memory]: [kernel/mm/memory.c], [kernel/exception/tlb.c]. [Trap]:
      [kernel/exception/irq.c], the dispatch of [kernel/exception/syscall.c], the waiting for packets
      of [drivers/mac.c], [init_task] of [init/main.c], and the machine as a step relation.
    - [MemorySpec], [SchedSpec], [KernelInv], [Safety], [Keeps], [Run], [SyncSpec], [Isolation]:
      invariants, what each operation does, and the theorems about runs. [Example], [VmExample],
      [Witnesses]: a concrete kernel state and the theorems applied to it.
    - [IoProc]: [kernel/software/io_proc.c], with the contents of the frames and of the card.
    - [Syscalls]: the calling side of [kernel/exception/syscall.c], the numbers of
      [include/exception/syscall.h], and the way from a call to its handler.
    - [System]: everything in one state: the handlers of all calls, the entry of exceptions
      and the exit from them ([arch/mips/kernel/asm.S]), the acknowledgement of network interrupts and [_start] of [init/main.c]. [SystemSpec]: what exceptions keep;
      [Start]: what [_start] establishes; [Machine]: runs of the whole machine, from the reset on;
      [SystemExample]: all of them applied to concrete machines.

    ** Correspondence

    A definition has the name of the C function it models; loops are functions of their own, named
    after it. An [int] or [uint32_t] is a [Z] whose wrap-around is written out with [s32] and [u32]
    wherever the C operation can leave the range. A pointer to a control block is [option Z], the index
    in [pcb]; a queue is named by the object it belongs to ([qref]); a pointer into an array is an index,
    or the rest of the array behind it. An access outside an array or through [NULL] is the outcome
    [Fault], a call of [panic] is [Panic], a loop that outlives its fuel is [OutOfFuel].

    A function that can give up the processor takes what its callers still have to do as a list of
    frames ([kframe]) and returns [Return] or [Switch]; the list is kept in the control block, as the
    kernel stack is, and [Trap.step_by_frame] runs the first of them when the task has been picked
    again. One call of the model is what the C code does between two such points, with interrupts
    closed as [asm.S] closes them.

    The file system is a state of its own, because in C it shares with the rest of the kernel only the
    card, the screen and the result register of the current task ([regs2]); [System.on_files] puts them
    together. The memory of a task, through which
    [fread] and [fwrite] pass, is the list of bytes they deliver or are given. Objects that the C code
    leaves uninitialised (local structures, the bytes behind [current_dir] that a search reads) are
    parameters, and the theorems hold for every value of them.

    ** What the theorems show

    - The whole machine (C1-C3, C10, C27): [_start] sets every part up, with the shell and [io_proc] ready; the first
      interrupt of the timer starts one of them; from then on, whatever exceptions
      arrive, in any order, the invariants of tasks, memory, saved contexts and screen hold, tasks do not reach each
      other's memory, and no handler of the scheduler or of the memory faults or loops; a call that does not
      switch returns to its caller with its registers (but k0 and k1, which belong to the kernel); the calls of the tasks reach
      their handlers. The panic of the scheduler, "no task to run.", is an outcome only of a call, or of a task going on in
      the kernel, of the only ready task, and only when the call is one that can wait or end its task ([stops], [stalls]); no interrupt ends in it.
    - Virtual memory and swapping (C4, C5, C13-C15, C40): tasks never reach the same byte, as long as no page is
      swapped; what a TLB exception maps; a page comes back from the swap area as it left; what the
      swap process does for each request; which places of the swap area are handed out.
    - Scheduling and queues (C7, C8, C16, C30, C31, C35, C36): the static lists are stacks of free slots; the
      intrusive queues are disjoint lists; which task is picked, that every ready task is picked within a
      bound, what blocking and waking do.
    - Synchronisation (C9, C11, C32-C34): mutual exclusion, the meaning of the counters, which tasks wait and which reach the
      ready queue ([one_parked], [one_woken], [wakes]), when a barrier opens;
      a mailbox delivers what is sent, in order, when no byte overtakes a full ring.
    - File system (C6, C12, C17-C21): file contents, formatting and mounting, names, directories,
      allocation, termination for all arguments, without a panic but for accesses beyond what an inode can reach.
    - Shell, screen, text, network, loader (C22-C26, C28, C29): a line typed does what a manual, written apart from the code, gives for its first word; [cat]
      shows what it shows of a file; the terminal shows the buffer after a refresh; writing is typing on a
      page that scrolls; formatted output is bounded and correct; the rings of descriptors are well formed
      when the device is started on them, wherever in the unmapped segments they lie; the loader copies the segment the headers name.
    - Libraries and card (C37-C39): [strcpy], reading after writing the card, [memcopy].

    Properties without a number, on defects of the code, stand beside these: [sdwrite_partial_clobbers],
    [first_boot_does_not_mount], [fopen_keeps_remainder], [mailbox_overflows], [kill_keeps_user_locks],
    [kill_keeps_memory], [swap_request_lost], [check_sleeping_wakes_one], [fread_beyond_limit_panics]; others complete the picture of a
    component, as [mutex_acquire_returns_to_owner], [do_unblock_all_wakes_all],
    [tlb_exception_panics_without_table], [panic_prints].

    ** Bounds and fuel

    Queue walks have one step per control block and one more ([walk_fuel]); the queues of a state that
    satisfies the invariant are shorter. The invariant [kernel_ok K] bounds waiting times and
    scheduling priorities by [K], which grows by at most 40 in a step: the integers of the scheduler
    cannot overflow in any run for which [K] stays below 2^31, and the theorems about runs say so. The loops
    of the file system have fuel for the sectors of the map that are left, the length of the path, and the
    sectors of the transfer; C20 states that it is always enough. [mini_itoa] has 33 passes, more than a
    32-bit number has digits in any radix from 2 on. The loop of [cat] has one pass for each sector of the file
    and one more; the loop of [mac_reset] waits for the device, as many passes as it takes to answer.
    [copy_code] has a pass for each byte of the code it copies.

    ** What is assumed

    The card, behind the firmware's functions, returns what was last written to a block
    ([BlockDev], [SdCard]); the file-system theorems are about any instance, and [driver_sdcard] shows that
    the driver over such a device is one. What a register of the network device reads is a parameter that may
    depend on everything read and written before; the system calls of the shell are answered by a parameter, which
    [ShellFs] instantiates. Nothing else is assumed: no axiom is declared.

    What addresses stand for is a parameter of [System] ([outside]): which task, lock or semaphore a pointer of a
    task names, where the linker put the two handlers and the array [pcb], and what lies in arrays and structures that C does not
    initialise.

    ** What is not modelled

    The contents of memory frames are part of the state in [IoProc] only; elsewhere the swap area is modelled by
    which page lies where. In the runs of [Isolation] and [Machine] no page is swapped; swapping is treated in
    [Memory] and [IoProc]. That the calls of the file system and of the network end without a fault for all arguments is
    not part of C1: for the file system C20 says that they return or reach an access outside of an array (a fault), and when they
    panic; a user buffer outside the memory of the task is a fault. Assembly is represented by its effect: the context switch, the TLB instructions,
    the entry to and the exit from an exception, [fetch_and_set] as one step. Of the kernel context of a task the stack pointer
    with which its next exception starts is kept ([kernel_sp], written by [exception_handler_exit]) and the frames of the calls that wait;
    how deep the compiled code makes the stack is not. The registers of the coprocessor
    that only start devices or the timer ([asm_start], [set_timer]) have no counterpart. The boot block, the test
    programs and the tools of the build are left out, as is the branch of the card driver for QEMU, which is
    firmware. *)

From stdpp Require Export base option list gmap numbers strings.
From Stdlib Require Export Lia ZArith Sorted.

#[global] Open Scope Z_scope.
#[global] Set Default Goal Selector "!".

(** ** Machine integers

    The kernel is built for 32-bit MIPS: [int] is signed 32-bit, [uint32_t] unsigned 32-bit.
    A value is a [Z]; [u32] and [s32] are the conversions the C types impose. *)

Definition u32 (z : Z) : Z := z mod 4294967296.

Definition s32 (z : Z) : Z := (z + 2147483648) mod 4294967296 - 2147483648.

(** A stored byte is a [Z] in [0, 256); reading it through [char], signed on this target. *)
Definition schar (b : Z) : Z := if b <? 128 then b else b - 256.

Definition is_u32 (z : Z) : Prop := 0 <= z < 4294967296.

Definition is_s32 (z : Z) : Prop := -2147483648 <= z < 2147483648.

Definition is_u8 (z : Z) : Prop := 0 <= z < 256.

(** C's truth value of a comparison. *)
Definition b2z (b : bool) : Z := if b then 1 else 0.

(** ** Arrays indexed by C integers

    [aget] and [aset] are array accesses: an index outside the array gives [None], the model's
    value for an access the C standard leaves undefined. *)

Definition aget {A} (l : list A) (i : Z) : option A :=
  if decide (0 <= i) then l !! Z.to_nat i else None.

Definition aset {A} (l : list A) (i : Z) (x : A) : option (list A) :=
  if decide (0 <= i < Z.of_nat (length l)) then Some (<[Z.to_nat i := x]> l) else None.

Declare Scope os_scope.
Delimit Scope os_scope with os.
Notation "l .[ i ]" := (aget l i) (at level 1, left associativity, format "l .[ i ]") : os_scope.
#[global] Open Scope os_scope.

(** ** Results of C code

    [Fault]: the C code dereferences [NULL] or leaves an array, which C does not define. [Panic]:
    [panic] was called, which prints and loops for ever. [OutOfFuel]: a loop bounded by fuel in the
    model did not finish. *)

Inductive result (A : Type) :=
  | Ok (x : A)
  | Fault
  | Panic (msg : string)
  | OutOfFuel.
Arguments Ok {A} x.
Arguments Fault {A}.
Arguments Panic {A} msg.
Arguments OutOfFuel {A}.

(** Reflexive transitive closure of a step relation, and reachability. *)
Inductive star {S} (R : S -> S -> Prop) : S -> S -> Prop :=
  | star_refl s : star R s s
  | star_step s t u : R s t -> star R t u -> star R s u.

(** ** Tactics and hint databases *)

Create HintDb os.
Create Rewrite HintDb osarr.

(** Case analysis on the boolean comparison in the goal or in a hypothesis. *)
Ltac case_cmp :=
  match goal with
  | |- context [Z.eqb ?a ?b] => destruct (Z.eqb_spec a b)
  | |- context [Z.ltb ?a ?b] => destruct (Z.ltb_spec a b)
  | |- context [Z.leb ?a ?b] => destruct (Z.leb_spec a b)
  | |- context [Z.gtb ?a ?b] => rewrite (Z.gtb_ltb a b); destruct (Z.ltb_spec b a)
  | |- context [Z.geb ?a ?b] => rewrite (Z.geb_leb a b); destruct (Z.leb_spec b a)
  | H : context [Z.eqb ?a ?b] |- _ => destruct (Z.eqb_spec a b)
  | H : context [Z.ltb ?a ?b] |- _ => destruct (Z.ltb_spec a b)
  | H : context [Z.leb ?a ?b] |- _ => destruct (Z.leb_spec a b)
  | H : context [Z.gtb ?a ?b] |- _ => rewrite (Z.gtb_ltb a b) in H; destruct (Z.ltb_spec b a)
  end.

(** Step through one bind of the option monad, naming the result's equation. *)
Ltac opt_step H :=
  apply bind_Some in H; let x := fresh "x" in let E := fresh "E" in destruct H as (x & E & H).

(** ** Lemmas *)

Lemma u32_range z : is_u32 (u32 z).
Proof. apply Z.mod_pos_bound. lia. Qed.

Lemma s32_range z : is_s32 (s32 z).
Proof. unfold is_s32, s32. pose proof (Z.mod_pos_bound (z + 2147483648) 4294967296). lia. Qed.

Lemma u32_id z : is_u32 z -> u32 z = z.
Proof. apply Z.mod_small. Qed.

Lemma s32_id z : is_s32 z -> s32 z = z.
Proof. unfold is_s32, s32. intros H. rewrite Z.mod_small; lia. Qed.

Lemma u32_u32 z : u32 (u32 z) = u32 z.
Proof. apply u32_id, u32_range. Qed.

Lemma s32_u32 z : s32 (u32 z) = s32 z.
Proof. unfold s32, u32. by rewrite Zplus_mod_idemp_l. Qed.

Lemma u32_s32 z : u32 (s32 z) = u32 z.
Proof. unfold u32, s32. rewrite Zminus_mod_idemp_l. f_equal. lia. Qed.

Lemma s32_s32 z : s32 (s32 z) = s32 z.
Proof. apply s32_id, s32_range. Qed.

Lemma schar_inj a b : is_u8 a -> is_u8 b -> schar a = schar b -> a = b.
Proof. unfold is_u8, schar. repeat case_cmp; lia. Qed.

Lemma schar_zero b : is_u8 b -> schar b = 0 <-> b = 0.
Proof. unfold is_u8, schar. repeat case_cmp; lia. Qed.

Section arrays.
Context {A : Type}.
Implicit Types (l : list A) (x y : A) (i j : Z).

Lemma aget_Some l i x : l.[i] = Some x -> 0 <= i < Z.of_nat (length l).
Proof.
  unfold aget. case_decide; [|done]. intros H1%lookup_lt_Some. lia.
Qed.

Lemma aget_is_Some l i : 0 <= i < Z.of_nat (length l) -> is_Some (l.[i]).
Proof. intros H. unfold aget. rewrite decide_True by lia. apply lookup_lt_is_Some. lia. Qed.

Lemma aget_None l i : Z.of_nat (length l) <= i -> l.[i] = None.
Proof. intros H. unfold aget. case_decide; [|done]. apply lookup_ge_None. lia. Qed.

Lemma aget_nat l (n : nat) : l.[Z.of_nat n] = l !! n.
Proof. unfold aget. rewrite decide_True by lia. by rewrite Nat2Z.id. Qed.

Lemma Forall_aget (P : A -> Prop) l i x : Forall P l -> l.[i] = Some x -> P x.
Proof. unfold aget. case_decide; [|done]. intros H1 H2. by eapply Forall_lookup_1 in H1. Qed.

Lemma aset_Some l i x : 0 <= i < Z.of_nat (length l) -> aset l i x = Some (<[Z.to_nat i := x]> l).
Proof. intros H. unfold aset. by rewrite decide_True. Qed.

Lemma aset_inv l i x l' :
  aset l i x = Some l' -> 0 <= i < Z.of_nat (length l) /\ l' = <[Z.to_nat i := x]> l.
Proof. unfold aset. case_decide; naive_solver. Qed.

Lemma aset_length l i x l' : aset l i x = Some l' -> length l' = length l.
Proof. intros (_ & ->)%aset_inv. apply length_insert. Qed.

Lemma aget_aset_eq l i x l' : aset l i x = Some l' -> l'.[i] = Some x.
Proof.
  intros (? & ->)%aset_inv. unfold aget. rewrite decide_True by lia.
  apply list_lookup_insert_eq. lia.
Qed.

Lemma aget_aset_ne l i j x l' : aset l i x = Some l' -> i <> j -> l'.[j] = l.[j].
Proof.
  intros (? & ->)%aset_inv Hne. unfold aget. case_decide; [|done].
  apply list_lookup_insert_ne. lia.
Qed.

Lemma aget_insert l (n : nat) x j :
  (n < length l)%nat ->
  (<[n := x]> l).[j] = if decide (j = Z.of_nat n) then Some x else l.[j].
Proof.
  intros Hn. unfold aget. case_decide.
  - destruct (decide (j = Z.of_nat n)) as [->|].
    + rewrite Nat2Z.id. by apply list_lookup_insert_eq.
    + apply list_lookup_insert_ne. lia.
  - rewrite decide_False by lia. done.
Qed.

End arrays.

Lemma star_one {S} (R : S -> S -> Prop) s t : R s t -> star R s t.
Proof. eauto using @star. Qed.

Lemma star_trans {S} (R : S -> S -> Prop) s t u : star R s t -> star R t u -> star R s u.
Proof. induction 1; eauto using @star. Qed.

(** An invariant of every step holds along every run. *)
Lemma star_invariant {S} (R : S -> S -> Prop) (I : S -> Prop) :
  (forall s t, R s t -> I s -> I t) -> forall s t, star R s t -> I s -> I t.
Proof. intros HI s t. induction 1; eauto. Qed.

Lemma StronglySorted_weaken {A} (R R' : A -> A -> Prop) l :
  (forall x y, R x y -> R' x y) -> StronglySorted R l -> StronglySorted R' l.
Proof. intros H. induction 1; constructor; eauto using Forall_impl. Qed.

#[export] Hint Resolve u32_range s32_range : os.
#[export] Hint Rewrite @length_insert : osarr.
