(* ===== verification/Slist.v ===== *)
(** Static linked lists, [libs/slist.c]: an array whose slots from 1 on are handed out and taken
    back in last-in-first-out order. Slot 0 is the head of the free chain. The kernel keeps its
    process ids, page tables, physical frames, swap slots and file descriptors in such arrays.

    The definitions follow the C functions; [None] is an access outside the array. The class
    [SlotPool] is what the pool promises to its clients, and [slist_pool] is the instance that
    discharges it. *)

From S2P Require Import Prelude.

(** ** The code *)

(** [node_t] *)
Record node := Node { valid : Z; cursor : Z }.

Definition set_valid (v : Z) (n : node) : node := Node v (cursor n).

Definition set_cursor (c : Z) (n : node) : node := Node (valid n) c.

(** [l[i].valid = v] and [l[i].cursor = c] *)
Definition put_valid (l : list node) (i v : Z) : option (list node) :=
  n ← l.[i]; aset l i (set_valid v n).

Definition put_cursor (l : list node) (i c : Z) : option (list node) :=
  n ← l.[i]; aset l i (set_cursor c n).

(** The loop of [slist_init]: [k] iterations left, from index [i]. *)
Fixpoint slist_init_loop (k : nat) (i : Z) (l : list node) : option (list node) :=
  match k with
  | O => Some l
  | S k =>
      l ← put_cursor l i (i + 1);
      l ← put_valid l i 0;
      slist_init_loop k (i + 1) l
  end.

Definition slist_init (l : list node) (length : Z) : option (list node) :=
  l ← slist_init_loop (Z.to_nat length) 0 l;
  l ← put_valid l 0 1;
  put_cursor l (Z.max 0 length - 1) 0.

Definition slist_is_insufficient (l : list node) : option bool :=
  n ← l.[0]; Some (cursor n =? 0).

Definition slist_is_valid (l : list node) (index length : Z) : option Z :=
  if (index <=? 0) || (length <=? index) then Some 0
  else n ← l.[index]; Some (valid n).

Definition slist_alloc (l : list node) : option (Z * list node) :=
  n0 ← l.[0];
  let t := cursor n0 in
  full ← slist_is_insufficient l;
  if (full : bool) then Some (0, l)
  else
    nt ← l.[t];
    l ← put_cursor l 0 (cursor nt);
    l ← put_valid l t 1;
    Some (t, l).

Definition slist_free (l : list node) (index length : Z) : option (Z * list node) :=
  n0 ← l.[0];
  let t := cursor n0 in
  v ← slist_is_valid l index length;
  if v =? 0 then Some (0, l)
  else
    l ← put_cursor l 0 index;
    l ← put_valid l index 0;
    l ← put_cursor l index t;
    Some (1, l).

(** ** The representation invariant

    [slist_rep l n free]: [l] is an array of [n] nodes whose free slots are exactly [free], chained
    in that order from slot 0. *)

Fixpoint chain (l : list node) (from : Z) (free : list Z) : Prop :=
  match free with
  | [] => exists nd, l.[from] = Some nd /\ cursor nd = 0
  | i :: rest => (exists nd, l.[from] = Some nd /\ cursor nd = i) /\ chain l i rest
  end.

Record slist_rep (l : list node) (n : Z) (free : list Z) : Prop := {
  rep_len : Z.of_nat (length l) = n;
  rep_pos : 1 <= n;
  rep_nodup : NoDup free;
  rep_range : forall i, i ∈ free -> 1 <= i < n;
  rep_valid : forall i nd, 1 <= i -> l.[i] = Some nd -> valid nd = b2z (bool_decide (i ∉ free));
  rep_chain : chain l 0 free
}.

(** ** The interface a slot pool offers *)

Class SlotPool (St : Type) := {
  pool_inv : St -> Prop;
  pool_free : St -> gset Z;
  pool_take : St -> option (Z * St);
  pool_give : St -> Z -> option (Z * St);
  pool_take_spec s : pool_inv s ->
    exists i s', pool_take s = Some (i, s') /\ pool_inv s' /\
      (if decide (pool_free s = ∅) then (i = 0 /\ s' = s)
       else (i <> 0 /\ i ∈ pool_free s /\ pool_free s' = (pool_free s ∖ {[i]})));
  pool_give_spec s i : pool_inv s ->
    exists r s', (pool_give s i = Some (r, s')) /\ pool_inv s' /\
      ((r = 0 /\ s' = s) \/ (r = 1 /\ (i ∉ pool_free s) /\ pool_free s' = ({[i]} ∪ pool_free s)))
}.

(** The slots below [n] that an array marks free. *)
Fixpoint range (a : Z) (k : nat) : list Z :=
  match k with O => [] | S k => a :: range (a + 1) k end.

Definition slot_is_free (l : list node) (i : Z) : Prop := fmap valid (l.[i]) = Some 0.

#[global] Instance slot_is_free_dec l i : Decision (slot_is_free l i).
Proof. unfold slot_is_free. apply _. Defined.

Definition free_slots (n : Z) (l : list node) : gset Z :=
  list_to_set (filter (slot_is_free l) (range 1 (Z.to_nat (n - 1)))).

(** ** The abstract specification: a stack of free slots

    Requests on a pool of [n] nodes, their effect on the C array ([run]) and on the stack of free
    slots ([abs_run]). *)

Inductive req := Alloc | Free (i : Z).

Definition serve (n : Z) (l : list node) (r : req) : option (Z * list node) :=
  match r with Alloc => slist_alloc l | Free i => slist_free l i n end.

Fixpoint run (n : Z) (l : list node) (rs : list req) : option (list Z * list node) :=
  match rs with
  | [] => Some ([], l)
  | r :: rs =>
      '(a, l) ← serve n l r;
      '(bs, l) ← run n l rs;
      Some (a :: bs, l)
  end.

Definition abs_serve (n : Z) (free : list Z) (r : req) : Z * list Z :=
  match r with
  | Alloc => match free with [] => (0, []) | i :: free => (i, free) end
  | Free i => if bool_decide (1 <= i < n /\ i ∉ free) then (1, i :: free) else (0, free)
  end.

Fixpoint abs_run (n : Z) (free : list Z) (rs : list req) : list Z * list Z :=
  match rs with
  | [] => ([], free)
  | r :: rs =>
      let '(a, free) := abs_serve n free r in
      let '(bs, free) := abs_run n free rs in
      (a :: bs, free)
  end.

#[global] Instance req_eq_dec : EqDecision req.
Proof. solve_decision. Defined.

(** ** Lemmas *)

Lemma put_valid_Some l i v nd :
  l.[i] = Some nd -> put_valid l i v = Some (<[Z.to_nat i := set_valid v nd]> l).
Proof.
  intros H. unfold put_valid. rewrite H. cbn. by apply aset_Some, (aget_Some _ _ nd).
Qed.

Lemma put_cursor_Some l i c nd :
  l.[i] = Some nd -> put_cursor l i c = Some (<[Z.to_nat i := set_cursor c nd]> l).
Proof.
  intros H. unfold put_cursor. rewrite H. cbn. by apply aset_Some, (aget_Some _ _ nd).
Qed.

(** Reading a slot after a write in range. *)
Lemma aget_upd (l : list node) i j nd x :
  l.[i] = Some nd -> (<[Z.to_nat i := x]> l).[j] = if decide (j = i) then Some x else l.[j].
Proof.
  intros H%aget_Some. rewrite aget_insert by lia. rewrite Z2Nat.id by lia. done.
Qed.

Lemma chain_ext l l' from free :
  (forall i, i = from \/ i ∈ free -> fmap cursor (l'.[i]) = fmap cursor (l.[i])) ->
  chain l from free -> chain l' from free.
Proof.
  revert from. induction free as [|i free IH]; intros from Hext; cbn.
  - intros (nd & H & Hc). pose proof (Hext from (or_introl eq_refl)) as E. rewrite H in E.
    destruct (l'.[from]) as [nd'|]; [|done]. exists nd'. cbn in E. split; [done|]. congruence.
  - intros [(nd & H & Hc) Hch]. split.
    + pose proof (Hext from (or_introl eq_refl)) as E. rewrite H in E.
      destruct (l'.[from]) as [nd'|]; [|done]. exists nd'. cbn in E. split; [done|]. congruence.
    + apply IH; [|done]. intros j Hj. apply Hext. set_solver.
Qed.

Lemma chain_head l from free : chain l from free -> exists nd, l.[from] = Some nd /\
  cursor nd = match free with [] => 0 | i :: _ => i end.
Proof. destruct free; cbn; [done|]. intros [H _]. exact H. Qed.

Lemma elem_of_range a k i : i ∈ range a k <-> a <= i < a + Z.of_nat k.
Proof.
  revert a. induction k as [|k IH]; intros a; cbn [range].
  - rewrite elem_of_nil. lia.
  - rewrite elem_of_cons, IH. lia.
Qed.

Lemma NoDup_range a k : NoDup (range a k).
Proof.
  revert a. induction k as [|k IH]; intros a; cbn; constructor; [|done].
  rewrite elem_of_range. lia.
Qed.

Lemma slist_init_loop_spec k i l :
  0 <= i -> i + Z.of_nat k = Z.of_nat (length l) ->
  exists l', slist_init_loop k i l = Some l' /\ length l' = length l /\
    forall j, l'.[j] = if decide (i <= j < i + Z.of_nat k) then Some (Node 0 (j + 1)) else l.[j].
Proof.
  revert i l. induction k as [|k IH]; intros i l Hi Hk.
  - exists l. split_and!; [done..|]. intros j. rewrite decide_False; [done|lia].
  - destruct (aget_is_Some l i) as [nd Hnd]; [lia|].
    set (l1 := <[Z.to_nat i := set_cursor (i + 1) nd]> l).
    assert (H1 : l1.[i] = Some (set_cursor (i + 1) nd)).
    { unfold l1. rewrite (aget_upd l i i nd) by done. by rewrite decide_True. }
    set (l2 := <[Z.to_nat i := set_valid 0 (set_cursor (i + 1) nd)]> l1).
    assert (Hlen : length l2 = length l) by (unfold l2, l1; by rewrite !length_insert).
    destruct (IH (i + 1) l2) as (l' & E & Hl & Hget); [lia|lia|].
    exists l'. split_and!; [| by rewrite Hl |].
    + cbn [slist_init_loop]. rewrite (put_cursor_Some l i _ nd) by done. cbn.
      fold l1. rewrite (put_valid_Some l1 i _ _ H1). cbn. done.
    + intros j. rewrite Hget. unfold l2.
      rewrite (aget_upd l1 i j _ _ H1). unfold l1. rewrite (aget_upd l i j nd) by done.
      repeat case_decide; try lia; try done.
      subst j. done.
Qed.

Lemma chain_range l a k :
  (forall j, a <= j < a + Z.of_nat k -> exists nd, l.[j] = Some nd /\ cursor nd = j + 1) ->
  (exists nd, l.[a + Z.of_nat k] = Some nd /\ cursor nd = 0) ->
  chain l a (range (a + 1) k).
Proof.
  revert a. induction k as [|k IH]; intros a Hs Hlast; cbn [range chain].
  - by rewrite Z.add_0_r in Hlast.
  - split; [apply Hs; lia|]. apply IH.
    + intros j Hj. apply Hs. lia.
    + by replace (a + 1 + Z.of_nat k) with (a + Z.of_nat (S k)) by lia.
Qed.

(** [slist_init] on an array of [n >= 1] nodes makes slots 1 to [n-1] free, in that order. *)
Lemma slist_init_rep (l : list node) (n : Z) :
  1 <= n -> Z.of_nat (length l) = n ->
  exists l', slist_init l n = Some l' /\ slist_rep l' n (range 1 (Z.to_nat (n - 1))).
Proof.
  intros Hn Hlen.
  destruct (slist_init_loop_spec (Z.to_nat n) 0 l) as (l1 & E1 & Hl1 & Hget1); [lia..|].
  rewrite Z2Nat.id in Hget1 by lia.
  assert (H0 : l1.[0] = Some (Node 0 1)) by (rewrite Hget1, decide_True by lia; done).
  set (l2 := <[Z.to_nat 0 := Node 1 1]> l1).
  assert (Hlast : exists nd, l2.[n - 1] = Some nd).
  { apply aget_is_Some. unfold l2. rewrite length_insert. lia. }
  destruct Hlast as [nd Hnd].
  set (l3 := <[Z.to_nat (n - 1) := set_cursor 0 nd]> l2).
  assert (Hget3 : forall j, 1 <= j -> l3.[j] =
    if decide (j = n - 1) then Some (Node 0 0) else if decide (j < n) then Some (Node 0 (j + 1)) else None).
  { intros j Hj. unfold l3. rewrite (aget_upd l2 _ j _ _ Hnd).
    unfold l2 in *. rewrite (aget_upd l1 0 j _ _ H0). rewrite (aget_upd l1 0 _ _ _ H0) in Hnd.
    rewrite Hget1 in *. repeat case_decide; simplify_eq/=; try lia; try done; apply aget_None; lia. }
  exists l3. split.
  { unfold slist_init. rewrite E1. cbn. rewrite (put_valid_Some l1 0 _ _ H0). cbn.
    rewrite Z.max_r by lia. by rewrite (put_cursor_Some _ _ _ _ Hnd). }
  split; [| done | apply NoDup_range | | |].
  - unfold l3, l2. rewrite !length_insert. lia.
  - intros i. rewrite elem_of_range. lia.
  - intros i nd' Hi. rewrite Hget3 by done. intros Hv.
    rewrite bool_decide_eq_false_2.
    { repeat case_decide; simplify_eq; done. }
    intros Hni. apply Hni. rewrite elem_of_range. repeat case_decide; simplify_eq; lia.
  - change 1 with (0 + 1). apply chain_range.
    + intros j Hj. destruct (decide (j = 0)) as [->|].
      * exists (Node 1 1). split; [|done]. unfold l3. rewrite (aget_upd l2 _ _ _ _ Hnd).
        rewrite decide_False by lia. unfold l2. rewrite (aget_upd l1 _ _ _ _ H0).
        by rewrite decide_True.
      * rewrite Hget3, decide_False, decide_True by lia. eauto.
    + rewrite Z2Nat.id, Z.add_0_l by lia. exists (set_cursor 0 nd).
      unfold l3. rewrite (aget_upd l2 _ _ _ _ Hnd), decide_True by done. done.
Qed.

Lemma slist_alloc_cons l n i free :
  slist_rep l n (i :: free) -> exists l', slist_alloc l = Some (i, l') /\ slist_rep l' n free.
Proof.
  intros [Hlen Hpos Hnd Hrange Hval ((n0 & H0 & Hc0) & Hch)].
  assert (Hi : 1 <= i < n) by (apply Hrange; set_solver).
  destruct (chain_head _ _ _ Hch) as (ni & Hni & Hci).
  assert (Hi0 : i <> 0) by lia.
  set (l1 := <[Z.to_nat 0 := set_cursor (cursor ni) n0]> l).
  assert (H1 : l1.[i] = Some ni) by (unfold l1; by rewrite (aget_upd l 0 i _ _ H0), decide_False).
  set (l2 := <[Z.to_nat i := set_valid 1 ni]> l1).
  exists l2. split.
  { unfold slist_alloc, slist_is_insufficient. rewrite H0. cbn. rewrite Hc0.
    rewrite (proj2 (Z.eqb_neq _ _) Hi0), Hni. cbn.
    rewrite (put_cursor_Some _ _ _ _ H0). cbn. by rewrite (put_valid_Some _ _ _ _ H1). }
  assert (Hget : forall j, l2.[j] = if decide (j = i) then Some (set_valid 1 ni)
    else if decide (j = 0) then Some (set_cursor (cursor ni) n0) else l.[j]).
  { intros j. unfold l2. rewrite (aget_upd l1 _ _ _ _ H1). unfold l1.
    by rewrite (aget_upd l _ _ _ _ H0). }
  apply NoDup_cons in Hnd as [Hnin Hnd]. split.
  - unfold l2, l1. by rewrite !length_insert.
  - done.
  - done.
  - intros j Hj. apply Hrange. set_solver.
  - intros j nd Hj. rewrite Hget. destruct (decide (j = i)) as [->|].
    + intros Hx. simplify_eq/=. by rewrite bool_decide_eq_true_2.
    + rewrite decide_False by lia. intros Hx. rewrite (Hval j nd) by done.
      f_equal. apply bool_decide_ext. set_solver.
  - destruct free as [|k free]; cbn in *.
    + eexists. rewrite Hget, decide_False, decide_True by lia. eauto.
    + destruct Hch as [(nd & Hk & Hck) Hch]. split.
      { eexists. rewrite Hget, decide_False, decide_True by lia. split; [done|]. cbn. congruence. }
      eapply chain_ext, Hch. intros j Hj. rewrite Hget. repeat case_decide; [subst; by rewrite Hni| |done].
      exfalso. enough (1 <= 0 < n) by lia. apply Hrange. set_solver.
Qed.

Lemma slist_alloc_nil l n : slist_rep l n [] -> slist_alloc l = Some (0, l).
Proof.
  intros [_ _ _ _ _ (n0 & H0 & Hc)]. unfold slist_alloc, slist_is_insufficient.
  rewrite H0. cbn. by rewrite Hc.
Qed.

Lemma slist_is_valid_rep l n free i :
  slist_rep l n free ->
  slist_is_valid l i n = Some (b2z (bool_decide (1 <= i < n /\ i ∉ free))).
Proof.
  intros [Hlen _ _ _ Hval _]. unfold slist_is_valid.
  destruct (Z.leb_spec i 0), (Z.leb_spec n i); cbn;
    [rewrite bool_decide_eq_false_2; [done|lia]..|].
  destruct (aget_is_Some l i) as [nd Hnd]; [lia|]. rewrite Hnd. cbn.
  rewrite (Hval i nd) by (done || lia). do 2 f_equal. apply bool_decide_ext. intuition lia.
Qed.

Lemma slist_free_refused l n free i :
  slist_rep l n free -> ~ (1 <= i < n /\ i ∉ free) -> slist_free l i n = Some (0, l).
Proof.
  intros Hrep Hi. unfold slist_free. destruct (chain_head _ _ _ (rep_chain _ _ _ Hrep)) as (n0 & H0 & _).
  rewrite H0. cbn. rewrite (slist_is_valid_rep l n free) by done.
  by rewrite bool_decide_eq_false_2.
Qed.

Lemma slist_free_ok l n free i :
  slist_rep l n free -> 1 <= i < n -> i ∉ free ->
  exists l', slist_free l i n = Some (1, l') /\ slist_rep l' n (i :: free).
Proof.
  intros Hrep Hi Hnin. pose proof Hrep as [Hlen Hpos Hnd Hrange Hval Hch].
  destruct (chain_head _ _ _ Hch) as (n0 & H0 & Hc0).
  destruct (aget_is_Some l i) as [ni Hni]; [lia|].
  set (l1 := <[Z.to_nat 0 := set_cursor i n0]> l).
  assert (H1 : l1.[i] = Some ni).
  { unfold l1. rewrite (aget_upd l 0 i _ _ H0), decide_False by lia. done. }
  set (l2 := <[Z.to_nat i := set_valid 0 ni]> l1).
  assert (H2 : l2.[i] = Some (set_valid 0 ni)).
  { unfold l2. by rewrite (aget_upd _ _ _ _ _ H1), decide_True. }
  set (l3 := <[Z.to_nat i := set_cursor (cursor n0) (set_valid 0 ni)]> l2).
  exists l3. split.
  { unfold slist_free. rewrite H0. cbn. rewrite (slist_is_valid_rep l n free) by done.
    rewrite bool_decide_eq_true_2 by done. cbn.
    rewrite (put_cursor_Some _ _ _ _ H0). cbn. rewrite (put_valid_Some _ _ _ _ H1). cbn.
    by rewrite (put_cursor_Some _ _ _ _ H2). }
  assert (Hget : forall j, l3.[j] = if decide (j = i) then Some (Node 0 (cursor n0))
    else if decide (j = 0) then Some (set_cursor i n0) else l.[j]).
  { intros j. unfold l3. rewrite (aget_upd l2 _ _ _ _ H2). unfold l2.
    rewrite (aget_upd l1 _ _ _ _ H1). unfold l1. rewrite (aget_upd l _ _ _ _ H0).
    by repeat case_decide. }
  split.
  - unfold l3, l2, l1. by rewrite !length_insert.
  - done.
  - by constructor.
  - intros j [->|Hj]%elem_of_cons; [lia|]. by apply Hrange.
  - intros j nd Hj. rewrite Hget. destruct (decide (j = i)) as [->|].
    + intros Hx. simplify_eq/=. rewrite bool_decide_eq_false_2; set_solver.
    + rewrite decide_False by lia. intros Hx. rewrite (Hval j nd) by done.
      f_equal. apply bool_decide_ext. set_solver.
  - cbn. split.
    { eexists. rewrite Hget, decide_False, decide_True by lia. eauto. }
    assert (Hnz : 0 ∉ free) by (intros ?%Hrange; lia).
    destruct free as [|k free]; cbn in *.
    { eexists. rewrite Hget, decide_True by done. eauto. }
    destruct Hch as [_ Hch]. split.
    { eexists. rewrite Hget, decide_True by done. eauto. }
    eapply chain_ext, Hch. intros j Hj. rewrite Hget.
    repeat case_decide; [exfalso; set_solver..|done].
Qed.

Lemma serve_spec l n free r :
  slist_rep l n free ->
  exists l', serve n l r = Some (fst (abs_serve n free r), l') /\
    slist_rep l' n (snd (abs_serve n free r)).
Proof.
  intros Hrep. destruct r as [|i]; cbn.
  - destruct free as [|i free]; cbn.
    + exists l. split; [by apply (slist_alloc_nil l n)|done].
    + by apply slist_alloc_cons.
  - case_bool_decide as Hi; cbn.
    + destruct Hi. by apply slist_free_ok.
    + exists l. split; [by apply (slist_free_refused l n free)|done].
Qed.

Lemma elem_of_free_slots l n free i : slist_rep l n free -> i ∈ free_slots n l <-> i ∈ free.
Proof.
  intros [Hlen Hpos _ Hrange Hval _]. unfold free_slots, slot_is_free.
  rewrite elem_of_list_to_set, list_elem_of_filter, elem_of_range.
  split.
  - intros [Hv Hi]. destruct (aget_is_Some l i) as [nd Hnd]; [lia|]. rewrite Hnd in Hv. simplify_eq/=.
    rewrite (Hval i nd) in Hv by (done || lia).
    destruct (decide (i ∈ free)); [done|]. by rewrite bool_decide_eq_true_2 in Hv.
  - intros Hi. pose proof (Hrange i Hi). split; [|lia].
    destruct (aget_is_Some l i) as [nd Hnd]; [lia|]. rewrite Hnd. cbn. f_equal.
    rewrite (Hval i nd), bool_decide_eq_false_2 by (done || lia || set_solver). done.
Qed.

(** The static list keeps the pool's promises. *)
#[global] Program Instance slist_pool (n : Z) : SlotPool (list node) := {|
  pool_inv l := exists free, slist_rep l n free;
  pool_free l := free_slots n l;
  pool_take l := slist_alloc l;
  pool_give l i := slist_free l i n
|}.
Next Obligation.
  intros n l [free Hrep]. destruct free as [|i free].
  - exists 0, l. rewrite (slist_alloc_nil l n) by done. split_and!; [done|eauto|].
    rewrite decide_True; [done|]. apply set_eq. intros j.
    rewrite (elem_of_free_slots l n []) by done. set_solver.
  - destruct (slist_alloc_cons l n i free Hrep) as (l' & E & Hrep').
    exists i, l'. rewrite E. split_and!; [done|eauto|].
    assert (Hi : i ∈ free_slots n l) by (rewrite elem_of_free_slots by done; set_solver).
    rewrite decide_False by set_solver. split_and!; [|done|].
    + pose proof (rep_range _ _ _ Hrep i). set_solver by lia.
    + pose proof (rep_nodup _ _ _ Hrep) as Hnd. apply NoDup_cons in Hnd as [Hnd _].
      apply set_eq. intros j. rewrite elem_of_difference, elem_of_singleton.
      rewrite !elem_of_free_slots by done. set_solver.
Qed.
Next Obligation.
  intros n l i [free Hrep]. destruct (decide (1 <= i < n /\ i ∉ free)) as [[Hi Hnin]|Hno].
  - destruct (slist_free_ok l n free i) as (l' & E & Hrep'); [done..|].
    exists 1, l'. split_and!; [done|eauto|]. right. split_and!; [done| |].
    + by rewrite elem_of_free_slots.
    + apply set_eq. intros j. rewrite elem_of_union, elem_of_singleton.
      rewrite !elem_of_free_slots by done. set_solver.
  - exists 0, l. rewrite (slist_free_refused l n free) by done. split_and!; [done|eauto|]. by left.
Qed.

Lemma run_spec n l free rs :
  slist_rep l n free ->
  exists l', run n l rs = Some (fst (abs_run n free rs), l') /\
    slist_rep l' n (snd (abs_run n free rs)).
Proof.
  revert l free. induction rs as [|r rs IH]; intros l free Hrep; [by exists l|].
  destruct (serve_spec l n free r Hrep) as (l1 & E1 & Hrep1).
  destruct (IH _ _ Hrep1) as (l2 & E2 & Hrep2).
  exists l2. cbn. rewrite E1. cbn. rewrite E2. cbn.
  destruct (abs_serve n free r) as [a free1]. cbn in *.
  by destruct (abs_run n free1 rs) as [bs free2].
Qed.

(** A slot that is taken and that no request gives back stays taken. *)
Lemma abs_run_taken n free rs i :
  i ∉ free -> Free i ∉ rs -> i ∉ snd (abs_run n free rs).
Proof.
  revert free. induction rs as [|r rs IH]; intros free Hi Hrs; [done|]. cbn.
  destruct (abs_serve n free r) as [a free1] eqn:E.
  specialize (IH free1). destruct (abs_run n free1 rs) as [bs free2]. cbn in *.
  apply IH; [|set_solver]. destruct r as [|j]; cbn in E.
  - destruct free; simplify_eq; set_solver.
  - case_bool_decide; simplify_eq; set_solver.
Qed.

(** ** Theorems *)

(** C30. The static list refines a stack of free slots: initialised over an array of [n >= 1] nodes,
    it answers every sequence of allocations and releases as the stack [1, 2, .., n-1] does, never
    reads or writes outside the array, and its state keeps representing that stack. *)
Theorem slist_refines_stack (n : Z) (l : list node) (rs : list req) :
  1 <= n -> Z.of_nat (length l) = n ->
  exists l0 l', slist_init l n = Some l0 /\
    run n l0 rs = Some (fst (abs_run n (range 1 (Z.to_nat (n - 1))) rs), l') /\
    slist_rep l' n (snd (abs_run n (range 1 (Z.to_nat (n - 1))) rs)).
Proof.
  intros Hn Hl. destruct (slist_init_rep l n Hn Hl) as (l0 & E0 & Hrep).
  destruct (run_spec n l0 _ rs Hrep) as (l' & E' & Hrep'). eauto.
Qed.

Lemma slist_refines_stack_witness :
  exists l0 l', slist_init (replicate 4 (Node 7 7)) 4 = Some l0 /\
    run 4 l0 [Alloc; Alloc; Free 1; Alloc; Alloc; Alloc; Free 9]
      = Some ([1; 2; 1; 1; 3; 0; 0], l') /\ slist_rep l' 4 [].
Proof. apply (slist_refines_stack 4 (replicate 4 (Node 7 7))); [lia|reflexivity]. Defined.

(** No double allocation: between two allocations that hand out the same slot there is a
    request that gives that slot back. *)
Theorem slist_no_double_alloc (n i : Z) (l l1 l2 l3 : list node) (free a2 : list Z) (rs : list req) :
  slist_rep l n free ->
  slist_alloc l = Some (i, l1) -> i <> 0 ->
  run n l1 rs = Some (a2, l2) ->
  slist_alloc l2 = Some (i, l3) -> Free i ∈ rs.
Proof.
  intros Hrep E1 Hi E2 E3. destruct free as [|j free].
  { rewrite (slist_alloc_nil l n Hrep) in E1. congruence. }
  destruct (slist_alloc_cons l n j free Hrep) as (l1' & E1' & Hrep1).
  rewrite E1 in E1'. injection E1' as -> ->.
  destruct (run_spec n l1' free rs Hrep1) as (l2' & E2' & Hrep2).
  rewrite E2 in E2'. injection E2' as -> ->.
  destruct (decide (Free j ∈ rs)) as [|Hno]; [done|exfalso].
  pose proof (rep_nodup _ _ _ Hrep) as [Hj _]%NoDup_cons.
  pose proof (abs_run_taken n free rs j Hj Hno) as Hnot.
  destruct (snd (abs_run n free rs)) as [|k free'].
  { rewrite (slist_alloc_nil _ _ Hrep2) in E3. congruence. }
  destruct (slist_alloc_cons _ _ _ _ Hrep2) as (l3' & E3' & _). set_solver.
Qed.
