(* ===== verification/CString.v ===== *)
(** Strings and memory, [libs/string.c] and [memcopy] of [arch/mips/pmon/common.c].

    A [char *] or [uint8_t *] argument is the list of the bytes from the pointed-to one to the end of
    its array; a byte is a [Z] in [0, 256). [None] is an access beyond the array. [memcopy], whose
    two areas may overlap, works on one array and two indices. *)

From S2P Require Import Prelude.

(** ** The code *)

Fixpoint strlen (s : list Z) : option Z :=
  match s with
  | [] => None
  | c :: s => if c =? 0 then Some 0 else n ← strlen s; Some (n + 1)
  end.

Fixpoint strcmp (s t : list Z) : option Z :=
  match s, t with
  | c :: s, d :: t => if (schar c =? schar d) && negb (schar c =? 0) then strcmp s t else Some (schar c - schar d)
  | _, _ => None
  end.

(** The new contents of the array [dest] points into. *)
Fixpoint strcpy (dest src : list Z) : option (list Z) :=
  match src, dest with
  | c :: src, _ :: dest => if c =? 0 then Some (0 :: dest) else r ← strcpy dest src; Some (c :: r)
  | _, _ => None
  end.

Fixpoint memset (dest : list Z) (val : Z) (len : nat) : option (list Z) :=
  match len, dest with
  | O, _ => Some dest
  | S len, _ :: dest => r ← memset dest val len; Some (val :: r)
  | S _, [] => None
  end.

(** The loop of [separate], from index [i]. *)
Fixpoint separate_loop (s : list Z) (separator i : Z) : option Z :=
  match s with
  | [] => None
  | c :: s =>
      if negb (schar c =? 0) && negb (schar c =? schar separator) then separate_loop s separator (i + 1)
      else Some (if schar c =? 0 then -1 else i)
  end.

Definition separate (s : list Z) (separator : Z) : option Z := separate_loop s separator 0.

(** [*--t = *--f], [n] times, and [*t++ = *f++]. *)
Fixpoint copy_down (n : nat) (m : list Z) (t f : Z) : option (list Z) :=
  match n with
  | O => Some m
  | S n => c ← m.[f - 1]; m ← aset m (t - 1) c; copy_down n m (t - 1) (f - 1)
  end.

Fixpoint copy_up (n : nat) (m : list Z) (t f : Z) : option (list Z) :=
  match n with
  | O => Some m
  | S n => c ← m.[f]; m ← aset m t c; copy_up n m (t + 1) (f + 1)
  end.

Definition memcopy (m : list Z) (s1 s2 n : Z) : option (list Z) :=
  if s2 <? s1 then copy_down (Z.to_nat n) m (s1 + n) (s2 + n) else copy_up (Z.to_nat n) m s1 s2.

(** ** Specifications *)

(** The string in an array: the bytes before the first 0. *)
Fixpoint cstr (s : list Z) : option (list Z) :=
  match s with
  | [] => None
  | c :: s => if c =? 0 then Some [] else r ← cstr s; Some (c :: r)
  end.

(** [n] bytes of [l] from index [i]; the bytes [w] written over [l] from index [i]. *)
Definition slice (l : list Z) (i n : Z) : option (list Z) :=
  if decide (0 <= i /\ 0 <= n /\ i + n <= Z.of_nat (length l)) then Some (take (Z.to_nat n) (drop (Z.to_nat i) l)) else None.

Definition splice (l : list Z) (i : Z) (w : list Z) : option (list Z) :=
  if decide (0 <= i /\ i + Z.of_nat (length w) <= Z.of_nat (length l))
  then Some (take (Z.to_nat i) l ++ w ++ drop (Z.to_nat i + length w) l) else None.

Definition bytes_ok (s : list Z) : Prop := Forall is_u8 s.

(** ** Lemmas *)

Lemma strlen_cstr s : strlen s = (fun r => Z.of_nat (length r)) <$> cstr s.
Proof.
  induction s as [|c s IH]; cbn; [done|]. destruct (c =? 0); [done|]. rewrite IH. destruct (cstr s); cbn; [|done].
  f_equal. lia.
Qed.

Lemma cstr_app s r : cstr s = Some r -> exists t, s = r ++ 0 :: t.
Proof.
  revert r. induction s as [|c s IH]; intros r; cbn; [done|]. destruct (Z.eqb_spec c 0) as [->|].
  - intros [= <-]. by exists s.
  - intros (r' & E & [= <-])%bind_Some. destruct (IH _ E) as [t ->]. by exists t.
Qed.

Lemma cstr_no_zero s r : cstr s = Some r -> 0 ∉ r.
Proof.
  revert r. induction s as [|c s IH]; intros r; cbn; [done|]. destruct (Z.eqb_spec c 0) as [->|Hc].
  - intros [= <-]. set_solver.
  - intros (r' & E & [= <-])%bind_Some. specialize (IH _ E). set_solver.
Qed.

Lemma cstr_of r t : 0 ∉ r -> cstr (r ++ 0 :: t) = Some r.
Proof.
  induction r as [|c r IH]; intros Hr; cbn; [done|]. destruct (Z.eqb_spec c 0) as [->|]; [set_solver|].
  rewrite IH by set_solver. done.
Qed.

Lemma strcmp_spec s t x y : bytes_ok s -> bytes_ok t -> cstr s = Some x -> cstr t = Some y ->
  exists v, strcmp s t = Some v /\ (v = 0 <-> x = y).
Proof.
  revert t x y. induction s as [|c s IH]; intros t x y Hs Ht; cbn [strcmp cstr]; [done|]. destruct t as [|d t]; [done|].
  apply Forall_cons in Hs as [Hc Hs]. apply Forall_cons in Ht as [Hd Ht]. cbn [cstr].
  pose proof (schar_zero c Hc) as Hc0. pose proof (schar_zero d Hd) as Hd0. pose proof (schar_inj c d Hc Hd) as Hi.
  destruct (Z.eqb_spec (schar c) (schar d)) as [E|E], (Z.eqb_spec (schar c) 0) as [E0|E0]; cbn [andb negb].
  - assert (d = 0) as -> by (apply Hd0; congruence). assert (c = 0) as -> by by apply Hc0. cbn [Z.eqb].
    intros [= <-] [= <-]. eexists. split; [reflexivity|]. split; [done|lia].
  - apply Hi in E as <-. destruct (Z.eqb_spec c 0); [tauto|].
    intros (x' & Ex & [= <-])%bind_Some (y' & Ey & [= <-])%bind_Some.
    destruct (IH t x' y' Hs Ht Ex Ey) as (v & Ev & Hv). exists v. split; [done|]. rewrite Hv. split; congruence.
  - assert (c = 0) as -> by by apply Hc0. cbn [Z.eqb]. destruct (Z.eqb_spec d 0) as [->|]; [done|].
    intros [= <-] (y' & _ & [= <-])%bind_Some. eexists. split; [reflexivity|]. split; [lia|done].
  - destruct (Z.eqb_spec c 0); [tauto|]. intros (x' & _ & [= <-])%bind_Some Hy. eexists. split; [reflexivity|].
    split; [lia|]. intros <-. destruct (Z.eqb_spec d 0); [done|]. by apply bind_Some in Hy as (y' & _ & [= -> _]).
Qed.

Lemma strcpy_spec dest src x : cstr src = Some x -> (length x < length dest)%nat ->
  strcpy dest src = Some (x ++ 0 :: drop (S (length x)) dest).
Proof.
  revert dest x. induction src as [|c src IH]; intros dest x; cbn; [done|]. destruct dest as [|d dest].
  { intros _ H. cbn in H. lia. }
  cbn [strcpy]. destruct (Z.eqb_spec c 0) as [->|]; [by intros [= <-] _|].
  intros (x' & E & [= <-])%bind_Some Hl. cbn in Hl. by rewrite (IH dest x') by (done || lia).
Qed.

(** Without room, [strcpy] leaves the array. *)
Lemma strcpy_overflow dest src x : cstr src = Some x -> (length dest <= length x)%nat -> strcpy dest src = None.
Proof.
  revert dest x. induction src as [|c src IH]; intros dest x; cbn; [done|]. destruct dest as [|d dest]; [done|].
  cbn [strcpy]. destruct (Z.eqb_spec c 0) as [->|].
  - intros [= <-]. cbn. lia.
  - intros (x' & E & [= <-])%bind_Some Hl. cbn in Hl. by rewrite (IH dest x') by (done || lia).
Qed.

Lemma separate_loop_spec s c i x : bytes_ok s -> is_u8 c -> c <> 0 -> cstr s = Some x ->
  separate_loop s c i = Some (match list_find (fun b => b = c) x with Some (k, _) => i + Z.of_nat k | None => -1 end).
Proof.
  intros Hs Hc Hc0. revert i x. induction s as [|b s IH]; intros i x; cbn [separate_loop cstr]; [done|].
  apply Forall_cons in Hs as [Hb Hs]. pose proof (schar_zero b Hb) as Hb0. pose proof (schar_inj b c Hb Hc) as Hi.
  destruct (Z.eqb_spec b 0) as [->|Hn].
  - intros [= <-]. done.
  - intros (x' & E & [= <-])%bind_Some. destruct (Z.eqb_spec (schar b) 0); [tauto|]. cbn [negb andb list_find].
    destruct (Z.eqb_spec (schar b) (schar c)) as [Ec|Ec]; cbn [negb].
    + rewrite decide_True by auto. f_equal. lia.
    + rewrite decide_False by congruence. rewrite (IH Hs (i + 1) x' E). f_equal.
      destruct (list_find _ x') as [[k ?]|]; cbn; lia.
Qed.

(** *** [memcopy] *)

Lemma slice_Some l i n r : slice l i n = Some r ->
  0 <= i /\ 0 <= n /\ i + n <= Z.of_nat (length l) /\ r = take (Z.to_nat n) (drop (Z.to_nat i) l).
Proof. unfold slice. case_decide; [|done]. intros [= <-]. tauto. Qed.

Lemma slice_length l i n r : slice l i n = Some r -> Z.of_nat (length r) = n.
Proof. intros (? & ? & ? & ->)%slice_Some. rewrite length_take, length_drop. lia. Qed.

(** Element-wise reading of a splice. *)
Lemma splice_lookup l i w l' j : splice l i w = Some l' ->
  l'.[j] = if decide (i <= j < i + Z.of_nat (length w)) then w.[j - i] else l.[j].
Proof.
  unfold splice. case_decide as H; [|done]. intros [= <-]. unfold aget.
  destruct (decide (0 <= j)); [|by rewrite decide_False by lia].
  destruct (decide (i <= j < i + Z.of_nat (length w))).
  - rewrite (decide_True (P := 0 <= j - i)) by lia. rewrite lookup_app_r by (rewrite length_take; lia).
    rewrite lookup_app_l by (rewrite length_take; lia). f_equal. rewrite length_take. lia.
  - destruct (decide (j < i)).
    + rewrite lookup_app_l by (rewrite length_take; lia). apply lookup_take_lt. lia.
    + rewrite lookup_app_r by (rewrite length_take; lia). rewrite lookup_app_r by (rewrite length_take; lia).
      rewrite lookup_drop, length_take. f_equal. lia.
Qed.

Lemma slice_lookup l i n r j : slice l i n = Some r -> r.[j] = if decide (0 <= j < n) then l.[i + j] else None.
Proof.
  intros (? & ? & ? & ->)%slice_Some. unfold aget. destruct (decide (0 <= j)); [|by rewrite decide_False by lia].
  case_decide.
  - rewrite decide_True by lia. rewrite lookup_take_lt, lookup_drop by lia. f_equal. lia.
  - apply lookup_take_ge. lia.
Qed.

Lemma list_eq_aget (l l' : list Z) : length l = length l' ->
  (forall j, 0 <= j < Z.of_nat (length l) -> l.[j] = l'.[j]) -> l = l'.
Proof.
  intros Hl H. apply list_eq. intros j. destruct (decide (j < length l)%nat).
  - rewrite <- !aget_nat. apply H. lia.
  - by rewrite !lookup_ge_None_2 by lia.
Qed.

Lemma splice_length l i w l' : splice l i w = Some l' -> length l' = length l.
Proof.
  unfold splice. case_decide; [|done]. intros [= <-]. rewrite !length_app, length_take, length_drop. lia.
Qed.

Lemma copy_up_spec n : forall m t f,
  0 <= t -> 0 <= f -> t + Z.of_nat n <= Z.of_nat (length m) -> f + Z.of_nat n <= Z.of_nat (length m) -> t <= f ->
  exists m', copy_up n m t f = Some m' /\ length m' = length m /\
    forall j, m'.[j] = if decide (t <= j < t + Z.of_nat n) then m.[f + (j - t)] else m.[j].
Proof.
  induction n as [|n IH]; intros m t f Ht Hf Htn Hfn Htf; cbn [copy_up].
  - exists m. split_and!; [done..|]. intros j. by rewrite decide_False by lia.
  - destruct (aget_is_Some m f) as [c Hc]; [lia|]. rewrite Hc. cbn. pose proof (aset_Some m t c ltac:(lia)) as Ea.
    rewrite Ea. cbn. set (m1 := <[Z.to_nat t := c]> m) in *.
    assert (H1 : forall j, m1.[j] = if decide (j = t) then Some c else m.[j]).
    { intros j. unfold m1. rewrite aget_insert by lia. by rewrite Z2Nat.id by lia. }
    destruct (IH m1 (t + 1) (f + 1)) as (m' & E & Hl & Hm'); [lia|lia|unfold m1; rewrite length_insert; lia..|lia|].
    exists m'. split_and!; [done|by rewrite Hl; unfold m1; rewrite length_insert|]. intros j. rewrite Hm', !H1.
    repeat case_decide; try lia; try done; try congruence; subst; try (rewrite <- Hc); f_equal; lia.
Qed.

Lemma copy_down_spec n : forall m t f,
  0 <= t -> 0 <= f -> t + Z.of_nat n <= Z.of_nat (length m) -> f + Z.of_nat n <= Z.of_nat (length m) -> f < t ->
  exists m', copy_down n m (t + Z.of_nat n) (f + Z.of_nat n) = Some m' /\ length m' = length m /\
    forall j, m'.[j] = if decide (t <= j < t + Z.of_nat n) then m.[f + (j - t)] else m.[j].
Proof.
  induction n as [|n IH]; intros m t f Ht Hf Htn Hfn Htf; cbn [copy_down].
  - exists m. split_and!; [done..|]. intros j. by rewrite decide_False by lia.
  - replace (t + Z.of_nat (S n) - 1) with (t + Z.of_nat n) by lia.
    replace (f + Z.of_nat (S n) - 1) with (f + Z.of_nat n) by lia.
    destruct (aget_is_Some m (f + Z.of_nat n)) as [c Hc]; [lia|]. rewrite Hc. cbn.
    pose proof (aset_Some m (t + Z.of_nat n) c ltac:(lia)) as Ea. rewrite Ea. cbn. set (m1 := <[_ := c]> m) in *.
    assert (H1 : forall j, m1.[j] = if decide (j = t + Z.of_nat n) then Some c else m.[j]).
    { intros j. unfold m1. rewrite aget_insert by lia. by rewrite Z2Nat.id by lia. }
    destruct (IH m1 t f) as (m' & E & Hl & Hm'); [lia|lia|unfold m1; rewrite length_insert; lia..|lia|].
    exists m'. split_and!; [done|by rewrite Hl; unfold m1; rewrite length_insert|]. intros j. rewrite Hm', !H1.
    repeat case_decide; try lia; try done; try congruence; subst; try (rewrite <- Hc); f_equal; lia.
Qed.

Lemma memmove_spec (m w : list Z) (s1 s2 n : Z) :
  slice m s2 n = Some w -> 0 <= s1 -> s1 + n <= Z.of_nat (length m) ->
  exists m', memcopy m s1 s2 n = Some m' /\ splice m s1 w = Some m'.
Proof.
  intros Hw H1 H1n. pose proof (slice_Some _ _ _ _ Hw) as (H2 & Hn & H2n & _). pose proof (slice_length _ _ _ _ Hw) as Hl.
  assert (Hm : exists m', memcopy m s1 s2 n = Some m' /\ length m' = length m /\
    forall j, m'.[j] = if decide (s1 <= j < s1 + n) then m.[s2 + (j - s1)] else m.[j]).
  { destruct (Z_of_nat_complete n Hn) as [k ->]. unfold memcopy. rewrite Nat2Z.id.
    case_cmp; [apply copy_down_spec; lia|apply copy_up_spec; lia]. }
  destruct Hm as (m' & E & Hlm & Hg). exists m'. split; [done|].
  assert (Hs : is_Some (splice m s1 w)) by (unfold splice; rewrite decide_True by lia; eauto).
  destruct Hs as [m2 Hs]. rewrite Hs. f_equal. symmetry. apply list_eq_aget; [by rewrite Hlm, (splice_length _ _ _ _ Hs)|].
  intros j Hj. rewrite Hg, (splice_lookup _ _ _ _ j Hs), Hl. case_decide; [|done].
  rewrite (slice_lookup _ _ _ _ (j - s1) Hw), decide_True by lia. done.
Qed.

(** ** Theorems *)

(** C39. [memcopy] is memmove: whether or not the areas overlap, in either order, the [n] bytes at
    [s1] become those that were at [s2] and every other byte stays. *)
Theorem memcopy_is_memmove (m w : list Z) (s1 s2 n : Z) :
  slice m s2 n = Some w -> 0 <= s1 -> s1 + n <= Z.of_nat (length m) ->
  exists m', memcopy m s1 s2 n = Some m' /\ splice m s1 w = Some m'.
Proof. apply memmove_spec. Qed.

Lemma memcopy_is_memmove_witness : exists m', memcopy [1; 2; 3; 4; 5; 6] 2 1 3 = Some m' /\
  splice [1; 2; 3; 4; 5; 6] 2 [2; 3; 4] = Some m'.
Proof. apply (memcopy_is_memmove [1; 2; 3; 4; 5; 6] [2; 3; 4] 2 1 3); [reflexivity|lia|cbn; lia]. Defined.

(** C37. [strcpy] copies the string and its 0 when the destination has room for both, leaving the
    rest of it as it was, and [strcmp] then finds them equal; otherwise it writes past the end. *)
Theorem strcpy_copies_or_overflows (dest src x : list Z) :
  bytes_ok dest -> bytes_ok src -> cstr src = Some x ->
  if decide (length x < length dest)%nat then
    exists d', strcpy dest src = Some d' /\ length d' = length dest /\ cstr d' = Some x /\
      strcmp d' src = Some 0 /\ drop (S (length x)) d' = drop (S (length x)) dest
  else strcpy dest src = None.
Proof.
  intros Hd Hs Hx. case_decide as Hl; [|by eapply strcpy_overflow; [exact Hx|lia]].
  set (d' := x ++ 0 :: drop (S (length x)) dest).
  assert (Hc : cstr d' = Some x) by (apply cstr_of; by eapply cstr_no_zero).
  assert (Hb : bytes_ok d').
  { destruct (cstr_app _ _ Hx) as [t ->]. apply Forall_app in Hs as [Hs _].
    apply Forall_app. split; [done|]. apply Forall_cons. split; [by unfold is_u8|by apply Forall_drop]. }
  exists d'. split; [by apply strcpy_spec|]. split_and!; [|done| |].
  - unfold d'. rewrite length_app. cbn. rewrite length_drop. lia.
  - destruct (strcmp_spec d' src x x Hb Hs Hc Hx) as (v & -> & Hv). f_equal. by apply Hv.
  - unfold d'. rewrite drop_app_ge by lia. replace (S (length x) - length x)%nat with 1%nat by lia. done.
Qed.

Lemma strcpy_copies_or_overflows_witness :
  exists d', strcpy [9; 9; 9; 9; 9] [97; 98; 0] = Some d' /\ length d' = 5%nat /\ cstr d' = Some [97; 98] /\
    strcmp d' [97; 98; 0] = Some 0 /\ drop 3 d' = [9; 9].
Proof.
  apply (strcpy_copies_or_overflows [9; 9; 9; 9; 9] [97; 98; 0] [97; 98]);
    [repeat constructor; lia|repeat constructor; lia|reflexivity].
Defined.
