(* ===== verification/Printk.v ===== *)
(** Formatted text, [libs/printk.c], and the number reader [atoi] of [kernel/software/shell.c].

    An array of characters is a [list Z] of bytes; a pointer into it is an index. The variable
    arguments of a call are a list, of which [va_arg] takes the head; asking for a type the caller did
    not pass is a fault. *)

From S2P Require Import Prelude CString.

#[local] Instance result_ret : MRet result := fun A x => Ok x.

#[local] Instance result_bind : MBind result := fun A B f m =>
  match m with Ok x => f x | Fault => Fault | Panic msg => Panic msg | OutOfFuel => OutOfFuel end.

(** ** The code *)

Inductive parg := Int (z : Z) | Str (s : list Z).

(** The characters of a literal *)
Definition str (s : string) : list Z := (fun c => Z.of_N (Ascii.N_of_ascii c)) <$> String.list_ascii_of_string s.

(** A literal, with its 0, as a format *)
Definition lit (s : string) : list Z := str s ++ [0].

Definition rd (l : list Z) (i : Z) : result Z := match l.[i] with Some c => Ok c | None => Fault end.

(** A [char] variable or array element takes the value of an [int] modulo 256. *)
Definition put (l : list Z) (i ch : Z) : result (list Z) :=
  match aset l i (ch mod 256) with Some l => Ok l | None => Fault end.

(** [mini_strlen]; the length of an array in memory fits an [unsigned int]. *)
Definition mini_strlen (s : list Z) : result Z := match strlen s with Some n => Ok n | None => Fault end.

(** The [do] loop of [mini_itoa], which writes the digits from the last one: [p] is [pbuffer]. Every
    pass divides [value], an [int] read as unsigned, by [radix]. *)
Fixpoint itoa_loop (fuel : nat) (value radix : Z) (uppercase : bool) (buffer : list Z) (p : Z) : result (list Z * Z) :=
  match fuel with
  | O => OutOfFuel
  | S fuel =>
      if radix =? 0 then Fault else
      let digit := s32 (u32 value mod radix) in
      buffer ← put buffer p (if digit <? 10 then 48 + digit else (if uppercase then 65 else 97) + digit - 10);
      let value := s32 (u32 value / radix) in
      if value >? 0 then itoa_loop fuel value radix uppercase buffer (p + 1) else Ok (buffer, p + 1)
  end.

(** [n] times [*(pbuffer++) = '0'] *)
Fixpoint fill_zeros (n : nat) (buffer : list Z) (p : Z) : result (list Z * Z) :=
  match n with
  | O => Ok (buffer, p)
  | S n => buffer ← put buffer p 48; fill_zeros n buffer (p + 1)
  end.

(** The last loop of [mini_itoa], from index [i] for [n] passes *)
Fixpoint reverse_loop (n : nat) (i len : Z) (buffer : list Z) : result (list Z) :=
  match n with
  | O => Ok buffer
  | S n =>
      j ← rd buffer i;
      k ← rd buffer (len - i - 1);
      buffer ← put buffer i k;
      buffer ← put buffer (len - i - 1) j;
      reverse_loop n (i + 1) len buffer
  end.

Definition mini_itoa (value radix : Z) (uppercase unsig : bool) (buffer : list Z) (zero_pad : Z) : result (list Z * Z) :=
  if radix >? 16 then Ok (buffer, 0)
  else
    let negative := (value <? 0) && negb unsig in
    let value := if negative then s32 (- value) else value in
    '(buffer, p) ← itoa_loop 33 value radix uppercase buffer 0;
    '(buffer, p) ← fill_zeros (Z.to_nat (zero_pad - p)) buffer p;
    '(buffer, p) ← (if negative then buffer ← put buffer p 45; Ok (buffer, p + 1) else Ok (buffer, p));
    buffer ← put buffer p 0;
    buffer ← reverse_loop (Z.to_nat (p / 2)) 0 p buffer;
    Ok (buffer, p).

Record mini_buff := MiniBuff { buffer : list Z; pbuffer : Z; buffer_len : Z }.

(** [*(b->pbuffer++) = ch] and [*(b->pbuffer) = 0] *)
Definition push_ch (ch : Z) (b : mini_buff) : result mini_buff :=
  l ← put (buffer b) (pbuffer b) ch;
  Ok (MiniBuff l (pbuffer b + 1) (buffer_len b)).

Definition end_string (b : mini_buff) : result mini_buff :=
  l ← put (buffer b) (pbuffer b) 0;
  Ok (MiniBuff l (pbuffer b) (buffer_len b)).

Definition _putc (ch : Z) (b : mini_buff) : result mini_buff :=
  if u32 (pbuffer b + 1) >=? buffer_len b then Ok b else b ← push_ch ch b; end_string b.

Fixpoint puts_loop (n : nat) (s : list Z) (i : Z) (b : mini_buff) : result mini_buff :=
  match n with
  | O => Ok b
  | S n => c ← rd s i; b ← push_ch c b; puts_loop n s (i + 1) b
  end.

Definition _puts (s : list Z) (len : Z) (b : mini_buff) : result mini_buff :=
  let room := u32 (buffer_len b - pbuffer b - 1) in
  let len := if room <? len then room else len in
  b ← puts_loop (Z.to_nat len) s 0 b;
  end_string b.

(** The array [bf] of 24 characters, on the stack of [mini_vsnprintf], is not initialised: its contents
    [bf] are arbitrary, and a conversion leaves its digits there for the next. *)
Definition va_int (va : list parg) : result (Z * list parg) :=
  match va with Int z :: va => Ok (z, va) | _ => Fault end.

Definition va_str (va : list parg) : result (list Z * list parg) :=
  match va with Str s :: va => Ok (s, va) | _ => Fault end.

Definition put_int (radix : Z) (uppercase unsig : bool) (zero_pad : Z) (va : list parg) (bf : list Z) (b : mini_buff) :
    result (option (list parg * list Z * mini_buff)) :=
  '(z, va) ← va_int va;
  '(bf, len) ← mini_itoa (s32 z) radix uppercase unsig bf zero_pad;
  b ← _puts bf len b;
  Ok (Some (va, bf, b)).

(** The [switch] on the character of a directive; [None] is its [goto end]. *)
Definition convert (ch zero_pad : Z) (va : list parg) (bf : list Z) (b : mini_buff) : result (option (list parg * list Z * mini_buff)) :=
  if ch =? 0 then Ok None
  else if (ch =? 117) || (ch =? 100) then put_int 10 false (ch =? 117) zero_pad va bf b
  else if (ch =? 120) || (ch =? 88) then put_int 16 (ch =? 88) true zero_pad va bf b
  else if ch =? 99 then '(z, va) ← va_int va; b ← _putc (z mod 256) b; Ok (Some (va, bf, b))
  else if ch =? 115 then '(s, va) ← va_str va; n ← mini_strlen s; b ← _puts s n b; Ok (Some (va, bf, b))
  else b ← _putc ch b; Ok (Some (va, bf, b)).

Definition is_digit (c : Z) : bool := (48 <=? c) && (c <=? 57).

(** The [while] loop of [mini_vsnprintf] *)
Fixpoint vsnprintf_loop (fmt : list Z) (va : list parg) (bf : list Z) (b : mini_buff) : result mini_buff :=
  match fmt with
  | [] => Fault
  | ch :: fmt =>
      if ch =? 0 then Ok b
      else if u32 (pbuffer b + 1) >=? buffer_len b then Ok b
      else if negb (ch =? 37) then b ← _putc ch b; vsnprintf_loop fmt va bf b
      else
        match fmt with
        | [] => Fault
        | ch :: fmt =>
            if ch =? 48 then
              match fmt with
              | [] => Fault
              | ch :: fmt =>
                  if ch =? 0 then Ok b
                  else
                    let zero_pad := if is_digit ch then ch - 48 else 0 in
                    match fmt with
                    | [] => Fault
                    | ch :: fmt =>
                        r ← convert ch zero_pad va bf b;
                        match r with None => Ok b | Some (va, bf, b) => vsnprintf_loop fmt va bf b end
                    end
              end
            else
              r ← convert ch 0 va bf b;
              match r with None => Ok b | Some (va, bf, b) => vsnprintf_loop fmt va bf b end
        end
  end.

(** The array [buffer] behind the call and the number of characters written *)
Definition mini_vsnprintf (bf l : list Z) (len : Z) (fmt : list Z) (va : list parg) : result (list Z * Z) :=
  b ← vsnprintf_loop fmt va bf (MiniBuff l 0 len);
  Ok (buffer b, pbuffer b).

(** What [printk], [printks] and [printf] pass on to [port_write], [screen_write] and [sys_write]: the
    array [buff] of 256 characters, initially [l], with [buff[ret] = 0] *)
Definition print_buff (bf l fmt : list Z) (va : list parg) : result (list Z) :=
  '(l, ret) ← mini_vsnprintf bf l 256 fmt va;
  put l ret 0.

(** [atoi], from [res]; the arithmetic is that of 32 bits. *)
Fixpoint atoi_loop (s : list Z) (res : Z) : option Z :=
  match s with
  | [] => None
  | c :: s => if c =? 0 then Some res else if is_digit c then atoi_loop s (s32 (res * 10 + c - 48)) else Some (-1)
  end.

Definition atoi (s : list Z) : option Z := atoi_loop s 0.

(** ** Specification *)

(** The digits of [v], the last one first *)
Fixpoint digits_le (fuel : nat) (radix v : Z) : list Z :=
  match fuel with
  | O => []
  | S fuel => v mod radix :: (if v / radix >? 0 then digits_le fuel radix (v / radix) else [])
  end.

Definition digit_char (uppercase : bool) (d : Z) : Z := if d <? 10 then 48 + d else (if uppercase then 55 else 87) + d.

(** A number in [radix], filled up with zeros to [zero_pad] characters behind its sign *)
Definition number (value radix : Z) (uppercase unsig : bool) (zero_pad : Z) : list Z :=
  let negative := (value <? 0) && negb unsig in
  let ds := digits_le 33 radix (if negative then - value else u32 value) in
  (if negative then [45] else []) ++ replicate (Z.to_nat zero_pad - length ds) 48 ++ reverse (digit_char uppercase <$> ds).

(** What the argument list gives for one directive *)
Definition directive (ch zero_pad : Z) (va : list parg) : option (list Z * list parg) :=
  if (ch =? 117) || (ch =? 100) then
    match va with Int z :: va => Some (number (s32 z) 10 false (ch =? 117) zero_pad, va) | _ => None end
  else if (ch =? 120) || (ch =? 88) then
    match va with Int z :: va => Some (number (s32 z) 16 (ch =? 88) true zero_pad, va) | _ => None end
  else if ch =? 99 then match va with Int z :: va => Some ([z mod 256], va) | _ => None end
  else if ch =? 115 then match va with Str s :: va => s ← cstr s; Some (s, va) | _ => None end
  else Some ([ch], va).

(** The text a format and its arguments stand for, whatever room there is; [None]: the arguments do not
    fit the format *)
Fixpoint formatted (fmt : list Z) (va : list parg) : option (list Z) :=
  match fmt with
  | [] => None
  | ch :: fmt =>
      if ch =? 0 then Some []
      else if negb (ch =? 37) then r ← formatted fmt va; Some (ch :: r)
      else
        match fmt with
        | [] => None
        | ch :: fmt =>
            if ch =? 0 then Some []
            else if ch =? 48 then
              match fmt with
              | [] => None
              | ch :: fmt =>
                  if ch =? 0 then Some []
                  else
                    let zero_pad := if is_digit ch then ch - 48 else 0 in
                    match fmt with
                    | [] => None
                    | ch :: fmt =>
                        if ch =? 0 then Some []
                        else '(x, va) ← directive ch zero_pad va; r ← formatted fmt va; Some (x ++ r)
                    end
              end
            else '(x, va) ← directive ch 0 va; r ← formatted fmt va; Some (x ++ r)
        end
  end.

(** ** Lemmas *)

Section numbers.
Implicit Types (l bf pre junk : list Z).

Lemma put_app pre x junk c : is_u8 c -> put (pre ++ x :: junk) (Z.of_nat (length pre)) c = Ok (pre ++ c :: junk).
Proof.
  intros Hc. unfold put. rewrite aset_Some by (rewrite length_app; cbn; lia). rewrite Nat2Z.id, insert_app_r_alt by lia. rewrite Nat.sub_diag.
  cbn. by rewrite Z.mod_small by done.
Qed.

Lemma digits_le_S fuel radix v :
  digits_le (S fuel) radix v = v mod radix :: (if v / radix >? 0 then digits_le fuel radix (v / radix) else []).
Proof. done. Qed.

Lemma digits_le_range fuel radix v : 0 < radix -> Forall (fun d => 0 <= d < radix) (digits_le fuel radix v).
Proof.
  intros Hr. revert v. induction fuel as [|fuel IH]; intros v; [constructor|]. rewrite digits_le_S. constructor.
  - apply Z.mod_pos_bound. lia.
  - case_match; [apply IH|constructor].
Qed.

Lemma digits_le_length fuel radix v k : 1 < radix -> 0 <= v < radix ^ Z.of_nat k -> (1 <= k)%nat -> (length (digits_le fuel radix v) <= k)%nat.
Proof.
  intros Hr. revert v k. induction fuel as [|fuel IH]; intros v k Hv Hk; [cbn; lia|]. rewrite digits_le_S. cbn [length].
  destruct (Z.gtb_spec (v / radix) 0) as [H|H]; [|cbn; lia]. destruct k as [|[|k]]; [lia| |].
  - rewrite Z.div_small in H by lia. lia.
  - cut (length (digits_le fuel radix (v / radix)) <= S k)%nat; [lia|]. apply IH; [|lia]. split; [lia|].
    apply Z.div_lt_upper_bound; [lia|]. rewrite <- Z.pow_succ_r by lia. rewrite <- Nat2Z.inj_succ. apply Hv.
Qed.

(** The digits are those of the number. *)
Lemma digits_le_value fuel radix v : 1 < radix -> 0 <= v < radix ^ Z.of_nat fuel ->
  foldr (fun d acc => d + radix * acc) 0 (digits_le fuel radix v) = v.
Proof.
  intros Hr. revert v. induction fuel as [|fuel IH]; intros v Hv; [cbn in *; lia|]. rewrite digits_le_S. cbn [foldr].
  pose proof (Z.div_mod v radix ltac:(lia)) as E. destruct (Z.gtb_spec (v / radix) 0) as [H|H].
  - rewrite IH; [lia|]. split; [lia|]. apply Z.div_lt_upper_bound; [lia|]. rewrite <- Z.pow_succ_r by lia. rewrite <- Nat2Z.inj_succ. apply Hv.
  - pose proof (Z.div_pos v radix ltac:(lia) ltac:(lia)). cbn. lia.
Qed.

Lemma digit_char_u8 u d : 0 <= d < 16 -> is_u8 (digit_char u d).
Proof. unfold digit_char, is_u8. destruct u; case_cmp; lia. Qed.

Lemma itoa_loop_spec fuel : forall value radix u pre junk,
  2 <= radix <= 16 -> (fuel = O -> False) -> 0 <= u32 value < radix ^ Z.of_nat fuel -> (length (digits_le fuel radix (u32 value)) <= length junk)%nat ->
  itoa_loop fuel value radix u (pre ++ junk) (Z.of_nat (length pre)) =
    let ds := digits_le fuel radix (u32 value) in
    Ok ((pre ++ (digit_char u <$> ds)) ++ drop (length ds) junk, Z.of_nat (length pre + length ds)).
Proof.
  induction fuel as [|fuel IH]; intros value radix u pre junk Hr H0 Hv Hl; [tauto|]. clear H0. rewrite digits_le_S in *.
  cbn [itoa_loop]. cbv zeta. destruct (Z.eqb_spec radix 0); [lia|]. pose proof (u32_range value) as Hu. unfold is_u32 in Hu.
  pose proof (Z.mod_pos_bound (u32 value) radix ltac:(lia)) as Hm. rewrite (s32_id (u32 value mod radix)) by (unfold is_s32; lia).
  assert (Hq : 0 <= u32 value / radix <= 2147483647).
  { split; [apply Z.div_pos; lia|]. apply Z.lt_succ_r, Z.div_lt_upper_bound; lia. }
  rewrite (s32_id (u32 value / radix)) by (unfold is_s32; lia).
  set (d := u32 value mod radix) in *. set (q := u32 value / radix) in *. destruct junk as [|x junk]; [cbn in Hl; lia|].
  assert (Ed : (if d <? 10 then 48 + d else (if u then 65 else 97) + d - 10) = digit_char u d).
  { unfold digit_char. destruct u; case_cmp; lia. }
  rewrite Ed, put_app by (apply digit_char_u8; lia). cbn [mbind result_bind].
  replace (pre ++ digit_char u d :: junk) with ((pre ++ [digit_char u d]) ++ junk) by by rewrite <- app_assoc.
  destruct (Z.gtb_spec q 0) as [H|H].
  - assert (Eq : u32 q = q) by (apply u32_id; unfold is_u32; lia). cbn [length] in Hl.
    assert (Hqf : q < radix ^ Z.of_nat fuel).
    { apply Z.div_lt_upper_bound; [lia|]. rewrite <- Z.pow_succ_r by lia. rewrite <- Nat2Z.inj_succ. apply Hv. }
    replace (Z.of_nat (length pre) + 1) with (Z.of_nat (length (pre ++ [digit_char u d]))) by (rewrite length_app; cbn; lia).
    rewrite IH; rewrite ?Eq; try lia.
    + cbv zeta. cbn [fmap list_fmap length drop]. do 2 f_equal; [by rewrite <- !app_assoc|rewrite length_app; cbn; lia].
    + intros ->. cbn in Hqf. lia.
  - cbn. do 2 f_equal. lia.
Qed.

Lemma fill_zeros_spec n : forall pre junk, (n <= length junk)%nat ->
  fill_zeros n (pre ++ junk) (Z.of_nat (length pre)) = Ok ((pre ++ replicate n 48) ++ drop n junk, Z.of_nat (length pre + n)).
Proof.
  induction n as [|n IH]; intros pre junk Hn.
  - cbn. rewrite app_nil_r. do 2 f_equal. lia.
  - destruct junk as [|x junk]; [cbn in Hn; lia|]. cbn [fill_zeros]. rewrite put_app by (unfold is_u8; lia). cbn [mbind result_bind].
    replace (pre ++ 48 :: junk) with ((pre ++ [48]) ++ junk) by by rewrite <- app_assoc.
    replace (Z.of_nat (length pre) + 1) with (Z.of_nat (length (pre ++ [48]))) by (rewrite length_app; cbn; lia).
    rewrite IH by (cbn in Hn; lia). cbn [replicate drop]. do 2 f_equal; [by rewrite <- !app_assoc|rewrite length_app; cbn; lia].
Qed.

Lemma reverse_loop_spec n : forall i len l, bytes_ok l -> 0 <= i -> i + Z.of_nat n <= len / 2 -> len <= Z.of_nat (length l) ->
  exists l', reverse_loop n i len l = Ok l' /\ length l' = length l /\
    forall j, l'.[j] = if decide (i <= j < i + Z.of_nat n \/ len - i - Z.of_nat n <= j < len - i) then l.[len - 1 - j] else l.[j].
Proof.
  induction n as [|n IH]; intros i len l Hb Hi Hn Hl; cbn [reverse_loop].
  { exists l. split_and!; [done..|]. intros j. by rewrite decide_False by lia. }
  assert (Hh : 2 * (len / 2) <= len) by (apply Z.mul_div_le; lia).
  destruct (aget_is_Some l i) as [a Ha]; [lia|]. destruct (aget_is_Some l (len - i - 1)) as [b Hb']; [lia|].
  assert (Hau : is_u8 a) by (by eapply Forall_aget in Ha). assert (Hbu : is_u8 b) by (by eapply Forall_aget in Hb').
  unfold rd. rewrite Ha, Hb'. cbn [mbind result_bind]. unfold put. rewrite !Z.mod_small by done.
  rewrite aset_Some by lia. cbn [mbind result_bind]. rewrite aset_Some by (rewrite length_insert; lia). cbn [mbind result_bind].
  set (l1 := <[_ := a]> (<[_ := b]> l)).
  assert (H1 : forall j, l1.[j] = if decide (j = len - i - 1) then Some a else if decide (j = i) then Some b else l.[j]).
  { intros j. unfold l1. rewrite aget_insert by (rewrite length_insert; lia). rewrite Z2Nat.id by lia. case_decide; [done|].
    rewrite aget_insert by lia. by rewrite Z2Nat.id by lia. }
  destruct (IH (i + 1) len l1) as (l' & E & Hll & Hg); [|lia|lia|unfold l1; rewrite !length_insert; lia|].
  { unfold l1. by repeat apply Forall_insert. }
  exists l'. split_and!; [done|by rewrite Hll; unfold l1; rewrite !length_insert|]. intros j. rewrite Hg, !H1.
  repeat case_decide; try lia; try done; subst; rewrite <- ?Ha, <- ?Hb'; f_equal; lia.
Qed.

Lemma put_sign (neg : bool) pre junk : let sg := if neg then [45] else [] in (length sg < length junk)%nat ->
  (if neg then b ← put (pre ++ junk) (Z.of_nat (length pre)) 45; Ok (b, Z.of_nat (length pre) + 1)
   else Ok (pre ++ junk, Z.of_nat (length pre))) =
  Ok ((pre ++ sg) ++ drop (length sg) junk, Z.of_nat (length (pre ++ sg))).
Proof.
  cbv zeta. destruct neg; intros Hl; [|cbn; by rewrite app_nil_r]. destruct junk as [|x junk]; [cbn in Hl; lia|].
  rewrite put_app by (unfold is_u8; lia). cbn. do 2 f_equal; [by rewrite <- app_assoc|rewrite length_app; cbn; lia].
Qed.

(** Reversing in place *)
Lemma reverse_loop_reverse (s : list Z) (x : Z) (t : list Z) : bytes_ok (s ++ x :: t) ->
  reverse_loop (Z.to_nat (Z.of_nat (length s) / 2)) 0 (Z.of_nat (length s)) (s ++ x :: t) = Ok (reverse s ++ x :: t).
Proof.
  intros Hb. set (len := Z.of_nat (length s)).
  assert (Hh : 0 <= len / 2) by (apply Z.div_pos; lia).
  assert (Hh2 : len = 2 * (len / 2) + len mod 2) by (apply Z.div_mod; lia).
  pose proof (Z.mod_pos_bound len 2 ltac:(lia)) as Hm.
  destruct (reverse_loop_spec (Z.to_nat (len / 2)) 0 len (s ++ x :: t)) as (l' & -> & Hl & Hg); [done|lia|lia|rewrite length_app; lia|].
  f_equal. apply list_eq_aget; [by rewrite Hl, !length_app, length_reverse|]. rewrite Hl, length_app. intros j Hj. rewrite Hg.
  unfold aget. rewrite !(decide_True (P := 0 <= j)) by lia. destruct (decide (j < len)).
  - rewrite (lookup_app_l (reverse s)) by (rewrite length_reverse; lia). rewrite reverse_lookup by lia.
    case_decide.
    + rewrite decide_True, lookup_app_l by lia. f_equal. lia.
    + rewrite lookup_app_l by lia. f_equal. lia.
  - rewrite decide_False by lia. rewrite !lookup_app_r by (rewrite ?length_reverse; lia). by rewrite length_reverse.
Qed.

Lemma number_bytes value radix u unsig pad : 2 <= radix <= 16 -> bytes_ok (number value radix u unsig pad).
Proof.
  intros Hr. unfold number. cbv zeta. unfold bytes_ok. rewrite !Forall_app, Forall_reverse, Forall_fmap. split_and!.
  - case_match; repeat constructor; lia.
  - apply Forall_replicate. unfold is_u8. lia.
  - eapply Forall_impl; [apply digits_le_range; lia|]. intros d Hd. apply digit_char_u8. cbn in Hd. lia.
Qed.

Lemma number_length value radix u unsig pad : 10 <= radix -> is_s32 value -> 0 <= pad <= 9 -> (length (number value radix u unsig pad) < 12)%nat.
Proof.
  intros Hr Hv Hp. unfold number. cbv zeta. rewrite !length_app, length_replicate, length_reverse, length_fmap.
  set (v := if (value <? 0) && negb unsig then - value else u32 value). assert (Hv' : is_u32 v).
  { subst v. unfold is_u32, is_s32 in *. destruct (value <? 0) eqn:E, unsig; cbn [andb negb]; try apply u32_range. lia. }
  assert (length (digits_le 33 radix v) <= 10)%nat.
  { apply digits_le_length; [lia| |lia]. unfold is_u32 in Hv'. split; [lia|].
    pose proof (Z.pow_le_mono_l 10 radix (Z.of_nat 10) ltac:(lia)). lia. }
  destruct ((value <? 0) && negb unsig); cbn [length]; lia.
Qed.

Lemma mini_itoa_spec value radix u unsig bf pad : 2 <= radix <= 16 -> is_s32 value ->
  bytes_ok bf -> (length (number value radix u unsig pad) < length bf)%nat ->
  let s := number value radix u unsig pad in
  mini_itoa value radix u unsig bf pad = Ok (s ++ 0 :: drop (S (length s)) bf, Z.of_nat (length s)).
Proof.
  intros Hr Hv Hb Hl s. unfold mini_itoa. destruct (Z.gtb_spec radix 16); [lia|]. cbv zeta.
  subst s. unfold number in *. cbv zeta in *. set (neg := (value <? 0) && negb unsig) in *.
  set (w := if neg then s32 (- value) else value). set (m := if neg then - value else u32 value) in *.
  assert (Ew : u32 w = m).
  { subst w m. destruct neg eqn:En; [|done]. subst neg. apply andb_prop in En as [En _]. apply Z.ltb_lt in En.
    unfold is_s32 in Hv. rewrite u32_s32. apply u32_id. unfold is_u32. lia. }
  assert (Hm : 0 <= m < radix ^ Z.of_nat 33).
  { rewrite <- Ew. pose proof (u32_range w) as Hu. unfold is_u32 in Hu.
    pose proof (Z.pow_le_mono_l 2 radix (Z.of_nat 33) ltac:(lia)). lia. }
  set (ds := digits_le 33 radix m) in *. rewrite !length_app, length_replicate, length_reverse, length_fmap in *.
  pose proof (itoa_loop_spec 33 w radix u [] bf) as Ei. cbv zeta in Ei. rewrite Ew in Ei. fold ds in Ei. cbn [app length] in Ei.
  change (Z.of_nat 0) with 0 in Ei. rewrite Ei by (done || lia). clear Ei. cbn [mbind result_bind]. set (cs := digit_char u <$> ds).
  assert (Ec : (0 + length ds)%nat = length cs) by (subst cs; by rewrite length_fmap). rewrite Ec.
  replace (Z.to_nat (pad - Z.of_nat (length cs))) with (Z.to_nat pad - length cs)%nat by lia.
  replace (length ds) with (length cs) in * by (subst cs; by rewrite length_fmap).
  set (k := (Z.to_nat pad - length cs)%nat) in *.
  rewrite fill_zeros_spec by (rewrite length_drop; lia). cbn [mbind result_bind].
  set (body := cs ++ replicate k 48). set (sg := if neg then [45] else []) in *.
  set (J := drop k (drop (length cs) bf)) in *.
  assert (HJ : (length sg < length J)%nat) by (subst J; rewrite !length_drop; lia).
  replace (length cs + k)%nat with (length body) by (subst body; by rewrite length_app, length_replicate).
  subst sg. rewrite put_sign by done. set (sg := if neg then [45] else []) in *.
  cbn [mbind result_bind]. destruct (drop (length sg) J) as [|x t] eqn:EJ.
  { apply (f_equal length) in EJ. rewrite length_drop in EJ. cbn in EJ. lia. }
  subst J. rewrite !drop_drop in EJ.
  rewrite put_app by (unfold is_u8; lia). cbn [mbind result_bind]. rewrite reverse_loop_reverse.
  - cbn [mbind result_bind]. subst body. rewrite !reverse_app, reverse_replicate.
    replace (reverse sg) with sg by (subst sg; by destruct neg). rewrite !length_app, length_replicate.
    assert (Et : t = drop (S (length sg + (k + length cs))) bf).
    { replace t with (drop 1 (x :: t)) by done. rewrite <- EJ, drop_drop. f_equal. lia. }
    rewrite Et. do 2 f_equal. lia.
  - unfold bytes_ok. rewrite Forall_app. split.
    + subst body sg cs. rewrite !Forall_app, Forall_fmap. split_and!; [|apply Forall_replicate; unfold is_u8; lia|destruct neg; repeat constructor; lia].
      eapply Forall_impl; [apply digits_le_range; lia|]. intros d Hd. apply digit_char_u8. cbn in Hd. lia.
    + constructor; [unfold is_u8; lia|]. replace t with (drop 1 (x :: t)) by done. rewrite <- EJ. by repeat apply Forall_drop.
Qed.
End numbers.

(** *** Reading a number back *)

Lemma atoi_digits ds : forall rest acc, Forall (fun d => 0 <= d < 10) ds -> 0 <= acc ->
  let v := acc * 10 ^ Z.of_nat (length ds) + foldr (fun d a => d + 10 * a) 0 ds in
  v < 2147483648 -> atoi_loop ((digit_char false <$> reverse ds) ++ rest) acc = atoi_loop rest v.
Proof.
  induction ds as [|d ds IH]; intros rest acc Hd Ha; cbv zeta.
  { cbn. intros _. f_equal. lia. }
  apply Forall_cons in Hd as [Hd Hds]. rewrite reverse_cons, fmap_app, <- app_assoc. cbn [length foldr].
  rewrite Nat2Z.inj_succ, Z.pow_succ_r by lia. set (k := 10 ^ Z.of_nat (length ds)). set (m := foldr _ 0 ds).
  assert (Hm : 0 <= m) by (subst m; clear -Hds; induction Hds; cbn; lia).
  assert (Hk : 0 < k) by (apply Z.pow_pos_nonneg; lia). intros Hv.
  assert (Hak : 0 <= acc * k) by (apply Z.mul_nonneg_nonneg; lia).
  rewrite IH by (done || (cbv zeta; fold k m; lia)). cbv zeta. fold k m. cbn [list_fmap fmap app atoi_loop].
  unfold digit_char. destruct (Z.ltb_spec d 10); [|lia]. destruct (Z.eqb_spec (48 + d) 0); [lia|].
  unfold is_digit. rewrite (proj2 (Z.leb_le 48 (48 + d))), (proj2 (Z.leb_le (48 + d) 57)) by lia. cbn [andb].
  f_equal. rewrite s32_id; [lia|unfold is_s32; lia].
Qed.

(** [atoi] reads what ["%d"] prints for a number that is not negative. *)
Lemma atoi_number v pad t : 0 <= v < 2147483648 -> 0 <= pad <= 9 -> atoi (number v 10 false false pad ++ 0 :: t) = Some v.
Proof.
  intros Hv Hp. unfold number. destruct (Z.ltb_spec v 0); [lia|]. cbn [andb app]. cbv zeta. rewrite u32_id by (unfold is_u32; lia).
  set (ds := digits_le 33 10 v). rewrite <- app_assoc. unfold atoi.
  pose proof (digits_le_value 33 10 v ltac:(lia) ltac:(lia)) as Ev. fold ds in Ev.
  assert (Hz : forall n s, atoi_loop (replicate n 48 ++ s) 0 = atoi_loop s 0) by (induction n as [|n IH]; intros s; [done|apply IH]).
  rewrite Hz, <- fmap_reverse, atoi_digits; [|apply digits_le_range; lia|lia|].
  - cbn [atoi_loop Z.eqb]. f_equal. lia.
  - lia.
Qed.

(** ** Writing into the buffer

    [holds w b]: [w] has been written, with its 0, into an array that was [l]; [open w b]: the 0 is not
    there yet. *)
Section writing.
Context (l : list Z) (len : Z) (Hlen : 1 <= len <= Z.of_nat (length l)) (H32 : is_u32 len).

Definition open (w : list Z) (b : mini_buff) : Prop :=
  exists x, b = MiniBuff (w ++ x :: drop (S (length w)) l) (Z.of_nat (length w)) len.

Definition holds (w : list Z) (b : mini_buff) : Prop :=
  Z.of_nat (length w) < len /\ exists x, b = MiniBuff (w ++ x :: drop (S (length w)) l) (Z.of_nat (length w)) len /\ (w <> [] -> x = 0).

(** The characters that still fit *)
Definition room (w : list Z) : nat := Z.to_nat (len - 1 - Z.of_nat (length w)).

(** [m] appends [x], or as much of it as fits. *)
Definition appends (m : mini_buff -> result mini_buff) (x : list Z) : Prop :=
  forall w b, holds w b -> exists b', m b = Ok b' /\ holds (w ++ take (room w) x) b'.

Lemma holds_start : holds [] (MiniBuff l 0 len).
Proof.
  split; [cbn; lia|]. destruct l as [|x t]; [cbn in Hlen; lia|]. exists x. by split.
Qed.

Lemma holds_end w b : holds w b -> put (buffer b) (pbuffer b) 0 = Ok (w ++ 0 :: drop (S (length w)) l).
Proof. intros (_ & x & -> & _). cbn. apply put_app. by unfold is_u8. Qed.

Lemma push_ch_open c w b : is_u8 c -> Z.of_nat (length w) + 1 < len -> open w b -> exists b', push_ch c b = Ok b' /\ open (w ++ [c]) b'.
Proof.
  intros Hc Hw (x & ->). unfold push_ch. cbn [buffer pbuffer buffer_len]. rewrite put_app by done. cbn [mbind result_bind].
  eexists. split; [done|]. destruct (drop (S (length w)) l) as [|y t] eqn:E.
  { apply (f_equal length) in E. rewrite length_drop in E. cbn in E. lia. }
  exists y. rewrite length_app, <- app_assoc. cbn. replace (length w + 1)%nat with (S (length w)) by lia. f_equal; [|lia].
  do 3 f_equal. replace t with (drop 1 (y :: t)) by done. rewrite <- E, drop_drop. f_equal. lia.
Qed.

Lemma end_string_holds w b : Z.of_nat (length w) < len -> open w b -> exists b', end_string b = Ok b' /\ holds w b'.
Proof.
  intros Hw (x & ->). unfold end_string. cbn [buffer pbuffer buffer_len]. rewrite put_app by (unfold is_u8; lia). cbn.
  eexists. split; [done|]. split; [done|]. by exists 0.
Qed.

Lemma holds_open w b : holds w b -> open w b.
Proof. intros (_ & x & -> & _). by exists x. Qed.

Lemma holds_p w b : holds w b -> pbuffer b = Z.of_nat (length w) /\ buffer_len b = len /\ Z.of_nat (length w) < len.
Proof. by intros (? & x & -> & _). Qed.

Lemma full_u32 w : Z.of_nat (length w) < len -> (u32 (Z.of_nat (length w) + 1) >=? len) = true <-> room w = O.
Proof. intros Hw. rewrite u32_id by (unfold is_u32 in *; lia). unfold room. rewrite Z.geb_le. lia. Qed.

Lemma _putc_appends c : is_u8 c -> appends (_putc c) [c].
Proof.
  intros Hc w b H. unfold _putc. destruct (holds_p w b H) as (-> & -> & Hw). case_match eqn:E.
  - apply full_u32 in E as ->; [|done]. exists b. cbn. by rewrite app_nil_r.
  - assert (Hr : room w <> O) by (intros Hr; apply full_u32 in Hr; [congruence|done]).
    assert (Hw1 : Z.of_nat (length w) + 1 < len) by (unfold room in Hr; lia).
    destruct (push_ch_open c w b Hc Hw1 (holds_open _ _ H)) as (b1 & -> & H1). cbn [mbind result_bind].
    destruct (end_string_holds (w ++ [c]) b1) as (b2 & -> & H2); [rewrite length_app; cbn; lia|done|].
    exists b2. split; [done|]. rewrite take_ge by (cbn; lia). done.
Qed.

Lemma puts_loop_open n : forall s i w b, bytes_ok s -> (i + n <= length s)%nat -> Z.of_nat (length w) + Z.of_nat n < len -> open w b ->
  exists b', puts_loop n s (Z.of_nat i) b = Ok b' /\ open (w ++ take n (drop i s)) b'.
Proof.
  induction n as [|n IH]; intros s i w b Hs Hi Hw H; cbn [puts_loop].
  { exists b. cbn. by rewrite app_nil_r. }
  destruct (lookup_lt_is_Some_2 s i) as [c Hc]; [lia|]. unfold rd. rewrite aget_nat, Hc. cbn [mbind result_bind].
  destruct (push_ch_open c w b) as (b1 & -> & H1); [|lia|done|].
  { by eapply Forall_lookup_1 in Hc. }
  cbn [mbind result_bind]. replace (Z.of_nat i + 1) with (Z.of_nat (S i)) by lia.
  destruct (IH s (S i) (w ++ [c]) b1) as (b' & E & H'); [done|lia|rewrite length_app; cbn; lia|done|].
  exists b'. split; [done|]. rewrite (drop_S s c i Hc). cbn [take]. by rewrite <- app_assoc in H'.
Qed.

Lemma _puts_appends s n : bytes_ok s -> 0 <= n <= Z.of_nat (length s) -> appends (_puts s n) (take (Z.to_nat n) s).
Proof.
  intros Hs Hn w b H. unfold _puts. destruct (holds_p w b H) as (-> & -> & Hw).
  rewrite u32_id by (unfold is_u32 in *; lia). cbv zeta.
  set (k := if _ <? _ then _ else _). assert (Hk : Z.to_nat k = Nat.min (room w) (Z.to_nat n) /\ Z.of_nat (length w) + k < len /\ 0 <= k <= n).
  { subst k. unfold room. case_cmp; lia. }
  destruct Hk as (Ek & Hk & Hk2). change 0 with (Z.of_nat 0).
  destruct (puts_loop_open (Z.to_nat k) s 0 w b) as (b1 & -> & H1); [done|lia|lia|by apply holds_open|]. cbn [mbind result_bind].
  rewrite drop_0, Ek in H1. rewrite take_take.
  apply end_string_holds; [|done]. rewrite length_app, length_take. lia.
Qed.

Definition parg_ok (a : parg) : Prop := match a with Int _ => True | Str s => bytes_ok s /\ Z.of_nat (length s) < 4294967296 end.

Definition bf_ok (bf : list Z) : Prop := bytes_ok bf /\ length bf = 24%nat.

Lemma take_app_room w x r : take (room w) (x ++ r) = take (room w) x ++ take (room (w ++ take (room w) x)) r.
Proof. rewrite take_app. do 2 f_equal. unfold room. rewrite length_app, length_take. lia. Qed.

Definition converted (x : list Z) (va : list parg) (w : list Z) (r : result (option (list parg * list Z * mini_buff))) : Prop :=
  exists bf b, r = Ok (Some (va, bf, b)) /\ bf_ok bf /\ holds (w ++ take (room w) x) b.

Lemma put_int_spec radix u unsig pad z va bf w b : 10 <= radix <= 16 -> 0 <= pad <= 9 -> bf_ok bf -> holds w b ->
  converted (number (s32 z) radix u unsig pad) va w (put_int radix u unsig pad (Int z :: va) bf b).
Proof.
  intros Hr Hp [Hb Hl] H. unfold put_int. cbn [va_int mbind result_bind].
  pose proof (number_length (s32 z) radix u unsig pad ltac:(lia) (s32_range z) Hp) as Hn.
  pose proof (number_bytes (s32 z) radix u unsig pad ltac:(lia)) as Hnb.
  pose proof (mini_itoa_spec (s32 z) radix u unsig bf pad ltac:(lia) (s32_range z) Hb ltac:(lia)) as E. cbv zeta in E. rewrite E. clear E.
  set (s := number _ _ _ _ _) in *. cbn [mbind result_bind].
  destruct (_puts_appends (s ++ 0 :: drop (S (length s)) bf) (Z.of_nat (length s))) with (w := w) (b := b) as (b' & -> & H').
  - apply Forall_app. split; [done|]. constructor; [unfold is_u8; lia|by apply Forall_drop].
  - rewrite length_app. lia.
  - done.
  - cbn [mbind result_bind]. rewrite Nat2Z.id, take_app_length in H'. eexists _, b'. split_and!; [done| |done]. split.
    + apply Forall_app. split; [done|]. constructor; [unfold is_u8; lia|by apply Forall_drop].
    + rewrite length_app. cbn. rewrite length_drop. lia.
Qed.

Lemma convert_spec ch pad va va' bf w b x : is_u8 ch -> ch <> 0 -> 0 <= pad <= 9 -> Forall parg_ok va -> bf_ok bf -> holds w b ->
  directive ch pad va = Some (x, va') -> Forall parg_ok va' /\ converted x va' w (convert ch pad va bf b).
Proof.
  intros Hc Hc0 Hp Hva Hbf H. unfold directive, convert. destruct (Z.eqb_spec ch 0); [done|].
  destruct ((ch =? 117) || (ch =? 100)); [|destruct ((ch =? 120) || (ch =? 88)); [|destruct (ch =? 99); [|destruct (ch =? 115)]]].
  - destruct va as [|[z|s] va]; [done| |done]. apply Forall_cons in Hva as [_ Hva]. intros [= <- <-]. split; [done|].
    by apply put_int_spec.
  - destruct va as [|[z|s] va]; [done| |done]. apply Forall_cons in Hva as [_ Hva]. intros [= <- <-]. split; [done|].
    by apply put_int_spec.
  - destruct va as [|[z|s] va]; [done| |done]. apply Forall_cons in Hva as [_ Hva]. intros [= <- <-]. split; [done|].
    cbn [va_int mbind result_bind]. destruct (_putc_appends (z mod 256) (Z.mod_pos_bound z 256 eq_refl) w b H) as (b' & -> & H').
    by exists bf, b'.
  - destruct va as [|[z|s] va]; [done|done|]. apply Forall_cons in Hva as [[Hs Hsl] Hva].
    intros (r & Er & [= <- <-])%bind_Some. split; [done|]. cbn [va_str mbind result_bind]. unfold mini_strlen. rewrite strlen_cstr, Er.
    cbn. destruct (cstr_app _ _ Er) as [t ->].
    destruct (_puts_appends (r ++ 0 :: t) (Z.of_nat (length r))) with (w := w) (b := b) as (b' & -> & H').
    + done.
    + rewrite length_app. lia.
    + done.
    + rewrite Nat2Z.id, take_app_length in H'. by exists bf, b'.
  - intros [= <- <-]. split; [done|]. destruct (_putc_appends ch Hc w b H) as (b' & -> & H'). by exists bf, b'.
Qed.

(** The loop appends the text the format stands for, or as much of it as fits. *)
Lemma vsnprintf_loop_spec n : forall fmt va bf w b out, (length fmt <= n)%nat -> bytes_ok fmt -> Forall parg_ok va -> bf_ok bf ->
  holds w b -> formatted fmt va = Some out ->
  exists b', vsnprintf_loop fmt va bf b = Ok b' /\ holds (w ++ take (room w) out) b'.
Proof.
  induction n as [|n IH]; intros fmt va bf w b out Hn Hf Hva Hbf H; (destruct fmt as [|c fmt]; [done|cbn [length] in Hn]); [lia|].
  assert (Hstop : exists b', Ok b = Ok b' /\ holds (w ++ take (room w) []) b') by (exists b; by rewrite take_nil, app_nil_r).
  assert (Hgo : forall x r fmt va bf b, (length fmt <= n)%nat -> bytes_ok fmt -> Forall parg_ok va -> bf_ok bf ->
    holds (w ++ take (room w) x) b -> formatted fmt va = Some r ->
    exists b', vsnprintf_loop fmt va bf b = Ok b' /\ holds (w ++ take (room w) (x ++ r)) b').
  { intros x r fmt' va' bf' b0 H1 H2 H3 H4 H5 H6. destruct (IH fmt' va' bf' _ b0 r H1 H2 H3 H4 H5 H6) as (b' & E & H').
    exists b'. split; [done|]. by rewrite take_app_room, app_assoc. }
  assert (Hdir : forall c pad fmt out, is_u8 c -> c <> 0 -> 0 <= pad <= 9 -> (length fmt <= n)%nat -> bytes_ok fmt ->
    ('(x, va) ← directive c pad va; r ← formatted fmt va; Some (x ++ r)) = Some out ->
    exists b', (r ← convert c pad va bf b; match r with None => Ok b | Some (va, bf, b) => vsnprintf_loop fmt va bf b end) = Ok b' /\
      holds (w ++ take (room w) out) b').
  { intros c' pad fmt' out' Hc H0 Hp H1 H2 ((x & va') & Ed & Er)%bind_Some. apply bind_Some in Er as (r & Er & [= <-]).
    destruct (convert_spec c' pad va va' bf w b x) as (Hva' & bf' & b1 & -> & Hbf' & H'); [done..|]. cbn [mbind result_bind].
    by apply Hgo. }
  apply Forall_cons in Hf as [Hc Hf]. cbn [vsnprintf_loop formatted]. destruct (Z.eqb_spec c 0); [by intros [= <-]|].
  destruct (holds_p w b H) as (Ep & El & Hw). rewrite Ep, El. destruct (u32 (Z.of_nat (length w) + 1) >=? len) eqn:E.
  { apply full_u32 in E; [|done]. intros _. rewrite E in *. by exists b; rewrite take_0, app_nil_r. }
  destruct (Z.eqb_spec c 37) as [->|]; cbn [negb].
  - destruct fmt as [|c1 fmt]; [done|]. cbn [length] in Hn. apply Forall_cons in Hf as [Hc1 Hf].
    destruct (Z.eqb_spec c1 0) as [->|].
    { intros [= <-]. cbn. exact Hstop. }
    destruct (Z.eqb_spec c1 48) as [->|]; [|apply Hdir; lia || done].
    destruct fmt as [|c2 fmt]; [done|]. cbn [length] in Hn. apply Forall_cons in Hf as [Hc2 Hf].
    destruct (Z.eqb_spec c2 0) as [->|]; [by intros [= <-]|]. cbv zeta.
    destruct fmt as [|c3 fmt]; [done|]. cbn [length] in Hn. apply Forall_cons in Hf as [Hc3 Hf].
    destruct (Z.eqb_spec c3 0) as [->|].
    { intros [= <-]. cbn. exact Hstop. }
    apply Hdir; [done..| |lia|done]. unfold is_digit. case_match eqn:Ed; lia.
  - intros (r & Er & [= <-])%bind_Some. destruct (_putc_appends c Hc w b H) as (b1 & -> & H1). cbn [mbind result_bind].
    apply (Hgo [c] r); [lia|done..].
Qed.
End writing.

Lemma vsnprintf_holds bf l len fmt va out : 1 <= len <= Z.of_nat (length l) -> is_u32 len -> bytes_ok fmt -> Forall parg_ok va -> bf_ok bf ->
  formatted fmt va = Some out ->
  exists b, vsnprintf_loop fmt va bf (MiniBuff l 0 len) = Ok b /\ holds l len (take (Z.to_nat (len - 1)) out) b.
Proof.
  intros Hlen H32 Hf Hva Hbf Hout.
  destruct (vsnprintf_loop_spec l len Hlen H32 (length fmt) fmt va bf [] (MiniBuff l 0 len) out) as (b & E & H);
    [done..|by apply holds_start|done|].
  exists b. split; [done|]. unfold room in H. cbn [app length] in H. by replace (len - 1 - Z.of_nat 0) with (len - 1) in H by lia.
Qed.

(** The array [printk], [printks] and [printf] pass on *)
Lemma print_buff_spec bf l fmt va out : (256 <= length l)%nat -> bytes_ok fmt -> Forall parg_ok va -> bf_ok bf -> formatted fmt va = Some out ->
  print_buff bf l fmt va = Ok (take 255 out ++ 0 :: drop (S (length (take 255 out))) l).
Proof.
  intros Hl Hf Hva Hbf Hout. destruct (vsnprintf_holds bf l 256 fmt va out) as (b & E & H); [lia|by unfold is_u32|done..|].
  unfold print_buff, mini_vsnprintf. rewrite E. cbn [mbind result_bind]. by rewrite (holds_end _ _ _ _ H).
Qed.

(** ** Theorems *)

(** C26. [mini_vsnprintf], on an array with room for [len] characters, writes the text its format and
    arguments stand for, numbers with their digits, or its first [len - 1] characters when it is longer,
    returns their number and changes the array nowhere else; with the 0 that [printk], [printks] and
    [printf] put behind it, the array is that text and a 0. *)
Theorem mini_vsnprintf_bounded (bf l fmt out : list Z) (len : Z) (va : list parg)
    (Hbf : bytes_ok bf) (Hbl : length bf = 24%nat) (Hlen : 1 <= len <= Z.of_nat (length l)) (H32 : is_u32 len)
    (Hfmt : bytes_ok fmt) (Hva : Forall parg_ok va) (Hout : formatted fmt va = Some out) :
  let text := take (Z.to_nat (len - 1)) out in
  exists l', mini_vsnprintf bf l len fmt va = Ok (l', Z.of_nat (length text)) /\
    put l' (Z.of_nat (length text)) 0 = Ok (text ++ 0 :: drop (S (length text)) l) /\
    (text <> [] -> l' = text ++ 0 :: drop (S (length text)) l).
Proof.
  intros text. destruct (vsnprintf_holds bf l len fmt va out) as (b & E & H); [done..|]. fold text in H.
  unfold mini_vsnprintf. rewrite E. cbn [mbind result_bind]. pose proof (holds_end _ _ _ _ H) as He.
  destruct H as (Hl & x & -> & Hx). cbn [buffer pbuffer] in *. eexists. split_and!; [done|exact He|]. intros Ht. by rewrite (Hx Ht).
Qed.

(** ["%d%%"] with -70 in an array of 4 characters: ["-70"]. *)
Lemma mini_vsnprintf_bounded_witness : exists l',
  mini_vsnprintf (replicate 24 0) [9; 9; 9; 9; 9] 4 [37; 100; 37; 37; 0] [Int (-70)] = Ok (l', 3) /\
  l' = [45; 55; 48; 0; 9].
Proof.
  destruct (mini_vsnprintf_bounded (replicate 24 0) [9; 9; 9; 9; 9] [37; 100; 37; 37; 0] [45; 55; 48; 37] 4 [Int (-70)])
    as (l' & E & _ & El).
  - apply Forall_replicate. by unfold is_u8.
  - reflexivity.
  - cbn. lia.
  - by unfold is_u32.
  - repeat constructor; lia.
  - repeat constructor.
  - vm_compute. reflexivity.
  - exists l'. split; [exact E|]. apply El. discriminate.
Defined.
