(* ===== verification/Screen.v ===== *)
(** The screen, [drivers/screen.c]: a buffer of 28 lines of 75 characters that the print functions write
    into, and its refresh, which sends the characters that changed, with the VT100 sequences that move
    the terminal's cursor, to the serial port.

    [serial] is what the firmware's output functions, behind [port_write] and [port_write_ch], have been
    given. The arrays on the stack of [printk] are not initialised: [bf] and [l] are their contents.
    [screen_cursor_x] and [screen_cursor_y] are the two variables the scheduler saves and restores
    with the tasks ([Kernel.kstate] has them as fields of the same names). *)

From S2P Require Import Prelude CString Printk.

#[local] Existing Instance result_bind.

Definition SCREEN_WIDTH : Z := 75.
Definition SCREEN_HEIGHT : Z := 28.

Record screen := Screen { cur_x : Z; cur_y : Z; new_screen : list Z; old_screen : list Z; serial : list Z }.

Definition set_cursor (x y : Z) (s : screen) : screen := Screen x y (new_screen s) (old_screen s) (serial s).
Definition set_new (v : list Z) (s : screen) : screen := Screen (cur_x s) (cur_y s) v (old_screen s) (serial s).
Definition set_old (v : list Z) (s : screen) : screen := Screen (cur_x s) (cur_y s) (new_screen s) v (serial s).
Definition send (v : list Z) (s : screen) : screen := Screen (cur_x s) (cur_y s) (new_screen s) (old_screen s) (serial s ++ v).

(** ** The code *)

(** The index [i * SCREEN_WIDTH + j] *)
Definition cell (i j : Z) : Z := s32 (i * SCREEN_WIDTH + j).

Definition put_new (i j ch : Z) (s : screen) : result screen :=
  v ← put (new_screen s) (cell i j) ch; Ok (set_new v s).

Definition port_write_ch (ch : Z) (s : screen) : result screen := Ok (send [ch mod 256] s).

Section code.
Context (bf l : list Z).

Definition port_write (buff : list Z) (s : screen) : result screen :=
  match cstr buff with Some t => Ok (send t s) | None => Fault end.

Definition printk (fmt : list Z) (va : list parg) (s : screen) : result screen :=
  buff ← print_buff bf l fmt va; port_write buff s.

(** ["%c[%d;%dH"] *)
Definition vt100_move_cursor (x y : Z) (s : screen) : result screen :=
  printk [37; 99; 91; 37; 100; 59; 37; 100; 72; 0] [Int 27; Int y; Int x] s.

(** ["%c[%dm"] *)
Definition vt100_set_color (color : Z) (s : screen) : result screen :=
  printk [37; 99; 91; 37; 100; 109; 0] [Int 27; Int color] s.

(** ["%c[2J"] *)
Definition vt100_clear (s : screen) : result screen := printk [37; 99; 91; 50; 74; 0] [Int 27] s.

(** ["%c[?25l"] *)
Definition vt100_hidden_cursor (s : screen) : result screen := printk [37; 99; 91; 63; 50; 53; 108; 0] [Int 27] s.

Fixpoint scroll_row (n : nat) (i j line2 : Z) (s : screen) : result screen :=
  match n with
  | O => Ok s
  | S n =>
      s ← (if i =? line2 then put_new i j 32 s else c ← rd (new_screen s) (cell (i + 1) j); put_new i j c s);
      scroll_row n i (j + 1) line2 s
  end.

Fixpoint scroll_loop (n : nat) (i line2 : Z) (s : screen) : result screen :=
  match n with
  | O => Ok s
  | S n => s ← scroll_row (Z.to_nat SCREEN_WIDTH) i 0 line2 s; scroll_loop n (i + 1) line2 s
  end.

Definition screen_scroll (line1 line2 : Z) (s : screen) : result screen :=
  scroll_loop (Z.to_nat (line2 - line1 + 1)) line1 line2 s.

(** The two checks at the end of [screen_write_ch] *)
Definition wrap_line (s : screen) : screen :=
  if cur_x s =? SCREEN_WIDTH then set_cursor 0 (s32 (cur_y s + 1)) s else s.

Definition keep_last_line (s : screen) : result screen :=
  if cur_y s =? SCREEN_HEIGHT - 1 then
    s ← screen_scroll (SCREEN_HEIGHT / 2 + 1) (SCREEN_HEIGHT - 2) s;
    Ok (set_cursor 0 (SCREEN_HEIGHT - 2) s)
  else Ok s.

Definition screen_write_ch (ch : Z) (s : screen) : result screen :=
  s ← (if (ch =? 10) || (ch =? 13) then Ok (set_cursor 0 (s32 (cur_y s + 1)) s)
       else if (ch =? 8) || (ch =? 127) then
         if cur_x s >? 0 then put_new (cur_y s) (cur_x s - 1) 32 (set_cursor (cur_x s - 1) (cur_y s) s) else Ok s
       else s ← put_new (cur_y s) (cur_x s) ch s; Ok (set_cursor (s32 (cur_x s + 1)) (cur_y s) s));
  keep_last_line (wrap_line s).

Fixpoint reflush_row (n : nat) (i j : Z) (s : screen) : result screen :=
  match n with
  | O => Ok s
  | S n =>
      a ← rd (new_screen s) (cell i j);
      b ← rd (old_screen s) (cell i j);
      s ← (if a =? b then Ok s
           else
             s ← vt100_move_cursor (j + 1) (i + 1) s;
             s ← port_write_ch a s;
             v ← put (old_screen s) (cell i j) a;
             Ok (set_old v s));
      reflush_row n i (j + 1) s
  end.

Fixpoint reflush_loop (n : nat) (i : Z) (s : screen) : result screen :=
  match n with
  | O => Ok s
  | S n => s ← reflush_row (Z.to_nat SCREEN_WIDTH) i 0 s; reflush_loop n (i + 1) s
  end.

Definition screen_reflush (s : screen) : result screen := reflush_loop (Z.to_nat SCREEN_HEIGHT) 0 s.

Fixpoint clear_row (n : nat) (i j : Z) (s : screen) : result screen :=
  match n with
  | O => Ok s
  | S n => s ← put_new i j 32 s; clear_row n i (j + 1) s
  end.

Fixpoint clear_loop (n : nat) (i : Z) (s : screen) : result screen :=
  match n with
  | O => Ok s
  | S n => s ← clear_row (Z.to_nat SCREEN_WIDTH) i 0 s; clear_loop n (i + 1) s
  end.

Definition screen_clear (line1 line2 : Z) (s : screen) : result screen :=
  s ← clear_loop (Z.to_nat (line2 - line1 + 1)) line1 s;
  screen_reflush s.

Definition screen_move_cursor (x y : Z) (s : screen) : screen := set_cursor x y s.

Fixpoint write_loop (n : nat) (i : Z) (buff : list Z) (s : screen) : result screen :=
  match n with
  | O => Ok s
  | S n => c ← rd buff i; s ← screen_write_ch c s; write_loop n (i + 1) buff s
  end.

Definition screen_write (buff : list Z) (s : screen) : result screen :=
  match strlen buff with Some n => write_loop (Z.to_nat n) 0 buff s | None => Fault end.

Definition init_screen (s : screen) : result screen :=
  s ← vt100_hidden_cursor s;
  screen_clear 0 (SCREEN_HEIGHT - 1) s.

Definition printks (fmt : list Z) (va : list parg) (s : screen) : result screen :=
  buff ← print_buff bf l fmt va;
  s ← screen_write buff s;
  screen_reflush s.

End code.

(** ** Specification: lines of text *)

(** The buffer as lines of characters, and the cursor *)
Record text := Text { tx : nat; ty : nat; lines : list (list Z) }.

Definition blank_line : list Z := replicate 75 32.

(** Lines 15 to 26 are the window that scrolls. *)
Definition scroll_up (t : list (list Z)) : list (list Z) := take 15 t ++ take 11 (drop 16 t) ++ [blank_line] ++ drop 27 t.

Definition put_char (x y : nat) (c : Z) (t : list (list Z)) : list (list Z) := alter (fun r => <[x := c]> r) y t.

(** The cursor is at column [x] of line [y], or one step beyond the end of the line or of the last line. *)
Definition settle (x y : nat) (t : list (list Z)) : text :=
  let '(x, y) := if decide (x = 75%nat) then (0%nat, S y) else (x, y) in
  if decide (y = 27%nat) then Text 0 26 (scroll_up t) else Text x y t.

Definition type_ch (c : Z) (t : text) : text :=
  if decide (c = 10 \/ c = 13) then settle 0 (S (ty t)) (lines t)
  else if decide (c = 8 \/ c = 127) then
    match tx t with O => t | S x => Text x (ty t) (put_char x (ty t) 32 (lines t)) end
  else settle (S (tx t)) (ty t) (put_char (tx t) (ty t) c (lines t)).

Definition type_text (s : list Z) (t : text) : text := foldl (fun t c => type_ch c t) t s.

(** [s] shows [t]. *)
Record shows_text (s : screen) (t : text) : Prop := {
  st_x : cur_x s = Z.of_nat (tx t) /\ (tx t < 75)%nat;
  st_y : cur_y s = Z.of_nat (ty t) /\ (ty t < 27)%nat;
  st_length : length (new_screen s) = 2100%nat;
  st_bytes : bytes_ok (new_screen s);
  st_cells : forall i j : nat, (i < 28)%nat -> (j < 75)%nat -> new_screen s !! (i * 75 + j)%nat = r ← lines t !! i; r !! j
}.

(** [s] shows [ls], its cursor at [x], [y], perhaps one step beyond the end. *)
Record shows_at (s : screen) (x y : nat) (ls : list (list Z)) : Prop := {
  sa_x : cur_x s = Z.of_nat x;
  sa_y : cur_y s = Z.of_nat y;
  sa_range : (x <= 75)%nat /\ (y <= 27)%nat /\ (x = 75%nat -> y < 27)%nat;
  sa_length : length (new_screen s) = 2100%nat;
  sa_bytes : bytes_ok (new_screen s);
  sa_cells : forall i j : nat, (i < 28)%nat -> (j < 75)%nat -> new_screen s !! (i * 75 + j)%nat = r ← ls !! i; r !! j
}.

(** What writing text leaves alone *)
Definition same_output (s s' : screen) : Prop := old_screen s' = old_screen s /\ serial s' = serial s.

(** ** Lemmas: the buffer *)

Section buffer.
Implicit Types (s : screen) (t : text) (i j x y : nat).

Lemma cell_nat i j : (i < 28)%nat -> (j < 75)%nat -> cell (Z.of_nat i) (Z.of_nat j) = Z.of_nat (i * 75 + j).
Proof. intros Hi Hj. unfold cell, SCREEN_WIDTH. rewrite s32_id; [lia|]. unfold is_s32. lia. Qed.

Lemma cell_lt i j : (i < 28)%nat -> (j < 75)%nat -> (i * 75 + j < 2100)%nat.
Proof. lia. Qed.

Lemma put_insert (v : list Z) k c : (k < length v)%nat -> is_u8 c -> put v (Z.of_nat k) c = Ok (<[k := c]> v).
Proof. intros Hk Hc. unfold put. rewrite aset_Some by lia. by rewrite Nat2Z.id, Z.mod_small. Qed.

Lemma rd_lookup (v : list Z) k c : v !! k = Some c -> rd v (Z.of_nat k) = Ok c.
Proof. intros H. unfold rd. by rewrite aget_nat, H. Qed.

Lemma put_new_spec i j c s : length (new_screen s) = 2100%nat -> (i < 28)%nat -> (j < 75)%nat -> is_u8 c ->
  put_new (Z.of_nat i) (Z.of_nat j) c s = Ok (set_new (<[(i * 75 + j)%nat := c]> (new_screen s)) s).
Proof. intros Hl Hi Hj Hc. unfold put_new. rewrite cell_nat, put_insert by (done || lia). done. Qed.

(** Reading an updated array: at the index [a] and elsewhere *)
Local Ltac ins_at a :=
  match goal with
  | |- context [<[a := _]> ?l !! ?k] =>
      destruct (decide (k = a)) as [Eq|]; [first [exfalso; lia | rewrite Eq, list_lookup_insert_eq by lia] | rewrite list_lookup_insert_ne by done]
  end.
Local Ltac ins_lookup a := repeat case_decide; try lia; try done; ins_at a; try lia; try done; try (congruence || (f_equal; lia)).

(** Rows from column [j] on, scrolled *)
Lemma scroll_row_spec (line2 : nat) n : forall i j s, length (new_screen s) = 2100%nat -> bytes_ok (new_screen s) ->
  (i <= line2)%nat -> (line2 < 28)%nat -> (j + n <= 75)%nat ->
  exists v, scroll_row n (Z.of_nat i) (Z.of_nat j) (Z.of_nat line2) s = Ok (set_new v s) /\ length v = 2100%nat /\ bytes_ok v /\
    forall k : nat, v !! k = if decide (i * 75 + j <= k < i * 75 + j + n)%nat then (if decide (i = line2) then Some 32 else new_screen s !! (k + 75)%nat)
      else new_screen s !! k.
Proof.
  induction n as [|n IH]; intros i j s Hl Hb Hi H2 Hj; cbn [scroll_row].
  { exists (new_screen s). split_and!; [by destruct s|done|done|]. intros k. by rewrite decide_False by lia. }
  assert (Hc : exists c, (if Z.of_nat i =? Z.of_nat line2 then put_new (Z.of_nat i) (Z.of_nat j) 32 s
      else c ← rd (new_screen s) (cell (Z.of_nat i + 1) (Z.of_nat j)); put_new (Z.of_nat i) (Z.of_nat j) c s) =
      Ok (set_new (<[(i * 75 + j)%nat := c]> (new_screen s)) s) /\ is_u8 c /\
      Some c = (if decide (i = line2) then Some 32 else new_screen s !! (i * 75 + j + 75)%nat)).
  { destruct (decide (i = line2)) as [->|Hn].
    - rewrite Z.eqb_refl. exists 32. rewrite put_new_spec by (done || lia). done.
    - destruct (Z.eqb_spec (Z.of_nat i) (Z.of_nat line2)); [lia|]. replace (Z.of_nat i + 1) with (Z.of_nat (S i)) by lia.
      rewrite cell_nat by lia. destruct (lookup_lt_is_Some_2 (new_screen s) (S i * 75 + j)) as [c Hc]; [lia|].
      rewrite (rd_lookup _ _ _ Hc). cbn [mbind result_bind]. assert (is_u8 c) by (by eapply Forall_lookup_1 in Hc).
      exists c. rewrite put_new_spec by (done || lia). split_and!; [done..|]. rewrite <- Hc. f_equal. lia. }
  destruct Hc as (c & -> & Hc & Ec). cbn [mbind result_bind]. set (s1 := set_new _ s).
  replace (Z.of_nat j + 1) with (Z.of_nat (S j)) by lia.
  destruct (IH i (S j) s1) as (v & E & Hlv & Hbv & Hv); [cbn; by rewrite length_insert|cbn; by apply Forall_insert|lia..|].
  exists v. split_and!; [done..|]. intros k. rewrite Hv. unfold s1. cbn [new_screen set_new].
  ins_lookup (i * 75 + j)%nat.
Qed.

Lemma scroll_loop_spec (line2 : nat) n : forall i s, length (new_screen s) = 2100%nat -> bytes_ok (new_screen s) ->
  (i + n <= S line2)%nat -> (line2 < 27)%nat ->
  exists v, scroll_loop n (Z.of_nat i) (Z.of_nat line2) s = Ok (set_new v s) /\ length v = 2100%nat /\ bytes_ok v /\
    forall k : nat, v !! k = if decide (i * 75 <= k < (i + n) * 75)%nat then (if decide (line2 * 75 <= k)%nat then Some 32 else new_screen s !! (k + 75)%nat)
      else new_screen s !! k.
Proof.
  induction n as [|n IH]; intros i s Hl Hb Hi H2; cbn [scroll_loop].
  { exists (new_screen s). split_and!; [by destruct s|done|done|]. intros k. by rewrite decide_False by lia. }
  destruct (scroll_row_spec line2 75 i 0 s) as (v1 & E1 & Hl1 & Hb1 & H1); [done|done|lia..|].
  change (Z.to_nat SCREEN_WIDTH) with 75%nat. change (Z.of_nat 0) with 0 in E1. rewrite E1. cbn [mbind result_bind].
  replace (Z.of_nat i + 1) with (Z.of_nat (S i)) by lia.
  destruct (IH (S i) (set_new v1 s)) as (v & E & Hlv & Hbv & Hv); [done|done|lia|lia|].
  exists v. split_and!; [done..|]. intros k. rewrite Hv. cbn [new_screen set_new].
  repeat case_decide; try lia; rewrite ?H1; repeat case_decide; try lia; done.
Qed.

Lemma screen_scroll_spec s : length (new_screen s) = 2100%nat -> bytes_ok (new_screen s) ->
  exists v, screen_scroll 15 26 s = Ok (set_new v s) /\ length v = 2100%nat /\ bytes_ok v /\
    forall k : nat, v !! k = if decide (1125 <= k < 2025)%nat then (if decide (1950 <= k)%nat then Some 32 else new_screen s !! (k + 75)%nat)
      else new_screen s !! k.
Proof. intros Hl Hb. apply (scroll_loop_spec 26 12 15 s Hl Hb); lia. Qed.

(** *** The buffer as text *)

Lemma shows_text_at s t : shows_text s t -> shows_at s (tx t) (ty t) (lines t).
Proof. intros [[] [] ? ? ?]. split; (done || lia). Qed.

Lemma shows_at_text s x y ls : shows_at s x y ls -> (x < 75)%nat -> (y < 27)%nat -> shows_text s (Text x y ls).
Proof. intros [? ? ? ? ? ?] ? ?. by split. Qed.

Lemma shows_lines s x y ls : shows_at s x y ls -> (28 <= length ls)%nat.
Proof.
  intros [_ _ _ Hl _ Hc]. destruct (lookup_lt_is_Some_2 (new_screen s) (27 * 75 + 0)) as [c H]; [lia|].
  rewrite (Hc 27%nat 0%nat) in H by lia. apply bind_Some in H as (r & H & _). apply lookup_lt_Some in H. lia.
Qed.

Lemma scroll_up_lookup ls i : (28 <= length ls)%nat ->
  scroll_up ls !! i = if decide (15 <= i < 27)%nat then (if decide (i = 26)%nat then Some blank_line else ls !! S i) else ls !! i.
Proof.
  intros Hl. unfold scroll_up. rewrite !lookup_app. rewrite !length_take, length_drop. cbn [length].
  destruct (decide (i < 15)%nat).
  { rewrite lookup_take_lt, decide_False by lia. destruct (ls !! i) eqn:E; [done|]. apply lookup_ge_None in E. lia. }
  rewrite (lookup_take_ge _ _ i) by lia. replace (15 `min` length ls)%nat with 15%nat by lia.
  replace (11 `min` (length ls - 16))%nat with 11%nat by lia. destruct (decide (i < 26)%nat).
  { rewrite lookup_take_lt, lookup_drop by lia. replace (16 + (i - 15))%nat with (S i) by lia.
    destruct (ls !! S i) eqn:E; [|apply lookup_ge_None in E; lia]. by rewrite decide_True, decide_False by lia. }
  rewrite lookup_take_ge by lia. destruct (decide (i = 26)%nat) as [->|]; [done|].
  replace (i - 15 - 11)%nat with (S (i - 27))%nat by lia. change ([blank_line] !! S (i - 27)) with (@None (list Z)). rewrite lookup_drop.
  rewrite decide_False by lia. f_equal. lia.
Qed.

Lemma shows_at_cursor s x y ls x' y' : shows_at s x y ls -> (x' <= 75)%nat /\ (y' <= 27)%nat /\ (x' = 75%nat -> y' < 27)%nat ->
  shows_at (set_cursor (Z.of_nat x') (Z.of_nat y') s) x' y' ls.
Proof. by intros [? ? ? ? ? ?] ?. Qed.

Lemma shows_at_put s x y ls x' y' c : shows_at s x y ls -> (x' < 75)%nat -> (y' < 28)%nat -> is_u8 c ->
  exists s', put_new (Z.of_nat y') (Z.of_nat x') c s = Ok s' /\ shows_at s' x y (put_char x' y' c ls) /\ same_output s s'.
Proof.
  intros [Hx Hy Hr Hl Hb Hc] Hx' Hy' Hu. rewrite put_new_spec by done. eexists. split; [done|]. split; [|done].
  split; cbn [cur_x cur_y new_screen set_new]; [done|done|done|by rewrite length_insert|by apply Forall_insert|].
  intros i j Hi Hj. unfold put_char. specialize (Hc i j Hi Hj). destruct (decide (i = y')) as [->|Hn].
  - rewrite list_lookup_alter_eq. destruct (ls !! y') as [r|] eqn:Er; cbn in *.
    + destruct (decide (j = x')) as [->|Hj'].
      * rewrite list_lookup_insert_eq by lia. symmetry. apply list_lookup_insert_eq.
        destruct (lookup_lt_is_Some_2 (new_screen s) (y' * 75 + x')) as [d Hd]; [lia|]. rewrite Hd in Hc. symmetry in Hc.
        by apply lookup_lt_Some in Hc.
      * rewrite list_lookup_insert_ne by lia. rewrite list_lookup_insert_ne by done. done.
    + apply lookup_ge_None in Hc. lia.
  - rewrite list_lookup_alter_ne by done. rewrite list_lookup_insert_ne by lia. done.
Qed.

Lemma settle_spec s x y ls : shows_at s x y ls ->
  exists s', keep_last_line (wrap_line s) = Ok s' /\ shows_text s' (settle x y ls) /\ same_output s s'.
Proof.
  intros H. pose proof (shows_lines _ _ _ _ H) as Hls. unfold settle, wrap_line.
  set (w := if cur_x s =? SCREEN_WIDTH then _ else s). set (p := if decide (x = 75%nat) then (0%nat, S y) else (x, y)).
  assert (Hw : shows_at w p.1 p.2 ls /\ (p.1 < 75)%nat /\ same_output s w).
  { subst w p. destruct (sa_range _ _ _ _ H) as (H1 & H2 & H3). rewrite (sa_x _ _ _ _ H), (sa_y _ _ _ _ H).
    change SCREEN_WIDTH with (Z.of_nat 75). case_decide as E.
    - rewrite E, Z.eqb_refl. rewrite s32_id by (unfold is_s32; lia). replace (Z.of_nat y + 1) with (Z.of_nat (S y)) by lia.
      specialize (H3 E). cbn [fst snd]. split_and!; [|lia|done]. apply (shows_at_cursor _ _ _ _ 0 (S y) H). lia.
    - destruct (Z.eqb_spec (Z.of_nat x) (Z.of_nat 75)); [lia|]. cbn. split_and!; [done|lia|done]. }
  destruct Hw as (Hw & Hp & Ho & Hs). clearbody w. destruct p as [x' y']. cbn [fst snd] in *.
  unfold keep_last_line. rewrite (sa_y _ _ _ _ Hw). change (SCREEN_HEIGHT - 1) with (Z.of_nat 27). case_decide as E.
  - rewrite E, Z.eqb_refl. destruct (screen_scroll_spec w) as (v & Ev & Hlv & Hbv & Hv); [apply Hw|apply Hw|].
    change (SCREEN_HEIGHT / 2 + 1) with 15. change (SCREEN_HEIGHT - 2) with 26. rewrite Ev. cbn [mbind result_bind].
    eexists. split; [done|]. split; [|done]. split; cbn [cur_x cur_y new_screen set_cursor set_new tx ty lines]; [by split; lia|by split; lia|done|done|].
    intros i j Hi Hj. rewrite Hv, scroll_up_lookup by done. pose proof (sa_cells _ _ _ _ Hw) as Hc.
    destruct (decide (15 <= i < 27)%nat); [rewrite decide_True by lia|rewrite decide_False by lia; by apply Hc].
    destruct (decide (i = 26)%nat) as [->|].
    + rewrite decide_True by lia. symmetry. by apply (lookup_replicate_2 75).
    + rewrite decide_False by lia. rewrite <- (Hc (S i) j) by lia. f_equal. lia.
  - destruct (Z.eqb_spec (Z.of_nat y') (Z.of_nat 27)); [lia|]. exists w. split; [done|]. split; [|done].
    destruct (sa_range _ _ _ _ Hw) as (? & ? & ?). apply shows_at_text; [done|lia..].
Qed.

Lemma screen_write_ch_spec s t c : shows_text s t -> is_u8 c ->
  exists s', screen_write_ch c s = Ok s' /\ shows_text s' (type_ch c t) /\ same_output s s'.
Proof.
  intros H Hu. pose proof (shows_text_at _ _ H) as Ha. destruct (st_x _ _ H) as [Ex Hx], (st_y _ _ H) as [Ey Hy].
  unfold screen_write_ch, type_ch. rewrite Ex, Ey.
  destruct ((c =? 10) || (c =? 13)) eqn:E1; [rewrite decide_True by lia|rewrite decide_False by lia].
  { cbn [mbind result_bind]. rewrite s32_id by (unfold is_s32; lia). replace (Z.of_nat (ty t) + 1) with (Z.of_nat (S (ty t))) by lia.
    change 0 with (Z.of_nat 0).
    destruct (settle_spec _ _ _ _ (shows_at_cursor _ _ _ _ 0 (S (ty t)) Ha ltac:(lia))) as (s' & -> & H' & Ho). by exists s'. }
  destruct ((c =? 8) || (c =? 127)) eqn:E2; [rewrite decide_True by lia|rewrite decide_False by lia].
  { destruct (tx t) as [|x] eqn:Etx.
    - change (Z.of_nat 0 >? 0) with false. cbn [mbind result_bind].
      destruct (settle_spec _ _ _ _ Ha) as (s' & E & H' & Ho). exists s'. split; [done|]. split; [|done].
      unfold settle in H'. rewrite !decide_False in H' by lia.
      destruct t; cbn in *; by subst.
    - destruct (Z.gtb_spec (Z.of_nat (S x)) 0); [|lia]. replace (Z.of_nat (S x) - 1) with (Z.of_nat x) by lia.
      destruct (shows_at_put _ _ _ _ x (ty t) 32 (shows_at_cursor _ _ _ _ x (ty t) Ha ltac:(lia))) as (s1 & E & H1 & Ho1); [lia|lia|by unfold is_u8|].
      rewrite E. cbn [mbind result_bind]. destruct (settle_spec _ _ _ _ H1) as (s' & -> & H' & Ho). exists s'. split; [done|].
      unfold settle in H'. rewrite !decide_False in H' by lia.
      split; [done|]. destruct Ho, Ho1. split; etransitivity; eassumption. }
  destruct (shows_at_put _ _ _ _ (tx t) (ty t) c Ha) as (s1 & E & H1 & Ho1); [lia|lia|done|].
  rewrite E. cbn [mbind result_bind]. rewrite (sa_x _ _ _ _ H1), (sa_y _ _ _ _ H1), s32_id by (unfold is_s32; lia).
  replace (Z.of_nat (tx t) + 1) with (Z.of_nat (S (tx t))) by lia.
  destruct (settle_spec _ _ _ _ (shows_at_cursor _ _ _ _ (S (tx t)) (ty t) H1 ltac:(lia))) as (s' & -> & H' & Ho).
  exists s'. split_and!; [done..|]. destruct Ho, Ho1. split; etransitivity; eassumption.
Qed.

Lemma same_output_trans s1 s2 s3 : same_output s1 s2 -> same_output s2 s3 -> same_output s1 s3.
Proof. intros [] []. split; by etransitivity. Qed.

Lemma write_loop_spec (x : list Z) : forall (pre rest : list Z) s t, bytes_ok x -> shows_text s t ->
  exists s', write_loop (length x) (Z.of_nat (length pre)) (pre ++ x ++ rest) s = Ok s' /\ shows_text s' (type_text x t) /\ same_output s s'.
Proof.
  induction x as [|c x IH]; intros pre rest s t Hb H; cbn [write_loop length].
  { by exists s. }
  apply Forall_cons in Hb as [Hc Hb]. rewrite (rd_lookup _ _ c) by (by apply list_lookup_middle). cbn [mbind result_bind].
  destruct (screen_write_ch_spec s t c H Hc) as (s1 & -> & H1 & Ho1). cbn [mbind result_bind].
  destruct (IH (pre ++ [c]) rest s1 (type_ch c t) Hb H1) as (s' & E & H' & Ho). exists s'.
  replace (Z.of_nat (length pre) + 1) with (Z.of_nat (length (pre ++ [c]))) by (rewrite length_app; cbn; lia).
  replace (pre ++ (c :: x) ++ rest) with ((pre ++ [c]) ++ x ++ rest) by by rewrite <- app_assoc.
  split_and!; [done|done|]. by eapply same_output_trans.
Qed.

Lemma screen_write_spec s t (buff x : list Z) : shows_text s t -> bytes_ok buff -> cstr buff = Some x ->
  exists s', screen_write buff s = Ok s' /\ shows_text s' (type_text x t) /\ same_output s s'.
Proof.
  intros Hs Hb Hx.
  destruct (cstr_app _ _ Hx) as [r ->]. apply Forall_app in Hb as [Hb _]. unfold screen_write. rewrite strlen_cstr, Hx. cbn [fmap option_fmap option_map].
  rewrite Nat2Z.id. destruct (write_loop_spec x [] (0 :: r) s t Hb Hs) as (s' & E & H & ?). by exists s'.
Qed.

(** Clearing rows *)
Lemma clear_row_spec n : forall i j s, length (new_screen s) = 2100%nat -> bytes_ok (new_screen s) -> (i < 28)%nat -> (j + n <= 75)%nat ->
  exists v, clear_row n (Z.of_nat i) (Z.of_nat j) s = Ok (set_new v s) /\ length v = 2100%nat /\ bytes_ok v /\
    forall k : nat, v !! k = if decide (i * 75 + j <= k < i * 75 + j + n)%nat then Some 32 else new_screen s !! k.
Proof.
  induction n as [|n IH]; intros i j s Hl Hb Hi Hj; cbn [clear_row].
  { exists (new_screen s). split_and!; [by destruct s|done|done|]. intros k. by rewrite decide_False by lia. }
  rewrite put_new_spec by (done || lia || by unfold is_u8). cbn [mbind result_bind]. set (s1 := set_new _ s).
  replace (Z.of_nat j + 1) with (Z.of_nat (S j)) by lia.
  destruct (IH i (S j) s1) as (v & E & Hlv & Hbv & Hv);
    [cbn; by rewrite length_insert|cbn; apply Forall_insert; [done|by unfold is_u8]|lia..|].
  exists v. split_and!; [done..|]. intros k. rewrite Hv. unfold s1. cbn [new_screen set_new]. ins_lookup (i * 75 + j)%nat.
Qed.

Lemma clear_loop_spec n : forall i s, length (new_screen s) = 2100%nat -> bytes_ok (new_screen s) -> (i + n <= 28)%nat ->
  exists v, clear_loop n (Z.of_nat i) s = Ok (set_new v s) /\ length v = 2100%nat /\ bytes_ok v /\
    forall k : nat, v !! k = if decide (i * 75 <= k < (i + n) * 75)%nat then Some 32 else new_screen s !! k.
Proof.
  induction n as [|n IH]; intros i s Hl Hb Hi; cbn [clear_loop].
  { exists (new_screen s). split_and!; [by destruct s|done|done|]. intros k. by rewrite decide_False by lia. }
  destruct (clear_row_spec 75 i 0 s) as (v1 & E1 & Hl1 & Hb1 & H1); [done|done|lia..|].
  change (Z.to_nat SCREEN_WIDTH) with 75%nat. change (Z.of_nat 0) with 0 in E1. rewrite E1. cbn [mbind result_bind].
  replace (Z.of_nat i + 1) with (Z.of_nat (S i)) by lia.
  destruct (IH (S i) (set_new v1 s)) as (v & E & Hlv & Hbv & Hv); [done|done|lia|].
  exists v. split_and!; [done..|]. intros k. rewrite Hv. cbn [new_screen set_new].
  repeat case_decide; try lia; rewrite ?H1; repeat case_decide; try lia; done.
Qed.
End buffer.

(** ** The terminal

    A VT100 terminal, as far as the kernel uses it: [ESC [ r ; c H] puts the cursor at row [r] and column
    [c], counted from 1, [ESC [ 2 J] clears the screen, other sequences change nothing shown; a printable
    character is shown at the cursor, which moves on. *)

Inductive tmode := Plain | Escape | Params (ps : list Z) (p : Z).

Record terminal := Terminal { row : Z; col : Z; grid : Z -> Z -> Z; mode : tmode }.

Definition draw (r c ch : Z) (g : Z -> Z -> Z) : Z -> Z -> Z := fun r' c' => if decide (r' = r /\ c' = c) then ch else g r' c'.

Definition printable (c : Z) : bool := (32 <=? c) && (c <? 127).

Definition receive (t : terminal) (c : Z) : terminal :=
  let to m := Terminal (row t) (col t) (grid t) m in
  match mode t with
  | Plain =>
      if c =? 27 then to Escape
      else if printable c then Terminal (row t) (col t + 1) (draw (row t) (col t) c (grid t)) Plain
      else t
  | Escape => if c =? 91 then to (Params [] 0) else to Plain
  | Params ps p =>
      if is_digit c then to (Params ps (p * 10 + (c - 48)))
      else if c =? 59 then to (Params (ps ++ [p]) 0)
      else if c =? 72 then match ps with [r] => Terminal r p (grid t) Plain | _ => to Plain end
      else if (c =? 74) && (p =? 2) then Terminal (row t) (col t) (fun _ _ => 32) Plain
      else if (64 <=? c) && (c <=? 126) then to Plain
      else t
  end.

Definition receives (out : list Z) (t : terminal) : terminal := foldl receive t out.

(** The terminal, between two sequences, shows the array [v]. *)
Definition displays (t : terminal) (v : list Z) : Prop :=
  mode t = Plain /\ forall i j : nat, (i < 28)%nat -> (j < 75)%nat -> v !! (i * 75 + j)%nat = Some (grid t (Z.of_nat i + 1) (Z.of_nat j + 1)).

(** What a refresh sends for cell [k], and for the first [n] cells *)
Definition cell_update (old new : list Z) (k : nat) : list Z :=
  match new !! k, old !! k with
  | Some a, Some b =>
      if a =? b then []
      else [27; 91] ++ number (Z.of_nat (k / 75) + 1) 10 false false 0 ++ [59] ++ number (Z.of_nat (k mod 75) + 1) 10 false false 0 ++ [72; a]
  | _, _ => []
  end.

Definition updates (old new : list Z) (n : nat) : list Z := concat (cell_update old new <$> seq 0 n).

(** ** Lemmas: the refresh *)

Section refresh.
Context (bf l : list Z) (Hbf : bf_ok bf) (Hl : (256 <= length l)%nat).

Lemma number_nonzero v radix u unsig pad : 2 <= radix <= 16 -> 0 ∉ number v radix u unsig pad.
Proof.
  intros Hr. assert (H : Forall (fun c => 45 <= c) (number v radix u unsig pad)).
  { unfold number. cbv zeta. rewrite !Forall_app, Forall_reverse, Forall_fmap. split_and!.
    - case_match; repeat constructor; lia.
    - apply Forall_replicate. lia.
    - eapply Forall_impl; [apply digits_le_range; lia|]. intros d [Hd1 Hd2]. unfold compose, digit_char. destruct u, (Z.ltb_spec d 10); lia. }
  intros H0. rewrite Forall_forall in H. specialize (H 0 H0). lia.
Qed.

Definition move_to (x y : Z) : list Z := [27; 91] ++ number y 10 false false 0 ++ [59] ++ number x 10 false false 0 ++ [72].

(** A short message reaches the port as it is. *)
Lemma printk_spec fmt va out s : bytes_ok fmt -> Forall parg_ok va -> formatted fmt va = Some out -> (length out <= 255)%nat -> 0 ∉ out ->
  printk bf l fmt va s = Ok (send out s).
Proof.
  intros Hf Hva Ho Hlen H0. unfold printk. rewrite (print_buff_spec bf l fmt va out) by done. rewrite !take_ge by done.
  cbn [mbind result_bind]. unfold port_write. by rewrite cstr_of.
Qed.

Lemma vt100_move_cursor_spec x y s : is_s32 x -> is_s32 y -> vt100_move_cursor bf l x y s = Ok (send (move_to x y) s).
Proof.
  intros Hx Hy. pose proof (number_length y 10 false false 0 ltac:(lia) Hy ltac:(lia)). pose proof (number_length x 10 false false 0 ltac:(lia) Hx ltac:(lia)).
  apply printk_spec.
  - repeat constructor; lia.
  - repeat constructor.
  - cbn -[number]. by rewrite !s32_id.
  - unfold move_to. rewrite !length_app. cbn [length]. lia.
  - unfold move_to. rewrite !not_elem_of_app. pose proof (number_nonzero y 10 false false 0 ltac:(lia)).
    pose proof (number_nonzero x 10 false false 0 ltac:(lia)). 
    split_and!; try done; intros Hin; repeat apply elem_of_cons in Hin as [Hin|Hin]; by (done || apply not_elem_of_nil in Hin).
Qed.

(** The state of a refresh of [s] that has dealt with the first [k] cells *)
Definition refreshed (s : screen) (k : nat) : screen :=
  Screen (cur_x s) (cur_y s) (new_screen s) (take k (new_screen s) ++ drop k (old_screen s)) (serial s ++ updates (old_screen s) (new_screen s) k).

Lemma updates_S old new k : updates old new (S k) = updates old new k ++ cell_update old new k.
Proof. unfold updates. rewrite seq_S, fmap_app, concat_app. cbn. by rewrite app_nil_r. Qed.

Lemma reflush_row_spec s n : length (new_screen s) = 2100%nat -> length (old_screen s) = 2100%nat -> bytes_ok (new_screen s) ->
  forall i j : nat, (i < 28)%nat -> (j + n <= 75)%nat ->
  reflush_row bf l n (Z.of_nat i) (Z.of_nat j) (refreshed s (i * 75 + j)) = Ok (refreshed s (i * 75 + j + n)).
Proof.
  intros Hn Ho Hb. induction n as [|n IH]; intros i j Hi Hj; cbn [reflush_row]; [by rewrite Nat.add_0_r|].
  set (k := (i * 75 + j)%nat). assert (Hk : (k < 2100)%nat) by (subst k; lia).
  destruct (lookup_lt_is_Some_2 (new_screen s) k) as [a Ha]; [lia|]. destruct (lookup_lt_is_Some_2 (old_screen s) k) as [b Hb']; [lia|].
  assert (Hau : is_u8 a) by (by eapply Forall_lookup_1 in Ha).
  rewrite cell_nat by lia. fold k. assert (Hlen : length (take k (new_screen s)) = k) by (rewrite length_take; lia).
  assert (Eo : take k (new_screen s) ++ drop k (old_screen s) = take k (new_screen s) ++ b :: drop (S k) (old_screen s)) by by rewrite (drop_S _ b k).
  assert (Er : rd (old_screen (refreshed s k)) (Z.of_nat k) = Ok b).
  { apply rd_lookup. cbn [old_screen refreshed]. rewrite Eo. by apply list_lookup_middle. }
  change (new_screen (refreshed s k)) with (new_screen s). rewrite (rd_lookup _ _ a Ha), Er. cbn [mbind result_bind].
  assert (Es : (if a =? b then Ok (refreshed s k)
      else s0 ← vt100_move_cursor bf l (Z.of_nat j + 1) (Z.of_nat i + 1) (refreshed s k); s0 ← port_write_ch a s0;
        v ← put (old_screen s0) (Z.of_nat k) a; Ok (set_old v s0)) = Ok (refreshed s (S k))).
  { assert (En : take (S k) (new_screen s) = take k (new_screen s) ++ [a]) by (by apply take_S_r).
    assert (Ed : (k / 75 = i)%nat /\ (k mod 75 = j)%nat).
    { subst k. rewrite Nat.add_comm, Nat.div_add, Nat.Div0.mod_add by lia. rewrite Nat.div_small, Nat.mod_small by lia. lia. }
    destruct Ed as [Ei Ej]. unfold refreshed at 3. rewrite updates_S, En, <- app_assoc. unfold cell_update. rewrite Ha, Hb', Ei, Ej.
    destruct (Z.eqb_spec a b) as [->|].
    - cbn [app]. rewrite app_nil_r. unfold refreshed. by rewrite Eo.
    - rewrite vt100_move_cursor_spec by (unfold is_s32; lia). cbn [mbind result_bind]. unfold port_write_ch. rewrite Z.mod_small by done.
      cbn [mbind result_bind]. unfold refreshed, send. cbn [old_screen new_screen cur_x cur_y serial]. rewrite Eo.
      pose proof (put_app (take k (new_screen s)) b (drop (S k) (old_screen s)) a Hau) as Ep. rewrite Hlen in Ep. rewrite Ep. cbn [mbind result_bind]. unfold set_old. cbn.
      do 2 f_equal. unfold move_to. rewrite <- !app_assoc. cbn [app]. rewrite <- !app_assoc. cbn [app]. by rewrite <- !app_assoc. }
  rewrite Es. cbn [mbind result_bind].
  replace (Z.of_nat j + 1) with (Z.of_nat (S j)) by lia. replace (S k) with (i * 75 + S j)%nat by lia.
  rewrite IH by lia. do 2 f_equal. lia.
Qed.

Lemma reflush_loop_spec s n : length (new_screen s) = 2100%nat -> length (old_screen s) = 2100%nat -> bytes_ok (new_screen s) ->
  forall i : nat, (i + n <= 28)%nat -> reflush_loop bf l n (Z.of_nat i) (refreshed s (i * 75)) = Ok (refreshed s ((i + n) * 75)).
Proof.
  intros Hn Ho Hb. induction n as [|n IH]; intros i Hi; cbn [reflush_loop]; [by rewrite Nat.add_0_r|].
  pose proof (reflush_row_spec s 75 Hn Ho Hb i 0 ltac:(lia) ltac:(lia)) as E. rewrite Nat.add_0_r in E.
  change (Z.to_nat SCREEN_WIDTH) with 75%nat. change (Z.of_nat 0) with 0 in E. rewrite E. cbn [mbind result_bind].
  replace (Z.of_nat i + 1) with (Z.of_nat (S i)) by lia. replace (i * 75 + 75)%nat with (S i * 75)%nat by lia.
  rewrite IH by lia. do 2 f_equal. lia.
Qed.

Lemma screen_reflush_spec s : length (new_screen s) = 2100%nat -> length (old_screen s) = 2100%nat -> bytes_ok (new_screen s) ->
  screen_reflush bf l s = Ok (set_old (new_screen s) (send (updates (old_screen s) (new_screen s) 2100) s)).
Proof.
  intros Hn Ho Hb. pose proof (reflush_loop_spec s 28 Hn Ho Hb 0 ltac:(lia)) as E.
  assert (E0 : refreshed s (0 * 75) = s) by (destruct s; unfold refreshed; cbn; by rewrite app_nil_r).
  rewrite E0 in E. unfold screen_reflush. change (Z.to_nat SCREEN_HEIGHT) with 28%nat. change (Z.of_nat 0) with 0 in E. rewrite E.
  unfold refreshed, set_old, send. cbn [cur_x cur_y new_screen old_screen serial].
  rewrite (drop_ge (old_screen s)), take_ge by lia. by rewrite app_nil_r.
Qed.

(** Clearing the whole screen *)
Lemma screen_clear_spec s : length (new_screen s) = 2100%nat -> length (old_screen s) = 2100%nat -> bytes_ok (new_screen s) ->
  screen_clear bf l 0 (SCREEN_HEIGHT - 1) s =
    Ok (Screen (cur_x s) (cur_y s) (replicate 2100 32) (replicate 2100 32) (serial s ++ updates (old_screen s) (replicate 2100 32) 2100)).
Proof.
  intros Hn Ho Hb. unfold screen_clear. change (Z.to_nat (SCREEN_HEIGHT - 1 - 0 + 1)) with 28%nat.
  destruct (clear_loop_spec 28 0 s Hn Hb ltac:(lia)) as (x & E & Hlx & Hbx & Hlk). change (Z.of_nat 0) with 0 in E. rewrite E. cbn [mbind result_bind].
  rewrite screen_reflush_spec by done. assert (x = replicate 2100 32) as ->; [|done]. apply list_eq. intros k. rewrite Hlk. case_decide as Hk.
  - symmetry. apply lookup_replicate_2. lia.
  - rewrite (lookup_ge_None_2 (new_screen s)) by lia. symmetry. apply lookup_ge_None_2. rewrite length_replicate. lia.
Qed.
End refresh.

(** ** Lemmas: the terminal *)

Lemma receives_app a b t : receives (a ++ b) t = receives b (receives a t).
Proof. apply foldl_app. Qed.

Lemma receives_digits ds : forall r c g ps p, Forall (fun d => 0 <= d < 10) ds ->
  receives (digit_char false <$> reverse ds) (Terminal r c g (Params ps p)) =
    Terminal r c g (Params ps (p * 10 ^ Z.of_nat (length ds) + foldr (fun d a => d + 10 * a) 0 ds)).
Proof.
  induction ds as [|d ds IH]; intros r c g ps p Hd.
  { cbn. do 2 f_equal. lia. }
  apply Forall_cons in Hd as [Hd Hds]. rewrite reverse_cons, fmap_app, receives_app, IH by done. cbn [length foldr].
  rewrite Nat2Z.inj_succ, Z.pow_succ_r by lia. set (k := 10 ^ Z.of_nat (length ds)). set (m := foldr _ 0 ds).
  unfold digit_char. cbn [fmap list_fmap]. destruct (Z.ltb_spec d 10); [|lia]. cbn [receives foldl]. unfold receive. cbn [mode].
  unfold is_digit. rewrite (proj2 (Z.leb_le 48 (48 + d))), (proj2 (Z.leb_le (48 + d) 57)) by lia. cbn [andb row col grid].
  do 2 f_equal. lia.
Qed.

Lemma receives_number v r c g ps : 0 <= v < 2147483648 ->
  receives (number v 10 false false 0) (Terminal r c g (Params ps 0)) = Terminal r c g (Params ps v).
Proof.
  intros Hv. unfold number. destruct (Z.ltb_spec v 0); [lia|]. cbn [andb app]. cbv zeta. rewrite u32_id by (unfold is_u32; lia).
  pose proof (digits_le_value 33 10 v ltac:(lia) ltac:(lia)) as Ev. set (ds := digits_le 33 10 v) in *.
  change (Z.to_nat 0 - length ds)%nat with 0%nat. cbn [replicate app]. rewrite <- fmap_reverse, receives_digits by (apply digits_le_range; lia). rewrite Ev. done.
Qed.

Lemma receives_move x y t : mode t = Plain -> 0 <= x < 2147483648 -> 0 <= y < 2147483648 ->
  receives (move_to x y) t = Terminal y x (grid t) Plain.
Proof.
  intros Hm Hx Hy. unfold move_to. rewrite !receives_app. destruct t as [r c g m]. cbn in Hm. subst m.
  change (receives [27; 91] (Terminal r c g Plain)) with (Terminal r c g (Params [] 0)). rewrite receives_number by done.
  change (receives [59] _) with (Terminal r c g (Params [y] 0)). rewrite receives_number by done. done.
Qed.

(** What has been sent for the first [n] cells brings these up to date. *)
Lemma displays_updates old new t : length old = 2100%nat -> length new = 2100%nat -> displays t old ->
  (forall (k : nat) a, new !! k = Some a -> old !! k <> Some a -> printable a = true) ->
  forall n, (n <= 2100)%nat -> displays (receives (updates old new n) t) (take n new ++ drop n old).
Proof.
  intros Ho Hn Ht Hp n Hn'. induction n as [|n IH]; [exact Ht|].
  rewrite updates_S, receives_app. specialize (IH ltac:(lia)). set (t1 := receives (updates old new n) t) in *. destruct IH as [Hm Hg].
  destruct (lookup_lt_is_Some_2 new n) as [a Ha]; [lia|]. destruct (lookup_lt_is_Some_2 old n) as [b Hb]; [lia|].
  rewrite (take_S_r _ _ a Ha), <- app_assoc. unfold cell_update. rewrite Ha, Hb. rewrite (drop_S _ b n Hb) in Hg.
  destruct (Z.eqb_spec a b) as [->|Hab]; [by split|].
  assert (Hpa : printable a = true) by (apply (Hp n a Ha); congruence).
  assert (Hdiv : (n = n / 75 * 75 + n mod 75)%nat /\ (n mod 75 < 75)%nat).
  { split; [|by apply Nat.mod_upper_bound]. rewrite (Nat.div_mod_eq n 75) at 1. lia. }
  assert (E : receives ([27; 91] ++ number (Z.of_nat (n / 75) + 1) 10 false false 0 ++ [59] ++
      number (Z.of_nat (n mod 75) + 1) 10 false false 0 ++ [72; a]) t1 =
    Terminal (Z.of_nat (n / 75) + 1) (Z.of_nat (n mod 75) + 1 + 1)
      (draw (Z.of_nat (n / 75) + 1) (Z.of_nat (n mod 75) + 1) a (grid t1)) Plain).
  { pose proof (receives_move (Z.of_nat (n mod 75) + 1) (Z.of_nat (n / 75) + 1) t1 Hm ltac:(lia) ltac:(lia)) as E1. unfold move_to in E1.
    rewrite !receives_app in *. change [72; a] with ([72] ++ [a]). rewrite receives_app, E1. cbn [receives foldl]. unfold receive. cbn [mode row col grid].
    rewrite Hpa. destruct (Z.eqb_spec a 27) as [->|]; [done|]. done. }
  rewrite E. split; [done|]. cbn [grid]. intros i j Hi Hj. specialize (Hg i j Hi Hj). unfold draw.
  assert (Hlen : length (take n new) = n) by (rewrite length_take; lia).
  destruct (decide (i * 75 + j = n)%nat) as [En|En].
  - assert (i = n / 75 /\ j = n mod 75)%nat as [-> ->] by lia. rewrite decide_True by done. rewrite <- (proj1 Hdiv).
    rewrite <- Hlen at 3. by apply list_lookup_middle.
  - rewrite decide_False by lia. rewrite <- Hg. rewrite !lookup_app, !Hlen. destruct (take n new !! (i * 75 + j)%nat) eqn:Et; [done|].
    apply lookup_ge_None in Et. rewrite Hlen in Et. destruct (i * 75 + j - n)%nat as [|q] eqn:Eq; [lia|]. cbn. by rewrite Nat.sub_0_r.
Qed.

(** ** The arrays keep their size

    Whatever is drawn, wherever the cursor is: an operation that succeeds has written into the arrays. *)

Record drawable (s : screen) : Prop := {
  dr_new : length (new_screen s) = 2100%nat;
  dr_old : length (old_screen s) = 2100%nat;
  dr_bytes : bytes_ok (new_screen s)
}.

Definition draws (f : screen -> result screen) : Prop := forall s s', drawable s -> f s = Ok s' -> drawable s'.

Lemma draws_bind (f g : screen -> result screen) : draws f -> draws g -> draws (fun s => s ← f s; g s).
Proof. intros Hf Hg s s' H E. destruct (f s) as [s1| | |] eqn:E1; try done. apply (Hg s1 s'); [by apply (Hf s)|exact E]. Qed.

(** What is read or computed first *)
Lemma draws_with {A} (r : screen -> result A) (f : A -> screen -> result screen) : (forall x, draws (f x)) -> draws (fun s => x ← r s; f x s).
Proof. intros Hf s s' H E. destruct (r s) as [x| | |]; try done. by apply (Hf x s). Qed.

Lemma draws_Ok (f : screen -> screen) : (forall s, drawable s -> drawable (f s)) -> draws (fun s => Ok (f s)).
Proof. intros Hf s s' H [= <-]. by apply Hf. Qed.

Lemma put_keeps (v v' : list Z) i c : put v i c = Ok v' -> length v' = length v /\ (bytes_ok v -> bytes_ok v').
Proof.
  unfold put, aset. intros E. repeat case_match; simplify_eq. split; [apply length_insert|]. intros Hv. apply Forall_insert; [done|].
  unfold is_u8. pose proof (Z.mod_pos_bound c 256). lia.
Qed.

Lemma draws_put_new i j c : draws (put_new i j c).
Proof.
  intros s s' [H1 H2 H3] E. unfold put_new in E. destruct (put _ _ _) as [v| | |] eqn:Ep; try done. injection E as <-.
  destruct (put_keeps _ _ _ _ Ep) as [Hl Hb]. split; cbn [new_screen old_screen set_new]; [congruence|done|auto].
Qed.

Lemma draws_port_write b : draws (port_write b).
Proof. intros s s' [] E. unfold port_write in E. destruct (cstr b); [|done]. injection E as <-. by split. Qed.

Lemma draws_printk bf l fmt va : draws (printk bf l fmt va).
Proof. apply draws_with. intros b. apply draws_port_write. Qed.

Lemma draws_if (b : bool) (f g : screen -> result screen) : draws f -> draws g -> draws (fun s => if b then f s else g s).
Proof. by destruct b. Qed.

Lemma draws_cursor x y s : drawable s -> drawable (set_cursor x y s).
Proof. intros []. by split. Qed.

Lemma draws_scroll_row n i line2 : forall j, draws (scroll_row n i j line2).
Proof.
  induction n as [|n IH]; intros j; cbn [scroll_row]; [by intros s s' H [= <-]|]. apply draws_bind; [|apply IH].
  apply draws_if; [apply draws_put_new|]. apply draws_with. intros c. apply draws_put_new.
Qed.

Lemma draws_scroll line1 line2 : draws (screen_scroll line1 line2).
Proof.
  unfold screen_scroll. generalize (Z.to_nat (line2 - line1 + 1)). intros n. revert line1.
  induction n as [|n IH]; intros i; cbn [scroll_loop]; [by intros s s' H [= <-]|]. apply draws_bind; [apply draws_scroll_row|apply IH].
Qed.

Lemma draws_keep_last_line : draws keep_last_line.
Proof.
  intros s s' H E. unfold keep_last_line in E. case_match; [|by injection E as <-].
  destruct (screen_scroll _ _ s) as [s1| | |] eqn:E1; try done. injection E as <-. by eapply draws_cursor, draws_scroll.
Qed.

Lemma draws_write_ch c : draws (screen_write_ch c).
Proof.
  unfold screen_write_ch. apply draws_bind.
  - apply draws_if; [apply draws_Ok; intros s; apply draws_cursor|]. apply draws_if.
    + intros s s' H E. case_match; [|by injection E as <-]. eapply draws_put_new, E. by apply draws_cursor.
    + intros s s' H E. destruct (put_new _ _ _ s) as [s1| | |] eqn:E1; try done. injection E as <-. by eapply draws_cursor, draws_put_new.
  - intros s s' H E. eapply draws_keep_last_line, E. unfold wrap_line. case_match; [by apply draws_cursor|done].
Qed.

Lemma draws_write b : draws (screen_write b).
Proof.
  intros s s' H E. unfold screen_write in E. destruct (strlen b) as [n|]; [|done]. revert H E. generalize 0 at 1. generalize (Z.to_nat n) as k.
  intros k. revert s. induction k as [|k IH]; intros s i H E; cbn [write_loop] in E; [by injection E as <-|].
  destruct (rd b i) as [c| | |]; try done. cbn [mbind result_bind] in E. destruct (screen_write_ch c s) as [s1| | |] eqn:E1; try done.
  eapply IH, E. by eapply draws_write_ch.
Qed.

Lemma draws_reflush_row bf l n i : forall j, draws (reflush_row bf l n i j).
Proof.
  induction n as [|n IH]; intros j; cbn [reflush_row]; [by intros s s' H [= <-]|].
  apply draws_with. intros a. apply draws_with. intros b. apply draws_bind; [|apply IH]. apply draws_if; [by apply draws_Ok|].
  apply draws_bind; [apply draws_printk|]. apply draws_bind; [apply draws_Ok; intros s []; by split|].
  intros s s' [H1 H2 H3] E. destruct (put _ _ _) as [v| | |] eqn:Ep; try done. injection E as <-. destruct (put_keeps _ _ _ _ Ep) as [Hl _].
  split; cbn [new_screen old_screen set_old]; [done|congruence|done].
Qed.

Lemma draws_reflush bf l : draws (screen_reflush bf l).
Proof.
  unfold screen_reflush. generalize 0. generalize (Z.to_nat SCREEN_HEIGHT). intros n.
  induction n as [|n IH]; intros i; cbn [reflush_loop]; [by intros s s' H [= <-]|]. apply draws_bind; [apply draws_reflush_row|apply IH].
Qed.

Lemma draws_clear_row n i : forall j, draws (clear_row n i j).
Proof. induction n as [|n IH]; intros j; cbn [clear_row]; [by intros s s' H [= <-]|]. apply draws_bind; [apply draws_put_new|apply IH]. Qed.

Lemma draws_clear bf l line1 line2 : draws (screen_clear bf l line1 line2).
Proof.
  unfold screen_clear. apply draws_bind; [|apply draws_reflush]. generalize (Z.to_nat (line2 - line1 + 1)). intros n. revert line1.
  induction n as [|n IH]; intros i; cbn [clear_loop]; [by intros s s' H [= <-]|]. apply draws_bind; [apply draws_clear_row|apply IH].
Qed.

Lemma draws_printks bf l fmt va : draws (printks bf l fmt va).
Proof. apply draws_with. intros b. apply draws_bind; [apply draws_write|apply draws_reflush]. Qed.

Lemma draws_move_cursor x y : draws (fun s => Ok (screen_move_cursor x y s)).
Proof. apply draws_Ok. intros s. apply draws_cursor. Qed.

#[export] Hint Resolve draws_write draws_reflush draws_clear draws_printk draws_printks draws_move_cursor draws_port_write : os.

(** ** Theorems *)

(** C24. A refresh brings the terminal up to date: when the terminal shows the old buffer and the
    characters that changed are printable, then after [screen_reflush] it shows the new one, and so
    does the old buffer; nothing but the cells that changed is sent, and the buffer and the cursor stay. *)
Theorem screen_reflush_shows (bf l : list Z) (s : screen) (t : terminal)
    (Hbf : bf_ok bf) (Hl : (256 <= length l)%nat) (Hn : length (new_screen s) = 2100%nat) (Ho : length (old_screen s) = 2100%nat)
    (Hb : bytes_ok (new_screen s)) (Ht : displays t (old_screen s))
    (Hp : forall (k : nat) a, new_screen s !! k = Some a -> old_screen s !! k <> Some a -> printable a = true) :
  exists s' out, screen_reflush bf l s = Ok s' /\ serial s' = serial s ++ out /\ displays (receives out t) (new_screen s') /\
    out = concat (cell_update (old_screen s) (new_screen s) <$> seq 0 2100) /\
    new_screen s' = new_screen s /\ old_screen s' = new_screen s /\ cur_x s' = cur_x s /\ cur_y s' = cur_y s.
Proof.
  rewrite (screen_reflush_spec bf l Hbf Hl) by done. eexists _, _. split_and!; [done|done| |done..].
  cbn [new_screen set_old send]. pose proof (displays_updates _ _ t Ho Hn Ht Hp 2100 ltac:(lia)) as H.
  by rewrite (drop_ge (old_screen s)), take_ge, app_nil_r in H by lia.
Qed.

(** C25. Writing text moves through the lines of the screen as a typewriter does: with its cursor on
    the screen, [screen_write] never leaves the buffer, puts each character at the cursor, starts a new
    line at a line feed, a carriage return or the end of a line, erases the character before the
    cursor at a backspace, scrolls the lower window up when the last line is full, and leaves the
    cursor on the screen; nothing is sent before the next refresh. *)
Theorem screen_write_types (s : screen) (t : text) (buff x : list Z) (Hs : shows_text s t) (Hb : bytes_ok buff) (Hx : cstr buff = Some x) :
  exists s', screen_write buff s = Ok s' /\ shows_text s' (type_text x t) /\ old_screen s' = old_screen s /\ serial s' = serial s.
Proof.
  by apply screen_write_spec.
Qed.

(** *** Applied to a cleared screen *)

Definition cleared : screen := Screen 3 26 (replicate 2100 32) (replicate 2100 32) [].

Definition cleared_text : text := Text 3 26 (replicate 28 blank_line).

Lemma cleared_shows : shows_text cleared cleared_text.
Proof.
  split; cbn [cur_x cur_y tx ty cleared cleared_text new_screen lines]; [split; [done|lia]|split; [done|lia]|by rewrite length_replicate| |].
  - apply Forall_replicate. by unfold is_u8.
  - intros i j Hi Hj. rewrite lookup_replicate_2 by lia. rewrite lookup_replicate_2 by lia. symmetry. by apply (lookup_replicate_2 75).
Qed.

(** "ok" and a line feed on the last line: the window scrolls. *)
Lemma screen_write_types_witness : exists s', screen_write [111; 107; 10; 0] cleared = Ok s' /\ cur_x s' = 0 /\ cur_y s' = 26 /\
  new_screen s' !! (25 * 75 + 3)%nat = Some 111 /\ new_screen s' !! (26 * 75 + 3)%nat = Some 32.
Proof.
  destruct (screen_write_types cleared cleared_text [111; 107; 10; 0] [111; 107; 10]) as (s' & E & H & _).
  - exact cleared_shows.
  - repeat constructor; lia.
  - reflexivity.
  - exists s'. split; [exact E|]. destruct H as [[Hx _] [Hy _] _ _ Hc]. rewrite Hx, Hy, (Hc 25%nat 3%nat), (Hc 26%nat 3%nat) by lia.
    split_and!; vm_compute; reflexivity.
Defined.

Definition written : screen := set_new (<[77%nat := 111]> (replicate 2100 32)) cleared.

(** One character changed, in line 1, column 2: row 2, column 3 of the terminal *)
Lemma screen_reflush_shows_witness : exists s', screen_reflush (replicate 24 0) (replicate 256 0) written = Ok s' /\
  serial s' = [27; 91; 50; 59; 51; 72; 111] /\ grid (receives (serial s') (Terminal 1 1 (fun _ _ => 32) Plain)) 2 3 = 111.
Proof.
  destruct (screen_reflush_shows (replicate 24 0) (replicate 256 0) written (Terminal 1 1 (fun _ _ => 32) Plain))
    as (s' & out & E & Es & _ & Eo & _).
  - split; [|reflexivity]. apply Forall_replicate. by unfold is_u8.
  - rewrite length_replicate. lia.
  - reflexivity.
  - reflexivity.
  - apply Forall_insert; [apply Forall_replicate|]; by unfold is_u8.
  - split; [reflexivity|]. intros i j Hi Hj. apply lookup_replicate_2. lia.
  - intros k a Hk Hn. change (new_screen written) with (<[77%nat := 111]> (replicate 2100 32)) in Hk. destruct (decide (k = 77%nat)) as [->|Hk77].
    + rewrite list_lookup_insert_eq in Hk by (rewrite length_replicate; lia). by injection Hk as <-.
    + rewrite list_lookup_insert_ne in Hk by done. done.
  - exists s'. split; [exact E|]. assert (serial s' = [27; 91; 50; 59; 51; 72; 111]) as ->.
    { rewrite Es, Eo. vm_compute. reflexivity. }
    split; reflexivity.
Defined.
