(* ===== verification/Layout.v ===== *)
(** Memory layouts of C data: the bytes of an object, little-endian and without padding, as a cast to
    [uint8_t *] shows them. A [layout] has a size, an encoder and a decoder; [Lawful] says that they
    are inverse to each other, and its instances build the layout of a struct from its fields'. *)

From S2P Require Import Prelude CString.

Record layout (A : Type) := Layout {
  lsize : nat;
  enc : A -> list Z;
  dec : list Z -> A;
  wf : A -> Prop
}.
Arguments Layout {A}.
Arguments lsize {A}.
Arguments enc {A}.
Arguments dec {A}.
Arguments wf {A}.

Class Lawful {A} (L : layout A) := {
  enc_length a : wf L a -> length (enc L a) = lsize L;
  enc_bytes a : wf L a -> bytes_ok (enc L a);
  dec_enc a r : wf L a -> dec L (enc L a ++ r) = a;
  dec_wf l : bytes_ok l -> (lsize L <= length l)%nat -> wf L (dec L l);
  enc_dec l : bytes_ok l -> (lsize L <= length l)%nat -> enc L (dec L l) = take (lsize L) l
}.

(** [uint8_t] and [uint32_t] *)
Definition u8_l : layout Z := Layout 1 (fun z => [z]) (fun l => hd 0 l) is_u8.

Definition le4 (z : Z) : list Z := [z mod 256; z / 256 mod 256; z / 65536 mod 256; z / 16777216 mod 256].

Definition of_le4 (l : list Z) : Z :=
  match l with a :: b :: c :: d :: _ => a + 256 * b + 65536 * c + 16777216 * d | _ => 0 end.

Definition u32_l : layout Z := Layout 4 le4 of_le4 is_u32.

(** Two objects in a row. *)
Definition pair_l {A B} (L : layout A) (M : layout B) : layout (A * B) :=
  Layout (lsize L + lsize M) (fun p => enc L (fst p) ++ enc M (snd p))
    (fun l => (dec L l, dec M (drop (lsize L) l))) (fun p => wf L (fst p) /\ wf M (snd p)).

(** An array of [n] objects. *)
Fixpoint dec_arr {A} (L : layout A) (n : nat) (l : list Z) : list A :=
  match n with O => [] | S n => dec L l :: dec_arr L n (drop (lsize L) l) end.

Definition arr_l {A} (n : nat) (L : layout A) : layout (list A) :=
  Layout (n * lsize L) (fun xs => concat (enc L <$> xs)) (dec_arr L n) (fun xs => length xs = n /\ Forall (wf L) xs).

(** A struct as the record of its fields. *)
Definition iso_l {A B} (f : A -> B) (g : B -> A) (L : layout A) : layout B :=
  Layout (lsize L) (fun b => enc L (g b)) (fun l => f (dec L l)) (fun b => wf L (g b)).

(** ** The laws *)

#[local] Ltac Zify.zify_post_hook ::= Z.to_euclidean_division_equations.

#[global] Instance u8_lawful : Lawful u8_l.
Proof.
  split; cbn.
  - done.
  - intros a Ha. by constructor.
  - done.
  - intros l Hl Hn. destruct l as [|c l]; cbn in *; [lia|]. by apply Forall_cons in Hl as [].
  - intros l _ Hn. destruct l as [|c l]; cbn in *; [lia|]. by rewrite take_0.
Qed.

#[global] Instance u32_lawful : Lawful u32_l.
Proof.
  split; cbn [lsize enc dec wf u32_l].
  - done.
  - intros a Ha. unfold le4, is_u32, is_u8 in *. repeat constructor; lia.
  - intros a r Ha. unfold is_u32 in Ha. cbn. lia.
  - intros l Hl Hn. destruct l as [|a [|b [|c [|d l]]]]; cbn in Hn; try lia.
    unfold bytes_ok in Hl. rewrite !Forall_cons in Hl. unfold is_u8, is_u32 in *. cbn. lia.
  - intros l Hl Hn. destruct l as [|a [|b [|c [|d l]]]]; cbn in Hn; try lia.
    unfold bytes_ok in Hl. rewrite !Forall_cons in Hl. unfold is_u8, le4 in *. cbn [of_le4 take]. repeat f_equal; lia.
Qed.

#[global] Instance pair_lawful {A B} (L : layout A) (M : layout B) : Lawful L -> Lawful M -> Lawful (pair_l L M).
Proof.
  intros HL HM. split; cbn [lsize enc dec wf pair_l].
  - intros [a b] [Ha Hb]. cbn [fst snd]. by rewrite length_app, !enc_length.
  - intros [a b] [Ha Hb]. cbn [fst snd]. apply Forall_app. split; by apply enc_bytes.
  - intros [a b] r [Ha Hb]. cbn [fst snd] in *. rewrite <- app_assoc, dec_enc by done.
    rewrite <- (enc_length a) at 1 by done. by rewrite drop_app_length, dec_enc.
  - intros l Hl Hn. split; apply dec_wf; [done|lia|by apply Forall_drop|rewrite length_drop; lia].
  - intros l Hl Hn. cbn [fst snd]. rewrite !enc_dec by (try done; try (by apply Forall_drop); rewrite ?length_drop; lia).
    by rewrite <- take_take_drop.
Qed.

#[global] Instance iso_lawful {A B} (f : A -> B) (g : B -> A) (L : layout A) :
  (forall a, g (f a) = a) -> (forall b, f (g b) = b) -> Lawful L -> Lawful (iso_l f g L).
Proof.
  intros Hgf Hfg HL. split; cbn [lsize enc dec wf iso_l].
  - intros b Hb. by apply enc_length.
  - intros b Hb. by apply enc_bytes.
  - intros b r Hb. by rewrite dec_enc.
  - intros l Hl Hn. rewrite Hgf. by apply dec_wf.
  - intros l Hl Hn. rewrite Hgf. by apply enc_dec.
Qed.

#[global] Instance arr_lawful {A} (n : nat) (L : layout A) : Lawful L -> Lawful (arr_l n L).
Proof.
  intros HL. split; cbn [lsize enc dec wf arr_l].
  - intros xs [<- Hxs]. induction Hxs; cbn; [done|]. by rewrite length_app, enc_length, IHHxs.
  - intros xs [_ Hxs]. induction Hxs; cbn; [by constructor|]. apply Forall_app. split; [by apply enc_bytes|done].
  - intros xs r [<- Hxs]. induction Hxs as [|x xs Hx _ IH]; cbn; [done|].
    rewrite <- app_assoc, dec_enc by done. rewrite <- (enc_length x) at 1 by done. by rewrite drop_app_length, IH.
  - intros l. revert l. induction n as [|n IH]; intros l Hl Hn; cbn in *; [done|].
    destruct (IH (drop (lsize L) l)) as [H1 H2]; [by apply Forall_drop|rewrite length_drop; lia|].
    split; [by rewrite H1|]. constructor; [apply dec_wf; [done|lia]|done].
  - intros l. revert l. induction n as [|n IH]; intros l Hl Hn; cbn in *; [done|].
    rewrite IH, enc_dec by (try done; try (by apply Forall_drop); rewrite ?length_drop; lia). by rewrite <- take_take_drop.
Qed.

(** ** Lemmas *)

Lemma dec_arr_length {A} (L : layout A) n l : length (dec_arr L n l) = n.
Proof. revert l. induction n; intros l; cbn; [done|]. by rewrite IHn. Qed.

(** Decoding what was encoded, with nothing behind. *)
Lemma dec_enc_nil {A} (L : layout A) `{!Lawful L} a : wf L a -> dec L (enc L a) = a.
Proof. intros Ha. rewrite <- (app_nil_r (enc L a)). by apply dec_enc. Qed.
