(* ===== verification/Sdcard.v ===== *)
(** The SD card, [sdread] and [sdwrite] of [arch/mips/pmon/common.c] as they run on the LS1C board,
    and [SdCard], the interface the file system uses.

    The card itself, behind the firmware's [Read_Single_Block] and behind [write_block], is a
    [BlockDev]: blocks of 512 bytes. [write_block] sends 512 bytes of [indexbuf], a buffer of the
    driver that keeps its contents from one call to the next, so it is part of the state. The
    firmware functions called under QEMU are another instance's business: [SdCard] says what either
    must do. *)

From S2P Require Import Prelude CString.

Definition SECTOR_SIZE : Z := 512.

(** ** The device *)

Class BlockDev (B : Type) := {
  block : B -> Z -> list Z;
  put_block : B -> Z -> list Z -> B;
  block_length d k : length (block d k) = 512%nat;
  block_bytes d k : bytes_ok (block d k);
  block_put d k b j : length b = 512%nat -> bytes_ok b ->
    block (put_block d k b) j = if decide (j = k) then b else block d j
}.

(** ** The driver *)

Record sd (B : Type) := Sd { dev : B; indexbuf : list Z }.
Arguments Sd {B}.
Arguments dev {B}.
Arguments indexbuf {B}.

Section driver.
Context {B : Type} `{!BlockDev B}.

(** [once]: up to the end of the block. *)
Definition once (pos left : Z) : Z :=
  if 512 - Z.land pos 511 <? left then 512 - Z.land pos 511 else left.

(** The loop of [sdwrite]: [left] bytes to write, at [pos]. *)
Fixpoint sdwrite_loop (fuel : nat) (s : sd B) (buf : list Z) (pos left : Z) : option (sd B) :=
  if left =? 0 then Some s
  else
    match fuel with
    | O => None
    | S fuel =>
        let m := once pos left in
        w ← slice buf 0 m;
        ib ← splice (indexbuf s) (Z.land pos 511) w;
        sdwrite_loop fuel (Sd (put_block (dev s) (Z.shiftr pos 9) ib) ib)
          (drop (Z.to_nat m) buf) (u32 (pos + m)) (left - m)
    end.

Definition sdwrite (s : sd B) (buf : list Z) (base n : Z) : option (sd B) :=
  sdwrite_loop (Z.to_nat (u32 n)) s buf base (u32 n).

(** The loop of [sdread]: the bytes it still has to copy. *)
Fixpoint sdread_loop (fuel : nat) (s : sd B) (pos left : Z) : option (list Z) :=
  if left =? 0 then Some []
  else
    match fuel with
    | O => None
    | S fuel =>
        let m := once pos left in
        w ← slice (block (dev s) (Z.shiftr pos 9)) (Z.land pos 511) m;
        r ← sdread_loop fuel s (u32 (pos + m)) (left - m);
        Some (w ++ r)
    end.

Definition sdread (s : sd B) (base n : Z) : option (list Z) := sdread_loop (Z.to_nat (u32 n)) s base (u32 n).

End driver.

(** ** The interface *)

Definition aligned (a : Z) : Prop := 0 <= a /\ a + 512 < 4294967296 /\ a mod 512 = 0.

(** [read_sector d a] and [write_sector d b a]: [sdread] and [sdwrite] of one sector at [a]. *)
Class SdCard (D : Type) := {
  card_ok : D -> Prop;
  read_sector : D -> Z -> list Z;
  write_sector : D -> list Z -> Z -> D;
  read_sector_length d a : card_ok d -> length (read_sector d a) = 512%nat;
  read_sector_bytes d a : card_ok d -> bytes_ok (read_sector d a);
  write_sector_ok d b a : card_ok d -> length b = 512%nat -> bytes_ok b -> aligned a -> card_ok (write_sector d b a);
  read_write_sector d b a c : card_ok d -> length b = 512%nat -> bytes_ok b -> aligned a -> aligned c ->
    read_sector (write_sector d b a) c = if decide (c = a) then b else read_sector d c
}.

(** ** The bytes of the card *)

Section card.
Context {B : Type} `{!BlockDev B}.
Implicit Types (s : sd B).

Definition byte_at (d : B) (a : Z) : option Z := (block d (a / 512)).[a mod 512].

#[local] Ltac Zify.zify_post_hook ::= Z.to_euclidean_division_equations.

Lemma land_511 a : Z.land a 511 = a mod 512.
Proof. change 511 with (Z.ones 9). by rewrite Z.land_ones. Qed.

Lemma shiftr_9 a : Z.shiftr a 9 = a / 512.
Proof. by rewrite Z.shiftr_div_pow2. Qed.

Lemma once_range pos left : 0 < left -> 0 < once pos left <= left /\ pos mod 512 + once pos left <= 512.
Proof. intros H. unfold once. rewrite land_511. case_cmp; lia. Qed.

(** Reading: any range, across the end of the 32-bit address space too. *)
Lemma sdread_loop_spec fuel : forall s pos left,
  is_u32 pos -> 0 <= left <= Z.of_nat fuel ->
  exists r, sdread_loop fuel s pos left = Some r /\ Z.of_nat (length r) = left /\
    forall j, 0 <= j < left -> r.[j] = byte_at (dev s) (u32 (pos + j)).
Proof.
  unfold is_u32. induction fuel as [|fuel IH]; intros s pos left Hp Hl; cbn [sdread_loop].
  { replace left with 0 by lia. exists []. split_and!; [done|done|lia]. }
  case_cmp; [subst; exists []; split_and!; [done|done|lia]|].
  pose proof (once_range pos left ltac:(lia)) as [Ho1 Ho2]. set (m := once pos left) in *.
  rewrite land_511, shiftr_9. pose proof (block_length (dev s) (pos / 512)) as Hbl.
  assert (Hw : is_Some (slice (block (dev s) (pos / 512)) (pos mod 512) m))
    by (unfold slice; rewrite decide_True by lia; eauto).
  destruct Hw as [w Hw]. rewrite Hw. cbn.
  destruct (IH s (u32 (pos + m)) (left - m)) as (r & E & Hr & Hg); [apply u32_range|lia|]. rewrite E. cbn.
  pose proof (slice_length _ _ _ _ Hw) as Hwl. exists (w ++ r). split; [done|]. split; [rewrite length_app; lia|].
  intros j Hj. destruct (decide (j < m)).
  - transitivity (w.[j]).
    { unfold aget. rewrite !decide_True by lia. by rewrite lookup_app_l by lia. }
    rewrite (slice_lookup _ _ _ _ j Hw), decide_True by lia. unfold byte_at, u32. f_equal; [f_equal|]; lia.
  - transitivity (r.[j - m]).
    { unfold aget. rewrite !decide_True by lia. rewrite lookup_app_r by lia. f_equal. lia. }
    rewrite Hg by lia. f_equal. unfold u32. rewrite Zplus_mod_idemp_l. f_equal. lia.
Qed.

(** Whole blocks. *)
Lemma sdwrite_loop_spec fuel : forall s buf pos (k : nat),
  (k <= fuel)%nat -> 0 <= pos -> pos mod 512 = 0 -> pos + 512 * Z.of_nat k < 4294967296 ->
  length (indexbuf s) = 512%nat -> (512 * k <= length buf)%nat -> bytes_ok buf ->
  exists s', sdwrite_loop fuel s buf pos (512 * Z.of_nat k) = Some s' /\ length (indexbuf s') = 512%nat /\
    forall a, 0 <= a -> byte_at (dev s') a = if decide (pos <= a < pos + 512 * Z.of_nat k) then buf.[a - pos] else byte_at (dev s) a.
Proof.
  induction fuel as [|fuel IH]; intros s buf pos k Hk Hp Ha Hb Hib Hbuf Hok; cbn [sdwrite_loop].
  { replace k with 0%nat by lia. exists s. split_and!; [done|done|]. intros a _. by rewrite decide_False by lia. }
  destruct k as [|k]; [exists s; split_and!; [done|done|]; intros a _; by rewrite decide_False by lia|].
  rewrite (proj2 (Z.eqb_neq _ 0)) by lia.
  assert (Ho : once pos (512 * Z.of_nat (S k)) = 512) by (unfold once; rewrite land_511; case_cmp; lia).
  rewrite Ho, land_511, shiftr_9, Ha.
  assert (Hw : slice buf 0 512 = Some (take 512 buf)) by (unfold slice; rewrite decide_True by lia; done).
  rewrite Hw. cbn [mbind option_bind].
  assert (Hlt : length (take 512 buf) = 512%nat) by (rewrite length_take; lia).
  assert (Hib' : splice (indexbuf s) 0 (take 512 buf) = Some (take 512 buf)).
  { unfold splice. rewrite Hlt, decide_True by lia. cbn [Z.to_nat take Nat.add].
    rewrite drop_ge by lia. by rewrite app_nil_r. }
  rewrite Hib'. cbn [mbind option_bind]. rewrite u32_id by (unfold is_u32; lia).
  replace (512 * Z.of_nat (S k) - 512) with (512 * Z.of_nat k) by lia.
  set (s1 := Sd (put_block (dev s) (pos / 512) (take 512 buf)) (take 512 buf)).
  assert (Hok1 : bytes_ok (take 512 buf)) by by apply Forall_take.
  destruct (IH s1 (drop (Z.to_nat 512) buf) (pos + 512) k) as (s' & E & Hl' & Hg);
    [lia|lia|lia|lia|done|rewrite length_drop; lia|by apply Forall_drop|].
  exists s'. split; [done|]. split; [done|]. intros a Ha0. rewrite Hg by done.
  assert (H1 : byte_at (dev s1) a = if decide (pos <= a < pos + 512) then buf.[a - pos] else byte_at (dev s) a).
  { unfold byte_at, s1. cbn [dev]. rewrite block_put by done. destruct (decide (a / 512 = pos / 512)) as [Hd|Hd].
    - rewrite decide_True by lia. unfold aget. rewrite !decide_True by lia. rewrite lookup_take_lt by lia. f_equal. lia.
    - by rewrite decide_False by lia. }
  rewrite H1. destruct (decide (pos + 512 <= a < pos + 512 + 512 * Z.of_nat k)).
  - rewrite decide_True by lia. unfold aget. rewrite !decide_True by lia. rewrite lookup_drop. f_equal. lia.
  - destruct (decide (pos <= a < pos + 512)); [by rewrite decide_True by lia|by rewrite decide_False by lia].
Qed.

(** Two blocks with the same bytes. *)
Lemma block_ext (d d' : B) k : 0 <= k -> (forall a, 0 <= a -> a / 512 = k -> byte_at d a = byte_at d' a) -> block d k = block d' k.
Proof.
  intros Hk H. apply list_eq_aget; [by rewrite !block_length|]. intros j Hj. rewrite block_length in Hj.
  specialize (H (512 * k + j) ltac:(lia) ltac:(lia)). unfold byte_at in H.
  replace ((512 * k + j) / 512) with k in H by lia. by replace ((512 * k + j) mod 512) with j in H by lia.
Qed.

(** *** The driver implements the interface *)

Definition driver_ok (s : sd B) : Prop := length (indexbuf s) = 512%nat.

Definition driver_read (s : sd B) (a : Z) : list Z :=
  match sdread s (u32 a) SECTOR_SIZE with Some r => r | None => replicate 512 0 end.

Definition driver_write (s : sd B) (b : list Z) (a : Z) : sd B :=
  match sdwrite s b (u32 a) SECTOR_SIZE with Some s => s | None => s end.

Lemma driver_write_spec s b a : driver_ok s -> length b = 512%nat -> bytes_ok b -> aligned a ->
  driver_ok (driver_write s b a) /\
  forall c, 0 <= c -> byte_at (dev (driver_write s b a)) c = if decide (a <= c < a + 512) then b.[c - a] else byte_at (dev s) c.
Proof.
  intros Hs Hb Hok [Ha1 Ha2]. destruct (sdwrite_loop_spec 512 s b a 1) as (s' & E & Hl & Hg); try done; try lia.
  unfold driver_write, sdwrite. rewrite (u32_id a) by (unfold is_u32; lia).
  change (u32 SECTOR_SIZE) with (512 * Z.of_nat 1). change (Z.to_nat (512 * Z.of_nat 1)) with 512%nat.
  rewrite E. split; [done|]. intros c Hc. rewrite Hg by done. done.
Qed.

Lemma driver_read_spec s a :
  length (driver_read s a) = 512%nat /\ forall j, 0 <= j < 512 -> (driver_read s a).[j] = byte_at (dev s) (u32 (a + j)).
Proof.
  destruct (sdread_loop_spec 512 s (u32 a) 512) as (r & E & Hl & Hg); [apply u32_range|lia|].
  unfold driver_read, sdread. change (u32 SECTOR_SIZE) with 512. change (Z.to_nat 512) with 512%nat. rewrite E.
  split; [lia|]. intros j Hj. rewrite Hg by done. f_equal. unfold u32. by rewrite Zplus_mod_idemp_l.
Qed.

Lemma byte_at_u8 (d : B) a c : byte_at d a = Some c -> is_u8 c.
Proof.
  unfold byte_at, aget. case_decide; [|done]. intros H1. pose proof (block_bytes d (a / 512)) as H2.
  unfold bytes_ok in H2. rewrite Forall_lookup in H2. eauto.
Qed.

#[global] Program Instance driver_sdcard : SdCard (sd B) := {
  card_ok := driver_ok;
  read_sector := driver_read;
  write_sector := driver_write
}.
Next Obligation. intros s a _. apply driver_read_spec. Qed.
Next Obligation.
  intros s a _. destruct (driver_read_spec s a) as [Hl Hg]. apply Forall_lookup. intros j c Hc.
  pose proof (lookup_lt_Some _ _ _ Hc). specialize (Hg (Z.of_nat j) ltac:(lia)). rewrite aget_nat, Hc in Hg.
  symmetry in Hg. by eapply byte_at_u8.
Qed.
Next Obligation. intros s b a Hs Hb Hok Ha. by apply driver_write_spec. Qed.
Next Obligation.
  intros s b a c Hs Hb Hok Ha Hc. destruct (driver_write_spec s b a Hs Hb Hok Ha) as [_ Hw].
  destruct (driver_read_spec (driver_write s b a) c) as [Hl1 Hr1]. destruct (driver_read_spec s c) as [Hl2 Hr2].
  destruct Ha as [Ha1 Ha2], Hc as [Hc1 Hc2].
  assert (H : forall j, 0 <= j < 512 -> (driver_read (driver_write s b a) c).[j] =
    if decide (a <= c + j < a + 512) then b.[c + j - a] else (driver_read s c).[j]).
  { intros j Hj. rewrite Hr1, Hr2 by done. rewrite !(u32_id (c + j)) by (unfold is_u32; lia). apply Hw. lia. }
  apply list_eq_aget; [by case_decide; rewrite Hl1|]. intros j Hj. rewrite H by lia. case_decide as E.
  - subst. rewrite decide_True by lia. f_equal. lia.
  - by rewrite decide_False by lia.
Qed.

End card.

(** ** A card in memory *)

(** Sectors never written hold zeros. *)
Abbreviation memcard := (gmap Z (list Z)).

Definition sector_ok (b : list Z) : bool := Nat.eqb (length b) 512 && forallb (fun c => (0 <=? c) && (c <? 256)) b.

Definition mem_block (d : memcard) (k : Z) : list Z :=
  match d !! k with Some b => if sector_ok b then b else replicate 512 0 | None => replicate 512 0 end.

Lemma sector_ok_spec b : sector_ok b = true <-> length b = 512%nat /\ bytes_ok b.
Proof.
  unfold sector_ok. rewrite andb_true_iff, Nat.eqb_eq, forallb_forall. unfold bytes_ok. rewrite Forall_forall.
  unfold is_u8. setoid_rewrite list_elem_of_In. setoid_rewrite andb_true_iff. setoid_rewrite Z.leb_le. by setoid_rewrite Z.ltb_lt.
Qed.

Lemma mem_block_ok d k : length (mem_block d k) = 512%nat /\ bytes_ok (mem_block d k).
Proof.
  assert (H0 : length (replicate 512 0) = 512%nat /\ bytes_ok (replicate 512 0)).
  { split; [apply length_replicate|]. apply Forall_replicate. unfold is_u8. lia. }
  unfold mem_block. destruct (d !! k); [|done]. destruct (sector_ok _) eqn:E; [|done]. by apply sector_ok_spec.
Qed.

#[global] Program Instance memcard_dev : BlockDev memcard := {
  block := mem_block;
  put_block := fun d k b => <[k := b]> d
}.
Next Obligation. intros d k. apply mem_block_ok. Qed.
Next Obligation. intros d k. apply mem_block_ok. Qed.
Next Obligation.
  intros d k b j Hl Hb. unfold mem_block. case_decide as E.
  - subst. rewrite lookup_insert_eq. by rewrite (proj2 (sector_ok_spec b)).
  - by rewrite lookup_insert_ne by congruence.
Qed.

Definition empty_card : sd memcard := Sd ∅ (replicate 512 0).

(** ** Theorems *)

(** C38. A write of whole sectors is read back: after [sdwrite] of [k] sectors at an address that is
    a multiple of 512, [sdread] of any range, aligned or not, gives the bytes written where the range
    meets them and the bytes it gave before everywhere else. *)
Theorem sdread_after_sdwrite {B} `{!BlockDev B} (s : sd B) (buf : list Z) (base base' n : Z) (k : nat) :
  length (indexbuf s) = 512%nat -> (512 * k <= length buf)%nat -> bytes_ok buf ->
  0 <= base -> base mod 512 = 0 -> base + 512 * Z.of_nat k < 4294967296 ->
  0 <= base' -> 0 <= n -> base' + n < 4294967296 ->
  exists s' r r', sdwrite s buf base (512 * Z.of_nat k) = Some s' /\
    sdread s base' n = Some r /\ sdread s' base' n = Some r' /\ Z.of_nat (length r') = n /\
    forall j, 0 <= j < n ->
      r'.[j] = if decide (base <= base' + j < base + 512 * Z.of_nat k) then buf.[base' + j - base] else r.[j].
Proof.
  intros Hi Hb Hok H0 Ha H1 H2 Hn H3. unfold sdwrite, sdread. rewrite !u32_id by (unfold is_u32; lia).
  destruct (sdwrite_loop_spec (Z.to_nat (512 * Z.of_nat k)) s buf base k) as (s' & E & _ & Hg); [lia..|done|done|done|].
  destruct (sdread_loop_spec (Z.to_nat n) s base' n) as (r & Er & _ & Hr); [unfold is_u32; lia|lia|].
  destruct (sdread_loop_spec (Z.to_nat n) s' base' n) as (r' & Er' & Hl' & Hr'); [unfold is_u32; lia|lia|].
  exists s', r, r'. split_and!; try done. intros j Hj. rewrite Hr, Hr' by done.
  rewrite !u32_id by (unfold is_u32; lia). apply Hg. lia.
Qed.

Lemma sdread_after_sdwrite_witness :
  exists s' r r', sdwrite empty_card (replicate 512 7) 1024 512 = Some s' /\
    sdread empty_card 1500 40 = Some r /\ sdread s' 1500 40 = Some r' /\ Z.of_nat (length r') = 40 /\
    forall j, 0 <= j < 40 ->
      r'.[j] = if decide (1024 <= 1500 + j < 1024 + 512) then (replicate 512 7).[1500 + j - 1024] else r.[j].
Proof.
  apply (sdread_after_sdwrite empty_card (replicate 512 7) 1024 1500 40 1); try lia.
  - reflexivity.
  - reflexivity.
  - apply Forall_replicate. unfold is_u8. lia.
  - reflexivity.
Defined.

(** A write of part of a sector does not keep the rest of it: within one sector, [sdwrite]
    overlays its bytes on what [indexbuf] holds from the write before, not on what the card holds,
    and writes that as the sector. *)
Theorem sdwrite_partial_clobbers {B} `{!BlockDev B} (s : sd B) (buf : list Z) (base n : Z) :
  length (indexbuf s) = 512%nat -> bytes_ok (indexbuf s) -> bytes_ok buf -> is_u32 base ->
  0 < n -> base mod 512 + n <= 512 -> n <= Z.of_nat (length buf) ->
  exists s', sdwrite s buf base n = Some s' /\
    splice (indexbuf s) (base mod 512) (take (Z.to_nat n) buf) = Some (block (dev s') (base / 512)) /\
    forall k, k <> base / 512 -> block (dev s') k = block (dev s) k.
Proof.
  intros Hi Hoki Hok Hp Hn H1 H2. pose proof (Z.mod_pos_bound base 512 ltac:(lia)) as Hm. unfold sdwrite. rewrite (u32_id n) by (unfold is_u32; lia).
  destruct (Z.to_nat n) as [|f] eqn:Ef; [lia|]. cbn [sdwrite_loop]. rewrite (proj2 (Z.eqb_neq n 0)) by lia.
  assert (Ho : once base n = n) by (unfold once; rewrite land_511; case_cmp; lia). rewrite Ho, land_511, shiftr_9.
  assert (Hw : slice buf 0 n = Some (take (S f) buf)) by (unfold slice; rewrite decide_True by lia; by rewrite Ef).
  rewrite Hw. cbn [mbind option_bind].
  assert (Hs : is_Some (splice (indexbuf s) (base mod 512) (take (S f) buf))).
  { pose proof (slice_length _ _ _ _ Hw). unfold splice. rewrite decide_True by lia. eauto. }
  destruct Hs as [ib Hs]. rewrite Hs. cbn [mbind option_bind]. rewrite Z.sub_diag.
  assert (Hib : bytes_ok ib).
  { revert Hs. unfold splice. case_decide; [|done]. intros [= <-].
    apply Forall_app. split; [by apply Forall_take|]. apply Forall_app. split; [by apply Forall_take|by apply Forall_drop]. }
  pose proof (splice_length _ _ _ _ Hs) as Hl. eexists. split; [by destruct f|]. cbn [dev].
  split; [by rewrite block_put, decide_True by (done || congruence)|].
  intros k Hk. by rewrite block_put, decide_False by (done || congruence).
Qed.

Lemma sdwrite_partial_clobbers_witness :
  exists s', sdwrite empty_card [1; 2; 3] 1030 3 = Some s' /\
    splice (replicate 512 0) 6 [1; 2; 3] = Some (block (dev s') 2) /\
    forall k, k <> 2 -> block (dev s') k = block (dev empty_card) k.
Proof.
  apply (sdwrite_partial_clobbers empty_card [1; 2; 3] 1030 3).
  - reflexivity.
  - apply Forall_replicate. unfold is_u8. lia.
  - repeat constructor; lia.
  - unfold is_u32. lia.
  - lia.
  - vm_compute. discriminate.
  - cbn. lia.
Defined.
