(* ===== verification/Fs.v ===== *)
(** The file system, [kernel/fs/fs.c] with [include/fs/fs.h], and [init_file_system] of
    [init/main.c], over any [SdCard].

    On the card: super block, inode map, sector map (256 sectors), inode array, data array. In
    memory: copies of the super block, of the inode map, of one sector of the sector map, of the
    current directory, and the table of open files. A structure goes to and from the card as the
    bytes of its layout. Objects the C code leaves uninitialised on the stack are parameters. *)

From S2P Require Import Prelude Slist CString Printk Layout Sdcard.

(** ** Constants *)

Definition MAGIC_NUMBER : Z := 0x99569A78.
Definition FS_BASE : Z := 0x01000000.
Definition IMAP_ADDR : Z := 0x01000200.
Definition SMAP_ADDR : Z := 0x01000400.
Definition IARRAY_ADDR : Z := 0x01020400.
Definition DARRAY_ADDR : Z := 0x01080000.
Definition INODE_ITEM_NUM : Z := 4096.
Definition DATA_ITEM_NUM : Z := 1048576.
Definition FILE_NORMAL : Z := 1.
Definition FILE_DIR : Z := 2.
Definition MAX_NAME_LENTH : Z := 26.
Definition MAX_DIR_ITEM_NUM : Z := 15.
Definition O_RDWR : Z := 0.
Definition O_RD : Z := 1.
Definition O_WR : Z := 2.
Definition FD_ARRAY_SIZE : Z := 64.
Definition FD_ARRAY_SLIST_SIZE : Z := 65.

(** ['\\'], and the conversion of -1 to [uint32_t] *)
Definition BACKSLASH : Z := 92.
Definition MINUS_ONE : Z := 4294967295.

(** ** Data *)

Record super_block_t := SuperBlock {
  imap_offset : Z;
  smap_offset : Z;
  iarray_offset : Z;
  darray_offset : Z;
  inode_size : Z;
  directory_size : Z;
  inode_number : Z;
  data_number : Z;
  data_used : Z;
  inode_used : Z;
  sb_reserved : list Z
}.

Record inode_t := Inode {
  type : Z;
  links : Z;
  inode_reserved : list Z;
  size : Z;
  size_allocated : Z;
  pointers : list Z
}.

Record dmap_t := Dmap { valid : Z; name : list Z; ino : Z }.

Record dir_t := Dir { fpointer : Z; dir_name : list Z; dir_reserved : Z; map : list dmap_t }.

(** The fields of [fd_t] are named [fd_ino], [access], [fd_size], [offset]. *)
Record fd_t := Fd { fd_ino : Z; access : Z; fd_size : Z; offset : Z }.

(** Assignment of one field *)
Definition set_data_used (v : Z) (s : super_block_t) : super_block_t :=
  SuperBlock (imap_offset s) (smap_offset s) (iarray_offset s) (darray_offset s) (inode_size s) (directory_size s)
    (inode_number s) (data_number s) v (inode_used s) (sb_reserved s).

Definition set_inode_used (v : Z) (s : super_block_t) : super_block_t :=
  SuperBlock (imap_offset s) (smap_offset s) (iarray_offset s) (darray_offset s) (inode_size s) (directory_size s)
    (inode_number s) (data_number s) (data_used s) v (sb_reserved s).

Definition set_type (v : Z) (n : inode_t) : inode_t :=
  Inode v (links n) (inode_reserved n) (size n) (size_allocated n) (pointers n).

Definition set_links (v : Z) (n : inode_t) : inode_t :=
  Inode (type n) v (inode_reserved n) (size n) (size_allocated n) (pointers n).

Definition set_size (v : Z) (n : inode_t) : inode_t :=
  Inode (type n) (links n) (inode_reserved n) v (size_allocated n) (pointers n).

Definition set_size_allocated (v : Z) (n : inode_t) : inode_t :=
  Inode (type n) (links n) (inode_reserved n) (size n) v (pointers n).

Definition set_pointers (v : list Z) (n : inode_t) : inode_t :=
  Inode (type n) (links n) (inode_reserved n) (size n) (size_allocated n) v.

Definition set_valid (v : Z) (e : dmap_t) : dmap_t := Dmap v (name e) (ino e).

Definition set_name (v : list Z) (e : dmap_t) : dmap_t := Dmap (valid e) v (ino e).

Definition set_ino (v : Z) (e : dmap_t) : dmap_t := Dmap (valid e) (name e) v.

Definition set_map (v : list dmap_t) (d : dir_t) : dir_t := Dir (fpointer d) (dir_name d) (dir_reserved d) v.

Definition set_fpointer (v : Z) (d : dir_t) : dir_t := Dir v (dir_name d) (dir_reserved d) (map d).

Definition set_dir_name (v : list Z) (d : dir_t) : dir_t := Dir (fpointer d) v (dir_reserved d) (map d).

Definition set_offset (v : Z) (f : fd_t) : fd_t := Fd (fd_ino f) (access f) (fd_size f) v.

Definition set_fd_size (v : Z) (f : fd_t) : fd_t := Fd (fd_ino f) (access f) v (offset f).

(** ** Their layouts *)

Definition words_l (n : nat) : layout (list Z) := arr_l n u32_l.

Definition super_block_l : layout super_block_t :=
  iso_l (fun '(a, (b, (c, (d, (e, (f, (g, (h, (i, (j, r)))))))))) => SuperBlock a b c d e f g h i j r)
    (fun s => (imap_offset s, (smap_offset s, (iarray_offset s, (darray_offset s, (inode_size s, (directory_size s,
      (inode_number s, (data_number s, (data_used s, (inode_used s, sb_reserved s)))))))))))
    (pair_l u32_l (pair_l u32_l (pair_l u32_l (pair_l u32_l (pair_l u32_l (pair_l u32_l (pair_l u32_l (pair_l u32_l
      (pair_l u32_l (pair_l u32_l (words_l 118))))))))))).

Definition inode_l : layout inode_t :=
  iso_l (fun '(t, (l, (r, (s, (a, p))))) => Inode t l r s a p)
    (fun n => (type n, (links n, (inode_reserved n, (size n, (size_allocated n, pointers n))))))
    (pair_l u8_l (pair_l u8_l (pair_l (arr_l 2 u8_l) (pair_l u32_l (pair_l u32_l (words_l 13)))))).

Definition dmap_l : layout dmap_t :=
  iso_l (fun '(v, (n, i)) => Dmap v n i) (fun e => (valid e, (name e, ino e)))
    (pair_l u8_l (pair_l (arr_l 27 u8_l) u32_l)).

Definition dir_l : layout dir_t :=
  iso_l (fun '(f, (n, (r, m))) => Dir f n r m) (fun d => (fpointer d, (dir_name d, (dir_reserved d, map d))))
    (pair_l u32_l (pair_l (arr_l 27 u8_l) (pair_l u8_l (arr_l 15 dmap_l)))).

(** [inode_t inode[8]], a sector of the inode array *)
Definition inodes_l : layout (list inode_t) := arr_l 8 inode_l.

(** [slink_t] *)
Definition slink_l : layout (list Z) := arr_l 512 u8_l.

(** ** The state *)

(** [regs2]: [current_running->user_regs_context.regs[2]], the result of a system call. [console]:
    what [printks] was called with, the latest first. *)
Record fs (D : Type) := Fs {
  disk : D;
  super_block : super_block_t;
  current_dir : dir_t;
  current_dir_pointer : Z;
  imap : list Z;
  smap : list Z;
  smap_index : Z;
  fd_array : list fd_t;
  fd_array_slist : list node;
  regs2 : Z;
  console : list (string * list parg)
}.
Arguments Fs {D}.
Arguments disk {D}.
Arguments super_block {D}.
Arguments current_dir {D}.
Arguments current_dir_pointer {D}.
Arguments imap {D}.
Arguments smap {D}.
Arguments smap_index {D}.
Arguments fd_array {D}.
Arguments fd_array_slist {D}.
Arguments regs2 {D}.
Arguments console {D}.

Definition set_disk {D} (v : D) (s : fs D) : fs D :=
  Fs v (super_block s) (current_dir s) (current_dir_pointer s) (imap s) (smap s) (smap_index s) (fd_array s) (fd_array_slist s) (regs2 s) (console s).

Definition set_super_block {D} (v : super_block_t) (s : fs D) : fs D :=
  Fs (disk s) v (current_dir s) (current_dir_pointer s) (imap s) (smap s) (smap_index s) (fd_array s) (fd_array_slist s) (regs2 s) (console s).

Definition set_current_dir {D} (v : dir_t) (s : fs D) : fs D :=
  Fs (disk s) (super_block s) v (current_dir_pointer s) (imap s) (smap s) (smap_index s) (fd_array s) (fd_array_slist s) (regs2 s) (console s).

Definition set_current_dir_pointer {D} (v : Z) (s : fs D) : fs D :=
  Fs (disk s) (super_block s) (current_dir s) v (imap s) (smap s) (smap_index s) (fd_array s) (fd_array_slist s) (regs2 s) (console s).

Definition set_imap {D} (v : list Z) (s : fs D) : fs D :=
  Fs (disk s) (super_block s) (current_dir s) (current_dir_pointer s) v (smap s) (smap_index s) (fd_array s) (fd_array_slist s) (regs2 s) (console s).

Definition set_smap {D} (v : list Z) (s : fs D) : fs D :=
  Fs (disk s) (super_block s) (current_dir s) (current_dir_pointer s) (imap s) v (smap_index s) (fd_array s) (fd_array_slist s) (regs2 s) (console s).

Definition set_smap_index {D} (v : Z) (s : fs D) : fs D :=
  Fs (disk s) (super_block s) (current_dir s) (current_dir_pointer s) (imap s) (smap s) v (fd_array s) (fd_array_slist s) (regs2 s) (console s).

Definition set_fd_array {D} (v : list fd_t) (s : fs D) : fs D :=
  Fs (disk s) (super_block s) (current_dir s) (current_dir_pointer s) (imap s) (smap s) (smap_index s) v (fd_array_slist s) (regs2 s) (console s).

Definition set_fd_array_slist {D} (v : list node) (s : fs D) : fs D :=
  Fs (disk s) (super_block s) (current_dir s) (current_dir_pointer s) (imap s) (smap s) (smap_index s) (fd_array s) v (regs2 s) (console s).

Definition set_regs2 {D} (v : Z) (s : fs D) : fs D :=
  Fs (disk s) (super_block s) (current_dir s) (current_dir_pointer s) (imap s) (smap s) (smap_index s) (fd_array s) (fd_array_slist s) v (console s).

Definition set_console {D} (v : list (string * list parg)) (s : fs D) : fs D :=
  Fs (disk s) (super_block s) (current_dir s) (current_dir_pointer s) (imap s) (smap s) (smap_index s) (fd_array s) (fd_array_slist s) (regs2 s) v.

(** ** The monad of the operations *)

Definition F (D A : Type) : Type := fs D -> result (A * fs D).

#[global] Instance F_ret D : MRet (F D) := fun A x s => Ok (x, s).

#[global] Instance F_bind D : MBind (F D) := fun A B f m s =>
  match m s with
  | Ok (x, s) => f x s
  | Fault => Fault
  | Panic msg => Panic msg
  | OutOfFuel => OutOfFuel
  end.

Section operations.
Context {D : Type} `{!SdCard D}.

Definition get {A} (f : fs D -> A) : F D A := fun s => Ok (f s, s).

Definition modify (f : fs D -> fs D) : F D unit := fun s => Ok (tt, f s).

Definition panic {A} (msg : string) : F D A := fun _ => Panic msg.

Definition no_fuel {A} : F D A := fun _ => OutOfFuel.

Definition lift {A} (o : option A) : F D A := fun s => match o with Some x => Ok (x, s) | None => Fault end.

Definition printks (fmt : string) (args : list parg) : F D unit :=
  modify (fun s => set_console ((fmt, args) :: console s) s).

(** [current_running->user_regs_context.regs[2] = (uint32_t)v] *)
Definition set_result (v : Z) : F D unit := modify (set_regs2 (u32 v)).

(** [sdread] and [sdwrite] of one sector, as bytes and as a structure *)
Definition sdread_bytes (addr : Z) : F D (list Z) := get (fun s => read_sector (disk s) (u32 addr)).

Definition sdwrite_bytes (b : list Z) (addr : Z) : F D unit :=
  modify (fun s => set_disk (write_sector (disk s) b (u32 addr)) s).

Definition sdread_as {A} (L : layout A) (addr : Z) : F D A := b ← sdread_bytes addr; mret (dec L b).

Definition sdwrite_as {A} (L : layout A) (x : A) (addr : Z) : F D unit := sdwrite_bytes (enc L x) addr.

(** The copies on the card of the super block, the maps and the current directory *)
Definition write_super_block : F D unit := b ← get super_block; sdwrite_as super_block_l b FS_BASE.

Definition write_imap : F D unit := m ← get imap; sdwrite_as (words_l 128) m IMAP_ADDR.

Definition smap_addr (i : Z) : Z := SMAP_ADDR + i * SECTOR_SIZE.

Definition write_smap : F D unit := m ← get smap; i ← get smap_index; sdwrite_as (words_l 128) m (smap_addr i).

Definition read_smap : F D unit :=
  i ← get smap_index;
  m ← sdread_as (words_l 128) (smap_addr i);
  modify (set_smap m).

Definition write_current_dir : F D unit :=
  d ← get current_dir; p ← get current_dir_pointer; sdwrite_as dir_l d p.

(** [sdread((uint8_t * )inode, IARRAY_ADDR + ino_group*SECTOR_SIZE, SECTOR_SIZE)], and the write *)
Definition read_inodes (ino_group : Z) : F D (list inode_t) := sdread_as inodes_l (IARRAY_ADDR + ino_group * SECTOR_SIZE).

Definition write_inodes (inode : list inode_t) (ino_group : Z) : F D unit :=
  sdwrite_as inodes_l inode (IARRAY_ADDR + ino_group * SECTOR_SIZE).

(** ** Making and mounting *)

Definition mkfs_super_block (s : super_block_t) : super_block_t :=
  SuperBlock 1 2 258 1024 64 512 INODE_ITEM_NUM DATA_ITEM_NUM 1 1 (<[78%nat := MAGIC_NUMBER]> (sb_reserved s)).

(** [for(i = 0; i < 255; ++i, addr += SECTOR_SIZE) sdwrite(buf, addr, SECTOR_SIZE);] *)
Fixpoint mkfs_smap (n : nat) (buf : list Z) (addr : Z) : F D unit :=
  match n with
  | O => mret tt
  | S n => sdwrite_as (words_l 128) buf addr;; mkfs_smap n buf (addr + SECTOR_SIZE)
  end.

Definition mkfs_inode (n : inode_t) : inode_t :=
  Inode FILE_DIR 1 (inode_reserved n) 512 512 (<[0%nat := DARRAY_ADDR]> (pointers n)).

(** [for(i = 0; i < MAX_DIR_ITEM_NUM; ++i) d.map[i].valid = 0;] *)
Definition clear_valid (d : dir_t) : dir_t := set_map (set_valid 0 <$> map d) d.

(** [s], [inode] and [dir_root] are the uninitialised structures on the stack. *)
Definition mkfs (s : super_block_t) (inode : list inode_t) (dir_root : dir_t) : F D unit :=
  printks "[FS] Initializing file system...\n" [];;
  printks "[FS] Setting super block...\n" [];;
  sdwrite_as super_block_l (mkfs_super_block s) FS_BASE;;
  printks "[FS] Setting inode map & sector map...\n" [];;
  let buf := <[0%nat := 1]> (replicate 128 0) in
  sdwrite_as (words_l 128) buf IMAP_ADDR;;
  sdwrite_as (words_l 128) buf SMAP_ADDR;;
  let buf := <[0%nat := 0]> buf in
  mkfs_smap 255 buf (SMAP_ADDR + SECTOR_SIZE);;
  printks "[FS] Setting root directory...\n" [];;
  inode0 ← lift (inode.[0]);
  sdwrite_as inodes_l (<[0%nat := mkfs_inode inode0]> inode) IARRAY_ADDR;;
  let dir_root := set_fpointer DARRAY_ADDR (clear_valid dir_root) in
  name ← lift (strcpy (dir_name dir_root) [47; 0]);
  sdwrite_as dir_l (set_dir_name name dir_root) DARRAY_ADDR;;
  printks "[FS] Initialization finished.\n" [].

Definition mount : F D unit :=
  printks "[FS] File system mounting...\n" [];;
  b ← sdread_as super_block_l FS_BASE;
  modify (set_super_block b);;
  d ← sdread_as dir_l DARRAY_ADDR;
  modify (set_current_dir d);;
  modify (set_current_dir_pointer DARRAY_ADDR);;
  m ← sdread_as (words_l 128) IMAP_ADDR;
  modify (set_imap m);;
  modify (set_smap_index 0);;
  m ← sdread_as (words_l 128) SMAP_ADDR;
  modify (set_smap m);;
  printks "[FS] File system mounted.\n" [].

Definition statfs : F D unit :=
  s ← sdread_as super_block_l FS_BASE;
  printks "[FS] used inode items: %d/%d,  used data blocks: %d/%d.\n"
    [Int (inode_used s); Int (inode_number s); Int (data_used s); Int (data_number s)];;
  magic ← lift ((sb_reserved s).[78]);
  printks "[FS] magic number: 0x%08X,  start address: 0x%08x.\n" [Int magic; Int FS_BASE];;
  printks "[FS] inode  map offset: %d sector(s),  occupied: %d sector(s)\n" [Int (imap_offset s); Int 1];;
  printks "[FS] sector map offset: %d sector(s),  occupied: %d sector(s)\n" [Int (smap_offset s); Int 256];;
  printks "[FS] inode offset: %d sector(s),  data offset: %d sector(s).\n" [Int (iarray_offset s); Int (darray_offset s)];;
  printks "[FS] inode size: %d byte(s),  directory size: %d byte(s).\n" [Int (inode_size s); Int (directory_size s)].

(** The checks of [init_file_system]: the sizes of the structures. *)
Definition sizes : list Z := Z.of_nat <$> [lsize super_block_l; lsize inode_l; lsize dmap_l; lsize dir_l; lsize slink_l].

Fixpoint check_sizes (size expected : list Z) (i : Z) : F D unit :=
  match size, expected with
  | n :: size, e :: expected =>
      if negb (n =? e) then printks "Error: wrong fs size: %d, %d.\n" [Int i; Int n];; no_fuel
      else check_sizes size expected (i + 1)
  | _, _ => mret tt
  end.

Definition init_file_system (sb : super_block_t) (inode : list inode_t) (dir_root : dir_t) : F D unit :=
  check_sizes sizes [512; 64; 32; 512; 512] 0;;
  l ← get fd_array_slist;
  l ← lift (slist_init l FD_ARRAY_SLIST_SIZE);
  modify (set_fd_array_slist l);;
  s ← sdread_as super_block_l FS_BASE;
  magic ← lift ((sb_reserved s).[78]);
  if negb (magic =? MAGIC_NUMBER) then mkfs sb inode dir_root else mount.

(** ** Allocation *)

(** [for(j = 0; (t & 0x1) && j < 32; t >>= 1, ++j);] *)
Fixpoint bit_scan (n : nat) (t j : Z) : Z :=
  match n with
  | O => j
  | S n => if negb (Z.land t 1 =? 0) && (j <? 32) then bit_scan n (Z.shiftr t 1) (j + 1) else j
  end.

(** [for(i = 0; i < 128; ++i)] over the words of a map: [i] and [j] behind the loop *)
Fixpoint map_scan (n : nat) (m : list Z) (i : Z) : option (Z * Z) :=
  match n with
  | O => Some (i, 32)
  | S n =>
      t ← m.[i];
      let j := bit_scan 33 t 0 in
      if negb (j =? 32) then Some (i, j) else map_scan n m (i + 1)
  end.

(** [m[i] |= (1 << j)] and [m[i] &= ~(1 << j)] *)
Definition set_bit (m : list Z) (i j : Z) : option (list Z) :=
  t ← m.[i]; aset m i (Z.lor t (u32 (Z.shiftl 1 j))).

Definition clear_bit (m : list Z) (i j : Z) : option (list Z) :=
  t ← m.[i]; aset m i (Z.ldiff t (u32 (Z.shiftl 1 j))).

Definition count_inode (d : Z) : F D unit :=
  modify (fun s => set_super_block (set_inode_used (u32 (inode_used (super_block s) + d)) (super_block s)) s).

Definition count_data (d : Z) : F D unit :=
  modify (fun s => set_super_block (set_data_used (u32 (data_used (super_block s) + d)) (super_block s)) s).

Definition iarray_alloc : F D Z :=
  m ← get imap;
  '(i, j) ← lift (map_scan 128 m 0);
  if (i =? 128) && (j =? 32) then mret (-1)
  else
    m ← lift (set_bit m i j);
    modify (set_imap m);;
    write_imap;;
    count_inode 1;;
    write_super_block;;
    mret (i * 32 + j).

Definition iarray_free (ino : Z) : F D unit :=
  let i := Z.quot ino 32 in
  let j := ino - i * 32 in
  m ← get imap;
  m ← lift (clear_bit m i j);
  modify (set_imap m);;
  write_imap;;
  count_inode (-1);;
  write_super_block.

(** The loop of [darray_alloc]; [fuel] is at least 257 less [smap_index]. *)
Fixpoint darray_alloc_loop (fuel : nat) : F D Z :=
  si ← get smap_index;
  if negb (si <? 256) then mret (-1)
  else
    match fuel with
    | O => no_fuel
    | S fuel =>
        m ← get smap;
        '(i, j) ← lift (map_scan 128 m 0);
        if (i =? 128) && (j =? 32) then
          modify (set_smap_index (u32 (si + 1)));;
          read_smap;;
          darray_alloc_loop fuel
        else
          m ← lift (set_bit m i j);
          modify (set_smap m);;
          write_smap;;
          count_data 1;;
          write_super_block;;
          mret (s32 (si * 512 * 8 + i * 32 + j))
    end.

Definition darray_alloc : F D Z := si ← get smap_index; darray_alloc_loop (Z.to_nat (257 - si)).

Definition darray_free (dno : Z) : F D unit :=
  let si := Z.quot dno (512 * 8) in
  let dno := dno - si * 512 * 8 in
  let i := Z.quot dno 32 in
  let j := dno - i * 32 in
  modify (set_smap_index (u32 si));;
  read_smap;;
  m ← get smap;
  m ← lift (clear_bit m i j);
  modify (set_smap m);;
  write_smap;;
  count_data (-1);;
  write_super_block.

(** ** Directories *)

(** [for(i = 0; i < MAX_DIR_ITEM_NUM; ++i) if(map[i].valid) if(strcmp(map[i].name, s) == 0)]: the
    first such entry, with its index. *)
Fixpoint find_entry (n : nat) (m : list dmap_t) (s : list Z) (i : Z) : option (option (Z * dmap_t)) :=
  match n with
  | O => Some None
  | S n =>
      e ← m.[i];
      if negb (valid e =? 0) then
        c ← strcmp (name e) s;
        if c =? 0 then Some (Some (i, e)) else find_entry n m s (i + 1)
      else find_entry n m s (i + 1)
  end.

Definition match_item (m : list dmap_t) (s : list Z) : option (option (Z * dmap_t)) :=
  find_entry (Z.to_nat MAX_DIR_ITEM_NUM) m s 0.

Definition is_file_exist (s : list Z) : F D Z :=
  d ← get current_dir;
  e ← lift (match_item (map d) s);
  mret (match e with Some (_, e) => s32 (ino e) | None => 0 end).

(** [inode[ino_remain]] of the inode [ino], and its group *)
Definition inode_of (ino : Z) : F D (list inode_t * inode_t) :=
  inode ← read_inodes (ino / 8);
  n ← lift (inode.[ino - ino / 8 * 8]);
  mret (inode, n).

(** The loop of [parse_path] and the search behind it. [before] is the part of the array in front of [s]. *)
Fixpoint parse_path_loop (fuel : nat) (dir : dir_t) (before s : list Z) : F D (Z * list Z) :=
  pos ← lift (separate s BACKSLASH);
  if pos =? -1 then
    e ← lift (match_item (map dir) s);
    mret (match e with Some (_, e) => ino e | None => MINUS_ONE end, before ++ s)
  else
    match fuel with
    | O => no_fuel
    | S fuel =>
        s0 ← lift (aset s pos 0);
        e ← lift (match_item (map dir) s0);
        match e with
        | None => mret (MINUS_ONE, before ++ s0)
        | Some (_, e) =>
            '(_, n) ← inode_of (ino e);
            if negb (type n =? FILE_DIR) then mret (MINUS_ONE, before ++ s0)
            else
              p ← lift ((pointers n).[0]);
              dir ← sdread_as dir_l p;
              parse_path_loop fuel dir (before ++ take (Z.to_nat (pos + 1)) s0) (drop (Z.to_nat (pos + 1)) s0)
        end
    end.

(** The inode found and the new contents of the array [s] points into, which is written to. *)
Definition parse_path (s : list Z) : F D (Z * list Z) :=
  c ← lift (strcmp s [BACKSLASH; 0]);
  if c =? 0 then mret (0, s)
  else
    dir ← sdread_as dir_l DARRAY_ADDR;
    parse_path_loop (length s) dir (take 1 s) (drop 1 s).

(** [for(i = 0; current_dir.map[i].valid && i < MAX_DIR_ITEM_NUM; ++i);]. The loop looks at an entry
    before it compares the index: [after] is the byte behind [current_dir], read if all are taken. *)
Fixpoint free_entry (n : nat) (after : Z) (m : list dmap_t) (i : Z) : Z :=
  match n with
  | O => i
  | S n =>
      let v := match m.[i] with Some e => valid e | None => after end in
      if negb (v =? 0) && (i <? MAX_DIR_ITEM_NUM) then free_entry n after m (i + 1) else i
  end.

Definition upd_entry (i : Z) (f : dmap_t -> dmap_t) : F D unit :=
  d ← get current_dir;
  e ← lift ((map d).[i]);
  modify (set_current_dir (set_map (<[Z.to_nat i := f e]> (map d)) d)).

(** The common first part of [touch] and [mkdir]: the inode of the new entry, if there is one. *)
Definition new_entry (after : Z) (s : list Z) : F D (option Z) :=
  l ← lift (strlen s);
  if MAX_NAME_LENTH <? l then printks "Error: too long name.\n" [];; mret None
  else
    x ← is_file_exist s;
    if negb (x =? 0) then printks "Error: file exists.\n" [];; mret None
    else
      d ← get current_dir;
      let i := free_entry 16 after (map d) 0 in
      if i =? MAX_DIR_ITEM_NUM then printks "Too many directory entrys.\n" [];; mret None
      else
        upd_entry i (set_valid 1);;
        ino ← iarray_alloc;
        if ino =? -1 then printks "Error: insufficient inode.\n" [];; mret None
        else
          upd_entry i (set_ino (u32 ino));;
          d ← get current_dir;
          e ← lift ((map d).[i]);
          n ← lift (strcpy (name e) s);
          upd_entry i (set_name n);;
          write_current_dir;;
          mret (Some ino).

(** [inode[i] = f(inode[i])] *)
Definition upd_inode (inode : list inode_t) (i : Z) (f : inode_t -> inode_t) : option (list inode_t) :=
  n ← inode.[i]; aset inode i (f n).

Definition new_file (n : inode_t) : inode_t :=
  set_size_allocated 0 (set_size 0 (set_links 1 (set_type FILE_NORMAL n))).

Definition new_dir (n : inode_t) : inode_t :=
  set_size_allocated 512 (set_size 512 (set_links 1 (set_type FILE_DIR n))).

Definition touch (after : Z) (s : list Z) : F D unit :=
  r ← new_entry after s;
  match r with
  | None => mret tt
  | Some ino =>
      let ino_group := ino / 8 in
      inode ← read_inodes ino_group;
      inode ← lift (upd_inode inode (ino - ino_group * 8) new_file);
      write_inodes inode ino_group
  end.

(** [d] is the uninitialised [dir_t] on the stack. *)
Definition mkdir (after : Z) (d : dir_t) (s : list Z) : F D unit :=
  r ← new_entry after s;
  match r with
  | None => mret tt
  | Some ino =>
      let ino_group := ino / 8 in
      let ino := ino - ino_group * 8 in
      inode ← read_inodes ino_group;
      inode ← lift (upd_inode inode ino new_dir);
      dno ← darray_alloc;
      let dno := u32 dno in
      if dno =? MINUS_ONE then printks "Error: insufficient data block.\n" []
      else
        let p := u32 (DARRAY_ADDR + dno * SECTOR_SIZE) in
        n ← lift (inode.[ino]);
        ps ← lift (aset (pointers n) 0 p);
        inode ← lift (aset inode ino (set_pointers ps n));
        write_inodes inode ino_group;;
        father ← get current_dir_pointer;
        let d := set_fpointer father (clear_valid d) in
        name ← lift (strcpy (dir_name d) s);
        sdwrite_as dir_l (set_dir_name name d) p
  end.

Definition rmdir (s : list Z) : F D unit :=
  d ← get current_dir;
  e ← lift (match_item (map d) s);
  match e with
  | None => printks "Error: no such directory.\n" []
  | Some (i, e) =>
      '(_, n) ← inode_of (ino e);
      if negb (type n =? FILE_DIR) then printks "Error: not a directory.\n" []
      else
        p ← lift ((pointers n).[0]);
        d ← sdread_as dir_l p;
        if existsb (fun e => negb (valid e =? 0)) (map d) then printks "Error: directory not empty.\n" []
        else
          iarray_free (s32 (ino e));;
          darray_free (u32 (p - DARRAY_ADDR) / SECTOR_SIZE);;
          upd_entry i (set_valid 0);;
          write_current_dir
  end.

Fixpoint ls_loop (m : list dmap_t) (j : Z) : F D Z :=
  match m with
  | [] => mret j
  | e :: m =>
      if negb (valid e =? 0) then
        printks "%s  " [Str (name e)];;
        if j =? 4 then printks "\n" [];; ls_loop m 0 else ls_loop m (j + 1)
      else ls_loop m j
  end.

Definition ls : F D unit :=
  printks ".  ..\n" [];;
  d ← get current_dir;
  j ← ls_loop (map d) 0;
  if negb (j =? 0) then printks "\n" [] else mret tt.

(** The result is the new contents of the array [s] points into, which [parse_path] writes to. *)
Definition cd (s : list Z) : F D (list Z) :=
  c ← lift (strcmp [46; 46; 0] s);
  if c =? 0 then
    p ← get current_dir_pointer;
    if p =? DARRAY_ADDR then mret s
    else
      d ← get current_dir;
      let p := fpointer d in
      modify (set_current_dir_pointer p);;
      d ← sdread_as dir_l p;
      modify (set_current_dir d);;
      mret s
  else
    c ← lift (strcmp [46; 0] s);
    if c =? 0 then mret s
    else
      c ← lift (s.[0]);
      '(ino, s) ← (if c =? BACKSLASH then parse_path s
        else
          d ← get current_dir;
          e ← lift (match_item (map d) s);
          mret (match e with Some (_, e) => ino e | None => MINUS_ONE end, s));
      if ino =? MINUS_ONE then printks "Error: not such directory.\n" [];; mret s
      else
        '(_, n) ← inode_of ino;
        if negb (type n =? FILE_DIR) then printks "Error: not a directory.\n" [];; mret s
        else
          p ← lift ((pointers n).[0]);
          d ← sdread_as dir_l p;
          modify (set_current_dir d);;
          modify (set_current_dir_pointer p);;
          mret s.

(** [addr] is the address of [current_dir.name]. *)
Definition get_curr_dir_name (addr : Z) : F D unit := set_result addr.

(** ** Files *)

Definition fd_array_alloc : F D Z :=
  l ← get fd_array_slist;
  '(i, l) ← lift (slist_alloc l);
  modify (set_fd_array_slist l);;
  mret (i - 1).

Definition fd_array_free (index : Z) : F D Z :=
  l ← get fd_array_slist;
  '(r, l) ← lift (slist_free l (s32 (index + 1)) FD_ARRAY_SLIST_SIZE);
  modify (set_fd_array_slist l);;
  mret r.

Definition fd_at (fd : Z) : F D fd_t := l ← get fd_array; lift (l.[fd]).

Definition upd_fd (fd : Z) (f : fd_t -> fd_t) : F D unit :=
  x ← fd_at fd; modify (fun s => set_fd_array (<[Z.to_nat fd := f x]> (fd_array s)) s).

Definition fopen (s : list Z) (access : Z) : F D unit :=
  ino ← is_file_exist s;
  if ino =? 0 then set_result (-1)
  else
    let ino_group := Z.quot ino 8 in
    let ino := ino - ino_group * 8 in
    inode ← read_inodes ino_group;
    n ← lift (inode.[ino]);
    if negb (type n =? FILE_NORMAL) then set_result (-1)
    else
      fd ← fd_array_alloc;
      if fd =? -1 then set_result (-1)
      else
        upd_fd fd (fun _ => Fd (u32 ino) (u32 access) (size n) 0);;
        set_result fd.

Definition fclose (fd : Z) : F D unit :=
  if fd =? -1 then set_result 0
  else
    ret ← fd_array_free fd;
    set_result ret.

(** [seg] *)
Definition segment (offset : Z) : Z :=
  b2z (10 <=? offset) + b2z (138 <=? offset) + b2z (16522 <=? offset) + b2z (2113674 <=? offset).

(** [sdread((uint8_t * )d, p, SECTOR_SIZE)] and [d[i]] *)
Definition indirect (p i : Z) : F D Z := d ← sdread_as (words_l 128) p; lift (d.[i]).

(** The pointer and [*offset_remain]. *)
Definition offset_to_pointer (inode : inode_t) (offset : Z) : F D (Z * Z) :=
  let offset_remain := u32 (offset - offset / 512 * 512) in
  let offset := offset / 512 in
  let seg := segment offset in
  if seg =? 0 then
    p ← lift ((pointers inode).[offset]); mret (p, offset_remain)
  else if seg =? 1 then
    let offset := offset - 10 in
    p ← lift ((pointers inode).[10]);
    p ← indirect p offset;
    mret (p, offset_remain)
  else if seg =? 2 then
    let offset := offset - 138 in
    let i := offset / 128 in
    let offset := offset - i * 128 in
    p ← lift ((pointers inode).[11]);
    p ← indirect p i;
    p ← indirect p offset;
    mret (p, offset_remain)
  else if seg =? 3 then
    let offset := offset - 16522 in
    let i := offset / (128 * 128) in
    let offset := offset - i * 128 * 128 in
    p ← lift ((pointers inode).[12]);
    p ← indirect p i;
    let i := offset / 128 in
    let offset := offset - i * 128 in
    p ← indirect p i;
    p ← indirect p offset;
    mret (p, offset_remain)
  else panic "Wrong seg.".

(** The loop of [fread]: the bytes it still copies to [buf]. *)
Fixpoint fread_loop (fuel : nat) (fd : Z) (inode : inode_t) (size_remain : Z) : F D (list Z) :=
  if size_remain =? 0 then mret []
  else
    match fuel with
    | O => no_fuel
    | S fuel =>
        x ← fd_at fd;
        '(p, offset_remain) ← offset_to_pointer inode (offset x);
        let read_size := s32 (if u32 size_remain <? u32 (SECTOR_SIZE - offset_remain) then u32 size_remain
                              else u32 (SECTOR_SIZE - offset_remain)) in
        read_buf ← sdread_bytes p;
        w ← lift (slice read_buf offset_remain read_size);
        upd_fd fd (fun x => set_offset (u32 (offset x + read_size)) x);;
        r ← fread_loop fuel fd inode (s32 (size_remain - read_size));
        mret (w ++ r)
    end.

(** The result is what is written to [buf]. *)
Definition fread (fd size : Z) : F D (list Z) :=
  if fd =? -1 then set_result 0;; mret []
  else
    x ← fd_at fd;
    if negb (access x =? O_RDWR) && negb (access x =? O_RD) then set_result 0;; mret []
    else
      let ino := s32 (fd_ino x) in
      let ino_group := Z.quot ino 8 in
      inode ← read_inodes ino_group;
      n ← lift (inode.[ino - ino_group * 8]);
      let remain := s32 (fd_size x - offset x) in
      let size_remain := s32 (if u32 remain <? size then remain else size) in
      r ← fread_loop (Z.to_nat (u32 size_remain / 512 + 2)) fd n size_remain;
      set_result size_remain;;
      mret r.

(** One round of the loop of [fwrite] that writes to the card, for [inode[ino]]: the new inode and
    [t], the number of bytes of [buf] written *)
Definition fwrite_block (fd : Z) (n : inode_t) (buf : list Z) (size : Z) : F D (inode_t * Z) :=
  x ← fd_at fd;
  '(p, _) ← offset_to_pointer n (offset x);
  let read_size := s32 (offset x - offset x / 512 * 512) in
  write_buf ← sdread_bytes p;
  let t := 512 - read_size in
  let t := if size <? t then size else t in
  w ← lift (slice buf 0 t);
  write_buf ← lift (splice write_buf read_size w);
  sdwrite_bytes write_buf p;;
  upd_fd fd (fun x => set_fd_size (u32 (fd_size x + t)) (set_offset (u32 (offset x + t)) x));;
  mret (set_size (u32 (Fs.size n + t)) n, t).

(** The round that allocates a data block; [None]: there is none *)
Definition fwrite_grow (n : inode_t) : F D (option inode_t) :=
  let pi := size_allocated n / 512 in
  dno ← darray_alloc;
  let dno := u32 dno in
  if dno =? MINUS_ONE then mret None
  else
    let p := u32 (DARRAY_ADDR + dno * SECTOR_SIZE) in
    ps ← lift (aset (pointers n) pi p);
    mret (Some (set_size_allocated (u32 (size_allocated n + 512)) (set_pointers ps n))).

(** The loop: the inode, and [size_written]. Both ways out of it write the inode and return
    [size_written]. *)
Fixpoint fwrite_loop (fuel : nat) (fd : Z) (n : inode_t) (buf : list Z) (size size_written : Z) : F D (inode_t * Z) :=
  if size =? 0 then mret (n, size_written)
  else
    match fuel with
    | O => no_fuel
    | S fuel =>
        x ← fd_at fd;
        let remain := s32 (size_allocated n - offset x) in
        if size <=? u32 remain then
          '(n, t) ← fwrite_block fd n buf size;
          fwrite_loop fuel fd n (drop (Z.to_nat t) buf) (u32 (size - t)) (s32 (size_written + t))
        else
          g ← fwrite_grow n;
          match g with
          | None => mret (n, size_written)
          | Some n => fwrite_loop fuel fd n buf size size_written
          end
    end.

Definition fwrite (fd : Z) (buf : list Z) (size : Z) : F D unit :=
  if fd =? -1 then set_result 0
  else
    x ← fd_at fd;
    if negb (access x =? O_RDWR) && negb (access x =? O_WR) then set_result 0
    else
      let ino := s32 (fd_ino x) in
      let ino_group := Z.quot ino 8 in
      let ino := ino - ino_group * 8 in
      inode ← read_inodes ino_group;
      n ← lift (inode.[ino]);
      '(n, size_written) ← fwrite_loop (Z.to_nat (size / 512 + 16)) fd n buf size 0;
      inode ← lift (aset inode ino n);
      write_inodes inode ino_group;;
      set_result size_written.

Definition fseek (fd offset : Z) : F D unit :=
  if fd =? -1 then mret tt else upd_fd fd (set_offset offset).

End operations.
