(* ===== verification/FsSpec.v ===== *)
(** Facts about the file system's parts: the layouts of its structures, the sectors of the card, the
    bitmaps, and what the allocators and the directory search compute. *)

From S2P Require Import Prelude Slist CString Layout Sdcard Fs.

(** ** Layouts *)

#[global] Instance words_lawful n : Lawful (words_l n).
Proof. apply _. Qed.

#[global] Instance super_block_lawful : Lawful super_block_l.
Proof. apply iso_lawful; [by intros (?&?&?&?&?&?&?&?&?&?&?)|by intros []|apply _]. Qed.

#[global] Instance inode_lawful : Lawful inode_l.
Proof. apply iso_lawful; [by intros (?&?&?&?&?&?)|by intros []|apply _]. Qed.

#[global] Instance dmap_lawful : Lawful dmap_l.
Proof. apply iso_lawful; [by intros (?&?&?)|by intros []|apply _]. Qed.

#[global] Instance dir_lawful : Lawful dir_l.
Proof. apply iso_lawful; [by intros (?&?&?&?)|by intros []|apply _]. Qed.

#[global] Instance inodes_lawful : Lawful inodes_l.
Proof. apply _. Qed.

#[global] Instance slink_lawful : Lawful slink_l.
Proof. apply _. Qed.

(** Layouts of one sector *)
Class Sector {A} (L : layout A) := {
  sector_lawful :: Lawful L;
  sector_size : lsize L = 512%nat
}.

#[global] Instance super_block_sector : Sector super_block_l.
Proof. by split; [apply _|]. Qed.

#[global] Instance map_sector : Sector (words_l 128).
Proof. by split; [apply _|]. Qed.

#[global] Instance inodes_sector : Sector inodes_l.
Proof. by split; [apply _|]. Qed.

#[global] Instance dir_sector : Sector dir_l.
Proof. by split; [apply _|]. Qed.

(** ** Bitmaps *)

(** Bit [k] of a map of 128 words *)
Definition mbit (m : list Z) (k : Z) : bool :=
  match m.[k / 32] with Some t => Z.testbit t (k mod 32) | None => false end.

Definition map_wf (m : list Z) : Prop := wf (words_l 128) m.

#[local] Ltac Zify.zify_post_hook ::= Z.to_euclidean_division_equations.

Lemma land_1 t : (Z.land t 1 =? 0) = negb (Z.testbit t 0).
Proof.
  change 1 with (Z.ones 1). rewrite Z.land_ones by lia. change (2 ^ 1) with 2.
  rewrite Z.bit0_odd, Zmod_odd. by destruct (Z.odd t).
Qed.

Lemma bit_scan_spec n t j0 j : 0 <= j0 -> j0 + Z.of_nat n = 33 -> bit_scan n (Z.shiftr t j0) j0 = j ->
  (forall b, 0 <= b < j0 -> Z.testbit t b = true) ->
  j0 <= 32 -> j0 <= j <= 32 /\ (forall b, 0 <= b < j -> Z.testbit t b = true) /\ (j < 32 -> Z.testbit t j = false).
Proof.
  revert j0. induction n as [|n IH]; intros j0 H0 Hn; cbn [bit_scan]; [lia|].
  rewrite land_1, negb_involutive, Z.shiftr_spec, Z.add_0_l by lia.
  destruct (Z.testbit t j0) eqn:Et; cbn [andb].
  - case_cmp; cbn.
    + rewrite Z.shiftr_shiftr by lia. intros Hj Hb Hle. destruct (IH (j0 + 1)) as (? & ? & ?); [lia|lia|done| |lia|].
      { intros b Hb'. destruct (decide (b = j0)) as [->|]; [done|]. apply Hb. lia. }
      split; [lia|done].
    + intros <- Hb Hle. split; [lia|]. split; [done|lia].
  - intros <- Hb Hle. split; [lia|]. split; [done|]. done.
Qed.

Lemma map_scan_spec n m i0 : map_wf m -> 0 <= i0 -> i0 + Z.of_nat n = 128 ->
  (forall k, 0 <= k < i0 * 32 -> mbit m k = true) ->
  exists i j, map_scan n m i0 = Some (i, j) /\
    ((i = 128 /\ j = 32 /\ forall k, 0 <= k < 4096 -> mbit m k = true) \/
     (0 <= i < 128 /\ 0 <= j < 32 /\ mbit m (i * 32 + j) = false /\ forall k, 0 <= k < i * 32 + j -> mbit m k = true)).
Proof.
  intros [Hl Hw]. revert i0. induction n as [|n IH]; intros i0 H0 Hn Hb; cbn [map_scan].
  { exists i0, 32. split; [done|]. left. split; [lia|]. split; [done|]. intros k Hk. apply Hb. lia. }
  destruct (aget_is_Some m i0) as [t Ht]; [lia|]. rewrite Ht. cbn [mbind option_bind].
  destruct (bit_scan_spec 33 t 0 (bit_scan 33 t 0)) as (Hj & Hall & Hz); [lia|lia|done|lia|lia|].
  set (j := bit_scan 33 t 0) in *.
  assert (Hm : forall b, 0 <= b < 32 -> mbit m (i0 * 32 + b) = Z.testbit t b).
  { intros b Hb'. unfold mbit. replace ((i0 * 32 + b) / 32) with i0 by lia. rewrite Ht. f_equal. lia. }
  assert (Hpre : forall k, 0 <= k < i0 * 32 + j -> mbit m k = true).
  { intros k Hk. destruct (decide (k < i0 * 32)); [apply Hb; lia|].
    replace k with (i0 * 32 + (k - i0 * 32)) by lia. rewrite Hm by lia. apply Hall. lia. }
  destruct (Z.eqb_spec j 32); cbn [negb].
  - apply IH; [lia|lia|]. intros k Hk. apply Hpre. lia.
  - exists i0, j. split; [done|]. right. split; [lia|]. split; [lia|]. split; [rewrite Hm by lia; apply Hz; lia|done].
Qed.

Lemma u32_bit j : 0 <= j < 32 -> u32 (Z.shiftl 1 j) = 2 ^ j.
Proof.
  intros H. rewrite Z.shiftl_1_l. apply u32_id. unfold is_u32. split; [lia|]. change 4294967296 with (2 ^ 32).
  apply Z.pow_lt_mono_r; lia.
Qed.

Lemma is_u32_bits t : 0 <= t -> is_u32 t <-> forall b, 32 <= b -> Z.testbit t b = false.
Proof.
  intros Ht. unfold is_u32. change 4294967296 with (2 ^ 32). split.
  - intros [_ H] b Hb. rewrite Z.bits_above_log2; [done|lia|]. destruct (decide (t = 0)) as [->|]; [cbn; lia|].
    apply Z.log2_lt_pow2 in H; lia.
  - intros H. split; [done|]. destruct (decide (t = 0)) as [->|]; [done|]. apply Z.log2_lt_pow2; [lia|].
    destruct (decide (Z.log2 t < 32)); [done|]. specialize (H (Z.log2 t) ltac:(lia)).
    rewrite Z.bit_log2 in H by lia. done.
Qed.

(** One word changed at one bit *)
Lemma change_bit_spec m i j (f : Z -> Z) v :
  map_wf m -> 0 <= i < 128 -> 0 <= j < 32 ->
  (forall t, is_u32 t -> 0 <= f t /\ forall b, 0 <= b -> Z.testbit (f t) b = if decide (b = j) then v else Z.testbit t b) ->
  exists t m', m.[i] = Some t /\ aset m i (f t) = Some m' /\ map_wf m' /\
    forall k, 0 <= k -> mbit m' k = if decide (k = i * 32 + j) then v else mbit m k.
Proof.
  intros [Hl Hw] Hi Hj Hf. destruct (aget_is_Some m i) as [t Ht]; [lia|].
  assert (Hu : is_u32 t) by by eapply Forall_aget in Ht.
  destruct (Hf t Hu) as [Hf0 Hfb]. exists t. rewrite aset_Some by lia. eexists. split; [done|]. split; [done|]. split.
  - split; [by rewrite length_insert|]. apply Forall_insert; [done|]. apply is_u32_bits; [done|]. intros b Hb.
    rewrite Hfb by lia. rewrite decide_False by lia. apply is_u32_bits; [unfold is_u32 in Hu; lia|done|done].
  - intros k Hk. unfold mbit. rewrite aget_insert by lia. rewrite Z2Nat.id by lia. case_decide as E.
    + rewrite E, Ht, Hfb by lia. repeat case_decide; try done; lia.
    + rewrite decide_False by lia. done.
Qed.

Lemma set_bit_spec m i j : map_wf m -> 0 <= i < 128 -> 0 <= j < 32 ->
  exists m', set_bit m i j = Some m' /\ map_wf m' /\
    forall k, 0 <= k -> mbit m' k = if decide (k = i * 32 + j) then true else mbit m k.
Proof.
  intros Hm Hi Hj. destruct (change_bit_spec m i j (fun t => Z.lor t (2 ^ j)) true Hm Hi Hj) as (t & m' & Ht & Ha & Hw & Hb).
  { intros t Ht. unfold is_u32 in Ht. split; [apply Z.lor_nonneg; lia|]. intros b Hb.
    rewrite Z.lor_spec, Z.pow2_bits_eqb by lia. case_decide as E; [rewrite (proj2 (Z.eqb_eq j b)) by done; by rewrite orb_true_r|].
    rewrite (proj2 (Z.eqb_neq j b)) by done. by rewrite orb_false_r. }
  exists m'. unfold set_bit. rewrite Ht. cbn. rewrite u32_bit by done. done.
Qed.

Lemma clear_bit_spec m i j : map_wf m -> 0 <= i < 128 -> 0 <= j < 32 ->
  exists m', clear_bit m i j = Some m' /\ map_wf m' /\
    forall k, 0 <= k -> mbit m' k = if decide (k = i * 32 + j) then false else mbit m k.
Proof.
  intros Hm Hi Hj. destruct (change_bit_spec m i j (fun t => Z.ldiff t (2 ^ j)) false Hm Hi Hj) as (t & m' & Ht & Ha & Hw & Hb).
  { intros t Ht. unfold is_u32 in Ht. split; [apply Z.ldiff_nonneg; lia|]. intros b Hb.
    rewrite Z.ldiff_spec, Z.pow2_bits_eqb by lia. case_decide as E; [rewrite (proj2 (Z.eqb_eq j b)) by done; by rewrite andb_false_r|].
    rewrite (proj2 (Z.eqb_neq j b)) by done. by rewrite andb_true_r. }
  exists m'. unfold clear_bit. rewrite Ht. cbn. rewrite u32_bit by done. done.
Qed.

(** Two maps with the same bits are equal. *)
Lemma map_ext m m' : map_wf m -> map_wf m' -> (forall k, 0 <= k < 4096 -> mbit m k = mbit m' k) -> m = m'.
Proof.
  intros [Hl Hw] [Hl' Hw'] H. apply list_eq_aget; [by rewrite Hl, Hl'|]. intros i Hi. rewrite Hl in Hi.
  destruct (aget_is_Some m i) as [t Ht]; [lia|]. destruct (aget_is_Some m' i) as [t' Ht']; [lia|].
  assert (Hu : is_u32 t) by by eapply Forall_aget in Ht.
  assert (Hu' : is_u32 t') by by eapply Forall_aget in Ht'.
  rewrite Ht, Ht'. f_equal. apply Z.bits_inj'. intros b Hb. destruct (decide (b < 32)).
  - specialize (H (i * 32 + b) ltac:(lia)). unfold mbit in H. replace ((i * 32 + b) / 32) with i in H by lia.
    rewrite Ht, Ht' in H. by replace ((i * 32 + b) mod 32) with b in H by lia.
  - rewrite (proj1 (is_u32_bits t (proj1 Hu)) Hu), (proj1 (is_u32_bits t' (proj1 Hu')) Hu') by lia. done.
Qed.

(** ** Sectors *)

Definition inode_addr (g : Z) : Z := IARRAY_ADDR + g * SECTOR_SIZE.
Definition data_addr (b : Z) : Z := DARRAY_ADDR + b * SECTOR_SIZE.

Create HintDb addr.
#[global] Hint Unfold FS_BASE IMAP_ADDR SMAP_ADDR IARRAY_ADDR DARRAY_ADDR SECTOR_SIZE INODE_ITEM_NUM DATA_ITEM_NUM
  smap_addr inode_addr data_addr : addr.

(** Equalities, ranges and alignment of addresses of the card *)
Ltac addr := unfold aligned, is_u32 in *; autounfold with addr in *; lia.

Section sectors.
Context {D : Type} `{!SdCard D}.
Implicit Types (s : fs D).

Definition sector s (a : Z) : list Z := read_sector (disk s) a.

Definition put_sector (a : Z) (b : list Z) s : fs D := set_disk (write_sector (disk s) b a) s.

Lemma sector_put s a b c : card_ok (disk s) -> length b = 512%nat -> bytes_ok b -> aligned a -> aligned c ->
  sector (put_sector a b s) c = if decide (c = a) then b else sector s c.
Proof. intros. by apply read_write_sector. Qed.

Lemma card_ok_put s a b : card_ok (disk s) -> length b = 512%nat -> bytes_ok b -> aligned a -> card_ok (disk (put_sector a b s)).
Proof. intros. by apply write_sector_ok. Qed.

Lemma enc_sector {A} (L : layout A) `{!Sector L} x : wf L x -> length (enc L x) = 512%nat /\ bytes_ok (enc L x).
Proof. intros Hx. split; [rewrite enc_length by done; apply sector_size|by apply enc_bytes]. Qed.

Lemma dec_sector {A} (L : layout A) `{!Sector L} s a : card_ok (disk s) -> wf L (dec L (sector s a)) /\ enc L (dec L (sector s a)) = sector s a.
Proof.
  intros Hs. pose proof (read_sector_length (disk s) a Hs) as Hl. pose proof (read_sector_bytes (disk s) a Hs) as Hb.
  unfold sector. split; [apply dec_wf; [done|rewrite sector_size; lia]|].
  rewrite enc_dec by (try done; rewrite sector_size; lia). rewrite sector_size. apply take_ge. lia.
Qed.

(** Steps of the monad *)
Lemma fs_bind_Ok {A B} (m : F D A) (f : A -> F D B) s x s' : m s = Ok (x, s') -> (m ≫= f) s = f x s'.
Proof. unfold mbind, F_bind. by intros ->. Qed.

Lemma fs_bind_get {A B} (g : fs D -> A) (f : A -> F D B) s : (get g ≫= f) s = f (g s) s.
Proof. done. Qed.

Lemma fs_bind_modify {B} g (f : unit -> F D B) s : (modify g ≫= f) s = f tt (g s).
Proof. done. Qed.

Lemma fs_bind_lift {A B} (o : option A) (f : A -> F D B) s x : o = Some x -> (lift o ≫= f) s = f x s.
Proof. by intros ->. Qed.

Lemma fs_bind_assoc {A B C} (m : F D A) (f : A -> F D B) (g : B -> F D C) s :
  ((m ≫= f) ≫= g) s = (m ≫= (fun x => f x ≫= g)) s.
Proof. unfold mbind, F_bind. by destruct (m s) as [[]| | |]. Qed.

Lemma sdread_bytes_Ok s a : is_u32 a -> sdread_bytes a s = Ok (sector s a, s).
Proof. intros Ha. unfold sdread_bytes, get. by rewrite u32_id. Qed.

Lemma sdwrite_bytes_Ok s a b : is_u32 a -> sdwrite_bytes b a s = Ok (tt, put_sector a b s).
Proof. intros Ha. unfold sdwrite_bytes, modify, put_sector. by rewrite u32_id. Qed.

Lemma sdread_as_Ok {A} (L : layout A) s a : is_u32 a -> sdread_as L a s = Ok (dec L (sector s a), s).
Proof. intros Ha. unfold sdread_as. by rewrite (fs_bind_Ok _ _ _ _ _ (sdread_bytes_Ok s a Ha)). Qed.

Lemma sdwrite_as_Ok {A} (L : layout A) x s a : is_u32 a -> sdwrite_as L x a s = Ok (tt, put_sector a (enc L x) s).
Proof. apply sdwrite_bytes_Ok. Qed.

(** *** Coherence

    What memory holds of the card is what the card holds. *)

(** The sector map as the card has it, and block [b] in it *)
Definition smap_of s (i : Z) : list Z := dec (words_l 128) (sector s (smap_addr i)).

Definition block_used s (b : Z) : bool := mbit (smap_of s (b / 4096)) (b mod 4096).

Definition is_block (b : Z) : Prop := 0 <= b < DATA_ITEM_NUM.

Record fs_ok s : Prop := {
  ok_card : card_ok (disk s);
  ok_super_block : wf super_block_l (super_block s);
  ok_super_block_card : sector s FS_BASE = enc super_block_l (super_block s);
  ok_imap : map_wf (imap s);
  ok_imap_card : sector s IMAP_ADDR = enc (words_l 128) (imap s);
  ok_smap : map_wf (smap s);
  ok_smap_index : 0 <= smap_index s <= 256;
  ok_smap_card : smap_index s < 256 -> sector s (smap_addr (smap_index s)) = enc (words_l 128) (smap s);
  ok_dir : wf dir_l (current_dir s);
  ok_dir_card : sector s (current_dir_pointer s) = enc dir_l (current_dir s);
  ok_dir_block : exists b, is_block b /\ current_dir_pointer s = data_addr b /\ block_used s b = true
}.

(** The state with a new inode map, and a new sector of the sector map, and one more or less item in use *)
Definition with_imap (m : list Z) (d : Z) s : fs D :=
  let sb := set_inode_used (u32 (inode_used (super_block s) + d)) (super_block s) in
  put_sector FS_BASE (enc super_block_l sb) (set_super_block sb (put_sector IMAP_ADDR (enc (words_l 128) m) (set_imap m s))).

Definition with_smap (m : list Z) (d : Z) s : fs D :=
  let sb := set_data_used (u32 (data_used (super_block s) + d)) (super_block s) in
  put_sector FS_BASE (enc super_block_l sb)
    (set_super_block sb (put_sector (smap_addr (smap_index s)) (enc (words_l 128) m) (set_smap m s))).

(** Another sector of the sector map in memory *)
Definition at_smap (i : Z) s : fs D := set_smap (smap_of s i) (set_smap_index i s).

Lemma wf_set_inode_used v sb : is_u32 v -> wf super_block_l sb -> wf super_block_l (set_inode_used v sb).
Proof. intros Hv H. destruct sb. cbn in *. tauto. Qed.

Lemma wf_set_data_used v sb : is_u32 v -> wf super_block_l sb -> wf super_block_l (set_data_used v sb).
Proof. intros Hv H. destruct sb. cbn in *. tauto. Qed.

Lemma card_ok_with_imap s m d : fs_ok s -> map_wf m -> card_ok (disk (with_imap m d s)).
Proof.
  intros H Hm. pose proof (enc_sector (words_l 128) m Hm) as [? ?].
  pose proof (wf_set_inode_used _ _ (u32_range (inode_used (super_block s) + d)) (ok_super_block _ H)) as Hsb.
  pose proof (enc_sector super_block_l _ Hsb) as [? ?].
  apply card_ok_put; [|done|done|addr]. apply card_ok_put; [exact (ok_card _ H)|done|done|addr].
Qed.

Lemma sector_with_imap s m d c : fs_ok s -> map_wf m -> aligned c ->
  sector (with_imap m d s) c =
    if decide (c = FS_BASE) then enc super_block_l (super_block (with_imap m d s))
    else if decide (c = IMAP_ADDR) then enc (words_l 128) m else sector s c.
Proof.
  intros H Hm Hc. pose proof (enc_sector (words_l 128) m Hm) as [? ?].
  pose proof (wf_set_inode_used _ _ (u32_range (inode_used (super_block s) + d)) (ok_super_block _ H)) as Hsb.
  pose proof (enc_sector super_block_l _ Hsb) as [? ?].
  unfold with_imap. rewrite sector_put; [|apply card_ok_put; [exact (ok_card _ H)|done|done|addr]|done|done|addr|done].
  case_decide; [done|]. etransitivity; [apply (sector_put (set_imap m s) IMAP_ADDR); [exact (ok_card _ H)|done|done|addr|done]|done].
Qed.

Lemma card_ok_with_smap s m d : fs_ok s -> map_wf m -> card_ok (disk (with_smap m d s)).
Proof.
  intros H Hm. pose proof (enc_sector (words_l 128) m Hm) as [? ?].
  pose proof (wf_set_data_used _ _ (u32_range (data_used (super_block s) + d)) (ok_super_block _ H)) as Hsb.
  pose proof (enc_sector super_block_l _ Hsb) as [? ?]. pose proof (ok_smap_index _ H).
  apply card_ok_put; [|done|done|addr]. apply card_ok_put; [exact (ok_card _ H)|done|done|addr].
Qed.

Lemma sector_with_smap s m d c : fs_ok s -> map_wf m -> aligned c ->
  sector (with_smap m d s) c =
    if decide (c = FS_BASE) then enc super_block_l (super_block (with_smap m d s))
    else if decide (c = smap_addr (smap_index s)) then enc (words_l 128) m else sector s c.
Proof.
  intros H Hm Hc. pose proof (enc_sector (words_l 128) m Hm) as [? ?].
  pose proof (wf_set_data_used _ _ (u32_range (data_used (super_block s) + d)) (ok_super_block _ H)) as Hsb.
  pose proof (enc_sector super_block_l _ Hsb) as [? ?]. pose proof (ok_smap_index _ H).
  unfold with_smap. rewrite sector_put; [|apply card_ok_put; [exact (ok_card _ H)|done|done|addr]|done|done|addr|done].
  case_decide; [done|].
  etransitivity; [apply (sector_put (set_smap m s) (smap_addr (smap_index s))); [exact (ok_card _ H)|done|done|addr|done]|done].
Qed.

(** The sector map read back *)
Lemma smap_of_enc s i m : map_wf m -> sector s (smap_addr i) = enc (words_l 128) m -> smap_of s i = m.
Proof. intros Hm E. unfold smap_of. rewrite E. by apply dec_enc_nil; [apply _|]. Qed.

Lemma smap_of_wf s i : card_ok (disk s) -> map_wf (smap_of s i).
Proof. intros H. by apply (dec_sector (words_l 128)). Qed.

Lemma smap_of_with_imap s m d i : fs_ok s -> map_wf m -> 0 <= i <= 256 -> smap_of (with_imap m d s) i = smap_of s i.
Proof.
  intros H Hm Hi. unfold smap_of. rewrite sector_with_imap by (done || addr). by rewrite !decide_False by addr.
Qed.

Lemma smap_of_with_smap s m d i : fs_ok s -> map_wf m -> 0 <= i <= 256 ->
  smap_of (with_smap m d s) i = if decide (i = smap_index s) then m else smap_of s i.
Proof.
  intros H Hm Hi. unfold smap_of. rewrite sector_with_smap by (done || addr). rewrite decide_False by addr.
  case_decide as E1; case_decide as E2; try done; [by apply dec_enc_nil; [apply _|]|exfalso; addr|subst; done].
Qed.

Lemma block_used_with_imap s m d b : fs_ok s -> map_wf m -> is_block b -> block_used (with_imap m d s) b = block_used s b.
Proof. intros H Hm Hb. unfold is_block in Hb. unfold block_used. by rewrite smap_of_with_imap by (done || addr). Qed.

Lemma fs_ok_with_imap s m d : fs_ok s -> map_wf m -> fs_ok (with_imap m d s).
Proof.
  intros H Hm. destruct (ok_dir_block _ H) as (b & Hb & Ep & Hu). pose proof Hb as Hb'. unfold is_block in Hb'.
  split.
  - by apply card_ok_with_imap.
  - by apply wf_set_inode_used; [apply u32_range|apply ok_super_block].
  - rewrite sector_with_imap by (done || addr). by rewrite decide_True.
  - done.
  - rewrite sector_with_imap by (done || addr). by rewrite decide_False by addr.
  - exact (ok_smap _ H).
  - exact (ok_smap_index _ H).
  - intros Hi. pose proof (ok_smap_index _ H). change (smap_index (with_imap m d s)) with (smap_index s) in *.
    rewrite sector_with_imap by (done || addr). rewrite !decide_False by addr. exact (ok_smap_card _ H Hi).
  - exact (ok_dir _ H).
  - change (current_dir_pointer (with_imap m d s)) with (current_dir_pointer s). rewrite Ep.
    rewrite sector_with_imap by (done || addr). rewrite !decide_False by addr. rewrite <- Ep. by apply (ok_dir_card _ H).
  - exists b. split; [done|]. split; [done|]. by rewrite block_used_with_imap.
Qed.

Lemma fs_ok_with_smap s m d : fs_ok s -> map_wf m -> smap_index s < 256 ->
  (forall b, is_block b -> b / 4096 = smap_index s -> current_dir_pointer s = data_addr b -> mbit m (b mod 4096) = true) ->
  fs_ok (with_smap m d s).
Proof.
  intros H Hm Hx Hdir. destruct (ok_dir_block _ H) as (b & Hb & Ep & Hu). pose proof Hb as Hb'. unfold is_block in Hb'.
  pose proof (ok_smap_index _ H). split.
  - by apply card_ok_with_smap.
  - by apply wf_set_data_used; [apply u32_range|apply ok_super_block].
  - rewrite sector_with_smap by (done || addr). by rewrite decide_True.
  - exact (ok_imap _ H).
  - rewrite sector_with_smap by (done || addr). rewrite !decide_False by addr. exact (ok_imap_card _ H).
  - done.
  - exact (ok_smap_index _ H).
  - intros Hi. change (smap_index (with_smap m d s)) with (smap_index s) in *.
    rewrite sector_with_smap by (done || addr). rewrite decide_False by addr. by rewrite decide_True.
  - exact (ok_dir _ H).
  - change (current_dir_pointer (with_smap m d s)) with (current_dir_pointer s). rewrite Ep.
    rewrite sector_with_smap by (done || addr). rewrite !decide_False by addr. rewrite <- Ep. by apply (ok_dir_card _ H).
  - exists b. split; [done|]. split; [done|]. unfold block_used. rewrite smap_of_with_smap by (done || addr).
    case_decide; [by apply Hdir|done].
Qed.

Lemma fs_ok_at_smap s i : fs_ok s -> 0 <= i <= 256 -> fs_ok (at_smap i s).
Proof.
  intros H Hi. split; try apply H.
  - by apply smap_of_wf, (ok_card _ H).
  - done.
  - intros _. symmetry. by apply (dec_sector (words_l 128) s (smap_addr i) (ok_card _ H)).
Qed.

(** *** Allocation of inodes *)

Lemma write_imap_Ok s : write_imap s = Ok (tt, put_sector IMAP_ADDR (enc (words_l 128) (imap s)) s).
Proof. unfold write_imap. apply (sdwrite_as_Ok (words_l 128)). addr. Qed.

Lemma write_super_block_Ok s : write_super_block s = Ok (tt, put_sector FS_BASE (enc super_block_l (super_block s)) s).
Proof. unfold write_super_block. apply (sdwrite_as_Ok super_block_l). addr. Qed.

Lemma write_smap_Ok s : 0 <= smap_index s <= 256 ->
  write_smap s = Ok (tt, put_sector (smap_addr (smap_index s)) (enc (words_l 128) (smap s)) s).
Proof. intros H. unfold write_smap. apply (sdwrite_as_Ok (words_l 128)). addr. Qed.

Lemma read_smap_Ok s : 0 <= smap_index s <= 256 -> read_smap s = Ok (tt, at_smap (smap_index s) s).
Proof.
  intros H. unfold read_smap. rewrite fs_bind_get. rewrite (fs_bind_Ok _ _ _ _ _ (sdread_as_Ok (words_l 128) s (smap_addr (smap_index s)) ltac:(addr))).
  by destruct s.
Qed.

Lemma iarray_alloc_spec s : map_wf (imap s) ->
  (iarray_alloc s = Ok (-1, s) /\ forall k, 0 <= k < 4096 -> mbit (imap s) k = true) \/
  (exists ino m, 0 <= ino < 4096 /\ mbit (imap s) ino = false /\ (forall k, 0 <= k < ino -> mbit (imap s) k = true) /\
    map_wf m /\ (forall k, 0 <= k -> mbit m k = if decide (k = ino) then true else mbit (imap s) k) /\
    iarray_alloc s = Ok (ino, with_imap m 1 s)).
Proof.
  intros H. unfold iarray_alloc. rewrite fs_bind_get.
  destruct (map_scan_spec 128 (imap s) 0 H) as (i & j & E & [(-> & -> & Hall)|(Hi & Hj & Hz & Hall)]); [lia|lia|intros; lia| |].
  - left. by rewrite (fs_bind_lift _ _ _ _ E).
  - right. destruct (set_bit_spec (imap s) i j H Hi Hj) as (m & Em & Hm & Hb).
    exists (i * 32 + j), m. split_and!; [lia|lia|done|done|done|done|].
    rewrite (fs_bind_lift _ _ _ _ E). rewrite (proj2 (Z.eqb_neq i 128)) by lia. cbn [andb].
    rewrite (fs_bind_lift _ _ _ _ Em). rewrite fs_bind_modify.
    rewrite (fs_bind_Ok _ _ _ _ _ (write_imap_Ok _)). unfold count_inode. rewrite fs_bind_modify.
    by rewrite (fs_bind_Ok _ _ _ _ _ (write_super_block_Ok _)).
Qed.

Lemma iarray_free_spec s ino : map_wf (imap s) -> 0 <= ino < 4096 ->
  exists m, map_wf m /\ (forall k, 0 <= k -> mbit m k = if decide (k = ino) then false else mbit (imap s) k) /\
    iarray_free ino s = Ok (tt, with_imap m (-1) s).
Proof.
  intros H Hi. unfold iarray_free. rewrite Z.quot_div_nonneg by lia. rewrite fs_bind_get.
  destruct (clear_bit_spec (imap s) (ino / 32) (ino - ino / 32 * 32) H) as (m & Em & Hm & Hb); [lia|lia|].
  exists m. split; [done|]. split; [intros k Hk; rewrite Hb by done; repeat case_decide; (done || lia)|].
  rewrite (fs_bind_lift _ _ _ _ Em). rewrite fs_bind_modify.
  rewrite (fs_bind_Ok _ _ _ _ _ (write_imap_Ok _)). unfold count_inode. rewrite fs_bind_modify.
  by rewrite (write_super_block_Ok _).
Qed.

(** *** Allocation of data blocks *)

(** [free_list s l]: [l] lists the free blocks from the sector of the map in memory on, in order. *)
Definition free_list s (l : list Z) : Prop :=
  StronglySorted Z.lt l /\
  forall b, b ∈ l <-> smap_index s * 4096 <= b /\ is_block b /\ block_used s b = false.

Lemma smap_of_index s : fs_ok s -> smap_index s < 256 -> smap_of s (smap_index s) = smap s.
Proof. intros H Hi. apply smap_of_enc; [apply (ok_smap _ H)|by apply (ok_smap_card _ H)]. Qed.

Lemma free_list_next s l : fs_ok s -> smap_index s < 256 -> free_list s l -> (forall k, 0 <= k < 4096 -> mbit (smap s) k = true) ->
  free_list (at_smap (smap_index s + 1) s) l.
Proof.
  intros H Hi [Hs Hl] Hall. split; [done|]. intros b. rewrite Hl. change (block_used (at_smap _ s) b) with (block_used s b).
  cbn [smap_index at_smap set_smap set_smap_index]. split; [|intros (? & ? & ?); split_and!; [lia|done|done]].
  intros (Hb & Hbl & Hu). split_and!; [|done|done]. destruct (decide (b / 4096 = smap_index s)) as [E|E]; [|lia].
  unfold block_used in Hu. rewrite E, smap_of_index, Hall in Hu by (done || lia). done.
Qed.

(** The search of the map: it stops at the sector of the first free block, or behind the map. *)
Lemma darray_alloc_loop_spec fuel s l : fs_ok s -> free_list s l -> (Z.to_nat (257 - smap_index s) <= fuel)%nat ->
  match l with
  | [] => exists i m, let s' := set_smap m (set_smap_index i s) in darray_alloc_loop fuel s = Ok (-1, s') /\ fs_ok s'
  | b :: l => exists m, let i := b / 4096 in is_block b /\ smap_index s <= i /\ map_wf m /\
      (forall k, 0 <= k -> mbit m k = if decide (k = b mod 4096) then true else mbit (smap_of s i) k) /\
      darray_alloc_loop fuel s = Ok (b, with_smap m 1 (at_smap i s))
  end.
Proof.
  revert s. induction fuel as [|fuel IH]; intros s H Hf Hfuel; [pose proof (ok_smap_index _ H); lia|].
  cbn [darray_alloc_loop]. rewrite fs_bind_get. pose proof (ok_smap_index _ H) as Hi.
  destruct (Z.ltb_spec (smap_index s) 256) as [Hlt|Hge]; cbn [negb].
  2:{ destruct Hf as [_ Hl]. destruct l as [|b l].
    - exists (smap_index s), (smap s). by destruct s.
    - destruct (proj1 (Hl b)) as (? & Hb & _); [left|]. unfold is_block in Hb. addr. }
  rewrite fs_bind_get.
  destruct (map_scan_spec 128 (smap s) 0 (ok_smap _ H)) as (i & j & E & Hij); [lia|lia|intros; lia|].
  rewrite (fs_bind_lift _ _ _ _ E). destruct Hij as [(-> & -> & Hall)|(Hi' & Hj & Hz & Hall)].
  - rewrite !Z.eqb_refl. cbn [andb].
    rewrite fs_bind_modify. rewrite u32_id by (unfold is_u32; lia).
    assert (Hrd : read_smap (set_smap_index (smap_index s + 1) s) = Ok (tt, at_smap (smap_index s + 1) s)).
    { rewrite read_smap_Ok by (cbn; lia). by destruct s. }
    rewrite (fs_bind_Ok _ _ _ _ _ Hrd).
    assert (H' : fs_ok (at_smap (smap_index s + 1) s)) by (apply fs_ok_at_smap; [done|lia]).
    specialize (IH _ H' (free_list_next _ _ H Hlt Hf Hall) ltac:(cbn; lia)). destruct l as [|b l].
    + destruct IH as (i & m & E1 & E2). exists i, m. destruct s; done.
    + destruct IH as (m & Hb & Hib & Hm & Hmb & E1). exists m. cbn [smap_index at_smap set_smap set_smap_index] in Hib.
      split; [done|]. split; [lia|]. split; [done|]. split; [done|]. rewrite E1. by destruct s.
  - set (b := smap_index s * 4096 + i * 32 + j).
    assert (Hbd : b / 4096 = smap_index s /\ b mod 4096 = i * 32 + j) by lia. destruct Hbd as [Hb1 Hb2].
    assert (Hu : block_used s b = false) by (unfold block_used; by rewrite Hb1, Hb2, smap_of_index).
    destruct Hf as [Hs Hl]. assert (Hin : b ∈ l) by (apply Hl; split_and!; [lia|unfold is_block; addr|done]).
    destruct l as [|b' l]; [by apply elem_of_nil in Hin|].
    assert (b' = b) as ->.
    { apply StronglySorted_inv in Hs as [_ Hs]. rewrite Forall_forall in Hs.
      destruct (proj1 (Hl b')) as (Hb1' & Hb2' & Hb3'); [left|]. unfold is_block in Hb2'.
      apply elem_of_cons in Hin as [|Hin]; [done|]. specialize (Hs b Hin). exfalso.
      unfold block_used in Hb3'. replace (b' / 4096) with (smap_index s) in Hb3' by lia.
      rewrite smap_of_index, Hall in Hb3' by (done || lia). done. }
    cbn zeta. rewrite Hb1. destruct (set_bit_spec (smap s) i j (ok_smap _ H) Hi' Hj) as (m & Em & Hm & Hmb).
    exists m. split; [unfold is_block; addr|]. split; [lia|]. split; [done|]. split.
    { intros k Hk. rewrite Hmb, smap_of_index, Hb2 by done. done. }
    rewrite (proj2 (Z.eqb_neq i 128)) by lia. cbn [andb]. rewrite (fs_bind_lift _ _ _ _ Em).
    rewrite fs_bind_modify. rewrite (fs_bind_Ok _ _ _ _ _ (write_smap_Ok (set_smap m s) (ok_smap_index _ H))).
    unfold count_data. rewrite fs_bind_modify. rewrite (fs_bind_Ok _ _ _ _ _ (write_super_block_Ok _)).
    assert (Ha : at_smap (smap_index s) s = s) by (unfold at_smap; rewrite smap_of_index by done; by destruct s).
    rewrite Ha. unfold mret, F_ret. f_equal. f_equal. replace (smap_index s * 512 * 8 + i * 32 + j) with b by lia.
    apply s32_id. unfold is_s32. lia.
Qed.

(** What allocating and freeing data blocks leaves alone *)
Record alloc_frame s s' : Prop := {
  af_imap : imap s' = imap s;
  af_dir : current_dir s' = current_dir s;
  af_dir_pointer : current_dir_pointer s' = current_dir_pointer s;
  af_fds : fd_array s' = fd_array s;
  af_slist : fd_array_slist s' = fd_array_slist s;
  af_regs2 : regs2 s' = regs2 s;
  af_console : console s' = console s;
  af_sector c : aligned c -> IARRAY_ADDR <= c -> sector s' c = sector s c
}.

Lemma alloc_frame_refl s : alloc_frame s s.
Proof. by split. Qed.

Lemma alloc_frame_trans s1 s2 s3 : alloc_frame s1 s2 -> alloc_frame s2 s3 -> alloc_frame s1 s3.
Proof. intros [] []. split; try congruence. intros c H1 H2. rewrite af_sector1, af_sector0 by done. done. Qed.

Lemma sector_smap s i : card_ok (disk s) -> enc (words_l 128) (smap_of s i) = sector s (smap_addr i).
Proof. intros H. by apply (dec_sector (words_l 128)). Qed.

Lemma block_used_with_smap s m d b : fs_ok s -> map_wf m -> smap_index s < 256 -> is_block b ->
  block_used (with_smap m d s) b = if decide (b / 4096 = smap_index s) then mbit m (b mod 4096) else block_used s b.
Proof.
  intros H Hm Hi Hb. unfold is_block in Hb. unfold block_used. rewrite smap_of_with_smap by (done || addr).
  by case_decide.
Qed.

Lemma alloc_frame_with_smap s m d i : fs_ok s -> map_wf m -> 0 <= i < 256 -> alloc_frame s (with_smap m d (at_smap i s)).
Proof.
  intros H Hm Hi. split; try done. intros c Hc Hge. rewrite sector_with_smap; [|apply fs_ok_at_smap; [done|lia]|done..].
  cbn [smap_index at_smap set_smap set_smap_index]. by rewrite !decide_False by addr.
Qed.

Lemma darray_alloc_spec s l : fs_ok s -> free_list s l ->
  match l with
  | [] => exists s', darray_alloc s = Ok (-1, s') /\ fs_ok s' /\ alloc_frame s s'
  | b :: l => exists s', darray_alloc s = Ok (b, s') /\ fs_ok s' /\ alloc_frame s s' /\
      is_block b /\ block_used s b = false /\ free_list s' l /\
      super_block s' = set_data_used (u32 (data_used (super_block s) + 1)) (super_block s) /\
      forall b', is_block b' -> block_used s' b' = if decide (b' = b) then true else block_used s b'
  end.
Proof.
  intros H Hf. unfold darray_alloc. rewrite fs_bind_get.
  pose proof (darray_alloc_loop_spec (Z.to_nat (257 - smap_index s)) s l H Hf (le_n _)) as Hspec. destruct l as [|b l].
  { destruct Hspec as (i & m & E & Hok). eexists. split; [exact E|]. split; [done|]. by split. }
  destruct Hspec as (m & Hb & Hi & Hm & Hmb & E). pose proof Hb as Hb'. unfold is_block, DATA_ITEM_NUM in Hb'.
  pose proof (ok_smap_index _ H) as Hsi. assert (Hi' : 0 <= b / 4096 < 256) by lia. set (i := b / 4096) in *.
  assert (H1 : fs_ok (at_smap i s)) by (apply fs_ok_at_smap; [done|lia]).
  assert (Hu : forall b', is_block b' -> block_used (with_smap m 1 (at_smap i s)) b' = if decide (b' = b) then true else block_used s b').
  { intros b' Hbb. unfold is_block in Hbb. rewrite block_used_with_smap by (done || (cbn; lia)). cbn [smap_index at_smap set_smap set_smap_index].
    case_decide as E1.
    - rewrite Hmb by lia. repeat case_decide; try done; [lia|subst b'; done|]. unfold block_used. by rewrite E1.
    - by rewrite decide_False by (intros ->; done). }
  assert (Hfree : block_used s b = false) by (apply Hf; left).
  exists (with_smap m 1 (at_smap i s)). split; [done|]. split; [|split; [by apply alloc_frame_with_smap|]].
  { apply fs_ok_with_smap; [done|done|cbn; lia|]. cbn [smap_index at_smap set_smap set_smap_index]. intros b' Hb1 Hb2 Hb3.
    destruct (ok_dir_block _ H) as (b0 & Hb0 & Ep & Hub). unfold is_block in Hb0, Hb1. change (current_dir_pointer (at_smap i s)) with (current_dir_pointer s) in Hb3.
    assert (b' = b0) as -> by addr. rewrite Hmb by lia. case_decide; [done|]. unfold block_used in Hub. by rewrite <- Hb2. }
  split_and!; try done. destruct Hf as [Hs Hl]. apply StronglySorted_inv in Hs as [Hs Hlt]. split; [done|]. intros b'.
  rewrite Forall_forall in Hlt. cbn [smap_index with_smap put_sector set_disk set_super_block at_smap set_smap set_smap_index].
  split.
  - intros Hin. specialize (Hlt b' Hin). destruct (proj1 (Hl b') ltac:(by right)) as (? & ? & ?).
    split_and!; [lia|done|]. rewrite Hu by done. by rewrite decide_False by lia.
  - intros (H2 & H3 & H4). rewrite Hu in H4 by done. case_decide; [done|].
    assert (Hin : b' ∈ b :: l) by (apply Hl; split_and!; [lia|done|done]). by apply elem_of_cons in Hin as [|].
Qed.

(** Freeing a block: the map moves to its sector. *)
Lemma darray_free_spec s b : fs_ok s -> is_block b -> data_addr b <> current_dir_pointer s ->
  exists s', darray_free b s = Ok (tt, s') /\ fs_ok s' /\ alloc_frame s s' /\
    super_block s' = set_data_used (u32 (data_used (super_block s) + -1)) (super_block s) /\
    forall b', is_block b' -> block_used s' b' = if decide (b' = b) then false else block_used s b'.
Proof.
  intros H Hb Hne. pose proof Hb as Hb'. unfold is_block, DATA_ITEM_NUM in Hb'. unfold darray_free.
  rewrite !Z.quot_div_nonneg by lia. change (512 * 8) with 4096. set (i := b / 4096).
  assert (Hi : 0 <= i < 256) by lia. rewrite fs_bind_modify, (u32_id i) by (unfold is_u32; lia).
  assert (Hrd : read_smap (set_smap_index i s) = Ok (tt, at_smap i s)) by (rewrite read_smap_Ok by (cbn; lia); by destruct s).
  rewrite (fs_bind_Ok _ _ _ _ _ Hrd), fs_bind_get.
  assert (H1 : fs_ok (at_smap i s)) by (apply fs_ok_at_smap; [done|lia]).
  destruct (clear_bit_spec (smap (at_smap i s)) ((b - i * 512 * 8) / 32) (b - i * 512 * 8 - (b - i * 512 * 8) / 32 * 32) (ok_smap _ H1))
    as (m & Em & Hm & Hmb); [lia|lia|].
  rewrite (fs_bind_lift _ _ _ _ Em), fs_bind_modify.
  rewrite (fs_bind_Ok _ _ _ _ _ (write_smap_Ok (set_smap m (at_smap i s)) (ok_smap_index _ H1))).
  unfold count_data. rewrite fs_bind_modify. rewrite write_super_block_Ok.
  assert (Hmb' : forall k, 0 <= k -> mbit m k = if decide (k = b mod 4096) then false else mbit (smap_of s i) k).
  { intros k Hk. rewrite Hmb by done. change (smap (at_smap i s)) with (smap_of s i). repeat case_decide; (done || lia). }
  assert (Hu : forall b', is_block b' -> block_used (with_smap m (-1) (at_smap i s)) b' = if decide (b' = b) then false else block_used s b').
  { intros b' Hbb. unfold is_block in Hbb. rewrite block_used_with_smap by (done || (cbn; lia)). cbn [smap_index at_smap set_smap set_smap_index].
    case_decide as E1.
    - rewrite Hmb' by lia. repeat case_decide; try done; [lia|subst b'; done|]. unfold block_used. by rewrite E1.
    - by rewrite decide_False by (intros ->; done). }
  exists (with_smap m (-1) (at_smap i s)). split; [done|]. split; [|split; [by apply alloc_frame_with_smap|by split]].
  apply fs_ok_with_smap; [done|done|cbn; lia|]. cbn [smap_index at_smap set_smap set_smap_index]. intros b' Hb1 Hb2 Hb3.
  destruct (ok_dir_block _ H) as (b0 & Hb0 & Ep & Hub). unfold is_block in Hb0, Hb1. change (current_dir_pointer (at_smap i s)) with (current_dir_pointer s) in Hb3.
  assert (b' = b0) as -> by addr. rewrite Hmb' by lia. case_decide; [exfalso; apply Hne; rewrite Ep; addr|]. unfold block_used in Hub. by rewrite <- Hb2.
Qed.

(** *** Other sectors and other variables *)

(** A sector behind the maps, other than the current directory's *)
Lemma fs_ok_put s a w : fs_ok s -> aligned a -> IARRAY_ADDR <= a -> a <> current_dir_pointer s ->
  length w = 512%nat -> bytes_ok w -> fs_ok (put_sector a w s).
Proof.
  intros H Ha Hge Hne Hl Hw. destruct (ok_dir_block _ H) as (b & Hb & Ep & Hu). pose proof Hb as Hb'. unfold is_block in Hb'.
  pose proof (ok_smap_index _ H).
  assert (Hsec : forall c, aligned c -> c <> a -> sector (put_sector a w s) c = sector s c).
  { intros c Hc Hca. rewrite sector_put by (done || apply (ok_card _ H)). by rewrite decide_False. }
  assert (Hdir : aligned (current_dir_pointer s)) by (rewrite Ep; addr).
  split; try apply H.
  - by apply card_ok_put; [apply (ok_card _ H)|..].
  - rewrite Hsec by addr. apply (ok_super_block_card _ H).
  - rewrite Hsec by addr. apply (ok_imap_card _ H).
  - intros Hi. change (smap_index (put_sector a w s)) with (smap_index s) in *. rewrite Hsec by addr. exact (ok_smap_card _ H Hi).
  - change (current_dir_pointer (put_sector a w s)) with (current_dir_pointer s). rewrite Hsec by done. apply (ok_dir_card _ H).
  - exists b. split; [done|]. split; [done|]. unfold block_used, smap_of in *. by rewrite Hsec by addr.
Qed.

Lemma block_used_put s a w b : card_ok (disk s) -> aligned a -> IARRAY_ADDR <= a -> length w = 512%nat -> bytes_ok w ->
  is_block b -> block_used (put_sector a w s) b = block_used s b.
Proof.
  intros H Ha Hge Hl Hw Hb. unfold is_block in Hb. unfold block_used, smap_of. rewrite sector_put by (done || addr).
  by rewrite decide_False by addr.
Qed.

(** The state but for the open files, the result register and the console *)
Definition same_fs s s' : Prop :=
  disk s' = disk s /\ super_block s' = super_block s /\ current_dir s' = current_dir s /\
  current_dir_pointer s' = current_dir_pointer s /\ imap s' = imap s /\ smap s' = smap s /\ smap_index s' = smap_index s.

Lemma fs_ok_same s s' : same_fs s s' -> fs_ok s -> fs_ok s'.
Proof.
  destruct s, s'. unfold same_fs. cbn. intros (-> & -> & -> & -> & -> & -> & ->) []. by split.
Qed.

End sectors.
