(* ===== verification/FsFile.v ===== *)
(** Files as byte arrays. The direct blocks of an inode hold an array of bytes; [fwrite] overwrites a
    range of it, allocating blocks where the range goes beyond the last, and [fread] reads one. *)

From S2P Require Import Prelude Slist CString Layout Sdcard Fs FsSpec.

(** ** Lists of bytes *)

Lemma slice_app l i a b r1 r2 : slice l i a = Some r1 -> slice l (i + a) b = Some r2 -> slice l i (a + b) = Some (r1 ++ r2).
Proof.
  intros H1 H2. pose proof (slice_length _ _ _ _ H1) as L1. pose proof (slice_length _ _ _ _ H2) as L2.
  pose proof (slice_Some _ _ _ _ H1) as (? & ? & ? & _). pose proof (slice_Some _ _ _ _ H2) as (? & ? & ? & _).
  assert (Hr : is_Some (slice l i (a + b))) by (unfold slice; rewrite decide_True by lia; eauto).
  destruct Hr as [r Hr]. pose proof (slice_length _ _ _ _ Hr) as L3. rewrite Hr. f_equal.
  apply list_eq_aget; [rewrite length_app; lia|]. intros j Hj. rewrite (slice_lookup _ _ _ _ j Hr), decide_True by lia.
  destruct (decide (j < a)).
  - transitivity (r1.[j]); [rewrite (slice_lookup _ _ _ _ j H1), decide_True by lia; done|].
    unfold aget. rewrite !decide_True by lia. by rewrite lookup_app_l by lia.
  - transitivity (r2.[j - a]); [rewrite (slice_lookup _ _ _ _ (j - a) H2), decide_True by lia; f_equal; lia|].
    unfold aget. rewrite !decide_True by lia. rewrite lookup_app_r by lia. f_equal. lia.
Qed.

Lemma splice_is_Some l i w : 0 <= i -> i + Z.of_nat (length w) <= Z.of_nat (length l) -> is_Some (splice l i w).
Proof. intros. unfold splice. rewrite decide_True by lia. eauto. Qed.

Lemma splice_nil l i : 0 <= i <= Z.of_nat (length l) -> splice l i [] = Some l.
Proof.
  intros. unfold splice. rewrite decide_True by (cbn; lia). cbn [length]. by rewrite Nat.add_0_r, app_nil_l, take_drop.
Qed.

Lemma slice_is_Some l i n : 0 <= i -> 0 <= n -> i + n <= Z.of_nat (length l) -> is_Some (slice l i n).
Proof. intros. unfold slice. rewrite decide_True by lia. eauto. Qed.

(** Two neighbouring writes *)
Lemma splice_splice l l1 l2 i w1 w2 : splice l i w1 = Some l1 -> splice l1 (i + Z.of_nat (length w1)) w2 = Some l2 ->
  splice l i (w1 ++ w2) = Some l2.
Proof.
  intros H1 H2. pose proof (splice_length _ _ _ _ H1) as L1. pose proof (splice_length _ _ _ _ H2) as L2.
  assert (0 <= i) by (unfold splice in H1; case_decide; [lia|done]).
  assert (i + Z.of_nat (length w1) + Z.of_nat (length w2) <= Z.of_nat (length l))
    by (unfold splice in H2; case_decide; [lia|done]).
  destruct (splice_is_Some l i (w1 ++ w2)) as [l3 H3]; [lia|rewrite length_app; lia|]. rewrite H3. f_equal.
  pose proof (splice_length _ _ _ _ H3) as L3. apply list_eq_aget; [congruence|]. intros j Hj.
  rewrite (splice_lookup _ _ _ _ j H3), (splice_lookup _ _ _ _ j H2), (splice_lookup _ _ _ _ j H1), length_app.
  unfold aget. destruct (decide (i <= j < i + Z.of_nat (length w1))).
  - rewrite (decide_True (P := i <= j < _)) by lia. rewrite (decide_False (P := _ <= j < _)) by lia.
    rewrite !decide_True by lia. by rewrite lookup_app_l by lia.
  - destruct (decide (i + Z.of_nat (length w1) <= j < i + Z.of_nat (length w1) + Z.of_nat (length w2))).
    + rewrite !decide_True by lia. rewrite lookup_app_r by lia. f_equal. lia.
    + by rewrite decide_False by lia.
Qed.

(** A slice of what was spliced in *)
Lemma slice_splice l l' i w : splice l i w = Some l' -> slice l' i (Z.of_nat (length w)) = Some w.
Proof.
  intros H. pose proof (splice_length _ _ _ _ H) as L.
  assert (0 <= i /\ i + Z.of_nat (length w) <= Z.of_nat (length l)) by (unfold splice in H; case_decide; [lia|done]).
  destruct (slice_is_Some l' i (Z.of_nat (length w))) as [r Hr]; [lia..|]. rewrite Hr. f_equal.
  pose proof (slice_length _ _ _ _ Hr). apply list_eq_aget; [lia|]. intros j Hj.
  rewrite (slice_lookup _ _ _ _ j Hr), decide_True by lia. rewrite (splice_lookup _ _ _ _ _ H), decide_True by lia. f_equal. lia.
Qed.

#[local] Ltac Zify.zify_post_hook ::= Z.to_euclidean_division_equations.

Section files.
Context {D : Type} `{!SdCard D}.
Implicit Types (s : fs D).

(** ** The blocks of a file *)

(** What the sectors of the blocks [bs] hold, in order *)
Definition content s (bs : list Z) : list Z := concat ((fun b => sector s (data_addr b)) <$> bs).

(** [bs] are the blocks of the inode [n], all direct, and its own. *)
Record file_ok s (n : inode_t) (bs : list Z) : Prop := {
  file_inode : wf inode_l n;
  file_allocated : size_allocated n = 512 * Z.of_nat (length bs);
  file_direct : (length bs <= 10)%nat;
  file_pointers i b : bs !! i = Some b -> pointers n !! i = Some (data_addr b);
  file_nodup : NoDup bs;
  file_used b : b ∈ bs -> is_block b /\ block_used s b = true /\ data_addr b <> current_dir_pointer s
}.

(** The inode number [ino] on the card *)
Definition inode_at s (ino : Z) (n : inode_t) : Prop :=
  0 <= ino < INODE_ITEM_NUM /\ (dec inodes_l (sector s (inode_addr (ino / 8)))).[ino mod 8] = Some n.

Lemma sector_length s a : card_ok (disk s) -> length (sector s a) = 512%nat.
Proof. apply read_sector_length. Qed.

Lemma content_length s bs : card_ok (disk s) -> length (content s bs) = (512 * length bs)%nat.
Proof.
  intros H. unfold content. induction bs as [|b bs IH]; [done|]. cbn. rewrite length_app, sector_length, IH by done. lia.
Qed.

Lemma content_aget s bs k : card_ok (disk s) -> 0 <= k ->
  (content s bs).[k] = b ← bs.[k / 512]; (sector s (data_addr b)).[k mod 512].
Proof.
  intros H. unfold content. revert k. induction bs as [|b bs IH]; intros k Hk.
  { cbn [fmap list_fmap concat]. by rewrite !aget_None by (cbn; lia). }
  cbn [fmap list_fmap concat]. pose proof (sector_length s (data_addr b) H) as Hl. destruct (decide (k < 512)).
  - replace (k / 512) with 0 by lia. change ((b :: bs).[0]) with (Some b). cbn [mbind option_bind]. unfold aget.
    rewrite !decide_True by lia. rewrite lookup_app_l by lia. f_equal. lia.
  - specialize (IH (k - 512) ltac:(lia)). replace ((k - 512) mod 512) with (k mod 512) in IH by lia.
    replace ((k - 512) / 512) with (k / 512 - 1) in IH by lia. unfold aget at 1. rewrite decide_True by lia.
    rewrite lookup_app_r by lia. rewrite Hl. unfold aget at 1 in IH. rewrite decide_True in IH by lia.
    replace (Z.to_nat k - 512)%nat with (Z.to_nat (k - 512)) by lia. rewrite IH.
    f_equal. unfold aget. rewrite !decide_True by lia.
    by replace (Z.to_nat (k / 512)) with (S (Z.to_nat (k / 512 - 1))) by lia.
Qed.

(** Reading within one block *)
Lemma slice_content s bs o t b : card_ok (disk s) -> 0 <= o -> 0 <= t -> o mod 512 + t <= 512 ->
  bs.[o / 512] = Some b -> slice (sector s (data_addr b)) (o mod 512) t = slice (content s bs) o t.
Proof.
  intros H Ho Ht Hot Hb. pose proof (sector_length s (data_addr b) H) as Hl. pose proof (aget_Some _ _ _ Hb).
  pose proof (content_length s bs H).
  destruct (slice_is_Some (sector s (data_addr b)) (o mod 512) t) as [r1 Hr1]; [lia..|].
  destruct (slice_is_Some (content s bs) o t) as [r2 Hr2]; [lia..|]. rewrite Hr1, Hr2. f_equal.
  pose proof (slice_length _ _ _ _ Hr1). pose proof (slice_length _ _ _ _ Hr2). apply list_eq_aget; [lia|]. intros j Hj.
  rewrite (slice_lookup _ _ _ _ j Hr1), (slice_lookup _ _ _ _ j Hr2), !decide_True by lia.
  rewrite content_aget by (done || lia). replace ((o + j) / 512) with (o / 512) by lia. rewrite Hb. cbn. f_equal. lia.
Qed.

(** Writing within one block *)
Lemma splice_content s bs o w w' b : card_ok (disk s) -> NoDup bs -> (forall b', b' ∈ bs -> is_block b') ->
  0 <= o -> o mod 512 + Z.of_nat (length w) <= 512 -> bs.[o / 512] = Some b -> bytes_ok w' ->
  splice (sector s (data_addr b)) (o mod 512) w = Some w' ->
  splice (content s bs) o w = Some (content (put_sector (data_addr b) w' s) bs).
Proof.
  intros H Hnd Hbl Ho How Hb Hw' Hs. pose proof (sector_length s (data_addr b) H) as Hl. pose proof (aget_Some _ _ _ Hb).
  pose proof (content_length s bs H) as Hcl. pose proof (splice_length _ _ _ _ Hs) as Hl'.
  assert (Hal : forall b', b' ∈ bs -> aligned (data_addr b')) by (intros b' Hb'%Hbl; unfold is_block in Hb'; addr).
  assert (Hin : b ∈ bs) by (unfold aget in Hb; rewrite decide_True in Hb by lia; by eapply list_elem_of_lookup_2).
  assert (Hcard : card_ok (disk (put_sector (data_addr b) w' s))) by (apply card_ok_put; [done|lia|done|by apply Hal]).
  destruct (splice_is_Some (content s bs) o w) as [c Hc]; [lia..|]. rewrite Hc. f_equal.
  pose proof (splice_length _ _ _ _ Hc). apply list_eq_aget; [rewrite content_length by done; lia|]. intros j Hj.
  rewrite (splice_lookup _ _ _ _ j Hc), !content_aget by (done || lia).
  destruct (bs.[j / 512]) as [b'|] eqn:Eb'; cbn.
  2:{ pose proof (aget_is_Some bs (j / 512) ltac:(lia)) as [? ?]. congruence. }
  assert (Hin' : b' ∈ bs) by (unfold aget in Eb'; rewrite decide_True in Eb' by lia; by eapply list_elem_of_lookup_2).
  rewrite sector_put; [|done|lia|done|by apply Hal|by apply Hal].
  assert (Hbb : b' = b <-> j / 512 = o / 512).
  { split; [|congruence]. intros ->. unfold aget in Hb, Eb'. rewrite decide_True in Hb by lia; rewrite decide_True in Eb' by lia.
    pose proof (NoDup_lookup _ _ _ _ Hnd Hb Eb'). lia. }
  destruct (decide (data_addr b' = data_addr b)) as [E|E].
  - assert (b' = b) as -> by addr. rewrite (splice_lookup _ _ _ _ (j mod 512) Hs). repeat case_decide; try lia; [f_equal; lia|done].
  - rewrite decide_False; [done|]. intros ?. apply E. f_equal. apply Hbb. lia.
Qed.

(** ** Reading and writing one block *)

Lemma fd_at_Ok s fd x : (fd_array s).[fd] = Some x -> fd_at fd s = Ok (x, s).
Proof. intros H. unfold fd_at. rewrite fs_bind_get. unfold lift. by rewrite H. Qed.

Lemma upd_fd_Ok s fd x f : (fd_array s).[fd] = Some x ->
  upd_fd fd f s = Ok (tt, set_fd_array (<[Z.to_nat fd := f x]> (fd_array s)) s).
Proof. intros H. unfold upd_fd. by rewrite (fs_bind_Ok _ _ _ _ _ (fd_at_Ok _ _ _ H)). Qed.

Lemma segment_direct o : 0 <= o < 10 -> segment o = 0.
Proof. intros H. unfold segment, b2z. by rewrite !(proj2 (Z.leb_gt _ _)) by lia. Qed.

Lemma file_pointer s n bs i : file_ok s n bs -> 0 <= i < Z.of_nat (length bs) ->
  exists b, bs.[i] = Some b /\ (pointers n).[i] = Some (data_addr b) /\ b ∈ bs.
Proof.
  intros H Hi. destruct (aget_is_Some bs i Hi) as [b Hb]. exists b. split; [done|].
  unfold aget in *. rewrite decide_True in Hb by lia. rewrite decide_True by lia.
  split; [by apply (file_pointers _ _ _ H)|by eapply list_elem_of_lookup_2].
Qed.

Lemma offset_to_pointer_direct s n bs o : file_ok s n bs -> 0 <= o < 512 * Z.of_nat (length bs) ->
  exists b, bs.[o / 512] = Some b /\ b ∈ bs /\ offset_to_pointer n o s = Ok ((data_addr b, o mod 512), s).
Proof.
  intros H Ho. pose proof (file_direct _ _ _ H). destruct (file_pointer s n bs (o / 512) H) as (b & Hb & Hp & Hin); [lia|].
  exists b. split; [done|]. split; [done|]. unfold offset_to_pointer. rewrite segment_direct by lia. cbn [Z.eqb].
  rewrite (fs_bind_lift _ _ _ _ Hp). unfold mret, F_ret. repeat f_equal. rewrite u32_id by (unfold is_u32; lia). lia.
Qed.

(** What a write to the blocks [bs] leaves alone *)
Record write_frame (bs : list Z) s s' : Prop := {
  wf_imap : imap s' = imap s;
  wf_smap : smap s' = smap s;
  wf_smap_index : smap_index s' = smap_index s;
  wf_super_block : super_block s' = super_block s;
  wf_dir : current_dir s' = current_dir s;
  wf_dir_pointer : current_dir_pointer s' = current_dir_pointer s;
  wf_slist : fd_array_slist s' = fd_array_slist s;
  wf_console : console s' = console s;
  wf_regs2 : regs2 s' = regs2 s;
  wf_sector c : aligned c -> c < DARRAY_ADDR -> sector s' c = sector s c;
  wf_data b : is_block b -> b ∉ bs -> sector s' (data_addr b) = sector s (data_addr b)
}.

Lemma write_frame_refl bs s : write_frame bs s s.
Proof. by split. Qed.

Lemma write_frame_trans bs s1 s2 s3 : write_frame bs s1 s2 -> write_frame bs s2 s3 -> write_frame bs s1 s3.
Proof.
  intros [] []. split; try congruence.
  - intros c H1 H2. by rewrite wf_sector1, wf_sector0.
  - intros b H1 H2. by rewrite wf_data1, wf_data0.
Qed.

Lemma block_used_frame bs s s' b : write_frame bs s s' -> is_block b -> block_used s' b = block_used s b.
Proof.
  intros H Hb. unfold is_block in Hb. unfold block_used, smap_of. by rewrite (wf_sector _ _ _ H) by addr.
Qed.

Lemma file_ok_frame bs' s s' n bs : write_frame bs' s s' -> file_ok s n bs -> file_ok s' n bs.
Proof.
  intros Hf []. split; try done. intros b Hb. rewrite (wf_dir_pointer _ _ _ Hf). destruct (file_used0 b Hb) as (? & ? & ?).
  by rewrite (block_used_frame _ _ _ _ Hf).
Qed.

Lemma set_size_wf v n : is_u32 v -> wf inode_l n -> wf inode_l (set_size v n).
Proof. intros Hv. destruct n. cbn. tauto. Qed.

Lemma file_ok_set_size s n bs v : is_u32 v -> file_ok s n bs -> file_ok s (set_size v n) bs.
Proof. intros Hv []. split; try done. by apply set_size_wf. Qed.

(** The entry of the table of open files after [t] bytes *)
Definition advance (t : Z) (x : fd_t) : fd_t := set_fd_size (u32 (fd_size x + t)) (set_offset (u32 (offset x + t)) x).

Lemma fwrite_block_spec s n bs fd x buf size : let t := Z.min size (512 - offset x mod 512) in
  fs_ok s -> file_ok s n bs -> (fd_array s).[fd] = Some x -> 0 <= offset x < 512 * Z.of_nat (length bs) ->
  0 < size <= Z.of_nat (length buf) -> bytes_ok buf ->
  exists s', fwrite_block fd n buf size s = Ok ((set_size (u32 (Fs.size n + t)) n, t), s') /\
    fs_ok s' /\ write_frame bs s s' /\ splice (content s bs) (offset x) (take (Z.to_nat t) buf) = Some (content s' bs) /\
    fd_array s' = <[Z.to_nat fd := advance t x]> (fd_array s).
Proof.
  intros t H Hf Hx Ho Hsz Hbuf. pose proof (file_direct _ _ _ Hf).
  destruct (offset_to_pointer_direct s n bs (offset x) Hf Ho) as (b & Hb & Hin & Ep).
  destruct (file_used _ _ _ Hf b Hin) as (Hbl & Hused & Hdir). unfold is_block in Hbl.
  pose proof (sector_length s (data_addr b) (ok_card _ H)) as Hsl.
  unfold fwrite_block. rewrite (fs_bind_Ok _ _ _ _ _ (fd_at_Ok _ _ _ Hx)), (fs_bind_Ok _ _ _ _ _ Ep).
  rewrite (fs_bind_Ok _ _ _ _ _ (sdread_bytes_Ok s (data_addr b) ltac:(addr))).
  assert (Er : s32 (offset x - offset x / 512 * 512) = offset x mod 512) by (rewrite s32_id by (unfold is_s32; lia); lia).
  rewrite Er. assert (Et : (if size <? 512 - offset x mod 512 then size else 512 - offset x mod 512) = t)
    by (unfold t; case_cmp; lia). rewrite Et.
  destruct (slice_is_Some buf 0 t) as [w Hw]; [lia..|]. pose proof (slice_Some _ _ _ _ Hw) as (_ & _ & _ & Ew).
  change (drop (Z.to_nat 0) buf) with buf in Ew. pose proof (slice_length _ _ _ _ Hw) as Hwl.
  destruct (splice_is_Some (sector s (data_addr b)) (offset x mod 512) w) as [w' Hw']; [lia..|].
  pose proof (splice_length _ _ _ _ Hw') as Hwl'.
  assert (Hbw' : bytes_ok w').
  { pose proof (read_sector_bytes (disk s) (data_addr b) (ok_card _ H)) as Hsb. revert Hw'. unfold splice. case_decide; [|done].
    intros [= <-]. rewrite Ew. repeat (apply Forall_app; split); auto using Forall_take, Forall_drop. }
  rewrite (fs_bind_lift _ _ _ _ Hw), (fs_bind_lift _ _ _ _ Hw').
  rewrite (fs_bind_Ok _ _ _ _ _ (sdwrite_bytes_Ok s (data_addr b) w' ltac:(addr))).
  rewrite (fs_bind_Ok _ _ _ _ _ (upd_fd_Ok (put_sector (data_addr b) w' s) fd x _ Hx)).
  eexists. split; [reflexivity|].
  assert (Hok : fs_ok (put_sector (data_addr b) w' s)) by (apply fs_ok_put; [done|addr|addr|done|lia|done]).
  split; [by eapply fs_ok_same; [|exact Hok]|]. split.
  - split; try done.
    { intros c Hc Hlt. etransitivity; [apply (sector_put s (data_addr b) w' c); [apply (ok_card _ H)|lia|done|addr|done]|].
      by rewrite decide_False by addr. }
    intros b' Hb' Hni. unfold is_block in Hb'.
    etransitivity; [apply (sector_put s (data_addr b) w' (data_addr b')); [apply (ok_card _ H)|lia|done|addr|addr]|].
    rewrite decide_False; [done|]. intros ?. assert (b' = b) as -> by addr. done.
  - split; [|done]. rewrite <- Ew.
    by apply (splice_content s bs (offset x) w w' b); [apply (ok_card _ H)|apply (file_nodup _ _ _ Hf)
      |intros b' Hb'; apply (file_used _ _ _ Hf b' Hb')|lia|lia|..].
Qed.

(** ** The loop of [fwrite] *)

Lemma advance_0 x : is_u32 (offset x) -> is_u32 (fd_size x) -> advance 0 x = x.
Proof. intros. destruct x. unfold advance. cbn in *. by rewrite !Z.add_0_r, !u32_id. Qed.

Lemma advance_advance a b x : advance b (advance a x) = advance (a + b) x.
Proof.
  unfold advance, u32, set_fd_size, set_offset. cbn. rewrite !Zplus_mod_idemp_l. f_equal; f_equal; lia.
Qed.

Lemma set_size_twice n a b : set_size (u32 (Fs.size (set_size (u32 (Fs.size n + a)) n) + b)) (set_size (u32 (Fs.size n + a)) n) =
  set_size (u32 (Fs.size n + (a + b))) n.
Proof. unfold set_size, u32. cbn. rewrite Zplus_mod_idemp_l. do 2 f_equal. lia. Qed.

Lemma set_size_0 n : wf inode_l n -> set_size (u32 (Fs.size n + 0)) n = n.
Proof. intros H. rewrite Z.add_0_r. destruct n. cbn in *. unfold set_size. cbn. rewrite u32_id; [done|apply H]. Qed.

(** With enough blocks, the loop writes all of [buf]. *)
Lemma fwrite_loop_write fuel : forall s n bs fd x buf size sw,
  fs_ok s -> file_ok s n bs -> (fd_array s).[fd] = Some x -> 0 <= offset x -> is_u32 (fd_size x) ->
  0 <= size <= Z.of_nat (length buf) -> bytes_ok buf -> offset x + size <= 512 * Z.of_nat (length bs) ->
  (0 < size -> size + offset x mod 512 <= 512 * Z.of_nat fuel) -> 0 <= sw -> sw + size <= 5120 ->
  exists s', fwrite_loop fuel fd n buf size sw s = Ok ((set_size (u32 (Fs.size n + size)) n, sw + size), s') /\
    fs_ok s' /\ write_frame bs s s' /\ splice (content s bs) (offset x) (take (Z.to_nat size) buf) = Some (content s' bs) /\
    fd_array s' = <[Z.to_nat fd := advance size x]> (fd_array s).
Proof.
  induction fuel as [|fuel IH]; intros s n bs fd x buf size sw H Hf Hx Ho Hfs Hsz Hbuf Hfit Hfuel Hsw1 Hsw2;
    pose proof (file_direct _ _ _ Hf); cbn [fwrite_loop];
    (destruct (Z.eqb_spec size 0) as [->|Hne];
      [exists s; rewrite set_size_0 by apply (file_inode _ _ _ Hf); rewrite Z.add_0_r; split; [done|]; split; [done|];
        split; [apply write_frame_refl|]; split;
        [by rewrite take_0, splice_nil by (rewrite content_length by apply (ok_card _ H); lia)
        |rewrite advance_0 by (done || (unfold is_u32; lia)); unfold aget in Hx;
          destruct (decide (0 <= fd)); [by rewrite list_insert_id|done]]|]).
  { exfalso. lia. }
  rewrite (fs_bind_Ok _ _ _ _ _ (fd_at_Ok _ _ _ Hx)).
  assert (Er : (size <=? u32 (s32 (size_allocated n - offset x))) = true).
  { rewrite (file_allocated _ _ _ Hf). rewrite s32_id by (unfold is_s32; lia). rewrite u32_id by (unfold is_u32; lia).
    apply Z.leb_le. lia. }
  rewrite Er. set (t := Z.min size (512 - offset x mod 512)).
  destruct (fwrite_block_spec s n bs fd x buf size H Hf Hx) as (s1 & E1 & H1 & Hfr1 & Hsp1 & Hfd1); [lia|lia|done|].
  fold t in E1, Hsp1, Hfd1. rewrite (fs_bind_Ok _ _ _ _ _ E1).
  assert (Ht : 0 < t <= size) by lia. rewrite (u32_id (size - t)) by (unfold is_u32; lia). rewrite (s32_id (sw + t)) by (unfold is_s32; lia).
  assert (Hx1 : (fd_array s1).[fd] = Some (advance t x)).
  { pose proof (aget_Some _ _ _ Hx). rewrite Hfd1, aget_insert by lia. by rewrite decide_True by lia. }
  assert (Hoff : offset (advance t x) = offset x + t) by (cbn; apply u32_id; unfold is_u32; lia).
  destruct (IH s1 (set_size (u32 (Fs.size n + t)) n) bs fd (advance t x) (drop (Z.to_nat t) buf) (size - t) (sw + t))
    as (s' & E & H' & Hfr & Hsp & Hfd); try done.
  - apply file_ok_set_size; [apply u32_range|]. by eapply file_ok_frame.
  - lia.
  - apply u32_range.
  - rewrite length_drop. lia.
  - by apply Forall_drop.
  - lia.
  - intros Hpos. rewrite Hoff. specialize (Hfuel ltac:(lia)). lia.
  - lia.
  - lia.
  - exists s'. rewrite E, set_size_twice. replace (t + (size - t)) with size by lia.
    replace (sw + t + (size - t)) with (sw + size) by lia. split; [done|]. split; [done|].
    split; [by eapply write_frame_trans|]. split.
    + replace (take (Z.to_nat size) buf) with (take (Z.to_nat t) buf ++ take (Z.to_nat (size - t)) (drop (Z.to_nat t) buf)).
      * eapply splice_splice; [exact Hsp1|]. rewrite length_take. rewrite Hoff in Hsp.
        by replace (Z.of_nat (Z.to_nat t `min` length buf)) with t by lia.
      * rewrite take_take_drop. f_equal. lia.
    + rewrite Hfd, Hfd1, list_insert_insert_eq, advance_advance. do 2 f_equal. lia.
Qed.

(** ** Growing a file *)

Lemma fwrite_grow_spec s n bs b l : fs_ok s -> file_ok s n bs -> (length bs < 10)%nat -> free_list s (b :: l) ->
  exists s', let n' := set_size_allocated (512 * Z.of_nat (length (bs ++ [b]))) (set_pointers (<[length bs := data_addr b]> (pointers n)) n) in
    fwrite_grow n s = Ok (Some n', s') /\ fs_ok s' /\ alloc_frame s s' /\ file_ok s' n' (bs ++ [b]) /\ free_list s' l.
Proof.
  intros H Hf Hlen Hfl. destruct (darray_alloc_spec s (b :: l) H Hfl) as (s' & E & H' & Hfr & Hb & Hfree & Hfl' & _ & Hu).
  pose proof Hb as Hb'. unfold is_block in Hb'. exists s'. cbn zeta. unfold fwrite_grow.
  rewrite (file_allocated _ _ _ Hf). rewrite (fs_bind_Ok _ _ _ _ _ E). rewrite (u32_id b) by addr.
  rewrite (proj2 (Z.eqb_neq b MINUS_ONE)) by (unfold MINUS_ONE; addr).
  change (DARRAY_ADDR + b * SECTOR_SIZE) with (data_addr b). rewrite (u32_id (data_addr b)) by addr.
  pose proof (file_inode _ _ _ Hf) as Hwf. assert (Hpl : length (pointers n) = 13%nat) by (destruct n; apply Hwf).
  rewrite length_app. cbn [length].
  assert (Ea : aset (pointers n) (512 * Z.of_nat (length bs) / 512) (data_addr b) = Some (<[length bs := data_addr b]> (pointers n))).
  { rewrite aset_Some by lia. do 2 f_equal. lia. }
  rewrite (fs_bind_lift _ _ _ _ Ea). split.
  { rewrite u32_id by (unfold is_u32; lia). by replace (512 * Z.of_nat (length bs + 1)) with (512 * Z.of_nat (length bs) + 512) by lia. }
  split; [done|]. split; [done|]. split; [|done]. split.
  - destruct n. cbn in *. destruct Hwf as (? & ? & [? ?] & ? & ? & ? & ?).
    split_and!; try done; [unfold is_u32; lia|by rewrite length_insert|]. apply Forall_insert; [done|addr].
  - rewrite length_app. done.
  - rewrite length_app. cbn. lia.
  - intros i b1 Hb1. cbn. apply lookup_app_Some in Hb1 as [Hb1|[Hge Hb1]].
    + pose proof (lookup_lt_Some _ _ _ Hb1). rewrite list_lookup_insert_ne by lia. by apply (file_pointers _ _ _ Hf).
    + pose proof (lookup_lt_Some _ _ _ Hb1) as Hlt. cbn in Hlt. replace i with (length bs) in * by lia.
      rewrite Nat.sub_diag in Hb1. injection Hb1 as <-. apply list_lookup_insert_eq. lia.
  - apply NoDup_app. split; [apply (file_nodup _ _ _ Hf)|]. split; [|apply NoDup_singleton].
    intros b1 Hb1 ->%list_elem_of_singleton. destruct (file_used _ _ _ Hf b Hb1) as (_ & ? & _). congruence.
  - intros b1 [Hb1| ->%list_elem_of_singleton]%elem_of_app.
    + destruct (file_used _ _ _ Hf b1 Hb1) as (? & ? & ?). split; [done|]. rewrite Hu by done.
      rewrite (af_dir_pointer _ _ Hfr). split; [by case_decide|done].
    + split; [done|]. rewrite Hu, decide_True by done. split; [done|]. rewrite (af_dir_pointer _ _ Hfr). intros Ep.
      destruct (ok_dir_block _ H) as (b0 & Hb0 & Ep0 & Hu0). unfold is_block in Hb0. assert (b0 = b) as -> by addr. congruence.
Qed.

(** What [fwrite] leaves alone, beside the inode it writes in the end: [bs] are the blocks of the file afterwards. *)
Record file_frame (bs : list Z) s s' : Prop := {
  ff_imap : imap s' = imap s;
  ff_dir : current_dir s' = current_dir s;
  ff_dir_pointer : current_dir_pointer s' = current_dir_pointer s;
  ff_slist : fd_array_slist s' = fd_array_slist s;
  ff_console : console s' = console s;
  ff_inodes c : aligned c -> IARRAY_ADDR <= c -> c < DARRAY_ADDR -> sector s' c = sector s c;
  ff_data b : is_block b -> b ∉ bs -> sector s' (data_addr b) = sector s (data_addr b)
}.

Lemma file_frame_alloc bs s1 s2 s3 : alloc_frame s1 s2 -> file_frame bs s2 s3 -> file_frame bs s1 s3.
Proof.
  intros Ha Hf. split.
  - by rewrite (ff_imap _ _ _ Hf), (af_imap _ _ Ha).
  - by rewrite (ff_dir _ _ _ Hf), (af_dir _ _ Ha).
  - by rewrite (ff_dir_pointer _ _ _ Hf), (af_dir_pointer _ _ Ha).
  - by rewrite (ff_slist _ _ _ Hf), (af_slist _ _ Ha).
  - by rewrite (ff_console _ _ _ Hf), (af_console _ _ Ha).
  - intros c H1 H2 H3. by rewrite (ff_inodes _ _ _ Hf), (af_sector _ _ Ha).
  - intros b H1 H2. rewrite (ff_data _ _ _ Hf) by done. unfold is_block in H1. by rewrite (af_sector _ _ Ha) by addr.
Qed.

Lemma file_frame_write bs s s' : write_frame bs s s' -> file_frame bs s s'.
Proof. intros []. split; try done. intros c H1 H2 H3. by apply wf_sector0. Qed.

Lemma content_alloc bs s s' : (forall b, b ∈ bs -> is_block b) -> alloc_frame s s' -> content s' bs = content s bs.
Proof.
  intros Hb Hf. unfold content. f_equal. apply list_fmap_ext. intros i b Hi%list_elem_of_lookup_2%Hb. unfold is_block in Hi.
  by rewrite (af_sector _ _ Hf) by addr.
Qed.

(** The whole loop: [bn] are the blocks it allocates. *)
Lemma fwrite_loop_spec bn : forall fuel s n bs l fd x buf size,
  fs_ok s -> file_ok s n bs -> (fd_array s).[fd] = Some x -> 0 <= offset x <= 512 * Z.of_nat (length bs) -> is_u32 (fd_size x) ->
  0 <= size <= Z.of_nat (length buf) -> bytes_ok buf -> free_list s (bn ++ l) ->
  offset x + size <= 512 * Z.of_nat (length (bs ++ bn)) -> (length (bs ++ bn) <= 10)%nat ->
  (bn <> [] -> 512 * Z.of_nat (length (bs ++ bn)) < offset x + size + 512) ->
  size + 511 + 512 * Z.of_nat (length bn) <= 512 * Z.of_nat fuel ->
  exists s' n', fwrite_loop fuel fd n buf size 0 s = Ok ((n', size), s') /\
    fs_ok s' /\ file_ok s' n' (bs ++ bn) /\ free_list s' l /\ file_frame (bs ++ bn) s s' /\
    splice (content s (bs ++ bn)) (offset x) (take (Z.to_nat size) buf) = Some (content s' (bs ++ bn)) /\
    fd_array s' = <[Z.to_nat fd := advance size x]> (fd_array s).
Proof.
  induction bn as [|b bn IH]; intros fuel s n bs l fd x buf size H Hf Hx Ho Hfs Hsz Hbuf Hfl Hfit Hten Hneed Hfuel.
  { rewrite app_nil_r in *. destruct (fwrite_loop_write fuel s n bs fd x buf size 0) as (s' & E & H' & Hfr & Hsp & Hfd); try done; try lia.
    exists s'. eexists. rewrite E. split; [done|]. split; [done|]. split.
    { apply file_ok_set_size; [apply u32_range|]. by eapply file_ok_frame. }
    split; [|split; [by apply file_frame_write|done]]. cbn [app] in Hfl. destruct Hfl as [Hs Hl]. split; [done|].
    intros b. rewrite Hl, (wf_smap_index _ _ _ Hfr). split; intros (? & ? & ?); (split_and!; [done|done|]);
      [by rewrite (block_used_frame _ _ _ _ Hfr)|by rewrite <- (block_used_frame _ _ _ b Hfr)]. }
  specialize (Hneed ltac:(done)). rewrite length_app in *. cbn [length] in *.
  destruct fuel as [|fuel]; [lia|]. cbn [fwrite_loop]. rewrite (proj2 (Z.eqb_neq size 0)) by lia.
  rewrite (fs_bind_Ok _ _ _ _ _ (fd_at_Ok _ _ _ Hx)).
  assert (Er : (size <=? u32 (s32 (size_allocated n - offset x))) = false).
  { rewrite (file_allocated _ _ _ Hf). rewrite s32_id by (unfold is_s32; lia). rewrite u32_id by (unfold is_u32; lia).
    apply Z.leb_gt. lia. }
  rewrite Er. destruct (fwrite_grow_spec s n bs b (bn ++ l) H Hf) as (s1 & E1 & H1 & Hfr1 & Hf1 & Hfl1); [lia|done|].
  cbn zeta in E1. set (n1 := set_size_allocated _ _) in *. rewrite (fs_bind_Ok _ _ _ _ _ E1).
  rewrite <- (af_fds _ _ Hfr1) in Hx.
  destruct (IH fuel s1 n1 (bs ++ [b]) l fd x buf size) as (s' & n' & E & H' & Hf' & Hfl' & Hfr & Hsp & Hfd); try done.
  - rewrite length_app. cbn. lia.
  - rewrite <- app_assoc, length_app. cbn. lia.
  - rewrite <- app_assoc, length_app. cbn. lia.
  - intros _. rewrite <- app_assoc, length_app. cbn. lia.
  - lia.
  - rewrite <- app_assoc in *. exists s', n'. split; [done|]. split; [done|]. split; [done|]. split; [done|].
    split; [by eapply file_frame_alloc|]. cbn [app] in *. split.
    + rewrite <- (content_alloc (bs ++ b :: bn) s s1); [done| |done]. intros b' Hb'. apply (file_used _ _ _ Hf' b' Hb').
    + by rewrite Hfd, (af_fds _ _ Hfr1).
Qed.

(** ** Reading *)

Lemma file_ok_fds s n bs l : file_ok s n bs -> file_ok (set_fd_array l s) n bs.
Proof. intros []. by split. Qed.

Lemma fread_loop_spec fuel : forall s n bs fd x left,
  card_ok (disk s) -> file_ok s n bs -> (fd_array s).[fd] = Some x -> is_u32 (offset x) -> 0 <= left ->
  offset x + left <= 512 * Z.of_nat (length bs) -> (0 < left -> left + offset x mod 512 <= 512 * Z.of_nat fuel) ->
  exists r, slice (content s bs) (offset x) left = Some r /\
    fread_loop fuel fd n left s = Ok (r, set_fd_array (<[Z.to_nat fd := set_offset (offset x + left) x]> (fd_array s)) s).
Proof.
  induction fuel as [|fuel IH]; intros s n bs fd x left H Hf Hx Ho Hleft Hfit Hfuel; pose proof (file_direct _ _ _ Hf);
    pose proof (content_length s bs H) as Hcl; unfold is_u32 in Ho; cbn [fread_loop];
    (destruct (Z.eqb_spec left 0) as [->|Hne];
      [exists []; split; [unfold slice; rewrite decide_True by lia; by rewrite take_0|];
        rewrite Z.add_0_r; replace (set_offset (offset x) x) with x by (by destruct x); unfold aget in Hx;
        destruct (decide (0 <= fd)); [rewrite list_insert_id by done; by destruct s|done]|]).
  { exfalso. lia. }
  destruct (offset_to_pointer_direct s n bs (offset x) Hf) as (b & Hb & Hin & Ep); [lia|].
  destruct (file_used _ _ _ Hf b Hin) as (Hbl & _). unfold is_block in Hbl.
  rewrite (fs_bind_Ok _ _ _ _ _ (fd_at_Ok _ _ _ Hx)), (fs_bind_Ok _ _ _ _ _ Ep).
  set (t := Z.min left (512 - offset x mod 512)).
  assert (Et : s32 (if u32 left <? u32 (SECTOR_SIZE - offset x mod 512) then u32 left else u32 (SECTOR_SIZE - offset x mod 512)) = t).
  { unfold SECTOR_SIZE. rewrite !u32_id by (unfold is_u32; lia). unfold t. rewrite s32_id; case_cmp; unfold is_s32; lia. }
  rewrite Et. rewrite (fs_bind_Ok _ _ _ _ _ (sdread_bytes_Ok s (data_addr b) ltac:(addr))).
  destruct (slice_is_Some (content s bs) (offset x) t) as [w Hw]; [lia..|].
  rewrite (fs_bind_lift _ _ _ w) by (rewrite (slice_content s bs (offset x) t b); (done || lia)).
  rewrite (fs_bind_Ok _ _ _ _ _ (upd_fd_Ok s fd x _ Hx)). rewrite (s32_id (left - t)) by (unfold is_s32; lia).
  rewrite (u32_id (offset x + t)) by (unfold is_u32; lia).
  set (s1 := set_fd_array _ s). set (x1 := set_offset (offset x + t) x).
  assert (Hx1 : (fd_array s1).[fd] = Some x1).
  { pose proof (aget_Some _ _ _ Hx). unfold s1. cbn [fd_array set_fd_array]. rewrite aget_insert by lia. by rewrite decide_True by lia. }
  destruct (IH s1 n bs fd x1 (left - t)) as (r & Hr & E); try done; try (unfold is_u32; cbn; lia).
  { by apply file_ok_fds. }
  exists (w ++ r). split.
  - replace left with (t + (left - t)) by lia. by eapply slice_app.
  - rewrite (fs_bind_Ok _ _ _ _ _ E). unfold mret, F_ret.
    assert (Es : <[Z.to_nat fd := set_offset (offset x1 + (left - t)) x1]> (fd_array s1) =
      <[Z.to_nat fd := set_offset (offset x + left) x]> (fd_array s)).
    { unfold s1, x1. cbn [offset set_offset fd_array set_fd_array]. rewrite list_insert_insert_eq.
      by replace (offset x + t + (left - t)) with (offset x + left) by lia. }
    by rewrite Es.
Qed.

(** ** The inode of an open file *)

Lemma inode_at_read s ino n : inode_at s ino n ->
  let inode := dec inodes_l (sector s (inode_addr (ino / 8))) in
  read_inodes (ino / 8) s = Ok (inode, s) /\ inode.[ino - ino / 8 * 8] = Some n.
Proof.
  intros [Hi E]. unfold INODE_ITEM_NUM in Hi. split; [apply (sdread_as_Ok inodes_l); addr|].
  by replace (ino - ino / 8 * 8) with (ino mod 8) by lia.
Qed.

Lemma wf_inode_insert inode (i : nat) n : wf inodes_l inode -> wf inode_l n -> wf inodes_l (<[i := n]> inode).
Proof. intros [Hl Hw] Hn. split; [by rewrite length_insert|by apply Forall_insert]. Qed.

Lemma inode_at_wf s ino n : card_ok (disk s) -> inode_at s ino n -> wf inode_l n.
Proof.
  intros H [Hi E]. destruct (dec_sector inodes_l s (inode_addr (ino / 8)) H) as [[_ Hw] _].
  by eapply Forall_aget in Hw.
Qed.

(** Writing the inode back *)
Definition put_inode s (ino : Z) (n : inode_t) : fs D :=
  put_sector (inode_addr (ino / 8)) (enc inodes_l (<[Z.to_nat (ino mod 8) := n]> (dec inodes_l (sector s (inode_addr (ino / 8)))))) s.

Lemma enc_inode_insert s g (i : nat) n : card_ok (disk s) -> wf inode_l n ->
  wf inodes_l (<[i := n]> (dec inodes_l (sector s (inode_addr g)))).
Proof. intros H Hn. apply wf_inode_insert; [|done]. by apply (dec_sector inodes_l). Qed.

Lemma sector_put_inode s ino n c : card_ok (disk s) -> 0 <= ino < INODE_ITEM_NUM -> wf inode_l n -> aligned c -> c <> inode_addr (ino / 8) ->
  sector (put_inode s ino n) c = sector s c.
Proof.
  intros H Hi Hn Hc Hne. destruct (enc_sector inodes_l _ (enc_inode_insert s (ino / 8) (Z.to_nat (ino mod 8)) n H Hn)).
  unfold INODE_ITEM_NUM in Hi. unfold put_inode. rewrite sector_put by (done || addr). by rewrite decide_False.
Qed.

Lemma inode_at_put s ino n ino' n' : card_ok (disk s) -> 0 <= ino < INODE_ITEM_NUM -> wf inode_l n -> 0 <= ino' < INODE_ITEM_NUM ->
  inode_at (put_inode s ino n) ino' n' <-> if decide (ino' = ino) then n' = n else inode_at s ino' n'.
Proof.
  intros H Hi Hn Hi'. pose proof (enc_inode_insert s (ino / 8) (Z.to_nat (ino mod 8)) n H Hn) as Hwf.
  destruct (enc_sector inodes_l _ Hwf). pose proof Hi as Hi2. pose proof Hi' as Hi3. unfold INODE_ITEM_NUM in Hi2, Hi3.
  destruct (dec_sector inodes_l s (inode_addr (ino / 8)) H) as [[Hlen _] _].
  unfold inode_at. destruct (decide (ino' / 8 = ino / 8)) as [Eg|Eg].
  - rewrite Eg. unfold put_inode at 1. rewrite sector_put by (done || addr). rewrite decide_True by done.
    rewrite dec_enc_nil by (done || apply _). rewrite aget_insert by lia. case_decide as E1; case_decide as E2; try lia.
    + split; [by intros [_ [= ->]]|by intros ->].
    + done.
  - rewrite sector_put_inode by (done || addr). by rewrite decide_False by congruence.
Qed.

Lemma fs_ok_put_inode s ino n : fs_ok s -> 0 <= ino < INODE_ITEM_NUM -> wf inode_l n -> fs_ok (put_inode s ino n).
Proof.
  intros H Hi Hn. unfold INODE_ITEM_NUM in Hi. destruct (ok_dir_block _ H) as (b & Hb & Ep & _). unfold is_block in Hb.
  destruct (enc_sector inodes_l _ (enc_inode_insert s (ino / 8) (Z.to_nat (ino mod 8)) n (ok_card _ H) Hn)).
  apply fs_ok_put; [done|addr|addr|rewrite Ep; addr|done|done].
Qed.

Lemma block_used_put_inode s ino n b : card_ok (disk s) -> 0 <= ino < INODE_ITEM_NUM -> wf inode_l n -> is_block b ->
  block_used (put_inode s ino n) b = block_used s b.
Proof.
  intros H Hi Hn Hb. unfold INODE_ITEM_NUM in Hi.
  destruct (enc_sector inodes_l _ (enc_inode_insert s (ino / 8) (Z.to_nat (ino mod 8)) n H Hn)).
  apply block_used_put; [done|addr|addr|done|done|done].
Qed.

Lemma content_put_inode s ino n bs : card_ok (disk s) -> 0 <= ino < INODE_ITEM_NUM -> wf inode_l n -> (forall b, b ∈ bs -> is_block b) ->
  content (put_inode s ino n) bs = content s bs.
Proof.
  intros H Hi Hn Hbl. pose proof Hi as Hi'. unfold INODE_ITEM_NUM in Hi'. unfold content. f_equal. apply list_fmap_ext.
  intros i b Hb%list_elem_of_lookup_2%Hbl. unfold is_block in Hb. by apply sector_put_inode; [..|addr|addr].
Qed.

(** ** [fwrite], [fread] and [fseek] *)

Lemma fwrite_spec s fd x n bs bn l buf :
  fs_ok s -> (fd_array s).[fd] = Some x -> access x = O_RDWR \/ access x = O_WR ->
  inode_at s (fd_ino x) n -> file_ok s n bs -> 0 <= offset x <= 512 * Z.of_nat (length bs) -> is_u32 (fd_size x) ->
  bytes_ok buf -> free_list s (bn ++ l) -> (length (bs ++ bn) <= 10)%nat ->
  offset x + Z.of_nat (length buf) <= 512 * Z.of_nat (length (bs ++ bn)) ->
  (bn <> [] -> 512 * Z.of_nat (length (bs ++ bn)) < offset x + Z.of_nat (length buf) + 512) ->
  exists s' n', fwrite fd buf (Z.of_nat (length buf)) s = Ok (tt, s') /\ regs2 s' = Z.of_nat (length buf) /\
    fs_ok s' /\ file_ok s' n' (bs ++ bn) /\ free_list s' l /\
    splice (content s (bs ++ bn)) (offset x) buf = Some (content s' (bs ++ bn)) /\
    fd_array s' = <[Z.to_nat fd := advance (Z.of_nat (length buf)) x]> (fd_array s) /\
    (forall ino n2, 0 <= ino < INODE_ITEM_NUM -> inode_at s' ino n2 <-> if decide (ino = fd_ino x) then n2 = n' else inode_at s ino n2) /\
    forall b, is_block b -> b ∉ bs ++ bn -> sector s' (data_addr b) = sector s (data_addr b).
Proof.
  intros H Hx Hacc Hn Hf Ho Hfs Hbuf Hfl Hten Hfit Hneed. pose proof (aget_Some _ _ _ Hx) as Hfd. pose proof Hn as [Hino Hn'].
  pose proof Hino as Hino'. unfold INODE_ITEM_NUM in Hino'. pose proof (inode_at_read s (fd_ino x) n Hn) as [Erd Eget]. cbn zeta in *.
  unfold fwrite. rewrite (proj2 (Z.eqb_neq fd (-1))) by lia. rewrite (fs_bind_Ok _ _ _ _ _ (fd_at_Ok _ _ _ Hx)).
  assert (Ea : negb (access x =? O_RDWR) && negb (access x =? O_WR) = false) by (destruct Hacc as [-> | ->]; done).
  rewrite Ea, s32_id by (unfold is_s32; lia). rewrite Z.quot_div_nonneg by lia.
  rewrite (fs_bind_Ok _ _ _ _ _ Erd), (fs_bind_lift _ _ _ _ Eget).
  rewrite length_app in *.
  destruct (fwrite_loop_spec bn (Z.to_nat (Z.of_nat (length buf) / 512 + 16)) s n bs l fd x buf (Z.of_nat (length buf)))
    as (s1 & n1 & E & H1 & Hf1 & Hfl1 & Hfr & Hsp & Hfd1); rewrite ?length_app; try done; try lia.
  rewrite (fs_bind_Ok _ _ _ _ _ E).
  pose proof (file_inode _ _ _ Hf1) as Hwf.
  assert (Hsec : sector s1 (inode_addr (fd_ino x / 8)) = sector s (inode_addr (fd_ino x / 8))) by (apply (ff_inodes _ _ _ Hfr); addr).
  replace (fd_ino x - fd_ino x / 8 * 8) with (fd_ino x mod 8) in * by lia.
  rewrite (fs_bind_lift _ _ _ _ (aset_Some _ _ n1 (aget_Some _ _ _ Eget))).
  assert (Ew : forall inode, write_inodes inode (fd_ino x / 8) s1 = Ok (tt, put_sector (inode_addr (fd_ino x / 8)) (enc inodes_l inode) s1))
    by (intros inode; apply (sdwrite_as_Ok inodes_l); addr).
  rewrite (fs_bind_Ok _ _ _ _ _ (Ew _)). rewrite <- Hsec. fold (put_inode s1 (fd_ino x) n1).
  assert (H2 : fs_ok (put_inode s1 (fd_ino x) n1)) by by apply fs_ok_put_inode.
  assert (Hcard1 : card_ok (disk s1)) by apply (ok_card _ H1).
  assert (Hblk : forall b, b ∈ bs ++ bn -> is_block b) by (intros b Hb; apply (file_used _ _ _ Hf1 b Hb)).
  eexists. exists n1. split; [reflexivity|]. split; [cbn; apply u32_id; unfold is_u32; lia|].
  split; [by eapply fs_ok_same; [|exact H2]|]. split; [|split; [|split; [|split; [|split]]]].
  - destruct Hf1. split; try done. intros b Hb. destruct (file_used0 b Hb) as (? & ? & ?). split; [done|]. split; [|done].
    etransitivity; [by apply (block_used_put_inode s1 (fd_ino x) n1 b)|done].
  - destruct Hfl1 as [Hs Hl]. split; [done|]. intros b. rewrite Hl.
    assert (Eu : is_block b -> block_used (put_inode s1 (fd_ino x) n1) b = block_used s1 b) by (intros; by apply block_used_put_inode).
    split; intros (? & Hb & ?); (split_and!; [done|done|]); [by rewrite <- Eu in *|by rewrite <- Eu].
  - rewrite Nat2Z.id, firstn_all in Hsp. rewrite Hsp. f_equal. symmetry. by apply (content_put_inode s1 (fd_ino x) n1).
  - done.
  - intros ino n2 Hi2. etransitivity; [by apply (inode_at_put s1 (fd_ino x) n1 ino n2)|]. case_decide; [done|].
    unfold inode_at. unfold INODE_ITEM_NUM in *. by rewrite (ff_inodes _ _ _ Hfr) by addr.
  - intros b Hb Hni. unfold is_block in Hb. etransitivity; [apply (sector_put_inode s1 (fd_ino x) n1); [done..|addr|addr]|].
    by apply (ff_data _ _ _ Hfr).
Qed.

Lemma fread_spec s fd x n bs size :
  fs_ok s -> (fd_array s).[fd] = Some x -> access x = O_RDWR \/ access x = O_RD ->
  inode_at s (fd_ino x) n -> file_ok s n bs -> 0 <= offset x -> offset x <= fd_size x -> is_u32 (fd_size x) -> is_u32 size ->
  let left := Z.min size (fd_size x - offset x) in
  offset x + left <= 512 * Z.of_nat (length bs) -> fd_size x - offset x < 2147483648 ->
  exists r, slice (content s bs) (offset x) left = Some r /\
    fread fd size s = Ok (r, set_regs2 left (set_fd_array (<[Z.to_nat fd := set_offset (offset x + left) x]> (fd_array s)) s)).
Proof.
  intros H Hx Hacc Hn Hf Ho Hos Hfs Hsz left Hfit Hbig. pose proof (aget_Some _ _ _ Hx) as Hfd. pose proof Hn as [Hino Hn'].
  unfold INODE_ITEM_NUM in Hino. pose proof (inode_at_read s (fd_ino x) n Hn) as [Erd Eget]. cbn zeta in *.
  pose proof (file_direct _ _ _ Hf). unfold is_u32 in Hfs, Hsz.
  unfold fread. rewrite (proj2 (Z.eqb_neq fd (-1))) by lia. rewrite (fs_bind_Ok _ _ _ _ _ (fd_at_Ok _ _ _ Hx)).
  assert (Ea : negb (access x =? O_RDWR) && negb (access x =? O_RD) = false) by (destruct Hacc as [-> | ->]; done).
  rewrite Ea, (s32_id (fd_ino x)) by (unfold is_s32; lia). rewrite Z.quot_div_nonneg by lia.
  rewrite (fs_bind_Ok _ _ _ _ _ Erd), (fs_bind_lift _ _ _ _ Eget). rewrite (s32_id (fd_size x - offset x)) by (unfold is_s32; lia).
  rewrite (u32_id (fd_size x - offset x)) by (unfold is_u32; lia).
  assert (El : s32 (if fd_size x - offset x <? size then fd_size x - offset x else size) = left).
  { unfold left. rewrite s32_id; case_cmp; unfold is_s32; lia. }
  rewrite El. rewrite (u32_id left) by (unfold is_u32; lia).
  destruct (fread_loop_spec (Z.to_nat (left / 512 + 2)) s n bs fd x left) as (r & Hr & E); try done; try lia.
  { apply (ok_card _ H). }
  { unfold is_u32. lia. }
  exists r. split; [done|]. rewrite (fs_bind_Ok _ _ _ _ _ E). unfold set_result. rewrite fs_bind_modify. unfold mret, F_ret.
  by rewrite (u32_id left) by (unfold is_u32; lia).
Qed.

End files.
