(* ===== verification/FsFormat.v ===== *)
(** Formatting and mounting: what [mkfs] puts on the card, and the state [mount] then sets up. *)

From S2P Require Import Prelude Slist CString Layout Sdcard Fs FsSpec FsFile.

#[local] Ltac Zify.zify_post_hook ::= Z.to_euclidean_division_equations.

(** ** The formatted card *)

Definition first_bit : list Z := <[0%nat := 1]> (replicate 128 0).
Definition no_bit : list Z := replicate 128 0.

(** The root directory without entries, and its inode *)
Record root_dir (d : dir_t) : Prop := {
  root_wf : wf dir_l d;
  root_father : fpointer d = DARRAY_ADDR;
  root_name : cstr (dir_name d) = Some [47];
  root_empty e : e ∈ map d -> valid e = 0
}.

Record root_inode (n : inode_t) : Prop := {
  root_type : type n = FILE_DIR;
  root_links : links n = 1;
  root_size : size n = 512;
  root_pointer : (pointers n).[0] = Some DARRAY_ADDR
}.

(** The values [mkfs] writes into the super block *)
Record fresh_super_block (b : super_block_t) : Prop := {
  fresh_wf : wf super_block_l b;
  fresh_magic : (sb_reserved b).[78] = Some MAGIC_NUMBER;
  fresh_inodes : inode_number b = INODE_ITEM_NUM;
  fresh_data : data_number b = DATA_ITEM_NUM;
  fresh_inode_used : inode_used b = 1;
  fresh_data_used : data_used b = 1;
  fresh_offsets : FS_BASE + imap_offset b * SECTOR_SIZE = IMAP_ADDR /\ FS_BASE + smap_offset b * SECTOR_SIZE = SMAP_ADDR /\
    FS_BASE + iarray_offset b * SECTOR_SIZE = IARRAY_ADDR /\ FS_BASE + darray_offset b * SECTOR_SIZE = DARRAY_ADDR
}.

Lemma map_wf_first_bit : map_wf first_bit.
Proof. split; [done|]. apply Forall_insert; [by apply Forall_replicate|done]. Qed.

Lemma map_wf_no_bit : map_wf no_bit.
Proof. split; [done|]. by apply Forall_replicate. Qed.

Lemma mbit_no_bit k : mbit no_bit k = false.
Proof.
  unfold mbit, no_bit, aget. case_decide; [|done]. destruct (replicate 128 0 !! Z.to_nat (k / 32)) eqn:E; [|done].
  apply lookup_replicate in E as [-> _]. apply Z.bits_0.
Qed.

Lemma mbit_first_bit k : 0 <= k -> mbit first_bit k = bool_decide (k = 0).
Proof.
  intros Hk. pose proof (mbit_no_bit k) as H0. revert H0. unfold mbit, first_bit, no_bit.
  rewrite aget_insert by (rewrite length_replicate; lia). case_decide as E.
  - intros _. destruct (decide (k = 0)) as [->|]; [done|]. rewrite bool_decide_false by done.
    change 1 with (2 ^ 0). rewrite Z.pow2_bits_eqb by done. apply Z.eqb_neq. lia.
  - rewrite bool_decide_false by lia. done.
Qed.

Section format.
Context {D : Type} `{!SdCard D}.
Implicit Types (s : fs D).

Record formatted s : Prop := {
  fmt_card : card_ok (disk s);
  fmt_super_block : fresh_super_block (dec super_block_l (sector s FS_BASE));
  fmt_imap : sector s IMAP_ADDR = enc (words_l 128) first_bit;
  fmt_smap i : 0 <= i < 256 -> smap_of s i = if decide (i = 0) then first_bit else no_bit;
  fmt_inode : exists n, inode_at s 0 n /\ root_inode n;
  fmt_dir : root_dir (dec dir_l (sector s DARRAY_ADDR))
}.

(** The memory of the file system *)
Definition same_memory s s' : Prop :=
  super_block s' = super_block s /\ current_dir s' = current_dir s /\ current_dir_pointer s' = current_dir_pointer s /\
  imap s' = imap s /\ smap s' = smap s /\ smap_index s' = smap_index s /\ fd_array s' = fd_array s /\
  fd_array_slist s' = fd_array_slist s /\ regs2 s' = regs2 s.

(** One sector written: the new state, its card, what it holds *)
Lemma write_step {A} (L : layout A) `{!Sector L} s x a : card_ok (disk s) -> wf L x -> aligned a ->
  exists s', sdwrite_as L x a s = Ok (tt, s') /\ card_ok (disk s') /\ same_memory s s' /\
    forall c, aligned c -> sector s' c = if decide (c = a) then enc L x else sector s c.
Proof.
  intros H Hx Ha. destruct (enc_sector L x Hx) as [Hl Hb]. eexists. split; [apply sdwrite_as_Ok; addr|].
  split; [by apply card_ok_put|]. split; [done|]. intros c Hc. by apply sector_put.
Qed.

Lemma same_memory_trans s1 s2 s3 : same_memory s1 s2 -> same_memory s2 s3 -> same_memory s1 s3.
Proof. unfold same_memory. intros. destruct_and!. split_and!; congruence. Qed.

Lemma mkfs_smap_spec n : forall s a, card_ok (disk s) -> aligned a -> aligned (a + Z.of_nat n * 512) ->
  exists s', mkfs_smap n no_bit a s = Ok (tt, s') /\ card_ok (disk s') /\ same_memory s s' /\
    forall c, aligned c -> sector s' c = if decide (a <= c < a + Z.of_nat n * 512) then enc (words_l 128) no_bit else sector s c.
Proof.
  induction n as [|n IH]; intros s a H Ha Hb; cbn [mkfs_smap].
  { exists s. split_and!; try done. intros c Hc. by rewrite decide_False by lia. }
  destruct (write_step (words_l 128) s no_bit a H map_wf_no_bit Ha) as (s1 & E1 & H1 & Hm1 & Hs1).
  destruct (IH s1 (a + SECTOR_SIZE)) as (s2 & E2 & H2 & Hm2 & Hs2); [done|unfold aligned, SECTOR_SIZE in *; lia..|].
  exists s2. rewrite (fs_bind_Ok _ _ _ _ _ E1). split; [done|]. split; [done|]. split; [by eapply same_memory_trans|].
  intros c Hc. rewrite Hs2, Hs1 by done. unfold SECTOR_SIZE, aligned in *. repeat case_decide; try done; lia.
Qed.

Lemma mkfs_super_block_fresh b : wf super_block_l b -> fresh_super_block (mkfs_super_block b).
Proof.
  intros Hb. assert (Hr : length (sb_reserved b) = 118%nat /\ Forall is_u32 (sb_reserved b)) by (destruct b; cbn in Hb; tauto).
  destruct Hr as [Hl Hr]. unfold mkfs_super_block. set (r := <[78%nat := _]> _).
  assert (Hr' : length r = 118%nat /\ Forall is_u32 r).
  { split; [unfold r; by rewrite length_insert|]. by apply Forall_insert. }
  assert (Hg : r.[78] = Some MAGIC_NUMBER) by (unfold r; rewrite aget_insert by lia; done).
  clearbody r. by split.
Qed.

Lemma mkfs_inode_wf n : wf inode_l n -> wf inode_l (mkfs_inode n) /\ root_inode (mkfs_inode n).
Proof.
  destruct n as [ty li re sz al ps]. intros (_ & _ & Hr & _ & _ & [Hl Hp]). cbn [snd fst inode_reserved pointers] in *. split.
  - split; [done|]. split; [done|]. split; [done|]. split; [done|]. split; [done|].
    split; [by rewrite <- Hl; apply length_insert|by apply Forall_insert].
  - split; try done. cbn [mkfs_inode pointers]. by rewrite aget_insert by lia.
Qed.

Lemma clear_valid_wf d : wf dir_l d -> wf dir_l (clear_valid d).
Proof.
  destruct d as [f n r m]. cbn. intros (? & ? & ? & Hl & Hm). split_and!; try tauto; [by rewrite length_fmap|].
  apply Forall_fmap. eapply Forall_impl; [exact Hm|]. intros [] []. cbn in *. unfold is_u8. split_and!; tauto || lia.
Qed.

Lemma clear_valid_empty d e : e ∈ map (clear_valid d) -> valid e = 0.
Proof. destruct d. cbn. by intros (e' & -> & _)%list_elem_of_fmap. Qed.

(** A new directory: [strcpy] of a name that fits *)
Lemma new_dir_wf d f name r : wf dir_l d -> is_u32 f -> bytes_ok name -> cstr name = Some r -> (length r <= 26)%nat ->
  exists n, strcpy (dir_name d) name = Some n /\ cstr n = Some r /\ wf dir_l (set_dir_name n (set_fpointer f (clear_valid d))).
Proof.
  intros Hd Hf Hn Hr Hl. pose proof (clear_valid_wf d Hd) as Hw. destruct d as [f0 n0 r0 m0].
  destruct Hw as (_ & [Hl0 Hb0] & Hrest). cbn [dir_name fst snd clear_valid set_map fpointer dir_reserved map] in *.
  exists (r ++ 0 :: drop (S (length r)) n0). split; [apply strcpy_spec; [done|lia]|].
  split; [apply cstr_of; by eapply cstr_no_zero|]. split; [done|]. split; [|done].
  cbn. split; [rewrite length_app; cbn; rewrite length_drop; lia|].
  destruct (cstr_app _ _ Hr) as [t ->]. apply Forall_app in Hn as [Hn _].
  apply Forall_app. split; [done|]. constructor; [unfold is_u8; cbn; lia|by apply Forall_drop].
Qed.

Lemma mkfs_formats s b inode d : card_ok (disk s) -> wf super_block_l b -> wf inodes_l inode -> wf dir_l d ->
  exists s', mkfs b inode d s = Ok (tt, s') /\ formatted s' /\ same_memory s s'.
Proof.
  intros H Hb Hi Hd. unfold mkfs, printks. rewrite !fs_bind_modify. pose proof (mkfs_super_block_fresh b Hb) as Hfb.
  match goal with |- context [(sdwrite_as super_block_l _ _ ≫= _) ?t] => set (s0 := t) end.
  destruct (write_step super_block_l s0 (mkfs_super_block b) FS_BASE) as (s1 & E1 & H1 & Hm1 & Hs1); [done|apply Hfb|addr|].
  rewrite (fs_bind_Ok _ _ _ _ _ E1), fs_bind_modify. fold first_bit.
  match goal with |- context [(sdwrite_as _ first_bit IMAP_ADDR ≫= _) ?t] => set (s1' := t) end.
  destruct (write_step (words_l 128) s1' first_bit IMAP_ADDR) as (s2 & E2 & H2 & Hm2 & Hs2); [done|apply map_wf_first_bit|addr|].
  rewrite (fs_bind_Ok _ _ _ _ _ E2).
  destruct (write_step (words_l 128) s2 first_bit SMAP_ADDR) as (s3 & E3 & H3 & Hm3 & Hs3); [done|apply map_wf_first_bit|addr|].
  rewrite (fs_bind_Ok _ _ _ _ _ E3). change (<[0%nat := 0]> first_bit) with no_bit.
  destruct (mkfs_smap_spec 255 s3 (SMAP_ADDR + SECTOR_SIZE)) as (s4 & E4 & H4 & Hm4 & Hs4); [done|addr|addr|].
  rewrite (fs_bind_Ok _ _ _ _ _ E4), fs_bind_modify.
  destruct (aget_is_Some inode 0) as [n0 Hn0]; [destruct Hi as [-> _]; lia|]. rewrite (fs_bind_lift _ _ _ _ Hn0).
  match goal with |- context [(sdwrite_as inodes_l _ _ ≫= _) ?t] => set (s4' := t) end.
  assert (Hn0' : wf inode_l (mkfs_inode n0) /\ root_inode (mkfs_inode n0)).
  { assert (Hw : wf inode_l n0) by (destruct Hi as [_ Hi]; by eapply Forall_aget in Hi).
    by apply mkfs_inode_wf. }
  destruct Hn0' as [Hn0' Hroot]. destruct (write_step inodes_l s4' (<[0%nat := mkfs_inode n0]> inode) IARRAY_ADDR) as (s5 & E5 & H5 & Hm5 & Hs5);
    [done|by apply wf_inode_insert|addr|].
  rewrite (fs_bind_Ok _ _ _ _ _ E5).
  destruct (new_dir_wf d DARRAY_ADDR [47; 0] [47] Hd) as (nm & En & Ec & Hw); [addr|repeat constructor; lia|done|cbn; lia|].
  change (dir_name (set_fpointer DARRAY_ADDR (clear_valid d))) with (dir_name d). rewrite (fs_bind_lift _ _ _ _ En).
  destruct (write_step dir_l s5 _ DARRAY_ADDR H5 Hw) as (s6 & E6 & H6 & Hm6 & Hs6); [addr|]. rewrite (fs_bind_Ok _ _ _ _ _ E6).
  eexists. split; [reflexivity|].
  assert (Hsec : forall c, aligned c -> sector s6 c =
    if decide (c = DARRAY_ADDR) then enc dir_l (set_dir_name nm (set_fpointer DARRAY_ADDR (clear_valid d)))
    else if decide (c = IARRAY_ADDR) then enc inodes_l (<[0%nat := mkfs_inode n0]> inode)
    else if decide (SMAP_ADDR + SECTOR_SIZE <= c < SMAP_ADDR + 256 * SECTOR_SIZE) then enc (words_l 128) no_bit
    else if decide (c = SMAP_ADDR) then enc (words_l 128) first_bit
    else if decide (c = IMAP_ADDR) then enc (words_l 128) first_bit
    else if decide (c = FS_BASE) then enc super_block_l (mkfs_super_block b) else sector s c).
  { intros c Hc. rewrite Hs6, Hs5 by done. change (sector s4' c) with (sector s4 c). rewrite Hs4, Hs3, Hs2 by done.
    change (sector s1' c) with (sector s1 c). rewrite Hs1 by done. change (sector s0 c) with (sector s c).
    replace (SMAP_ADDR + SECTOR_SIZE + Z.of_nat 255 * 512) with (SMAP_ADDR + 256 * SECTOR_SIZE) by addr. done. }
  clear Hs1 Hs2 Hs3 Hs4 Hs5 Hs6. split.
  - match goal with |- formatted ?t => change t with (set_console (console t) s6) end.
    split.
    + done.
    + change (fresh_super_block (dec super_block_l (sector s6 FS_BASE))). rewrite Hsec by addr.
      repeat (rewrite decide_False by addr). rewrite decide_True by done. by rewrite dec_enc_nil by (apply _ || apply Hfb).
    + change (sector s6 IMAP_ADDR = enc (words_l 128) first_bit). rewrite Hsec by addr.
      repeat (rewrite decide_False by addr). by rewrite decide_True.
    + intros i Hir. apply smap_of_enc; [case_decide; [apply map_wf_first_bit|apply map_wf_no_bit]|].
      change (sector s6 (smap_addr i) = enc (words_l 128) (if decide (i = 0) then first_bit else no_bit)).
      rewrite Hsec by addr. rewrite !(decide_False (P := smap_addr i = _)) by addr.
      destruct (decide (i = 0)) as [->|].
      * rewrite decide_False by addr. by rewrite decide_True by addr.
      * rewrite decide_True by addr. done.
    + exists (mkfs_inode n0). split; [|done].
      split; [unfold INODE_ITEM_NUM; lia|]. change (sector (set_console _ s6) (inode_addr (0 / 8))) with (sector s6 (inode_addr 0)).
      rewrite Hsec by addr. rewrite decide_False by addr. rewrite decide_True by addr.
      rewrite dec_enc_nil; [|apply _|by apply wf_inode_insert]. change (0 mod 8) with 0. rewrite aget_insert; [done|].
      destruct Hi as [-> _]. lia.
    + change (root_dir (dec dir_l (sector s6 DARRAY_ADDR))). rewrite Hsec by addr. rewrite decide_True by done.
      rewrite dec_enc_nil by (done || apply _). split; try done. intros e He. by apply (clear_valid_empty d).
  - assert (Hm : same_memory s s6).
    { repeat (eapply same_memory_trans; [|eassumption]). done. }
    done.
Qed.

(** ** Mounting *)

Record fresh s : Prop := {
  fresh_ok : fs_ok s;
  fresh_super : fresh_super_block (super_block s);
  fresh_root : root_dir (current_dir s);
  fresh_pointer : current_dir_pointer s = DARRAY_ADDR;
  fresh_root_inode : exists n, inode_at s 0 n /\ root_inode n;
  fresh_imap k : 0 <= k < INODE_ITEM_NUM -> mbit (imap s) k = bool_decide (k = 0);
  fresh_free : free_list s (seqZ 1 1048575)
}.

Lemma StronglySorted_seqZ a n : StronglySorted Z.lt (seqZ a n).
Proof.
  destruct (decide (0 <= n)) as [Hn|]; [|rewrite seqZ_nil by lia; constructor]. revert a. pattern n. apply natlike_ind; [| |done].
  - intros a. rewrite seqZ_nil by lia. constructor.
  - intros m Hm IH a. rewrite seqZ_cons by lia. rewrite Z.pred_succ. constructor; [done|].
    apply Forall_forall. intros x Hx%elem_of_seqZ. lia.
Qed.

Lemma mount_fresh s : formatted s -> exists s', mount s = Ok (tt, s') /\ fresh s' /\ disk s' = disk s /\
  fd_array s' = fd_array s /\ fd_array_slist s' = fd_array_slist s /\ regs2 s' = regs2 s.
Proof.
  intros H. unfold mount, printks. rewrite fs_bind_modify.
  rewrite (fs_bind_Ok _ _ _ _ _ (sdread_as_Ok _ _ FS_BASE ltac:(addr))), fs_bind_modify, (fs_bind_Ok _ _ _ _ _ (sdread_as_Ok _ _ DARRAY_ADDR ltac:(addr))), !fs_bind_modify.
  rewrite (fs_bind_Ok _ _ _ _ _ (sdread_as_Ok _ _ IMAP_ADDR ltac:(addr))), !fs_bind_modify, (fs_bind_Ok _ _ _ _ _ (sdread_as_Ok _ _ SMAP_ADDR ltac:(addr))), fs_bind_modify.
  eexists. split; [reflexivity|]. split; [|done].
  assert (Hcard : card_ok (disk s)) by apply (fmt_card _ H).
  assert (Hu : forall b, is_block b -> block_used s b = bool_decide (b = 0)).
  { intros b Hb. unfold is_block, DATA_ITEM_NUM in Hb. unfold block_used. rewrite (fmt_smap _ H) by lia. case_decide.
    - rewrite mbit_first_bit by lia. apply bool_decide_ext. lia.
    - rewrite mbit_no_bit. symmetry. apply bool_decide_eq_false. lia. }
  assert (Eimap : dec (words_l 128) (sector s IMAP_ADDR) = first_bit).
  { rewrite (fmt_imap _ H). apply dec_enc_nil; [apply _|apply map_wf_first_bit]. }
  split.
  - split.
    + done.
    + by apply (dec_sector super_block_l s).
    + symmetry. by apply (dec_sector super_block_l s).
    + by apply (dec_sector (words_l 128) s).
    + symmetry. by apply (dec_sector (words_l 128) s).
    + by apply (dec_sector (words_l 128) s).
    + cbn. lia.
    + intros _. symmetry. by apply (dec_sector (words_l 128) s (smap_addr 0)).
    + by apply (dec_sector dir_l s).
    + symmetry. by apply (dec_sector dir_l s).
    + exists 0. split; [unfold is_block; addr|]. split; [done|]. by apply (Hu 0); unfold is_block; addr.
  - apply (fmt_super_block _ H).
  - apply (fmt_dir _ H).
  - done.
  - apply (fmt_inode _ H).
  - intros k Hk. unfold INODE_ITEM_NUM in Hk. etransitivity; [|apply mbit_first_bit; lia]. by rewrite <- Eimap.
  - split; [apply StronglySorted_seqZ|]. intros b. rewrite elem_of_seqZ. split.
    + intros Hb. assert (Hbl : is_block b) by (unfold is_block; addr). split_and!; [cbn; lia|done|].
      etransitivity; [by apply (Hu b)|]. apply bool_decide_eq_false. lia.
    + intros (_ & Hb & Hf). pose proof Hb as Hb'. unfold is_block, DATA_ITEM_NUM in Hb'.
      assert (Hne : b <> 0); [|lia]. intros ->. assert (block_used s 0 = false) as E by exact Hf. by rewrite Hu in E.
Qed.

(** [init_file_system]: the table of open files is emptied; then a card with the magic number is
    mounted, another is formatted. *)
Lemma init_file_system_steps s b inode d l : length (fd_array_slist s) = 65%nat ->
  slist_init (fd_array_slist s) FD_ARRAY_SLIST_SIZE = Some l ->
  init_file_system b inode d s =
    (if negb (default 0 ((sb_reserved (dec super_block_l (sector s FS_BASE))).[78]) =? MAGIC_NUMBER) then mkfs b inode d else mount)
      (set_fd_array_slist l s).
Proof.
  intros Hl El. unfold init_file_system.
  assert (Ec : check_sizes sizes [512; 64; 32; 512; 512] 0 s = Ok (tt, s)) by (by vm_compute).
  rewrite (fs_bind_Ok _ _ _ _ _ Ec), fs_bind_get, (fs_bind_lift _ _ _ _ El), fs_bind_modify.
  rewrite (fs_bind_Ok _ _ _ _ _ (sdread_as_Ok _ _ FS_BASE ltac:(addr))).
  change (sector (set_fd_array_slist l s) FS_BASE) with (sector s FS_BASE).
  assert (Hr : length (sb_reserved (dec super_block_l (sector s FS_BASE))) = 118%nat) by apply dec_arr_length.
  destruct (aget_is_Some (sb_reserved (dec super_block_l (sector s FS_BASE))) 78) as [v Hv]; [lia|].
  by rewrite (fs_bind_lift _ _ _ _ Hv), Hv.
Qed.

End format.
