(* ===== verification/FsDir.v ===== *)
(** Directories as finite maps from names to inodes, and what [is_file_exist], [touch], [mkdir],
    [rmdir] and [cd] do to them. *)

From S2P Require Import Prelude Slist CString Layout Sdcard Fs FsSpec FsFile FsFormat.

#[local] Ltac Zify.zify_post_hook ::= Z.to_euclidean_division_equations.

(** ** Entries *)

Definition names (x : list Z) (e : dmap_t) : Prop := valid e <> 0 /\ cstr (name e) = Some x.

#[global] Instance names_dec x e : Decision (names x e).
Proof. unfold names. apply _. Defined.

(** The directory as a map: the entry that a search for [x] finds. *)
Definition entry (m : list dmap_t) (x : list Z) : option (nat * dmap_t) := list_find (names x) m.

Definition dir_lookup (d : dir_t) (x : list Z) : option Z := (fun p => ino (snd p)) <$> entry (map d) x.

(** Names of entries in use are strings; a directory is well formed if its bytes are and its names. *)
Definition entries_ok (m : list dmap_t) : Prop :=
  length m = 15%nat /\ Forall (wf dmap_l) m /\ Forall (fun e => valid e <> 0 -> is_Some (cstr (name e))) m.

Record dir_ok (d : dir_t) : Prop := { dir_wf : wf dir_l d; dir_entries : entries_ok (map d) }.

Lemma entries_of_dir d : wf dir_l d -> Forall (fun e => valid e <> 0 -> is_Some (cstr (name e))) (map d) -> dir_ok d.
Proof. intros H1 H2. split; [done|]. destruct d as [? ? ? m]. destruct H1 as (_ & _ & _ & ? & ?). by split. Qed.

Lemma name_bytes e : wf dmap_l e -> bytes_ok (name e) /\ length (name e) = 27%nat.
Proof. destruct e as [v n i]. by intros (_ & [? ?] & _). Qed.

Lemma find_entry_spec n m s x i : Forall (wf dmap_l) m -> Forall (fun e => valid e <> 0 -> is_Some (cstr (name e))) m ->
  bytes_ok s -> cstr s = Some x -> 0 <= i -> (Z.to_nat i + n)%nat = length m ->
  find_entry n m s i = Some ((fun p => (i + Z.of_nat (fst p), snd p)) <$> list_find (names x) (drop (Z.to_nat i) m)).
Proof.
  intros Hw Hv Hs Hx. revert i. induction n as [|n IH]; intros i Hi Hn; cbn [find_entry].
  { by rewrite drop_ge by lia. }
  destruct (aget_is_Some m i) as [e He]; [lia|]. rewrite He. cbn [mbind option_bind].
  assert (Hd : drop (Z.to_nat i) m = e :: drop (Z.to_nat (i + 1)) m).
  { replace (Z.to_nat (i + 1)) with (S (Z.to_nat i)) by lia. unfold aget in He. rewrite decide_True in He by lia. by apply drop_S. }
  rewrite Hd. cbn [list_find].
  assert (IH' : find_entry n m s (i + 1) = Some ((fun p => (i + Z.of_nat (fst p), snd p)) <$>
    (prod_map S id <$> list_find (names x) (drop (Z.to_nat (i + 1)) m)))).
  { rewrite IH by lia. f_equal. destruct (list_find _ _) as [[k e']|]; cbn; [|done]. do 2 f_equal. lia. }
  destruct (Z.eqb_spec (valid e) 0) as [E0|E0]; cbn [negb].
  - by rewrite decide_False by (intros []; done).
  - assert (Hwe : wf dmap_l e) by by eapply Forall_aget in Hw.
    destruct (name_bytes e Hwe) as [Hbe _].
    assert (Hse : is_Some (cstr (name e))) by (eapply Forall_aget in Hv; [|done]; auto). destruct Hse as [y Hy].
    destruct (strcmp_spec (name e) s y x Hbe Hs Hy Hx) as (c & Ec & Hc). rewrite Ec. cbn [mbind option_bind].
    destruct (Z.eqb_spec c 0) as [E1|E1].
    + rewrite decide_True by (split; [done|]; by rewrite Hy, (proj1 Hc E1)). cbn. do 3 f_equal. lia.
    + rewrite decide_False; [done|]. intros [_ En]. apply E1, Hc. congruence.
Qed.

Lemma match_item_spec m s x : entries_ok m -> bytes_ok s -> cstr s = Some x ->
  match_item m s = Some ((fun p => (Z.of_nat (fst p), snd p)) <$> entry m x).
Proof.
  intros (Hl & Hw & Hv) Hs Hx. unfold match_item. by rewrite (find_entry_spec _ m s x 0) by (done || (rewrite Hl; done)).
Qed.

(** The first free entry, whatever the byte behind the directory is *)
Lemma free_entry_spec n after m i : i + Z.of_nat n = 16 -> 0 <= i <= 15 -> length m = 15%nat ->
  (forall j e, 0 <= j < i -> m.[j] = Some e -> valid e <> 0) ->
  0 <= free_entry n after m i <= 15 /\ (forall j e, 0 <= j < free_entry n after m i -> m.[j] = Some e -> valid e <> 0) /\
    (free_entry n after m i < 15 -> exists e, m.[free_entry n after m i] = Some e /\ valid e = 0).
Proof.
  revert i. induction n as [|n IH]; intros i Hn Hi Hl Hall; [lia|]. cbn [free_entry]. unfold MAX_DIR_ITEM_NUM.
  destruct (decide (i = 15)) as [->|].
  { rewrite andb_false_r. split; [lia|]. split; [done|lia]. }
  destruct (aget_is_Some m i) as [e He]; [lia|]. rewrite He, (proj2 (Z.ltb_lt i 15)), andb_true_r by lia.
  destruct (Z.eqb_spec (valid e) 0) as [E|E]; cbn [negb]; [split; [lia|]; split; [done|by exists e]|].
  apply IH; [lia|lia|done|]. intros j e' Hj He'. destruct (decide (j = i)) as [->|]; [congruence|]. apply (Hall j); [lia|done].
Qed.

(** ** Changing an entry *)

(** An entry that is free, or has another name, does not answer a search. *)
Lemma entry_insert_ne m i e e' y : m !! i = Some e -> ~ names y e -> ~ names y e' -> entry (<[i := e']> m) y = entry m y.
Proof.
  intros He Hn Hn'. unfold entry. revert i He. induction m as [|e0 m IH]; intros i He; [done|]. destruct i as [|i]; cbn.
  - cbn in He. injection He as ->. by rewrite !decide_False.
  - case_decide; [done|]. by rewrite IH.
Qed.

Lemma entry_insert_eq m i e y : (i < length m)%nat -> entry m y = None -> names y e -> entry (<[i := e]> m) y = Some (i, e).
Proof.
  unfold entry. revert i. induction m as [|e0 m IH]; intros i Hi Hm He; [cbn in Hi; lia|]. cbn in Hm. case_decide as Hd; [done|].
  destruct i as [|i]; cbn; [by rewrite decide_True|]. rewrite decide_False by done. rewrite IH; [done|cbn in Hi; lia| |done].
  by destruct (list_find (names y) m).
Qed.

Lemma entry_Some m x i e : entry m x = Some (i, e) -> m !! i = Some e /\ names x e.
Proof. intros H%list_find_Some. tauto. Qed.

Section directories.
Context {D : Type} `{!SdCard D}.
Implicit Types (s : fs D).

(** The state with another current directory, on the card too *)
Definition with_dir (d : dir_t) s : fs D := put_sector (current_dir_pointer s) (enc dir_l d) (set_current_dir d s).

Lemma sector_with_dir s d c : fs_ok s -> wf dir_l d -> aligned c ->
  sector (with_dir d s) c = if decide (c = current_dir_pointer s) then enc dir_l d else sector s c.
Proof.
  intros H Hd Hc. destruct (ok_dir_block _ H) as (b & Hb & Ep & _). unfold is_block in Hb. destruct (enc_sector dir_l d Hd).
  apply (sector_put (set_current_dir d s)); [apply (ok_card _ H)|done|done|rewrite Ep; addr|done].
Qed.

Lemma fs_ok_with_dir s d : fs_ok s -> wf dir_l d -> fs_ok (with_dir d s).
Proof.
  intros H Hd. destruct (ok_dir_block _ H) as (b & Hb & Ep & Hu). pose proof Hb as Hb'. unfold is_block in Hb'.
  destruct (enc_sector dir_l d Hd). pose proof (ok_smap_index _ H).
  assert (Hsec : forall c, aligned c -> c < DARRAY_ADDR -> sector (with_dir d s) c = sector s c).
  { intros c Hc Hlt. rewrite sector_with_dir by done. by rewrite decide_False by (rewrite Ep; addr). }
  split; try apply H.
  - apply (card_ok_put (set_current_dir d s)); [apply (ok_card _ H)|done|done|rewrite Ep; addr].
  - rewrite Hsec by addr. apply (ok_super_block_card _ H).
  - rewrite Hsec by addr. apply (ok_imap_card _ H).
  - intros Hi. change (smap_index (with_dir d s)) with (smap_index s) in *. rewrite Hsec by addr. exact (ok_smap_card _ H Hi).
  - done.
  - change (current_dir_pointer (with_dir d s)) with (current_dir_pointer s).
    rewrite sector_with_dir by (done || rewrite Ep; addr). by rewrite decide_True.
  - exists b. split; [done|]. split; [done|]. unfold block_used, smap_of in *. by rewrite Hsec by addr.
Qed.

Lemma block_used_with_dir s d b : fs_ok s -> wf dir_l d -> is_block b -> block_used (with_dir d s) b = block_used s b.
Proof.
  intros H Hd Hb. destruct (ok_dir_block _ H) as (b' & Hb' & Ep & _). unfold is_block in Hb, Hb'.
  unfold block_used, smap_of. rewrite sector_with_dir by (done || addr). by rewrite decide_False by (rewrite Ep; addr).
Qed.

(** ** Searching the current directory *)

Lemma is_file_exist_spec s a x : entries_ok (map (current_dir s)) -> bytes_ok a -> cstr a = Some x ->
  is_file_exist a s = Ok (s32 (default 0 (dir_lookup (current_dir s) x)), s).
Proof.
  intros He Ha Hx. unfold is_file_exist. rewrite fs_bind_get. rewrite (fs_bind_lift _ _ _ _ (match_item_spec _ _ _ He Ha Hx)).
  unfold dir_lookup. destruct (entry _ x) as [[i e]|]; done.
Qed.

Lemma upd_entry_Ok s i e f : (map (current_dir s)).[i] = Some e ->
  upd_entry i f s = Ok (tt, set_current_dir (set_map (<[Z.to_nat i := f e]> (map (current_dir s))) (current_dir s)) s).
Proof. intros H. unfold upd_entry. by rewrite fs_bind_get, (fs_bind_lift _ _ _ _ H). Qed.

Lemma write_current_dir_Ok s : is_u32 (current_dir_pointer s) ->
  write_current_dir s = Ok (tt, put_sector (current_dir_pointer s) (enc dir_l (current_dir s)) s).
Proof. intros H. unfold write_current_dir. rewrite !fs_bind_get. by apply (sdwrite_as_Ok dir_l). Qed.

(** ** Adding an entry *)

Definition add_entry (i : nat) (e : dmap_t) (d : dir_t) : dir_t := set_map (<[i := e]> (map d)) d.

Lemma dir_ok_add d i e : dir_ok d -> wf dmap_l e -> is_Some (cstr (name e)) -> dir_ok (add_entry i e d).
Proof.
  intros [Hw (Hl & Hm & Hv)] He Hn. split.
  - destruct d as [f n r m]. destruct Hw as (Hf & Hnm & Hr & _). cbn [map] in *.
    split; [done|]. split; [done|]. split; [done|]. split; [cbn; by rewrite length_insert|by apply Forall_insert].
  - split_and!; [cbn; by rewrite length_insert|by apply Forall_insert|]. by apply Forall_insert.
Qed.

(** The three assignments to an entry, in turn *)
Lemma upd_entry_twice s i e e' f : (map (current_dir s)).[i] = Some e ->
  upd_entry i f (set_current_dir (add_entry (Z.to_nat i) e' (current_dir s)) s) =
    Ok (tt, set_current_dir (add_entry (Z.to_nat i) (f e') (current_dir s)) s).
Proof.
  intros H. rewrite (upd_entry_Ok _ i e'); cbn.
  - by rewrite list_insert_insert_eq.
  - pose proof (aget_Some _ _ _ H). rewrite aget_insert by lia. by rewrite decide_True by lia.
Qed.

(** The free entry that is used *)
Lemma free_entry_exists d after : dir_ok d -> (exists e, e ∈ map d /\ valid e = 0) ->
  exists i e0, (map d).[Z.of_nat i] = Some e0 /\ valid e0 = 0 /\ (i < 15)%nat /\ free_entry 16 after (map d) 0 = Z.of_nat i.
Proof.
  intros [_ (Hl & _)] (e & [j Hj]%list_elem_of_lookup & He).
  destruct (free_entry_spec 16 after (map d) 0) as (Hr & Hall & Hz); [lia|lia|done|lia|].
  set (r := free_entry 16 after (map d) 0) in *. pose proof (lookup_lt_Some _ _ _ Hj).
  assert (Hlt : r < 15).
  { destruct (decide (r < 15)); [done|]. exfalso. apply (Hall (Z.of_nat j) e); [lia|by rewrite aget_nat|done]. }
  destruct (Hz Hlt) as (e0 & He0 & Hv0). exists (Z.to_nat r), e0. rewrite Z2Nat.id by lia. split_and!; done || lia.
Qed.

Lemma new_entry_ok s after a x : fs_ok s -> dir_ok (current_dir s) -> bytes_ok a -> cstr a = Some x ->
  (length x <= 26)%nat -> s32 (default 0 (dir_lookup (current_dir s) x)) = 0 ->
  (exists e, e ∈ map (current_dir s) /\ valid e = 0) -> (exists k, 0 <= k < INODE_ITEM_NUM /\ mbit (imap s) k = false) ->
  exists i e0 ino nm m, (map (current_dir s)) !! i = Some e0 /\ valid e0 = 0 /\
    0 <= ino < INODE_ITEM_NUM /\ mbit (imap s) ino = false /\ (forall k, 0 <= k < ino -> mbit (imap s) k = true) /\
    map_wf m /\ (forall k, 0 <= k -> mbit m k = if decide (k = ino) then true else mbit (imap s) k) /\
    cstr nm = Some x /\ dir_ok (add_entry i (Dmap 1 nm ino) (current_dir s)) /\
    new_entry after a s = Ok (Some ino, with_dir (add_entry i (Dmap 1 nm ino) (current_dir s)) (with_imap m 1 s)).
Proof.
  intros H Hd Ha Hx Hl Hnot Hfree (k & Hk & Hkf). pose proof (dir_entries _ Hd) as Hent.
  destruct (free_entry_exists _ after Hd Hfree) as (i & e0 & He0 & Hv0 & Hi & Efree).
  unfold new_entry. rewrite (fs_bind_lift _ _ _ (Z.of_nat (length x))) by (by rewrite strlen_cstr, Hx).
  rewrite (proj2 (Z.ltb_ge _ _)) by (unfold MAX_NAME_LENTH; lia).
  rewrite (fs_bind_Ok _ _ _ _ _ (is_file_exist_spec s a x Hent Ha Hx)), Hnot. cbn [Z.eqb negb].
  rewrite fs_bind_get, Efree. rewrite (proj2 (Z.eqb_neq _ _)) by (unfold MAX_DIR_ITEM_NUM; lia).
  rewrite (fs_bind_Ok _ _ _ _ _ (upd_entry_Ok s _ _ _ He0)).
  set (s1 := set_current_dir (set_map _ _) s).
  unfold INODE_ITEM_NUM in *.
  destruct (iarray_alloc_spec s1 (ok_imap _ H)) as [[_ Hfull]|(ino & m & Hino & Hif & Hleast & Hm & Hb & E)].
  { change (imap s1) with (imap s) in Hfull. rewrite Hfull in Hkf by done. done. }
  change (imap s1) with (imap s) in *. rewrite (fs_bind_Ok _ _ _ _ _ E). rewrite (proj2 (Z.eqb_neq ino (-1))) by lia.
  rewrite (u32_id ino) by (unfold is_u32; lia).
  change (with_imap m 1 s1) with (set_current_dir (add_entry (Z.to_nat (Z.of_nat i)) (set_valid 1 e0) (current_dir (with_imap m 1 s))) (with_imap m 1 s)).
  rewrite (fs_bind_Ok _ _ _ _ _ (upd_entry_twice (with_imap m 1 s) _ _ _ _ He0)).
  set (e2 := set_ino ino (set_valid 1 e0)).
  rewrite fs_bind_get. cbn [current_dir set_current_dir].
  assert (He2 : (map (add_entry (Z.to_nat (Z.of_nat i)) e2 (current_dir (with_imap m 1 s)))).[Z.of_nat i] = Some e2).
  { pose proof (aget_Some _ _ _ He0). cbn. rewrite aget_insert by lia. by rewrite decide_True by lia. }
  rewrite (fs_bind_lift _ _ _ _ He2). change (name e2) with (name e0).
  assert (Hw0 : wf dmap_l e0) by (destruct Hent as (_ & Hw & _); by eapply Forall_aget in Hw).
  destruct (name_bytes e0 Hw0) as [Hnb Hnl].
  assert (Enm : strcpy (name e0) a = Some (x ++ 0 :: drop (S (length x)) (name e0))) by (apply strcpy_spec; [done|lia]).
  set (nm := x ++ 0 :: drop (S (length x)) (name e0)) in *. rewrite (fs_bind_lift _ _ _ _ Enm).
  rewrite (fs_bind_Ok _ _ _ _ _ (upd_entry_twice (with_imap m 1 s) _ _ _ _ He0)). rewrite Nat2Z.id.
  change (set_name nm e2) with (Dmap 1 nm ino).
  destruct (ok_dir_block _ H) as (b & Hbl & Ep & _). unfold is_block in Hbl.
  rewrite (fs_bind_Ok _ _ _ _ _ (write_current_dir_Ok (set_current_dir (add_entry i (Dmap 1 nm ino) (current_dir (with_imap m 1 s))) (with_imap m 1 s))
    ltac:(cbn [current_dir_pointer set_current_dir with_imap put_sector set_disk set_super_block set_imap]; rewrite Ep; addr))).
  assert (Hcn : cstr nm = Some x) by (apply cstr_of; by eapply cstr_no_zero).
  exists i, e0, ino, nm, m. rewrite aget_nat in He0. split_and!; try done || lia.
  apply dir_ok_add; [done| |by exists x]. split; [cbn; unfold is_u8; lia|]. split; [|cbn; unfold is_u32; lia].
  cbn [fst snd name]. destruct (cstr_app _ _ Hx) as [t ->]. apply Forall_app in Ha as [Ha _]. split.
  - unfold nm. rewrite length_app. cbn. rewrite length_drop. lia.
  - apply Forall_app. split; [done|]. constructor; [cbn; unfold is_u8; lia|by apply Forall_drop].
Qed.

Lemma inode_at_exists s ino : card_ok (disk s) -> 0 <= ino < INODE_ITEM_NUM -> exists n, inode_at s ino n.
Proof.
  intros H Hi. destruct (dec_sector inodes_l s (inode_addr (ino / 8)) H) as [[Hl _] _].
  destruct (aget_is_Some (dec inodes_l (sector s (inode_addr (ino / 8)))) (ino mod 8)) as [n Hn]; [lia|]. by exists n.
Qed.

Lemma inode_at_fun s ino n n' : inode_at s ino n -> inode_at s ino n' -> n = n'.
Proof. intros [_ H1] [_ H2]. congruence. Qed.

(** The name [x] bound to [v] *)
Lemma dir_lookup_add d i e0 e x y : (map d) !! i = Some e0 -> valid e0 = 0 -> names x e -> dir_lookup d x = None ->
  dir_lookup (add_entry i e d) y = if decide (y = x) then Some (ino e) else dir_lookup d y.
Proof.
  intros He0 Hv He Hx. unfold dir_lookup in *. cbn [map add_entry set_map]. case_decide as Ey.
  - subst. rewrite (entry_insert_eq _ _ _ x); [done|by eapply lookup_lt_Some| |done]. by destruct (entry (map d) x).
  - rewrite (entry_insert_ne _ _ e0); [done|done|by intros []|]. intros [_ E]. destruct He as [_ E']. congruence.
Qed.

(** Nothing but directories, inodes and the inode map has changed. *)
Record dir_frame s s' : Prop := {
  df_smap : smap s' = smap s;
  df_smap_index : smap_index s' = smap_index s;
  df_dir_pointer : current_dir_pointer s' = current_dir_pointer s;
  df_fds : fd_array s' = fd_array s;
  df_slist : fd_array_slist s' = fd_array_slist s;
  df_regs2 : regs2 s' = regs2 s;
  df_console : console s' = console s;
  df_used b : is_block b -> block_used s' b = block_used s b;
  df_data c : aligned c -> DARRAY_ADDR <= c -> c <> current_dir_pointer s -> sector s' c = sector s c
}.

Lemma free_list_frame s s' l : dir_frame s s' -> free_list s l -> free_list s' l.
Proof.
  intros Hf [Hs Hl]. split; [done|]. intros b. rewrite Hl, (df_smap_index _ _ Hf).
  split; intros (? & Hb & ?); (split_and!; [done|done|]); [by rewrite (df_used _ _ Hf)|by rewrite <- (df_used _ _ Hf)].
Qed.

Lemma new_entry_frame s d m : fs_ok s -> wf dir_l d -> map_wf m -> dir_frame s (with_dir d (with_imap m 1 s)).
Proof.
  intros H Hd Hm. assert (H1 : fs_ok (with_imap m 1 s)) by by apply fs_ok_with_imap. split; try done.
  - intros b Hb. rewrite block_used_with_dir by done. by apply block_used_with_imap.
  - intros c Hc Hge Hne. rewrite sector_with_dir by done. rewrite decide_False by done.
    rewrite sector_with_imap by done. by rewrite !decide_False by addr.
Qed.

Lemma dir_frame_put_inode s s1 ino n : card_ok (disk s1) -> 0 <= ino < INODE_ITEM_NUM -> wf inode_l n ->
  dir_frame s s1 -> dir_frame s (put_inode s1 ino n).
Proof.
  intros Hc Hi Hn []. split; try done.
  - intros b Hb. etransitivity; [by apply block_used_put_inode|by apply df_used0].
  - intros c Hal Hge Hne. etransitivity; [apply sector_put_inode; try done|by apply df_data0]. unfold INODE_ITEM_NUM in Hi. addr.
Qed.

Lemma inode_at_new_entry s d m ino n : fs_ok s -> wf dir_l d -> map_wf m -> 0 <= ino < INODE_ITEM_NUM ->
  inode_at (with_dir d (with_imap m 1 s)) ino n <-> inode_at s ino n.
Proof.
  intros H Hd Hm Hi. assert (H1 : fs_ok (with_imap m 1 s)) by by apply fs_ok_with_imap. unfold INODE_ITEM_NUM in Hi.
  unfold inode_at. rewrite sector_with_dir by (done || addr).
  destruct (ok_dir_block _ H1) as (b & Hb & Ep & _). unfold is_block in Hb. rewrite decide_False by (rewrite Ep; addr).
  rewrite sector_with_imap by (done || addr). by rewrite !decide_False by addr.
Qed.

(** Writing an inode of the array *)
Lemma write_inode_Ok s ino n f : inode_at s ino n -> card_ok (disk s) ->
  (inode ← read_inodes (ino / 8); inode ← lift (upd_inode inode (ino - ino / 8 * 8) f); write_inodes inode (ino / 8)) s =
    Ok (tt, put_inode s ino (f n)).
Proof.
  intros Hn H. pose proof Hn as [Hi _]. unfold INODE_ITEM_NUM in Hi. destruct (inode_at_read s ino n Hn) as [E Eg]. cbn zeta in *.
  rewrite (fs_bind_Ok _ _ _ _ _ E). unfold upd_inode. rewrite Eg. cbn [mbind option_bind].
  rewrite (fs_bind_lift _ _ _ _ (aset_Some _ _ _ (aget_Some _ _ _ Eg))).
  replace (ino - ino / 8 * 8) with (ino mod 8) by lia. apply (sdwrite_as_Ok inodes_l). addr.
Qed.

Lemma new_file_wf n : wf inode_l n -> wf inode_l (new_file n).
Proof. destruct n. intros (? & ? & ? & ? & ? & ?). by split_and!. Qed.

Lemma new_dir_inode_wf n p : is_u32 p -> wf inode_l n -> wf inode_l (set_pointers (<[0%nat := p]> (pointers n)) (new_dir n)).
Proof.
  intros Hp. destruct n as [ty li re sz al ps]. intros (? & ? & Hr & ? & ? & [Hl Hps]). cbn [fst snd pointers inode_reserved] in *.
  split; [done|]. split; [done|]. split; [done|]. split; [done|]. split; [done|].
  split; [by rewrite <- Hl; apply length_insert|by apply Forall_insert].
Qed.

(** *** [touch] *)
Lemma touch_ok s after a x : fs_ok s -> dir_ok (current_dir s) -> bytes_ok a -> cstr a = Some x ->
  (length x <= 26)%nat -> dir_lookup (current_dir s) x = None ->
  (exists e, e ∈ map (current_dir s) /\ valid e = 0) -> (exists k, 0 <= k < INODE_ITEM_NUM /\ mbit (imap s) k = false) ->
  exists s' ino n, touch after a s = Ok (tt, s') /\ fs_ok s' /\ dir_ok (current_dir s') /\ dir_frame s s' /\
    0 <= ino < INODE_ITEM_NUM /\ mbit (imap s) ino = false /\ (forall k, 0 <= k < ino -> mbit (imap s) k = true) /\
    (forall k, 0 <= k -> mbit (imap s') k = if decide (k = ino) then true else mbit (imap s) k) /\
    (forall y, dir_lookup (current_dir s') y = if decide (y = x) then Some ino else dir_lookup (current_dir s) y) /\
    inode_at s ino n /\
    forall ino' n', 0 <= ino' < INODE_ITEM_NUM -> inode_at s' ino' n' <-> if decide (ino' = ino) then n' = new_file n else inode_at s ino' n'.
Proof.
  intros H Hd Ha Hx Hl Hno Hfree Hk.
  destruct (new_entry_ok s after a x H Hd Ha Hx Hl) as (i & e0 & ino & nm & m & He0 & Hv0 & Hino & Hif & Hleast & Hm & Hb & Hcn & Hd' & E);
    [by rewrite Hno|done|done|].
  set (d' := add_entry i (Dmap 1 nm ino) (current_dir s)) in *. set (s1 := with_dir d' (with_imap m 1 s)) in *.
  assert (H1 : fs_ok s1) by (apply fs_ok_with_dir; [by apply fs_ok_with_imap|apply Hd']).
  destruct (inode_at_exists s ino (ok_card _ H) Hino) as [n Hn].
  assert (Hn1 : inode_at s1 ino n) by (apply inode_at_new_entry; [done|apply Hd'|done|done|done]).
  assert (Hwn : wf inode_l (new_file n)) by (eapply new_file_wf, inode_at_wf; [apply (ok_card _ H)|done]).
  exists (put_inode s1 ino (new_file n)), ino, n. split.
  { unfold touch. rewrite (fs_bind_Ok _ _ _ _ _ E). by apply write_inode_Ok; [|apply (ok_card _ H1)]. }
  split; [by apply fs_ok_put_inode|]. split; [done|].
  split; [apply dir_frame_put_inode; [apply (ok_card _ H1)|done|done|by apply new_entry_frame; [|apply Hd'|]]|].
  split_and!; try done || lia.
  - intros y. apply (dir_lookup_add (current_dir s) i e0 (Dmap 1 nm ino) x y He0 Hv0); done.
  - intros ino' n' Hi'. rewrite inode_at_put by (done || apply (ok_card _ H1)). case_decide; [done|].
    by apply inode_at_new_entry; [|apply Hd'|..].
Qed.

(** *** [mkdir] *)

(** The directory [mkdir] writes to the block of the new directory *)
Record empty_dir (father : Z) (x : list Z) (d : dir_t) : Prop := {
  empty_wf : wf dir_l d;
  empty_father : fpointer d = father;
  empty_name : cstr (dir_name d) = Some x;
  empty_entries e : e ∈ map d -> valid e = 0
}.

Lemma empty_dir_ok f x d : empty_dir f x d -> dir_ok d.
Proof. intros []. apply entries_of_dir; [done|]. apply Forall_forall. intros e He Hv. by rewrite empty_entries0 in Hv. Qed.

Lemma mkdir_ok s after junk a x b l : fs_ok s -> dir_ok (current_dir s) -> wf dir_l junk -> bytes_ok a -> cstr a = Some x ->
  (length x <= 26)%nat -> dir_lookup (current_dir s) x = None -> free_list s (b :: l) ->
  (exists e, e ∈ map (current_dir s) /\ valid e = 0) -> (exists k, 0 <= k < INODE_ITEM_NUM /\ mbit (imap s) k = false) ->
  exists s' i e0 nm ino n, mkdir after junk a s = Ok (tt, s') /\ fs_ok s' /\
    (map (current_dir s)) !! i = Some e0 /\ valid e0 = 0 /\ cstr nm = Some x /\
    current_dir s' = add_entry i (Dmap 1 nm ino) (current_dir s) /\ dir_ok (current_dir s') /\
    current_dir_pointer s' = current_dir_pointer s /\
    0 <= ino < INODE_ITEM_NUM /\ mbit (imap s) ino = false /\
    (forall k, 0 <= k -> mbit (imap s') k = if decide (k = ino) then true else mbit (imap s) k) /\
    super_block s' = set_data_used (u32 (data_used (super_block s) + 1)) (set_inode_used (u32 (inode_used (super_block s) + 1)) (super_block s)) /\
    inode_at s' ino n /\ type n = FILE_DIR /\ (pointers n).[0] = Some (data_addr b) /\
    is_block b /\ block_used s b = false /\ free_list s' l /\
    (forall b', is_block b' -> block_used s' b' = if decide (b' = b) then true else block_used s b') /\
    empty_dir (current_dir_pointer s) x (dec dir_l (sector s' (data_addr b))).
Proof.
  intros H Hd Hj Ha Hx Hl Hno Hfl Hfree Hk.
  destruct (new_entry_ok s after a x H Hd Ha Hx Hl) as (i & e0 & ino & nm & m & He0 & Hv0 & Hino & Hif & Hleast & Hm & Hb & Hcn & Hd' & E);
    [by rewrite Hno|done|done|].
  set (d' := add_entry i (Dmap 1 nm ino) (current_dir s)) in *. set (s1 := with_dir d' (with_imap m 1 s)) in *.
  assert (H1 : fs_ok s1) by (apply fs_ok_with_dir; [by apply fs_ok_with_imap|apply Hd']).
  assert (Hf1 : dir_frame s s1) by by apply new_entry_frame; [|apply Hd'|].
  assert (Hfl1 : free_list s1 (b :: l)) by by eapply free_list_frame.
  destruct (darray_alloc_spec s1 (b :: l) H1 Hfl1) as (s2 & E2 & H2 & Hfr & Hbl & Hbf & Hfl2 & Esb & Hu2).
  pose proof Hbl as Hbl'. unfold is_block in Hbl'. pose proof Hino as Hino'. unfold INODE_ITEM_NUM in Hino'.
  destruct (inode_at_exists s1 ino (ok_card _ H1) Hino) as [n Hn]. destruct (inode_at_read s1 ino n Hn) as [Er Eg]. cbn zeta in *.
  assert (Hwn : wf inode_l n) by (eapply inode_at_wf; [apply (ok_card _ H1)|done]).
  assert (Hpl : length (pointers n) = 13%nat) by (destruct n; apply Hwn).
  set (n' := set_pointers (<[0%nat := data_addr b]> (pointers n)) (new_dir n)).
  assert (Hwn' : wf inode_l n') by (apply new_dir_inode_wf; [addr|done]).
  assert (Hp : is_u32 (current_dir_pointer s)) by (destruct (ok_dir_block _ H) as (b0 & Hb0 & -> & _); unfold is_block in Hb0; addr).
  destruct (new_dir_wf junk (current_dir_pointer s) a x Hj Hp Ha Hx Hl) as (nm2 & En2 & Ec2 & Hw2).
  set (nd := set_dir_name nm2 _) in Hw2.
  assert (Hsec : sector s2 (inode_addr (ino / 8)) = sector s1 (inode_addr (ino / 8))) by (apply (af_sector _ _ Hfr); addr).
  set (s3 := put_inode s2 ino n'). assert (H3 : fs_ok s3) by by apply fs_ok_put_inode.
  assert (Eptr2 : current_dir_pointer s2 = current_dir_pointer s) by by rewrite (af_dir_pointer _ _ Hfr).
  assert (Hne : data_addr b <> current_dir_pointer s).
  { destruct (ok_dir_block _ H) as (b0 & Hb0 & Ep0 & Hu0). unfold is_block in Hb0. rewrite Ep0. intros Eb. assert (b0 = b) as -> by addr.
    rewrite (df_used _ _ Hf1) in Hbf by done. congruence. }
  destruct (enc_sector dir_l nd Hw2) as [Hln Hbn].
  assert (H4 : fs_ok (put_sector (data_addr b) (enc dir_l nd) s3)).
  { apply fs_ok_put; [done|addr|addr| |done|done]. change (current_dir_pointer s3) with (current_dir_pointer s2). by rewrite Eptr2. }
  assert (Hused : forall b', is_block b' -> block_used (put_sector (data_addr b) (enc dir_l nd) s3) b' = block_used s2 b').
  { intros b' Hb'. rewrite block_used_put by (done || addr || apply (ok_card _ H3)). by apply block_used_put_inode; [apply (ok_card _ H2)|..]. }
  exists (put_sector (data_addr b) (enc dir_l nd) s3), i, e0, nm, ino, n'. split.
  { unfold mkdir. rewrite (fs_bind_Ok _ _ _ _ _ E). rewrite (fs_bind_Ok _ _ _ _ _ Er). unfold upd_inode. rewrite Eg.
    cbn [mbind option_bind]. pose proof (aget_Some _ _ _ Eg) as Hr. rewrite (fs_bind_lift _ _ _ _ (aset_Some _ _ (new_dir n) Hr)).
    rewrite (fs_bind_Ok _ _ _ _ _ E2). rewrite (u32_id b) by addr. rewrite (proj2 (Z.eqb_neq b MINUS_ONE)) by (unfold MINUS_ONE; addr).
    change (DARRAY_ADDR + b * SECTOR_SIZE) with (data_addr b). rewrite (u32_id (data_addr b)) by addr.
    rewrite (fs_bind_lift _ _ _ (new_dir n)) by (rewrite aget_insert by lia; by rewrite decide_True by lia).
    change (pointers (new_dir n)) with (pointers n). rewrite (fs_bind_lift _ _ _ _ (aset_Some (pointers n) 0 (data_addr b) ltac:(lia))).
    rewrite (fs_bind_lift _ _ _ _ (aset_Some _ _ _ ltac:(rewrite length_insert; exact Hr))). rewrite list_insert_insert_eq.
    change (Z.to_nat 0) with 0%nat. fold n'.
    assert (Ew : forall inode, write_inodes inode (ino / 8) s2 = Ok (tt, put_sector (inode_addr (ino / 8)) (enc inodes_l inode) s2))
      by (intros inode; apply (sdwrite_as_Ok inodes_l); addr).
    rewrite (fs_bind_Ok _ _ _ _ _ (Ew _)). rewrite <- Hsec. replace (ino - ino / 8 * 8) with (ino mod 8) by lia.
    fold (put_inode s2 ino n'). fold s3. rewrite fs_bind_get. change (current_dir_pointer s3) with (current_dir_pointer s2). rewrite Eptr2.
    change (dir_name (set_fpointer (current_dir_pointer s) (clear_valid junk))) with (dir_name junk).
    rewrite (fs_bind_lift _ _ _ _ En2). apply (sdwrite_as_Ok dir_l). addr. }
  split; [done|].
  assert (Ecd : current_dir s2 = d') by by rewrite (af_dir _ _ Hfr).
  split; [done|]. split; [done|]. split; [done|]. split; [exact Ecd|].
  split; [change (dir_ok (current_dir s2)); by rewrite Ecd|]. split; [done|]. split; [done|]. split; [done|].
  split. { intros k Hk'. change (mbit (imap s2) k = if decide (k = ino) then true else mbit (imap s) k).
    rewrite (af_imap _ _ Hfr). by apply Hb. }
  split; [exact Esb|].
  split.
  { split; [done|]. rewrite sector_put by (done || addr || apply (ok_card _ H3)). rewrite decide_False by addr.
    apply (inode_at_put s2 ino n' ino n' (ok_card _ H2) Hino Hwn' Hino). by rewrite decide_True. }
  split; [done|]. split. { cbn [pointers n' set_pointers]. rewrite aget_insert by lia. done. }
  split; [done|]. split; [by rewrite <- (df_used _ _ Hf1)|]. split.
  { destruct Hfl2 as [Hs Hfl2]. split; [done|]. intros b'. rewrite Hfl2. change (smap_index (put_sector _ _ s3)) with (smap_index s2).
    split; intros (? & Hb' & ?); (split_and!; [done|done|]); [by rewrite Hused|by rewrite <- Hused]. }
  split. { intros b' Hb'. by rewrite Hused, Hu2, (df_used _ _ Hf1). }
  rewrite sector_put by (done || addr || apply (ok_card _ H3)). rewrite decide_True by done.
  rewrite dec_enc_nil by (done || apply _). split; try done. intros e He. by apply (clear_valid_empty junk).
Qed.

(** *** [cd] *)

Lemma inode_of_Ok s ino n : inode_at s ino n -> inode_of ino s = Ok ((dec inodes_l (sector s (inode_addr (ino / 8))), n), s).
Proof. intros H. destruct (inode_at_read s ino n H) as [E Eg]. unfold inode_of. by rewrite (fs_bind_Ok _ _ _ _ _ E), (fs_bind_lift _ _ _ _ Eg). Qed.

(** The state in the directory at [p] *)
Definition at_dir (p : Z) s : fs D := set_current_dir_pointer p (set_current_dir (dec dir_l (sector s p)) s).

Lemma fs_ok_at_dir s b : fs_ok s -> is_block b -> block_used s b = true -> fs_ok (at_dir (data_addr b) s).
Proof.
  intros H Hb Hu. destruct (dec_sector dir_l s (data_addr b) (ok_card _ H)) as [Hw He]. split; try apply H; [done|by symmetry|by exists b].
Qed.

Lemma strcmp_ne a x y r : bytes_ok a -> bytes_ok y -> cstr a = Some x -> cstr y = Some r -> r <> x ->
  exists c, strcmp y a = Some c /\ c <> 0.
Proof.
  intros Ha Hy Hx Hr Hne. destruct (strcmp_spec y a r x Hy Ha Hr Hx) as (c & E & Hc). exists c. split; [done|]. intros ->. by apply Hne, Hc.
Qed.

(** A name that [cd] takes for a name *)
Definition plain_name (x : list Z) : Prop := x <> [46] /\ x <> [46; 46] /\ head x <> Some BACKSLASH.

Lemma cd_name s a x ino n b : fs_ok s -> dir_ok (current_dir s) -> bytes_ok a -> cstr a = Some x -> plain_name x ->
  dir_lookup (current_dir s) x = Some ino -> inode_at s ino n -> type n = FILE_DIR ->
  (pointers n).[0] = Some (data_addr b) -> is_block b -> cd a s = Ok (a, at_dir (data_addr b) s).
Proof.
  intros H Hd Ha Hx (Hn1 & Hn2 & Hn3) Hl Hn Hty Hp Hb. unfold is_block in Hb.
  destruct (strcmp_ne a x [46; 46; 0] [46; 46] Ha) as (c1 & E1 & Hc1); [repeat constructor; unfold is_u8; lia|done..|].
  destruct (strcmp_ne a x [46; 0] [46] Ha) as (c2 & E2 & Hc2); [repeat constructor; unfold is_u8; lia|done..|].
  assert (Ec : exists c, a.[0] = Some c /\ c <> BACKSLASH).
  { destruct (cstr_app _ _ Hx) as [t ->]. destruct x as [|c x]; [by exists 0|]. exists c. split; [done|]. intros ->. by apply Hn3. }
  destruct Ec as (c & Ec & Hc). unfold cd. rewrite (fs_bind_lift _ _ _ _ E1), (proj2 (Z.eqb_neq c1 0)) by done.
  rewrite (fs_bind_lift _ _ _ _ E2), (proj2 (Z.eqb_neq c2 0)) by done. rewrite (fs_bind_lift _ _ _ _ Ec), (proj2 (Z.eqb_neq c BACKSLASH)) by done.
  assert (Em : (d ← get current_dir; e ← lift (match_item (map d) a);
      mret (match e with Some (_, e) => Fs.ino e | None => MINUS_ONE end, a)) s = Ok ((ino, a), s)).
  { rewrite fs_bind_get. rewrite (fs_bind_lift _ _ _ _ (match_item_spec _ _ _ (dir_entries _ Hd) Ha Hx)).
    unfold dir_lookup in Hl. destruct (entry _ x) as [[i e]|]; cbn in *; [by injection Hl as ->|done]. }
  rewrite (fs_bind_Ok _ _ _ _ _ Em). pose proof Hn as [Hi _]. unfold INODE_ITEM_NUM in Hi.
  rewrite (proj2 (Z.eqb_neq ino MINUS_ONE)) by (unfold MINUS_ONE; lia). rewrite (fs_bind_Ok _ _ _ _ _ (inode_of_Ok s ino n Hn)), Hty.
  rewrite Z.eqb_refl. cbn [negb]. rewrite (fs_bind_lift _ _ _ _ Hp).
  rewrite (fs_bind_Ok _ _ _ _ _ (sdread_as_Ok dir_l s (data_addr b) ltac:(addr))). done.
Qed.

Lemma cd_up s : current_dir_pointer s <> DARRAY_ADDR -> is_u32 (fpointer (current_dir s)) ->
  cd [46; 46; 0] s = Ok ([46; 46; 0], at_dir (fpointer (current_dir s)) s).
Proof.
  intros Hr Hu. unfold cd. change (strcmp [46; 46; 0] [46; 46; 0]) with (Some 0). rewrite (fs_bind_lift (Some 0) _ s 0) by done. cbn [Z.eqb].
  rewrite fs_bind_get, (proj2 (Z.eqb_neq _ _)) by done. rewrite fs_bind_get, fs_bind_modify.
  by rewrite (fs_bind_Ok _ _ _ _ _ (sdread_as_Ok dir_l _ _ Hu)).
Qed.

(** *** [rmdir] *)

Lemma rmdir_ok s a x i e ino n b : fs_ok s -> dir_ok (current_dir s) -> bytes_ok a -> cstr a = Some x ->
  entry (map (current_dir s)) x = Some (i, e) -> Fs.ino e = ino -> inode_at s ino n -> type n = FILE_DIR ->
  (pointers n).[0] = Some (data_addr b) -> is_block b -> data_addr b <> current_dir_pointer s ->
  (forall e, e ∈ map (dec dir_l (sector s (data_addr b))) -> valid e = 0) ->
  exists s', rmdir a s = Ok (tt, s') /\ fs_ok s' /\
    current_dir s' = add_entry i (set_valid 0 e) (current_dir s) /\ current_dir_pointer s' = current_dir_pointer s /\
    map_wf (imap s') /\ (forall k, 0 <= k -> mbit (imap s') k = if decide (k = ino) then false else mbit (imap s) k) /\
    super_block s' = set_data_used (u32 (data_used (super_block s) + -1)) (set_inode_used (u32 (inode_used (super_block s) + -1)) (super_block s)) /\
    forall b', is_block b' -> block_used s' b' = if decide (b' = b) then false else block_used s b'.
Proof.
  intros H Hd Ha Hx He Hino Hn Hty Hp Hb Hne Hempty. pose proof Hn as [Hi _]. unfold INODE_ITEM_NUM in Hi.
  pose proof Hb as Hb'. unfold is_block in Hb'. pose proof (entry_Some _ _ _ _ He) as [Hei _].
  assert (Hii : (i < 15)%nat) by (destruct (dir_entries _ Hd) as (<- & _); by eapply lookup_lt_Some).
  destruct (iarray_free_spec s ino (ok_imap _ H) Hi) as (m & Hm & Hmb & Ef).
  assert (H1 : fs_ok (with_imap m (-1) s)) by by apply fs_ok_with_imap.
  destruct (darray_free_spec (with_imap m (-1) s) b H1 Hb Hne) as (s2 & Ed & H2 & Hfr & Hsb & Hu).
  assert (Ecd : current_dir s2 = current_dir s) by by rewrite (af_dir _ _ Hfr).
  assert (Hei2 : (map (current_dir s2)).[Z.of_nat i] = Some e) by by rewrite Ecd, aget_nat.
  destruct (dir_entries _ Hd) as (Hdl & Hdw & Hdv).
  assert (Hwe : wf dmap_l (set_valid 0 e)).
  { assert (Hw : wf dmap_l e) by by eapply Forall_lookup_1 in Hdw. destruct e. destruct Hw as (_ & Hw). by split. }
  assert (Hd' : wf dir_l (add_entry i (set_valid 0 e) (current_dir s))).
  { apply dir_ok_add; [done|done|]. apply entry_Some in He as [_ [_ Hc]]. by exists x. }
  unfold rmdir. rewrite fs_bind_get, (fs_bind_lift _ _ _ _ (match_item_spec _ _ _ (dir_entries _ Hd) Ha Hx)), He. cbn [fmap option_fmap option_map fst snd].
  rewrite Hino, (fs_bind_Ok _ _ _ _ _ (inode_of_Ok s ino n Hn)), Hty, Z.eqb_refl. cbn [negb]. rewrite (fs_bind_lift _ _ _ _ Hp).
  rewrite (fs_bind_Ok _ _ _ _ _ (sdread_as_Ok dir_l s (data_addr b) ltac:(addr))).
  assert (Ex : existsb (fun e => negb (valid e =? 0)) (map (dec dir_l (sector s (data_addr b)))) = false).
  { apply not_true_is_false. intros (e1 & He1 & Hv)%existsb_exists. apply list_elem_of_In, Hempty in He1. by rewrite He1 in Hv. }
  rewrite Ex, (s32_id ino) by (unfold is_s32; lia). rewrite (fs_bind_Ok _ _ _ _ _ Ef).
  replace (u32 (data_addr b - DARRAY_ADDR) / SECTOR_SIZE) with b by (rewrite u32_id; addr).
  rewrite (fs_bind_Ok _ _ _ _ _ Ed), (fs_bind_Ok _ _ _ _ _ (upd_entry_Ok s2 _ _ _ Hei2)). rewrite Nat2Z.id, Ecd.
  fold (add_entry i (set_valid 0 e) (current_dir s)).
  assert (Hptr : is_u32 (current_dir_pointer s2)) by (destruct (ok_dir_block _ H2) as (b0 & Hb0 & -> & _); unfold is_block in Hb0; addr).
  rewrite write_current_dir_Ok by exact Hptr. eexists. split; [reflexivity|].
  change (put_sector _ _ _) with (with_dir (add_entry i (set_valid 0 e) (current_dir s)) s2).
  split; [by apply fs_ok_with_dir|]. split; [done|]. split; [exact (af_dir_pointer _ _ Hfr)|].
  split; [change (map_wf (imap s2)); by rewrite (af_imap _ _ Hfr)|].
  split. { intros k Hk. change (mbit (imap s2) k = if decide (k = ino) then false else mbit (imap s) k). rewrite (af_imap _ _ Hfr). by apply Hmb. }
  split; [exact Hsb|]. intros b1 Hb1. rewrite block_used_with_dir, Hu by done. by rewrite block_used_with_imap.
Qed.

(** ** Opening *)

Lemma fopen_ok s a x ino n access i free : fs_ok s -> dir_ok (current_dir s) -> bytes_ok a -> cstr a = Some x ->
  dir_lookup (current_dir s) x = Some ino -> ino <> 0 -> inode_at s ino n -> type n = FILE_NORMAL ->
  slist_rep (fd_array_slist s) FD_ARRAY_SLIST_SIZE (i :: free) -> length (fd_array s) = 64%nat -> 1 <= i <= 64 ->
  exists l, slist_rep l FD_ARRAY_SLIST_SIZE free /\
    fopen a access s = Ok (tt, set_regs2 (i - 1) (set_fd_array (<[Z.to_nat (i - 1) := Fd (ino mod 8) (u32 access) (Fs.size n) 0]> (fd_array s))
      (set_fd_array_slist l s))).
Proof.
  intros H Hd Ha Hx Hl H0 Hn Hty Hrep Hlen Hi. destruct (slist_alloc_cons _ _ _ _ Hrep) as (l & El & Hl'). exists l. split; [done|].
  pose proof Hn as [Hino _]. unfold INODE_ITEM_NUM in Hino. destruct (inode_at_read s ino n Hn) as [Er Eg]. cbn zeta in *.
  unfold fopen. rewrite (fs_bind_Ok _ _ _ _ _ (is_file_exist_spec s a x (dir_entries _ Hd) Ha Hx)), Hl. cbn [default from_option id].
  rewrite (s32_id ino) by (unfold is_s32; lia). rewrite (proj2 (Z.eqb_neq ino 0)) by done. rewrite Z.quot_div_nonneg by lia.
  rewrite (fs_bind_Ok _ _ _ _ _ Er), (fs_bind_lift _ _ _ _ Eg), Hty. rewrite Z.eqb_refl. cbn [negb].
  assert (Ef : fd_array_alloc s = Ok (i - 1, set_fd_array_slist l s)).
  { unfold fd_array_alloc. by rewrite fs_bind_get, (fs_bind_lift _ _ _ _ El), fs_bind_modify. }
  rewrite (fs_bind_Ok _ _ _ _ _ Ef), (proj2 (Z.eqb_neq (i - 1) (-1))) by lia.
  destruct (aget_is_Some (fd_array s) (i - 1)) as [x0 Hx0]; [lia|].
  rewrite (fs_bind_Ok _ _ _ _ _ (upd_fd_Ok (set_fd_array_slist l s) (i - 1) x0 _ Hx0)). unfold set_result.
  replace (ino - ino / 8 * 8) with (ino mod 8) by lia. unfold modify.
  by rewrite (u32_id (ino mod 8)), (u32_id (i - 1)) by (unfold is_u32; lia).
Qed.

End directories.
