(* ===== verification/FsTotal.v ===== *)
(** Termination of the file system: the loops of [Fs] are bounded by fuel, and the fuel their callers
    give them is enough, whatever the state and the arguments; and nothing panics but reading and writing beyond the last byte a
    file can have. *)

From S2P Require Import Prelude Slist CString Layout Sdcard Fs FsSpec FsFile.

#[local] Ltac Zify.zify_post_hook ::= Z.to_euclidean_division_equations.

Create HintDb total.

(** Whether an access beyond the last byte a file can have is possible *)
Class Beyond := beyond : Prop.

(** The number of bytes that the pointers of an inode reach *)
Definition FILE_LIMIT : Z := 2113674 * 512.

Section total.
Context {D : Type} `{!SdCard D} `{HB : Beyond}.
Implicit Types (s : fs D).

(** From states in [P], [m] does not run out of fuel, panics only if an access beyond the limit is possible, and if it returns
    [Q] holds. *)
Definition triple {A} (P : fs D -> Prop) (m : F D A) (Q : A -> fs D -> Prop) : Prop :=
  forall s, P s -> match m s with
    | Ok (x, s') => Q x s'
    | OutOfFuel => False
    | Panic msg => beyond /\ msg = "Wrong seg."
    | Fault => True
    end.

Definition total {A} (m : F D A) : Prop := triple (fun _ => True) m (fun _ _ => True).

(** What is kept by operations that leave the table of open files alone *)
Definition keeps_fds {A} (m : F D A) : Prop := forall l, triple (fun s => fd_array s = l) m (fun _ s => fd_array s = l).

Lemma triple_bind {A B} P (m : F D A) Q (f : A -> F D B) R :
  triple P m Q -> (forall x, triple (Q x) (f x) R) -> triple P (m ≫= f) R.
Proof.
  intros Hm Hf s Hs. unfold mbind, F_bind. specialize (Hm s Hs). destruct (m s) as [[x s']| | |]; try done. by apply Hf.
Qed.

Lemma triple_ret {A} P (x : A) (Q : A -> fs D -> Prop) : (forall s, P s -> Q x s) -> triple P (mret x) Q.
Proof. intros H s Hs. by apply H. Qed.

Lemma triple_weaken {A} (P P' : fs D -> Prop) (m : F D A) (Q Q' : A -> fs D -> Prop) :
  triple P m Q -> (forall s, P' s -> P s) -> (forall x s, Q x s -> Q' x s) -> triple P' m Q'.
Proof. intros H HP HQ s Hs. specialize (H s (HP s Hs)). destruct (m s) as [[x s']| | |]; auto. Qed.

Lemma triple_lift {A} P (o : option A) (Q : A -> fs D -> Prop) : (forall x s, o = Some x -> P s -> Q x s) -> triple P (lift o) Q.
Proof. intros H s Hs. unfold lift. destruct o; auto. Qed.

Lemma fds_bind {A B} (m : F D A) (f : A -> F D B) : keeps_fds m -> (forall x, keeps_fds (f x)) -> keeps_fds (m ≫= f).
Proof. intros Hm Hf l. eapply triple_bind; [apply Hm|]. intros x. apply Hf. Qed.

Lemma fds_ret {A} (x : A) : keeps_fds (mret x).
Proof. intros l s Hs. done. Qed.

Lemma fds_get {A} (f : fs D -> A) : keeps_fds (get f).
Proof. intros l s Hs. done. Qed.

Lemma fds_modify f : (forall s, fd_array (f s) = fd_array s) -> keeps_fds (modify f).
Proof. intros H l s Hs. cbn. by rewrite H. Qed.

Lemma fds_lift {A} (o : option A) : keeps_fds (lift o).
Proof. intros l. by apply triple_lift. Qed.

Lemma total_bind {A B} (m : F D A) (f : A -> F D B) : total m -> (forall x, total (f x)) -> total (m ≫= f).
Proof. intros Hm Hf. eapply triple_bind; [exact Hm|]. intros x. apply Hf. Qed.

Lemma total_keeps {A} (m : F D A) : keeps_fds m -> total m.
Proof. intros H s _. specialize (H (fd_array s) s eq_refl). by destruct (m s) as [[]| | |]. Qed.

Lemma total_modify f : total (modify f).
Proof. by intros s. Qed.

End total.

#[export] Hint Resolve fds_ret fds_get fds_lift total_modify : total.

(** The operations by their structure *)
Ltac keeps :=
  repeat (first
    [ solve [eauto with total nocore]
    | apply fds_bind; intros
    | apply fds_modify; done
    | match goal with |- keeps_fds (match ?x with _ => _ end) => destruct x end ]).

Ltac totality :=
  repeat (first
    [ solve [eauto with total nocore]
    | solve [apply total_keeps; eauto with total nocore]
    | apply total_bind; intros
    | match goal with |- total (match ?x with _ => _ end) => destruct x end ]).

Section operations.
Context {D : Type} `{!SdCard D} `{HB : Beyond}.
Implicit Types (s : fs D).

Lemma keeps_printks fmt args : keeps_fds (D := D) (printks fmt args).
Proof. by apply fds_modify. Qed.

Lemma keeps_set_result v : keeps_fds (D := D) (set_result v).
Proof. by apply fds_modify. Qed.

Lemma keeps_sdread_bytes a : keeps_fds (D := D) (sdread_bytes a).
Proof. apply fds_get. Qed.

Lemma keeps_sdwrite_bytes b a : keeps_fds (D := D) (sdwrite_bytes b a).
Proof. by apply fds_modify. Qed.
#[local] Hint Resolve keeps_printks keeps_set_result keeps_sdread_bytes keeps_sdwrite_bytes : total.

Lemma keeps_sdread_as {A} (L : layout A) a : keeps_fds (D := D) (sdread_as L a).
Proof. unfold sdread_as. keeps. Qed.

Lemma keeps_sdwrite_as {A} (L : layout A) x a : keeps_fds (D := D) (sdwrite_as L x a).
Proof. apply keeps_sdwrite_bytes. Qed.
#[local] Hint Resolve keeps_sdread_as keeps_sdwrite_as : total.

Lemma keeps_write_super_block : keeps_fds (D := D) write_super_block.
Proof. unfold write_super_block. keeps. Qed.

Lemma keeps_write_imap : keeps_fds (D := D) write_imap.
Proof. unfold write_imap. keeps. Qed.

Lemma keeps_write_smap : keeps_fds (D := D) write_smap.
Proof. unfold write_smap. keeps. Qed.

Lemma keeps_read_smap : keeps_fds (D := D) read_smap.
Proof. unfold read_smap. keeps. Qed.

Lemma keeps_write_current_dir : keeps_fds (D := D) write_current_dir.
Proof. unfold write_current_dir. keeps. Qed.

Lemma keeps_read_inodes g : keeps_fds (D := D) (read_inodes g).
Proof. apply keeps_sdread_as. Qed.

Lemma keeps_write_inodes i g : keeps_fds (D := D) (write_inodes i g).
Proof. apply keeps_sdwrite_as. Qed.

Lemma keeps_count_inode d : keeps_fds (D := D) (count_inode d).
Proof. by apply fds_modify. Qed.

Lemma keeps_count_data d : keeps_fds (D := D) (count_data d).
Proof. by apply fds_modify. Qed.
#[local] Hint Resolve keeps_write_super_block keeps_write_imap keeps_write_smap keeps_read_smap keeps_write_current_dir
  keeps_read_inodes keeps_write_inodes keeps_count_inode keeps_count_data : total.

Lemma keeps_iarray_alloc : keeps_fds (D := D) iarray_alloc.
Proof. unfold iarray_alloc. keeps. Qed.

Lemma keeps_iarray_free ino : keeps_fds (D := D) (iarray_free ino).
Proof. unfold iarray_free. keeps. Qed.

Lemma keeps_darray_free dno : keeps_fds (D := D) (darray_free dno).
Proof. unfold darray_free. keeps. Qed.

(** The search of the sector map passes each of its 256 sectors at most once. *)
Lemma darray_alloc_total : keeps_fds (D := D) darray_alloc.
Proof.
  assert (Hloop : forall fuel l, triple (D := D) (fun s => fd_array s = l /\ (Z.to_nat (257 - smap_index s) <= fuel)%nat)
    (darray_alloc_loop fuel) (fun _ s => fd_array s = l)).
  { induction fuel as [|fuel IH]; intros l s [Hs Hf]; cbn [darray_alloc_loop]; rewrite fs_bind_get;
      destruct (Z.ltb_spec (smap_index s) 256) as [Hlt|Hge]; cbn [negb]; try done; [lia|].
    rewrite fs_bind_get. destruct (map_scan 128 (smap s) 0) as [[i j]|]; [|done]. rewrite (fs_bind_lift (Some (i, j)) _ s (i, j) eq_refl).
    destruct ((i =? 128) && (j =? 32)).
    - rewrite fs_bind_modify. set (s1 := set_smap_index _ s). pose proof (keeps_read_smap l s1 Hs) as Hr.
      assert (Hi : forall s2, read_smap s1 = Ok (tt, s2) -> smap_index s2 = smap_index s1).
      { intros s2. unfold read_smap. rewrite fs_bind_get. unfold mbind, F_bind, sdread_as, sdread_bytes, get, modify. cbn. by intros [= <-]. }
      unfold mbind, F_bind. destruct (read_smap s1) as [[[] s2]| | |]; try done. apply (IH l). split; [done|].
      rewrite (Hi s2) by done. cbn. unfold u32. lia.
    - match goal with |- match ?m s with _ => _ end => assert (Hm : keeps_fds m) by keeps; exact (Hm l s Hs) end. }
  intros l s Hs. unfold darray_alloc. rewrite fs_bind_get. apply (Hloop _ l). split; [done|lia].
Qed.
#[local] Hint Resolve keeps_iarray_alloc keeps_iarray_free keeps_darray_free darray_alloc_total : total.

Lemma keeps_is_file_exist a : keeps_fds (D := D) (is_file_exist a).
Proof. unfold is_file_exist. keeps. Qed.

Lemma keeps_inode_of ino : keeps_fds (D := D) (inode_of ino).
Proof. unfold inode_of. keeps. Qed.

Lemma keeps_upd_entry i f : keeps_fds (D := D) (upd_entry i f).
Proof. unfold upd_entry. keeps. Qed.
#[local] Hint Resolve keeps_is_file_exist keeps_inode_of keeps_upd_entry : total.

Lemma keeps_new_entry after a : keeps_fds (D := D) (new_entry after a).
Proof. unfold new_entry. keeps. Qed.

Lemma keeps_indirect p i : keeps_fds (D := D) (indirect p i).
Proof. unfold indirect. keeps. Qed.
#[local] Hint Resolve keeps_new_entry keeps_indirect : total.

(** [parse_path] shortens the path at every round. *)
Lemma separate_range a c pos : separate a c = Some pos -> pos = -1 \/ 0 <= pos < Z.of_nat (length a).
Proof.
  unfold separate. assert (H : forall a i, separate_loop a c i = Some pos -> pos = -1 \/ i <= pos < i + Z.of_nat (length a)).
  { clear a. induction a as [|b a IH]; intros i; cbn [separate_loop length]; [done|].
    destruct (negb (schar b =? 0) && negb (schar b =? schar c)); [intros H; apply IH in H; lia|].
    destruct (schar b =? 0); intros [= <-]; lia. }
  intros H'. apply H in H'. lia.
Qed.

Lemma parse_path_loop_keeps fuel : forall dir before a, (length a <= fuel)%nat -> keeps_fds (D := D) (parse_path_loop fuel dir before a).
Proof.
  induction fuel as [|fuel IH]; intros dir before a Hl l; cbn [parse_path_loop];
    (eapply triple_bind; [apply triple_lift; intros pos s Hpos Hs; exact (conj Hs (separate_range _ _ _ Hpos))|]); intros pos s [Hs Hpos];
    destruct (Z.eqb_spec pos (-1)) as [E|E];
    try (match goal with |- match ?m s with _ => _ end => assert (Hm : keeps_fds m) by keeps; exact (Hm l s Hs) end); [lia|].
  destruct (aset a pos 0) as [s0|] eqn:Ea; [|done]. rewrite (fs_bind_lift (Some s0) _ s s0 eq_refl).
  apply aset_length in Ea. destruct (match_item (map dir) s0) as [e|]; [|done]. rewrite (fs_bind_lift (Some e) _ s e eq_refl).
  destruct e as [[i e]|]; [|done].
  match goal with |- match ?m s with _ => _ end => assert (Hm : keeps_fds m); [|exact (Hm l s Hs)] end.
  apply fds_bind; [auto with total|]. intros [_i n]. destruct (negb _); [auto with total|].
  apply fds_bind; [auto with total|]. intros p. apply fds_bind; [auto with total|]. intros d. apply IH. rewrite length_drop. lia.
Qed.

Lemma keeps_parse_path a : keeps_fds (D := D) (parse_path a).
Proof.
  unfold parse_path. apply fds_bind; [auto with total|]. intros c. destruct (c =? 0); [auto with total|].
  apply fds_bind; [auto with total|]. intros d. apply parse_path_loop_keeps. rewrite length_drop. lia.
Qed.
#[local] Hint Resolve keeps_parse_path : total.

(** *** Reading and writing *)

Lemma segment_last o : segment (o / 512) <> 0 -> segment (o / 512) <> 1 -> segment (o / 512) <> 2 -> segment (o / 512) <> 3 -> FILE_LIMIT <= o.
Proof. unfold segment, b2z, FILE_LIMIT. repeat case_match; lia. Qed.

Lemma offset_to_pointer_remain n o l : beyond \/ o < FILE_LIMIT -> triple (D := D) (fun s => fd_array s = l) (offset_to_pointer n o)
  (fun r s => fd_array s = l /\ snd r = o mod 512).
Proof.
  intros Hlim.
  assert (E : u32 (o - o / 512 * 512) = o mod 512) by (unfold u32; lia).
  unfold offset_to_pointer. rewrite E. destruct (Z.eqb_spec (segment (o / 512)) 0); [|destruct (Z.eqb_spec (segment (o / 512)) 1);
    [|destruct (Z.eqb_spec (segment (o / 512)) 2); [|destruct (Z.eqb_spec (segment (o / 512)) 3)]]];
    try (intros s Hs; split; [destruct Hlim; [done|]; pose proof (segment_last o); lia|done]);
    repeat (first [apply triple_ret; intros s Hs; by split
      | eapply triple_bind; [first [apply fds_lift|apply keeps_indirect]|intros ?]]).
Qed.

(** An entry of the table of open files *)
Definition fd_is (fd : Z) (x : fd_t) (s : fs D) : Prop := (fd_array s).[fd] = Some x.

Lemma triple_pure {A} (φ : Prop) P (m : F D A) Q : (φ -> triple P m Q) -> triple (fun s => φ /\ P s) m Q.
Proof. intros H s [Hφ Hs]. exact (H Hφ s Hs). Qed.

Lemma triple_keeps {A} (m : F D A) fd x : keeps_fds m -> triple (fd_is fd x) m (fun _ => fd_is fd x).
Proof.
  intros H s Hs. specialize (H (fd_array s) s eq_refl). destruct (m s) as [[y s']| | |]; try done. unfold fd_is in *. congruence.
Qed.

Lemma triple_fd_at fd x : triple (fd_is fd x) (fd_at fd) (fun y s => y = x /\ fd_is fd x s).
Proof. intros s Hs. by rewrite (fd_at_Ok _ _ _ Hs). Qed.

Lemma triple_upd_fd fd x f : triple (fd_is fd x) (upd_fd fd f) (fun _ => fd_is fd (f x)).
Proof.
  intros s Hs. rewrite (upd_fd_Ok _ _ _ _ Hs). pose proof (aget_Some _ _ _ Hs). unfold fd_is. cbn.
  rewrite aget_insert by lia. by rewrite decide_True by lia.
Qed.

Lemma triple_pointer fd x n o : beyond \/ o < FILE_LIMIT -> triple (fd_is fd x) (offset_to_pointer n o) (fun r s => snd r = o mod 512 /\ fd_is fd x s).
Proof.
  intros Hlim s Hs. pose proof (offset_to_pointer_remain n o (fd_array s) Hlim s eq_refl) as Ho.
  destruct (offset_to_pointer n o s) as [[r s']| | |]; try done. destruct Ho as [Ho ?]. split; [done|].
  unfold fd_is in *. congruence.
Qed.

Lemma triple_lift_keep {A} P (o : option A) : triple P (lift o) (fun x s => o = Some x /\ P s).
Proof. apply triple_lift. by intros. Qed.

(** One step of a proof about a bind whose first part leaves the table alone *)
Ltac keep_step := eapply triple_bind; [apply triple_keeps; keeps|].

Lemma fread_loop_total fuel : forall fd n left x, is_s32 left -> (left <> 0 -> u32 left + offset x mod 512 <= 512 * Z.of_nat fuel) ->
  0 <= offset x -> beyond \/ offset x + u32 left <= FILE_LIMIT ->
  triple (fd_is fd x) (fread_loop fuel fd n left) (fun _ _ => True).
Proof.
  unfold is_s32. induction fuel as [|fuel IH]; intros fd n left x Hl Hf H0 Hlim; cbn [fread_loop];
    (destruct (Z.eqb_spec left 0) as [E|E]; [by intros s|]); specialize (Hf E).
  { exfalso. unfold u32 in Hf. lia. }
  eapply triple_bind; [apply triple_fd_at|]. intros y. apply triple_pure. intros ->.
  assert (Hpos : 0 < u32 left) by (unfold u32; lia).
  eapply triple_bind; [apply triple_pointer; destruct Hlim; [by left|right; lia]|]. intros [p o]. apply triple_pure. cbn [snd]. intros ->.
  set (r := s32 (if _ <? _ then _ else _)). assert (Hr : r = Z.min (u32 left) (512 - offset x mod 512)).
  { unfold r, SECTOR_SIZE. rewrite (u32_id (512 - _)) by (unfold is_u32; lia).
    pose proof (u32_range left) as Hu. unfold is_u32 in Hu. rewrite s32_id; case_cmp; unfold is_s32; lia. }
  clearbody r. keep_step. intros b. keep_step. intros w. eapply triple_bind; [apply triple_upd_fd|]. intros [].
  eapply triple_bind; [|intros; by apply triple_ret]. apply IH; [apply s32_range| |apply u32_range|].
  2: { cbn [offset set_offset]. destruct Hlim as [|Hlim]; [by left|right]. pose proof (u32_range left) as Hu. unfold is_u32 in Hu.
    assert (Ha : u32 (s32 (left - r)) = u32 left - r).
    { rewrite u32_s32. unfold u32 at 1. rewrite <- Zminus_mod_idemp_l. apply u32_id. unfold is_u32. change (left mod 4294967296) with (u32 left). lia. }
    rewrite Ha, u32_id by (unfold is_u32, FILE_LIMIT in *; lia). lia. }
  cbn [offset set_offset]. intros Hne. pose proof (u32_range left) as Hu. unfold is_u32 in Hu.
  assert (Ha : u32 (s32 (left - r)) = u32 left - r).
  { rewrite u32_s32. unfold u32 at 1. rewrite <- Zminus_mod_idemp_l. apply u32_id. unfold is_u32. change (left mod 4294967296) with (u32 left). lia. }
  rewrite Ha.
  destruct (decide (u32 left <= 512 - offset x mod 512)).
  { exfalso. apply Hne. replace r with (u32 left) by lia. unfold u32, s32. lia. }
  assert (Hm : u32 (offset x + r) mod 512 = 0) by (unfold u32; lia). lia.
Qed.

(** A body that starts by looking at the entry [fd] *)
Lemma total_fd {A} fd (f : fd_t -> F D A) (P : fd_t -> Prop) : (forall x, P x -> triple (fd_is fd x) (f x) (fun _ _ => True)) ->
  triple (fun s => forall x, fd_is fd x s -> P x) (x ← fd_at fd; f x) (fun _ _ => True).
Proof.
  intros Hf s Hs. destruct ((fd_array s).[fd]) as [x|] eqn:Hx.
  - rewrite (fs_bind_Ok _ _ _ _ _ (fd_at_Ok _ _ _ Hx)). apply Hf; [by apply Hs|done].
  - unfold fd_at, mbind, F_bind, get, lift. by rewrite Hx.
Qed.

Lemma triple_total {A} P (m : F D A) : total m -> triple P m (fun _ _ => True).
Proof. intros H s _. by apply H. Qed.

Lemma fread_total fd size : is_u32 size -> triple (D := D) (fun s => forall x, fd_is fd x s -> 0 <= offset x /\ (beyond \/ offset x + size <= FILE_LIMIT))
  (fread fd size) (fun _ _ => True).
Proof.
  intros Hsz. unfold fread. destruct (fd =? -1); [apply triple_total; totality|]. apply total_fd. intros x [H0 Hlim].
  destruct (negb _ && negb _); [apply triple_total; totality|]. keep_step. intros inode. keep_step. intros n.
  set (left := s32 (if _ <? _ then _ else _)). eapply triple_bind; [apply fread_loop_total; [apply s32_range| |done|]|].
  2: { destruct Hlim as [|Hlim]; [by left|right]. assert (Hleft : u32 left <= size); [|lia]. unfold left. rewrite u32_s32.
    unfold is_u32 in Hsz. case_cmp; [by apply Z.lt_le_incl|]. unfold u32. lia. }
  { intros _. pose proof (u32_range left) as Hu. unfold is_u32 in Hu. lia. }
  intros r. apply triple_total. totality.
Qed.

Lemma fwrite_block_total fd x n buf size : 0 <= size -> beyond \/ offset x < FILE_LIMIT ->
  triple (fd_is fd x) (fwrite_block fd n buf size) (fun r s =>
    (snd r = Z.min size (512 - offset x mod 512) /\ size_allocated (fst r) = size_allocated n /\ pointers (fst r) = pointers n) /\
    fd_is fd (advance (snd r) x) s).
Proof.
  intros Hsz Hlim. unfold fwrite_block. eapply triple_bind; [apply triple_fd_at|]. intros y. apply triple_pure. intros ->.
  eapply triple_bind; [by apply triple_pointer|]. intros [p o]. apply triple_pure. intros _.
  assert (Er : s32 (offset x - offset x / 512 * 512) = offset x mod 512) by (rewrite s32_id by (unfold is_s32; lia); lia). rewrite Er.
  assert (Et : (if size <? 512 - offset x mod 512 then size else 512 - offset x mod 512) = Z.min size (512 - offset x mod 512))
    by (case_cmp; lia). rewrite Et. set (t := Z.min size _).
  keep_step. intros b. keep_step. intros w. keep_step. intros b'. keep_step. intros [].
  eapply triple_bind; [apply triple_upd_fd|]. intros []. apply triple_ret. by intros s Hs.
Qed.

Lemma fwrite_grow_total fd x n : 0 <= size_allocated n -> length (pointers n) = 13%nat ->
  triple (fd_is fd x) (fwrite_grow n) (fun r s => (match r with None => True | Some n' =>
    size_allocated n < 6656 /\ size_allocated n' = size_allocated n + 512 /\ length (pointers n') = 13%nat end) /\ fd_is fd x s).
Proof.
  intros H0 Hl. unfold fwrite_grow. keep_step. intros dno. destruct (_ =? MINUS_ONE); [by apply triple_ret|].
  eapply triple_bind; [apply triple_lift_keep|]. intros ps. apply triple_pure. intros Ea. apply triple_ret. intros s Hs.
  split; [|done]. pose proof (aset_length _ _ _ _ Ea). apply aset_inv in Ea as [Hr _]. rewrite Hl in Hr.
  split; [lia|]. split; [cbn; rewrite u32_id by (unfold is_u32; lia); done|cbn; lia].
Qed.

(** Every round of the loop of [fwrite] writes up to the end of a block or uses a pointer of the inode. *)
Lemma fwrite_loop_total fuel : forall fd n x buf size sw, 0 <= size < 4294967296 -> 0 <= size_allocated n -> length (pointers n) = 13%nat ->
  (size <> 0 -> size + offset x mod 512 + 512 * Z.max 0 (13 - size_allocated n / 512) <= 512 * Z.of_nat fuel) ->
  0 <= offset x -> beyond \/ offset x + size <= FILE_LIMIT ->
  triple (fd_is fd x) (fwrite_loop fuel fd n buf size sw) (fun _ _ => True).
Proof.
  induction fuel as [|fuel IH]; intros fd n x buf size sw Hsz Ha Hp Hf H0 Hlim; cbn [fwrite_loop];
    (destruct (Z.eqb_spec size 0) as [E|E]; [by intros s|]); specialize (Hf E); [lia|].
  eapply triple_bind; [apply triple_fd_at|]. intros y. apply triple_pure. intros ->. destruct (_ <=? _).
  - eapply triple_bind; [apply fwrite_block_total; [lia|destruct Hlim; [by left|right; lia]]|]. intros [n' t]. apply triple_pure. cbn [fst snd]. intros (Ht & Ha' & Hp').
    rewrite u32_id by (unfold is_u32; lia). apply IH; [lia|lia|congruence| |apply u32_range|].
    2: { cbn [offset advance set_offset set_fd_size]. destruct Hlim as [|Hlim]; [by left|right].
      rewrite u32_id by (unfold is_u32, FILE_LIMIT in *; lia). lia. }
    intros Hne. rewrite Ha'. cbn [offset advance set_offset set_fd_size].
    assert (Hm : u32 (offset x + t) mod 512 = 0) by (unfold u32; lia). lia.
  - eapply triple_bind; [by apply (fwrite_grow_total fd x)|]. intros [n'|]; apply triple_pure; [|intros _; by apply triple_ret].
    intros (Hlt & Ha' & Hp'). apply IH; [done|lia|done| |done|done]. intros _. rewrite Ha'. lia.
Qed.

Lemma fwrite_total fd buf size : is_u32 size ->
  triple (fun s => card_ok (disk s) /\ forall x, fd_is fd x s -> 0 <= offset x /\ (beyond \/ offset x + size <= FILE_LIMIT))
    (fwrite fd buf size) (fun _ _ => True).
Proof.
  intros Hsz s [Hc Hx0]. unfold is_u32 in Hsz. unfold fwrite. destruct (fd =? -1); [done|].
  destruct ((fd_array s).[fd]) as [x|] eqn:Hx; [|unfold fd_at, mbind, F_bind, get, lift; by rewrite Hx].
  rewrite (fs_bind_Ok _ _ _ _ _ (fd_at_Ok _ _ _ Hx)). destruct (Hx0 x Hx) as [H0 Hlim]. destruct (negb _ && negb _); [done|].
  set (g := Z.quot _ 8). unfold read_inodes at 1. unfold sdread_as at 1. rewrite fs_bind_assoc.
  unfold sdread_bytes at 1. rewrite fs_bind_get. set (a := u32 _). set (inode := dec inodes_l _).
  assert (Hw : wf inodes_l inode) by by apply (dec_sector inodes_l s a). clearbody inode.
  unfold mret, F_ret, mbind at 1, F_bind at 1. cbn beta iota.
  destruct (inode.[s32 (fd_ino x) - g * 8]) as [n|] eqn:Hn; [|done]. rewrite (fs_bind_lift (Some n) _ s n eq_refl).
  assert (Hwn : wf inode_l n) by (destruct Hw as [_ Hw]; by eapply Forall_aget in Hw).
  assert (Hn' : 0 <= size_allocated n < 4294967296 /\ length (pointers n) = 13%nat).
  { destruct n. destruct Hwn as (_ & _ & _ & _ & ? & ? & _). cbn in *. by split. }
  match goal with |- match ?m s with _ => _ end =>
    assert (Ht : triple (fd_is fd x) m (fun _ _ => True)); [|exact (Ht s Hx)] end.
  eapply triple_bind; [apply fwrite_loop_total; [lia|lia|lia|lia|done|done]|]. intros [n' w]. apply triple_total. totality.
Qed.

(** *** The other operations *)

Lemma total_fd_upd fd f : total (D := D) (upd_fd fd f).
Proof. unfold upd_fd. totality. Qed.

Lemma keeps_mkfs_smap n : forall buf a, keeps_fds (D := D) (mkfs_smap n buf a).
Proof. induction n as [|n IH]; intros buf a; cbn [mkfs_smap]; [keeps|]. apply fds_bind; [auto with total|]. intros. apply IH. Qed.

Lemma keeps_ls_loop m : forall j, keeps_fds (D := D) (ls_loop m j).
Proof.
  induction m as [|e m IH]; intros j; cbn [ls_loop]; [auto with total|]. destruct (negb _); [|apply IH].
  apply fds_bind; [auto with total|]. intros. destruct (j =? 4); [|apply IH]. apply fds_bind; [auto with total|]. intros. apply IH.
Qed.
#[local] Hint Resolve total_fd_upd keeps_mkfs_smap keeps_ls_loop : total.

Lemma total_mkfs b i d : total (D := D) (mkfs b i d).
Proof. unfold mkfs. totality. Qed.

Lemma total_mount : total (D := D) mount.
Proof. unfold mount. totality. Qed.
#[local] Hint Resolve total_mkfs total_mount : total.

Lemma total_init_file_system b i d : total (D := D) (init_file_system b i d).
Proof.
  unfold init_file_system. apply total_bind; [by intros s|]. intros. totality.
Qed.

Lemma total_statfs : total (D := D) statfs.
Proof. unfold statfs. totality. Qed.

Lemma total_touch after a : total (D := D) (touch after a).
Proof. unfold touch. totality. Qed.

Lemma total_mkdir after d a : total (D := D) (mkdir after d a).
Proof. unfold mkdir. totality. Qed.

Lemma total_rmdir a : total (D := D) (rmdir a).
Proof. unfold rmdir. totality. Qed.

Lemma total_ls : total (D := D) ls.
Proof. unfold ls. totality. Qed.

Lemma total_cd a : total (D := D) (cd a).
Proof. unfold cd. totality. Qed.

Lemma total_fopen a access : total (D := D) (fopen a access).
Proof. unfold fopen, fd_array_alloc. totality. Qed.

Lemma total_fclose fd : total (D := D) (fclose fd).
Proof. unfold fclose, fd_array_free. totality. Qed.

Lemma total_fseek fd o : total (D := D) (fseek fd o).
Proof. unfold fseek. totality. Qed.

End operations.
