(* ===== verification/FileSystem.v ===== *)
(** The theorems about the file system, on any [SdCard], with witnesses on the card in memory behind
    the driver of [Sdcard]. *)

From S2P Require Import Prelude Slist CString Layout Sdcard Fs FsSpec FsFile FsFormat FsDir FsTotal.

#[local] Ltac Zify.zify_post_hook ::= Z.to_euclidean_division_equations.

(** ** A file system to apply the theorems to *)

Definition zero_inode : inode_t := Inode 0 0 [0; 0] 0 0 (replicate 13 0).
Definition zero_dir : dir_t := Dir 0 (replicate 27 0) 0 (replicate 15 (Dmap 0 (replicate 27 0) 0)).
Definition zero_super_block : super_block_t := SuperBlock 0 0 0 0 0 0 0 0 0 0 (replicate 118 0).

(** The memory at the start of the kernel, with an empty card *)
Definition zero_fs : fs (sd memcard) :=
  Fs empty_card zero_super_block zero_dir 0 no_bit no_bit 0 (replicate 64 (Fd 0 0 0 0)) (replicate 65 (Node 0 0)) 0 [].

Lemma zero_super_block_wf : wf super_block_l zero_super_block.
Proof. do 11 (split; [done|]). by apply Forall_replicate. Qed.

Lemma zero_inode_wf : wf inode_l zero_inode.
Proof. do 2 (split; [done|]). split; [split; [done|by repeat constructor]|]. do 3 (split; [done|]). by apply Forall_replicate. Qed.

Lemma zero_inodes_wf : wf inodes_l (replicate 8 zero_inode).
Proof. split; [done|]. apply Forall_replicate, zero_inode_wf. Qed.

Lemma zero_dir_wf : wf dir_l zero_dir.
Proof.
  assert (Hn : length (replicate 27 0) = 27%nat /\ Forall is_u8 (replicate 27 0)) by (split; [done|by apply Forall_replicate]).
  split; [done|]. split; [exact Hn|]. split; [done|]. split; [done|]. apply Forall_replicate.
  split; [done|]. split; [exact Hn|done].
Qed.

Lemma empty_card_ok : card_ok (D := sd memcard) empty_card.
Proof. done. Qed.

Lemma zero_slist : exists l, slist_init (fd_array_slist zero_fs) FD_ARRAY_SLIST_SIZE = Some l /\ slist_rep l 65 (range 1 64).
Proof. by apply (slist_init_rep (fd_array_slist zero_fs) 65). Qed.

(** A formatted and mounted file system with no file open *)
Lemma example_fresh : exists s : fs (sd memcard), fresh s /\ length (fd_array s) = 64%nat /\ slist_rep (fd_array_slist s) 65 (range 1 64).
Proof.
  destruct zero_slist as (l & El & Hl).
  destruct (mkfs_formats (set_fd_array_slist l zero_fs) _ _ _ empty_card_ok zero_super_block_wf zero_inodes_wf zero_dir_wf)
    as (s1 & _ & Hf & Hm). destruct (mount_fresh s1 Hf) as (s2 & _ & Hfr & _ & Efd & Esl & _).
  exists s2. split; [done|]. rewrite Efd, Esl. destruct Hm as (_ & _ & _ & _ & _ & _ & -> & -> & _). by split.
Qed.

Lemma root_dir_ok d : root_dir d -> dir_ok d.
Proof. intros H. apply entries_of_dir; [apply H|]. apply Forall_forall. intros e He Hv. by rewrite (root_empty _ H e He) in Hv. Qed.

Lemma root_dir_lookup d x : root_dir d -> dir_lookup d x = None.
Proof.
  intros H. unfold dir_lookup, entry. destruct (list_find (names x) (map d)) as [[i e]|] eqn:E; [|done].
  apply list_find_Some in E as (Hi & [Hv _] & _). by rewrite (root_empty _ H e) in Hv by by eapply list_elem_of_lookup_2.
Qed.

Lemma root_dir_free d : root_dir d -> exists e, e ∈ map d /\ valid e = 0.
Proof.
  intros H. destruct (dir_entries _ (root_dir_ok d H)) as (Hl & _). destruct (map d) as [|e m] eqn:E; [done|].
  exists e. split; [left|]. apply (root_empty _ H). rewrite E. left.
Qed.

Lemma fresh_inode_free {D} `{!SdCard D} (s : fs D) : fresh s -> exists k, 0 <= k < INODE_ITEM_NUM /\ mbit (imap s) k = false.
Proof. intros H. exists 1. split; [unfold INODE_ITEM_NUM; lia|]. by rewrite (fresh_imap _ H) by (unfold INODE_ITEM_NUM; lia). Qed.

(** The name "f", and the file of that name, new and open for reading and writing *)
Definition name_f : list Z := [102; 0].

Lemma name_f_bytes : bytes_ok name_f.
Proof. repeat constructor; unfold is_u8; lia. Qed.

Lemma inode_at_same {D} `{!SdCard D} (s s' : fs D) ino n : disk s' = disk s -> inode_at s ino n -> inode_at s' ino n.
Proof. unfold inode_at, sector. by intros ->. Qed.

Lemma free_list_same {D} `{!SdCard D} (s s' : fs D) l : same_fs s s' -> free_list s l -> free_list s' l.
Proof. destruct s, s'. unfold same_fs. cbn. by intros (-> & -> & -> & -> & -> & -> & ->). Qed.

Lemma example_file : exists (s : fs (sd memcard)) n, fs_ok s /\ dir_ok (current_dir s) /\ dir_lookup (current_dir s) [102] = Some 1 /\
  inode_at s 1 n /\ type n = FILE_NORMAL /\ slist_rep (fd_array_slist s) FD_ARRAY_SLIST_SIZE (1 :: range 2 63) /\ length (fd_array s) = 64%nat /\
  size n = 0 /\ size_allocated n = 0 /\ free_list s (seqZ 1 1048575).
Proof.
  destruct example_fresh as (s & Hs & Hl & Hsl).
  destruct (touch_ok s 0 name_f [102] (fresh_ok _ Hs) (root_dir_ok _ (fresh_root _ Hs)) name_f_bytes eq_refl)
    as (s1 & ino & n & E1 & H1 & Hd1 & Hf1 & Hino & Hif & Hleast & _ & Hlk & Hn & Hin); [cbn; lia|by apply root_dir_lookup, Hs
      |by apply root_dir_free, Hs|by apply fresh_inode_free|].
  assert (ino = 1) as ->.
  { destruct (decide (ino = 0)) as [->|]; [by rewrite (fresh_imap _ Hs) in Hif by done|].
    destruct (decide (1 < ino)); [|lia]. specialize (Hleast 1 ltac:(lia)). by rewrite (fresh_imap _ Hs) in Hleast by (unfold INODE_ITEM_NUM; lia). }
  exists s1, (new_file n). split; [done|]. split; [done|]. split; [by rewrite Hlk|]. split; [by apply Hin; [|rewrite decide_True]|].
  split; [done|]. split; [by rewrite (df_slist _ _ Hf1)|]. split; [by rewrite (df_fds _ _ Hf1)|]. split; [done|]. split; [done|].
  by apply (free_list_frame _ _ _ Hf1), Hs.
Qed.

Lemma example_open : exists (s : fs (sd memcard)) x n l, fs_ok s /\ (fd_array s).[0] = Some x /\ access x = O_RDWR /\ offset x = 0 /\
  fd_size x = 0 /\ inode_at s (fd_ino x) n /\ file_ok s n [] /\ free_list s (1 :: l).
Proof.
  destruct example_file as (s1 & n & H1 & Hd1 & Hlk & Hn1 & Hty & Hsl & Hlen & Hsz & Hsa & Hfl).
  destruct (fopen_ok s1 name_f [102] 1 n 0 1 (range 2 63) H1 Hd1 name_f_bytes eq_refl Hlk) as (l & Hl1 & E2); [done..|lia|].
  rewrite seqZ_cons in Hfl by lia.
  match type of E2 with _ = Ok (tt, ?t) => exists t end. exists (Fd 1 0 (size n) 0), n. eexists. split; [by eapply fs_ok_same; [|exact H1]|].
  split. { cbn [fd_array set_regs2 set_fd_array set_fd_array_slist]. rewrite aget_insert by (rewrite Hlen; cbn; lia). done. }
  split; [reflexivity|]. split; [reflexivity|]. split; [exact Hsz|]. split; [by apply (inode_at_same s1)|]. split; [|by apply (free_list_same s1), Hfl].
  split; [eapply inode_at_wf; [apply (ok_card _ H1)|exact Hn1]|exact Hsa|cbn; lia|intros ? ? [=]|constructor|].
  intros b Hb. by apply elem_of_nil in Hb.
Qed.

(** ** Theorems *)

(** C12. [mkfs] and then [mount], whatever is on the card, in memory and on the stack, leave a file
    system whose memory agrees with the card, with an empty root directory, every inode but the
    root's and every block but the root's free; and [init_file_system] at any later start mounts it
    again, with no file open. *)
Theorem format_and_mount {D} `{!SdCard D} (s : fs D) (b : super_block_t) (inode : list inode_t) (d : dir_t) :
  card_ok (disk s) -> wf super_block_l b -> wf inodes_l inode -> wf dir_l d ->
  exists s1 s2, mkfs b inode d s = Ok (tt, s1) /\ mount s1 = Ok (tt, s2) /\ fresh s2 /\
    forall t, disk t = disk s2 -> length (fd_array_slist t) = 65%nat ->
      exists t', init_file_system b inode d t = Ok (tt, t') /\ fresh t' /\ slist_rep (fd_array_slist t') 65 (range 1 64).
Proof.
  intros Hc Hb Hi Hd. destruct (mkfs_formats s b inode d Hc Hb Hi Hd) as (s1 & E1 & Hf & _).
  destruct (mount_fresh s1 Hf) as (s2 & E2 & Hs2 & Hdk & _). exists s1, s2. split; [done|]. split; [done|]. split; [done|].
  intros t Ht Hl. destruct (slist_init_rep (fd_array_slist t) 65) as (l & El & Hl'); [lia|lia|].
  rewrite (init_file_system_steps t b inode d l Hl El).
  assert (Et : forall c, sector t c = sector s1 c) by (intros c; unfold sector; by rewrite Ht, Hdk). rewrite Et.
  rewrite (fresh_magic _ (fmt_super_block _ Hf)). cbn [default from_option id]. rewrite Z.eqb_refl. cbn [negb].
  assert (Hft : formatted (set_fd_array_slist l t)).
  { destruct Hf as [F1 F2 F3 F4 (n & F5 & F6) F7]. rewrite <- Hdk, <- Ht in F1. rewrite <- Et in F2, F3, F7. split; try done.
    - intros i Hi'. rewrite <- (F4 i Hi'). unfold smap_of. f_equal. apply Et.
    - exists n. split; [|done]. unfold inode_at in *. by rewrite <- Et in F5. }
  destruct (mount_fresh _ Hft) as (t' & E' & Hfr & _ & _ & Esl & _). exists t'. split; [done|]. split; [done|]. by rewrite Esl.
Qed.

Lemma format_and_mount_witness : exists s1 s2, mkfs zero_super_block (replicate 8 zero_inode) zero_dir zero_fs = Ok (tt, s1) /\
  mount s1 = Ok (tt, s2) /\ fresh s2 /\ forall t, disk t = disk s2 -> length (fd_array_slist t) = 65%nat ->
    exists t', init_file_system zero_super_block (replicate 8 zero_inode) zero_dir t = Ok (tt, t') /\ fresh t' /\
      slist_rep (fd_array_slist t') 65 (range 1 64).
Proof.
  apply (format_and_mount zero_fs zero_super_block (replicate 8 zero_inode) zero_dir);
    [reflexivity|apply zero_super_block_wf|apply zero_inodes_wf|apply zero_dir_wf].
Defined.

(** On a card without the magic number [init_file_system] formats but does not mount: the
    card is a file system afterwards, and the memory of the file system is what it was, so at the
    first start the current directory stays at address 0 of the card and no inode counts as used. *)
Theorem first_boot_does_not_mount {D} `{!SdCard D} (s : fs D) (b : super_block_t) (inode : list inode_t) (d : dir_t) :
  card_ok (disk s) -> wf super_block_l b -> wf inodes_l inode -> wf dir_l d -> length (fd_array_slist s) = 65%nat ->
  (sb_reserved (dec super_block_l (sector s FS_BASE))).[78] <> Some MAGIC_NUMBER ->
  exists s', init_file_system b inode d s = Ok (tt, s') /\ formatted s' /\ super_block s' = super_block s /\
    current_dir s' = current_dir s /\ current_dir_pointer s' = current_dir_pointer s /\ imap s' = imap s /\ smap s' = smap s.
Proof.
  intros Hc Hb Hi Hd Hl Hm. destruct (slist_init_rep (fd_array_slist s) 65) as (l & El & _); [lia|lia|].
  rewrite (init_file_system_steps s b inode d l Hl El).
  assert (Hr : length (sb_reserved (dec super_block_l (sector s FS_BASE))) = 118%nat) by apply dec_arr_length.
  destruct (aget_is_Some (sb_reserved (dec super_block_l (sector s FS_BASE))) 78) as [v Hv]; [lia|]. rewrite Hv in *.
  cbn [default from_option id]. rewrite (proj2 (Z.eqb_neq v MAGIC_NUMBER)) by congruence. cbn [negb].
  destruct (mkfs_formats (set_fd_array_slist l s) b inode d Hc Hb Hi Hd) as (s' & E & Hf & Hmem). exists s'. split; [done|]. split; [done|].
  destruct Hmem as (-> & -> & -> & -> & -> & _). done.
Qed.

Lemma first_boot_does_not_mount_witness :
  exists s', init_file_system zero_super_block (replicate 8 zero_inode) zero_dir zero_fs = Ok (tt, s') /\ formatted s' /\
    super_block s' = zero_super_block /\ current_dir s' = zero_dir /\ current_dir_pointer s' = 0 /\ imap s' = no_bit /\ smap s' = no_bit.
Proof.
  apply (first_boot_does_not_mount zero_fs zero_super_block (replicate 8 zero_inode) zero_dir);
    [reflexivity|apply zero_super_block_wf|apply zero_inodes_wf|apply zero_dir_wf|reflexivity|vm_compute; discriminate].
Defined.

(** C17. [touch] of a new name, with room in the directory and an inode free, binds the name to the
    least free inode: a search finds it under that name and every other name as before, the inode
    is an empty file and no other inode has changed, memory and card agree, and a second [touch] of
    the name only reports that the file exists. *)
Theorem touch_binds_name {D} `{!SdCard D} (s : fs D) (after : Z) (a x : list Z) :
  fs_ok s -> dir_ok (current_dir s) -> bytes_ok a -> cstr a = Some x -> (length x <= 26)%nat ->
  dir_lookup (current_dir s) x = None -> (exists e, e ∈ map (current_dir s) /\ valid e = 0) ->
  mbit (imap s) 0 = true -> (exists k, 0 <= k < INODE_ITEM_NUM /\ mbit (imap s) k = false) ->
  exists s' ino n, touch after a s = Ok (tt, s') /\ fs_ok s' /\ dir_ok (current_dir s') /\
    0 < ino < INODE_ITEM_NUM /\ mbit (imap s) ino = false /\ (forall k, 0 <= k < ino -> mbit (imap s) k = true) /\
    is_file_exist a s' = Ok (ino, s') /\
    (forall y, y <> x -> dir_lookup (current_dir s') y = dir_lookup (current_dir s) y) /\
    inode_at s' ino n /\ type n = FILE_NORMAL /\ size n = 0 /\ size_allocated n = 0 /\
    (forall ino' n', 0 <= ino' < INODE_ITEM_NUM -> ino' <> ino -> inode_at s' ino' n' <-> inode_at s ino' n') /\
    touch after a s' = Ok (tt, set_console (("Error: file exists.\n"%string, []) :: console s') s').
Proof.
  intros H Hd Ha Hx Hl Hno Hfree H0 Hk.
  destruct (touch_ok s after a x H Hd Ha Hx Hl Hno Hfree Hk) as (s' & ino & n & E & H' & Hd' & _ & Hino & Hif & Hleast & _ & Hlk & Hn & Hin).
  assert (Hpos : ino <> 0) by (intros ->; congruence). pose proof Hino as Hino'. unfold INODE_ITEM_NUM in Hino'.
  assert (Ex : is_file_exist a s' = Ok (ino, s')).
  { rewrite (is_file_exist_spec s' a x (dir_entries _ Hd') Ha Hx), Hlk, decide_True by done. cbn. by rewrite s32_id by (unfold is_s32; lia). }
  exists s', ino, (new_file n). split; [done|]. split; [done|]. split; [done|]. split; [lia|]. split; [done|]. split; [done|]. split; [done|].
  split; [intros y Hy; by rewrite Hlk, decide_False|]. split; [by apply Hin; [|rewrite decide_True]|]. split; [done|]. split; [done|]. split; [done|].
  split; [intros ino' n' Hi' Hne; by rewrite Hin, decide_False|].
  unfold touch, new_entry. rewrite fs_bind_assoc, (fs_bind_lift _ _ _ (Z.of_nat (length x))) by (by rewrite strlen_cstr, Hx).
  rewrite (proj2 (Z.ltb_ge _ _)) by (unfold MAX_NAME_LENTH; lia). rewrite fs_bind_assoc, (fs_bind_Ok _ _ _ _ _ Ex).
  rewrite (proj2 (Z.eqb_neq ino 0)) by done. done.
Qed.

Lemma touch_binds_name_witness : exists (s s' : fs (sd memcard)) ino n, touch 0 name_f s = Ok (tt, s') /\ fs_ok s' /\ dir_ok (current_dir s') /\
  0 < ino < INODE_ITEM_NUM /\ mbit (imap s) ino = false /\ (forall k, 0 <= k < ino -> mbit (imap s) k = true) /\
  is_file_exist name_f s' = Ok (ino, s') /\
  (forall y, y <> [102] -> dir_lookup (current_dir s') y = dir_lookup (current_dir s) y) /\
  inode_at s' ino n /\ type n = FILE_NORMAL /\ size n = 0 /\ size_allocated n = 0 /\
  (forall ino' n', 0 <= ino' < INODE_ITEM_NUM -> ino' <> ino -> inode_at s' ino' n' <-> inode_at s ino' n') /\
  touch 0 name_f s' = Ok (tt, set_console (("Error: file exists.\n"%string, []) :: console s') s').
Proof.
  destruct example_fresh as (s & Hs & _). exists s. apply (touch_binds_name s 0 name_f [102]).
  - apply Hs.
  - apply root_dir_ok, Hs.
  - apply name_f_bytes.
  - reflexivity.
  - cbn. lia.
  - apply root_dir_lookup, Hs.
  - apply root_dir_free, Hs.
  - rewrite (fresh_imap _ Hs); [reflexivity|split; reflexivity || discriminate].
  - by apply fresh_inode_free.
Defined.

(** C18. [mkdir] of a name, [cd] to it and [cd ".."]: in between the current directory is the new
    one, which is empty, has that name and its own block; afterwards it is again the one [mkdir] was
    called in, with the new entry; and memory and card agree all along. *)
Theorem mkdir_cd_roundtrip {D} `{!SdCard D} (s : fs D) (after : Z) (junk : dir_t) (a x : list Z) (b : Z) (l : list Z) :
  fs_ok s -> dir_ok (current_dir s) -> wf dir_l junk -> bytes_ok a -> cstr a = Some x -> (length x <= 26)%nat -> plain_name x ->
  dir_lookup (current_dir s) x = None -> free_list s (b :: l) -> block_used s 0 = true ->
  (exists e, e ∈ map (current_dir s) /\ valid e = 0) -> (exists k, 0 <= k < INODE_ITEM_NUM /\ mbit (imap s) k = false) ->
  exists s1 s2 s3 ino, mkdir after junk a s = Ok (tt, s1) /\ cd a s1 = Ok (a, s2) /\ cd [46; 46; 0] s2 = Ok ([46; 46; 0], s3) /\
    fs_ok s1 /\ fs_ok s2 /\ fs_ok s3 /\
    current_dir_pointer s2 = data_addr b /\ empty_dir (current_dir_pointer s) x (current_dir s2) /\
    current_dir_pointer s3 = current_dir_pointer s /\ current_dir s3 = current_dir s1 /\ disk s3 = disk s1 /\
    forall y, dir_lookup (current_dir s3) y = if decide (y = x) then Some ino else dir_lookup (current_dir s) y.
Proof.
  intros H Hd Hj Ha Hx Hl Hplain Hno Hfl H0 Hfree Hk.
  destruct (mkdir_ok s after junk a x b l H Hd Hj Ha Hx Hl Hno Hfl Hfree Hk) as (s1 & i & e0 & nm & ino & n & E1 & H1 & He0 & Hv0 & Hnm &
    Ecd & Hd1 & Ep1 & Hino & Hif & _ & _ & Hn & Hty & Hp & Hb & Hbf & _ & Hu & Hemp).
  assert (Hlk : forall y, dir_lookup (current_dir s1) y = if decide (y = x) then Some ino else dir_lookup (current_dir s) y).
  { intros y. rewrite Ecd. by apply (dir_lookup_add _ i e0 (Dmap 1 nm ino) x y He0 Hv0). }
  assert (E2 : cd a s1 = Ok (a, at_dir (data_addr b) s1)).
  { apply (cd_name s1 a x ino n b); try done. by rewrite Hlk, decide_True. }
  assert (H2 : fs_ok (at_dir (data_addr b) s1)) by (apply fs_ok_at_dir; [done|done|by rewrite Hu, decide_True]).
  destruct (ok_dir_block _ H1) as (b1 & Hb1 & Ep & Hu1). pose proof Hb as Hb'. unfold is_block in Hb', Hb1.
  assert (Hne : data_addr b <> DARRAY_ADDR).
  { intros E. assert (b = 0) as -> by addr. congruence. }
  assert (Efp : fpointer (current_dir (at_dir (data_addr b) s1)) = data_addr b1) by (rewrite <- Ep, Ep1; apply (empty_father _ _ _ Hemp)).
  pose proof (cd_up (at_dir (data_addr b) s1) Hne) as E3. rewrite Efp in E3.
  exists s1, (at_dir (data_addr b) s1), (at_dir (data_addr b1) (at_dir (data_addr b) s1)), ino.
  assert (Ed : dec dir_l (sector s1 (data_addr b1)) = current_dir s1).
  { rewrite <- Ep, (ok_dir_card _ H1). apply dec_enc_nil; [apply _|apply (ok_dir _ H1)]. }
  split; [done|]. split; [done|]. split; [apply E3; addr|]. split; [done|]. split; [done|]. split; [by apply fs_ok_at_dir|].
  split; [done|]. split; [done|]. split; [by rewrite <- Ep1, Ep|]. split; [exact Ed|]. split; [done|].
  intros y. rewrite <- Hlk. by rewrite <- Ed.
Qed.

Lemma fresh_block_0 {D} `{!SdCard D} (s : fs D) : fresh s -> block_used s 0 = true.
Proof.
  intros H. destruct (ok_dir_block _ (fresh_ok _ H)) as (b & Hb & Ep & Hu). rewrite (fresh_pointer _ H) in Ep. unfold is_block in Hb.
  by assert (b = 0) as -> by addr.
Qed.

Lemma mkdir_cd_roundtrip_witness : exists (s s1 s2 s3 : fs (sd memcard)) b ino, mkdir 0 zero_dir name_f s = Ok (tt, s1) /\
  cd name_f s1 = Ok (name_f, s2) /\ cd [46; 46; 0] s2 = Ok ([46; 46; 0], s3) /\ fs_ok s1 /\ fs_ok s2 /\ fs_ok s3 /\
  current_dir_pointer s2 = data_addr b /\ empty_dir (current_dir_pointer s) [102] (current_dir s2) /\
  current_dir_pointer s3 = current_dir_pointer s /\ current_dir s3 = current_dir s1 /\ disk s3 = disk s1 /\
  forall y, dir_lookup (current_dir s3) y = if decide (y = [102]) then Some ino else dir_lookup (current_dir s) y.
Proof.
  destruct example_fresh as (s & Hs & _). pose proof (fresh_free _ Hs) as Hfl. rewrite seqZ_cons in Hfl by lia.
  edestruct (mkdir_cd_roundtrip s 0 zero_dir name_f [102] 1) as (s1 & s2 & s3 & ino & Hall).
  - apply Hs.
  - apply root_dir_ok, Hs.
  - apply zero_dir_wf.
  - apply name_f_bytes.
  - reflexivity.
  - cbn. lia.
  - split_and!; discriminate.
  - apply root_dir_lookup, Hs.
  - exact Hfl.
  - by apply fresh_block_0.
  - apply root_dir_free, Hs.
  - by apply fresh_inode_free.
  - exists s, s1, s2, s3, 1, ino. exact Hall.
Defined.

(** C6. What [fwrite] writes [fread] reads: writing a buffer at the offset of an open file of up to
    ten blocks, going back with [fseek] and reading as many bytes returns the buffer. The write takes
    the blocks [bn] it needs from the free ones, keeps the bytes of the file outside the range, and
    changes no other inode and no other block. *)
Theorem fwrite_fread_roundtrip {D} `{!SdCard D} (s : fs D) (fd : Z) (x : fd_t) (n : inode_t) (bs bn l buf : list Z) :
  fs_ok s -> (fd_array s).[fd] = Some x -> access x = O_RDWR -> inode_at s (fd_ino x) n -> file_ok s n bs ->
  0 <= offset x <= 512 * Z.of_nat (length bs) -> offset x <= fd_size x < 1073741824 ->
  bytes_ok buf -> free_list s (bn ++ l) -> (length (bs ++ bn) <= 10)%nat ->
  offset x + Z.of_nat (length buf) <= 512 * Z.of_nat (length (bs ++ bn)) ->
  (bn <> [] -> 512 * Z.of_nat (length (bs ++ bn)) < offset x + Z.of_nat (length buf) + 512) ->
  exists s1 s2 s3 n1, fwrite fd buf (Z.of_nat (length buf)) s = Ok (tt, s1) /\ regs2 s1 = Z.of_nat (length buf) /\
    fseek fd (offset x) s1 = Ok (tt, s2) /\
    fread fd (Z.of_nat (length buf)) s2 = Ok (buf, s3) /\ regs2 s3 = Z.of_nat (length buf) /\
    fs_ok s3 /\ file_ok s1 n1 (bs ++ bn) /\ free_list s1 l /\
    splice (content s (bs ++ bn)) (offset x) buf = Some (content s1 (bs ++ bn)) /\
    (forall ino n2, 0 <= ino < INODE_ITEM_NUM -> ino <> fd_ino x -> inode_at s1 ino n2 <-> inode_at s ino n2) /\
    forall b, is_block b -> b ∉ bs ++ bn -> sector s1 (data_addr b) = sector s (data_addr b).
Proof.
  intros H Hx Hacc Hn Hf Ho Hfs Hbuf Hfl Hten Hfit Hneed. pose proof (aget_Some _ _ _ Hx) as Hfd. pose proof Hn as [Hino _].
  destruct (fwrite_spec s fd x n bs bn l buf) as (s1 & n1 & E1 & Er1 & H1 & Hf1 & Hfl1 & Hsp & Hfds & Hin & Hoth);
    [done|done|by left|done|done|done|unfold is_u32; lia|done|done|done|done|done|].
  assert (Hx1 : (fd_array s1).[fd] = Some (advance (Z.of_nat (length buf)) x)).
  { rewrite Hfds, aget_insert by lia. by rewrite decide_True by lia. }
  set (x2 := set_offset (offset x) (advance (Z.of_nat (length buf)) x)).
  set (s2 := set_fd_array (<[Z.to_nat fd := x2]> (fd_array s1)) s1).
  assert (E2 : fseek fd (offset x) s1 = Ok (tt, s2)).
  { unfold fseek. rewrite (proj2 (Z.eqb_neq fd (-1))) by lia. by apply upd_fd_Ok. }
  assert (Hlen : (length (fd_array s1) = length (fd_array s))%nat) by (rewrite Hfds; apply length_insert).
  assert (Hx2 : (fd_array s2).[fd] = Some x2) by (cbn; rewrite aget_insert by lia; by rewrite decide_True by lia).
  assert (Hsz2 : fd_size x2 = fd_size x + Z.of_nat (length buf)) by (cbn; apply u32_id; unfold is_u32; lia).
  assert (Hn1 : inode_at s1 (fd_ino x) n1) by (apply Hin; [done|by rewrite decide_True]).
  destruct (fread_spec s2 fd x2 n1 (bs ++ bn) (Z.of_nat (length buf))) as (r & Hr & E3).
  - by eapply fs_ok_same; [|exact H1].
  - done.
  - by left.
  - by eapply inode_at_same; [|exact Hn1].
  - by apply file_ok_fds.
  - apply Ho.
  - rewrite Hsz2. cbn. lia.
  - rewrite Hsz2. unfold is_u32. lia.
  - unfold is_u32. lia.
  - cbn [offset x2 set_offset] in *. rewrite Hsz2. lia.
  - rewrite Hsz2. cbn. lia.
  - rewrite Hsz2 in *. cbn [offset x2 set_offset] in *.
    replace (Z.min (Z.of_nat (length buf)) (fd_size x + Z.of_nat (length buf) - offset x)) with (Z.of_nat (length buf)) in * by lia.
    pose proof (slice_splice _ _ _ _ Hsp) as Hs. change (content s2 (bs ++ bn)) with (content s1 (bs ++ bn)) in Hr.
    rewrite Hr in Hs. injection Hs as ->.
    eexists s1, s2, _, n1. split; [done|]. split; [done|]. split; [done|]. split; [exact E3|]. split; [done|].
    split; [by eapply fs_ok_same; [|exact H1]|]. split; [done|]. split; [done|]. split; [done|]. split; [|done].
    intros ino n2 Hi Hne. rewrite Hin by done. by rewrite decide_False.
Qed.

Lemma fwrite_fread_roundtrip_witness : exists (s s1 s2 s3 : fs (sd memcard)) x l n1, fwrite 0 [104; 105] 2 s = Ok (tt, s1) /\ regs2 s1 = 2 /\
  fseek 0 (offset x) s1 = Ok (tt, s2) /\ fread 0 2 s2 = Ok ([104; 105], s3) /\ regs2 s3 = 2 /\
  fs_ok s3 /\ file_ok s1 n1 [1] /\ free_list s1 l /\ splice (content s [1]) (offset x) [104; 105] = Some (content s1 [1]) /\
  (forall ino n2, 0 <= ino < INODE_ITEM_NUM -> ino <> fd_ino x -> inode_at s1 ino n2 <-> inode_at s ino n2) /\
  forall b, is_block b -> b ∉ [1] -> sector s1 (data_addr b) = sector s (data_addr b).
Proof.
  destruct example_open as (s & x & n & l & H & Hx & Hacc & Ho & Hsz & Hn & Hf & Hfl).
  edestruct (fwrite_fread_roundtrip s 0 x n [] [1] l [104; 105]) as (s1 & s2 & s3 & n1 & Hall).
  - exact H.
  - exact Hx.
  - exact Hacc.
  - exact Hn.
  - exact Hf.
  - rewrite Ho. cbn. lia.
  - rewrite Ho, Hsz. lia.
  - repeat constructor; unfold is_u8; lia.
  - exact Hfl.
  - cbn. lia.
  - rewrite Ho. cbn. lia.
  - rewrite Ho. cbn. lia.
  - exists s, s1, s2, s3, x, l, n1. exact Hall.
Defined.

(** [fopen] of a file takes the next free entry of the table of open files, and stores in it not
    the number of the inode but its remainder modulo 8, the place of the inode in its sector: a file
    whose inode is beyond the first sector is opened as another one. *)
Theorem fopen_keeps_remainder {D} `{!SdCard D} (s : fs D) (a x : list Z) (ino : Z) (n : inode_t) (mode i : Z) (free : list Z) :
  fs_ok s -> dir_ok (current_dir s) -> bytes_ok a -> cstr a = Some x -> dir_lookup (current_dir s) x = Some ino -> ino <> 0 ->
  inode_at s ino n -> type n = FILE_NORMAL -> slist_rep (fd_array_slist s) FD_ARRAY_SLIST_SIZE (i :: free) ->
  length (fd_array s) = 64%nat -> 1 <= i <= 64 ->
  exists s' y, fopen a mode s = Ok (tt, s') /\ regs2 s' = i - 1 /\ (fd_array s').[i - 1] = Some y /\
    access y = u32 mode /\ fd_size y = size n /\ offset y = 0 /\ fd_ino y = ino mod 8 /\ (8 <= ino -> fd_ino y <> ino) /\
    slist_rep (fd_array_slist s') FD_ARRAY_SLIST_SIZE free.
Proof.
  intros H Hd Ha Hx Hl H0 Hn Hty Hrep Hlen Hi. destruct (fopen_ok s a x ino n mode i free H Hd Ha Hx Hl H0 Hn Hty Hrep Hlen Hi) as (l & Hl' & E).
  eexists. exists (Fd (ino mod 8) (u32 mode) (size n) 0). split; [exact E|]. split; [done|].
  split; [cbn; rewrite aget_insert by lia; by rewrite decide_True by lia|]. do 4 (split; [done|]). split; [cbn; lia|done].
Qed.

Lemma fopen_keeps_remainder_witness : exists (s s' : fs (sd memcard)) n y, fopen name_f 1 s = Ok (tt, s') /\ regs2 s' = 1 - 1 /\
  (fd_array s').[1 - 1] = Some y /\ access y = u32 1 /\ fd_size y = size n /\ offset y = 0 /\ fd_ino y = 1 mod 8 /\
  (8 <= 1 -> fd_ino y <> 1) /\ slist_rep (fd_array_slist s') FD_ARRAY_SLIST_SIZE (range 2 63).
Proof.
  destruct example_file as (s & n & H & Hd & Hl & Hn & Hty & Hrep & Hlen & _). exists s.
  edestruct (fopen_keeps_remainder s name_f [102] 1 n 1 1 (range 2 63)) as (s' & y & Hall).
  - exact H.
  - exact Hd.
  - apply name_f_bytes.
  - reflexivity.
  - exact Hl.
  - discriminate.
  - exact Hn.
  - exact Hty.
  - exact Hrep.
  - exact Hlen.
  - lia.
  - exists s', n, y. exact Hall.
Defined.

(** An operation that ends: it returns, or it reaches an access outside of an array, where C says nothing. It does not loop
    for ever, and it does not panic (which is to loop for ever too). *)
Definition ends {A} (r : result A) : Prop := match r with OutOfFuel | Panic _ => False | Ok _ | Fault => True end.

(** Reading or writing [n] bytes through the descriptor [fd] ends, or panics because it goes beyond the last byte a file can have. *)
Definition access_ends {D A} (s : fs D) (fd n : Z) (r : result A) : Prop :=
  match r with
  | Ok _ | Fault => True
  | OutOfFuel => False
  | Panic msg => msg = "Wrong seg." /\ exists x, (fd_array s).[fd] = Some x /\ FILE_LIMIT < offset x + n
  end.

(** C20. Every operation of the file system ends, in every state and for all arguments, however the card, the maps and the
    inodes look: the loops never run out of the fuel their callers give them, and no operation panics, but for one case. [fread]
    and [fwrite] panic with "Wrong seg.", and then only when the bytes asked for go beyond the 1082201088 that
    the pointers of an inode reach. *)
Theorem file_system_terminates {D} `{!SdCard D} (s : fs D) (Hcard : card_ok (disk s)) (Hfds : Forall (fun x => is_u32 (offset x)) (fd_array s)) :
  (forall b inode d, ends (mkfs b inode d s)) /\ (forall b inode d, ends (init_file_system b inode d s)) /\
  ends (mount s) /\ ends (statfs s) /\ ends (ls s) /\
  (forall after a, ends (touch after a s)) /\ (forall after d a, ends (mkdir after d a s)) /\
  (forall a, ends (rmdir a s)) /\ (forall a, ends (cd a s)) /\
  (forall a mode, ends (fopen a mode s)) /\ (forall fd, ends (fclose fd s)) /\ (forall fd o, ends (fseek fd o s)) /\
  (forall fd n, is_u32 n -> access_ends s fd n (fread fd n s)) /\
  (forall fd buf n, is_u32 n -> access_ends s fd n (fwrite fd buf n s)).
Proof.
  assert (Ht : forall A (m : F D A), total (HB := False) m -> ends (m s)).
  { intros A m Hm. specialize (Hm s I). unfold ends. by destruct (m s) as [[]| |?|]; [| |destruct Hm|]. }
  assert (Hx : forall fd n x, fd_is fd x s -> 0 <= offset x /\ ((exists y, (fd_array s).[fd] = Some y /\ FILE_LIMIT < offset y + n) \/ offset x + n <= FILE_LIMIT)).
  { intros fd n x Hx. split; [by apply (Forall_aget _ _ _ _ Hfds) in Hx as []|]. destruct (Z.le_gt_cases (offset x + n) FILE_LIMIT); [by right|left; eauto with lia]. }
  assert (Ha : forall A fd n (r : result (A * fs D)), match r with Ok _ => True | OutOfFuel => False
    | Panic msg => (exists x, (fd_array s).[fd] = Some x /\ FILE_LIMIT < offset x + n) /\ msg = "Wrong seg." | Fault => True end -> access_ends s fd n r).
  { intros A fd n r. unfold access_ends. destruct r; tauto. }
  split_and!; try solve [intros; apply Ht;
    eauto using total_mkfs, total_init_file_system, total_mount, total_statfs, total_ls, total_touch, total_mkdir, total_rmdir,
      total_cd, total_fopen, total_fclose, total_fseek].
  - intros fd n Hn. apply Ha. pose proof (fread_total (HB := exists x, (fd_array s).[fd] = Some x /\ FILE_LIMIT < offset x + n) fd n Hn s (Hx fd n)) as Hr.
    by destruct (fread fd n s) as [[]| | |].
  - intros fd buf n Hn. apply Ha.
    pose proof (fwrite_total (HB := exists x, (fd_array s).[fd] = Some x /\ FILE_LIMIT < offset x + n) fd buf n Hn s (conj Hcard (Hx fd n))) as Hr.
    by destruct (fwrite fd buf n s) as [[]| | |].
Qed.

(** The case there is: a descriptor moved by [fseek] beyond the limit *)
Definition far_fs : fs (sd memcard) := set_fd_array [Fd 0 O_RDWR 0 0x50000000] zero_fs.

Lemma fread_beyond_limit_panics : fread 0 512 far_fs = Panic "Wrong seg.".
Proof. vm_compute. reflexivity. Qed.

Lemma file_system_terminates_witness : access_ends far_fs 0 512 (fread 0 512 far_fs) /\ access_ends far_fs 0 1 (fwrite 0 [1] 1 far_fs) /\
  ends (ls far_fs).
Proof.
  destruct (file_system_terminates far_fs empty_card_ok) as (_ & _ & _ & _ & Hl & _ & _ & _ & _ & _ & _ & _ & Hr & Hw).
  - repeat constructor. unfold far_fs. cbn. lia.
  - split; [apply Hr|split; [apply Hw|exact Hl]]; split; (discriminate || reflexivity).
Defined.

(** C21. The allocators: [iarray_alloc] takes the least free inode, counting it, or returns -1 and
    changes nothing if there is none, and [iarray_free] of what it took restores the map and the
    count; [darray_alloc] takes the first free block from the sector of the map in memory on, marks
    just that block, on the card too, or returns -1 if there is none there. *)
Theorem allocators_take_first_free {D} `{!SdCard D} (s : fs D) (l : list Z) : fs_ok s -> free_list s l ->
  ((exists ino s' s'', iarray_alloc s = Ok (ino, s') /\ 0 <= ino < INODE_ITEM_NUM /\ mbit (imap s) ino = false /\
      (forall k, 0 <= k < ino -> mbit (imap s) k = true) /\ fs_ok s' /\
      (forall k, 0 <= k -> mbit (imap s') k = if decide (k = ino) then true else mbit (imap s) k) /\
      inode_used (super_block s') = u32 (inode_used (super_block s) + 1) /\
      iarray_free ino s' = Ok (tt, s'') /\ fs_ok s'' /\ imap s'' = imap s /\ super_block s'' = super_block s) \/
    (iarray_alloc s = Ok (-1, s) /\ forall k, 0 <= k < INODE_ITEM_NUM -> mbit (imap s) k = true)) /\
  exists b s', darray_alloc s = Ok (b, s') /\ fs_ok s' /\
    match l with
    | [] => b = -1 /\ disk s' = disk s
    | b0 :: l => b = b0 /\ is_block b /\ block_used s b = false /\ free_list s' l /\
        data_used (super_block s') = u32 (data_used (super_block s) + 1) /\
        forall b', is_block b' -> block_used s' b' = if decide (b' = b) then true else block_used s b'
    end.
Proof.
  intros H Hfl. split.
  - destruct (iarray_alloc_spec s (ok_imap _ H)) as [[E Hall]|(ino & m & Hi & Hif & Hleast & Hm & Hmb & E)]; [by right|left].
    assert (H1 : fs_ok (with_imap m 1 s)) by by apply fs_ok_with_imap.
    destruct (iarray_free_spec (with_imap m 1 s) ino (ok_imap _ H1) Hi) as (m' & Hm' & Hmb' & E').
    assert (Em : m' = imap s).
    { apply map_ext; [done|apply (ok_imap _ H)|]. intros k Hk. rewrite Hmb' by lia. change (imap (with_imap m 1 s)) with m. rewrite Hmb by lia.
      case_decide; [by subst|done]. }
    exists ino, (with_imap m 1 s), (with_imap m' (-1) (with_imap m 1 s)).
    unfold INODE_ITEM_NUM. split_and!; try done; try lia.
    + by apply fs_ok_with_imap.
    + pose proof (ok_super_block _ H) as Hw. destruct (super_block s) as [v1 v2 v3 v4 v5 v6 v7 v8 v9 v10 v11] eqn:Es.
      cbn [super_block with_imap put_sector set_disk set_super_block set_imap]. rewrite Es. unfold set_inode_used. cbn.
      assert (Ev : is_u32 v10) by apply Hw. f_equal. unfold u32, is_u32 in *. lia.
  - pose proof (darray_alloc_spec s l H Hfl) as Hd. destruct l as [|b l].
    + destruct (darray_alloc_loop_spec (Z.to_nat (257 - smap_index s)) s [] H Hfl (le_n _)) as (i & m & E & Hok).
      exists (-1). eexists. split; [exact E|]. split; [exact Hok|]. by split.
    + destruct Hd as (s' & E & H' & _ & Hb & Hbf & Hfl' & Esb & Hu). exists b, s'. split_and!; try done. by rewrite Esb.
Qed.

Lemma allocators_take_first_free_witness : exists (s : fs (sd memcard)) b s', darray_alloc s = Ok (b, s') /\ b = 1 /\
  block_used s b = false /\ block_used s' b = true.
Proof.
  destruct example_fresh as (s & Hs & _). pose proof (fresh_free _ Hs) as Hfl. rewrite seqZ_cons in Hfl by lia.
  destruct (allocators_take_first_free s _ (fresh_ok _ Hs) Hfl) as [_ (b & s' & E & _ & -> & Hb & Hbf & _ & _ & Hu)].
  exists s, 1, s'. split; [exact E|]. split; [reflexivity|]. split; [exact Hbf|]. by rewrite Hu, decide_True by done.
Defined.

(** C19. [rmdir] undoes [mkdir]: making a directory and removing it leaves the maps of inodes and of
    blocks, the counts of the super block and every search in the current directory as they were. *)
Theorem mkdir_rmdir_restores {D} `{!SdCard D} (s : fs D) (after : Z) (junk : dir_t) (a x : list Z) (b : Z) (l : list Z) :
  fs_ok s -> dir_ok (current_dir s) -> wf dir_l junk -> bytes_ok a -> cstr a = Some x -> (length x <= 26)%nat ->
  dir_lookup (current_dir s) x = None -> free_list s (b :: l) ->
  (exists e, e ∈ map (current_dir s) /\ valid e = 0) -> (exists k, 0 <= k < INODE_ITEM_NUM /\ mbit (imap s) k = false) ->
  exists s1 s2 ino, mkdir after junk a s = Ok (tt, s1) /\ dir_lookup (current_dir s1) x = Some ino /\
    rmdir a s1 = Ok (tt, s2) /\ fs_ok s2 /\ current_dir_pointer s2 = current_dir_pointer s /\
    imap s2 = imap s /\ super_block s2 = super_block s /\
    (forall b', is_block b' -> block_used s2 b' = block_used s b') /\
    forall y, dir_lookup (current_dir s2) y = dir_lookup (current_dir s) y.
Proof.
  intros H Hd Hj Ha Hx Hl Hno Hfl Hfree Hk.
  destruct (mkdir_ok s after junk a x b l H Hd Hj Ha Hx Hl Hno Hfl Hfree Hk) as (s1 & i & e0 & nm & ino & n & E1 & H1 & He0 & Hv0 & Hnm &
    Ecd & Hd1 & Ep1 & Hino & Hif & Him & Esb & Hn & Hty & Hp & Hb & Hbf & _ & Hu & Hemp).
  set (e := Dmap 1 nm ino) in *.
  assert (Hent : entry (map (current_dir s1)) x = Some (i, e)).
  { rewrite Ecd. apply entry_insert_eq; [by eapply lookup_lt_Some| |done]. unfold dir_lookup in Hno. by destruct (entry (map (current_dir s)) x). }
  assert (Hne : data_addr b <> current_dir_pointer s1).
  { rewrite Ep1. destruct (ok_dir_block _ H) as (b0 & Hb0 & -> & Hu0). unfold is_block in Hb, Hb0. intros E. assert (b0 = b) as -> by addr. congruence. }
  destruct (rmdir_ok s1 a x i e ino n b H1 Hd1 Ha Hx Hent eq_refl Hn Hty Hp Hb Hne (empty_entries _ _ _ Hemp))
    as (s2 & E2 & H2 & Ecd2 & Ep2 & Hm2 & Him2 & Esb2 & Hu2).
  exists s1, s2, ino. split; [done|]. split; [unfold dir_lookup; by rewrite Hent|]. split; [done|]. split; [done|]. split; [congruence|].
  split. { apply map_ext; [done|apply (ok_imap _ H)|]. intros k Hk'. rewrite Him2, Him by lia. case_decide; [by subst|done]. }
  split. { rewrite Esb2, Esb. pose proof (ok_super_block _ H) as Hw. destruct (super_block s) as [v1 v2 v3 v4 v5 v6 v7 v8 v9 v10 v11].
    assert (Ev : is_u32 v9 /\ is_u32 v10) by (split; apply Hw). unfold set_data_used, set_inode_used. cbn.
    f_equal; unfold u32, is_u32 in *; lia. }
  split. { intros b' Hb'. rewrite Hu2, Hu by done. case_decide; [by subst|done]. }
  intros y. rewrite Ecd2, Ecd. unfold dir_lookup. cbn [map add_entry set_map]. rewrite list_insert_insert_eq.
  by rewrite (entry_insert_ne _ _ e0); [|done|intros []|intros []].
Qed.

Lemma mkdir_rmdir_restores_witness : exists (s s1 s2 : fs (sd memcard)) ino, mkdir 0 zero_dir name_f s = Ok (tt, s1) /\
  dir_lookup (current_dir s1) [102] = Some ino /\ rmdir name_f s1 = Ok (tt, s2) /\ fs_ok s2 /\
  current_dir_pointer s2 = current_dir_pointer s /\ imap s2 = imap s /\ super_block s2 = super_block s /\
  (forall b', is_block b' -> block_used s2 b' = block_used s b') /\
  forall y, dir_lookup (current_dir s2) y = dir_lookup (current_dir s) y.
Proof.
  destruct example_fresh as (s & Hs & _). pose proof (fresh_free _ Hs) as Hfl. rewrite seqZ_cons in Hfl by lia.
  exists s. eapply (mkdir_rmdir_restores s 0 zero_dir name_f [102] 1).
  - apply Hs.
  - apply root_dir_ok, Hs.
  - apply zero_dir_wf.
  - apply name_f_bytes.
  - reflexivity.
  - cbn. lia.
  - apply root_dir_lookup, Hs.
  - exact Hfl.
  - apply root_dir_free, Hs.
  - by apply fresh_inode_free.
Defined.
