(* ===== verification/Mailbox.v ===== *)
(** Mailboxes, [libs/mailbox.c]: bounded buffers through which tasks send each other bytes, protected by
    one lock, with two conditions to wait on when a mailbox is full or empty.

    The functions hold the lock from their start to their end but for [condition_wait], which gives
    it up; what a task does while it holds the lock is one function here. [send_loop] and
    [recv_loop] run until the last byte or until the task has to wait; they return what is left to
    do, with which the loop is entered again when the task has been woken and has the lock. The
    tasks that use a mailbox take turns in [step], in any order.

    A name is given by its characters; the mailboxes keep the pointer. *)

From S2P Require Import Prelude CString.

#[local] Ltac Zify.zify_post_hook ::= Z.to_euclidean_division_equations.

Definition MAX_BOX_NUM : Z := 8.
Definition MAX_BUFFER_SIZE : Z := 256.

Record mailbox_t := Mailbox { valid : Z; mname : list Z; user_num : Z; data_buffer : list Z; mhead : Z; mtail : Z }.

(** ** The code *)

Definition set_ring (data : list Z) (h t : Z) (m : mailbox_t) : mailbox_t := Mailbox (valid m) (mname m) (user_num m) data h t.
Definition set_user_num (v : Z) (m : mailbox_t) : mailbox_t := Mailbox (valid m) (mname m) v (data_buffer m) (mhead m) (mtail m).
Definition set_valid (v : Z) (m : mailbox_t) : mailbox_t := Mailbox v (mname m) (user_num m) (data_buffer m) (mhead m) (mtail m).

Definition mbox_init (mboxs : list mailbox_t) : list mailbox_t := set_valid 0 <$> mboxs.

(** The first loop of [mbox_open]: the mailbox of this name, from index [i] *)
Fixpoint find_name (mboxs : list mailbox_t) (name : list Z) (i : Z) : option (option Z) :=
  match mboxs with
  | [] => Some None
  | m :: mboxs =>
      if valid m =? 0 then find_name mboxs name (i + 1)
      else v ← strcmp (mname m) name; if v =? 0 then Some (Some i) else find_name mboxs name (i + 1)
  end.

(** The second loop: the first mailbox that is not in use *)
Fixpoint find_invalid (mboxs : list mailbox_t) (i : Z) : option Z :=
  match mboxs with
  | [] => None
  | m :: mboxs => if valid m =? 0 then Some i else find_invalid mboxs (i + 1)
  end.

(** The new mailboxes and the index of the one opened, [None] standing for [NULL] *)
Definition mbox_open (name : list Z) (mboxs : list mailbox_t) : option (option Z * list mailbox_t) :=
  r ← find_name mboxs name 0;
  match r with
  | Some i =>
      m ← mboxs.[i];
      mboxs ← aset mboxs i (set_user_num (s32 (user_num m + 1)) m);
      Some (Some i, mboxs)
  | None =>
      match find_invalid mboxs 0 with
      | None => Some (None, mboxs)
      | Some i =>
          m ← mboxs.[i];
          mboxs ← aset mboxs i (Mailbox 1 name 1 (data_buffer m) 0 0);
          Some (Some i, mboxs)
      end
  end.

Definition mbox_close (m : mailbox_t) : mailbox_t :=
  let m := set_user_num (s32 (user_num m - 1)) m in
  if user_num m =? 0 then set_valid 0 m else m.

(** The bytes [msg] still to send: [None] is a write outside the buffer, a rest that is not empty waits
    for [full]. Every byte put signals [empty]. *)
Fixpoint send_loop (msg : list Z) (m : mailbox_t) : option (mailbox_t * list Z) :=
  match msg with
  | [] => Some (m, [])
  | b :: rest =>
      if mhead m =? s32 (mtail m + 1) then Some (m, msg)
      else
        data ← aset (data_buffer m) (mtail m) b;
        send_loop rest (set_ring data (mhead m) (Z.rem (s32 (mtail m + 1)) MAX_BUFFER_SIZE) m)
  end.

(** The number of bytes still to receive and those received: a number that is not 0 waits for [empty].
    Every byte taken signals [full]. *)
Fixpoint recv_loop (n : nat) (m : mailbox_t) (got : list Z) : option (mailbox_t * nat * list Z) :=
  match n with
  | O => Some (m, O, got)
  | S n' =>
      if mhead m =? mtail m then Some (m, n, got)
      else
        b ← (data_buffer m).[mhead m];
        recv_loop n' (set_ring (data_buffer m) (Z.rem (s32 (mhead m + 1)) MAX_BUFFER_SIZE) (mtail m) m) (got ++ [b])
  end.

(** ** Tasks taking turns

    A sender has the bytes left to send, a receiver the number of bytes left and those it has. [sent] and
    [received] are what has gone through the mailbox. *)

Record system := System {
  box : mailbox_t;
  senders : list (list Z); full_waiters : list (list Z);
  receivers : list (nat * list Z); empty_waiters : list (nat * list Z);
  sent : list Z; received : list Z
}.

(** [n] times [condition_signal]: each wakes one waiter, if there is one. *)
Inductive signals {A} : nat -> list A -> list A -> list A -> list A -> Prop :=
  | signals_done w r : signals 0 w r w r
  | signals_none n r w' r' : signals n [] r w' r' -> signals (S n) [] r w' r'
  | signals_wake n w1 x w2 r w' r' : signals n (w1 ++ w2) (x :: r) w' r' -> signals (S n) (w1 ++ x :: w2) r w' r'.

Inductive step : system -> system -> Prop :=
  | step_call_send m sw r rw st rc s msg :
      step (System m s sw r rw st rc) (System m (msg :: s) sw r rw st rc)
  | step_call_recv m s sw r rw st rc n :
      step (System m s sw r rw st rc) (System m s sw ((n, []) :: r) rw st rc)
  | step_send m m' s1 msg s2 sw r rw st rc rest put r' rw' :
      send_loop msg m = Some (m', rest) -> msg = put ++ rest -> signals (length put) rw r rw' r' ->
      step (System m (s1 ++ msg :: s2) sw r rw st rc)
           (System m' (s1 ++ s2) (match rest with [] => sw | _ => rest :: sw end) r' rw' (st ++ put) rc)
  | step_recv m m' s sw r1 n got r2 rw st rc left new s' sw' :
      recv_loop n m got = Some (m', left, got ++ new) -> signals (length new) sw s sw' s' ->
      step (System m s sw (r1 ++ (n, got) :: r2) rw st rc)
           (System m' s' sw' (r1 ++ r2) (match left with O => rw | _ => (left, got ++ new) :: rw end) st (rc ++ new)).

(** A mailbox as [mbox_open] sets it up, with no task using it *)
Definition initial (c : system) : Prop :=
  length (data_buffer (box c)) = 256%nat /\ mhead (box c) = 0 /\ mtail (box c) = 0 /\
  senders c = [] /\ full_waiters c = [] /\ receivers c = [] /\ empty_waiters c = [] /\ sent c = [] /\ received c = [].

(** ** Specification: the bytes in the ring *)

Definition ring_length (m : mailbox_t) : nat := Z.to_nat ((mtail m - mhead m) mod 256).

Definition ring_at (m : mailbox_t) (k : nat) : Z := data_buffer m !!! Z.to_nat ((mhead m + Z.of_nat k) mod 256).

Definition contents (m : mailbox_t) : list Z := ring_at m <$> seq 0 (ring_length m).

Definition ring_ok (m : mailbox_t) : Prop :=
  length (data_buffer m) = 256%nat /\ 0 <= mhead m < 256 /\ 0 <= mtail m < 256.

(** ** Lemmas: the ring *)

Lemma ring_length_lt m : (ring_length m < 256)%nat.
Proof. unfold ring_length. lia. Qed.

Lemma contents_length m : length (contents m) = ring_length m.
Proof. unfold contents. by rewrite length_fmap, length_seq. Qed.

(** A byte is put into a ring that is not full ... *)
Lemma ring_put m b : ring_ok m -> (mhead m =? s32 (mtail m + 1)) = false ->
  exists data, aset (data_buffer m) (mtail m) b = Some data /\
    let m' := set_ring data (mhead m) (Z.rem (s32 (mtail m + 1)) MAX_BUFFER_SIZE) m in
    ring_ok m' /\ ring_length m' = ((ring_length m + 1) mod 256)%nat /\
    ((ring_length m < 255)%nat -> contents m' = contents m ++ [b]).
Proof.
  intros (Hl & Hh & Ht) E. apply Z.eqb_neq in E. rewrite aset_Some by lia. eexists. split; [done|]. cbv zeta.
  assert (Et : Z.rem (s32 (mtail m + 1)) MAX_BUFFER_SIZE = (mtail m + 1) mod 256).
  { unfold MAX_BUFFER_SIZE. rewrite s32_id by (unfold is_s32; lia). apply Z.rem_mod_nonneg; lia. }
  rewrite Et. set (m' := set_ring _ _ _ m).
  assert (Hr : ring_length m' = ((ring_length m + 1) mod 256)%nat) by (unfold ring_length, m'; cbn [mhead mtail set_ring]; apply Nat2Z.inj; rewrite Nat2Z.inj_mod; lia).
  split; [|split; [done|]].
  - unfold ring_ok, m'. cbn [data_buffer mhead mtail set_ring]. rewrite length_insert. lia.
  - intros Hlt. unfold contents. rewrite Hr. rewrite Nat.mod_small, Nat.add_1_r by lia.
    rewrite seq_S, fmap_app. cbn [fmap list_fmap]. f_equal.
    + apply list_fmap_ext. intros i k Hk. apply lookup_seq in Hk as [-> Hk]. cbn [Nat.add] in *. unfold ring_at, m'. cbn [data_buffer mhead set_ring].
      apply list_lookup_total_insert_ne. unfold ring_length in Hk. lia.
    + f_equal. unfold ring_at, m'. cbn [data_buffer mhead set_ring].
      cbn [Nat.add].
      replace (Z.to_nat ((mhead m + Z.of_nat (ring_length m)) mod 256)) with (Z.to_nat (mtail m)) by (unfold ring_length; lia).
      apply list_lookup_total_insert_eq. lia.
Qed.

(** ... and taken from one that is not empty. *)
Lemma ring_get m : ring_ok m -> (mhead m =? mtail m) = false ->
  exists b, (data_buffer m).[mhead m] = Some b /\
    let m' := set_ring (data_buffer m) (Z.rem (s32 (mhead m + 1)) MAX_BUFFER_SIZE) (mtail m) m in
    ring_ok m' /\ ring_length m = S (ring_length m') /\ contents m = b :: contents m'.
Proof.
  intros (Hl & Hh & Ht) E. apply Z.eqb_neq in E. destruct (aget_is_Some (data_buffer m) (mhead m)) as [b Hb]; [lia|].
  exists b. split; [done|]. cbv zeta.
  assert (Et : Z.rem (s32 (mhead m + 1)) MAX_BUFFER_SIZE = (mhead m + 1) mod 256).
  { unfold MAX_BUFFER_SIZE. rewrite s32_id by (unfold is_s32; lia). apply Z.rem_mod_nonneg; lia. }
  rewrite Et. set (m' := set_ring _ _ _ m).
  assert (Hr : ring_length m = S (ring_length m')) by (unfold ring_length, m'; cbn [mhead mtail set_ring]; lia).
  split; [|split; [done|]].
  { unfold ring_ok, m'. cbn [data_buffer mhead mtail set_ring]. lia. }
  unfold contents. rewrite Hr. cbn [seq fmap list_fmap]. f_equal.
  - unfold ring_at. replace ((mhead m + Z.of_nat 0) mod 256) with (mhead m) by lia. unfold aget in Hb. rewrite decide_True in Hb by lia.
    by apply list_lookup_total_correct.
  - rewrite <- fmap_S_seq, <- list_fmap_compose. apply list_fmap_ext. intros i k _. cbn [compose]. unfold ring_at, m'. cbn [data_buffer mhead set_ring].
    do 2 f_equal. lia.
Qed.

Lemma send_loop_spec msg : forall m, ring_ok m -> exists m' put rest, send_loop msg m = Some (m', rest) /\ msg = put ++ rest /\ ring_ok m' /\
  ring_length m' = ((ring_length m + length put) mod 256)%nat /\
  ((ring_length m + length put < 256)%nat -> contents m' = contents m ++ put) /\
  (rest <> [] -> ring_length m' = 255%nat /\ mhead m <> 0).
Proof.
  induction msg as [|b msg IH]; intros m Hm; cbn [send_loop].
  { exists m, [], []. pose proof (ring_length_lt m). cbn [length]. rewrite Nat.add_0_r. split_and!; try done; [by rewrite Nat.mod_small|by rewrite app_nil_r]. }
  destruct (mhead m =? s32 (mtail m + 1)) eqn:E.
  { exists m, [], (b :: msg). pose proof (ring_length_lt m). cbn [length]. rewrite Nat.add_0_r. split_and!; try done.
    - by rewrite Nat.mod_small.
    - by rewrite app_nil_r.
    - intros _. destruct Hm as (? & ? & ?). rewrite s32_id in E by (unfold is_s32; lia). unfold ring_length. lia. }
  destruct (ring_put m b Hm E) as (data & -> & Hm1 & Hr & Hc). cbn [mbind option_bind]. set (m1 := set_ring _ _ _ m) in *.
  destruct (IH m1 Hm1) as (m' & put & rest & -> & -> & Hm' & Hr' & Hc' & Hw). exists m', (b :: put), rest. pose proof (ring_length_lt m).
  split_and!; [done|done|done| | |done].
  - rewrite Hr', Hr, Nat.Div0.add_mod_idemp_l. cbn [length]. f_equal. lia.
  - cbn [length]. intros Hlt. rewrite Hc' by (rewrite Hr, Nat.mod_small by lia; lia). rewrite Hc by lia. by rewrite <- app_assoc.
Qed.

Lemma recv_loop_spec n : forall m got, ring_ok m -> exists m' left new, recv_loop n m got = Some (m', left, got ++ new) /\ ring_ok m' /\
  n = (left + length new)%nat /\ ring_length m = (ring_length m' + length new)%nat /\ contents m = new ++ contents m' /\
  (left <> O -> ring_length m' = O).
Proof.
  induction n as [|n IH]; intros m got Hm; cbn [recv_loop].
  { exists m, O, []. cbn [length app]. rewrite app_nil_r, Nat.add_0_r. by split_and!. }
  destruct (mhead m =? mtail m) eqn:E.
  { exists m, (S n), []. cbn [length]. rewrite app_nil_r, !Nat.add_0_r. split_and!; try done. intros _. destruct Hm as (? & ? & ?). unfold ring_length. lia. }
  destruct (ring_get m Hm E) as (b & -> & Hm1 & Hr & Hc). cbn [mbind option_bind]. set (m1 := set_ring _ _ _ m) in *.
  destruct (IH m1 (got ++ [b]) Hm1) as (m' & left & new & E' & Hm' & Hn & Hr' & Hc' & Hw). exists m', left, (b :: new).
  rewrite E', <- app_assoc. cbn [length app]. split_and!; [done|done|lia|lia| |done]. rewrite Hc, Hc'. done.
Qed.

(** ** Lemmas: waiting and waking *)

Section waking.
Context {A : Type} (P : A -> Prop) `{forall x, Decision (P x)}.

(** How many of the tasks that are not waiting have something left to do *)
Definition busy (r : list A) : nat := length (filter P r).

Lemma busy_app r1 r2 : busy (r1 ++ r2) = (busy r1 + busy r2)%nat.
Proof. unfold busy. by rewrite filter_app, length_app. Qed.

Lemma busy_cons x r : busy (x :: r) = ((if decide (P x) then 1 else 0) + busy r)%nat.
Proof. unfold busy. rewrite filter_cons. by case_decide. Qed.

Lemma busy_split r1 x r2 : busy (r1 ++ x :: r2) = ((if decide (P x) then 1 else 0) + busy (r1 ++ r2))%nat.
Proof. rewrite !busy_app, busy_cons. lia. Qed.

Lemma busy_elem r : (0 < busy r)%nat -> exists x, x ∈ r /\ P x.
Proof.
  unfold busy. destruct (filter P r) as [|x l] eqn:E; [cbn; lia|]. intros _. exists x.
  assert (Hx : x ∈ filter P r) by (rewrite E; apply list_elem_of_here). by apply list_elem_of_filter in Hx as [].
Qed.

Lemma signals_busy n w r w' r' : signals n w r w' r' -> Forall P w ->
  Forall P w' /\ (w' <> [] -> busy r' = (busy r + n)%nat /\ w <> []).
Proof.
  induction 1 as [w r|n r w' r' _ IH|n w1 x w2 r w' r' _ IH]; intros Hw.
  - split; [done|]. intros. split; [lia|done].
  - destruct (IH Hw) as [? H1]. split; [done|]. intros Hn. by destruct (H1 Hn).
  - apply Forall_app in Hw as [Hw1 Hw2]. apply Forall_cons in Hw2 as [Hx Hw2]. destruct IH as [? H1]; [by apply Forall_app|].
    split; [done|]. intros Hn. destruct (H1 Hn) as [Hb _]. rewrite busy_cons, decide_True in Hb by done. split; [lia|]. by destruct w1.
Qed.
End waking.

(** ** Lemmas: the invariant of the tasks that use a mailbox *)

Definition sending (msg : list Z) : Prop := msg <> [].

Definition receiving (x : nat * list Z) : Prop := fst x <> O.

(** Nothing has been lost as long as no more bytes are on the way than the ring holds; then, while a task
    waits, there are at least as many others on their way as could be served. *)
Record system_ok (c : system) : Prop := {
  ok_ring : ring_ok (box c);
  ok_full : Forall sending (full_waiters c);
  ok_empty : Forall receiving (empty_waiters c);
  ok_count : exists losses, length (sent c) = (length (received c) + ring_length (box c) + 256 * losses)%nat;
  ok_fifo : length (sent c) = (length (received c) + ring_length (box c))%nat -> sent c = received c ++ contents (box c);
  ok_wake_receiver : length (sent c) = (length (received c) + ring_length (box c))%nat -> empty_waiters c <> [] ->
    (ring_length (box c) <= busy receiving (receivers c))%nat;
  ok_wake_sender : length (sent c) = (length (received c) + ring_length (box c))%nat -> full_waiters c <> [] ->
    (255 - ring_length (box c) <= busy sending (senders c))%nat
}.

Lemma initial_ok c : initial c -> system_ok c.
Proof.
  destruct c as [m s sw r rw st rc]. unfold initial. cbn [box senders full_waiters receivers empty_waiters sent received].
  intros (Hl & Hh & Ht & -> & -> & -> & -> & -> & ->).
  assert (Hr : ring_length m = O) by (unfold ring_length; rewrite Hh, Ht; done).
  split; cbn [box senders full_waiters receivers empty_waiters sent received]; rewrite ?Hr; try done.
  - unfold ring_ok. lia.
  - by exists O.
  - intros _. unfold contents. by rewrite Hr.
Qed.

Lemma system_ok_send m m' s1 msg s2 sw r rw st rc rest put r' rw' :
  send_loop msg m = Some (m', rest) -> msg = put ++ rest -> signals (length put) rw r rw' r' ->
  system_ok (System m (s1 ++ msg :: s2) sw r rw st rc) ->
  system_ok (System m' (s1 ++ s2) (match rest with [] => sw | _ => rest :: sw end) r' rw' (st ++ put) rc).
Proof.
  intros Es -> Hsig [Hm Hf He [k Hk] Hq Hr Hs]. cbn [box senders full_waiters receivers empty_waiters sent received] in *.
  destruct (send_loop_spec (put ++ rest) m Hm) as (m1 & put1 & rest1 & Es1 & Ep & Hm' & Hl & Hc & Hw). rewrite Es in Es1.
  injection Es1 as <- <-. apply app_inv_tail in Ep as <-.
  destruct (signals_busy receiving _ _ _ _ _ Hsig He) as [He' Hwr].
  assert (Hle : (ring_length m' <= ring_length m + length put)%nat) by (rewrite Hl; apply Nat.Div0.mod_le).
  assert (Hback : length (st ++ put) = (length rc + ring_length m')%nat ->
    length st = (length rc + ring_length m)%nat /\ ring_length m' = (ring_length m + length put)%nat).
  { rewrite length_app. lia. }
  pose proof (ring_length_lt m') as Hlt.
  split; cbn [box senders full_waiters receivers empty_waiters sent received].
  - done.
  - destruct rest; [done|]. by constructor.
  - done.
  - exists (k + (ring_length m + length put) / 256)%nat. rewrite length_app, Hk, Hl.
    pose proof (Nat.div_mod_eq (ring_length m + length put) 256). lia.
  - intros [H1 H2]%Hback. rewrite (Hq H1), Hc by lia. by rewrite app_assoc.
  - intros [H1 H2]%Hback Hn. destruct (Hwr Hn) as [Hb Hn']. rewrite Hb. specialize (Hr H1 Hn'). lia.
  - intros [H1 H2]%Hback Hn. destruct rest as [|b rest]; [|rewrite (proj1 (Hw ltac:(done))); lia].
    specialize (Hs H1 Hn). rewrite busy_split in Hs. rewrite app_nil_r in Hs. case_decide as Hp; [|lia].
    destruct put; [done|]. cbn [length] in H2. lia.
Qed.

Lemma system_ok_recv m m' s sw r1 n got r2 rw st rc left new s' sw' :
  recv_loop n m got = Some (m', left, got ++ new) -> signals (length new) sw s sw' s' ->
  system_ok (System m s sw (r1 ++ (n, got) :: r2) rw st rc) ->
  system_ok (System m' s' sw' (r1 ++ r2) (match left with O => rw | _ => (left, got ++ new) :: rw end) st (rc ++ new)).
Proof.
  intros Er Hsig [Hm Hf He [k Hk] Hq Hr Hs]. cbn [box senders full_waiters receivers empty_waiters sent received] in *.
  destruct (recv_loop_spec n m got Hm) as (m1 & left1 & new1 & Er1 & Hm' & Hn & Hl & Hc & Hw). rewrite Er in Er1.
  injection Er1 as <- <- En. apply app_inv_head in En as <-.
  destruct (signals_busy sending _ _ _ _ _ Hsig Hf) as [Hf' Hws].
  assert (Hback : length st = (length (rc ++ new) + ring_length m')%nat -> length st = (length rc + ring_length m)%nat).
  { rewrite length_app. lia. }
  split; cbn [box senders full_waiters receivers empty_waiters sent received].
  - done.
  - done.
  - destruct left; [done|]. by constructor.
  - exists k. rewrite length_app. lia.
  - intros H1%Hback. rewrite (Hq H1), Hc. by rewrite app_assoc.
  - intros H1%Hback Hn'. destruct left as [|left]; [|rewrite Hw by done; lia].
    specialize (Hr H1 Hn'). rewrite busy_split in Hr. case_decide as Hp; [|lia]. unfold receiving in Hp. cbn in Hp. lia.
  - intros H1%Hback Hn'. destruct (Hws Hn') as [Hb Hn2]. rewrite Hb. specialize (Hs H1 Hn2). lia.
Qed.

Lemma step_ok c c' : step c c' -> system_ok c -> system_ok c'.
Proof.
  destruct 1 as [m s sw r rw st rc msg|m s sw r rw st rc n|m m' s1 msg s2 sw r rw st rc rest put r' rw' E Ep Hs|m m' s sw r1 n got r2 rw st rc left new s' sw' E Hs].
  - intros [? ? ? ? ? ? Hw]. split; try done. intros H1 H2. specialize (Hw H1 H2). cbn [senders box] in Hw |- *. rewrite busy_cons. lia.
  - intros [? ? ? ? ? Hw ?]. split; try done. intros H1 H2. specialize (Hw H1 H2). cbn [receivers box] in Hw |- *. rewrite busy_cons. lia.
  - by eapply system_ok_send.
  - by eapply system_ok_recv.
Qed.

Lemma reachable_ok c c' : star step c c' -> system_ok c -> system_ok c'.
Proof. induction 1 as [|c c1 c2 Hs _ IH]; [done|]. intros H. by eapply IH, step_ok. Qed.

(** ** Lemmas: opening *)

(** The second test of [mbox_open] finds the first mailbox that is not in use. *)
Lemma find_invalid_spec mboxs i : find_invalid mboxs i = (fun p => i + Z.of_nat (fst p)) <$> list_find (fun m => valid m = 0) mboxs.
Proof.
  revert i. induction mboxs as [|m mboxs IH]; intros i; cbn [find_invalid list_find]; [done|]. destruct (Z.eqb_spec (valid m) 0).
  - rewrite decide_True by done. cbn. f_equal. lia.
  - rewrite decide_False, IH by done. destruct (list_find _ mboxs) as [[k x]|]; cbn; [|done]. f_equal. lia.
Qed.

(** The names of the mailboxes in use are strings. *)
Definition names_ok (mboxs : list mailbox_t) : Prop := Forall (fun m => valid m <> 0 -> bytes_ok (mname m) /\ is_Some (cstr (mname m))) mboxs.

Lemma find_name_spec mboxs name i : names_ok mboxs -> bytes_ok name -> is_Some (cstr name) ->
  find_name mboxs name i = Some ((fun p => i + Z.of_nat (fst p)) <$> list_find (fun m => valid m <> 0 /\ cstr (mname m) = cstr name) mboxs).
Proof.
  intros Hm Hn [y Hy]. revert i. induction mboxs as [|m mboxs IH]; intros i; cbn [find_name list_find]; [done|].
  apply Forall_cons in Hm as [Hm Hms]. specialize (IH Hms).
  assert (Hnext : (valid m <> 0 /\ cstr (mname m) = cstr name -> False) -> find_name mboxs name (i + 1) = Some
    ((fun p => i + Z.of_nat (fst p)) <$> (if decide (valid m <> 0 /\ cstr (mname m) = cstr name) then Some (0%nat, m)
      else prod_map S id <$> list_find (fun m => valid m <> 0 /\ cstr (mname m) = cstr name) mboxs))).
  { intros Hno. rewrite decide_False by done. rewrite IH. f_equal. destruct (list_find _ mboxs) as [[k x]|]; cbn; [|done]. f_equal. lia. }
  destruct (Z.eqb_spec (valid m) 0) as [E|E]; [apply Hnext; tauto|]. destruct (Hm E) as (Hb & x & Hx).
  destruct (strcmp_spec (mname m) name x y Hb Hn Hx Hy) as (v & -> & Hv). cbn [mbind option_bind].
  destruct (Z.eqb_spec v 0) as [E0|E0].
  - rewrite decide_True by (split; [done|]; rewrite Hx, Hy; f_equal; by apply Hv). cbn. do 2 f_equal. lia.
  - apply Hnext. intros [_ Ec]. rewrite Hx, Hy in Ec. injection Ec as ->. tauto.
Qed.

(** ** Theorems *)

(** Opening a name that is in use gives the first mailbox of this name one more user; a new name takes the
    first mailbox not in use, empty and with one user, and without one [NULL] is returned. *)
Theorem mbox_open_spec (name : list Z) (mboxs : list mailbox_t) (Hm : names_ok mboxs) (Hn : bytes_ok name) (Hc : is_Some (cstr name)) :
  mbox_open name mboxs =
    match list_find (fun m => valid m <> 0 /\ cstr (mname m) = cstr name) mboxs with
    | Some (i, m) => Some (Some (Z.of_nat i), <[i := set_user_num (s32 (user_num m + 1)) m]> mboxs)
    | None =>
        match list_find (fun m => valid m = 0) mboxs with
        | Some (i, m) => Some (Some (Z.of_nat i), <[i := Mailbox 1 name 1 (data_buffer m) 0 0]> mboxs)
        | None => Some (None, mboxs)
        end
    end.
Proof.
  unfold mbox_open. rewrite find_name_spec by done. cbn [mbind option_bind].
  destruct (list_find _ mboxs) as [[i m]|] eqn:E; cbn [fmap option_fmap option_map fst].
  - apply list_find_Some in E as (Hi & _). rewrite Z.add_0_l, aget_nat, Hi. cbn [mbind option_bind]. apply lookup_lt_Some in Hi.
    rewrite aset_Some by lia. cbn [mbind option_bind]. by rewrite Nat2Z.id.
  - rewrite find_invalid_spec. destruct (list_find (fun m => valid m = 0) mboxs) as [[i m]|] eqn:E2; cbn [fmap option_fmap option_map fst]; [|done].
    apply list_find_Some in E2 as (Hi & _). rewrite Z.add_0_l, aget_nat, Hi. cbn [mbind option_bind]. apply lookup_lt_Some in Hi.
    rewrite aset_Some by lia. cbn [mbind option_bind]. by rewrite Nat2Z.id.
Qed.

(** The test for a full mailbox misses one case: with the head at 0 and the tail at 255, the next byte
    makes the mailbox look empty. Of 256 bytes sent to a new mailbox none is received. *)
Theorem mailbox_overflows (m : mailbox_t) (msg : list Z) (Hd : length (data_buffer m) = 256%nat) (Hh : mhead m = 0) (Ht : mtail m = 0)
    (Hmsg : length msg = 256%nat) :
  exists m', send_loop msg m = Some (m', []) /\ contents m' = [].
Proof.
  assert (Hm : ring_ok m) by (unfold ring_ok; lia). assert (Hr : ring_length m = O) by (unfold ring_length; rewrite Hh, Ht; done).
  destruct (send_loop_spec msg m Hm) as (m' & put & rest & E & Ep & Hm' & Hl & Hc & Hw). rewrite Hr in Hl. exists m'.
  destruct rest as [|b rest].
  - split; [done|]. rewrite app_nil_r in Ep. subst put. apply length_zero_iff_nil. rewrite contents_length, Hl, Hmsg. done.
  - by destruct (Hw ltac:(done)).
Qed.

(** C11. Whatever tasks send and receive, and in whatever order they take turns: as long as no more than 255
    bytes are on their way, a mailbox is a queue (what has been sent is what has been received
    and then what it holds), and no wake-up is lost (when it holds a byte and a receiver waits, some
    receiver with bytes to take is about to run; when it has room and a sender waits, some sender is). *)
Theorem mailbox_is_queue (c c' : system) (Hc : initial c) (Hs : star step c c')
    (Hload : (length (sent c') <= length (received c') + 255)%nat) :
  sent c' = received c' ++ contents (box c') /\
  (contents (box c') <> [] -> empty_waiters c' <> [] -> exists x, x ∈ receivers c' /\ receiving x) /\
  ((length (contents (box c')) < 255)%nat -> full_waiters c' <> [] -> exists msg, msg ∈ senders c' /\ sending msg).
Proof.
  destruct (reachable_ok c c' Hs (initial_ok c Hc)) as [_ _ _ [losses Hk] Hq Hr Hw].
  assert (Hno : length (sent c') = (length (received c') + ring_length (box c'))%nat) by lia.
  split_and!; [by apply Hq| |].
  - intros Hne Hwait. specialize (Hr Hno Hwait). rewrite <- contents_length in Hr.
    apply (busy_elem receiving). destruct (contents (box c')); [done|]. cbn [length] in Hr. lia.
  - rewrite contents_length. intros Hlt Hwait. specialize (Hw Hno Hwait). apply (busy_elem sending). lia.
Qed.

Definition new_mailbox : mailbox_t := Mailbox 1 [109; 0] 1 (replicate 256 0) 0 0.

Definition start : system := System new_mailbox [] [] [] [] [] [].

(** A receiver of three bytes finds two and waits; the next byte wakes it. *)
Lemma mailbox_is_queue_witness : exists c', star step start c' /\ sent c' = [1; 2; 3] /\ received c' = [1; 2] /\
  sent c' = received c' ++ contents (box c') /\ (contents (box c') <> [] -> empty_waiters c' <> [] -> exists x, x ∈ receivers c' /\ receiving x).
Proof.
  assert (Hrun : exists c', star step start c' /\ sent c' = [1; 2; 3] /\ received c' = [1; 2]).
  { eexists. split.
    - eapply star_step; [apply (step_call_send _ _ _ _ _ _ _ [1; 2])|].
      eapply star_step; [eapply (step_send _ _ [] [1; 2] [] _ _ _ _ _ [] [1; 2]); [vm_compute; reflexivity|reflexivity|apply signals_none, signals_none, signals_done]|].
      eapply star_step; [apply (step_call_recv _ _ _ _ _ _ _ 3)|].
      eapply star_step; [eapply (step_recv _ _ _ _ [] 3 [] [] _ _ _ 1 [1; 2]); [vm_compute; reflexivity|apply signals_none, signals_none, signals_done]|].
      eapply star_step; [apply (step_call_send _ _ _ _ _ _ _ [3])|].
      eapply star_step; [eapply (step_send _ _ [] [3] [] _ _ _ _ _ [] [3]); [vm_compute; reflexivity|reflexivity|apply (signals_wake 0 [] (1%nat, [1; 2]) []), signals_done]|].
      apply star_refl.
    - split; reflexivity. }
  destruct Hrun as (c' & Hs & E1 & E2). exists c'. split; [exact Hs|]. split; [exact E1|]. split; [exact E2|].
  destruct (mailbox_is_queue start c') as (H1 & H2 & _).
  - repeat split.
  - exact Hs.
  - rewrite E1, E2. cbn. lia.
  - split; [exact H1|exact H2].
Defined.
