(* ===== verification/Shell.v ===== *)
(** The shell, [kernel/software/shell.c]: the line editor of [sw_shell] and the commands of
    [parse_commend].

    The shell is a task; it acts on the rest of the system only through system calls, so it is written
    in a monad over an environment [env] that answers them: a call gives a number, the register the
    task finds its result in, and for [sys_fread] and [sys_get_curr_dir_name] the characters behind
    the pointer it passes or gets. [Printk.atoi] reads numbers, [Printk.print_buff] formats what is
    printed; [bf] and [l] are its arrays on the stack, and [junk] is what [arg_string] points to while
    it is not initialised.

    [before] is the byte in front of [input_buffer]: [parse_commend] writes it when [separate] finds no
    separator and returns -1. *)

From S2P Require Import Prelude CString Printk Screen Sdcard Fs.

Inductive scall :=
  | CShow_process | CClear (line1 line2 : Z) | CMove_cursor (x y : Z)
  | CSpawn (task : Z) | CSpawn_run | CKill (pid : Z)
  | CMkfs | CMount | CStatfs | CGet_curr_dir_name
  | CMkdir (s : list Z) | CRmdir (s : list Z) | CLs | CCd (s : list Z) | CTouch (s : list Z)
  | CFopen (s : list Z) (access : Z) | CFread (fd size : Z)
  | CWrite (s : list Z).

Section shell.
Context {W : Type} (env : scall -> W -> result ((Z * list Z) * W)).
Context (bf l junk : list Z) (test_tasks_num : Z).

Definition E (A : Type) : Type := W -> result (A * W).

#[local] Instance E_ret : MRet E := fun A x w => Ok (x, w).

#[local] Instance E_bind : MBind E := fun A B f m w =>
  match m w with Ok (x, w) => f x w | Fault => Fault | Panic msg => Panic msg | OutOfFuel => OutOfFuel end.

Definition sys (c : scall) : E Z := fun w => match env c w with Ok ((z, _), w) => Ok (z, w) | Fault => Fault | Panic msg => Panic msg | OutOfFuel => OutOfFuel end.

Definition sys_bytes (c : scall) : E (Z * list Z) := env c.

Definition lift {A} (o : option A) : E A := fun w => match o with Some x => Ok (x, w) | None => Fault end.

Definition printf (fmt : list Z) (va : list parg) : E unit := fun w =>
  match print_buff bf l fmt va with
  | Ok buff => (s ← lift (cstr buff); sys (CWrite s);; mret tt) w
  | Fault => Fault
  | Panic msg => Panic msg
  | OutOfFuel => OutOfFuel
  end.

(** ** The commands *)

Definition commend : list (list Z) :=
  lit <$> ["ps"; "clear"; "exec"; "kill"; "mkfs"; "statfs"; "currdir"; "mkdir"; "rmdir"; "ls"; "cd"; "touch"; "cat"; "run"]%string.

(** The [while] loop of [cat]. [buf] has 513 characters, the last 0; [sys_fread] writes to its start. *)
Fixpoint cat_loop (fuel : nat) (fd : Z) (buf : list Z) : E unit :=
  match fuel with
  | O => fun _ => OutOfFuel
  | S fuel =>
      '(size, r) ← sys_bytes (CFread fd SECTOR_SIZE);
      buf ← lift (splice buf 0 r);
      if size =? SECTOR_SIZE then printf (lit "%s") [Str buf];; cat_loop fuel fd buf
      else buf ← lift (aset buf size 0); printf (lit "%s") [Str buf]
  end.

Definition case_cat (fuel : nat) (buf arg_string : list Z) : E unit :=
  fd ← sys (CFopen arg_string O_RD);
  if fd =? -1 then printf (str "Error: open file failed." ++ [10; 0]) []
  else
    buf ← lift (aset buf 512 0);
    cat_loop fuel fd buf.

(** The first four characters of an executable *)
Definition is_elf (r : list Z) : bool := match r with 127 :: 69 :: 76 :: 70 :: _ => true | _ => false end.

(** [run_buf], a global array of 2047 bytes, has what [sys_fread] left in it before as [run_buf]. *)
Definition case_run (run_buf arg_string : list Z) : E unit :=
  fd ← sys (CFopen arg_string O_RD);
  if fd =? -1 then printf (str "Error: no such executable file." ++ [10; 0]) []
  else
    '(_, r) ← sys_bytes (CFread fd 2047);
    run_buf ← lift (splice run_buf 0 r);
    if negb (is_elf run_buf) then printf (str "Error: not a ELF file." ++ [10; 0]) []
    else sys CSpawn_run;; mret tt.

Definition case_clear (arg_int : Z) : E unit :=
  if arg_int =? 0 then
    sys (CClear (SCREEN_HEIGHT / 2 + 1) (SCREEN_HEIGHT - 1));;
    sys (CMove_cursor 0 (SCREEN_HEIGHT / 2 + 1));; mret tt
  else if arg_int =? 1 then sys (CClear 0 (SCREEN_HEIGHT / 2 - 1));; mret tt
  else
    sys (CClear 0 (SCREEN_HEIGHT / 2 - 1));;
    sys (CClear (SCREEN_HEIGHT / 2 + 1) (SCREEN_HEIGHT - 1));;
    sys (CMove_cursor 0 (SCREEN_HEIGHT / 2 + 1));; mret tt.

Definition case_exec (arg_int : Z) : E unit :=
  if arg_int >? test_tasks_num then printf (str "Error: too large index." ++ [10; 0]) []
  else if arg_int <? 1 then printf (str "Error: wrong index." ++ [10; 0]) []
  else r ← sys (CSpawn (arg_int - 1)); if r =? 0 then printf (str "Error: too many tasks." ++ [10; 0]) [] else mret tt.

Definition case_kill (arg_int : Z) : E unit :=
  r ← sys (CKill arg_int); if r =? 0 then printf (str "Illegal pid." ++ [10; 0]) [] else mret tt.

Definition case_currdir : E unit :=
  '(_, s) ← sys_bytes CGet_curr_dir_name; printf (str "%s" ++ [10; 0]) [Str s].

(** The arrays [buf] of [cat] and [run_buf] *)
Context (fuel : nat) (buf run_buf : list Z).

(** The [switch] *)
Definition execute (i : Z) (arg_string : list Z) (arg_int : Z) : E unit :=
  if i =? 0 then sys CShow_process;; mret tt
  else if i =? 1 then case_clear arg_int
  else if i =? 2 then case_exec arg_int
  else if i =? 3 then case_kill arg_int
  else if i =? 4 then sys CMkfs;; sys CMount;; mret tt
  else if i =? 5 then sys CStatfs;; mret tt
  else if i =? 6 then case_currdir
  else if i =? 7 then sys (CMkdir arg_string);; mret tt
  else if i =? 8 then sys (CRmdir arg_string);; mret tt
  else if i =? 9 then sys CLs;; mret tt
  else if i =? 10 then sys (CCd arg_string);; mret tt
  else if i =? 11 then sys (CTouch arg_string);; mret tt
  else if i =? 12 then case_cat fuel buf arg_string
  else if i =? 13 then case_run run_buf arg_string
  else fun _ => Panic "Parse commend error.".

(** The loop over the names of the commands, from [i] *)
Fixpoint find_commend (names : list (list Z)) (i : Z) (commend_part : list Z) : E (option Z) :=
  match names with
  | [] => mret None
  | name :: names => v ← lift (strcmp name commend_part); if v =? 0 then mret (Some i) else find_commend names (i + 1) commend_part
  end.

(** ** The command line *)

Record shell := Shell { before : Z; input_buffer : list Z; buffer_index : Z }.

(** [input_buffer[i] = c], for [i] from -1 *)
Definition put_input (i c : Z) (s : shell) : option shell :=
  if i =? -1 then Some (Shell (c mod 256) (input_buffer s) (buffer_index s))
  else v ← aset (input_buffer s) i (c mod 256); Some (Shell (before s) v (buffer_index s)).

Definition parse_commend (s : shell) : E shell :=
  separator_position ← lift (separate (input_buffer s) 32);
  '(s, arg_string, arg_int) ←
    (if negb (separator_position =? buffer_index s) then
       s ← lift (put_input separator_position 0 s);
       let arg_string := drop (Z.to_nat (separator_position + 1)) (input_buffer s) in
       n ← lift (atoi arg_string);
       mret (s, arg_string, n)
     else mret (s, junk, 0));
  r ← find_commend commend 0 (input_buffer s);
  match r with
  | Some i => execute i arg_string arg_int
  | None => if buffer_index s >? 0 then printf (str "No such commend." ++ [10; 0]) [] else mret tt
  end;;
  mret s.

Definition prefix : list Z := lit "> SBZeng@UCAS_OS: ".

(** [prefix_length], set by [sw_shell] to [strlen(prefix)] *)
Definition prefix_length : Z := 18.

Definition set_index (i : Z) (s : shell) : shell := Shell (before s) (input_buffer s) i.

(** What [sw_shell] does with the character [sys_read] gives *)
Definition handle_char (c : Z) (s : shell) : E shell :=
  if c =? 0 then mret s
  else if (c =? 10) || (c =? 13) then
    printf (lit "%c") [Int (schar c)];;
    s ← lift (put_input (buffer_index s) 0 s);
    s ← parse_commend s;
    printf (lit "%s") [Str prefix];;
    mret (set_index 0 s)
  else if (c =? 8) || (c =? 127) then
    if buffer_index s >? 0 then printf (lit "%c") [Int (schar c)];; mret (set_index (buffer_index s - 1) s)
    else mret s
  else
    printf (lit "%c") [Int (schar c)];;
    s ← (if buffer_index s =? SCREEN_WIDTH - prefix_length then
           printf (str "No such commend." ++ [10; 0]) [];;
           printf (lit "%s") [Str prefix];;
           mret (set_index 0 s)
         else mret s);
    s' ← lift (put_input (buffer_index s) c s);
    mret (set_index (buffer_index s + 1) s').

(** The [while] loop, for the characters read one after the other *)
Fixpoint type_chars (cs : list Z) (s : shell) : E shell :=
  match cs with
  | [] => mret s
  | c :: cs => s ← handle_char c s; type_chars cs s
  end.

(** [sw_shell] up to its loop *)
Fixpoint dashes (n : nat) : E unit := match n with O => mret tt | S n => printf (lit "-") [];; dashes n end.

Definition sw_shell_start : E unit :=
  sys (CMove_cursor 0 (SCREEN_HEIGHT / 2));;
  dashes (Z.to_nat SCREEN_WIDTH);;
  printf (lit "%s") [Str prefix].

(** ** Specification *)

(** A line as its first word and what follows the first space; without a space, the word again, because
    [arg_string] is then [input_buffer - 1 + 1] *)
Definition split_line (w : list Z) : list Z * list Z :=
  match list_find (fun c => c = 32) w with Some (k, _) => (take k w, drop (S k) w) | None => (w, w) end.

(** The number an argument stands for: a string of decimal digits, in 32 bits, the empty one 0, any other string -1 *)
Definition number_of (x : list Z) : Z :=
  if forallb (fun c => (48 <=? c) && (c <=? 57)) x then fold_left (fun n c => s32 (n * 10 + c - 48)) x 0 else -1.

Definition call (c : scall) : E unit := sys c;; mret tt.

Definition print_line (s : string) : E unit := printf (str s ++ [10; 0]) [].

(** Printing an open file, sector by sector until one is not full *)
Fixpoint show_file (fuel : nat) (fd : Z) (buf : list Z) : E unit :=
  match fuel with
  | O => fun _ => OutOfFuel
  | S fuel =>
      '(size, r) ← sys_bytes (CFread fd 512);
      buf ← lift (splice buf 0 r);
      buf ← (if size =? 512 then mret buf else lift (aset buf size 0));
      printf (lit "%s") [Str buf];;
      if size =? 512 then show_file fuel fd buf else mret tt
  end.

(** The manual: what each command does with its argument, as a string and as a number. *)
Definition manual : list (string * (list Z -> Z -> E unit)) :=
  [("ps"%string, fun _ _ => call CShow_process);
   ("clear"%string, fun _ n =>
      (if n =? 0 then mret tt else call (CClear 0 13));;
      if n =? 1 then mret tt else call (CClear 15 27);; call (CMove_cursor 0 15));
   ("exec"%string, fun _ n =>
      if (1 <=? n) && (n <=? test_tasks_num) then
        r ← sys (CSpawn (n - 1)); if r =? 0 then print_line "Error: too many tasks." else mret tt
      else print_line (if n >? test_tasks_num then "Error: too large index." else "Error: wrong index."));
   ("kill"%string, fun _ n => r ← sys (CKill n); if r =? 0 then print_line "Illegal pid." else mret tt);
   ("mkfs"%string, fun _ _ => call CMkfs;; call CMount);
   ("statfs"%string, fun _ _ => call CStatfs);
   ("currdir"%string, fun _ _ => '(_, s) ← sys_bytes CGet_curr_dir_name; printf (str "%s" ++ [10; 0]) [Str s]);
   ("mkdir"%string, fun a _ => call (CMkdir a));
   ("rmdir"%string, fun a _ => call (CRmdir a));
   ("ls"%string, fun _ _ => call CLs);
   ("cd"%string, fun a _ => call (CCd a));
   ("touch"%string, fun a _ => call (CTouch a));
   ("cat"%string, fun a _ =>
      fd ← sys (CFopen a O_RD);
      if fd =? -1 then print_line "Error: open file failed." else buf ← lift (aset buf 512 0); show_file fuel fd buf);
   ("run"%string, fun a _ =>
      fd ← sys (CFopen a O_RD);
      if fd =? -1 then print_line "Error: no such executable file."
      else
        '(_, r) ← sys_bytes (CFread fd 2047);
        run_buf ← lift (splice run_buf 0 r);
        if decide (take 4 run_buf = [127; 69; 76; 70]) then call CSpawn_run else print_line "Error: not a ELF file.")].

(** Entering [w], with [arg_string] for what follows its first word: what the manual says of that word *)
Definition enter (w : list Z) (arg_string : list Z) : E unit :=
  let '(word, arg) := split_line w in
  match list_find (fun e => str (fst e) = word) manual with
  | Some (_, (_, action)) => action arg_string (number_of arg)
  | None => if decide (w = []) then mret tt else print_line "No such commend."
  end.

(** The echo of a line *)
Fixpoint echo (w : list Z) : E unit :=
  match w with [] => mret tt | c :: w => printf (lit "%c") [Int (schar c)];; echo w end.

Definition shell_ok (s : shell) : Prop :=
  length (input_buffer s) = 75%nat /\ bytes_ok (input_buffer s) /\ 0 <= buffer_index s <= SCREEN_WIDTH - prefix_length.

(** Characters that go into the line *)
Definition typed (c : Z) : Prop := is_u8 c /\ c <> 0 /\ c <> 8 /\ c <> 10 /\ c <> 13 /\ c <> 127.

(** ** Lemmas *)

Lemma E_bind_ext {A B} (m : E A) (f g : A -> E B) w : (forall x w', m w = Ok (x, w') -> f x w' = g x w') -> (m ≫= f) w = (m ≫= g) w.
Proof. unfold mbind, E_bind. destruct (m w) as [[x w']| | |]; [|done..]. intros H. by apply H. Qed.

Lemma E_bind_assoc {A B C} (m : E A) (f : A -> E B) (g : B -> E C) w : ((m ≫= f) ≫= g) w = (m ≫= fun x => f x ≫= g) w.
Proof. unfold mbind, E_bind. by destruct (m w) as [[x w']| | |]. Qed.

Lemma E_bind_lift {A B} (x : A) o (f : A -> E B) w : o = Some x -> (lift o ≫= f) w = f x w.
Proof. by intros ->. Qed.

Lemma E_bind_ret {A B} (x : A) (f : A -> E B) w : (mret x ≫= f) w = f x w.
Proof. done. Qed.

(** *** The names of the commands *)

Lemma commend_strings : Forall (fun name => bytes_ok name /\ is_Some (cstr name)) commend.
Proof. unfold bytes_ok, is_u8. apply (bool_decide_unpack _). vm_compute. exact I. Qed.

Lemma find_commend_spec names i part word : Forall (fun name => bytes_ok name /\ is_Some (cstr name)) names -> bytes_ok part -> cstr part = Some word ->
  forall w, find_commend names i part w = Ok ((fun p => i + Z.of_nat (fst p)) <$> list_find (fun name => cstr name = Some word) names, w).
Proof.
  intros Hn Hp Hw w. revert i. induction names as [|name names IH]; intros i; cbn [find_commend list_find]; [done|].
  apply Forall_cons in Hn as [[Hb [x Hx]] Hn]. destruct (strcmp_spec name part x word Hb Hp Hx Hw) as (v & Ev & Hv).
  rewrite (E_bind_lift _ _ _ _ Ev). destruct (Z.eqb_spec v 0) as [E0|E0].
  - rewrite decide_True by (rewrite Hx; f_equal; by apply Hv). cbn. by rewrite Z.add_0_r.
  - rewrite decide_False by (intros Ex; rewrite Hx in Ex; injection Ex as ->; tauto). rewrite (IH Hn). destruct (list_find _ names) as [[k y]|]; cbn; [|done].
    do 3 f_equal. lia.
Qed.

(** *** Reading a line *)

Lemma atoi_loop_number s x : cstr s = Some x -> forall a,
  atoi_loop s a = Some (if forallb (fun c => (48 <=? c) && (c <=? 57)) x then fold_left (fun n c => s32 (n * 10 + c - 48)) x a else -1).
Proof.
  revert x. induction s as [|c s IH]; intros x; cbn [cstr]; [done|]. destruct (Z.eqb_spec c 0) as [->|Hc]; [by intros [= <-]|].
  intros (r & Er & [= <-])%bind_Some a. cbn [atoi_loop forallb fold_left]. rewrite (proj2 (Z.eqb_neq c 0)) by done. unfold is_digit at 1.
  destruct ((48 <=? c) && (c <=? 57)); [|done]. cbn [andb]. by apply IH.
Qed.

Lemma atoi_number_of s x : cstr s = Some x -> atoi s = Some (number_of x).
Proof. intros Hx. apply (atoi_loop_number s x Hx). Qed.

(** *** The manual *)

Lemma show_file_loop n : forall fd b W0, cat_loop n fd b W0 = show_file n fd b W0.
Proof.
  induction n as [|n IH]; intros fd b W0; cbn [cat_loop show_file]; [done|]. apply E_bind_ext. intros [size r] W1 _. apply E_bind_ext. intros b1 W2 _.
  unfold SECTOR_SIZE. destruct (size =? 512); [rewrite E_bind_ret; apply E_bind_ext; intros [] W3 _; apply IH|].
  apply E_bind_ext. intros b2 W3 _. unfold mbind, E_bind. by destruct (printf (lit "%s") [Str b2] W3) as [[[] W4]| | |].
Qed.

Lemma clear_manual n W0 : case_clear n W0 =
  ((if n =? 0 then mret tt else call (CClear 0 13));; if n =? 1 then mret tt else call (CClear 15 27);; call (CMove_cursor 0 15)) W0.
Proof.
  unfold case_clear, call. change (SCREEN_HEIGHT / 2 + 1) with 15. change (SCREEN_HEIGHT - 1) with 27. change (SCREEN_HEIGHT / 2 - 1) with 13.
  destruct (Z.eqb_spec n 0) as [->|]; [rewrite E_bind_ret; change (0 =? 1) with false; cbv iota; by rewrite E_bind_assoc|].
  rewrite E_bind_assoc. destruct (n =? 1); apply E_bind_ext; intros z W1 _; rewrite E_bind_ret; [done|]. by rewrite E_bind_assoc.
Qed.

Lemma exec_manual n W0 : case_exec n W0 =
  (if (1 <=? n) && (n <=? test_tasks_num) then r ← sys (CSpawn (n - 1)); if r =? 0 then print_line "Error: too many tasks." else mret tt
   else print_line (if n >? test_tasks_num then "Error: too large index." else "Error: wrong index.")) W0.
Proof.
  unfold case_exec, print_line. rewrite Z.gtb_ltb, Z.ltb_antisym. destruct (Z.leb_spec n test_tasks_num); cbn [negb]; [|by rewrite andb_false_r].
  rewrite andb_true_r, Z.ltb_antisym. by destruct (1 <=? n).
Qed.

Lemma is_elf_take r : is_elf r = bool_decide (take 4 r = [127; 69; 76; 70]).
Proof.
  assert (H : forall b P, (b = true <-> P) -> forall `{!Decision P}, b = bool_decide P).
  { intros [] P HP ?; [by rewrite bool_decide_eq_true_2 by by apply HP|]. rewrite bool_decide_eq_false_2; [done|]. by intros Hn%HP. }
  apply H. unfold is_elf. destruct r as [|a [|b [|c [|d r]]]]; cbn; split; repeat case_match; intros; simplify_eq; done.
Qed.

Lemma cat_manual a W0 : case_cat fuel buf a W0 = (fd ← sys (CFopen a O_RD);
  if fd =? -1 then print_line "Error: open file failed." else buf ← lift (aset buf 512 0); show_file fuel fd buf) W0.
Proof.
  unfold case_cat, print_line. apply E_bind_ext. intros fd W1 _. destruct (fd =? -1); [reflexivity|].
  apply E_bind_ext. intros b W2 _. apply show_file_loop.
Qed.

Lemma run_manual a W0 : case_run run_buf a W0 = (fd ← sys (CFopen a O_RD); if fd =? -1 then print_line "Error: no such executable file." else
  '(_, r) ← sys_bytes (CFread fd 2047); run_buf ← lift (splice run_buf 0 r);
  if decide (take 4 run_buf = [127; 69; 76; 70]) then call CSpawn_run else print_line "Error: not a ELF file.") W0.
Proof.
  unfold case_run, print_line. apply E_bind_ext. intros fd W1 _. destruct (fd =? -1); [reflexivity|]. apply E_bind_ext. intros [z r] W2 _.
  apply E_bind_ext. intros b W3 _. rewrite is_elf_take. case_bool_decide; [by rewrite decide_True|by rewrite decide_False].
Qed.

Lemma mkfs_manual W0 : (sys CMkfs;; sys CMount;; mret tt) W0 = (call CMkfs;; call CMount) W0.
Proof. unfold call. by rewrite E_bind_assoc. Qed.

(** The switch does what the manual says. *)
Lemma execute_manual k name action a n W0 : manual !! k = Some (name, action) -> execute (Z.of_nat k) a n W0 = action a n W0.
Proof.
  unfold manual. destruct k as [|[|[|[|[|[|[|[|[|[|[|[|[|[|k]]]]]]]]]]]]]]; intros E0; try done; injection E0 as <- <-.
  - exact (eq_refl (call CShow_process W0)).
  - exact (clear_manual n W0).
  - exact (exec_manual n W0).
  - exact (eq_refl (case_kill n W0)).
  - exact (mkfs_manual W0).
  - exact (eq_refl (call CStatfs W0)).
  - exact (eq_refl (case_currdir W0)).
  - exact (eq_refl (call (CMkdir a) W0)).
  - exact (eq_refl (call (CRmdir a) W0)).
  - exact (eq_refl (call CLs W0)).
  - exact (eq_refl (call (CCd a) W0)).
  - exact (eq_refl (call (CTouch a) W0)).
  - exact (cat_manual a W0).
  - exact (run_manual a W0).
Qed.

(** The names are those of the manual. *)
Lemma commend_manual : commend = (fun e => lit (fst e)) <$> manual.
Proof. reflexivity. Qed.

Lemma find_manual word (tab : list (string * (list Z -> Z -> E unit))) : Forall (fun e => cstr (lit (fst e)) = Some (str (fst e))) tab ->
  list_find (fun name => cstr name = Some word) ((fun e => lit (fst e)) <$> tab) =
    (fun e => (fst e, lit (fst (snd e)))) <$> list_find (fun e => str (fst e) = word) tab.
Proof.
  induction 1 as [|e tab He _ IH]; [done|]. cbn [fmap list_fmap list_find]. rewrite He. destruct (decide (str (fst e) = word)) as [->|Hn].
  - by rewrite !decide_True.
  - rewrite !decide_False by congruence. rewrite IH. by destruct (list_find _ tab) as [[k x]|].
Qed.

Lemma manual_strings : Forall (fun e => cstr (lit (fst e)) = Some (str (fst e))) manual.
Proof. repeat constructor. Qed.

Lemma put_input_spec i c s : 0 <= i < Z.of_nat (length (input_buffer s)) -> is_u8 c ->
  put_input i c s = Some (Shell (before s) (<[Z.to_nat i := c]> (input_buffer s)) (buffer_index s)).
Proof. intros Hi Hc. unfold put_input. rewrite (proj2 (Z.eqb_neq i (-1))) by lia. by rewrite aset_Some, Z.mod_small by done. Qed.

Lemma insert_middle (w1 : list Z) a b t : <[length w1 := b]> (w1 ++ a :: t) = w1 ++ b :: t.
Proof. rewrite insert_app_r_alt by lia. by rewrite Nat.sub_diag. Qed.

(** After the arrays have been taken apart, [parse_commend] looks the word up and executes its command. *)
Lemma parse_tail s a word arg n w W0 :
  bytes_ok (input_buffer s) -> cstr (input_buffer s) = Some word -> split_line w = (word, arg) -> n = number_of arg ->
  (buffer_index s >? 0) = negb (bool_decide (w = [])) ->
  (r ← find_commend commend 0 (input_buffer s);
    match r with
    | Some i => execute i a n
    | None => if buffer_index s >? 0 then printf (str "No such commend." ++ [10; 0]) [] else mret tt
    end;; mret s) W0 = (enter w a;; mret s) W0.
Proof.
  intros Hb Hw Hs -> Hi. unfold mbind at 1, E_bind at 1. rewrite (find_commend_spec commend 0 _ word commend_strings Hb Hw).
  unfold enter. rewrite Hs, commend_manual, (find_manual word manual manual_strings).
  destruct (list_find _ manual) as [[k [name action]]|] eqn:Ef; cbn [fmap option_fmap option_map fst].
  - apply list_find_Some in Ef as (Hk & _). unfold mbind, E_bind. by rewrite Z.add_0_l, (execute_manual _ _ _ _ _ _ Hk).
  - rewrite Hi. by case_bool_decide; [rewrite decide_True by done|rewrite decide_False by done].
Qed.

Lemma parse_commend_spec s w : shell_ok s -> cstr (input_buffer s) = Some w -> Z.of_nat (length w) = buffer_index s ->
  exists s' a, shell_ok s' /\ buffer_index s' = buffer_index s /\ cstr a = Some (snd (split_line w)) /\
    forall W0, parse_commend s W0 = (enter w a;; mret s') W0.
Proof.
  intros (Hl & Hb & Hi) Hw Hlen. change (SCREEN_WIDTH - prefix_length) with 57 in Hi. destruct (cstr_app _ _ Hw) as [t Ht]. pose proof (cstr_no_zero _ _ Hw) as H0.
  assert (Hgt : (buffer_index s >? 0) = negb (bool_decide (w = []))).
  { case_bool_decide as Ew; [subst w; cbn in Hlen; destruct (Z.gtb_spec (buffer_index s) 0); [lia|done]|].
    destruct w; [done|]. cbn [length] in Hlen. destruct (Z.gtb_spec (buffer_index s) 0); [done|lia]. }
  unfold parse_commend. unfold separate.
  pose proof (separate_loop_spec (input_buffer s) 32 0 w Hb ltac:(by unfold is_u8) ltac:(done) Hw) as Hsep.
  destruct (list_find (fun b => b = 32) w) as [[k c]|] eqn:Ef.
  - apply list_find_Some in Ef as (Hk & -> & Hfirst). rewrite Z.add_0_l in Hsep.
    pose proof (take_drop_middle w k 32 Hk) as Ew. pose proof (lookup_lt_Some _ _ _ Hk) as Hkl.
    set (w1 := take k w) in *. set (w2 := drop (S k) w) in *. assert (Hl1 : length w1 = k) by (subst w1; rewrite length_take; lia).
    set (s1 := Shell (before s) (w1 ++ 0 :: w2 ++ 0 :: t) (buffer_index s)).
    assert (Hbuf : input_buffer s = w1 ++ 32 :: w2 ++ 0 :: t) by by rewrite Ht, <- Ew, <- app_assoc.
    assert (Hput : put_input (Z.of_nat k) 0 s = Some s1).
    { rewrite put_input_spec by (rewrite ?Hl; lia || by unfold is_u8). unfold s1. rewrite Hbuf, Nat2Z.id, <- Hl1, insert_middle. done. }
    assert (Hb1 : bytes_ok (input_buffer s1)).
    { unfold s1. cbn [input_buffer]. unfold bytes_ok in *. rewrite Hbuf in Hb. apply Forall_app in Hb as [? Hb]. apply Forall_cons in Hb as [_ ?].
      apply Forall_app. split; [done|]. apply Forall_cons. split; [by unfold is_u8|done]. }
    rewrite <- Ew in H0. assert (H1 : 0 ∉ w1) by set_solver. assert (H2 : 0 ∉ w2) by set_solver.
    assert (Hsplit : split_line w = (w1, w2)) by (unfold split_line; by rewrite (proj2 (list_find_Some _ w k 32))).
    exists s1, (w2 ++ 0 :: t). split_and!.
    + split; [|split; [exact Hb1|exact Hi]]. rewrite Hbuf in Hl. unfold s1. cbn [input_buffer]. rewrite length_app in *. exact Hl.
    + done.
    + rewrite Hsplit. by apply cstr_of.
    + intros W0. rewrite (E_bind_lift _ _ _ _ Hsep). destruct (Z.eqb_spec (Z.of_nat k) (buffer_index s)); [lia|]. cbn [negb].
      assert (Hd : drop (Z.to_nat (Z.of_nat k + 1)) (input_buffer s1) = w2 ++ 0 :: t).
      { unfold s1. cbn [input_buffer]. rewrite drop_app_ge by lia. replace (Z.to_nat (Z.of_nat k + 1) - length w1)%nat with 1%nat by lia. done. }
      rewrite E_bind_assoc, (E_bind_lift _ _ _ _ Hput). cbv zeta. rewrite Hd.
      rewrite E_bind_assoc, (E_bind_lift _ _ _ _ (atoi_number_of _ _ (cstr_of w2 t H2))), E_bind_ret.
      apply (parse_tail s1 _ w1 w2); [done|by apply cstr_of|done..].
  - assert (Hnot : 32 ∉ w) by (apply list_find_None in Ef; rewrite Forall_forall in Ef; intros Hin; by apply (Ef 32)).
    assert (Hsplit : split_line w = (w, w)) by (unfold split_line; by rewrite Ef).
    set (s1 := Shell 0 (input_buffer s) (buffer_index s)).
    exists s1, (input_buffer s). split_and!; [done|done|by rewrite Hsplit|].
    intros W0. rewrite (E_bind_lift _ _ _ _ Hsep). destruct (Z.eqb_spec (-1) (buffer_index s)); [lia|]. cbn [negb].
    rewrite E_bind_assoc, (E_bind_lift s1) by done. cbv zeta. change (drop (Z.to_nat (-1 + 1)) (input_buffer s1)) with (input_buffer s).
    rewrite E_bind_assoc, (E_bind_lift _ _ _ _ (atoi_number_of _ _ Hw)), E_bind_ret.
    by apply (parse_tail s1 _ w w).
Qed.

(** Typing characters that fit puts them into the buffer and echoes them. *)
Lemma type_typed w : forall b pre rest, Forall typed w -> length (pre ++ w ++ rest) = 75%nat ->
  Z.of_nat (length pre + length w) <= SCREEN_WIDTH - prefix_length -> forall t W0, length t = length w ->
  type_chars w (Shell b (pre ++ t ++ rest) (Z.of_nat (length pre))) W0 =
    (echo w;; mret (Shell b (pre ++ w ++ rest) (Z.of_nat (length pre + length w)))) W0.
Proof.
  induction w as [|c w IH]; intros b pre rest Hw Hl Hi t W0 Ht.
  { destruct t; [|done]. cbn [type_chars echo app length]. by rewrite Nat.add_0_r. }
  destruct t as [|x t]; [done|]. apply Forall_cons in Hw as [(Hc & Hc0 & Hc8 & Hc10 & Hc13 & Hc127) Hw]. cbn [type_chars echo length] in *.
  unfold SCREEN_WIDTH, prefix_length in *. rewrite !length_app in Hl. cbn [length] in Hl.
  unfold handle_char. rewrite (proj2 (Z.eqb_neq c 0)), (proj2 (Z.eqb_neq c 10)), (proj2 (Z.eqb_neq c 13)), (proj2 (Z.eqb_neq c 8)), (proj2 (Z.eqb_neq c 127)) by done.
  cbn [orb buffer_index]. rewrite !E_bind_assoc. apply E_bind_ext. intros [] W1 _.
  unfold SCREEN_WIDTH, prefix_length. rewrite (proj2 (Z.eqb_neq (Z.of_nat (length pre)) (75 - 18))) by lia. rewrite E_bind_assoc, E_bind_ret.
  assert (Hput : put_input (Z.of_nat (length pre)) c (Shell b (pre ++ (x :: t) ++ rest) (Z.of_nat (length pre))) =
    Some (Shell b (pre ++ c :: t ++ rest) (Z.of_nat (length pre)))).
  { rewrite put_input_spec; [|cbn [input_buffer]; rewrite !length_app; cbn [length]; lia|done].
    cbn [input_buffer buffer_index before]. rewrite Nat2Z.id. change ((x :: t) ++ rest) with (x :: t ++ rest). by rewrite insert_middle. }
  cbn [buffer_index]. rewrite E_bind_assoc, (E_bind_lift _ _ _ _ Hput), E_bind_ret. cbn [buffer_index].
  unfold set_index. cbn [before input_buffer]. replace (pre ++ c :: t ++ rest) with ((pre ++ [c]) ++ t ++ rest) by by rewrite <- app_assoc.
  replace (Z.of_nat (length pre) + 1) with (Z.of_nat (length (pre ++ [c]))) by (rewrite length_app; cbn; lia).
  rewrite IH.
  - do 2 f_equal. rewrite length_app. cbn [length]. replace (length pre + 1 + length w)%nat with (length pre + S (length w))%nat by lia. by rewrite <- app_assoc.
  - done.
  - rewrite !length_app. cbn [length]. lia.
  - rewrite length_app. cbn [length]. lia.
  - by injection Ht.
Qed.

Lemma type_chars_app cs1 cs2 s W0 : type_chars (cs1 ++ cs2) s W0 = (s ← type_chars cs1 s; type_chars cs2 s) W0.
Proof.
  revert s W0. induction cs1 as [|c cs1 IH]; intros s W0; cbn [type_chars app]; [done|].
  rewrite E_bind_assoc. apply E_bind_ext. intros s' W1 _. apply IH.
Qed.

(** ** Theorems *)

(** C23. Typing a line that fits and ending it with a line feed or a carriage return echoes its
    characters, does what [manual] says of its first word (or prints a message if it is no command) with what follows
    the first space as argument, or with the line itself when there is no space, prints the prompt, and
    leaves the shell ready for the next line, whatever the other parts of the system answer. The manual gives for each of the
    fourteen names the system calls with their arguments and the text printed, not the table and the switch of the code. *)
Theorem shell_runs_line (s : shell) (w : list Z) (c : Z) (Hs : shell_ok s) (H0 : buffer_index s = 0) (Hw : Forall typed w)
    (Hlen : Z.of_nat (length w) <= SCREEN_WIDTH - prefix_length) (Hc : c = 10 \/ c = 13) :
  exists s' a, shell_ok s' /\ buffer_index s' = 0 /\ cstr a = Some (snd (split_line w)) /\
    forall W0, type_chars (w ++ [c]) s W0 = (echo w;; printf (lit "%c") [Int (schar c)];; enter w a;; printf (lit "%s") [Str prefix];; mret s') W0.
Proof.
  destruct s as [b ib i]. destruct Hs as (Hl & Hb & Hi). cbn [input_buffer buffer_index] in *. subst i. unfold SCREEN_WIDTH, prefix_length in *.
  set (t := take (length w) ib). set (r := drop (length w) ib). assert (Eib : ib = t ++ r) by (symmetry; apply take_drop).
  assert (Hlt : length t = length w) by (subst t; rewrite length_take; lia).
  assert (Hlr : (length w + length r = 75)%nat) by (subst r; rewrite length_drop; lia).
  assert (Hr : bytes_ok r) by by apply Forall_drop.
  clearbody t r. destruct r as [|x r]; [cbn in Hlr; lia|]. cbn [length] in Hlr.
  set (s1 := Shell b (w ++ x :: r) (Z.of_nat (length w))). set (s2 := Shell b (w ++ 0 :: r) (Z.of_nat (length w))).
  assert (Hwb : bytes_ok w) by (eapply Forall_impl; [exact Hw|]; intros ? H; apply H).
  assert (Hw0 : 0 ∉ w) by (intros Hin; rewrite Forall_forall in Hw; destruct (Hw 0 Hin) as (_ & ? & _); done).
  destruct (parse_commend_spec s2 w) as (s3 & a & Hs3 & Hi3 & Ha & Hp).
  { unfold shell_ok, s2, SCREEN_WIDTH, prefix_length. cbn [input_buffer buffer_index]. split; [rewrite length_app; cbn; lia|]. split; [|lia].
    apply Forall_app. split; [done|]. apply Forall_cons in Hr as [_ Hr]. apply Forall_cons. split; [by unfold is_u8|done]. }
  { by apply cstr_of. }
  { done. }
  exists (set_index 0 s3), a. split_and!; [|done|done|].
  { destruct Hs3 as (? & ? & ?). unfold shell_ok, set_index, SCREEN_WIDTH, prefix_length. cbn [input_buffer buffer_index]. split; [done|]. split; [done|lia]. }
  intros W0. rewrite type_chars_app. unfold mbind at 1, E_bind at 1. rewrite Eib.
  pose proof (type_typed w b [] (x :: r) Hw) as Ht. cbn [app length] in Ht. rewrite Nat.add_0_l in Ht. change (Z.of_nat 0) with 0 in Ht.
  rewrite (Ht ltac:(rewrite length_app; cbn; lia) ltac:(unfold SCREEN_WIDTH, prefix_length; lia) t W0 Hlt). fold s1.
  change ((s0 ← (echo w;; mret s1); type_chars [c] s0) W0 = (echo w;; printf (lit "%c") [Int (schar c)];; enter w a;; printf (lit "%s") [Str prefix];; mret (set_index 0 s3)) W0).
  rewrite E_bind_assoc. apply E_bind_ext. intros [] W1 _. rewrite E_bind_ret. cbn [type_chars]. unfold handle_char.
  assert (Ec : (c =? 0) = false /\ (c =? 10) || (c =? 13) = true) by (destruct Hc as [-> | ->]; done). destruct Ec as [-> ->].
  rewrite E_bind_assoc. apply E_bind_ext. intros [] W2 _.
  assert (Eput : put_input (buffer_index s1) 0 s1 = Some s2).
  { rewrite put_input_spec; [|unfold s1; cbn [input_buffer buffer_index]; rewrite length_app; cbn [length]; lia|by unfold is_u8].
    unfold s1, s2. cbn [input_buffer buffer_index before]. by rewrite Nat2Z.id, insert_middle. }
  rewrite E_bind_assoc, (E_bind_lift _ _ _ _ Eput). rewrite E_bind_assoc. unfold mbind at 1, E_bind at 1. rewrite Hp.
  change ((s4 ← (enter w a;; mret s3); (s5 ← (printf (lit "%s") [Str prefix];; mret (set_index 0 s4)); mret s5)) W2 =
    (enter w a;; printf (lit "%s") [Str prefix];; mret (set_index 0 s3)) W2).
  rewrite E_bind_assoc. apply E_bind_ext. intros [] W3 _. rewrite E_bind_ret, E_bind_assoc. done.
Qed.

(** What [printf("%s", s)] writes: the string, or its first 255 characters *)
Lemma printf_string s x W0 : bytes_ok s -> Z.of_nat (length s) < 4294967296 -> cstr s = Some x -> bf_ok bf -> (256 <= length l)%nat ->
  printf (lit "%s") [Str s] W0 = (sys (CWrite (take 255 x));; mret tt) W0.
Proof.
  intros Hs Hlen Hx Hbf Hl. unfold printf.
  rewrite (print_buff_spec bf l (lit "%s") [Str s] x); [|done|by repeat constructor|repeat constructor; done|done|].
  - apply (E_bind_lift (take 255 x) _ (fun s => sys (CWrite s);; mret tt)). apply cstr_of. intros Hin%elem_of_take. destruct Hin as (i & Hin & _). apply list_elem_of_lookup_2 in Hin.
    by apply (cstr_no_zero _ _ Hx).
  - change (lit "%s") with [37; 115; 0]. cbn -[cstr]. rewrite Hx. cbn. by rewrite app_nil_r.
Qed.
End shell.

(** *** Two lines *)

(** An environment that notes the calls *)
Definition noting (c : scall) (w : list scall) : result ((Z * list Z) * list scall) := Ok ((0, []), w ++ [c]).

Definition new_shell : shell := Shell 7 (replicate 75 0) 0.

(** ["touch f"] and a line feed: eight characters echoed, the call, the prompt *)
Lemma shell_runs_line_witness : exists s' a w, cstr a = Some [102] /\ buffer_index s' = 0 /\
  type_chars noting (replicate 24 0) (replicate 256 0) [] 2 0 [] [] (str "touch f" ++ [10]) new_shell [] = Ok (s', w) /\
  w = ((fun c => CWrite [c]) <$> str "touch f") ++ [CWrite [10]; CTouch a; CWrite (str "> SBZeng@UCAS_OS: ")].
Proof.
  destruct (shell_runs_line noting (replicate 24 0) (replicate 256 0) [] 2 0 [] [] new_shell (str "touch f") 10) as (s' & a & _ & Hi & Ha & E).
  - split; [reflexivity|]. split; [apply Forall_replicate; by unfold is_u8|]. vm_compute. split; discriminate.
  - reflexivity.
  - repeat constructor; discriminate.
  - vm_compute. discriminate.
  - by left.
  - exists s', a. eexists. split; [exact Ha|]. split; [exact Hi|]. rewrite E. split; vm_compute; reflexivity.
Defined.
