(* ===== verification/ShellFs.v ===== *)
(** The shell on the file system: the commands of [Shell] whose system calls the operations of [Fs]
    answer, and what [cat] prints. *)

From S2P Require Import Prelude Slist CString Printk Layout Sdcard Fs FsSpec FsFile FsDir FileSystem Shell.

#[local] Ltac Zify.zify_post_hook ::= Z.to_euclidean_division_equations.

Section cat.
Context {D : Type} `{!SdCard D}.
Implicit Types (f : fs D) (out : list (list Z)).

(** The rest of the system: a file system, and what [sys_write] has been given. [other] answers the calls
    that are not about files. *)
Context (other : scall -> fs D * list (list Z) -> result ((Z * list Z) * (fs D * list (list Z)))).

(** The task finds the result of a call in its register, as an [int]. *)
Definition answer {A} (m : F D A) (chars : A -> list Z) (out : list (list Z)) (f : fs D) : result ((Z * list Z) * (fs D * list (list Z))) :=
  match m f with
  | Ok (x, f) => Ok ((s32 (regs2 f), chars x), (f, out))
  | Fault => Fault
  | Panic msg => Panic msg
  | OutOfFuel => OutOfFuel
  end.

Definition files (c : scall) (w : fs D * list (list Z)) : result ((Z * list Z) * (fs D * list (list Z))) :=
  match c with
  | CFopen s access => answer (fopen s access) (fun _ => []) (snd w) (fst w)
  | CFread fd size => answer (fread fd size) id (snd w) (fst w)
  | CWrite s => Ok ((0, []), (fst w, snd w ++ [s]))
  | _ => other c w
  end.

(** ** Specification *)

(** The characters of an array before its first 0, at most 255 of them *)
Definition shown (x : list Z) : list Z := take 255 (default [] (cstr (x ++ [0]))).

(** What a text is printed as: its pieces of 512 characters, and what is left of it *)
Definition printed (size : Z) (text : list Z) : list (list Z) :=
  (fun k => shown (take 512 (drop (512 * k) text))) <$> seq 0 (S (Z.to_nat (size / 512))).

(** ** Lemmas *)

Lemma cstr_prefix r t : cstr (r ++ 0 :: t) = cstr (r ++ [0]).
Proof. induction r as [|c r IH]; cbn; [done|]. by rewrite IH. Qed.

Lemma cstr_zero r t : exists x, cstr (r ++ 0 :: t) = Some x.
Proof. induction r as [|c r [x IH]]; cbn; [by eexists|]. destruct (c =? 0); [by eexists|]. rewrite IH. by eexists. Qed.

Lemma shown_cstr r t x : cstr (r ++ 0 :: t) = Some x -> shown r = take 255 x.
Proof. intros H. unfold shown. by rewrite <- (cstr_prefix r t), H. Qed.

Context (bf l : list Z) (Hbf : bf_ok bf) (Hl : (256 <= length l)%nat).

Lemma cat_print f out r t : bytes_ok (r ++ 0 :: t) -> length (r ++ 0 :: t) = 513%nat ->
  printf files bf l (lit "%s") [Str (r ++ 0 :: t)] (f, out) = Ok (tt, (f, out ++ [shown r])).
Proof.
  intros Hb Hlen. destruct (cstr_zero r t) as [x Hx]. rewrite (printf_string files bf l _ x) by (done || (rewrite Hlen; lia)).
  cbn. by rewrite (shown_cstr _ _ _ Hx).
Qed.

(** One [sys_fread] of [cat], and the piece of the text it gets *)
Lemma cat_read f out fd x n bs text k : fs_ok f -> (fd_array f).[fd] = Some x -> access x = O_RD -> inode_at f (fd_ino x) n -> file_ok f n bs ->
  0 <= fd_size x -> fd_size x <= 512 * Z.of_nat (length bs) -> text = take (Z.to_nat (fd_size x)) (content f bs) ->
  offset x = 512 * Z.of_nat k -> offset x <= fd_size x ->
  let got := Z.min 512 (fd_size x - offset x) in
  let r := take 512 (drop (512 * k) text) in
  let f' := set_regs2 got (set_fd_array (<[Z.to_nat fd := set_offset (offset x + got) x]> (fd_array f)) f) in
  files (CFread fd SECTOR_SIZE) (f, out) = Ok ((got, r), (f', out)) /\ Z.of_nat (length r) = got /\ bytes_ok r.
Proof.
  intros H Hx Hacc Hn Hf Hs0 Hs Htext Ho Hos got r f'. pose proof (file_direct _ _ _ Hf) as Hten.
  pose proof (content_length f bs (ok_card _ H)) as Hc.
  destruct (fread_spec f fd x n bs SECTOR_SIZE) as (r' & Hr' & E);
    [done|done|by right|done|done|lia|done|unfold is_u32; lia|by unfold is_u32, SECTOR_SIZE|unfold SECTOR_SIZE; lia|lia|].
  fold got in Hr', E. change (Z.min SECTOR_SIZE (fd_size x - offset x)) with got in *.
  apply slice_Some in Hr' as (_ & Hleft & Hfit & ->).
  assert (Er : take (Z.to_nat got) (drop (Z.to_nat (offset x)) (content f bs)) = r).
  { unfold r. rewrite Htext, skipn_firstn_comm, take_take. replace (Z.to_nat (offset x)) with (512 * k)%nat by lia. f_equal. unfold got. lia. }
  rewrite Er in E. assert (Hlen : Z.of_nat (length r) = got) by (rewrite <- Er, length_take, length_drop; unfold got in *; lia).
  split_and!; [|done|].
  - unfold files, answer. cbn [fst snd]. rewrite E. cbn [regs2 set_regs2 set_fd_array id]. rewrite s32_id by (unfold is_s32, got; lia). done.
  - rewrite <- Er. apply Forall_take, Forall_drop. unfold content. apply Forall_concat, Forall_fmap, Forall_forall. intros b _.
    cbn. apply read_sector_bytes, (ok_card _ H).
Qed.

(** The state [cat] leaves: the descriptor at the end of the file, everything else as it was *)
Definition read_only f f' (fd : Z) (x : fd_t) : Prop :=
  same_fs f f' /\ fd_array_slist f' = fd_array_slist f /\ (fd_array f').[fd] = Some (set_offset (fd_size x) x) /\
  (forall i, i <> fd -> (fd_array f').[i] = (fd_array f).[i]).

Lemma cat_loop_spec m : forall fuel f out fd x n bs text k b, (m < fuel)%nat -> fs_ok f -> (fd_array f).[fd] = Some x -> access x = O_RD ->
  inode_at f (fd_ino x) n -> file_ok f n bs -> 0 <= fd_size x -> fd_size x <= 512 * Z.of_nat (length bs) ->
  text = take (Z.to_nat (fd_size x)) (content f bs) -> offset x = 512 * Z.of_nat k -> Z.of_nat (k + m) = fd_size x / 512 ->
  length b = 512%nat -> bytes_ok b ->
  exists f', cat_loop files bf l fuel fd (b ++ [0]) (f, out) =
    Ok (tt, (f', out ++ ((fun i => shown (take 512 (drop (512 * i) text))) <$> seq k (S m)))) /\ read_only f f' fd x.
Proof.
  induction m as [|m IH]; intros fuel f out fd x n bs text k b Hfuel H Hx Hacc Hn Hf Hs0 Hs Htext Ho Hk Hlb Hb.
  all: destruct fuel as [|fuel]; [lia|]; cbn [cat_loop]; pose proof (aget_Some _ _ _ Hx) as Hfd.
  all: destruct (cat_read f out fd x n bs text k H Hx Hacc Hn Hf Hs0 Hs Htext Ho ltac:(lia)) as (E & Hlr & Hbr).
  all: set (got := Z.min 512 (fd_size x - offset x)) in *; set (r := take 512 (drop (512 * k) text)) in *; set (f1 := set_regs2 got _) in *.
  all: assert (Er : take 512 (drop (512 * k) text) = r) by done; clearbody r.
  all: assert (Hle : got <= 512 /\ got <= fd_size x - offset x /\ (got < 512 -> got = fd_size x - offset x)) by (unfold got; lia).
  all: unfold sys_bytes, mbind at 1, E_bind at 1; rewrite E.
  all: assert (Hsp : splice (b ++ [0]) 0 r = Some (r ++ drop (length r) (b ++ [0])));
    [unfold splice; rewrite decide_True by (rewrite length_app; change (length [0]) with 1%nat; lia); done|].
  all: rewrite (E_bind_lift _ _ _ _ Hsp).
  - assert (Hleft : got <> 512) by (unfold got in *; lia). unfold SECTOR_SIZE. rewrite (proj2 (Z.eqb_neq got 512)) by done.
    destruct (drop (length r) (b ++ [0])) as [|y t] eqn:Ed.
    { apply (f_equal length) in Ed. rewrite length_drop, length_app in Ed. cbn in Ed. lia. }
    assert (Ea : aset (r ++ y :: t) got 0 = Some (r ++ 0 :: t)).
    { rewrite aset_Some by (rewrite length_app; cbn; lia). rewrite <- Hlr, Nat2Z.id. by rewrite insert_app_r_alt, Nat.sub_diag by lia. }
    rewrite (E_bind_lift _ _ _ _ Ea).
    assert (Hbt : bytes_ok (b ++ [0])) by (apply Forall_app; split; [done|by repeat constructor]).
    assert (Hb2 : bytes_ok (r ++ 0 :: t)).
    { apply (Forall_drop _ (length r)) in Hbt. rewrite Ed in Hbt. apply Forall_cons in Hbt as [_ Hbt].
      apply Forall_app. split; [done|]. apply Forall_cons. split; [by unfold is_u8|done]. }
    rewrite cat_print; [|done|].
    2: { apply (f_equal length) in Ed. rewrite length_drop, length_app in Ed. rewrite length_app. cbn in *. lia. }
    exists f1. cbn [seq fmap list_fmap]. rewrite Er. split; [done|]. subst f1. split_and!; [done|done| |].
    + cbn [fd_array set_regs2 set_fd_array]. rewrite aget_insert by lia. rewrite decide_True by lia. do 2 f_equal. lia.
    + intros i Hi. cbn [fd_array set_regs2 set_fd_array]. rewrite aget_insert by lia. by rewrite decide_False by lia.
  - assert (Hleft : got = 512) by (unfold got in *; lia). rewrite Hleft. rewrite Z.eqb_refl.
    assert (Hd : drop (length r) (b ++ [0]) = [0]) by (rewrite drop_app_ge by lia; replace (length r - length b)%nat with O by lia; done).
    rewrite Hd. unfold mbind at 1, E_bind at 1. rewrite cat_print; [| |rewrite length_app; cbn; lia].
    2: { apply Forall_app. split; [done|by repeat constructor]. }
    assert (Hx1 : (fd_array f1).[fd] = Some (set_offset (offset x + got) x)).
    { subst f1. cbn [fd_array set_regs2 set_fd_array]. rewrite aget_insert by lia. by rewrite decide_True by lia. }
    destruct (IH fuel f1 (out ++ [shown r]) fd (set_offset (offset x + got) x) n bs text (S k) r) as (f' & E' & Hro);
      [lia|by eapply fs_ok_same; [|exact H]|done|done|by apply (inode_at_same f)|by destruct Hf; split|done|done|done|cbn; lia|cbn; lia|lia|done|].
    exists f'. rewrite E', <- app_assoc. change (seq k (S (S m))) with (k :: seq (S k) (S m)). rewrite fmap_cons, Er. split; [done|]. destruct Hro as (Hsame & Hsl & Hfd' & Hoth). split_and!; [|by rewrite Hsl|done|].
    + exact Hsame.
    + intros i Hi. rewrite Hoth by done. subst f1. cbn [fd_array set_regs2 set_fd_array]. rewrite aget_insert by lia. by rewrite decide_False by lia.
Qed.
End cat.

(** ** Theorems *)

(** C22. [cat] prints a file: for a name bound to a file of up to ten blocks in the first group of
    inodes, and with a descriptor free, the command opens it, reads it to the end and prints it piece
    by piece, of each piece of 512 characters those before a 0 and at most 255; nothing on the card or in
    the directory changes. *)
Theorem cat_prints_file {D} `{!SdCard D} other (bf l : list Z) (f : fs D) (out : list (list Z)) (a x : list Z) (ino : Z) (n : inode_t)
    (bs : list Z) (i : Z) (free : list Z) (fuel : nat) (b : list Z) :
  bf_ok bf -> (256 <= length l)%nat -> fs_ok f -> dir_ok (current_dir f) -> bytes_ok a -> cstr a = Some x ->
  dir_lookup (current_dir f) x = Some ino -> 0 < ino < 8 -> inode_at f ino n -> type n = FILE_NORMAL -> file_ok f n bs ->
  0 <= size n <= 512 * Z.of_nat (length bs) -> slist_rep (fd_array_slist f) FD_ARRAY_SLIST_SIZE (i :: free) ->
  length (fd_array f) = 64%nat -> 1 <= i <= 64 -> size n / 512 < Z.of_nat fuel -> length b = 513%nat -> bytes_ok b ->
  exists f' text, slice (content f bs) 0 (size n) = Some text /\
    case_cat (files other) bf l fuel b a (f, out) = Ok (tt, (f', out ++ printed (size n) text)) /\
    same_fs f f' /\ slist_rep (fd_array_slist f') FD_ARRAY_SLIST_SIZE free.
Proof.
  intros Hbf Hl H Hd Ha Hx Hlk Hino Hn Hty Hf Hsz Hrep Hlen Hi Hfuel Hb Hbb.
  destruct (fopen_ok f a x ino n O_RD i free H Hd Ha Hx Hlk ltac:(lia) Hn Hty Hrep Hlen Hi) as (sl & Hsl & E).
  set (y := Fd (ino mod 8) (u32 O_RD) (size n) 0) in *. set (f1 := set_regs2 (i - 1) _) in E.
  set (text := take (Z.to_nat (size n)) (content f bs)).
  pose proof (content_length f bs (ok_card _ H)) as Hc. pose proof (file_direct _ _ _ Hf) as Hten.
  assert (Hy : (fd_array f1).[i - 1] = Some y) by (subst f1; cbn [fd_array set_regs2 set_fd_array]; rewrite aget_insert by lia; by rewrite decide_True by lia).
  destruct (cat_loop_spec other bf l Hbf Hl (Z.to_nat (size n / 512)) fuel f1 out (i - 1) y n bs text 0 (take 512 b)) as (f' & E' & Hro).
  - lia.
  - by eapply fs_ok_same; [|exact H].
  - exact Hy.
  - done.
  - cbn [y fd_ino]. rewrite Z.mod_small by lia. by apply (inode_at_same f).
  - by destruct Hf; split.
  - cbn. lia.
  - cbn. lia.
  - done.
  - done.
  - cbn [y fd_size]. lia.
  - rewrite length_take. lia.
  - by apply Forall_take.
  - exists f', text. split; [unfold slice; by rewrite decide_True by lia|]. split.
    + unfold case_cat, sys, mbind at 1, E_bind at 1. cbn [files fst snd]. unfold answer. rewrite E. cbn [regs2 f1 set_regs2 set_fd_array].
      rewrite s32_id by (unfold is_s32; lia). rewrite (proj2 (Z.eqb_neq (i - 1) (-1))) by lia.
      assert (Eb : aset b 512 0 = Some (take 512 b ++ [0])).
      { rewrite aset_Some by lia. f_equal. rewrite <- (take_drop 512 b) at 1. destruct (drop 512 b) as [|z [|]] eqn:Ed;
          apply (f_equal length) in Ed; rewrite length_drop, Hb in Ed; try done.
        rewrite insert_app_r_alt by (rewrite length_take; lia). rewrite length_take, Hb. done. }
      rewrite (E_bind_lift _ _ _ _ Eb). exact E'.
    + destruct Hro as (Hsame & -> & _). split; [|done]. exact Hsame.
Qed.

(** The empty file of [FileSystem.example_file]: one empty text is printed. *)
Lemma cat_prints_file_witness : exists (f f' : fs (sd memcard)), fs_ok f /\
  case_cat (files (fun _ w => Ok ((0, []), w))) (replicate 24 0) (replicate 256 0) 1 (replicate 513 9) name_f (f, []) = Ok (tt, (f', [[]])) /\ same_fs f f'.
Proof.
  destruct example_file as (s & n & H & Hd & Hlk & Hn & Hty & Hrep & Hlen & Hsz & Hsa & _).
  edestruct (cat_prints_file (fun _ w => Ok ((0, []), w)) (replicate 24 0) (replicate 256 0) s [] name_f [102] 1 n [] 1 (range 2 63) 1 (replicate 513 9))
    as (f' & text & Ht & E & Hsame & _).
  - split; [|reflexivity]. apply Forall_replicate. by unfold is_u8.
  - rewrite length_replicate. lia.
  - exact H.
  - exact Hd.
  - apply name_f_bytes.
  - reflexivity.
  - exact Hlk.
  - lia.
  - exact Hn.
  - exact Hty.
  - split; [eapply inode_at_wf; [apply (ok_card _ H)|exact Hn]|exact Hsa|cbn; lia|intros ? ? [=]|constructor|].
    intros b Hb. by apply elem_of_nil in Hb.
  - rewrite Hsz. cbn. lia.
  - exact Hrep.
  - exact Hlen.
  - lia.
  - rewrite Hsz. reflexivity.
  - reflexivity.
  - apply Forall_replicate. by unfold is_u8.
  - exists s, f'. split; [exact H|]. split; [|exact Hsame]. rewrite E. rewrite Hsz in *. injection Ht as <-. reflexivity.
Defined.
