(* ===== verification/Mac.v ===== *)
(** The network driver, [drivers/mac.c], with the interrupt controller's set-up [int1_init] and
    [int1_enable] of [kernel/exception/irq.c].

    A register of a device is read and written at an address. What a read gives may depend on all that was
    read and written before: [history] is that sequence, the latest last, and the parameter [device] the
    answer. The two rings of descriptors through which the device is told of buffers are arrays; where
    the linker puts them and the buffers is given by the addresses [tdesc_addr], [rdesc_addr],
    [tbuffer_addr] and [rbuffer_addr]. The waiting for packets is in [Trap], with the scheduler. *)

From S2P Require Import Prelude.

#[local] Ltac Zify.zify_post_hook ::= Z.to_euclidean_division_equations.

Definition GMAC_BASE_ADDR : Z := 0xbfe10000.
Definition DMA_BASE_ADDR : Z := 0xbfe11000.
Definition GmacAddr0High : Z := 0x40.
Definition GmacAddr0Low : Z := 0x44.
Definition DmaStatus : Z := 0x14.
Definition DmaControl : Z := 0x18.
Definition INT1_EN : Z := 0xbfd0105c.
Definition INT1_CLR : Z := 0xbfd01064.
Definition INT1_POL : Z := 0xbfd01068.
Definition INT1_EDGE : Z := 0xbfd0106c.
Definition TDESC_LENGTH : Z := 64.
Definition TBUFFER_SIZE : Z := 1024.
Definition RDESC_LENGTH : Z := 64.
Definition RBUFFER_SIZE : Z := 2047.

Inductive io := Rd (addr data : Z) | Wr (addr data : Z).

Record desc_t := Desc { des0 : Z; des1 : Z; des2 : Z; des3 : Z }.

Record net := Net { history : list io; tdesc : list desc_t; rdesc : list desc_t }.

Definition set_tdesc (v : list desc_t) (s : net) : net := Net (history s) v (rdesc s).
Definition set_rdesc (v : list desc_t) (s : net) : net := Net (history s) (tdesc s) v.
Definition note (x : io) (s : net) : net := Net (history s ++ [x]) (tdesc s) (rdesc s).

Definition N (A : Type) : Type := net -> result (A * net).

#[global] Instance N_ret : MRet N := fun A x s => Ok (x, s).

#[global] Instance N_bind : MBind N := fun A B f m s =>
  match m s with Ok (x, s) => f x s | Fault => Fault | Panic msg => Panic msg | OutOfFuel => OutOfFuel end.

Definition phy_addr (x : Z) : Z := Z.land x 0x1fffffff.

Section driver.
Context (device : list io -> Z -> Z) (tdesc_addr rdesc_addr tbuffer_addr rbuffer_addr : Z).

(** ** Registers *)

Definition reg_read_32 (addr : Z) : N Z := fun s => let data := u32 (device (history s) addr) in Ok (data, note (Rd addr data) s).

Definition reg_write_32 (addr data : Z) : N unit := fun s => Ok (tt, note (Wr addr (u32 data)) s).

Definition read_register (base offset : Z) : N Z := reg_read_32 (u32 (base + offset)).

Definition int1_init : N unit :=
  reg_write_32 INT1_CLR 0xffffffff;;
  reg_write_32 INT1_POL 0xffffffff;;
  reg_write_32 INT1_EDGE 0.

Definition int1_enable (num : Z) : N unit :=
  int1_en ← reg_read_32 INT1_EN;
  reg_write_32 INT1_EN (Z.lor int1_en (Z.shiftl 1 num)).

(** The bytes of [mac_addr] *)
Definition gmac_get_mac_addr : N (list Z) :=
  addr ← read_register GMAC_BASE_ADDR GmacAddr0Low;
  let lo := [Z.land (Z.shiftr addr 0) 0xff; Z.land (Z.shiftr addr 8) 0xff; Z.land (Z.shiftr addr 16) 0xff; Z.land (Z.shiftr addr 24) 0xff] in
  addr ← read_register GMAC_BASE_ADDR GmacAddr0High;
  mret (lo ++ [Z.land (Z.shiftr addr 0) 0xff; Z.land (Z.shiftr addr 8) 0xff]).

Definition set_sram_ctr : N unit := reg_write_32 0xbfd00420 0x8000.

(** The loop of [mac_reset]; it ends when the device has cleared the bit. *)
Fixpoint reset_loop (fuel : nat) : N unit :=
  match fuel with
  | O => fun _ => OutOfFuel
  | S fuel => v ← reg_read_32 DMA_BASE_ADDR; if Z.land v 1 =? 0 then mret tt else reset_loop fuel
  end.

Definition mac_reset (fuel : nat) : N unit := reg_write_32 DMA_BASE_ADDR 1;; reset_loop fuel.

Definition disable_dma_int : N unit := reg_write_32 (DMA_BASE_ADDR + 28) 0.

Definition enable_dma_int : N unit := reg_write_32 (DMA_BASE_ADDR + 28) 0x10041.

Definition MacAddr : list Z := [0x00; 0x55; 0x7b; 0xb5; 0x7d; 0xf7].

Definition set_mac_addr : N unit :=
  let byte i := MacAddr !!! i in
  reg_write_32 (GMAC_BASE_ADDR + 0x40) (Z.lor (Z.shiftl (byte 5%nat) 8) (byte 4%nat));;
  reg_write_32 (GMAC_BASE_ADDR + 0x44)
    (Z.lor (Z.lor (Z.lor (Z.shiftl (byte 3%nat) 24) (Z.shiftl (byte 2%nat) 16)) (Z.shiftl (byte 1%nat) 8)) (byte 0%nat)).

Definition clear_dma_interrupt : N unit :=
  data ← reg_read_32 (DMA_BASE_ADDR + DmaStatus);
  reg_write_32 (DMA_BASE_ADDR + DmaStatus) data.

Definition do_init_mac (fuel : nat) : N unit :=
  set_sram_ctr;;
  mac_reset fuel;;
  int1_init;;
  int1_enable 3;;
  clear_dma_interrupt;;
  enable_dma_int;;
  set_mac_addr;;
  v ← reg_read_32 GMAC_BASE_ADDR;
  reg_write_32 GMAC_BASE_ADDR (Z.lor v 4);;
  v ← reg_read_32 GMAC_BASE_ADDR;
  reg_write_32 GMAC_BASE_ADDR (Z.lor v 8).

Definition mii_dul_force : N unit :=
  reg_write_32 DMA_BASE_ADDR 0;;
  v ← reg_read_32 GMAC_BASE_ADDR;
  reg_write_32 GMAC_BASE_ADDR (Z.lor (Z.lor v 0xc800) (Z.shiftl 1 8));;
  v ← reg_read_32 (GMAC_BASE_ADDR + 4);
  reg_write_32 (GMAC_BASE_ADDR + 4) (Z.lor v 0x80000001).

Definition dma_control_init (init_value : Z) : N unit := reg_write_32 (DMA_BASE_ADDR + DmaControl) init_value.

(** ** Descriptors *)

(** The two rings: [tdesc] and [rdesc] *)
Inductive ring := Send | Recv.

Definition descs (r : ring) (s : net) : list desc_t := match r with Send => tdesc s | Recv => rdesc s end.

Definition set_descs (r : ring) (v : list desc_t) (s : net) : net := match r with Send => set_tdesc v s | Recv => set_rdesc v s end.

(** [tdesc[i] = d] or [rdesc[i] = d] *)
Definition put_desc (r : ring) (i : Z) (d : desc_t) : N unit := fun s =>
  match aset (descs r s) i d with Some v => Ok (tt, set_descs r v s) | None => Fault end.

Definition ring_addr (r : ring) : Z := match r with Send => tdesc_addr | Recv => rdesc_addr end.

(** [&tdesc[i]] or [&rdesc[i]]; [&tbuffer[i]] or [&rbuffer[i]] *)
Definition desc_at (r : ring) (i : Z) : Z := ring_addr r + 16 * i.

Definition buffer_at (r : ring) (i : Z) : Z := match r with Send => tbuffer_addr + TBUFFER_SIZE * i | Recv => rbuffer_addr + RBUFFER_SIZE * i end.

(** The loop of [send_desc_init] or [recv_desc_init], with its value for [des1] *)
Fixpoint desc_loop (r : ring) (des1 : Z) (n : nat) (i : Z) : N unit :=
  match n with
  | O => mret tt
  | S n => put_desc r i (Desc 0 des1 (phy_addr (buffer_at r i)) (phy_addr (desc_at r (i + 1))));; desc_loop r des1 n (i + 1)
  end.

Definition send_desc_init : N unit :=
  desc_loop Send 0x61000400 63 0;;
  put_desc Send 63 (Desc 0 0x63000400 (phy_addr (buffer_at Send 63)) (phy_addr (desc_at Send 0))).

Definition recv_desc_init : N unit :=
  desc_loop Recv 0x010007ff 63 0;;
  put_desc Recv 63 (Desc 0 0x030007ff (phy_addr (buffer_at Recv 63)) (phy_addr (desc_at Recv 0))).

(** [des0 = 0x80000000], of the descriptors from [i] on: they belong to the device. *)
Definition give (d : desc_t) : desc_t := Desc 0x80000000 (des1 d) (des2 d) (des3 d).

Definition give_desc (r : ring) (i : Z) : N unit := fun s =>
  match (descs r s).[i] with Some d => put_desc r i (give d) s | None => Fault end.

Fixpoint give_loop (r : ring) (n : nat) (i : Z) : N unit :=
  match n with O => mret tt | S n => give_desc r i;; give_loop r n (i + 1) end.

(** [n] writes of 1 to the register that makes the device look for a descriptor *)
Fixpoint poll (n : nat) (addr : Z) : N unit :=
  match n with O => mret tt | S n => reg_write_32 addr 1;; poll n addr end.

Definition do_net_send : N unit :=
  reg_write_32 (DMA_BASE_ADDR + 16) (phy_addr tdesc_addr);;
  v ← reg_read_32 (DMA_BASE_ADDR + 24);
  reg_write_32 (DMA_BASE_ADDR + 24) (Z.lor v 0x02202000);;
  give_loop Send 64 0;;
  poll 64 (DMA_BASE_ADDR + 4).

Definition do_net_recv : N unit :=
  reg_write_32 (DMA_BASE_ADDR + 12) (phy_addr rdesc_addr);;
  v ← reg_read_32 (DMA_BASE_ADDR + 24);
  reg_write_32 (DMA_BASE_ADDR + 24) (Z.lor v 0x02200002);;
  give_loop Recv 64 0;;
  poll 64 (DMA_BASE_ADDR + 8).

(** ** Buffers, as arrays of 32-bit words *)

(** The inner loop of [set_buffer], from [data_32] on, and the outer one *)
Fixpoint copy_words (n : nat) (data : list Z) (area : list Z) (p : Z) : option (list Z) :=
  match n with
  | O => Some area
  | S n => match data with [] => None | w :: data => area ← aset area p w; copy_words n data area (p + 1) end
  end.

Fixpoint copy_blocks (n : nat) (data area : list Z) (p : Z) : option (list Z) :=
  match n with
  | O => Some area
  | S n => area ← copy_words 256 data area p; copy_blocks n data area (p + 256)
  end.

(** [buffer] is the address, [area] the words from there on. *)
Definition set_buffer (buffer : Z) (area data : list Z) : result (list Z) :=
  if negb (u32 buffer mod 4 =? 0) then Panic "Unaligned buffer address."
  else match copy_blocks 64 data area 0 with Some area => Ok area | None => Fault end.

Fixpoint zero_words (n : nat) (area : list Z) (p : Z) : option (list Z) :=
  match n with
  | O => Some area
  | S n => area ← aset area p 0; zero_words n area (p + 1)
  end.

Definition empty_buffer (buffer : Z) (area : list Z) : result (list Z) :=
  if negb (u32 buffer mod 4 =? 0) then Panic "Unaligned buffer address."
  else match zero_words (64 * 256) area 0 with Some area => Ok area | None => Fault end.
End driver.

(** ** Specification *)

(** The descriptor at a physical address, and the one the device comes to after [k] steps along [des3] *)
Definition fetch (base : Z) (v : list desc_t) (p : Z) : option desc_t :=
  let q := p - phy_addr base in if decide (q mod 16 = 0) then v.[q / 16] else None.

Fixpoint walk (base : Z) (v : list desc_t) (k : nat) : option desc_t :=
  match k with
  | O => fetch base v (phy_addr base)
  | S k => d ← walk base v k; fetch base v (des3 d)
  end.

(** [n] bytes from [x] on lie in one of the two segments of the processor that are not mapped, kseg0 and
    kseg1; the kernel is linked into the second, at 0xa0800000. Each shows the same physical memory, from 0 on. *)
Definition unmapped (x n : Z) : Prop := (0x80000000 <= x /\ x + n <= 0xa0000000) \/ (0xa0000000 <= x /\ x + n <= 0xc0000000).

Definition physical (x : Z) : Z := x - (if x <? 0xa0000000 then 0x80000000 else 0xa0000000).

(** What was written last to a register, 0 before *)
Definition last_written (h : list io) (a : Z) : Z :=
  foldl (fun v x => match x with Wr b w => if b =? a then w else v | Rd _ _ => v end) 0 h.

(** ** Lemmas *)

Lemma phy_addr_unmapped x n d : unmapped x n -> 0 <= d < n -> phy_addr (x + d) = physical x + d.
Proof.
  intros H Hd. unfold phy_addr, physical. change 0x1fffffff with (Z.ones 29). rewrite Z.land_ones by lia. change (2 ^ 29) with 536870912.
  unfold unmapped in H. case_cmp; lia.
Qed.

Lemma phy_addr_base x n : unmapped x n -> 0 < n -> phy_addr x = physical x.
Proof. intros H Hn. pose proof (phy_addr_unmapped x n 0 H ltac:(lia)) as E. by rewrite !Z.add_0_r in E. Qed.

Lemma physical_bound x n : unmapped x n -> 0 < n -> 0 <= physical x < 0x20000000.
Proof. unfold unmapped, physical. case_cmp; lia. Qed.

Section rings.
Context (tdesc_addr rdesc_addr tbuffer_addr rbuffer_addr : Z).
Abbreviation desc_at := (desc_at tdesc_addr rdesc_addr).
Abbreviation buffer_at := (buffer_at tbuffer_addr rbuffer_addr).
Abbreviation ring_addr := (ring_addr tdesc_addr rdesc_addr).

Lemma N_bind_Ok {A B} (m : N A) (f : A -> N B) s x s' : m s = Ok (x, s') -> (m ≫= f) s = f x s'.
Proof. unfold mbind, N_bind. by intros ->. Qed.

Lemma put_desc_Ok r i d s : 0 <= i < Z.of_nat (length (descs r s)) -> put_desc r i d s = Ok (tt, set_descs r (<[Z.to_nat i := d]> (descs r s)) s).
Proof. intros H. unfold put_desc. by rewrite aset_Some. Qed.

Lemma set_descs_twice r v w s : set_descs r v (set_descs r w s) = set_descs r v s.
Proof. by destruct r. Qed.

Lemma descs_set r v s : descs r (set_descs r v s) = v.
Proof. by destruct r. Qed.

(** A loop that writes [f i] to place [i], where [f] may look at what is there *)
Definition updated (f : nat -> desc_t -> desc_t) (i n : nat) (v : list desc_t) : list desc_t :=
  imap (fun j d => if decide (i <= j < i + n)%nat then f j d else d) v.

Lemma updated_length f i n v : length (updated f i n v) = length v.
Proof. apply length_imap. Qed.

Lemma updated_0 f i v : updated f i 0 v = v.
Proof. apply list_eq. intros j. unfold updated. rewrite list_lookup_imap. destruct (v !! j); cbn; [|done]. by rewrite decide_False by lia. Qed.

Lemma updated_S f i n v d : v !! i = Some d -> updated f (S i) n (<[i := f i d]> v) = updated f i (S n) v.
Proof.
  intros Hd. apply list_eq. intros j. unfold updated. rewrite !list_lookup_imap. destruct (decide (j = i)) as [->|Hn].
  - apply lookup_lt_Some in Hd as Hl. rewrite list_lookup_insert_eq, Hd by done. cbn. by rewrite decide_False, decide_True by lia.
  - rewrite list_lookup_insert_ne by done. destruct (v !! j); cbn; [|done]. f_equal. repeat case_decide; first [done|lia].
Qed.

Lemma desc_loop_spec r d1 n : forall (i : nat) s, (i + n <= length (descs r s))%nat ->
  desc_loop tdesc_addr rdesc_addr tbuffer_addr rbuffer_addr r d1 n (Z.of_nat i) s =
    Ok (tt, set_descs r (updated (fun j _ => Desc 0 d1 (phy_addr (buffer_at r (Z.of_nat j))) (phy_addr (desc_at r (Z.of_nat j + 1)))) i n (descs r s)) s).
Proof.
  induction n as [|n IH]; intros i s Hi; cbn [desc_loop].
  { rewrite updated_0. by destruct r, s. }
  destruct (lookup_lt_is_Some_2 (descs r s) i) as [d Hd]; [lia|].
  rewrite (N_bind_Ok _ _ _ _ _ (put_desc_Ok r (Z.of_nat i) _ s ltac:(lia))). assert (Ei : Z.of_nat i + 1 = Z.of_nat (S i)) by lia. rewrite Ei.
  rewrite IH by (rewrite descs_set, length_insert; lia). rewrite descs_set, set_descs_twice, Nat2Z.id. do 3 f_equal.
  rewrite <- (updated_S _ i n _ d Hd). cbv beta. by rewrite Ei.
Qed.

Lemma give_loop_spec r n : forall (i : nat) s, (i + n <= length (descs r s))%nat ->
  give_loop r n (Z.of_nat i) s = Ok (tt, set_descs r (updated (fun _ => give) i n (descs r s)) s).
Proof.
  induction n as [|n IH]; intros i s Hi; cbn [give_loop].
  { rewrite updated_0. by destruct r, s. }
  destruct (lookup_lt_is_Some_2 (descs r s) i) as [d Hd]; [lia|].
  assert (Eg : give_desc r (Z.of_nat i) s = Ok (tt, set_descs r (<[i := give d]> (descs r s)) s)).
  { unfold give_desc. rewrite aget_nat, Hd, put_desc_Ok by lia. by rewrite Nat2Z.id. }
  rewrite (N_bind_Ok _ _ _ _ _ Eg). replace (Z.of_nat i + 1) with (Z.of_nat (S i)) by lia.
  rewrite IH by (rewrite descs_set, length_insert; lia). rewrite descs_set, set_descs_twice. do 3 f_equal.
  apply (updated_S (fun _ => give) i n _ d Hd).
Qed.

Lemma poll_spec n addr s : poll n addr s = Ok (tt, Net (history s ++ replicate n (Wr addr 1)) (tdesc s) (rdesc s)).
Proof.
  revert s. induction n as [|n IH]; intros s; cbn [poll replicate].
  - rewrite app_nil_r. by destruct s.
  - unfold mbind, N_bind, reg_write_32. rewrite IH. cbn. by rewrite <- app_assoc.
Qed.

(** The descriptors of a ring that is ready: each belongs to the device, names its buffer and the next one. *)
Definition ready (r : ring) (d1 d1_last : Z) (v : list desc_t) : Prop :=
  length v = 64%nat /\ forall i : nat, (i < 64)%nat -> v !! i = Some (Desc 0x80000000 (if decide (i = 63)%nat then d1_last else d1)
    (phy_addr (buffer_at r (Z.of_nat i))) (phy_addr (desc_at r (Z.of_nat ((i + 1) mod 64))))).

Lemma walk_ready r d1 d1_last v k : ready r d1 d1_last v -> unmapped (ring_addr r) 1024 -> walk (ring_addr r) v k = v !! (k mod 64)%nat.
Proof.
  intros [Hl Hv] Hk.
  assert (Hphy : forall i : nat, (i < 64)%nat -> fetch (ring_addr r) v (phy_addr (desc_at r (Z.of_nat i))) = v !! i).
  { intros i Hi. unfold fetch, desc_at. rewrite (phy_addr_unmapped _ 1024), (phy_addr_base _ 1024) by (done || lia).
    replace (physical (ring_addr r) + 16 * Z.of_nat i - physical (ring_addr r)) with (16 * Z.of_nat i) by lia.
    rewrite decide_True by lia. replace (16 * Z.of_nat i / 16) with (Z.of_nat i) by lia. apply aget_nat. }
  induction k as [|k IH]; cbn [walk].
  - change (0 mod 64)%nat with 0%nat. rewrite <- (Hphy 0%nat) by lia. unfold desc_at. by rewrite Z.mul_0_r, Z.add_0_r.
  - rewrite IH, (Hv (k mod 64)%nat) by (apply Nat.mod_upper_bound; lia). cbn [mbind option_bind des3].
    rewrite Nat.Div0.add_mod_idemp_l, Nat.add_1_r. apply Hphy, Nat.mod_upper_bound. lia.
Qed.

(** Setting a ring up and giving it to the device *)
Lemma ring_ready r d1 d1_last s : length (descs r s) = 64%nat ->
  exists v, (desc_loop tdesc_addr rdesc_addr tbuffer_addr rbuffer_addr r d1 63 0;;
      put_desc r 63 (Desc 0 d1_last (phy_addr (buffer_at r 63)) (phy_addr (desc_at r 0)))) s = Ok (tt, set_descs r v s) /\
    length v = 64%nat /\ forall s', descs r s' = v -> exists w, give_loop r 64 0 s' = Ok (tt, set_descs r w s') /\ ready r d1 d1_last w.
Proof.
  intros Hl. pose proof (desc_loop_spec r d1 63 0 s ltac:(lia)) as E. change (Z.of_nat 0) with 0 in E.
  set (u := updated _ 0 63 (descs r s)) in E. assert (Hu : length u = 64%nat) by (unfold u; by rewrite updated_length).
  eexists. split; [rewrite (N_bind_Ok _ _ _ _ _ E), put_desc_Ok by (rewrite descs_set; lia); rewrite set_descs_twice, descs_set; done|].
  split; [by rewrite length_insert|]. intros s' Hs'. pose proof (give_loop_spec r 64 0 s') as Eg. rewrite Hs' in Eg. change (Z.of_nat 0) with 0 in Eg.
  rewrite length_insert in Eg. eexists. split; [apply Eg; lia|]. split; [by rewrite updated_length, length_insert|].
  intros i Hi. unfold updated at 1. rewrite list_lookup_imap. change (Z.to_nat 63) with 63%nat. destruct (decide (i = 63)%nat) as [->|Hn].
  - rewrite list_lookup_insert_eq by lia. cbn. done.
  - rewrite list_lookup_insert_ne by done. unfold u, updated. rewrite list_lookup_imap.
    destruct (lookup_lt_is_Some_2 (descs r s) i) as [d ->]; [lia|]. cbn [fmap option_fmap option_map]. rewrite !decide_True by lia.
    unfold give. cbn [des1 des2 des3]. do 4 f_equal. rewrite Nat.mod_small by lia. lia.
Qed.
End rings.

(** *** Registers *)

Lemma last_written_app h x a : last_written (h ++ [x]) a = match x with Wr b w => if b =? a then w else last_written h a | Rd _ _ => last_written h a end.
Proof. unfold last_written. by rewrite foldl_app. Qed.

(** [mac_reset] ends when the device, after [m] accesses at the latest, has cleared the bit. *)
Lemma reset_loop_ends device m : (forall h, (m <= length h)%nat -> Z.land (u32 (device h DMA_BASE_ADDR)) 1 = 0) ->
  forall n s, (m <= length (history s) + n)%nat -> exists s', reset_loop device (S n) s = Ok (tt, s').
Proof.
  intros Hd. induction n as [|n IH]; intros s Hn; cbn [reset_loop]; unfold mbind, N_bind, reg_read_32.
  - rewrite Hd by lia. by eexists.
  - destruct (Z.land (u32 (device (history s) DMA_BASE_ADDR)) 1 =? 0); [by eexists|]. apply IH. cbn. rewrite length_app. cbn. lia.
Qed.

Lemma mac_reset_ends device m s : (forall h, (m <= length h)%nat -> Z.land (u32 (device h DMA_BASE_ADDR)) 1 = 0) ->
  exists s', mac_reset device (S m) s = Ok (tt, s').
Proof. intros Hd. apply (reset_loop_ends device m Hd). lia. Qed.

(** *** Buffers *)

Lemma copy_words_spec n : forall data pre area, (n <= length data)%nat -> (n <= length area)%nat ->
  copy_words n data (pre ++ area) (Z.of_nat (length pre)) = Some ((pre ++ take n data) ++ drop n area).
Proof.
  induction n as [|n IH]; intros data pre area Hd Ha; cbn [copy_words].
  { by rewrite take_0, app_nil_r, drop_0. }
  destruct data as [|w data]; [cbn in Hd; lia|]. destruct area as [|x area]; [cbn in Ha; lia|].
  rewrite aset_Some by (rewrite length_app; cbn; lia). rewrite Nat2Z.id, insert_app_r_alt, Nat.sub_diag by lia. cbn [mbind option_bind].
  change (<[0%nat := w]> (x :: area)) with (w :: area). replace (pre ++ w :: area) with ((pre ++ [w]) ++ area) by by rewrite <- app_assoc.
  replace (Z.of_nat (length pre) + 1) with (Z.of_nat (length (pre ++ [w]))) by (rewrite length_app; cbn; lia).
  rewrite IH by (cbn in *; lia). cbn [take drop]. by rewrite <- (app_assoc pre [w]).
Qed.

Lemma copy_blocks_spec n : forall data pre area, (256 <= length data)%nat -> (n * 256 <= length area)%nat ->
  copy_blocks n data (pre ++ area) (Z.of_nat (length pre)) = Some ((pre ++ concat (replicate n (take 256 data))) ++ drop (n * 256) area).
Proof.
  induction n as [|n IH]; intros data pre area Hd Ha; cbn [copy_blocks].
  { cbn. by rewrite app_nil_r, drop_0. }
  rewrite copy_words_spec by lia. cbn [mbind option_bind].
  replace (Z.of_nat (length pre) + 256) with (Z.of_nat (length (pre ++ take 256 data))) by (rewrite length_app, length_take; lia).
  rewrite IH by (rewrite ?length_drop; lia). rewrite drop_drop. cbn [replicate concat]. f_equal. rewrite <- !app_assoc. do 3 f_equal.
Qed.

Lemma zero_words_spec n : forall pre area, (n <= length area)%nat ->
  zero_words n (pre ++ area) (Z.of_nat (length pre)) = Some ((pre ++ replicate n 0) ++ drop n area).
Proof.
  induction n as [|n IH]; intros pre area Ha; cbn [zero_words].
  { cbn. by rewrite app_nil_r, drop_0. }
  destruct area as [|x area]; [cbn in Ha; lia|]. rewrite aset_Some by (rewrite length_app; cbn; lia).
  rewrite Nat2Z.id, insert_app_r_alt, Nat.sub_diag by lia. cbn [mbind option_bind].
  change (<[0%nat := 0]> (x :: area)) with (0 :: area). replace (pre ++ 0 :: area) with ((pre ++ [0]) ++ area) by by rewrite <- app_assoc.
  replace (Z.of_nat (length pre) + 1) with (Z.of_nat (length (pre ++ [0]))) by (rewrite length_app; cbn; lia).
  rewrite IH by (cbn in *; lia). cbn [replicate drop]. by rewrite <- (app_assoc pre [0]).
Qed.

(** *** What the buffers hold after [set_buffer] and [empty_buffer] *)

Lemma set_buffer_spec buffer area data : u32 buffer mod 4 = 0 -> (256 <= length data)%nat -> (64 * 256 <= length area)%nat ->
  set_buffer buffer area data = Ok (concat (replicate 64 (take 256 data)) ++ drop (64 * 256) area).
Proof.
  intros H Hd Ha. unfold set_buffer. rewrite H. cbn [Z.eqb negb].
  pose proof (copy_blocks_spec 64 data [] area Hd ltac:(lia)) as E. cbn [app length] in E. change (Z.of_nat 0) with 0 in E. by rewrite E.
Qed.

Lemma empty_buffer_spec buffer area : u32 buffer mod 4 = 0 -> (64 * 256 <= length area)%nat ->
  empty_buffer buffer area = Ok (replicate (64 * 256) 0 ++ drop (64 * 256) area).
Proof.
  intros H Ha. unfold empty_buffer. rewrite H. cbn [Z.eqb negb].
  pose proof (zero_words_spec (64 * 256) [] area ltac:(lia)) as E. cbn [app length] in E. change (Z.of_nat 0) with 0 in E. by rewrite E.
Qed.

(** ** Theorems *)

(** C28. After [recv_desc_init] and [do_net_recv], and after [send_desc_init] and [do_net_send], the device is
    ready: going along the ring from the address it has been given, for any number of steps, it
    finds a descriptor that belongs to it, which names the buffer of that number, whose length is
    the length the descriptor gives; it has been told the physical address of the ring before it was started, and
    then polled once for each descriptor. The other ring is left alone. The rings and the buffers may be anywhere in the
    two unmapped segments, as the kernel's, linked at 0xa0800000, are. *)
Theorem net_rings_ready (device : list io -> Z -> Z) (tdesc_addr rdesc_addr tbuffer_addr rbuffer_addr : Z) (s : net)
    (Ht : unmapped tdesc_addr 1024) (Hr : unmapped rdesc_addr 1024) (Htb : unmapped tbuffer_addr (64 * TBUFFER_SIZE))
    (Hrb : unmapped rbuffer_addr (64 * RBUFFER_SIZE)) (Hlt : length (tdesc s) = 64%nat) (Hlr : length (rdesc s) = 64%nat) :
  (exists s' v, (recv_desc_init tdesc_addr rdesc_addr tbuffer_addr rbuffer_addr;; do_net_recv device rdesc_addr) s = Ok (tt, s') /\ tdesc s' = tdesc s /\
    history s' = history s ++ [Wr (DMA_BASE_ADDR + 12) (physical rdesc_addr); Rd (DMA_BASE_ADDR + 24) v; Wr (DMA_BASE_ADDR + 24) (u32 (Z.lor v 0x02200002))] ++
      replicate 64 (Wr (DMA_BASE_ADDR + 8) 1) /\
    forall k, exists d, walk rdesc_addr (rdesc s') k = Some d /\ des0 d = 0x80000000 /\ Z.land (des1 d) 0x7ff = RBUFFER_SIZE /\
      des2 d = physical rbuffer_addr + RBUFFER_SIZE * Z.of_nat (k mod 64)) /\
  (exists s' v, (send_desc_init tdesc_addr rdesc_addr tbuffer_addr rbuffer_addr;; do_net_send device tdesc_addr) s = Ok (tt, s') /\ rdesc s' = rdesc s /\
    history s' = history s ++ [Wr (DMA_BASE_ADDR + 16) (physical tdesc_addr); Rd (DMA_BASE_ADDR + 24) v; Wr (DMA_BASE_ADDR + 24) (u32 (Z.lor v 0x02202000))] ++
      replicate 64 (Wr (DMA_BASE_ADDR + 4) 1) /\
    forall k, exists d, walk tdesc_addr (tdesc s') k = Some d /\ des0 d = 0x80000000 /\ Z.land (des1 d) 0x7ff = TBUFFER_SIZE /\
      des2 d = physical tbuffer_addr + TBUFFER_SIZE * Z.of_nat (k mod 64)).
Proof.
  split.
  - destruct (ring_ready tdesc_addr rdesc_addr tbuffer_addr rbuffer_addr Recv 0x010007ff 0x030007ff s Hlr) as (v & E & Hv & Hg).
    unfold recv_desc_init. rewrite (N_bind_Ok _ _ _ _ _ E). unfold do_net_recv, reg_write_32, reg_read_32, mbind, N_bind. cbv beta iota zeta.
    match goal with |- context [give_loop Recv 64 0 ?t] => destruct (Hg t eq_refl) as (w & Eg & Hw) end.
    rewrite Eg, poll_spec. eexists _, _. split; [done|]. split; [done|]. split.
    + cbn [history set_descs set_rdesc note]. rewrite <- !app_assoc. cbn [app]. unfold u32 at 1. rewrite (phy_addr_base _ _ Hr) by lia.
      rewrite Z.mod_small by (pose proof (physical_bound _ _ Hr); lia). done.
    + intros k. cbn [rdesc set_descs set_rdesc]. destruct Hw as [Hl64 Hw]. eexists.
      pose proof (walk_ready tdesc_addr rdesc_addr tbuffer_addr rbuffer_addr Recv _ _ w k (conj Hl64 Hw) Hr) as Ew. cbn [ring_addr] in Ew. rewrite Ew.
      split; [apply Hw, Nat.mod_upper_bound; lia|]. cbn [des0 des1 des2 buffer_at]. split; [done|]. split; [by case_decide|].
      pose proof (Nat.mod_upper_bound k 64 ltac:(lia)). apply (phy_addr_unmapped _ _ _ Hrb). unfold RBUFFER_SIZE. lia.
  - destruct (ring_ready tdesc_addr rdesc_addr tbuffer_addr rbuffer_addr Send 0x61000400 0x63000400 s Hlt) as (v & E & Hv & Hg).
    unfold send_desc_init. rewrite (N_bind_Ok _ _ _ _ _ E). unfold do_net_send, reg_write_32, reg_read_32, mbind, N_bind. cbv beta iota zeta.
    match goal with |- context [give_loop Send 64 0 ?t] => destruct (Hg t eq_refl) as (w & Eg & Hw) end.
    rewrite Eg, poll_spec. eexists _, _. split; [done|]. split; [done|]. split.
    + cbn [history set_descs set_tdesc note]. rewrite <- !app_assoc. cbn [app]. unfold u32 at 1. rewrite (phy_addr_base _ _ Ht) by lia.
      rewrite Z.mod_small by (pose proof (physical_bound _ _ Ht); lia). done.
    + intros k. cbn [tdesc set_descs set_tdesc]. destruct Hw as [Hl64 Hw]. eexists.
      pose proof (walk_ready tdesc_addr rdesc_addr tbuffer_addr rbuffer_addr Send _ _ w k (conj Hl64 Hw) Ht) as Ew. cbn [ring_addr] in Ew. rewrite Ew.
      split; [apply Hw, Nat.mod_upper_bound; lia|]. cbn [des0 des1 des2 buffer_at]. split; [done|]. split; [by case_decide|].
      pose proof (Nat.mod_upper_bound k 64 ltac:(lia)). apply (phy_addr_unmapped _ _ _ Htb). unfold TBUFFER_SIZE. lia.
Qed.

(** [gmac_get_mac_addr] gives back the address [set_mac_addr] has set, when the address registers keep what is
    written to them. *)
Theorem mac_addr_roundtrip (device : list io -> Z -> Z) (s : net)
    (Hdev : forall h a, a = GMAC_BASE_ADDR + GmacAddr0Low \/ a = GMAC_BASE_ADDR + GmacAddr0High -> device h a = last_written h a) :
  exists s', (set_mac_addr;; gmac_get_mac_addr device) s = Ok (MacAddr, s').
Proof.
  unfold set_mac_addr, gmac_get_mac_addr, read_register, reg_read_32, reg_write_32, mbind, N_bind. cbn [history note].
  change (u32 (GMAC_BASE_ADDR + GmacAddr0Low)) with (GMAC_BASE_ADDR + GmacAddr0Low).
  change (u32 (GMAC_BASE_ADDR + GmacAddr0High)) with (GMAC_BASE_ADDR + GmacAddr0High).
  rewrite !Hdev by tauto. rewrite !last_written_app. eexists. reflexivity.
Qed.

Lemma net_rings_ready_witness : exists s' v, (recv_desc_init 0xa0a00000 0xa0b00000 0xa0c00000 0xa0d00000;; do_net_recv (fun _ _ => 0) 0xa0b00000)
    (Net [] (replicate 64 (Desc 0 0 0 0)) (replicate 64 (Desc 0 0 0 0))) = Ok (tt, s') /\
  history s' = [Wr (DMA_BASE_ADDR + 12) 0xb00000; Rd (DMA_BASE_ADDR + 24) v; Wr (DMA_BASE_ADDR + 24) (u32 (Z.lor v 0x02200002))] ++ replicate 64 (Wr (DMA_BASE_ADDR + 8) 1).
Proof.
  destruct (net_rings_ready (fun _ _ => 0) 0xa0a00000 0xa0b00000 0xa0c00000 0xa0d00000 (Net [] (replicate 64 (Desc 0 0 0 0)) (replicate 64 (Desc 0 0 0 0))))
    as ((s' & v & E & _ & Eh & _) & _).
  - unfold unmapped. lia.
  - unfold unmapped. lia.
  - unfold unmapped, TBUFFER_SIZE. lia.
  - unfold unmapped, RBUFFER_SIZE. lia.
  - reflexivity.
  - reflexivity.
  - exists s', v. split; [exact E|exact Eh].
Defined.
