(* ===== verification/Loader.v ===== *)
(** The program loader, [kernel/software/run.c], with the headers of executables in [libs/elf32.h].

    The command [run] of the shell reads the first 2047 bytes of a file into [run_buf] and starts a task at
    [sw_run], which copies one segment to address 0 and jumps there. The memory of that task, by
    addresses, is a list of bytes; it includes [run_buf], which the kernel's addresses reach. *)

From S2P Require Import Prelude CString Layout.

#[local] Ltac Zify.zify_post_hook ::= Z.to_euclidean_division_equations.

(** ** The headers *)

(** [uint16_t] *)
Definition le2 (z : Z) : list Z := [z mod 256; z / 256 mod 256].

Definition of_le2 (l : list Z) : Z := match l with a :: b :: _ => a + 256 * b | _ => 0 end.

Definition u16_l : layout Z := Layout 2 le2 of_le2 (fun z => 0 <= z < 65536).

Definition EI_NIDENT : nat := 16.

Record Elf32_Ehdr := Ehdr {
  e_ident : list Z; e_type : Z; e_machine : Z; e_version : Z; e_entry : Z; e_phoff : Z; e_shoff : Z; e_flags : Z;
  e_ehsize : Z; e_phentsize : Z; e_phnum : Z; e_shentsize : Z; e_shnum : Z; e_shstrndx : Z
}.

Record Elf32_Phdr := Phdr {
  p_type : Z; p_offset : Z; p_vaddr : Z; p_paddr : Z; p_filesz : Z; p_memsz : Z; p_flags : Z; p_align : Z
}.

Definition Elf32_Ehdr_l : layout Elf32_Ehdr :=
  iso_l (fun '(a, (b, (c, (d, (e, (f, (g, (h, (i, (j, (k, (l, (m, n))))))))))))) => Ehdr a b c d e f g h i j k l m n)
    (fun h => (e_ident h, (e_type h, (e_machine h, (e_version h, (e_entry h, (e_phoff h, (e_shoff h, (e_flags h,
      (e_ehsize h, (e_phentsize h, (e_phnum h, (e_shentsize h, (e_shnum h, e_shstrndx h))))))))))))))
    (pair_l (arr_l EI_NIDENT u8_l) (pair_l u16_l (pair_l u16_l (pair_l u32_l (pair_l u32_l (pair_l u32_l (pair_l u32_l
      (pair_l u32_l (pair_l u16_l (pair_l u16_l (pair_l u16_l (pair_l u16_l (pair_l u16_l u16_l))))))))))))).

Definition Elf32_Phdr_l : layout Elf32_Phdr :=
  iso_l (fun '(a, (b, (c, (d, (e, (f, (g, h))))))) => Phdr a b c d e f g h)
    (fun p => (p_type p, (p_offset p, (p_vaddr p, (p_paddr p, (p_filesz p, (p_memsz p, (p_flags p, p_align p))))))))
    (pair_l u32_l (pair_l u32_l (pair_l u32_l (pair_l u32_l (pair_l u32_l (pair_l u32_l (pair_l u32_l u32_l))))))).

(** ** The code *)

(** The address of [run_buf] *)
Section run.
Context (run_buf : Z).

(** The 32 bits at an address *)
Definition word (m : list Z) (a : Z) : option Z := w ← slice m a 4; Some (of_le4 w).

(** [e_phoff], [p_offset] and [p_filesz] are 28, 4 and 16 bytes from the start of their headers. *)
Definition sw_run (m : list Z) : option (list Z) :=
  phoff ← word m (run_buf + 28);
  let phdr := u32 (run_buf + phoff) in
  offset ← word m (u32 (phdr + 4));
  filesz ← word m (u32 (phdr + 16));
  memcopy m 0 (u32 (run_buf + offset)) (s32 filesz).

End run.

(** ** The layouts *)

#[global] Instance u16_lawful : Lawful u16_l.
Proof.
  split; cbn [lsize enc dec wf u16_l].
  - done.
  - intros a Ha. unfold le2, is_u8. repeat constructor; lia.
  - intros a r Ha. cbn. lia.
  - intros l Hl Hn. destruct l as [|a [|b l]]; cbn in Hn; try lia. unfold bytes_ok in Hl. rewrite !Forall_cons in Hl.
    unfold is_u8 in *. cbn. lia.
  - intros l Hl Hn. destruct l as [|a [|b l]]; cbn in Hn; try lia. unfold bytes_ok in Hl. rewrite !Forall_cons in Hl.
    unfold is_u8, le2 in *. cbn [of_le2 take]. repeat f_equal; lia.
Qed.

#[global] Instance Ehdr_lawful : Lawful Elf32_Ehdr_l.
Proof. apply iso_lawful; [by intros (?&?&?&?&?&?&?&?&?&?&?&?&?&?)|by intros []|apply _]. Qed.

#[global] Instance Phdr_lawful : Lawful Elf32_Phdr_l.
Proof. apply iso_lawful; [by intros (?&?&?&?&?&?&?&?)|by intros []|apply _]. Qed.

(** A number behind [a] bytes *)
Lemma word_of (l1 r : list Z) (a z : Z) : is_u32 z -> Z.of_nat (length l1) = a -> word (l1 ++ le4 z ++ r) a = Some z.
Proof.
  intros Hz Hl. unfold word, slice. rewrite decide_True by (rewrite !length_app; cbn; lia). cbn [mbind option_bind].
  rewrite drop_app_length' by lia. change (Z.to_nat 4) with (length (le4 z)). rewrite take_app_length. f_equal.
  rewrite <- (app_nil_r (le4 z)). by apply (dec_enc (L := u32_l)).
Qed.

(** Reading in a part of the memory *)
Lemma slice_slice (m r : list Z) b n a k : slice m b n = Some r -> 0 <= a -> a + k <= n -> slice m (b + a) k = slice r a k.
Proof.
  intros (Hb & Hn & Hm & ->)%slice_Some Ha Hk. unfold slice. rewrite length_take, length_drop.
  destruct (decide (0 <= k)); [|by rewrite !decide_False by lia]. rewrite !decide_True by lia.
  rewrite skipn_firstn_comm, take_take, drop_drop. do 2 f_equal; [lia|f_equal; lia].
Qed.

Lemma word_slice (m r : list Z) b n a : slice m b n = Some r -> 0 <= a -> a + 4 <= n -> word m (b + a) = word r a.
Proof. intros Hr Ha Hn. unfold word. by rewrite (slice_slice m r b n a 4). Qed.

(** The fields [sw_run] reads lie where it reads them. *)
Lemma word_phoff (h : Elf32_Ehdr) r : wf Elf32_Ehdr_l h -> word (enc Elf32_Ehdr_l h ++ r) 28 = Some (e_phoff h).
Proof.
  destruct h as [id t mc v en ph sh fl eh pe pn se sn sx]. cbn [wf Elf32_Ehdr_l iso_l pair_l fst snd]. intros (Hid & _ & _ & _ & _ & Hph & _).
  assert (Hl : length (enc (arr_l EI_NIDENT u8_l) id) = 16%nat) by (by apply enc_length in Hid).
  cbn [enc Elf32_Ehdr_l iso_l pair_l fst snd e_phoff e_ident e_type e_machine e_version e_entry] in *. rewrite <- !app_assoc.
  rewrite (app_assoc (le4 v)), (app_assoc (le2 mc)), (app_assoc (le2 t)), (app_assoc _ (_ ++ _) (le4 ph ++ _)).
  apply word_of; [exact Hph|]. rewrite length_app, Hl. reflexivity.
Qed.

Lemma word_offset (p : Elf32_Phdr) : wf Elf32_Phdr_l p ->
  word (enc Elf32_Phdr_l p) 4 = Some (p_offset p) /\ word (enc Elf32_Phdr_l p) 16 = Some (p_filesz p).
Proof.
  destruct p as [t o va pa fs ms fl al]. cbn [wf Elf32_Phdr_l iso_l pair_l fst snd]. intros (_ & Ho & _ & _ & Hf & _).
  cbn [enc Elf32_Phdr_l iso_l pair_l fst snd p_type p_offset p_vaddr p_paddr p_filesz]. split; [by apply word_of|].
  rewrite (app_assoc (le4 va)), (app_assoc (le4 o)), (app_assoc (le4 t)). by apply word_of.
Qed.

(** ** Theorems *)

(** C29. The loader copies the segment the headers of the executable name. When [run_buf] holds an image of
    at most 2047 bytes that begins with the header [h], with the program header [p] where [h] says, and the
    segment [seg] where [p] says, then after [sw_run] the memory from address 0 on is [seg], and beyond
    it nothing has changed, [run_buf] included if it lies beyond. *)
Theorem sw_run_loads_segment (run_buf n : Z) (m image seg : list Z) (h : Elf32_Ehdr) (p : Elf32_Phdr) :
  0 <= run_buf -> run_buf + n < 4294967296 -> n <= 2047 -> slice m run_buf n = Some image ->
  wf Elf32_Ehdr_l h -> slice image 0 52 = Some (enc Elf32_Ehdr_l h) ->
  wf Elf32_Phdr_l p -> slice image (e_phoff h) 32 = Some (enc Elf32_Phdr_l p) ->
  slice image (p_offset p) (p_filesz p) = Some seg ->
  exists m', sw_run run_buf m = Some m' /\ slice m' 0 (p_filesz p) = Some seg /\
    forall j, p_filesz p <= j -> m'.[j] = m.[j].
Proof.
  intros Hb Hn Hmax Hm Hwh Hh Hwp Hp Hs. pose proof (slice_length _ _ _ _ Hm) as Hl.
  pose proof (slice_Some _ _ _ _ Hh) as (_ & _ & Hh52 & _). pose proof (slice_Some _ _ _ _ Hp) as (Hp0 & _ & Hp32 & _).
  pose proof (slice_Some _ _ _ _ Hs) as (Ho0 & Hf0 & Hsn & _). pose proof (slice_Some _ _ _ _ Hm) as (_ & _ & Hmn & _).
  assert (E1 : word m (run_buf + 28) = Some (e_phoff h)).
  { rewrite (word_slice m image run_buf n 28 Hm) by lia. rewrite <- (word_phoff h [] Hwh), app_nil_r.
    rewrite <- (word_slice image _ 0 52 28 Hh) by lia. done. }
  assert (E2 : forall a, 0 <= a -> a + 4 <= 32 -> word m (run_buf + e_phoff h + a) = word (enc Elf32_Phdr_l p) a).
  { intros a Ha Ha4. rewrite <- Z.add_assoc, (word_slice m image run_buf n) by (done || lia). by apply (word_slice image _ _ 32). }
  destruct (word_offset p Hwp) as [Eo Ef]. unfold sw_run. rewrite E1. cbn [mbind option_bind].
  rewrite (u32_id (run_buf + e_phoff h)) by (unfold is_u32; lia).
  rewrite (u32_id (run_buf + e_phoff h + 4)), E2, Eo by (unfold is_u32; lia). cbn [mbind option_bind].
  rewrite (u32_id (run_buf + e_phoff h + 16)), E2, Ef by (unfold is_u32; lia). cbn [mbind option_bind].
  rewrite u32_id by (unfold is_u32; lia). rewrite s32_id by (unfold is_s32; lia).
  assert (Es : slice m (run_buf + p_offset p) (p_filesz p) = Some seg) by (rewrite (slice_slice m image run_buf n); [done|done|lia|lia]).
  destruct (memmove_spec m seg 0 _ _ Es) as (m' & Em & Hsp); [lia|lia|]. exists m'. split; [exact Em|].
  pose proof (slice_length _ _ _ _ Es) as Hsl. split.
  - revert Hsp. unfold splice. rewrite decide_True by lia. intros [= <-]. unfold slice. rewrite length_app, decide_True by lia.
    cbn [Z.to_nat take app]. rewrite drop_0. f_equal. rewrite take_app_le by lia. apply take_ge. lia.
  - intros j Hj. rewrite (splice_lookup _ _ _ _ j Hsp), decide_False by lia. done.
Qed.

(** An executable of one segment, three instructions long *)
Definition example_ehdr : Elf32_Ehdr :=
  Ehdr ([127; 69; 76; 70] ++ replicate 12 0) 2 8 1 0 52 0 0 52 32 1 0 0 0.

Definition example_phdr : Elf32_Phdr := Phdr 1 84 0 0 12 12 5 4096.

Definition example_image : list Z :=
  enc Elf32_Ehdr_l example_ehdr ++ enc Elf32_Phdr_l example_phdr ++ [1; 0; 2; 36; 8; 0; 224; 3; 0; 0; 0; 0].

Lemma sw_run_loads_segment_witness : exists m',
  sw_run 200 (replicate 200 9 ++ example_image) = Some m' /\ slice m' 0 12 = Some [1; 0; 2; 36; 8; 0; 224; 3; 0; 0; 0; 0] /\
  forall j, 12 <= j -> m'.[j] = (replicate 200 9 ++ example_image).[j].
Proof.
  apply (sw_run_loads_segment 200 96 (replicate 200 9 ++ example_image) example_image _ example_ehdr example_phdr); try (reflexivity || lia).
  - cbn. split_and!; unfold is_u32; try (reflexivity || lia). repeat constructor; lia.
  - cbn. unfold is_u32. lia.
Defined.
