(* ===== verification/Kernel.v ===== *)
(** The kernel's data: process control blocks, queues, synchronisation objects, memory management
    tables (the structs of [include/]), the global state every handler works on, and the monad the
    handlers are written in.

    Pointers. A [pcb_t *] is [NULL] or the address of an entry of the array [pcb]; it is an
    [option Z], [Some i] standing for [&pcb[i]]. A [queue_t *] is a [qref]: which object's queue it
    is the address of. Locks, semaphores, conditions and barriers are named likewise. Reading or
    writing through [NULL], or an array outside its bounds, is a [Fault].

    Kernel contexts. [do_scheduler] saves the running task's kernel registers and stack and restores
    those of the task [scheduler] picks, so the C statement after a [do_scheduler] runs when the task
    is picked again. What is left to run is kept, innermost first, as the list of [kframe]s in
    [kernel_context]: it stands for the saved [$ra], [$sp] and the locals on the kernel stack. *)

From S2P Require Import Prelude Slist.

(** ** Constants *)

Definition MAX_TASK_NUM : Z := 16.
Definition MAX_LOCKS_NUM : Z := 16.
Definition TIME_SLICE : Z := 10.
Definition PDE_NUMBER : Z := 512.
Definition PTE_NUMBER : Z := 512.
Definition KERNEL_STACK_TOP_ADDRESS : Z := 0xa1000000.
Definition KERNEL_STACK_SIZE : Z := 0x2000.
Definition USER_STACK_TOP_ADDRESS : Z := 0x80000000.
Definition INITIAL_USER_STACK_SIZE : Z := 0x2000.
Definition REG_SP : Z := 29.

(** ** Names of kernel objects *)

(** [mutex_lock_t *]: an entry of [locks], or a lock of a task *)
Inductive lockref := Locks (i : Z) | UserLock (a : Z).

(** [semaphore_t *]: the three of [kernel/software/io_proc.c], or one of a task *)
Inductive semref := IoTasks | IoDone | FreeIoTasks | UserSem (a : Z).

(** [queue_t *]: the object whose queue it points to *)
Inductive qref :=
  | ReadyQueue
  | SleepQueue
  | RecvBlockQueue
  | WaitQueue (i : Z)          (** [&pcb[i].wait_queue] *)
  | LockQueue (l : lockref)    (** [&lock->block_queue] *)
  | SemQueue (s : semref)
  | CondQueue (a : Z)
  | BarrierQueue (a : Z).

#[global] Instance lockref_eq_dec : EqDecision lockref.
Proof. solve_decision. Defined.

#[global] Instance semref_eq_dec : EqDecision semref.
Proof. solve_decision. Defined.

#[global] Instance qref_eq_dec : EqDecision qref.
Proof. solve_decision. Defined.

#[global] Instance lockref_countable : Countable lockref.
Proof.
  refine (inj_countable' (fun l => match l with Locks i => inl i | UserLock a => inr a end)
    (fun x : Z + Z => match x with inl i => Locks i | inr a => UserLock a end) _).
  by intros [].
Defined.

#[global] Instance semref_countable : Countable semref.
Proof.
  refine (inj_countable' (fun s => match s with
      IoTasks => inl 0 | IoDone => inl 1 | FreeIoTasks => inl 2 | UserSem a => inr a end)
    (fun x : Z + Z => match x with
      inl i => if i =? 0 then IoTasks else if i =? 1 then IoDone else FreeIoTasks
      | inr a => UserSem a end) _).
  by intros [].
Defined.

#[global] Instance qref_countable : Countable qref.
Proof.
  refine (inj_countable' (fun q => match q with
      ReadyQueue => inl (0, 0) | SleepQueue => inl (1, 0) | RecvBlockQueue => inl (2, 0)
      | WaitQueue i => inl (3, i) | CondQueue a => inl (4, a) | BarrierQueue a => inl (5, a)
      | LockQueue l => inr (inl l) | SemQueue s => inr (inr s) end)
    (fun x : Z * Z + (lockref + semref) => match x with
      inl (k, i) =>
        if k =? 0 then ReadyQueue else if k =? 1 then SleepQueue
        else if k =? 2 then RecvBlockQueue else if k =? 3 then WaitQueue i
        else if k =? 4 then CondQueue i else BarrierQueue i
      | inr (inl l) => LockQueue l | inr (inr s) => SemQueue s end) _).
  by intros [].
Defined.

(** ** Kernel stack frames

    One constructor per program point after a call that may reach [do_scheduler]. *)

Inductive kframe :=
  | KExceptionExit                       (** [exception_handler_exit] *)
  | KHandlerReturn                       (** back in [system_call_helper] or [interrupt_helper] *)
  | KKillReturn                          (** [kill], after [do_scheduler] *)
  | KMutexAcquireLoop (l : lockref)      (** [do_mutex_lock_acquire], after [do_wait] *)
  | KConditionWait (l : lockref)         (** [do_condition_wait], after [do_wait] *)
  | KSwapOut (victim : Z)                (** [swap_out], after [do_semaphore_down(&io_done)] *)
  | KSwapInAlloc (pool ptn badvaddr address : Z)
                                         (** [swap_in], after [swap_out] *)
  | KSwapInDone (pool ptn badvaddr address pm_index : Z)
                                         (** [swap_in], after [do_semaphore_down(&io_done)] *)
  | KTlbAlloc (pool ptn badvaddr hi refill : Z)
                                         (** [TLB_exception_helper], after [swap_out] *)
  | KTlbFill (pool ptn hi refill : Z).   (** [TLB_exception_helper], after [swap_in] *)

#[global] Instance kframe_eq_dec : EqDecision kframe.
Proof. solve_decision. Defined.

(** ** Structs *)

Abbreviation ptr := (option Z).

Inductive task_status_t :=
  TASK_BLOCKED | TASK_RUNNING | TASK_READY | TASK_EXITED | TASK_SLEEPING | TASK_WAITING.

Inductive task_type_t := KERNEL_PROCESS | KERNEL_THREAD | USER_PROCESS | USER_THREAD.

Inductive lock_status_t := UNLOCKED | LOCKED.

Record queue_t := Queue { head : ptr; tail : ptr }.

#[global] Instance queue_eq_dec : EqDecision queue_t.
Proof. solve_decision. Defined.

(** [mutex_lock_t], its [block_queue] apart *)
Record mutex_lock_t := Mutex { lstatus : lock_status_t; owner : Z }.

(** [barrier_t], its [wait_queue] apart *)
Record barrier_t := Barrier { goal : Z; arrived : Z }.

(** [pte_t]; [addr] is the union of [PFN] and [swap_area_addr] *)
Record pte_t := Pte { addr : Z; pte_valid : Z; present : Z }.

(** [pde_t] *)
Record pde_t := Pde { pool_num : Z; pde_valid : Z }.

Inductive io_task_type_t := IO_TASK_READ | IO_TASK_WRITE.

(** [io_task_t] *)
Record io_task_t := IoTask { io_type : io_task_type_t; io_buffer : Z; io_base : Z; io_n : Z }.

(** A TLB entry as [tlbwr] and [tlbwi] write it. *)
Record tlb_entry := TlbEntry { tlb_hi : Z; tlb_lo0 : Z; tlb_lo1 : Z }.

(** [task_info_t] *)
Record task_info_t := TaskInfo { entry_point : Z; ti_type : task_type_t; ti_priority : Z; ti_name : string }.

(** [regs_context_t] *)
Record regs_context_t := RegsContext {
  regs : list Z;
  cp0_status : Z;
  cp0_cause : Z;
  cp0_epc : Z;
  cp0_badvaddr : Z;
  hi : Z;
  lo : Z
}.

(** Field updates. *)
Definition set_regs (v : list Z) (r : regs_context_t) : regs_context_t :=
  RegsContext v (cp0_status r) (cp0_cause r) (cp0_epc r) (cp0_badvaddr r) (hi r) (lo r).

Definition set_cp0_status (v : Z) (r : regs_context_t) : regs_context_t :=
  RegsContext (regs r) v (cp0_cause r) (cp0_epc r) (cp0_badvaddr r) (hi r) (lo r).

Definition set_cp0_cause (v : Z) (r : regs_context_t) : regs_context_t :=
  RegsContext (regs r) (cp0_status r) v (cp0_epc r) (cp0_badvaddr r) (hi r) (lo r).

Definition set_cp0_epc (v : Z) (r : regs_context_t) : regs_context_t :=
  RegsContext (regs r) (cp0_status r) (cp0_cause r) v (cp0_badvaddr r) (hi r) (lo r).

Definition set_cp0_badvaddr (v : Z) (r : regs_context_t) : regs_context_t :=
  RegsContext (regs r) (cp0_status r) (cp0_cause r) (cp0_epc r) v (hi r) (lo r).

Definition set_hi (v : Z) (r : regs_context_t) : regs_context_t :=
  RegsContext (regs r) (cp0_status r) (cp0_cause r) (cp0_epc r) (cp0_badvaddr r) v (lo r).

Definition set_lo (v : Z) (r : regs_context_t) : regs_context_t :=
  RegsContext (regs r) (cp0_status r) (cp0_cause r) (cp0_epc r) (cp0_badvaddr r) (hi r) v.

(** [pcb_t]: the saved kernel context is [kernel_context] and [kernel_sp]; the [wait_queue] is
    kept with the other queues, under [WaitQueue i]. *)
Record pcb_t := Pcb {
  kernel_context : list kframe;
  kernel_sp : Z;
  user_regs_context : regs_context_t;
  kernel_stack_size : Z;
  user_stack_size : Z;
  prev : ptr;
  next : ptr;
  pid : Z;
  priority : Z;
  scheduler_priority : Z;
  wait_time : Z;
  awakened_time : Z;
  name : string;
  type : task_type_t;
  status : task_status_t;
  lock_num : Z;
  queue : option qref;
  page_dir : list pde_t;
  cursor_x : Z;
  cursor_y : Z
}.

(** Field updates. *)
Definition set_kernel_context (v : list kframe) (r : pcb_t) : pcb_t :=
  Pcb v (kernel_sp r) (user_regs_context r) (kernel_stack_size r) (user_stack_size r) (prev r)
    (next r) (pid r) (priority r) (scheduler_priority r) (wait_time r) (awakened_time r)
    (name r) (type r) (status r) (lock_num r) (queue r) (page_dir r) (cursor_x r) (cursor_y r).

Definition set_kernel_sp (v : Z) (r : pcb_t) : pcb_t :=
  Pcb (kernel_context r) v (user_regs_context r) (kernel_stack_size r) (user_stack_size r)
    (prev r) (next r) (pid r) (priority r) (scheduler_priority r) (wait_time r) (awakened_time r)
    (name r) (type r) (status r) (lock_num r) (queue r) (page_dir r) (cursor_x r) (cursor_y r).

Definition set_user_regs_context (v : regs_context_t) (r : pcb_t) : pcb_t :=
  Pcb (kernel_context r) (kernel_sp r) v (kernel_stack_size r) (user_stack_size r) (prev r)
    (next r) (pid r) (priority r) (scheduler_priority r) (wait_time r) (awakened_time r)
    (name r) (type r) (status r) (lock_num r) (queue r) (page_dir r) (cursor_x r) (cursor_y r).

Definition set_kernel_stack_size (v : Z) (r : pcb_t) : pcb_t :=
  Pcb (kernel_context r) (kernel_sp r) (user_regs_context r) v (user_stack_size r) (prev r)
    (next r) (pid r) (priority r) (scheduler_priority r) (wait_time r) (awakened_time r)
    (name r) (type r) (status r) (lock_num r) (queue r) (page_dir r) (cursor_x r) (cursor_y r).

Definition set_user_stack_size (v : Z) (r : pcb_t) : pcb_t :=
  Pcb (kernel_context r) (kernel_sp r) (user_regs_context r) (kernel_stack_size r) v (prev r)
    (next r) (pid r) (priority r) (scheduler_priority r) (wait_time r) (awakened_time r)
    (name r) (type r) (status r) (lock_num r) (queue r) (page_dir r) (cursor_x r) (cursor_y r).

Definition set_prev (v : ptr) (r : pcb_t) : pcb_t :=
  Pcb (kernel_context r) (kernel_sp r) (user_regs_context r) (kernel_stack_size r)
    (user_stack_size r) v (next r) (pid r) (priority r) (scheduler_priority r) (wait_time r)
    (awakened_time r) (name r) (type r) (status r) (lock_num r) (queue r) (page_dir r)
    (cursor_x r) (cursor_y r).

Definition set_next (v : ptr) (r : pcb_t) : pcb_t :=
  Pcb (kernel_context r) (kernel_sp r) (user_regs_context r) (kernel_stack_size r)
    (user_stack_size r) (prev r) v (pid r) (priority r) (scheduler_priority r) (wait_time r)
    (awakened_time r) (name r) (type r) (status r) (lock_num r) (queue r) (page_dir r)
    (cursor_x r) (cursor_y r).

Definition set_pid (v : Z) (r : pcb_t) : pcb_t :=
  Pcb (kernel_context r) (kernel_sp r) (user_regs_context r) (kernel_stack_size r)
    (user_stack_size r) (prev r) (next r) v (priority r) (scheduler_priority r) (wait_time r)
    (awakened_time r) (name r) (type r) (status r) (lock_num r) (queue r) (page_dir r)
    (cursor_x r) (cursor_y r).

Definition set_priority (v : Z) (r : pcb_t) : pcb_t :=
  Pcb (kernel_context r) (kernel_sp r) (user_regs_context r) (kernel_stack_size r)
    (user_stack_size r) (prev r) (next r) (pid r) v (scheduler_priority r) (wait_time r)
    (awakened_time r) (name r) (type r) (status r) (lock_num r) (queue r) (page_dir r)
    (cursor_x r) (cursor_y r).

Definition set_scheduler_priority (v : Z) (r : pcb_t) : pcb_t :=
  Pcb (kernel_context r) (kernel_sp r) (user_regs_context r) (kernel_stack_size r)
    (user_stack_size r) (prev r) (next r) (pid r) (priority r) v (wait_time r) (awakened_time r)
    (name r) (type r) (status r) (lock_num r) (queue r) (page_dir r) (cursor_x r) (cursor_y r).

Definition set_wait_time (v : Z) (r : pcb_t) : pcb_t :=
  Pcb (kernel_context r) (kernel_sp r) (user_regs_context r) (kernel_stack_size r)
    (user_stack_size r) (prev r) (next r) (pid r) (priority r) (scheduler_priority r) v
    (awakened_time r) (name r) (type r) (status r) (lock_num r) (queue r) (page_dir r)
    (cursor_x r) (cursor_y r).

Definition set_awakened_time (v : Z) (r : pcb_t) : pcb_t :=
  Pcb (kernel_context r) (kernel_sp r) (user_regs_context r) (kernel_stack_size r)
    (user_stack_size r) (prev r) (next r) (pid r) (priority r) (scheduler_priority r)
    (wait_time r) v (name r) (type r) (status r) (lock_num r) (queue r) (page_dir r) (cursor_x r)
    (cursor_y r).

Definition set_name (v : string) (r : pcb_t) : pcb_t :=
  Pcb (kernel_context r) (kernel_sp r) (user_regs_context r) (kernel_stack_size r)
    (user_stack_size r) (prev r) (next r) (pid r) (priority r) (scheduler_priority r)
    (wait_time r) (awakened_time r) v (type r) (status r) (lock_num r) (queue r) (page_dir r) (cursor_x r)
    (cursor_y r).

Definition set_type (v : task_type_t) (r : pcb_t) : pcb_t :=
  Pcb (kernel_context r) (kernel_sp r) (user_regs_context r) (kernel_stack_size r)
    (user_stack_size r) (prev r) (next r) (pid r) (priority r) (scheduler_priority r)
    (wait_time r) (awakened_time r) (name r) v (status r) (lock_num r) (queue r) (page_dir r) (cursor_x r)
    (cursor_y r).

Definition set_status (v : task_status_t) (r : pcb_t) : pcb_t :=
  Pcb (kernel_context r) (kernel_sp r) (user_regs_context r) (kernel_stack_size r)
    (user_stack_size r) (prev r) (next r) (pid r) (priority r) (scheduler_priority r)
    (wait_time r) (awakened_time r) (name r) (type r) v (lock_num r) (queue r) (page_dir r) (cursor_x r)
    (cursor_y r).

Definition set_lock_num (v : Z) (r : pcb_t) : pcb_t :=
  Pcb (kernel_context r) (kernel_sp r) (user_regs_context r) (kernel_stack_size r)
    (user_stack_size r) (prev r) (next r) (pid r) (priority r) (scheduler_priority r)
    (wait_time r) (awakened_time r) (name r) (type r) (status r) v (queue r) (page_dir r) (cursor_x r)
    (cursor_y r).

Definition set_queue (v : option qref) (r : pcb_t) : pcb_t :=
  Pcb (kernel_context r) (kernel_sp r) (user_regs_context r) (kernel_stack_size r)
    (user_stack_size r) (prev r) (next r) (pid r) (priority r) (scheduler_priority r)
    (wait_time r) (awakened_time r) (name r) (type r) (status r) (lock_num r) v (page_dir r) (cursor_x r)
    (cursor_y r).

Definition set_page_dir (v : list pde_t) (r : pcb_t) : pcb_t :=
  Pcb (kernel_context r) (kernel_sp r) (user_regs_context r) (kernel_stack_size r)
    (user_stack_size r) (prev r) (next r) (pid r) (priority r) (scheduler_priority r)
    (wait_time r) (awakened_time r) (name r) (type r) (status r) (lock_num r) (queue r) v (cursor_x r)
    (cursor_y r).

Definition set_cursor_x (v : Z) (r : pcb_t) : pcb_t :=
  Pcb (kernel_context r) (kernel_sp r) (user_regs_context r) (kernel_stack_size r)
    (user_stack_size r) (prev r) (next r) (pid r) (priority r) (scheduler_priority r)
    (wait_time r) (awakened_time r) (name r) (type r) (status r) (lock_num r) (queue r) (page_dir r) v
    (cursor_y r).

Definition set_cursor_y (v : Z) (r : pcb_t) : pcb_t :=
  Pcb (kernel_context r) (kernel_sp r) (user_regs_context r) (kernel_stack_size r)
    (user_stack_size r) (prev r) (next r) (pid r) (priority r) (scheduler_priority r)
    (wait_time r) (awakened_time r) (name r) (type r) (status r) (lock_num r) (queue r) (page_dir r)
    (cursor_x r) v.

(** The globals of [kernel/mm/memory.c], [io_task] and the TLB. *)
Record mm_state := MmState {
  page_table_pool : list (list pte_t);
  pt_pool_slist : list node;
  pm_slist : list node;
  pm_pid : list Z;
  pm_vpn : list Z;
  swap_area_slist : list node;
  io_task : io_task_t;
  tlb : list tlb_entry
}.

(** Field updates. *)
Definition set_page_table_pool (v : list (list pte_t)) (r : mm_state) : mm_state :=
  MmState v (pt_pool_slist r) (pm_slist r) (pm_pid r) (pm_vpn r) (swap_area_slist r) (io_task r)
    (tlb r).

Definition set_pt_pool_slist (v : list node) (r : mm_state) : mm_state :=
  MmState (page_table_pool r) v (pm_slist r) (pm_pid r) (pm_vpn r) (swap_area_slist r)
    (io_task r) (tlb r).

Definition set_pm_slist (v : list node) (r : mm_state) : mm_state :=
  MmState (page_table_pool r) (pt_pool_slist r) v (pm_pid r) (pm_vpn r) (swap_area_slist r)
    (io_task r) (tlb r).

Definition set_pm_pid (v : list Z) (r : mm_state) : mm_state :=
  MmState (page_table_pool r) (pt_pool_slist r) (pm_slist r) v (pm_vpn r) (swap_area_slist r)
    (io_task r) (tlb r).

Definition set_pm_vpn (v : list Z) (r : mm_state) : mm_state :=
  MmState (page_table_pool r) (pt_pool_slist r) (pm_slist r) (pm_pid r) v (swap_area_slist r)
    (io_task r) (tlb r).

Definition set_swap_area_slist (v : list node) (r : mm_state) : mm_state :=
  MmState (page_table_pool r) (pt_pool_slist r) (pm_slist r) (pm_pid r) (pm_vpn r) v (io_task r)
    (tlb r).

Definition set_io_task (v : io_task_t) (r : mm_state) : mm_state :=
  MmState (page_table_pool r) (pt_pool_slist r) (pm_slist r) (pm_pid r) (pm_vpn r)
    (swap_area_slist r) v (tlb r).

Definition set_tlb (v : list tlb_entry) (r : mm_state) : mm_state :=
  MmState (page_table_pool r) (pt_pool_slist r) (pm_slist r) (pm_pid r) (pm_vpn r)
    (swap_area_slist r) (io_task r) v.

(** The kernel's global state. *)
Record kstate := KState {
  pcb : list pcb_t;
  current_running : Z;
  queues : gmap qref queue_t;
  pid_list : list node;
  time_elapsed : Z;
  mutexes : gmap lockref mutex_lock_t;
  semaphores : gmap semref Z;
  conditions : gmap Z Z;
  barriers : gmap Z barrier_t;
  screen_cursor_x : Z;
  screen_cursor_y : Z;
  EntryHi : Z;
  mm : mm_state
}.

(** Field updates. *)
Definition set_pcb (v : list pcb_t) (r : kstate) : kstate :=
  KState v (current_running r) (queues r) (pid_list r) (time_elapsed r) (mutexes r)
    (semaphores r) (conditions r) (barriers r) (screen_cursor_x r) (screen_cursor_y r) (EntryHi r) (mm r).

Definition set_current_running (v : Z) (r : kstate) : kstate :=
  KState (pcb r) v (queues r) (pid_list r) (time_elapsed r) (mutexes r) (semaphores r)
    (conditions r) (barriers r) (screen_cursor_x r) (screen_cursor_y r) (EntryHi r) (mm r).

Definition set_queues (v : gmap qref queue_t) (r : kstate) : kstate :=
  KState (pcb r) (current_running r) v (pid_list r) (time_elapsed r) (mutexes r) (semaphores r)
    (conditions r) (barriers r) (screen_cursor_x r) (screen_cursor_y r) (EntryHi r) (mm r).

Definition set_pid_list (v : list node) (r : kstate) : kstate :=
  KState (pcb r) (current_running r) (queues r) v (time_elapsed r) (mutexes r) (semaphores r)
    (conditions r) (barriers r) (screen_cursor_x r) (screen_cursor_y r) (EntryHi r) (mm r).

Definition set_time_elapsed (v : Z) (r : kstate) : kstate :=
  KState (pcb r) (current_running r) (queues r) (pid_list r) v (mutexes r) (semaphores r)
    (conditions r) (barriers r) (screen_cursor_x r) (screen_cursor_y r) (EntryHi r) (mm r).

Definition set_mutexes (v : gmap lockref mutex_lock_t) (r : kstate) : kstate :=
  KState (pcb r) (current_running r) (queues r) (pid_list r) (time_elapsed r) v (semaphores r)
    (conditions r) (barriers r) (screen_cursor_x r) (screen_cursor_y r) (EntryHi r) (mm r).

Definition set_semaphores (v : gmap semref Z) (r : kstate) : kstate :=
  KState (pcb r) (current_running r) (queues r) (pid_list r) (time_elapsed r) (mutexes r) v
    (conditions r) (barriers r) (screen_cursor_x r) (screen_cursor_y r) (EntryHi r) (mm r).

Definition set_conditions (v : gmap Z Z) (r : kstate) : kstate :=
  KState (pcb r) (current_running r) (queues r) (pid_list r) (time_elapsed r) (mutexes r)
    (semaphores r) v (barriers r) (screen_cursor_x r) (screen_cursor_y r) (EntryHi r) (mm r).

Definition set_barriers (v : gmap Z barrier_t) (r : kstate) : kstate :=
  KState (pcb r) (current_running r) (queues r) (pid_list r) (time_elapsed r) (mutexes r)
    (semaphores r) (conditions r) v (screen_cursor_x r) (screen_cursor_y r) (EntryHi r) (mm r).

Definition set_screen_cursor_x (v : Z) (r : kstate) : kstate :=
  KState (pcb r) (current_running r) (queues r) (pid_list r) (time_elapsed r) (mutexes r)
    (semaphores r) (conditions r) (barriers r) v (screen_cursor_y r) (EntryHi r) (mm r).

Definition set_screen_cursor_y (v : Z) (r : kstate) : kstate :=
  KState (pcb r) (current_running r) (queues r) (pid_list r) (time_elapsed r) (mutexes r)
    (semaphores r) (conditions r) (barriers r) (screen_cursor_x r) v (EntryHi r) (mm r).

Definition set_EntryHi (v : Z) (r : kstate) : kstate :=
  KState (pcb r) (current_running r) (queues r) (pid_list r) (time_elapsed r) (mutexes r)
    (semaphores r) (conditions r) (barriers r) (screen_cursor_x r) (screen_cursor_y r) v (mm r).

Definition set_mm (v : mm_state) (r : kstate) : kstate :=
  KState (pcb r) (current_running r) (queues r) (pid_list r) (time_elapsed r) (mutexes r)
    (semaphores r) (conditions r) (barriers r) (screen_cursor_x r) (screen_cursor_y r)
    (EntryHi r) v.

(** ** The monad of the handlers

    A handler maps the state to a [result] and a new state. *)

Definition M (A : Type) : Type := kstate -> result (A * kstate).

#[global] Instance M_ret : MRet M := fun A x s => Ok (x, s).

#[global] Instance M_bind : MBind M := fun A B f m s =>
  match m s with
  | Ok (x, s) => f x s
  | Fault => Fault
  | Panic msg => Panic msg
  | OutOfFuel => OutOfFuel
  end.

Definition fault {A} : M A := fun s => Fault.

Definition panic {A} (msg : string) : M A := fun s => Panic msg.

Definition no_fuel {A} : M A := fun s => OutOfFuel.

Definition get {A} (f : kstate -> A) : M A := fun s => Ok (f s, s).

Definition modify (f : kstate -> kstate) : M unit := fun s => Ok (tt, f s).

(** A value that may be missing. *)
Definition lift {A} (o : option A) : M A := match o with Some x => mret x | None => fault end.

(** [*p] for a [pcb_t *p], and an update of the pointed-to block. *)
Definition pcb_at (i : Z) : M pcb_t := fun s => lift ((pcb s).[i]) s.

Definition upd_pcb (i : Z) (f : pcb_t -> pcb_t) : M unit :=
  p ← pcb_at i; modify (fun s => set_pcb (<[Z.to_nat i := f p]> (pcb s)) s).

(** [*q] for a [queue_t *q], and the assignment of its fields. *)
Definition queue_at (q : qref) : M queue_t := fun s => lift (queues s !! q) s.

Definition put_queue (q : qref) (v : queue_t) : M unit :=
  modify (fun s => set_queues (<[q := v]> (queues s)) s).

Definition set_head (q : qref) (v : ptr) : M unit :=
  r ← queue_at q; put_queue q (Queue v (tail r)).

Definition set_tail (q : qref) (v : ptr) : M unit :=
  r ← queue_at q; put_queue q (Queue (head r) v).

(** A step that always succeeds in the state [s], with result [x] and new state [s']. *)
Notation "m @ s ~> x ; s'" := (m s = Ok (x, s')) (at level 70, x at level 69, s at level 69).

(** ** Lemmas *)

Lemma bind_Ok {A B} (m : M A) (f : A -> M B) s x s' :
  m s = Ok (x, s') -> (m ≫= f) s = f x s'.
Proof. unfold mbind, M_bind. by intros ->. Qed.

Lemma bind_get {A B} (g : kstate -> A) (f : A -> M B) s : (get g ≫= f) s = f (g s) s.
Proof. done. Qed.

Lemma bind_ret {A B} (x : A) (f : A -> M B) s : (mret x ≫= f) s = f x s.
Proof. done. Qed.

Lemma bind_modify {B} g (f : unit -> M B) s : (modify g ≫= f) s = f tt (g s).
Proof. done. Qed.

Lemma bind_assoc {A B C} (m : M A) (f : A -> M B) (g : B -> M C) s :
  ((m ≫= f) ≫= g) s = (m ≫= (fun x => f x ≫= g)) s.
Proof. unfold mbind, M_bind. by destruct (m s) as [[]| | |]. Qed.

Lemma pcb_at_Ok i p s : (pcb s).[i] = Some p -> pcb_at i s = Ok (p, s).
Proof. unfold pcb_at. by intros ->. Qed.

Lemma upd_pcb_Ok i p f s :
  (pcb s).[i] = Some p ->
  upd_pcb i f s = Ok (tt, set_pcb (<[Z.to_nat i := f p]> (pcb s)) s).
Proof. intros H. unfold upd_pcb. by rewrite (bind_Ok _ _ _ _ _ (pcb_at_Ok _ _ _ H)). Qed.

Lemma queue_at_Ok q v s : queues s !! q = Some v -> queue_at q s = Ok (v, s).
Proof. unfold queue_at. by intros ->. Qed.

Lemma set_head_Ok q v h s :
  queues s !! q = Some v ->
  set_head q h s = Ok (tt, set_queues (<[q := Queue h (tail v)]> (queues s)) s).
Proof. intros H. unfold set_head. by rewrite (bind_Ok _ _ _ _ _ (queue_at_Ok _ _ _ H)). Qed.

Lemma set_tail_Ok q v t s :
  queues s !! q = Some v ->
  set_tail q t s = Ok (tt, set_queues (<[q := Queue (head v) t]> (queues s)) s).
Proof. intros H. unfold set_tail. by rewrite (bind_Ok _ _ _ _ _ (queue_at_Ok _ _ _ H)). Qed.

(** Reading a block after one was written. *)
Lemma aget_upd_pcb (l : list pcb_t) i j p x :
  l.[i] = Some p -> (<[Z.to_nat i := x]> l).[j] = if decide (j = i) then Some x else l.[j].
Proof. intros H%aget_Some. rewrite aget_insert by lia. by rewrite Z2Nat.id by lia. Qed.

Lemma aget_upd_eq (l : list pcb_t) i p x : l.[i] = Some p -> (<[Z.to_nat i := x]> l).[i] = Some x.
Proof. intros H. by rewrite (aget_upd_pcb l i i p), decide_True. Qed.

Lemma aget_upd_ne (l : list pcb_t) i j p r x :
  l.[i] = Some p -> j <> i -> l.[j] = Some r -> (<[Z.to_nat i := x]> l).[j] = Some r.
Proof. intros H Hne Hj. by rewrite (aget_upd_pcb l i j p), decide_False. Qed.

(** ** Tactics

    [lk] proves that a block is found after a series of updates; [mstep] runs the first operation of
    a sequence, [mrun] as many as it can. *)

Ltac cleanup :=
  cbn [pcb set_pcb current_running set_current_running queues set_queues pid_list set_pid_list
       time_elapsed set_time_elapsed mutexes set_mutexes semaphores set_semaphores
       conditions set_conditions barriers set_barriers screen_cursor_x set_screen_cursor_x
       screen_cursor_y set_screen_cursor_y EntryHi set_EntryHi mm set_mm
       head tail prev next set_prev set_next] in *.

Ltac lk :=
  solve [ eassumption
        | eapply aget_upd_eq; lk
        | eapply aget_upd_ne; [lk | congruence | lk]
        | cbn [pcb set_pcb set_queues]; progress cbn [pcb set_pcb set_queues]; lk ].

Ltac lkq :=
  solve [ eassumption | apply lookup_insert_eq
        | rewrite lookup_insert_ne by congruence; lkq ].

Ltac mstep :=
  lazymatch goal with
  | |- context [(mbind ?f (upd_pcb ?i ?g)) ?s] =>
      erewrite (bind_Ok (upd_pcb i g) f s) by (apply upd_pcb_Ok; cleanup; lk)
  | |- context [(mbind ?f (pcb_at ?i)) ?s] =>
      erewrite (bind_Ok (pcb_at i) f s) by (apply pcb_at_Ok; cleanup; lk)
  | |- context [(mbind ?f (queue_at ?q)) ?s] =>
      erewrite (bind_Ok (queue_at q) f s) by (apply queue_at_Ok; cleanup; lkq)
  | |- context [(mbind ?f (set_head ?q ?v)) ?s] =>
      erewrite (bind_Ok (set_head q v) f s) by (apply set_head_Ok; cleanup; lkq)
  | |- context [(mbind ?f (set_tail ?q ?v)) ?s] =>
      erewrite (bind_Ok (set_tail q v) f s) by (apply set_tail_Ok; cleanup; lkq)
  | |- context [(mbind ?f (mret ?x)) ?s] => rewrite (bind_ret x f s)
  | |- context [(mbind ?f (get ?g)) ?s] => rewrite (bind_get g f s)
  | |- context [(mbind ?f (modify ?g)) ?s] => rewrite (bind_modify g f s)
  | |- context [(mbind ?g (mbind ?f ?m)) ?s] => rewrite (bind_assoc m f g s)
  | |- context [upd_pcb ?i ?g ?s] => erewrite (upd_pcb_Ok i) by (cleanup; lk)
  | |- context [set_head ?q ?v ?s] => erewrite (set_head_Ok q) by (cleanup; lkq)
  | |- context [set_tail ?q ?v ?s] => erewrite (set_tail_Ok q) by (cleanup; lkq)
  end; cleanup; cbn beta iota.

Ltac mrun := repeat mstep.
