(* ===== verification/Debug.v ===== *)
(** The kernel's last words, [libs/debug.c]: what [panic] puts on the terminal before it loops for ever. The
    handlers of the other files end in the outcome [Panic] with the message it is given. *)

From S2P Require Import Prelude CString Printk Screen Kernel.

#[local] Existing Instance result_bind.

Section code.
Context (bf l : list Z).

(** [for(i = 0; i < 32; i+=2)] *)
Fixpoint panic_regs (n : nat) (i : Z) (r : list Z) (s : screen) : result screen :=
  match n with
  | O => Ok s
  | S n =>
      a ← rd r i;
      b ← rd r (i + 1);
      s ← Screen.printk bf l (str "Reg%02d: 0x%08x, Reg%02d: 0x%08x" ++ [10; 0]) [Int i; Int a; Int (i + 1); Int b] s;
      panic_regs n (i + 2) r s
  end.

(** Up to the endless loop *)
Definition panic (msg : string) (current : pcb_t) (s : screen) : result screen :=
  let u := user_regs_context current in
  s ← screen_clear bf l 0 (SCREEN_HEIGHT - 1) s;
  s ← vt100_move_cursor bf l 1 1 s;
  s ← Screen.printk bf l (str "* * * * * * * * PANIC * * * * * * * *" ++ [10; 0]) [] s;
  s ← Screen.printk bf l (str "Error: %s" ++ [10; 0]) [Str (lit msg)] s;
  s ← Screen.printk bf l (str "Task: %s, Pid: %d" ++ [10; 0]) [Str (lit (name current)); Int (pid current)] s;
  s ← Screen.printk bf l (str "STATUS:0x%08x, CAUSE:0x%08x" ++ [10; 0]) [Int (cp0_status u); Int (cp0_cause u)] s;
  s ← Screen.printk bf l (str "EPC:0x%08x, BADVADDR:0x%08x" ++ [10; 0]) [Int (cp0_epc u); Int (cp0_badvaddr u)] s;
  panic_regs 16 0 (regs u) s.

(** [i] is the static variable of the function. *)
Definition debug_cursor (i : Z) (s : screen) : result (Z * screen) := s ← vt100_move_cursor bf l 1 i s; Ok (s32 (i + 1), s).

Definition panic_asm (number : Z) : pcb_t -> screen -> result screen := panic (if number =? 0 then "Unknown exception." else "Error in asm.").

End code.

(** ** What it prints *)

Definition hex (v : Z) : list Z := str "0x" ++ number (s32 v) 16 false true 8.
Definition dec2 (v : Z) : list Z := number (s32 v) 10 false false 2.

Definition regs_line (i a b : Z) : list Z := str "Reg" ++ dec2 i ++ str ": " ++ hex a ++ str ", Reg" ++ dec2 (i + 1) ++ str ": " ++ hex b ++ [10].

Fixpoint regs_lines (i : Z) (r : list Z) : list Z :=
  match r with
  | a :: b :: r => regs_line i a b ++ regs_lines (i + 2) r
  | _ => []
  end.

Definition last_words (msg : string) (b : pcb_t) : list Z :=
  let u := user_regs_context b in
  str "* * * * * * * * PANIC * * * * * * * *" ++ [10] ++
  str "Error: " ++ str msg ++ [10] ++
  str "Task: " ++ str (name b) ++ str ", Pid: " ++ number (s32 (pid b)) 10 false false 0 ++ [10] ++
  str "STATUS:" ++ hex (cp0_status u) ++ str ", CAUSE:" ++ hex (cp0_cause u) ++ [10] ++
  str "EPC:" ++ hex (cp0_epc u) ++ str ", BADVADDR:" ++ hex (cp0_badvaddr u) ++ [10] ++
  regs_lines 0 (regs u).

(** ** Theorem *)

(** A short string without a 0 in it *)
Definition short (s : string) : Prop := (length (str s) <= 200)%nat /\ 0 ∉ str s.

Section output.
Context (bf l : list Z) (Hbf : bf_ok bf) (Hl : (256 <= length l)%nat).

Lemma str_bytes s : bytes_ok (str s).
Proof. apply Forall_fmap, Forall_forall. intros [[] [] [] [] [] [] [] []] _; unfold compose, is_u8; cbn; lia. Qed.

Lemma lit_ok s : short s -> parg_ok (Str (lit s)).
Proof. intros [Hs _]. split; [apply Forall_app; split; [apply str_bytes|by repeat constructor]|]. unfold lit. rewrite length_app. cbn. lia. Qed.

Lemma no_zero (x : list Z) : existsb (Z.eqb 0) x = false -> 0 ∉ x.
Proof. intros H H0%list_elem_of_In. assert (existsb (Z.eqb 0) x = true); [|congruence]. apply existsb_exists. by exists 0. Qed.

Lemma hex_bounds v : (length (hex v) <= 13)%nat /\ 0 ∉ hex v.
Proof.
  pose proof (number_length (s32 v) 16 false true 8 ltac:(lia) (s32_range v) ltac:(lia)). unfold hex. rewrite length_app, not_elem_of_app. cbn [length str].
  split; [cbn; lia|]. split; [by apply no_zero|]. by apply (number_nonzero l).
Qed.

Lemma dec2_bounds v : (length (dec2 v) <= 11)%nat /\ 0 ∉ dec2 v.
Proof.
  pose proof (number_length (s32 v) 10 false false 2 ltac:(lia) (s32_range v) ltac:(lia)). unfold dec2.
  split; [lia|]. by apply (number_nonzero l).
Qed.

(** A message: what it stands for is computed, but for the numbers and strings in it. *)
Lemma fmt_bytes fmt : bytes_ok (str fmt ++ [10; 0]).
Proof. apply Forall_app; split; [apply str_bytes|]. repeat constructor; lia. Qed.

Local Ltac line :=
  apply printk_spec;
    [exact Hbf|exact Hl|apply fmt_bytes|repeat (apply Forall_cons; split; [done|]); apply Forall_nil_2
    |cbv -[number s32 cstr Z.add]; try match goal with H : cstr _ = Some _ |- _ => rewrite H end; reflexivity
    |rewrite !length_app; cbn [length str]; cbn -[hex dec2 number]; lia
    |rewrite !not_elem_of_app; split_and!; first [done|by apply no_zero]].

Lemma regs_line_spec i a b s :
  Screen.printk bf l (str "Reg%02d: 0x%08x, Reg%02d: 0x%08x" ++ [10; 0]) [Int i; Int a; Int (i + 1); Int b] s = Ok (send (regs_line i a b) s).
Proof. destruct (hex_bounds a), (hex_bounds b), (dec2_bounds i), (dec2_bounds (i + 1)). unfold regs_line. line. Qed.

Lemma status_line_spec a b s :
  Screen.printk bf l (str "STATUS:0x%08x, CAUSE:0x%08x" ++ [10; 0]) [Int a; Int b] s = Ok (send (str "STATUS:" ++ hex a ++ str ", CAUSE:" ++ hex b ++ [10]) s).
Proof. destruct (hex_bounds a), (hex_bounds b). line. Qed.

Lemma epc_line_spec a b s :
  Screen.printk bf l (str "EPC:0x%08x, BADVADDR:0x%08x" ++ [10; 0]) [Int a; Int b] s = Ok (send (str "EPC:" ++ hex a ++ str ", BADVADDR:" ++ hex b ++ [10]) s).
Proof. destruct (hex_bounds a), (hex_bounds b). line. Qed.

Lemma error_line_spec t x s : parg_ok (Str t) -> cstr t = Some x -> (length x <= 200)%nat -> 0 ∉ x ->
  Screen.printk bf l (str "Error: %s" ++ [10; 0]) [Str t] s = Ok (send (str "Error: " ++ x ++ [10]) s).
Proof. intros Ht Hx Hlen H0. line. Qed.

Lemma task_line_spec t x p s : parg_ok (Str t) -> cstr t = Some x -> (length x <= 200)%nat -> 0 ∉ x ->
  Screen.printk bf l (str "Task: %s, Pid: %d" ++ [10; 0]) [Str t; Int p] s = Ok (send (str "Task: " ++ x ++ str ", Pid: " ++ number (s32 p) 10 false false 0 ++ [10]) s).
Proof.
  intros Ht Hx Hlen H0. pose proof (number_length (s32 p) 10 false false 0 ltac:(lia) (s32_range p) ltac:(lia)).
  pose proof (number_nonzero l Hl (s32 p) 10 false false 0 ltac:(lia)). line.
Qed.

(** The lines of the registers *)
Lemma bind_ok {A B} (x : A) (f : A -> result B) : mbind f (Ok x) = f x.
Proof. reflexivity. Qed.

Lemma rd_ok r i (a : Z) : r.[i] = Some a -> rd r i = Ok a.
Proof. unfold rd. by intros ->. Qed.

Lemma panic_regs_S n i r s : panic_regs bf l (S n) i r s =
  a ← rd r i; b ← rd r (i + 1);
  s ← Screen.printk bf l (str "Reg%02d: 0x%08x, Reg%02d: 0x%08x" ++ [10; 0]) [Int i; Int a; Int (i + 1); Int b] s;
  panic_regs bf l n (i + 2) r s.
Proof. reflexivity. Qed.

Lemma panic_regs_step n i r s a b : r.[i] = Some a -> r.[i + 1] = Some b ->
  panic_regs bf l (S n) i r s = panic_regs bf l n (i + 2) r (send (regs_line i a b) s).
Proof. intros Ha Hb. by rewrite panic_regs_S, (rd_ok _ _ _ Ha), bind_ok, (rd_ok _ _ _ Hb), bind_ok, regs_line_spec, bind_ok. Qed.

Lemma send_app x y s : send y (send x s) = send (x ++ y) s.
Proof. unfold send. cbn [cur_x cur_y new_screen old_screen serial]. by rewrite <- app_assoc. Qed.

Lemma panic_regs_spec n : forall (k : nat) r s, length r = (k + 2 * n)%nat ->
  panic_regs bf l n (Z.of_nat k) r s = Ok (send (regs_lines (Z.of_nat k) (drop k r)) s).
Proof.
  induction n as [|n IH]; intros k r s Hr.
  { rewrite drop_ge by lia. unfold send. cbn [panic_regs regs_lines]. rewrite app_nil_r. by destruct s. }
  destruct (lookup_lt_is_Some_2 r k) as [a Ha]; [lia|]. destruct (lookup_lt_is_Some_2 r (S k)) as [b Hb]; [lia|].
  rewrite (drop_S _ a k), (drop_S _ b (S k)) by done. cbn [regs_lines]. rewrite <- send_app.
  rewrite (panic_regs_step _ _ _ _ a b); [|by rewrite aget_nat|replace (Z.of_nat k + 1) with (Z.of_nat (S k)) by lia; by rewrite aget_nat].
  replace (Z.of_nat k + 2) with (Z.of_nat (S (S k))) by lia. apply IH. lia.
Qed.

Lemma banner_spec s : Screen.printk bf l (str "* * * * * * * * PANIC * * * * * * * *" ++ [10; 0]) [] s =
  Ok (send (str "* * * * * * * * PANIC * * * * * * * *" ++ [10]) s).
Proof. line. Qed.

Lemma panic_steps msg b s : panic bf l msg b s =
  s ← screen_clear bf l 0 (SCREEN_HEIGHT - 1) s;
  s ← vt100_move_cursor bf l 1 1 s;
  s ← Screen.printk bf l (str "* * * * * * * * PANIC * * * * * * * *" ++ [10; 0]) [] s;
  s ← Screen.printk bf l (str "Error: %s" ++ [10; 0]) [Str (lit msg)] s;
  s ← Screen.printk bf l (str "Task: %s, Pid: %d" ++ [10; 0]) [Str (lit (name b)); Int (pid b)] s;
  s ← Screen.printk bf l (str "STATUS:0x%08x, CAUSE:0x%08x" ++ [10; 0])
    [Int (cp0_status (user_regs_context b)); Int (cp0_cause (user_regs_context b))] s;
  s ← Screen.printk bf l (str "EPC:0x%08x, BADVADDR:0x%08x" ++ [10; 0])
    [Int (cp0_epc (user_regs_context b)); Int (cp0_badvaddr (user_regs_context b))] s;
  panic_regs bf l 16 0 (regs (user_regs_context b)) s.
Proof. reflexivity. Qed.

Lemma send_new x s : new_screen (send x s) = new_screen s.
Proof. done. Qed.

Lemma send_old x s : old_screen (send x s) = old_screen s.
Proof. done. Qed.

Lemma send_serial x s : serial (send x s) = serial s ++ x.
Proof. done. Qed.

(** [panic] does not fault itself: with the screen's buffers of their size, and names and message short,
    it clears the screen, puts the terminal's cursor at the top and writes the message, the task and its
    registers, whatever they hold. *)
Theorem panic_prints (msg : string) (b : pcb_t) (s : screen) :
  length (new_screen s) = 2100%nat -> length (old_screen s) = 2100%nat -> bytes_ok (new_screen s) ->
  short msg -> short (name b) -> length (regs (user_regs_context b)) = 32%nat ->
  exists s', panic bf l msg b s = Ok s' /\ new_screen s' = replicate 2100 32 /\ old_screen s' = replicate 2100 32 /\
    serial s' = serial s ++ updates (old_screen s) (replicate 2100 32) 2100 ++ move_to 1 1 ++ last_words msg b.
Proof.
  intros Hn Ho Hb Hm Hname Hr. rewrite panic_steps, screen_clear_spec, bind_ok, vt100_move_cursor_spec, bind_ok, banner_spec, bind_ok by done.
  rewrite (error_line_spec _ (str msg)), bind_ok by (by apply lit_ok || apply cstr_of, Hm || apply Hm).
  rewrite (task_line_spec _ (str (name b))), bind_ok by (by apply lit_ok || apply cstr_of, Hname || apply Hname).
  rewrite status_line_spec, bind_ok, epc_line_spec, bind_ok, (panic_regs_spec 16 0), !send_app by done.
  eexists. split; [reflexivity|]. rewrite send_old, send_new, send_serial. split; [reflexivity|]. split; [reflexivity|].
  unfold last_words. cbn [serial]. rewrite drop_0. by rewrite <- !app_assoc.
Qed.
End output.
