(* ===== verification/Queue.v ===== *)
(** Intrusive doubly linked queues of process control blocks, [kernel/sched/queue.c]: every queue of
    the kernel (ready, sleeping, blocked on a lock, waiting for a task) is a [queue_t] whose items
    are linked through the [prev] and [next] fields of the blocks themselves, so a block is in at
    most one queue.

    The operations are the C functions in the monad of [Kernel]. The abstraction is [qrep s Q]: in
    state [s] the queues hold the lists of [Q], disjoint and without repetition, correctly linked in
    both directions. Each operation is then a list operation on [Q], and changes nothing of the
    blocks but the links. *)

From S2P Require Import Prelude Kernel.

(** ** The code *)

Definition deref (p : ptr) : M Z := lift p.

Definition queue_init (q : qref) : M unit := put_queue q (Queue None None).

Definition is_null (p : ptr) : bool := match p with None => true | Some _ => false end.

Definition queue_is_empty (q : qref) : M bool :=
  r ← queue_at q; mret (is_null (head r)).

Definition queue_push (q : qref) (item : Z) : M unit :=
  r ← queue_at q;
  if is_null (head r) then
    set_head q (Some item);;
    set_tail q (Some item);;
    upd_pcb item (set_next None);;
    upd_pcb item (set_prev None)
  else
    t ← deref (tail r);
    upd_pcb t (set_next (Some item));;
    upd_pcb item (set_next None);;
    upd_pcb item (set_prev (tail r));;
    set_tail q (Some item).

(** The loop of [queue_push_increasingly]: the first item whose priority is not above [prio]. *)
Fixpoint push_position (fuel : nat) (t : ptr) (prio : Z) : M ptr :=
  match fuel with
  | O => no_fuel
  | S fuel =>
      match t with
      | None => mret None
      | Some i =>
          p ← pcb_at i;
          if prio <? priority p then push_position fuel (next p) prio else mret (Some i)
      end
  end.

(** Fuel for a walk along a queue: one step per block and one to see the end. *)
Definition walk_fuel (s : kstate) : nat := S (length (pcb s)).

Definition queue_push_increasingly (q : qref) (item : Z) : M unit :=
  r ← queue_at q;
  if is_null (head r) then
    set_head q (Some item);;
    set_tail q (Some item);;
    upd_pcb item (set_next None);;
    upd_pcb item (set_prev None)
  else
    it ← pcb_at item;
    fuel ← get walk_fuel;
    t ← push_position fuel (head r) (priority it);
    if decide (t = head r) then
      h ← deref t;
      upd_pcb h (set_prev (Some item));;
      upd_pcb item (set_next t);;
      upd_pcb item (set_prev None);;
      set_head q (Some item)
    else
      match t with
      | None =>
          t ← deref (tail r);
          upd_pcb t (set_next (Some item));;
          upd_pcb item (set_prev (Some t));;
          upd_pcb item (set_next None);;
          set_tail q (Some item)
      | Some t =>
          p ← pcb_at t;
          before ← deref (prev p);
          upd_pcb before (set_next (Some item));;
          upd_pcb item (set_prev (prev p));;
          upd_pcb t (set_prev (Some item));;
          upd_pcb item (set_next (Some t))
      end.

Definition queue_dequeue (q : qref) : M Z :=
  r ← queue_at q;
  h ← deref (head r);
  p ← pcb_at h;
  (if is_null (next p) then put_queue q (Queue None None)
   else
     set_head q (next p);;
     r ← queue_at q;
     h' ← deref (head r);
     upd_pcb h' (set_prev None);;
     upd_pcb h (set_prev None);;
     upd_pcb h (set_next None));;
  mret h.

Definition queue_remove (q : qref) (item : Z) : M ptr :=
  it ← pcb_at item;
  r ← queue_at q;
  (if bool_decide (Some item = head r) && bool_decide (Some item = tail r) then
     set_head q None;; set_tail q None
   else
     (if bool_decide (Some item = head r) then
        set_head q (next it);;
        r ← queue_at q;
        h ← deref (head r);
        upd_pcb h (set_prev None)
      else if bool_decide (Some item = tail r) then
        set_tail q (prev it);;
        r ← queue_at q;
        t ← deref (tail r);
        upd_pcb t (set_next None)
      else
        b ← deref (prev it);
        upd_pcb b (set_next (next it));;
        it ← pcb_at item;
        a ← deref (next it);
        upd_pcb a (set_prev (prev it)));;
     upd_pcb item (set_prev None);;
     upd_pcb item (set_next None));;
  mret (next it).

(** ** The abstraction *)

(** First and last item of a queue holding [xs], with what stands before or after it. *)
Definition first_of (xs : list Z) (nx : ptr) : ptr := match xs with [] => nx | i :: _ => Some i end.

Fixpoint last_of (pv : ptr) (xs : list Z) : ptr :=
  match xs with [] => pv | i :: xs => last_of (Some i) xs end.

(** [dseg P pv xs nx]: the blocks [xs] are linked in that order, after [pv] and before [nx]. *)
Fixpoint dseg (P : list pcb_t) (pv : ptr) (xs : list Z) (nx : ptr) : Prop :=
  match xs with
  | [] => True
  | i :: xs =>
      (exists p, P.[i] = Some p /\ prev p = pv /\ next p = first_of xs nx) /\
      dseg P (Some i) xs nx
  end.

Definition queue_of (xs : list Z) : queue_t := Queue (first_of xs None) (last_of None xs).

Record qrep (s : kstate) (Q : gmap qref (list Z)) : Prop := {
  qrep_queues : queues s = queue_of <$> Q;
  qrep_links q xs : Q !! q = Some xs -> dseg (pcb s) None xs None;
  qrep_nodup q xs : Q !! q = Some xs -> NoDup xs;
  qrep_disjoint q q' xs xs' i :
    Q !! q = Some xs -> Q !! q' = Some xs' -> i ∈ xs -> i ∈ xs' -> q = q'
}.

(** Where [queue_push_increasingly] inserts: after the items whose value exceeds [v]. *)
Fixpoint span_above (f : Z -> Z) (v : Z) (xs : list Z) : list Z * list Z :=
  match xs with
  | [] => ([], [])
  | j :: xs' => if v <? f j then let '(l, r) := span_above f v xs' in (j :: l, r) else ([], xs)
  end.

Definition prio_of (s : kstate) (i : Z) : Z :=
  match (pcb s).[i] with Some p => priority p | None => 0 end.

(** A block is in no queue. *)
Definition unqueued (Q : gmap qref (list Z)) (i : Z) : Prop :=
  forall q xs, Q !! q = Some xs -> i ∉ xs.

(** Two states that differ in the links of blocks and in the queues only. *)
Definition unlink (p : pcb_t) : pcb_t := set_prev None (set_next None p).

Record links_only (s s' : kstate) : Prop := {
  lo_rest : set_queues ∅ (set_pcb [] s') = set_queues ∅ (set_pcb [] s);
  lo_pcb : unlink <$> pcb s' = unlink <$> pcb s
}.

(** ** The abstract specification: a family of lists

    Requests on the queues, what the code does for them, and what they mean on the lists [Q]. An item
    to be pushed must be in no queue; an item to be removed must be in the queue named. *)

Inductive qreq :=
  | Init (q : qref)
  | Push (q : qref) (i : Z)
  | PushIncreasingly (q : qref) (i : Z)
  | Dequeue (q : qref)
  | Remove (q : qref) (i : Z).

Definition qexec (r : qreq) : M ptr :=
  match r with
  | Init q => queue_init q;; mret None
  | Push q i => queue_push q i;; mret None
  | PushIncreasingly q i => queue_push_increasingly q i;; mret None
  | Dequeue q => i ← queue_dequeue q; mret (Some i)
  | Remove q i => queue_remove q i
  end.

Inductive qspec (s : kstate) (Q : gmap qref (list Z)) : qreq -> ptr -> gmap qref (list Z) -> Prop :=
  | spec_init q : qspec s Q (Init q) None (<[q := []]> Q)
  | spec_push q xs i :
      Q !! q = Some xs -> unqueued Q i -> is_Some ((pcb s).[i]) ->
      qspec s Q (Push q i) None (<[q := xs ++ [i]]> Q)
  | spec_push_increasingly q xs i l r :
      Q !! q = Some xs -> unqueued Q i -> is_Some ((pcb s).[i]) ->
      span_above (prio_of s) (prio_of s i) xs = (l, r) ->
      qspec s Q (PushIncreasingly q i) None (<[q := l ++ i :: r]> Q)
  | spec_dequeue q i xs :
      Q !! q = Some (i :: xs) -> qspec s Q (Dequeue q) (Some i) (<[q := xs]> Q)
  | spec_remove q l i r :
      Q !! q = Some (l ++ i :: r) -> qspec s Q (Remove q i) (first_of r None) (<[q := l ++ r]> Q).

(** ** Lemmas on linked segments *)

Lemma bind_deref {B} (i : Z) (f : Z -> M B) s : (deref (Some i) ≫= f) s = f i s.
Proof. done. Qed.

(** [mrun] with dereferences of known pointers. *)
Ltac qrun :=
  repeat (cbn [head tail queue_of first_of is_null];
          (mstep || (rewrite bind_deref; cbn beta iota)));
  cbn [head tail queue_of first_of is_null].

Lemma last_of_elem a xs x : last_of (Some a) xs = Some x -> x ∈ a :: xs.
Proof.
  revert a. induction xs as [|b xs IH]; intros a; cbn; [set_solver|].
  intros H%IH. set_solver.
Qed.

(** What [dseg] reads of a block. *)
Definition links (p : pcb_t) : ptr * ptr := (prev p, next p).

Definition same_links (P P' : list pcb_t) (i : Z) : Prop :=
  fmap links (P'.[i]) = fmap links (P.[i]).

Lemma first_of_app l r nx : first_of (l ++ r) nx = first_of l (first_of r nx).
Proof. by destruct l. Qed.

Lemma last_of_app pv l r : last_of pv (l ++ r) = last_of (last_of pv l) r.
Proof. revert pv. induction l as [|i l IH]; intros pv; cbn; [done|apply IH]. Qed.

Lemma last_of_snoc pv l i : last_of pv (l ++ [i]) = Some i.
Proof. by rewrite last_of_app. Qed.

Lemma dseg_cons P pv i xs nx :
  dseg P pv (i :: xs) nx <->
  (exists p, P.[i] = Some p /\ prev p = pv /\ next p = first_of xs nx) /\ dseg P (Some i) xs nx.
Proof. done. Qed.

Lemma dseg_app P pv l r nx :
  dseg P pv (l ++ r) nx <-> dseg P pv l (first_of r nx) /\ dseg P (last_of pv l) r nx.
Proof.
  revert pv. induction l as [|i l IH]; intros pv; cbn; [tauto|].
  rewrite IH, first_of_app. tauto.
Qed.

Lemma dseg_frame P P' pv xs nx :
  (forall i, i ∈ xs -> same_links P P' i) -> dseg P pv xs nx -> dseg P' pv xs nx.
Proof.
  revert pv. induction xs as [|i xs IH]; intros pv Hsame; cbn; [done|].
  intros [(p & Hp & Hpv & Hnx) Hrest]. split.
  - pose proof (Hsame i ltac:(set_solver)) as E. unfold same_links in E. rewrite Hp in E.
    destruct (P'.[i]) as [p'|]; [|done]. cbn in E. injection E as E1 E2.
    exists p'. split_and!; congruence.
  - apply IH; [|done]. intros j Hj. apply Hsame. set_solver.
Qed.

Lemma same_links_upd P i j p x :
  P.[i] = Some p -> i <> j -> same_links P (<[Z.to_nat i := x]> P) j.
Proof. intros Hp Hij. unfold same_links. rewrite (aget_upd_pcb P i j p) by done. by rewrite decide_False. Qed.

Lemma dseg_upd P pv xs nx i p x :
  P.[i] = Some p -> i ∉ xs -> dseg P pv xs nx -> dseg (<[Z.to_nat i := x]> P) pv xs nx.
Proof.
  intros Hp Hi. apply dseg_frame. intros j Hj. apply (same_links_upd P i j p x Hp). set_solver.
Qed.

Lemma dseg_member P pv l i r nx :
  dseg P pv (l ++ i :: r) nx ->
  exists p, P.[i] = Some p /\ prev p = last_of pv l /\ next p = first_of r nx.
Proof. rewrite dseg_app. cbn. naive_solver. Qed.

(** Redirecting the [next] of the last item, and the [prev] of the first. *)
Lemma dseg_set_next P pv l t p nx nx' :
  P.[t] = Some p -> t ∉ l ->
  dseg P pv (l ++ [t]) nx -> dseg (<[Z.to_nat t := set_next nx' p]> P) pv (l ++ [t]) nx'.
Proof.
  intros Hp Ht. rewrite !dseg_app. cbn. intros (Hl & (p' & Hp' & Hpv & _) & _). simplify_eq.
  split; [by apply (dseg_upd _ _ _ _ t p)|]. split; [|done].
  exists (set_next nx' p). by rewrite (aget_upd_pcb P t t p), decide_True.
Qed.

Lemma dseg_set_prev P pv pv' h r p nx :
  P.[h] = Some p -> h ∉ r ->
  dseg P pv (h :: r) nx -> dseg (<[Z.to_nat h := set_prev pv' p]> P) pv' (h :: r) nx.
Proof.
  intros Hp Hh. cbn. intros ((p' & Hp' & _ & Hnx) & Hr). simplify_eq.
  split; [|by apply (dseg_upd _ _ _ _ h p)].
  exists (set_prev pv' p). by rewrite (aget_upd_pcb P h h p), decide_True.
Qed.

(** ** [links_only] *)

#[global] Instance links_only_preorder : PreOrder links_only.
Proof.
  split; [done|]. intros s1 s2 s3 [A1 B1] [A2 B2]. split; congruence.
Qed.

Lemma links_only_upd s i p f :
  (pcb s).[i] = Some p -> unlink (f p) = unlink p ->
  links_only s (set_pcb (<[Z.to_nat i := f p]> (pcb s)) s).
Proof.
  intros Hp Hf. split; [done|]. cbn. rewrite list_fmap_insert, Hf.
  apply list_insert_id. unfold aget in Hp. case_decide; [|done].
  by rewrite list_lookup_fmap, Hp.
Qed.

Lemma links_only_queues s qs : links_only s (set_queues qs s).
Proof. done. Qed.

Lemma links_only_lookup s s' i :
  links_only s s' -> fmap unlink ((pcb s').[i]) = fmap unlink ((pcb s).[i]).
Proof.
  intros [_ H]. unfold aget. case_decide; [|done]. by rewrite <- !list_lookup_fmap, H.
Qed.

(** A field that is not a link reads the same. *)
Lemma links_only_field {A} (f : pcb_t -> A) s s' i p :
  (forall q, f (unlink q) = f q) -> links_only s s' -> (pcb s).[i] = Some p ->
  exists p', (pcb s').[i] = Some p' /\ f p' = f p /\ unlink p' = unlink p.
Proof.
  intros Hf Hl%(fun H => links_only_lookup s s' i H) Hp. rewrite Hp in Hl.
  destruct ((pcb s').[i]) as [p'|]; [|done]. apply (inj Some) in Hl.
  exists p'. split_and!; [done| |done]. by rewrite <- (Hf p'), <- (Hf p), Hl.
Qed.

Lemma unlink_upd (l : list pcb_t) i p x :
  l.[i] = Some p -> unlink x = unlink p -> unlink <$> <[Z.to_nat i := x]> l = unlink <$> l.
Proof.
  intros Hp Hf. rewrite list_fmap_insert, Hf. apply list_insert_id.
  unfold aget in Hp. case_decide; [|done]. by rewrite list_lookup_fmap, Hp.
Qed.

Lemma same_links_step P P' i j p x :
  P'.[i] = Some p -> i <> j -> same_links P P' j -> same_links P (<[Z.to_nat i := x]> P') j.
Proof. intros Hp Hij E. unfold same_links in *. rewrite <- E. by apply (same_links_upd P' i j p). Qed.

Ltac solve_links_only :=
  split; [reflexivity|]; cleanup; repeat (erewrite unlink_upd; [|cleanup; lk|reflexivity]); reflexivity.

Ltac solve_same_links :=
  cleanup; repeat (eapply same_links_step; [lk|set_solver|]); reflexivity.

Ltac seg_skip := eapply dseg_upd; [cleanup; lk|set_solver|].

(** ** Rebuilding the invariant after one queue changed *)

Lemma qrep_change s s' Q q xs xs' :
  qrep s Q -> Q !! q = Some xs ->
  queues s' = <[q := queue_of xs']> (queues s) ->
  dseg (pcb s') None xs' None -> NoDup xs' ->
  (forall i, i ∈ xs' -> (i ∈ xs) \/ unqueued Q i) ->
  (forall i, i ∉ xs -> i ∉ xs' -> same_links (pcb s) (pcb s') i) ->
  qrep s' (<[q := xs']> Q).
Proof.
  intros [Hq Hl Hn Hd] HQ Hq' Hseg Hnd Hmem Hsame.
  assert (Hother : forall q2 ys i, q2 <> q -> Q !! q2 = Some ys -> i ∈ ys -> (i ∉ xs) /\ (i ∉ xs')).
  { intros q2 ys i Hne Hy Hi.
    assert (Hx : i ∉ xs) by (intros Hx; apply Hne; by apply (Hd q2 q ys xs i)).
    split; [done|]. intros Hx'. destruct (Hmem i Hx') as [|Hu]; [done|]. by apply (Hu q2 ys). }
  split.
  - by rewrite Hq', Hq, fmap_insert.
  - intros q2 ys. rewrite lookup_insert. case_decide as E; intros Hy; simplify_eq; [done|].
    eapply dseg_frame, Hl, Hy. intros i Hi. destruct (Hother q2 ys i) as [? ?]; [done..|]. by apply Hsame.
  - intros q2 ys. rewrite lookup_insert. case_decide; intros Hy; simplify_eq; eauto.
  - intros q1 q2 ys zs i. rewrite !lookup_insert. repeat case_decide; intros Hy Hz Hiy Hiz;
      simplify_eq; try done; [| |eauto].
    + by destruct (Hother q2 zs i) as [_ ?].
    + by destruct (Hother q1 ys i) as [_ ?].
Qed.

Lemma qrep_lookup s Q q xs : qrep s Q -> Q !! q = Some xs -> queues s !! q = Some (queue_of xs).
Proof. intros [Hq _ _ _] HQ. by rewrite Hq, lookup_fmap, HQ. Qed.

(** ** The operations *)

Lemma queue_is_empty_spec s Q q xs :
  qrep s Q -> Q !! q = Some xs -> queue_is_empty q s = Ok (bool_decide (xs = []), s).
Proof.
  intros HR HQ. unfold queue_is_empty. pose proof (qrep_lookup _ _ _ _ HR HQ) as Hq.
  mrun. by destruct xs.
Qed.

Lemma snoc_case {A} (xs : list A) : xs = [] \/ exists l t, xs = l ++ [t].
Proof. induction xs as [|t l _] using rev_ind; [by left|right; eauto]. Qed.

(** [queue_push] appends. *)
Lemma queue_push_spec s Q q xs i :
  qrep s Q -> Q !! q = Some xs -> unqueued Q i -> is_Some ((pcb s).[i]) ->
  exists s', queue_push q i s = Ok (tt, s') /\ qrep s' (<[q := xs ++ [i]]> Q) /\ links_only s s'.
Proof.
  intros HR HQ Hu [p Hp]. pose proof (qrep_lookup _ _ _ _ HR HQ) as Hq.
  pose proof (Hu q xs HQ) as Hi. unfold queue_push.
  destruct (snoc_case xs) as [->|(l & t & ->)].
  - mrun. cbn. mrun. eexists. split; [reflexivity|]. split; [|solve_links_only].
    eapply (qrep_change s _ Q q [] [i]); [done..| | | | |].
    + cbn. by rewrite insert_insert_eq.
    + cbn. split; [|done]. eexists. split; [lk|done].
    + apply NoDup_singleton.
    + set_solver.
    + intros j _ Hj. solve_same_links.
  - pose proof (qrep_links _ _ HR _ _ HQ) as Hseg. pose proof (qrep_nodup _ _ HR _ _ HQ) as Hnd.
    destruct (dseg_member _ _ _ _ _ _ Hseg) as (pt & Hpt & Hpv & Hnx).
    assert (Hit : i <> t) by set_solver. apply NoDup_app in Hnd as (Hndl & Hdl & _).
    assert (Htl : t ∉ l) by (intros Ht; apply (Hdl t Ht); set_solver).
    assert (exists h, first_of (l ++ [t]) None = Some h) as [h Hh] by (destruct l; cbn; eauto).
    mrun. unfold queue_of. cbn. rewrite Hh, last_of_snoc. cbn. mrun.
    eexists. split; [reflexivity|]. split; [|solve_links_only].
    eapply (qrep_change s _ Q q (l ++ [t])); [done..| | | | |].
    + cbn. unfold queue_of. rewrite last_of_snoc. by destruct l; simplify_eq/=.
    + rewrite dseg_app. split.
      * cleanup. do 2 seg_skip. by eapply dseg_set_next.
      * rewrite last_of_snoc. cbn. split; [|done]. eexists. split; [lk|done].
    + apply NoDup_app. split_and!; [by apply (qrep_nodup _ _ HR q)|set_solver|apply NoDup_singleton].
    + set_solver.
    + intros j Hj Hj'. solve_same_links.
Qed.

(** [queue_remove], by the place of the item: alone, first, last, in the middle. *)
Section remove.
Context (s : kstate) (Q : gmap qref (list Z)) (q : qref) (i : Z).

Definition removes_to (nx : ptr) (xs : list Z) : Prop :=
  exists s', queue_remove q i s = Ok (nx, s') /\ qrep s' (<[q := xs]> Q) /\ links_only s s'.

Lemma queue_remove_single : qrep s Q -> Q !! q = Some [i] -> removes_to None [].
Proof.
  intros HR HQ. pose proof (qrep_lookup _ _ _ _ HR HQ) as Hq.
  destruct (dseg_member _ _ [] _ _ _ (qrep_links _ _ HR _ _ HQ)) as (p & Hp & _ & Hnx).
  unfold removes_to, queue_remove. qrun. rewrite !bool_decide_eq_true_2 by done. cbn. qrun.
  cbn in Hnx. rewrite Hnx.
  eexists. split; [reflexivity|]. split; [|solve_links_only].
  eapply (qrep_change s _ Q q [i]); [done..| |done|constructor|set_solver|]; cleanup.
  - cbn. by rewrite insert_insert_eq.
  - intros j _ _. solve_same_links.
Qed.

Lemma queue_remove_first a r :
  qrep s Q -> Q !! q = Some (i :: a :: r) -> removes_to (Some a) (a :: r).
Proof.
  intros HR HQ. pose proof (qrep_lookup _ _ _ _ HR HQ) as Hq.
  pose proof (qrep_links _ _ HR _ _ HQ) as Hseg. pose proof (qrep_nodup _ _ HR _ _ HQ) as Hnd.
  apply NoDup_cons in Hnd as [Hi Hnd]. pose proof Hnd as [Har _]%NoDup_cons.
  destruct (dseg_member _ _ [] _ _ _ Hseg) as (p & Hp & _ & Hnx).
  destruct (dseg_member _ _ [] _ _ _ (proj2 Hseg)) as (pa & Hpa & _ & _).
  assert (Hai : a <> i) by set_solver. cbn in Hnx.
  assert (Htl : Some i <> last_of (Some a) r) by (intros H%eq_sym%last_of_elem; set_solver).
  unfold removes_to, queue_remove. qrun. unfold queue_of. cbn.
  rewrite bool_decide_eq_true_2, bool_decide_eq_false_2 by done. cbn [andb].
  rewrite Hnx. qrun.
  eexists. split; [reflexivity|]. split; [|solve_links_only].
  eapply (qrep_change s _ Q q (i :: a :: r)); [done..| |done|set_solver|]; cleanup.
  - do 2 seg_skip. eapply dseg_set_prev; [lk|done|]. apply Hseg.
  - intros j Hj Hj'. assert (j <> i) by set_solver. solve_same_links.
Qed.

Lemma queue_remove_last l b :
  qrep s Q -> Q !! q = Some ((l ++ [b]) ++ [i]) -> removes_to None (l ++ [b]).
Proof.
  intros HR HQ. pose proof (qrep_lookup _ _ _ _ HR HQ) as Hq.
  pose proof (qrep_links _ _ HR _ _ HQ) as Hseg. pose proof (qrep_nodup _ _ HR _ _ HQ) as Hnd.
  destruct (dseg_member _ _ _ _ _ _ Hseg) as (p & Hp & Hpv & Hnx). rewrite last_of_snoc in Hpv.
  apply dseg_app in Hseg as [Hseg _]. destruct (dseg_member _ _ l b [] _ Hseg) as (pb & Hpb & _ & _).
  apply NoDup_app in Hnd as (Hnd & Hi & _). pose proof Hnd as (_ & Hbl & _)%NoDup_app.
  assert (b ∉ l) by (intros Hb; apply (Hbl b Hb); set_solver).
  assert (Hbi : b <> i) by (specialize (Hi b); set_solver).
  assert (Hil : i ∉ l ++ [b]) by (intros Hx; apply (Hi i Hx); set_solver).
  assert (Hfi : Some i <> first_of ((l ++ [b]) ++ [i]) None).
  { destruct l; cbn; intros E; simplify_eq; set_solver. }
  unfold removes_to, queue_remove. qrun. unfold queue_of. cbn [head tail]. rewrite last_of_snoc.
  rewrite bool_decide_eq_false_2, bool_decide_eq_true_2 by done. cbn [andb].
  rewrite Hpv, Hnx. qrun.
  eexists. split; [reflexivity|]. split; [|solve_links_only].
  eapply (qrep_change s _ Q q ((l ++ [b]) ++ [i])); [done..| | |done|set_solver|]; cleanup.
  - f_equal. unfold queue_of. cbn. rewrite !last_of_snoc. by destruct l.
  - do 2 seg_skip. by eapply dseg_set_next.
  - intros j Hj Hj'. assert (j <> i) by set_solver. solve_same_links.
Qed.

Lemma queue_remove_middle l b a r :
  qrep s Q -> Q !! q = Some ((l ++ [b]) ++ i :: a :: r) ->
  removes_to (Some a) ((l ++ [b]) ++ a :: r).
Proof.
  intros HR HQ. pose proof (qrep_lookup _ _ _ _ HR HQ) as Hq.
  pose proof (qrep_links _ _ HR _ _ HQ) as Hseg. pose proof (qrep_nodup _ _ HR _ _ HQ) as Hnd.
  destruct (dseg_member _ _ _ _ _ _ Hseg) as (p & Hp & Hpv & Hnx).
  rewrite last_of_snoc in Hpv. cbn in Hnx.
  rewrite <- Permutation_middle in Hnd. apply NoDup_cons in Hnd as [Hi Hnd].
  pose proof Hnd as (Hndl & Hdis & Hndr)%NoDup_app.
  apply NoDup_app in Hndl as (_ & Hbl & _). apply NoDup_cons in Hndr as [Har _].
  assert (b ∉ l) by (intros Hb; apply (Hbl b Hb); set_solver).
  assert (Hbr : b ∉ a :: r) by (apply Hdis; set_solver).
  assert (Ha : a ∉ l ++ [b]) by (intros Hx; apply (Hdis a Hx); set_solver).
  assert (Hbi : b <> i) by set_solver. assert (Hai : a <> i) by set_solver.
  assert (Hab : a <> b) by set_solver.
  assert (Hfi : Some i <> first_of ((l ++ [b]) ++ i :: a :: r) None).
  { destruct l; cbn; intros E; simplify_eq; set_solver. }
  assert (Hti : Some i <> last_of None ((l ++ [b]) ++ i :: a :: r)).
  { rewrite last_of_app. cbn. intros E%eq_sym%last_of_elem. set_solver. }
  apply dseg_app in Hseg as [Hl [_ Hr]].
  destruct (dseg_member _ _ [] _ _ _ Hr) as (pa & Hpa & _ & _).
  destruct (dseg_member _ _ l b [] _ Hl) as (pb & Hpb & _ & _).
  unfold removes_to, queue_remove. qrun. unfold queue_of. cbn [head tail].
  rewrite !bool_decide_eq_false_2 by done. cbn [andb]. rewrite Hpv, Hnx. qrun.
  rewrite Hpv, Hnx. qrun.
  eexists. split; [reflexivity|]. split; [|solve_links_only].
  eapply (qrep_change s _ Q q ((l ++ [b]) ++ i :: a :: r)); [done..| | |done|set_solver|]; cleanup.
  - symmetry. apply insert_id. rewrite Hq. unfold queue_of. f_equal.
    rewrite !last_of_app. cbn. by destruct l.
  - do 2 seg_skip. rewrite dseg_app, last_of_snoc. split.
    + seg_skip. by eapply dseg_set_next.
    + eapply dseg_set_prev; [lk|set_solver|]. by seg_skip.
  - intros j Hj Hj'. assert (j <> i) by set_solver. solve_same_links.
Qed.

(** [queue_remove] deletes, wherever the item is, and returns the item that followed it. *)
Lemma queue_remove_spec l r :
  qrep s Q -> Q !! q = Some (l ++ i :: r) -> removes_to (first_of r None) (l ++ r).
Proof.
  intros HR HQ. destruct (snoc_case l) as [->|(l' & b & ->)], r as [|a r].
  - by apply queue_remove_single.
  - by apply queue_remove_first.
  - rewrite app_nil_r. by apply queue_remove_last.
  - by apply queue_remove_middle.
Qed.

End remove.

(** [queue_dequeue] takes the first item; on an empty queue it dereferences [NULL]. *)
Lemma queue_dequeue_spec s Q q i r :
  qrep s Q -> Q !! q = Some (i :: r) ->
  exists s', queue_dequeue q s = Ok (i, s') /\ qrep s' (<[q := r]> Q) /\ links_only s s'.
Proof.
  intros HR HQ. pose proof (qrep_lookup _ _ _ _ HR HQ) as Hq.
  pose proof (qrep_links _ _ HR _ _ HQ) as Hseg. pose proof (qrep_nodup _ _ HR _ _ HQ) as Hnd.
  destruct (dseg_member _ _ [] _ _ _ Hseg) as (p & Hp & _ & Hnx).
  apply NoDup_cons in Hnd as [Hi Hnd]. unfold queue_dequeue.
  destruct r as [|a r]; cbn in Hnx; qrun; rewrite Hnx; cbn [is_null]; qrun.
  - eexists. split; [reflexivity|]. split; [|solve_links_only].
    eapply (qrep_change s _ Q q [i]); [done..| |constructor|set_solver|]; [done|].
    intros j _ _. solve_same_links.
  - pose proof Hnd as [Har _]%NoDup_cons. assert (Hai : a <> i) by set_solver.
    destruct (dseg_member _ _ [] _ _ _ (proj2 Hseg)) as (pa & Hpa & _ & _). qrun.
    eexists. split; [reflexivity|]. split; [|solve_links_only].
    eapply (qrep_change s _ Q q (i :: a :: r)); [done..| |done|set_solver|]; cleanup.
    + do 2 seg_skip. eapply dseg_set_prev; [lk|done|]. apply Hseg.
    + intros j Hj Hj'. assert (j <> i) by set_solver. solve_same_links.
Qed.

Lemma queue_dequeue_empty s Q q : qrep s Q -> Q !! q = Some [] -> queue_dequeue q s = Fault.
Proof.
  intros HR HQ. pose proof (qrep_lookup _ _ _ _ HR HQ) as Hq. unfold queue_dequeue. by qrun.
Qed.

(** [queue_init] empties a queue, whatever it held. *)
Lemma queue_init_spec s Q q :
  qrep s Q -> exists s', queue_init q s = Ok (tt, s') /\ qrep s' (<[q := []]> Q) /\ links_only s s'.
Proof.
  intros [Hq Hl Hn Hd]. eexists. split; [reflexivity|]. split; [|done]. split; cleanup.
  - by rewrite Hq, fmap_insert.
  - intros q2 ys. rewrite lookup_insert. case_decide; intros Hy; simplify_eq; [done|eauto].
  - intros q2 ys. rewrite lookup_insert. case_decide; intros Hy; simplify_eq; [constructor|eauto].
  - intros q1 q2 ys zs i. rewrite !lookup_insert.
    repeat case_decide; intros Hy Hz Hiy Hiz; simplify_eq; [set_solver..|eauto].
Qed.

(** ** Insertion by priority *)

Lemma span_above_app f v xs : fst (span_above f v xs) ++ snd (span_above f v xs) = xs.
Proof.
  induction xs as [|j xs IH]; cbn; [done|]. case_cmp; [|done].
  destruct (span_above f v xs). cbn in *. by rewrite IH.
Qed.

(** A queue never has more items than there are blocks. *)
Lemma qrep_length s Q q xs : qrep s Q -> Q !! q = Some xs -> (length xs <= length (pcb s))%nat.
Proof.
  intros HR HQ. pose proof (qrep_nodup _ _ HR _ _ HQ) as Hnd.
  assert (Hr : forall i, i ∈ xs -> 0 <= i < Z.of_nat (length (pcb s))).
  { intros i (l & r & ->)%list_elem_of_split.
    destruct (dseg_member _ _ _ _ _ _ (qrep_links _ _ HR _ _ HQ)) as (p & Hp & _).
    by apply aget_Some in Hp. }
  assert (Hsub : xs ⊆+ Z.of_nat <$> seq 0 (length (pcb s))).
  { apply NoDup_submseteq; [done|]. intros i Hi%Hr. apply list_elem_of_fmap.
    exists (Z.to_nat i). rewrite elem_of_seq. lia. }
  apply submseteq_length in Hsub. by rewrite length_fmap, length_seq in Hsub.
Qed.

Lemma push_position_spec s pv xs v fuel :
  dseg (pcb s) pv xs None -> (length xs < fuel)%nat ->
  push_position fuel (first_of xs None) v s
    = Ok (first_of (snd (span_above (prio_of s) v xs)) None, s).
Proof.
  revert pv fuel. induction xs as [|j xs IH]; intros pv fuel Hseg Hf; destruct fuel as [|fuel];
    cbn in Hf; try lia; [done|].
  destruct Hseg as [(p & Hp & Hpv & Hnx) Hseg]. cbn. qrun.
  replace (prio_of s j) with (priority p) by (unfold prio_of; by rewrite Hp).
  case_cmp; [|done]. rewrite Hnx, (IH (Some j)) by (done || lia).
  by destruct (span_above (prio_of s) v xs).
Qed.

Section push_increasingly.
Context (s : kstate) (Q : gmap qref (list Z)) (q : qref) (i : Z) (p : pcb_t).
Hypothesis (HR : qrep s Q) (Hu : unqueued Q i) (Hp : (pcb s).[i] = Some p).

Definition pushes_to (xs : list Z) : Prop :=
  exists s', queue_push_increasingly q i s = Ok (tt, s') /\ qrep s' (<[q := xs]> Q) /\ links_only s s'.

(** Before the first item, after the last one, between two. *)
(** Running the call up to the end of its loop. *)
Ltac push_loop HQ Hpos :=
  unfold pushes_to, queue_push_increasingly; qrun;
  rewrite (bind_Ok _ _ _ _ _ (Hpos ltac:(pose proof (qrep_length _ _ _ _ HR HQ); unfold walk_fuel; lia)));
  cbn beta.

Lemma push_increasingly_first h r :
  Q !! q = Some (h :: r) -> span_above (prio_of s) (priority p) (h :: r) = ([], h :: r) ->
  pushes_to (i :: h :: r).
Proof.
  intros HQ Hsp. pose proof (qrep_lookup _ _ _ _ HR HQ) as Hq. pose proof (Hu q _ HQ) as Hi.
  pose proof (qrep_links _ _ HR _ _ HQ) as Hseg. pose proof (qrep_nodup _ _ HR _ _ HQ) as Hnd.
  destruct (dseg_member _ _ [] _ _ _ Hseg) as (ph & Hph & _ & _).
  assert (Hhi : h <> i) by set_solver. pose proof Hnd as [Hhr _]%NoDup_cons.
  pose proof (push_position_spec s None (h :: r) (priority p) (walk_fuel s) Hseg) as Hpos.
  rewrite Hsp in Hpos. cbn [first_of snd] in Hpos.
  push_loop HQ Hpos. rewrite decide_True by done. qrun.
  eexists. split; [reflexivity|]. split; [|solve_links_only].
  eapply (qrep_change s _ Q q (h :: r)); [done..| | | |set_solver|]; cleanup.
  - done.
  - rewrite dseg_cons. split; [eexists; split; [lk|done]|]. do 2 seg_skip. by eapply dseg_set_prev.
  - by constructor.
  - intros j Hj Hj'. assert (j <> i) by set_solver. solve_same_links.
Qed.

Lemma push_increasingly_last l t :
  Q !! q = Some (l ++ [t]) -> span_above (prio_of s) (priority p) (l ++ [t]) = (l ++ [t], []) ->
  pushes_to ((l ++ [t]) ++ [i]).
Proof.
  intros HQ Hsp. pose proof (qrep_lookup _ _ _ _ HR HQ) as Hq. pose proof (Hu q _ HQ) as Hi.
  pose proof (qrep_links _ _ HR _ _ HQ) as Hseg. pose proof (qrep_nodup _ _ HR _ _ HQ) as Hnd.
  destruct (dseg_member _ _ _ _ _ _ Hseg) as (pt & Hpt & _ & _).
  assert (Hti : t <> i) by set_solver. pose proof Hnd as (_ & Hlt & _)%NoDup_app.
  assert (t ∉ l) by (intros Ht; apply (Hlt t Ht); set_solver).
  assert (exists h, first_of (l ++ [t]) None = Some h) as [h Hh] by (destruct l; cbn; eauto).
  pose proof (push_position_spec s None (l ++ [t]) (priority p) (walk_fuel s) Hseg) as Hpos.
  rewrite Hsp, Hh in Hpos. cbn [first_of snd] in Hpos.
  unfold queue_of in Hq. rewrite Hh, last_of_snoc in Hq.
  push_loop HQ Hpos. rewrite decide_False by done. qrun.
  eexists. split; [reflexivity|]. split; [|solve_links_only].
  eapply (qrep_change s _ Q q (l ++ [t])); [done..| | | |set_solver|]; cleanup.
  - f_equal. unfold queue_of. rewrite last_of_snoc. by destruct l; simplify_eq/=.
  - rewrite dseg_app. split.
    + do 2 seg_skip. by eapply dseg_set_next.
    + rewrite last_of_snoc, dseg_cons. split; [|done]. eexists. split; [lk|done].
  - apply NoDup_app. split_and!; [done|set_solver|apply NoDup_singleton].
  - intros j Hj Hj'. assert (j <> i) by set_solver. solve_same_links.
Qed.

Lemma push_increasingly_middle l b a r :
  Q !! q = Some ((l ++ [b]) ++ a :: r) ->
  span_above (prio_of s) (priority p) ((l ++ [b]) ++ a :: r) = (l ++ [b], a :: r) ->
  pushes_to ((l ++ [b]) ++ i :: a :: r).
Proof.
  intros HQ Hsp. pose proof (qrep_lookup _ _ _ _ HR HQ) as Hq. pose proof (Hu q _ HQ) as Hi.
  pose proof (qrep_links _ _ HR _ _ HQ) as Hseg. pose proof (qrep_nodup _ _ HR _ _ HQ) as Hnd.
  destruct (dseg_member _ _ _ _ _ _ Hseg) as (pa & Hpa & Hpva & _). rewrite last_of_snoc in Hpva.
  pose proof Hseg as [Hl Hr]%dseg_app. destruct (dseg_member _ _ l b [] _ Hl) as (pb & Hpb & _ & _).
  assert (Hbi : b <> i) by set_solver. assert (Hai : a <> i) by set_solver.
  pose proof Hnd as (Hndl & Hdis & [Har _]%NoDup_cons)%NoDup_app.
  pose proof Hndl as (_ & Hlb & _)%NoDup_app.
  assert (b ∉ l) by (intros Hb; apply (Hlb b Hb); set_solver).
  assert (Hbr : b ∉ a :: r) by (apply Hdis; set_solver).
  assert (Hal : a ∉ l ++ [b]) by (intros Ha; apply (Hdis a Ha); set_solver).
  assert (Hab : a <> b) by set_solver.
  assert (exists h, first_of ((l ++ [b]) ++ a :: r) None = Some h) as [h Hh] by (destruct l; cbn; eauto).
  assert (Hha : Some a <> Some h) by (rewrite <- Hh; destruct l; cbn; intros E; simplify_eq; set_solver).
  pose proof (push_position_spec s None _ (priority p) (walk_fuel s) Hseg) as Hpos.
  rewrite Hsp, Hh in Hpos. cbn [first_of snd] in Hpos.
  unfold queue_of in Hq. rewrite Hh in Hq.
  push_loop HQ Hpos. rewrite decide_False by done. qrun. rewrite Hpva. qrun.
  eexists. split; [reflexivity|]. split; [|solve_links_only].
  eapply (qrep_change s _ Q q ((l ++ [b]) ++ a :: r)); [done..| | | |set_solver|]; cleanup.
  - symmetry. apply insert_id. rewrite Hq. unfold queue_of. f_equal. rewrite !last_of_app. cbn.
    by destruct l; simplify_eq/=.
  - rewrite dseg_app, last_of_snoc. split.
    + do 3 seg_skip. by eapply dseg_set_next.
    + rewrite dseg_cons. split; [eexists; split; [lk|done]|]. seg_skip.
      rewrite last_of_snoc in Hr. eapply dseg_set_prev; [lk|done|]. do 2 seg_skip. done.
  - rewrite <- Permutation_middle. constructor; set_solver.
  - intros j Hj Hj'. assert (j <> i) by set_solver. solve_same_links.
Qed.

(** [queue_push_increasingly] inserts before the first item whose priority is not above its own. *)
Lemma queue_push_increasingly_spec xs :
  Q !! q = Some xs ->
  pushes_to (fst (span_above (prio_of s) (priority p) xs) ++
             i :: snd (span_above (prio_of s) (priority p) xs)).
Proof.
  intros HQ. pose proof (span_above_app (prio_of s) (priority p) xs) as Happ.
  destruct (span_above (prio_of s) (priority p) xs) as [l r] eqn:Hsp. cbn in *. subst xs.
  destruct (snoc_case l) as [->|(l' & b & ->)], r as [|a r].
  - cbn [app] in *. pose proof (qrep_lookup _ _ _ _ HR HQ) as Hq.
    unfold pushes_to, queue_push_increasingly. qrun.
    eexists. split; [reflexivity|]. split; [|solve_links_only].
    eapply (qrep_change s _ Q q [] [i]); [done..| | |apply NoDup_singleton|set_solver|]; cleanup.
    + by rewrite insert_insert_eq.
    + cbn. split; [|done]. eexists. split; [lk|done].
    + intros j _ Hj. solve_same_links.
  - by apply push_increasingly_first.
  - rewrite app_nil_r in *. by apply push_increasingly_last.
  - by apply push_increasingly_middle.
Qed.

End push_increasingly.

(** Insertion after the larger ones keeps a list in decreasing order. *)
Lemma span_above_sorted (f : Z -> Z) (i : Z) (xs l r : list Z) :
  StronglySorted (fun a b => f b <= f a) xs -> span_above f (f i) xs = (l, r) ->
  StronglySorted (fun a b => f b <= f a) (l ++ i :: r).
Proof.
  revert l. induction xs as [|j xs IH]; intros l Hs Hsp; cbn in Hsp.
  - simplify_eq/=. repeat constructor.
  - apply StronglySorted_inv in Hs as [Hs Hj]. case_cmp.
    + destruct (span_above f (f i) xs) as [l' r'] eqn:E. simplify_eq/=.
      constructor; [by apply IH|].
      pose proof (span_above_app f (f i) xs) as Happ. rewrite E in Happ. cbn in Happ. subst xs.
      rewrite Forall_app in Hj. rewrite Forall_app, Forall_cons. intuition lia.
    + simplify_eq/=. constructor; [by constructor|]. constructor; [lia|].
      eapply Forall_impl; [exact Hj|]. cbn. lia.
Qed.

(** ** Theorems *)

(** C7. The intrusive queues refine a family of disjoint lists: in any state whose links represent
    the lists [Q], each operation whose list counterpart is defined runs without a fault, returns
    what the list operation returns, leaves links that represent the new lists, and changes no
    field of a block other than [prev] and [next]. *)
Theorem queue_refines_lists (s : kstate) (Q Q' : gmap qref (list Z)) (r : qreq) (x : ptr) :
  qrep s Q -> qspec s Q r x Q' ->
  exists s', qexec r s = Ok (x, s') /\ qrep s' Q' /\ links_only s s'.
Proof.
  intros HR Hspec.
  destruct Hspec as [q|q xs i HQ Hu Hi|q xs i l r HQ Hu [p Hp] Hsp|q i xs HQ|q l i r HQ]; cbn [qexec].
  - destruct (queue_init_spec s Q q HR) as (s' & E & ?). exists s'. by rewrite (bind_Ok _ _ _ _ _ E).
  - destruct (queue_push_spec s Q q xs i HR HQ Hu Hi) as (s' & E & ?). exists s'.
    by rewrite (bind_Ok _ _ _ _ _ E).
  - destruct (queue_push_increasingly_spec s Q q i p HR Hu Hp xs HQ) as (s' & E & H).
    replace (prio_of s i) with (priority p) in Hsp by (unfold prio_of; by rewrite Hp).
    rewrite Hsp in H. exists s'. by rewrite (bind_Ok _ _ _ _ _ E).
  - destruct (queue_dequeue_spec s Q q i xs HR HQ) as (s' & E & ?). exists s'.
    by rewrite (bind_Ok _ _ _ _ _ E).
  - apply (queue_remove_spec s Q q i l r HR HQ).
Qed.

(** C31. [queue_push_increasingly] keeps a queue in decreasing order of priority from head to tail,
    as its comment asks. *)
Theorem queue_push_increasingly_sorted (s s' : kstate) (Q : gmap qref (list Z)) (q : qref) (xs : list Z) (i : Z) :
  qrep s Q -> Q !! q = Some xs -> unqueued Q i -> is_Some ((pcb s).[i]) ->
  StronglySorted (fun a b => prio_of s b <= prio_of s a) xs ->
  queue_push_increasingly q i s = Ok (tt, s') ->
  exists ys, qrep s' (<[q := ys]> Q) /\ ys ≡ₚ i :: xs /\
    StronglySorted (fun a b => prio_of s' b <= prio_of s' a) ys.
Proof.
  intros HR HQ Hu [p Hp] Hs E.
  destruct (queue_push_increasingly_spec s Q q i p HR Hu Hp xs HQ) as (s'' & E' & HR' & Hlo).
  rewrite E in E'. injection E' as <-.
  pose proof (span_above_app (prio_of s) (priority p) xs) as Happ.
  destruct (span_above (prio_of s) (priority p) xs) as [l r] eqn:Hsp. cbn in Happ, HR'.
  exists (l ++ i :: r). split_and!; [done| |].
  - by rewrite <- Permutation_middle, Happ.
  - assert (Hprio : forall j, prio_of s' j = prio_of s j).
    { intros j. pose proof (links_only_lookup _ _ j Hlo) as Hj. unfold prio_of.
      destruct ((pcb s').[j]), ((pcb s).[j]); try done. apply (inj Some) in Hj.
      exact (f_equal priority Hj). }
    replace (priority p) with (prio_of s i) in Hsp by (unfold prio_of; by rewrite Hp).
    pose proof (span_above_sorted (prio_of s) i xs l r Hs Hsp) as Hss.
    eapply StronglySorted_weaken; [|exact Hss]. intros a b. cbn. by rewrite !Hprio.
Qed.
