(* ===== verification/Sched.v ===== *)
(** Scheduling and task management, [kernel/sched/sched.c], with [do_scheduler] of
    [arch/mips/kernel/asm.S] and [kernel/sched/time.c].

    A function that may give up the processor returns a [ctl]: [Return] when it comes back to its
    caller, [Switch] when [do_scheduler] has picked another task; what the interrupted function
    still has to do is then in the [kernel_context] of the task it was running for. *)

From S2P Require Import Prelude Slist Kernel Queue.

(** ** The code *)

Inductive ctl := Return | Switch.

(** [kernel/sched/time.c] *)
Definition get_ticks : M Z := get time_elapsed.

Definition get_timer : M Z := t ← get_ticks; mret (u32 (t * TIME_SLICE)).

(** [current_running->f = v], and the return value of a system call, in [$v0] *)
Definition upd_current (f : pcb_t -> pcb_t) : M unit := c ← get current_running; upd_pcb c f.

Definition set_reg (i v : Z) (p : pcb_t) : pcb_t :=
  let u := user_regs_context p in
  set_user_regs_context (set_regs (<[Z.to_nat i := v]> (regs u)) u) p.

Definition syscall_return (v : Z) : M unit := upd_current (set_reg 2 (u32 v)).

(** The loop of [scheduler]. *)
Fixpoint scheduler_loop (fuel : nat) (p : ptr) (max_priority max_wait_time : Z) : M unit :=
  match fuel with
  | O => no_fuel
  | S fuel =>
      match p with
      | None => mret tt
      | Some i =>
          b ← pcb_at i;
          '(max_priority, max_wait_time) ←
            (if max_priority <? scheduler_priority b then
               modify (set_current_running i);;
               mret (scheduler_priority b, wait_time b)
             else mret (max_priority, max_wait_time));
          max_wait_time ←
            (if (scheduler_priority b =? max_priority) && (max_wait_time <=? wait_time b) then
               modify (set_current_running i);;
               mret (wait_time b)
             else mret max_wait_time);
          upd_pcb i (set_wait_time (s32 (wait_time b + 1)));;
          b ← pcb_at i;
          scheduler_loop fuel (next b) max_priority max_wait_time
      end
  end.

Definition scheduler : M unit :=
  empty ← queue_is_empty ReadyQueue;
  if (empty : bool) then panic "no task to run."
  else
    r ← queue_at ReadyQueue;
    x ← get screen_cursor_x;
    upd_current (set_cursor_x x);;
    y ← get screen_cursor_y;
    upd_current (set_cursor_y y);;
    upd_current (fun c => match status c with TASK_RUNNING => set_status TASK_READY c | _ => c end);;
    fuel ← get walk_fuel;
    scheduler_loop fuel (head r) 1 0;;
    upd_current (fun c =>
      if 1 <? scheduler_priority c then set_scheduler_priority (scheduler_priority c - 1) c else c);;
    upd_current (set_wait_time 0);;
    c ← get current_running;
    c ← pcb_at c;
    modify (set_screen_cursor_x (cursor_x c));;
    modify (set_screen_cursor_y (cursor_y c));;
    upd_current (set_status TASK_RUNNING);;
    modify (set_EntryHi (u32 (pid c))).

(** [do_scheduler], called with [k] left to run: save the context, switch. *)
Definition do_scheduler (k : list kframe) : M ctl :=
  upd_current (set_kernel_context k);;
  scheduler;;
  mret Switch.

Definition do_wait (p : Z) (q : qref) (st : task_status_t) (k : list kframe) : M ctl :=
  queue_remove ReadyQueue p;;
  queue_push q p;;
  upd_pcb p (set_queue (Some q));;
  upd_pcb p (set_status st);;
  do_scheduler k.

Definition do_sleep (sleep_time : Z) (k : list kframe) : M ctl :=
  t ← get_ticks;
  upd_current (set_awakened_time (u32 (t + u32 sleep_time / TIME_SLICE)));;
  c ← get current_running;
  do_wait c SleepQueue TASK_SLEEPING k.

(** The loop of [check_sleeping]. *)
Fixpoint check_sleeping_loop (fuel : nat) (p : ptr) : M unit :=
  match fuel with
  | O => no_fuel
  | S fuel =>
      match p with
      | None => mret tt
      | Some i =>
          b ← pcb_at i;
          t ← get_ticks;
          (if awakened_time b <=? t then
             queue_remove SleepQueue i;;
             queue_push ReadyQueue i;;
             upd_pcb i (set_queue (Some ReadyQueue));;
             upd_current (set_status TASK_READY)
           else mret tt);;
          b ← pcb_at i;
          check_sleeping_loop fuel (next b)
      end
  end.

Definition check_sleeping : M unit :=
  r ← queue_at SleepQueue;
  fuel ← get walk_fuel;
  check_sleeping_loop fuel (head r).

(** The loop of [do_unblock_one]; [selected] is [None] until the C variable is assigned. *)
Fixpoint unblock_loop (fuel : nat) (p : ptr) (selected : ptr) (max_priority max_wait_time : Z) : M ptr :=
  match fuel with
  | O => no_fuel
  | S fuel =>
      match p with
      | None => mret selected
      | Some i =>
          b ← pcb_at i;
          let '(selected, max_priority, max_wait_time) :=
            if max_priority <? priority b then (Some i, priority b, wait_time b)
            else (selected, max_priority, max_wait_time) in
          let '(selected, max_wait_time) :=
            if (priority b =? max_priority) && (max_wait_time <=? wait_time b) then
              (Some i, wait_time b)
            else (selected, max_wait_time) in
          upd_pcb i (set_wait_time (s32 (wait_time b + 1)));;
          b ← pcb_at i;
          unblock_loop fuel (next b) selected max_priority max_wait_time
      end
  end.

Definition raise_priority (b : pcb_t) : pcb_t :=
  set_scheduler_priority (s32 (scheduler_priority b + 1)) b.

Definition do_unblock_one (block_queue : qref) : M unit :=
  empty ← queue_is_empty block_queue;
  if (empty : bool) then mret tt
  else
    r ← queue_at block_queue;
    fuel ← get walk_fuel;
    selected ← unblock_loop fuel (head r) None 1 0;
    i ← deref selected;
    upd_pcb i (set_wait_time 0);;
    upd_pcb i raise_priority;;
    queue_remove block_queue i;;
    queue_push ReadyQueue i;;
    upd_pcb i (set_queue (Some ReadyQueue));;
    upd_pcb i (set_status TASK_READY).

(** The loop of [do_unblock_all]. *)
Fixpoint unblock_all_loop (fuel : nat) (block_queue : qref) : M unit :=
  match fuel with
  | O => no_fuel
  | S fuel =>
      empty ← queue_is_empty block_queue;
      if (empty : bool) then mret tt
      else
        p ← queue_dequeue block_queue;
        queue_push ReadyQueue p;;
        upd_pcb p (set_wait_time 0);;
        upd_pcb p raise_priority;;
        upd_pcb p (set_queue (Some ReadyQueue));;
        upd_pcb p (set_status TASK_READY);;
        unblock_all_loop fuel block_queue
  end.

Definition do_unblock_all (block_queue : qref) : M unit :=
  fuel ← get walk_fuel; unblock_all_loop fuel block_queue.

(** *** Process ids *)

(** A function of the static list [pid_list]. *)
Definition on_pid_list (f : list node -> option (Z * list node)) : M Z :=
  l ← get pid_list;
  '(r, l) ← lift (f l);
  modify (set_pid_list l);;
  mret r.

Definition pid_alloc : M Z := on_pid_list slist_alloc.

Definition pid_free (pid : Z) : M Z := on_pid_list (fun l => slist_free l pid MAX_TASK_NUM).

Definition pid_is_valid (pid : Z) : M Z :=
  l ← get pid_list; lift (slist_is_valid l pid MAX_TASK_NUM).

Definition do_getpid : M unit :=
  c ← get current_running;
  b ← pcb_at c;
  syscall_return (pid b).

(** [page_dir_init] of [kernel/mm/memory.c] *)
Definition page_dir_init (pd : list pde_t) : list pde_t :=
  (fun d => Pde (pool_num d) 0) <$> pd.

(** The assignments of [init_pcb] to [pcb[pid]] before it is queued, and after. *)
Definition fill_pcb (pid : Z) (task : task_info_t) (b : pcb_t) : pcb_t :=
  let b := set_pid pid b in
  let b := set_name (ti_name task) b in
  let b := set_type (ti_type task) b in
  let b := set_lock_num 0 b in
  let b := set_priority (ti_priority task) b in
  let b := set_scheduler_priority (priority b) b in
  let b := set_wait_time 0 b in
  let b := set_kernel_context [KExceptionExit] b in
  let b := set_user_regs_context (set_cp0_epc (entry_point task) (user_regs_context b)) b in
  let b := set_user_stack_size INITIAL_USER_STACK_SIZE b in
  let b := set_kernel_stack_size KERNEL_STACK_SIZE b in
  let b := set_reg REG_SP USER_STACK_TOP_ADDRESS b in
  set_kernel_sp (u32 (KERNEL_STACK_TOP_ADDRESS - pid * kernel_stack_size b)) b.

Definition init_pcb (task : task_info_t) : M unit :=
  pid ← pid_alloc;
  if pid =? 0 then syscall_return 0
  else
    upd_pcb pid (fill_pcb pid task);;
    queue_push ReadyQueue pid;;
    upd_pcb pid (set_queue (Some ReadyQueue));;
    upd_pcb pid (set_status TASK_READY);;
    upd_pcb pid (set_cursor_x 0);;
    upd_pcb pid (set_cursor_y 0);;
    queue_init (WaitQueue pid);;
    upd_pcb pid (fun b => set_page_dir (page_dir_init (page_dir b)) b).

(** [locks[i]], and the assignment of its fields *)
Definition mutex_at (l : lockref) : M mutex_lock_t := fun s => lift (mutexes s !! l) s.

Definition put_mutex (l : lockref) (v : mutex_lock_t) : M unit :=
  modify (fun s => set_mutexes (<[l := v]> (mutexes s)) s).

(** The loop of [kill] over [locks]: [n] locks left, from lock [i]. *)
Fixpoint kill_locks_loop (n : nat) (i pid : Z) : M unit :=
  match n with
  | O => mret tt
  | S n =>
      b ← pcb_at pid;
      if 0 <? lock_num b then
        m ← mutex_at (Locks i);
        (if owner m =? pid then
           do_unblock_one (LockQueue (Locks i));;
           upd_pcb pid (fun b => set_lock_num (lock_num b - 1) b);;
           put_mutex (Locks i) (Mutex UNLOCKED 0)
         else mret tt);;
        kill_locks_loop n (i + 1) pid
      else mret tt
  end.

(** [kill]; [k] is what its caller has left to run. *)
Definition kill (pid : Z) (k : list kframe) : M ctl :=
  refused ← (if pid =? 1 then mret true else r ← pid_free pid; mret (r =? 0));
  if (refused : bool) then syscall_return 0;; mret Return
  else
    b ← pcb_at pid;
    q ← lift (queue b);
    queue_remove q pid;;
    kill_locks_loop (Z.to_nat MAX_LOCKS_NUM) 0 pid;;
    do_unblock_all (WaitQueue pid);;
    c ← get current_running;
    cb ← pcb_at c;
    if Kernel.pid cb =? pid then do_scheduler (KKillReturn :: k)
    else syscall_return 1;; mret Return.

Definition exit (k : list kframe) : M ctl :=
  c ← get current_running;
  b ← pcb_at c;
  kill (pid b) k.

Definition wait (pid : Z) (k : list kframe) : M ctl :=
  v ← pid_is_valid pid;
  c ← get current_running;
  b ← pcb_at c;
  if (v =? 0) || (pid =? Kernel.pid b) then syscall_return 0;; mret Return
  else
    syscall_return 1;;
    do_wait c (WaitQueue pid) TASK_WAITING k.

(** [show_process]: the rows it prints, as [(i, pid, status, name)]. *)
Definition status_name (st : task_status_t) : string :=
  match st with
  | TASK_BLOCKED => "TASK_BLOCKED "
  | TASK_RUNNING => "TASK_RUNNING "
  | TASK_READY => "TASK_RUNNING "
  | TASK_EXITED => "TASK_EXITED  "
  | TASK_SLEEPING => "TASK_SLEEPING"
  | TASK_WAITING => "TASK_WAITING "
  end.

Fixpoint show_process_loop (n : nat) (i pid : Z) : M (list (Z * Z * string * string)) :=
  match n with
  | O => mret []
  | S n =>
      v ← pid_is_valid pid;
      if negb (v =? 0) then
        b ← pcb_at pid;
        let row := (i, pid, status_name (status b), name b) in
        if 15 <? i + 1 then mret [row]
        else rows ← show_process_loop n (i + 1) (pid + 1); mret (row :: rows)
      else if 15 <? i then mret []
      else show_process_loop n i (pid + 1)
  end.

Definition show_process : M (list (Z * Z * string * string)) :=
  show_process_loop (Z.to_nat (MAX_TASK_NUM - 1)) 0 1.

(** ** What the scheduler chooses

    [key] is a task's scheduling key; [sched_pick] replays the choice of [scheduler]'s loop over the
    blocks of a queue, [age] its effect on their waiting times. *)

Definition sp_of (P : list pcb_t) (i : Z) : Z :=
  match P.[i] with Some b => scheduler_priority b | None => 0 end.

Definition prio_at (P : list pcb_t) (i : Z) : Z :=
  match P.[i] with Some b => priority b | None => 0 end.

Definition wait_of (P : list pcb_t) (i : Z) : Z :=
  match P.[i] with Some b => wait_time b | None => 0 end.

(** The choice, among [xs], by priorities [pr] and waiting times [wt]. *)
Fixpoint pick (pr wt : Z -> Z) (xs : list Z) (sel : ptr) (mp mw : Z) : ptr :=
  match xs with
  | [] => sel
  | i :: xs =>
      let '(sel, mp, mw) := if mp <? pr i then (Some i, pr i, wt i) else (sel, mp, mw) in
      let '(sel, mw) := if (pr i =? mp) && (mw <=? wt i) then (Some i, wt i) else (sel, mw) in
      pick pr wt xs sel mp mw
  end.

Definition bump (b : pcb_t) : pcb_t := set_wait_time (s32 (wait_time b + 1)) b.

Fixpoint age (xs : list Z) (P : list pcb_t) : list pcb_t :=
  match xs with [] => P | i :: xs => age xs (alter bump (Z.to_nat i) P) end.

(** What [scheduler] does to the block of the task that stops, to the one it picks, and to the
    state when it picks [c] among the ready tasks [xs]. *)
Definition park (x y : Z) (b : pcb_t) : pcb_t :=
  let b := set_cursor_y y (set_cursor_x x b) in
  match status b with TASK_RUNNING => set_status TASK_READY b | _ => b end.

Definition decay (b : pcb_t) : pcb_t :=
  if 1 <? scheduler_priority b then set_scheduler_priority (scheduler_priority b - 1) b else b.

Definition dispatch (b : pcb_t) : pcb_t := set_status TASK_RUNNING (set_wait_time 0 (decay b)).

Definition switched_pcbs (s : kstate) (xs : list Z) (c : Z) : list pcb_t :=
  alter dispatch (Z.to_nat c)
    (age xs (alter (park (screen_cursor_x s) (screen_cursor_y s)) (Z.to_nat (current_running s)) (pcb s))).

Definition switched (s : kstate) (xs : list Z) (c : Z) (b : pcb_t) : kstate :=
  set_EntryHi (u32 (pid b)) (set_screen_cursor_y (cursor_y b) (set_screen_cursor_x (cursor_x b)
    (set_current_running c (set_pcb (switched_pcbs s xs c) s)))).

(** [i] reaches the priority [mp] and, at equality, the wait [mw]. *)
Definition reaches (pr wt : Z -> Z) (mp mw : Z) (i : Z) : Prop :=
  mp < pr i \/ (pr i = mp /\ mw <= wt i).

(** [c] is the choice among [xs]: the largest priority, then the longest wait, then the last. *)
Definition chosen (pr wt : Z -> Z) (xs : list Z) (c : Z) : Prop :=
  exists l r, xs = l ++ c :: r /\
    (forall j, j ∈ l -> reaches pr wt (pr j) (wt j) c) /\
    (forall j, j ∈ r -> ~ reaches pr wt (pr c) (wt c) j).

(** ** Lemmas *)

Lemma insert_alter {A} (l : list A) i x f :
  l.[i] = Some x -> <[Z.to_nat i := f x]> l = alter f (Z.to_nat i) l.
Proof.
  unfold aget. case_decide; [|done]. intros Hx. apply list_eq. intros j.
  destruct (decide (j = Z.to_nat i)) as [->|].
  - rewrite list_lookup_insert_eq by (by eapply lookup_lt_Some). by rewrite list_lookup_alter_eq, Hx.
  - by rewrite list_lookup_insert_ne, list_lookup_alter_ne.
Qed.

Lemma aget_alter {A} (l : list A) i j f :
  0 <= i -> (alter f (Z.to_nat i) l).[j] = if decide (j = i) then f <$> l.[j] else l.[j].
Proof.
  intros Hi. unfold aget. destruct (decide (j = i)) as [->|].
  - rewrite !decide_True by done. apply list_lookup_alter_eq.
  - case_decide; [|done]. rewrite list_lookup_alter_ne by lia. done.
Qed.

Lemma upd_pcb_alter i f s :
  is_Some ((pcb s).[i]) -> upd_pcb i f s = Ok (tt, set_pcb (alter f (Z.to_nat i) (pcb s)) s).
Proof. intros [p Hp]. by rewrite (upd_pcb_Ok i p), (insert_alter _ _ p). Qed.

Lemma aget_alter_is_Some {A} (l : list A) i j f : is_Some (l.[j]) -> is_Some ((alter f i l).[j]).
Proof.
  unfold aget. case_decide; [|done]. intros [x Hx].
  destruct (decide (i = Z.to_nat j)) as [->|]; [by rewrite list_lookup_alter_eq, Hx|].
  rewrite list_lookup_alter_ne by done. eauto.
Qed.

Lemma bind_upd_current {B} f (k : unit -> M B) s :
  is_Some ((pcb s).[current_running s]) ->
  (upd_current f ≫= k) s =
    k tt (set_pcb (alter f (Z.to_nat (current_running s)) (pcb s)) s).
Proof. intros H. apply bind_Ok. by apply upd_pcb_alter. Qed.

(** Two updates of the same block are one. *)
Lemma alter_alter {A} (f g : A -> A) n (l : list A) : alter f n (alter g n l) = alter (fun x => f (g x)) n l.
Proof.
  apply list_eq. intros j. destruct (decide (n = j)) as [->|].
  - rewrite !list_lookup_alter_eq. by destruct (l !! j).
  - by rewrite !list_lookup_alter_ne.
Qed.

(** Run the updates of [current_running]'s block that open the goal. *)
Ltac cstep :=
  rewrite bind_upd_current by (cleanup; repeat apply aget_alter_is_Some; eauto);
  cleanup; rewrite ?alter_alter.

Lemma age_lookup xs P j :
  NoDup xs -> (forall i, i ∈ xs -> 0 <= i) ->
  (age xs P).[j] = if decide (j ∈ xs) then bump <$> P.[j] else P.[j].
Proof.
  revert P. induction xs as [|i xs IH]; intros P Hnd Hpos; cbn [age].
  - rewrite decide_False by set_solver. done.
  - apply NoDup_cons in Hnd as [Hi Hnd]. rewrite IH by (done || set_solver).
    rewrite aget_alter by (apply Hpos; set_solver).
    destruct (decide (j = i)) as [->|].
    + by rewrite decide_False, decide_True by set_solver.
    + destruct (decide (j ∈ xs)); [rewrite decide_True by set_solver|rewrite decide_False by set_solver]; done.
Qed.

Lemma dseg_alter P pv xs nx i f :
  (forall b, links (f b) = links b) -> dseg P pv xs nx -> dseg (alter f (Z.to_nat i) P) pv xs nx.
Proof.
  intros Hf. apply dseg_frame. intros j _. unfold same_links, aget. case_decide; [|done].
  destruct (decide (Z.to_nat i = Z.to_nat j)) as [->|].
  - rewrite list_lookup_alter_eq. destruct (P !! Z.to_nat j); cbn; [by rewrite Hf|done].
  - by rewrite list_lookup_alter_ne.
Qed.

(** The choice depends only on the priorities and waits of the items. *)
Lemma pick_ext pr wt pr' wt' xs sel mp mw :
  (forall i, i ∈ xs -> pr i = pr' i /\ wt i = wt' i) ->
  pick pr wt xs sel mp mw = pick pr' wt' xs sel mp mw.
Proof.
  revert sel mp mw. induction xs as [|i xs IH]; intros sel mp mw H; cbn; [done|].
  destruct (H i) as [-> ->]; [set_solver|].
  repeat (case_match; try (apply IH; set_solver)).
Qed.

(** Ageing one item does not change the keys of the others. *)
Lemma pick_alter (P : list pcb_t) i xs sel mp mw (kf : pcb_t -> Z) (Hk : forall b, kf (bump b) = kf b) :
  0 <= i -> i ∉ xs ->
  let key P j := match P.[j] with Some b => kf b | None => 0 end in
  pick (key (alter bump (Z.to_nat i) P)) (wait_of (alter bump (Z.to_nat i) P)) xs sel mp mw =
  pick (key P) (wait_of P) xs sel mp mw.
Proof.
  intros Hi0 Hi key. apply pick_ext. intros j Hj. unfold key, wait_of.
  assert (j <> i) by set_solver. by rewrite aget_alter, decide_False.
Qed.

Lemma pick_Some pr wt xs i mp mw : exists j, pick pr wt xs (Some i) mp mw = Some j.
Proof.
  revert i mp mw. induction xs as [|k xs IH]; intros i mp mw; cbn; [eauto|].
  repeat case_match; simplify_eq; apply IH.
Qed.

Lemma default_pick d d' pr wt xs i mp mw :
  default d (pick pr wt xs (Some i) mp mw) = default d' (pick pr wt xs (Some i) mp mw).
Proof. by destruct (pick_Some pr wt xs i mp mw) as [j ->]. Qed.

Lemma scheduler_loop_spec fuel s pv xs mp mw :
  dseg (pcb s) pv xs None -> NoDup xs -> (length xs < fuel)%nat ->
  scheduler_loop fuel (first_of xs None) mp mw s =
    Ok (tt, set_current_running
              (default (current_running s)
                 (pick (sp_of (pcb s)) (wait_of (pcb s)) xs (Some (current_running s)) mp mw))
              (set_pcb (age xs (pcb s)) s)).
Proof.
  revert s pv mp mw fuel. induction xs as [|i xs IH]; intros s pv mp mw fuel Hseg Hnd Hf;
    destruct fuel as [|fuel]; cbn in Hf; try lia.
  { cbn. unfold mret, M_ret. by destruct s. }
  destruct Hseg as [(b & Hb & Hpv & Hnx) Hseg]. apply NoDup_cons in Hnd as [Hi Hnd].
  assert (Hi0 : 0 <= i) by (apply aget_Some in Hb; lia).
  apply (dseg_alter _ _ _ _ i bump) in Hseg; [|done].
  cbn [scheduler_loop first_of]. mrun. cbn [pick age].
  replace (sp_of (pcb s) i) with (scheduler_priority b) by (unfold sp_of; by rewrite Hb).
  replace (wait_of (pcb s) i) with (wait_time b) by (unfold wait_of; by rewrite Hb).
  assert (Hnext : forall s1 mp mw, pcb s1 = pcb s ->
    scheduler_loop fuel (next (bump b)) mp mw (set_pcb (<[Z.to_nat i := bump b]> (pcb s1)) s1) =
    Ok (tt, set_current_running
              (default (current_running s1)
                (pick (sp_of (pcb s)) (wait_of (pcb s)) xs (Some (current_running s1)) mp mw))
              (set_pcb (age xs (alter bump (Z.to_nat i) (pcb s))) s1))).
  { intros s1 mp1 mw1 E. change (next (bump b)) with (next b).
    rewrite Hnx, E, (insert_alter _ _ b bump Hb), (IH _ (Some i)) by (done || lia).
    cbn [pcb set_pcb current_running]. unfold sp_of. by rewrite (pick_alter (pcb s) i xs _ _ _ scheduler_priority). }
  repeat (case_match; simplify_eq/=; mrun).
  all: lazymatch goal with |- context [scheduler_loop _ _ _ _ (set_pcb _ ?s1)] =>
         rewrite (Hnext s1) by done end.
  all: cbn [current_running set_current_running set_pcb].
  all: first [done | rewrite (default_pick i (current_running s)); done].
Qed.

Lemma pick_cases pr wt xs sel mp mw :
  ((forall j, j ∈ xs -> ~ reaches pr wt mp mw j) /\ pick pr wt xs sel mp mw = sel) \/
  exists c, pick pr wt xs sel mp mw = Some c /\ reaches pr wt mp mw c /\ chosen pr wt xs c.
Proof.
  revert sel mp mw. induction xs as [|i xs IH]; intros sel mp mw; cbn [pick].
  { left. set_solver. }
  assert (Hstep : pick pr wt xs (Some i) (pr i) (wt i) = Some i /\ chosen pr wt (i :: xs) i \/
    exists c, pick pr wt xs (Some i) (pr i) (wt i) = Some c /\ reaches pr wt (pr i) (wt i) c /\
      chosen pr wt (i :: xs) c).
  { destruct (IH (Some i) (pr i) (wt i)) as [[H ->]|(c & -> & Hc & l & r & -> & Hl & Hr)].
    - left. split; [done|]. exists [], xs. split_and!; [done|set_solver|done].
    - right. exists c. split_and!; [done|done|]. exists (i :: l), r. split_and!; [done| |done].
      intros j [->|Hj]%elem_of_cons; [done|by apply Hl]. }
  unfold reaches in *.
  destruct (Z.ltb_spec mp (pr i)) as [Hlt|Hge].
  - rewrite Z.eqb_refl, Z.leb_refl. cbn. right.
    destruct Hstep as [[-> Hc]|(c & -> & ? & Hc)]; eexists; split_and!; [done|lia|done|done|lia|done].
  - destruct (Z.eqb_spec (pr i) mp) as [<-|Hne]; [destruct (Z.leb_spec mw (wt i))|]; cbn.
    + right. destruct Hstep as [[-> Hc]|(c & -> & ? & Hc)]; eexists; split_and!; [done|lia|done|done|lia|done].
    + destruct (IH sel (pr i) mw) as [[H' ->]|(c & -> & Hc & l & r & -> & Hl & Hr)].
      * left. split; [|done]. intros j [->|Hj]%elem_of_cons; [lia|by apply H'].
      * right. exists c. split_and!; [done|done|]. exists (i :: l), r. split_and!; [done| |done].
        intros j [->|Hj]%elem_of_cons; [|by apply Hl]. unfold reaches. lia.
    + destruct (IH sel mp mw) as [[H' ->]|(c & -> & Hc & l & r & -> & Hl & Hr)].
      * left. split; [|done]. intros j [->|Hj]%elem_of_cons; [lia|by apply H'].
      * right. exists c. split_and!; [done|done|]. exists (i :: l), r. split_and!; [done| |done].
        intros j [->|Hj]%elem_of_cons; [|by apply Hl]. unfold reaches. lia.
Qed.

(** With positive priorities and waits not negative, the choice is the best item. *)
Lemma pick_chosen pr wt xs sel :
  xs <> [] -> (forall j, j ∈ xs -> 1 <= pr j /\ 0 <= wt j) ->
  exists c, pick pr wt xs sel 1 0 = Some c /\ chosen pr wt xs c.
Proof.
  intros Hne Hpos. destruct (pick_cases pr wt xs sel 1 0) as [[H _]|(c & E & _ & Hc)]; [|eauto].
  destruct xs as [|i xs]; [done|]. destruct (Hpos i); [set_solver|].
  exfalso. apply (H i); [set_solver|]. unfold reaches. lia.
Qed.

Lemma chosen_elem pr wt xs c : chosen pr wt xs c -> c ∈ xs.
Proof. intros (l & r & -> & _). set_solver. Qed.

Lemma switched_lookup s xs c j :
  NoDup xs -> (forall i, i ∈ xs -> 0 <= i) -> 0 <= c -> 0 <= current_running s ->
  (switched_pcbs s xs c).[j] =
    (fun b =>
       let b := if decide (j = current_running s) then park (screen_cursor_x s) (screen_cursor_y s) b else b in
       let b := if decide (j ∈ xs) then bump b else b in
       if decide (j = c) then dispatch b else b) <$> (pcb s).[j].
Proof.
  intros Hnd Hpos Hc Hcur. unfold switched_pcbs.
  rewrite aget_alter, age_lookup, aget_alter by done.
  by repeat case_decide; destruct ((pcb s).[j]).
Qed.

(** Every item of a queue is a block of the array. *)
Lemma qrep_elem s Q q xs i : qrep s Q -> Q !! q = Some xs -> i ∈ xs -> exists b, (pcb s).[i] = Some b.
Proof.
  intros HR HQ (l & r & ->)%list_elem_of_split.
  destruct (dseg_member _ _ _ _ _ _ (qrep_links _ _ HR _ _ HQ)) as (p & Hp & _). eauto.
Qed.

Lemma qrep_nonneg s Q q xs i : qrep s Q -> Q !! q = Some xs -> i ∈ xs -> 0 <= i.
Proof. intros HR HQ Hi. destruct (qrep_elem _ _ _ _ _ HR HQ Hi) as [b Hb%aget_Some]. lia. Qed.

Lemma park_fields x y b :
  links (park x y b) = links b /\ scheduler_priority (park x y b) = scheduler_priority b /\
  wait_time (park x y b) = wait_time b /\ pid (park x y b) = pid b.
Proof. unfold park. cbn. by destruct (status b). Qed.

(** [scheduler] on a ready queue that is not empty. *)
Lemma scheduler_ok s Q xs :
  qrep s Q -> Q !! ReadyQueue = Some xs -> xs <> [] ->
  (forall j, j ∈ xs -> 1 <= sp_of (pcb s) j /\ 0 <= wait_of (pcb s) j) ->
  is_Some ((pcb s).[current_running s]) ->
  exists c b, chosen (sp_of (pcb s)) (wait_of (pcb s)) xs c /\
    (switched_pcbs s xs c).[c] = Some b /\ scheduler s = Ok (tt, switched s xs c b).
Proof.
  intros HR HQ Hne Hpos [b0 Hb0]. pose proof (qrep_lookup _ _ _ _ HR HQ) as Hq.
  set (P1 := alter (park (screen_cursor_x s) (screen_cursor_y s)) (Z.to_nat (current_running s)) (pcb s)).
  destruct (pick_chosen (sp_of (pcb s)) (wait_of (pcb s)) xs (Some (current_running s)) Hne Hpos)
    as (c & Hpick & Hc).
  pose proof (chosen_elem _ _ _ _ Hc) as Hcx.
  destruct (qrep_elem _ _ _ _ _ HR HQ Hcx) as [bc Hbc].
  unfold scheduler.
  rewrite (bind_Ok _ _ _ _ _ (queue_is_empty_spec s Q ReadyQueue xs HR HQ)).
  rewrite bool_decide_eq_false_2 by done. mstep. mstep. cstep. mstep. cstep. cstep. mstep.
  set (s1 := set_pcb P1 s).
  match goal with |- context [walk_fuel ?st] => change st with s1 end.
  pose proof (qrep_links _ _ HR _ _ HQ) as Hseg. pose proof (qrep_nodup _ _ HR _ _ HQ) as Hnd.
  assert (Hseg1 : dseg (pcb s1) None xs None).
  { apply dseg_alter; [|done]. intros b. apply park_fields. }
  assert (Hf : (length xs < walk_fuel s1)%nat).
  { pose proof (qrep_length _ _ _ _ HR HQ). unfold walk_fuel, s1, P1. cbn. rewrite length_alter. lia. }
  assert (Hpick1 : pick (sp_of P1) (wait_of P1) xs (Some (current_running s)) 1 0 = Some c).
  { rewrite <- Hpick. apply pick_ext. intros i _. unfold sp_of, wait_of, P1.
    rewrite !aget_alter by (apply aget_Some in Hb0; lia).
    case_decide; [|done]. destruct ((pcb s).[i]) as [b|]; cbn; [|done].
    split; apply park_fields. }
  rewrite (bind_Ok _ _ _ _ _ (scheduler_loop_spec _ s1 None xs 1 0 Hseg1 Hnd Hf)).
  cbn [s1 pcb set_pcb current_running]. rewrite Hpick1. cbn [default].
  assert (Hage : forall f, is_Some ((alter f (Z.to_nat c) (age xs P1)).[c])).
  { intros f. apply aget_alter_is_Some. rewrite age_lookup by (done || intros; eauto using qrep_nonneg).
    rewrite decide_True by done. unfold P1. apply fmap_is_Some, aget_alter_is_Some. eauto. }
  pose proof (Hage id) as Hage0. rewrite list_alter_id in Hage0 by done.
  cstep. cstep. mstep. change (id c) with c.
  assert (Hc0 : 0 <= c) by (apply aget_Some in Hbc; lia).
  destruct Hage0 as [b1 Hb1].
  assert (Hdec : (alter (fun x => set_wait_time 0 (decay x)) (Z.to_nat c) (age xs P1)).[c] =
    Some (set_wait_time 0 (decay b1))) by (rewrite aget_alter, decide_True, Hb1; done).
  exists c, (dispatch b1). split; [done|]. split.
  { unfold switched_pcbs. fold P1. by rewrite aget_alter, decide_True, Hb1. }
  erewrite (bind_Ok (pcb_at c)) by (apply pcb_at_Ok; exact Hdec).
  mstep. mstep. rewrite bind_upd_current by (cbn [pcb set_pcb current_running]; eauto).
  cleanup. rewrite alter_alter. by destruct s.
Qed.
