(* ===== verification/Sync.v ===== *)
(** Synchronisation, [kernel/lock/]: mutex and spin locks, semaphores, conditions, barriers.

    The records of the objects are in the maps [mutexes], [semaphores], [conditions] and [barriers]
    of the state, their queues with the other queues. An operation that may block takes what its
    caller has left to run, [k]; the loop of [do_mutex_lock_acquire] and the second half of
    [do_condition_wait] run when the task is picked again, as the frames [KMutexAcquireLoop] and
    [KConditionWait], by [resume_sync]. *)

From S2P Require Import Prelude Slist Kernel Queue Sched.

(** ** Locks *)

(** [spin_lock_init]; a [spin_lock_t] is the beginning of a [mutex_lock_t] *)
Definition spin_lock_init (lock : lockref) : M unit := put_mutex lock (Mutex UNLOCKED 0).

(** [++current_running->lock_num], and the other way *)
Definition add_lock_num (n : Z) : M unit := upd_current (fun b => set_lock_num (s32 (lock_num b + n)) b).

(** [current_running->pid] *)
Definition current_pid : M Z := c ← get current_running; b ← pcb_at c; mret (pid b).

(** The end of both acquisitions. *)
Definition take_lock (lock : lockref) : M unit :=
  add_lock_num 1;;
  p ← current_pid;
  put_mutex lock (Mutex LOCKED p).

(** [while(lock->status == LOCKED);]: nobody else runs, so the loop ends at once or never. *)
Fixpoint spin_loop (fuel : nat) (lock : lockref) : M unit :=
  match fuel with
  | O => no_fuel
  | S fuel =>
      m ← mutex_at lock;
      match lstatus m with LOCKED => spin_loop fuel lock | UNLOCKED => mret tt end
  end.

Definition spin_lock_acquire (fuel : nat) (lock : lockref) : M unit :=
  m ← mutex_at lock;
  p ← current_pid;
  if owner m =? p then mret tt
  else spin_loop fuel lock;; take_lock lock.

Definition spin_lock_release (lock : lockref) : M unit :=
  m ← mutex_at lock;
  p ← current_pid;
  if negb (owner m =? p) then mret tt
  else add_lock_num (-1);; put_mutex lock (Mutex UNLOCKED 0).

Definition do_mutex_lock_init (lock : lockref) : M unit :=
  put_mutex lock (Mutex UNLOCKED 0);;
  queue_init (LockQueue lock).

(** [while(lock->status == LOCKED) do_wait(..);] and what follows it. *)
Definition mutex_acquire_loop (lock : lockref) (k : list kframe) : M ctl :=
  m ← mutex_at lock;
  match lstatus m with
  | LOCKED =>
      c ← get current_running;
      do_wait c (LockQueue lock) TASK_BLOCKED (KMutexAcquireLoop lock :: k)
  | UNLOCKED => take_lock lock;; mret Return
  end.

Definition do_mutex_lock_acquire (lock : lockref) (k : list kframe) : M ctl :=
  m ← mutex_at lock;
  p ← current_pid;
  if owner m =? p then mret Return else mutex_acquire_loop lock k.

Definition do_mutex_lock_release (lock : lockref) : M unit :=
  m ← mutex_at lock;
  p ← current_pid;
  if negb (owner m =? p) then mret tt
  else
    do_unblock_one (LockQueue lock);;
    add_lock_num (-1);;
    put_mutex lock (Mutex UNLOCKED 0).

(** The loops of [init_mutex_locks] and [init_spin_locks]: [n] locks left, from lock [i]. *)
Fixpoint init_mutex_locks_loop (n : nat) (i : Z) : M unit :=
  match n with
  | O => mret tt
  | S n => do_mutex_lock_init (Locks i);; init_mutex_locks_loop n (i + 1)
  end.

Definition init_mutex_locks : M unit := init_mutex_locks_loop (Z.to_nat MAX_LOCKS_NUM) 0.

Fixpoint init_spin_locks_loop (n : nat) (i : Z) : M unit :=
  match n with
  | O => mret tt
  | S n => spin_lock_init (Locks i);; init_spin_locks_loop n (i + 1)
  end.

Definition init_spin_locks : M unit := init_spin_locks_loop (Z.to_nat MAX_LOCKS_NUM) 0.

(** ** Semaphores *)

Definition semaphore_at (x : semref) : M Z := fun s => lift (semaphores s !! x) s.

Definition put_semaphore (x : semref) (v : Z) : M unit :=
  modify (fun s => set_semaphores (<[x := v]> (semaphores s)) s).

Definition do_semaphore_init (x : semref) (value : Z) : M unit :=
  put_semaphore x (if value <? 0 then 0 else value);;
  queue_init (SemQueue x).

Definition do_semaphore_up (x : semref) : M unit :=
  v ← semaphore_at x;
  put_semaphore x (s32 (v + 1));;
  v ← semaphore_at x;
  if v <=? 0 then do_unblock_one (SemQueue x) else mret tt.

Definition do_semaphore_down (x : semref) (k : list kframe) : M ctl :=
  v ← semaphore_at x;
  put_semaphore x (s32 (v - 1));;
  v ← semaphore_at x;
  if v <? 0 then
    c ← get current_running;
    do_wait c (SemQueue x) TASK_BLOCKED k
  else mret Return.

(** ** Conditions *)

Definition condition_at (x : Z) : M Z := fun s => lift (conditions s !! x) s.

Definition put_condition (x v : Z) : M unit :=
  modify (fun s => set_conditions (<[x := v]> (conditions s)) s).

Definition do_condition_init (x : Z) : M unit :=
  put_condition x 0;;
  queue_init (CondQueue x).

Definition do_condition_wait (x : Z) (lock : lockref) (k : list kframe) : M ctl :=
  v ← condition_at x;
  put_condition x (s32 (v + 1));;
  do_mutex_lock_release lock;;
  c ← get current_running;
  do_wait c (CondQueue x) TASK_BLOCKED (KConditionWait lock :: k).

Definition do_condition_signal (x : Z) : M unit :=
  v ← condition_at x;
  if 0 <? v then put_condition x (v - 1);; do_unblock_one (CondQueue x)
  else mret tt.

Definition do_condition_broadcast (x : Z) : M unit :=
  v ← condition_at x;
  if 0 <? v then put_condition x 0;; do_unblock_all (CondQueue x)
  else mret tt.

(** ** Barriers *)

Definition barrier_at (x : Z) : M barrier_t := fun s => lift (barriers s !! x) s.

Definition put_barrier (x : Z) (v : barrier_t) : M unit :=
  modify (fun s => set_barriers (<[x := v]> (barriers s)) s).

Definition do_barrier_init (x g : Z) : M unit :=
  put_barrier x (Barrier (if g <? 1 then 1 else g) 0);;
  queue_init (BarrierQueue x).

Definition do_barrier_wait (x : Z) (k : list kframe) : M ctl :=
  b ← barrier_at x;
  put_barrier x (Barrier (goal b) (s32 (arrived b + 1)));;
  b ← barrier_at x;
  if arrived b =? goal b then
    put_barrier x (Barrier (goal b) 0);;
    do_unblock_all (BarrierQueue x);;
    mret Return
  else
    c ← get current_running;
    do_wait c (BarrierQueue x) TASK_WAITING k.

(** ** Resuming *)

(** What is left to run after the call that blocked, when the task is picked again. The frames of swapping are
    for [resume_swap] and [resume_tlb] of [Memory]. *)
Definition resume_sync (fr : kframe) (k : list kframe) : M ctl :=
  match fr with
  | KMutexAcquireLoop lock => mutex_acquire_loop lock k
  | KConditionWait lock => do_mutex_lock_acquire lock k
  | KKillReturn => syscall_return 1;; mret Return
  | KExceptionExit | KHandlerReturn => mret Return
  | KSwapOut _ | KSwapInAlloc _ _ _ _ | KSwapInDone _ _ _ _ _ | KTlbAlloc _ _ _ _ _ | KTlbFill _ _ _ _ => fun _ => Fault
  end.
