(* ===== verification/Memory.v ===== *)
(** Virtual memory, [kernel/mm/memory.c] and [kernel/exception/tlb.c], with [init_TLB] and
    [set_TLB_invalid] of [arch/mips/kernel/asm.S].

    A virtual address selects an entry of the task's page directory, which names a table of the
    pool, and an entry of that table, which names a pair of frames (8 KB) or, when not present, a
    place in the swap area. Tables, frames and swap places are allocated from static lists. Swapping
    waits for the process [io_proc]; what is left to run after the wait is a frame of the kernel
    stack ([KSwapOut], [KSwapInAlloc], [KSwapInDone], [KTlbAlloc], [KTlbFill]). *)

From S2P Require Import Prelude Slist Kernel Queue Sched Sync.

(** ** Constants *)

Definition PAGE_TABLE_POOL_SIZE : Z := 20.
Definition PAGE_TABLE_POOL_SLIST_SIZE : Z := 21.
Definition PM_SLIST_SIZE : Z := 2049.
Definition PM_BASE : Z := 0x01000000.
Definition PM_SCHE_SIZE : Z := 0x2000.
Definition SWAP_AREA_SIZE : Z := 1025.
Definition SWAP_AREA_BASE : Z := 0x700200.
Definition SWAP_AREA_UINT_SIZE : Z := 0x2000.
Definition TLB_ENTRY_NUMBER : Z := 32.

(** ** The pools *)

(** An operation on a component of [mm]. *)
Definition mm_slist (sel : mm_state -> list node) (put : list node -> mm_state -> mm_state)
    (f : list node -> option (Z * list node)) : M Z :=
  l ← get (fun s => sel (mm s));
  '(r, l) ← lift (f l);
  modify (fun s => set_mm (put l (mm s)) s);;
  mret r.

Definition pm_alloc : M Z := r ← mm_slist pm_slist set_pm_slist slist_alloc; mret (s32 (r - 1)).

Definition pm_free (index : Z) : M Z :=
  mm_slist pm_slist set_pm_slist (fun l => slist_free l (s32 (index + 1)) PM_SLIST_SIZE).

Definition pt_pool_alloc : M Z := r ← mm_slist pt_pool_slist set_pt_pool_slist slist_alloc; mret (s32 (r - 1)).

Definition pt_pool_free (index : Z) : M Z :=
  mm_slist pt_pool_slist set_pt_pool_slist (fun l => slist_free l (s32 (index + 1)) PAGE_TABLE_POOL_SLIST_SIZE).

Definition swap_area_alloc : M Z :=
  r ← mm_slist swap_area_slist set_swap_area_slist slist_alloc;
  mret (u32 (SWAP_AREA_BASE + (r - 1) * SWAP_AREA_UINT_SIZE)).

Definition swap_area_free (address : Z) : M Z :=
  let index := s32 (u32 (u32 (address - SWAP_AREA_BASE) / SWAP_AREA_UINT_SIZE + 1)) in
  mm_slist swap_area_slist set_swap_area_slist (fun l => slist_free l index SWAP_AREA_SIZE).

(** ** Tables *)

Definition page_table_init (pt : list pte_t) : list pte_t :=
  (fun e => Pte (addr e) 0 (present e)) <$> pt.

(** [page_table_pool[pool]], [page_table_pool[pool][ptn]] and their assignment *)
Definition table_at (pool : Z) : M (list pte_t) :=
  fun s => lift ((page_table_pool (mm s)).[pool]) s.

Definition put_table (pool : Z) (t : list pte_t) : M unit :=
  p ← get (fun s => page_table_pool (mm s));
  p ← lift (aset p pool t);
  modify (fun s => set_mm (set_page_table_pool p (mm s)) s).

Definition pte_at (pool ptn : Z) : M pte_t := t ← table_at pool; lift (t.[ptn]).

Definition upd_pte (pool ptn : Z) (f : pte_t -> pte_t) : M unit :=
  t ← table_at pool;
  e ← lift (t.[ptn]);
  t ← lift (aset t ptn (f e));
  put_table pool t.

Definition set_addr (v : Z) (e : pte_t) : pte_t := Pte v (pte_valid e) (present e).
Definition set_pte_valid (v : Z) (e : pte_t) : pte_t := Pte (addr e) v (present e).
Definition set_present (v : Z) (e : pte_t) : pte_t := Pte (addr e) (pte_valid e) v.

(** [pcb[i].page_dir[pdn]] *)
Definition pde_at (i pdn : Z) : M pde_t := b ← pcb_at i; lift ((page_dir b).[pdn]).

Definition put_pde (i pdn : Z) (e : pde_t) : M unit :=
  b ← pcb_at i;
  pd ← lift (aset (page_dir b) pdn e);
  upd_pcb i (set_page_dir pd).

(** [pm_pid[pm_index] = pid; pm_vpn[pm_index] = vpn] *)
Definition record_owner (pm_index pid vpn : Z) : M unit :=
  p ← get (fun s => pm_pid (mm s));
  p ← lift (aset p pm_index (u32 pid));
  modify (fun s => set_mm (set_pm_pid p (mm s)) s);;
  v ← get (fun s => pm_vpn (mm s));
  v ← lift (aset v pm_index vpn);
  modify (fun s => set_mm (set_pm_vpn v (mm s)) s).

(** The physical frame number of the pair of frames [pm_index], and its address in the unmapped
    segment. *)
Definition pfn_of (pm_index : Z) : Z := Z.shiftr (u32 (PM_BASE + pm_index * PM_SCHE_SIZE)) 12.

Definition buffer_of (pm_index : Z) : Z := Z.lor (u32 (PM_BASE + pm_index * PM_SCHE_SIZE)) 0xa0000000.

(** The indices a virtual address selects. *)
Definition page_dir_num (badvaddr : Z) : Z := Z.shiftr badvaddr 22.
Definition page_table_num (badvaddr : Z) : Z := Z.land (Z.shiftr badvaddr 13) 0x1ff.

(** ** The TLB *)

(** An entry matches a virtual address and an address-space id. *)
Definition tlb_match (entry_hi : Z) (e : tlb_entry) : bool :=
  (Z.land (tlb_hi e) 0xffffe000 =? Z.land entry_hi 0xffffe000) &&
  (Z.land (tlb_hi e) 0xff =? Z.land entry_hi 0xff).

Fixpoint tlbp (entry_hi : Z) (t : list tlb_entry) (i : Z) : option Z :=
  match t with
  | [] => None
  | e :: t => if tlb_match entry_hi e then Some i else tlbp entry_hi t (i + 1)
  end.

(** [tlbwi] and [tlbwr] at an index *)
Definition tlb_write (i : Z) (e : tlb_entry) : M unit :=
  t ← get (fun s => tlb (mm s));
  t ← lift (aset t i e);
  modify (fun s => set_mm (set_tlb t (mm s)) s).

Definition set_TLB_invalid (entry_hi : Z) : M unit :=
  modify (set_EntryHi entry_hi);;
  t ← get (fun s => tlb (mm s));
  match tlbp entry_hi t 0 with
  | None => mret tt
  | Some i => tlb_write i (TlbEntry entry_hi 0 0)
  end.

(** The loop of [init_TLB]: [n] entries left, from entry [i]. *)
Fixpoint init_TLB_loop (n : nat) (i : Z) : M unit :=
  match n with
  | O => mret tt
  | S n => tlb_write i (TlbEntry 0x80000000 0 0);; init_TLB_loop n (i + 1)
  end.

Definition init_TLB : M unit :=
  modify (set_EntryHi 0x80000000);;
  init_TLB_loop (Z.to_nat TLB_ENTRY_NUMBER) 0.

(** ** Swapping *)

Definition swap_scheduler : M Z :=
  t ← get_timer; mret (2 + t mod (PM_SLIST_SIZE - 3)).

Definition start_io (ty : io_task_type_t) (buffer base : Z) : M unit :=
  modify (fun s => set_mm (set_io_task (IoTask ty buffer base SWAP_AREA_UINT_SIZE) (mm s)) s);;
  do_semaphore_up IoTasks.

(** [swap_out], up to and after the wait *)
Definition swap_out_end (victim : Z) : M unit :=
  c ← get current_running;
  if c =? victim then mret tt
  else
    b ← pcb_at victim;
    q ← lift (queue b);
    queue_push q victim.

Definition swap_out (k : list kframe) : M ctl :=
  pm_index ← swap_scheduler;
  pids ← get (fun s => pm_pid (mm s));
  p ← lift (pids.[pm_index]);
  vpns ← get (fun s => pm_vpn (mm s));
  vpn ← lift (vpns.[pm_index]);
  let pid := Z.land p 0xff in
  let pdn := Z.shiftr vpn 22 in
  let ptn := Z.land (Z.shiftr vpn 13) 0x1ff in
  d ← pde_at pid pdn;
  pm_free pm_index;;
  base ← swap_area_alloc;
  upd_pte (pool_num d) ptn (set_present 0);;
  upd_pte (pool_num d) ptn (set_addr base);;
  set_TLB_invalid (Z.lor (Z.land vpn 0xffffe000) pid);;
  c ← get current_running;
  (if c =? pid then mret tt
   else b ← pcb_at pid; q ← lift (queue b); queue_remove q pid;; mret tt);;
  start_io IO_TASK_WRITE (buffer_of pm_index) base;;
  r ← do_semaphore_down IoDone (KSwapOut pid :: k);
  match r with
  | Switch => mret Switch
  | Return => swap_out_end pid;; mret Return
  end.

(** [swap_in]: after the wait for the data; with a frame; from its beginning *)
Definition swap_in_end (pool ptn badvaddr address pm_index : Z) : M unit :=
  swap_area_free address;;
  upd_pte pool ptn (set_addr (pfn_of pm_index));;
  upd_pte pool ptn (set_present 1);;
  p ← current_pid;
  record_owner pm_index p (Z.land badvaddr 0xfffff000).

Definition swap_in_read (pool ptn badvaddr address pm_index : Z) (k : list kframe) : M ctl :=
  start_io IO_TASK_READ (buffer_of pm_index) address;;
  r ← do_semaphore_down IoDone (KSwapInDone pool ptn badvaddr address pm_index :: k);
  match r with
  | Switch => mret Switch
  | Return => swap_in_end pool ptn badvaddr address pm_index;; mret Return
  end.

(** [swap_in], after [swap_out] *)
Definition swap_in_alloc (pool ptn badvaddr address : Z) (k : list kframe) : M ctl :=
  pm_index ← pm_alloc;
  swap_in_read pool ptn badvaddr address pm_index k.

Definition swap_in (pool ptn badvaddr : Z) (k : list kframe) : M ctl :=
  e ← pte_at pool ptn;
  pm_index ← pm_alloc;
  if pm_index =? -1 then
    r ← swap_out (KSwapInAlloc pool ptn badvaddr (addr e) :: k);
    match r with
    | Switch => mret Switch
    | Return => swap_in_alloc pool ptn badvaddr (addr e) k
    end
  else swap_in_read pool ptn badvaddr (addr e) pm_index k.

(** ** TLB exceptions

    [random] is the processor's random register, the entry [tlbwr] replaces. *)

Definition entry_lo (pfn : Z) : Z := Z.lor (u32 (Z.shiftl pfn 6)) 22.

Definition tlb_fill (random pfn entry_hi is_refill : Z) : M unit :=
  let e := TlbEntry entry_hi (entry_lo pfn) (entry_lo (pfn + 1)) in
  modify (set_EntryHi entry_hi);;
  if negb (is_refill =? 0) then tlb_write random e
  else
    t ← get (fun s => tlb (mm s));
    i ← lift (tlbp entry_hi t 0);
    tlb_write i e.

(** The page is in memory: load it. *)
Definition tlb_load (random pool ptn entry_hi is_refill : Z) : M unit :=
  e ← pte_at pool ptn;
  tlb_fill random (addr e) entry_hi is_refill.

(** A page used for the first time gets a frame; then it is loaded. *)
Definition tlb_map (pool ptn badvaddr pm_index random entry_hi is_refill : Z) : M unit :=
  p ← current_pid;
  record_owner pm_index p (Z.land badvaddr 0xfffff000);;
  upd_pte pool ptn (set_addr (pfn_of pm_index));;
  upd_pte pool ptn (set_pte_valid 1);;
  upd_pte pool ptn (set_present 1);;
  tlb_fill random (pfn_of pm_index) entry_hi is_refill.

(** The table of the page, allocated on first use. *)
Definition find_table (pdn : Z) : M Z :=
  c ← get current_running;
  d ← pde_at c pdn;
  if pde_valid d =? 0 then
    pool ← pt_pool_alloc;
    if pool =? -1 then panic "Empty page table pool."
    else
      put_pde c pdn (Pde pool (pde_valid d));;
      t ← table_at pool;
      put_table pool (page_table_init t);;
      put_pde c pdn (Pde pool 1);;
      mret pool
  else mret (pool_num d).

Definition TLB_exception_helper (random is_TLB_refill : Z) (k : list kframe) : M ctl :=
  c ← get current_running;
  b ← pcb_at c;
  let badvaddr := cp0_badvaddr (user_regs_context b) in
  entry_hi ← get EntryHi;
  let ptn := page_table_num badvaddr in
  pool ← find_table (page_dir_num badvaddr);
  e ← pte_at pool ptn;
  if pte_valid e =? 0 then
    pm_index ← pm_alloc;
    if pm_index =? -1 then
      r ← swap_out (KTlbAlloc pool ptn badvaddr entry_hi is_TLB_refill :: k);
      match r with
      | Switch => mret Switch
      | Return =>
          pm_index ← pm_alloc;
          tlb_map pool ptn badvaddr pm_index random entry_hi is_TLB_refill;;
          mret Return
      end
    else tlb_map pool ptn badvaddr pm_index random entry_hi is_TLB_refill;; mret Return
  else if present e =? 0 then
    r ← swap_in pool ptn badvaddr (KTlbFill pool ptn entry_hi is_TLB_refill :: k);
    match r with
    | Switch => mret Switch
    | Return => tlb_load random pool ptn entry_hi is_TLB_refill;; mret Return
    end
  else tlb_load random pool ptn entry_hi is_TLB_refill;; mret Return.

(** What is left of [swap_out] and [swap_in] when the task that waited for [io_proc] is picked again. *)
Definition resume_swap (fr : kframe) (k : list kframe) : M ctl :=
  match fr with
  | KSwapOut victim => swap_out_end victim;; mret Return
  | KSwapInAlloc pool ptn badvaddr address => swap_in_alloc pool ptn badvaddr address k
  | KSwapInDone pool ptn badvaddr address pm_index =>
      swap_in_end pool ptn badvaddr address pm_index;; mret Return
  | _ => fun _ => Fault
  end.

(** What is left of [TLB_exception_helper] when [swap_out] or [swap_in], called by it, has returned. *)
Definition resume_tlb (random : Z) (fr : kframe) : M ctl :=
  match fr with
  | KTlbAlloc pool ptn badvaddr entry_hi refill =>
      pm_index ← pm_alloc;
      tlb_map pool ptn badvaddr pm_index random entry_hi refill;;
      mret Return
  | KTlbFill pool ptn entry_hi refill => tlb_load random pool ptn entry_hi refill;; mret Return
  | _ => fun _ => Fault
  end.

(** [init_memory] of [init/main.c] *)
Definition init_slist (sel : mm_state -> list node) (put : list node -> mm_state -> mm_state) (n : Z) : M unit :=
  l ← get (fun s => sel (mm s));
  l ← lift (slist_init l n);
  modify (fun s => set_mm (put l (mm s)) s).

Definition init_memory : M unit :=
  init_TLB;;
  init_slist pm_slist set_pm_slist PM_SLIST_SIZE;;
  init_slist pt_pool_slist set_pt_pool_slist PAGE_TABLE_POOL_SLIST_SIZE;;
  init_slist swap_area_slist set_swap_area_slist SWAP_AREA_SIZE.
