(* ===== verification/MemorySpec.v ===== *)
(** What the memory management of [Memory] promises, as long as no page is swapped: the page tables
    of different tasks never name the same frame, the TLB holds nothing but what they say, and a
    TLB exception maps the page that caused it and no other.

    [vm_ok s tabs frames] is the invariant, [tabs] and [frames] being the free tables and frames. *)

From S2P Require Import Prelude Slist Kernel Queue Sched Sync Memory.

(** ** The translation *)

Definition pde_of (P : list pcb_t) (i d : Z) : option pde_t := b ← P.[i]; (page_dir b).[d].

Definition pte_of (m : mm_state) (t n : Z) : option pte_t := l ← (page_table_pool m).[t]; l.[n].

(** The table of the entry [d] of the directory of the task [i]. *)
Definition table_of (s : kstate) (i d : Z) : option Z :=
  e ← pde_of (pcb s) i d; if pde_valid e =? 0 then None else Some (pool_num e).

(** The entry of a page in use, and its frame when it is present. *)
Definition page_at (s : kstate) (i d n : Z) : option pte_t :=
  t ← table_of s i d; e ← pte_of (mm s) t n; if pte_valid e =? 0 then None else Some e.

Definition frame_at (s : kstate) (i d n : Z) : option Z :=
  e ← page_at s i d n; if present e =? 0 then None else Some (addr e).

(** The physical address of the virtual address [va] of the task [i], as the page tables have it. *)
Definition phys (s : kstate) (i va : Z) : option Z :=
  p ← frame_at s i (page_dir_num va) (page_table_num va); Some (p * 4096 + Z.land va 0x1fff).

(** The processor's translation: the entry that matches the page and the address-space id, its even
    or odd half, if that is valid. *)
Definition tlb_phys (t : list tlb_entry) (asid va : Z) : option Z :=
  k ← tlbp (Z.lor (Z.land va 0xffffe000) asid) t 0;
  e ← t.[k];
  let lo := if Z.testbit va 12 then tlb_lo1 e else tlb_lo0 e in
  if Z.testbit lo 1 then Some (Z.shiftr lo 6 * 4096 + Z.land va 0xfff) else None.

(** ** The invariant *)

(** The frame [f] is taken, and recorded as the page [(d, n)] of the task [i]. *)
Record owned (m : mm_state) (frames : list Z) (f i d n : Z) : Prop := {
  ow_range : 0 <= f < PM_SLIST_SIZE - 1;
  ow_taken : f + 1 ∉ frames;
  ow_pid : (pm_pid m).[f] = Some i;
  ow_vpn : exists v, (pm_vpn m).[f] = Some v /\ page_dir_num v = d /\ page_table_num v = n
}.

Definition entry_ok (m : mm_state) (frames : list Z) (e : tlb_entry) : Prop :=
  (tlb_lo0 e = 0 /\ tlb_lo1 e = 0) \/
  exists f, owned m frames f (Z.land (tlb_hi e) 0xff) (page_dir_num (tlb_hi e)) (page_table_num (tlb_hi e)) /\
    is_u32 (tlb_hi e) /\ tlb_lo0 e = entry_lo (pfn_of f) /\ tlb_lo1 e = entry_lo (pfn_of f + 1).

(** The sizes of the arrays. *)
Record vm_sizes (s : kstate) : Prop := {
  vs_pool : Z.of_nat (length (page_table_pool (mm s))) = PAGE_TABLE_POOL_SIZE;
  vs_table t l : (page_table_pool (mm s)).[t] = Some l -> Z.of_nat (length l) = PTE_NUMBER;
  vs_dir i b : (pcb s).[i] = Some b -> Z.of_nat (length (page_dir b)) = PDE_NUMBER;
  vs_pid : Z.of_nat (length (pm_pid (mm s))) = PM_SLIST_SIZE;
  vs_vpn : Z.of_nat (length (pm_vpn (mm s))) = PM_SLIST_SIZE;
  vs_tlb : Z.of_nat (length (tlb (mm s))) = TLB_ENTRY_NUMBER
}.

(** What the tables and the TLB name is taken and recorded as theirs; no table is shared. *)
Record vm_maps (s : kstate) (tabs frames : list Z) : Prop := {
  vm_table i d t : table_of s i d = Some t -> 0 <= t < PAGE_TABLE_POOL_SIZE /\ t + 1 ∉ tabs;
  vm_inj i d j e t : table_of s i d = Some t -> table_of s j e = Some t -> i = j /\ d = e;
  vm_map i d n p : frame_at s i d n = Some p -> exists f, p = pfn_of f /\ owned (mm s) frames f i d n;
  vm_tlb k e : (tlb (mm s)).[k] = Some e -> entry_ok (mm s) frames e
}.

Record vm_ok (s : kstate) (tabs frames : list Z) : Prop := {
  vo_sizes : vm_sizes s;
  vo_tabs : slist_rep (pt_pool_slist (mm s)) PAGE_TABLE_POOL_SLIST_SIZE tabs;
  vo_frames : slist_rep (pm_slist (mm s)) PM_SLIST_SIZE frames;
  vo_maps : vm_maps s tabs frames
}.

(** ** Addresses *)

#[local] Ltac Zify.zify_post_hook ::= Z.to_euclidean_division_equations.

Lemma pfn_of_eq f : 0 <= f < PM_SLIST_SIZE - 1 -> pfn_of f = 4096 + 2 * f.
Proof.
  unfold PM_SLIST_SIZE, pfn_of, PM_BASE, PM_SCHE_SIZE. intros H. rewrite u32_id by (unfold is_u32; lia).
  rewrite Z.shiftr_div_pow2 by done. change (2 ^ 12) with 4096. lia.
Qed.

Lemma entry_lo_valid p : Z.testbit (entry_lo p) 1 = true.
Proof. unfold entry_lo. rewrite Z.lor_spec. apply orb_true_r. Qed.

Lemma entry_lo_pfn p : 0 <= p < 67108864 -> Z.shiftr (entry_lo p) 6 = p.
Proof.
  intros H. unfold entry_lo. rewrite Z.shiftr_lor. change (Z.shiftr 22 6) with 0. rewrite Z.lor_0_r.
  rewrite u32_id; [by rewrite Z.shiftr_shiftl_l, Z.sub_diag, Z.shiftl_0_r by done|].
  unfold is_u32. rewrite Z.shiftl_mul_pow2 by done. lia.
Qed.

(** The page number of an address: 19 bits, the two indices. *)
Definition vpn2 (va : Z) : Z := va / 8192.

Lemma land_low n k x : 0 <= k -> n = 2 ^ k - 1 -> Z.land x n = x mod 2 ^ k.
Proof. intros Hk ->. rewrite Z.sub_1_r, <- Z.ones_equiv. by apply Z.land_ones. Qed.

Lemma land_page x : is_u32 x -> Z.land x 0xffffe000 = 8192 * vpn2 x.
Proof.
  intros Hx. unfold vpn2, is_u32 in *. transitivity (Z.shiftl (Z.shiftr x 13) 13).
  - apply Z.bits_inj'. intros k Hk. rewrite Z.land_spec, Z.shiftl_spec by done.
    destruct (decide (k < 13)) as [Hs|Hs].
    + rewrite (Z.testbit_neg_r _ (k - 13)) by lia.
      change 0xffffe000 with (Z.shiftl 0x7ffff 13). rewrite Z.shiftl_spec_low by done. apply andb_false_r.
    + rewrite Z.shiftr_spec by lia. replace (k - 13 + 13) with k by lia.
      destruct (decide (k < 32)) as [Hl|Hl].
      * change 0xffffe000 with (Z.shiftl (Z.ones 19) 13). rewrite Z.shiftl_spec, Z.ones_spec_low by lia.
        apply andb_true_r.
      * destruct (decide (x = 0)) as [->|]; [by rewrite Z.bits_0|]. rewrite Z.bits_above_log2; [done|lia|].
        apply Z.log2_lt_pow2; [lia|]. apply Z.lt_le_trans with (2 ^ 32); [lia|]. apply Z.pow_le_mono_r; lia.
  - rewrite Z.shiftr_div_pow2, Z.shiftl_mul_pow2 by done. change (2 ^ 13) with 8192. lia.
Qed.

Lemma page_dir_num_eq va : page_dir_num va = vpn2 va / 512.
Proof. unfold page_dir_num, vpn2. rewrite Z.shiftr_div_pow2, Z.div_div by done. done. Qed.

Lemma page_table_num_eq va : page_table_num va = vpn2 va mod 512.
Proof. unfold page_table_num, vpn2. rewrite (land_low _ 9), Z.shiftr_div_pow2 by done. done. Qed.

(** An [EntryHi]: a page number and an address-space id. *)
Lemma entry_hi_page va asid : is_u32 va -> is_u8 asid ->
  Z.lor (Z.land va 0xffffe000) asid = 8192 * vpn2 va + asid.
Proof.
  intros Hv Ha. rewrite land_page by done. unfold is_u8 in *. rewrite <- Z.add_lor_land.
  enough (Z.land (8192 * vpn2 va) asid = 0) by lia. apply Z.bits_inj'. intros k Hk.
  rewrite Z.land_spec, Z.bits_0, Z.mul_comm. change 8192 with (2 ^ 13). destruct (decide (k < 13)).
  - by rewrite Z.mul_pow2_bits_low.
  - rewrite andb_comm.
    destruct (decide (asid = 0)) as [->|]; [by rewrite Z.bits_0|]. rewrite Z.bits_above_log2; [done|lia|].
    apply Z.log2_lt_pow2; [lia|]. apply Z.lt_le_trans with (2 ^ 13); [lia|]. apply Z.pow_le_mono_r; lia.
Qed.

Lemma vpn2_entry_hi n asid : is_u8 asid -> vpn2 (8192 * n + asid) = n.
Proof. unfold vpn2, is_u8. lia. Qed.

Lemma asid_entry_hi n asid : is_u8 asid -> Z.land (8192 * n + asid) 0xff = asid.
Proof. intros H. rewrite (land_low _ 8) by done. change (2 ^ 8) with 256. unfold is_u8 in H. lia. Qed.

(** ** The processor's translation is the recorded one *)

Lemma tlbp_Some hi t i k :
  tlbp hi t i = Some k -> i <= k /\ exists e, t.[k - i] = Some e /\ tlb_match hi e = true.
Proof.
  revert i. induction t as [|e t IH]; intros i; cbn; [done|]. case_match eqn:Hm.
  - intros [= <-]. split; [lia|]. exists e. by rewrite Z.sub_diag.
  - intros (Hk & e' & He & Hm')%IH. split; [lia|]. exists e'. split; [|done].
    revert He. unfold aget. rewrite !decide_True by lia. replace (Z.to_nat (k - i)) with (S (Z.to_nat (k - (i + 1)))) by lia.
    done.
Qed.

Lemma tlb_match_page va asid e : is_u32 va -> is_u8 asid -> is_u32 (tlb_hi e) ->
  tlb_match (Z.lor (Z.land va 0xffffe000) asid) e = true ->
  vpn2 (tlb_hi e) = vpn2 va /\ Z.land (tlb_hi e) 0xff = asid.
Proof.
  intros Hv Ha He. rewrite entry_hi_page by done. unfold tlb_match.
  assert (Hu : is_u32 (8192 * vpn2 va + asid)) by (unfold is_u32, is_u8, vpn2 in *; lia).
  rewrite !land_page, asid_entry_hi, vpn2_entry_hi by done. intros [H1 H2]%andb_prop. lia.
Qed.

Lemma half_offset va : is_u32 va ->
  (if Z.testbit va 12 then 4096 else 0) + Z.land va 0xfff = Z.land va 0x1fff.
Proof.
  intros Hv. rewrite (land_low _ 12 va), (land_low _ 13 va) by done.
  pose proof (Z.testbit_spec' va 12 ltac:(done)) as Hb. change (2 ^ 12) with 4096 in *. change (2 ^ 13) with 8192.
  unfold is_u32 in Hv. destruct (Z.testbit va 12); cbn in Hb; lia.
Qed.

(** A hit in the TLB is an access to a frame recorded as the page's. *)
Lemma tlb_phys_owned s tabs frames i va a :
  vm_ok s tabs frames -> is_u8 i -> is_u32 va -> tlb_phys (tlb (mm s)) i va = Some a ->
  exists f, owned (mm s) frames f i (page_dir_num va) (page_table_num va) /\
    a = pfn_of f * 4096 + Z.land va 0x1fff.
Proof.
  intros HV Hi Hv H. unfold tlb_phys in H. apply bind_Some in H as (k & Hk & H).
  apply tlbp_Some in Hk as (_ & e & He & Hm). rewrite Z.sub_0_r in He. rewrite He in H. cbn [mbind option_bind] in H.
  destruct (vm_tlb _ _ _ (vo_maps _ _ _ HV) k e He) as [[E1 E2]|(f & Hf & Hu & E1 & E2)].
  { exfalso. rewrite E1, E2 in H. by destruct (Z.testbit va 12). }
  destruct (tlb_match_page va i e Hv Hi Hu Hm) as [Hn Ha].
  rewrite page_dir_num_eq, page_table_num_eq, Hn, Ha in Hf. exists f.
  rewrite page_dir_num_eq, page_table_num_eq. split; [done|].
  pose proof (pfn_of_eq f (ow_range _ _ _ _ _ _ Hf)) as Hp. pose proof (ow_range _ _ _ _ _ _ Hf) as Hr.
  unfold PM_SLIST_SIZE in Hr. rewrite <- half_offset by done. rewrite E1, E2 in H.
  destruct (Z.testbit va 12); rewrite entry_lo_valid, entry_lo_pfn in H by lia; injection H as <-; lia.
Qed.

Lemma phys_owned s tabs frames i va a :
  vm_ok s tabs frames -> phys s i va = Some a ->
  exists f, owned (mm s) frames f i (page_dir_num va) (page_table_num va) /\
    a = pfn_of f * 4096 + Z.land va 0x1fff.
Proof.
  intros HV H. unfold phys in H. apply bind_Some in H as (p & Hp & [= <-]).
  destruct (vm_map _ _ _ (vo_maps _ _ _ HV) _ _ _ _ Hp) as (f & -> & Hf). eauto.
Qed.

(** Frames recorded for different pages are different, and so are their bytes. *)
Lemma owned_inj m frames f g i j va vb :
  is_u32 va -> is_u32 vb ->
  owned m frames f i (page_dir_num va) (page_table_num va) ->
  owned m frames g j (page_dir_num vb) (page_table_num vb) ->
  pfn_of f * 4096 + Z.land va 0x1fff = pfn_of g * 4096 + Z.land vb 0x1fff -> i = j /\ va = vb.
Proof.
  intros Hva Hvb [Hf _ Hfp (v & Hv & Hd & Hn)] [Hg _ Hgp (w & Hw & He & Hm)].
  rewrite !pfn_of_eq, !(land_low _ 13) by done. change (2 ^ 13) with 8192. intros E.
  assert (f = g) as -> by lia. simplify_eq. split; [done|].
  rewrite !page_dir_num_eq, !page_table_num_eq in *. unfold vpn2, is_u32 in *. lia.
Qed.

Lemma owned_range m frames f i d n va : owned m frames f i d n ->
  PM_BASE <= pfn_of f * 4096 + Z.land va 0x1fff < 2 * PM_BASE.
Proof.
  intros [Hf _ _ _]. rewrite pfn_of_eq, (land_low _ 13) by done. change (2 ^ 13) with 8192.
  unfold PM_SLIST_SIZE, PM_BASE in *. lia.
Qed.

(** ** What a TLB exception changes outside memory management: page directories of one task *)

Record memory_only (c : Z) (s s' : kstate) : Prop := MemoryOnly {
  mo_eq : exists f m hi, s' = set_EntryHi hi (set_mm m (set_pcb (alter f (Z.to_nat c) (pcb s)) s)) /\
    forall b, exists pd, f b = set_page_dir pd b
}.

Lemma memory_only_mm c s m : memory_only c s (set_mm m s).
Proof.
  split. exists id, m, (EntryHi s). split; [|intros []; by eexists]. destruct s. cbn. by rewrite list_alter_id.
Qed.

Lemma memory_only_hi c s hi : memory_only c s (set_EntryHi hi s).
Proof.
  split. exists id, (mm s), hi. split; [|intros []; by eexists]. destruct s. cbn. by rewrite list_alter_id.
Qed.

Lemma memory_only_dir c s b pd : (pcb s).[c] = Some b ->
  memory_only c s (set_pcb (<[Z.to_nat c := set_page_dir pd b]> (pcb s)) s).
Proof.
  intros Hb. split. exists (set_page_dir pd), (mm s), (EntryHi s). split; [|eauto].
  replace (alter (set_page_dir pd) (Z.to_nat c) (pcb s)) with (<[Z.to_nat c := set_page_dir pd b]> (pcb s)); [by destruct s|].
  unfold aget in Hb. case_decide; [|done]. apply list_eq. intros j.
  destruct (decide (j = Z.to_nat c)) as [->|].
  - rewrite list_lookup_insert_eq by (by eapply lookup_lt_Some). rewrite list_lookup_alter_eq, Hb. done.
  - by rewrite list_lookup_insert_ne, list_lookup_alter_ne by done.
Qed.

#[global] Instance memory_only_preorder c : PreOrder (memory_only c).
Proof.
  split; [intros s; replace s with (set_mm (mm s) s) at 2 by (by destruct s); apply memory_only_mm|].
  intros s1 s2 s3 [(f & m & hi & -> & Hf)] [(g & m' & hi' & -> & Hg)]. split.
  exists (g ∘ f), m', hi'. split.
  - cbn. by rewrite alter_alter.
  - intros b. destruct (Hf b) as [pd E1]. destruct (Hg (set_page_dir pd b)) as [pd' E2]. exists pd'. cbn. by rewrite E1, E2.
Qed.

Lemma memory_only_current c s s' : memory_only c s s' -> current_running s' = current_running s.
Proof. by intros [(f & m & hi & -> & _)]. Qed.

(** ** The elementary writes *)

Lemma bind_lift {A B} (o : option A) (f : A -> M B) s x : o = Some x -> (lift o ≫= f) s = f x s.
Proof. by intros ->. Qed.

(** From [s] to [s'], the entry [n] of the table [t] becomes [e]. *)
Record pte_write (s s' : kstate) (t n : Z) (e : pte_t) : Prop := {
  pw_eq : exists p, s' = set_mm (set_page_table_pool p (mm s)) s;
  pw_pte u k : pte_of (mm s') u k = if decide (u = t /\ k = n) then Some e else pte_of (mm s) u k;
  pw_sizes : vm_sizes s -> vm_sizes s'
}.

Lemma pte_write_trans s s1 s2 t n e1 e2 :
  pte_write s s1 t n e1 -> pte_write s1 s2 t n e2 -> pte_write s s2 t n e2.
Proof.
  intros [[p1 E1] H1 L1] [[p2 E2] H2 L2]. split; [|intros u k; rewrite H2, H1; by case_decide|by auto].
  exists p2. by rewrite E2, E1.
Qed.

Lemma aset_lookup {A} (l : list A) i x l' j : aset l i x = Some l' ->
  l'.[j] = if decide (j = i) then Some x else l.[j].
Proof.
  intros E. case_decide as Hj; [subst; by eapply aget_aset_eq|]. eapply aget_aset_ne; [exact E|congruence].
Qed.

Lemma put_table_spec s t l l' :
  (page_table_pool (mm s)).[t] = Some l -> exists s',
  put_table t l' s = Ok (tt, s') /\ (exists p, s' = set_mm (set_page_table_pool p (mm s)) s) /\
  (forall u k, pte_of (mm s') u k = if decide (u = t) then l'.[k] else pte_of (mm s) u k) /\
  (length l' = length l -> vm_sizes s -> vm_sizes s').
Proof.
  intros Hl. unfold put_table. rewrite bind_get.
  pose proof (aset_Some _ _ l' (aget_Some _ _ _ Hl)) as Ea. rewrite (bind_lift _ _ _ _ Ea).
  eexists. split; [reflexivity|]. cbn. split; [eauto|]. split.
  - intros u k. unfold pte_of. cbn. rewrite (aset_lookup _ _ _ _ u Ea). by case_decide.
  - intros Hlen [H1 H2 H3 H4 H5 H6]. split; cbn; try done; [by rewrite length_insert|].
    intros u lu. rewrite (aset_lookup _ _ _ _ u Ea). case_decide; [|apply H2].
    intros [= <-]. rewrite Hlen. by apply (H2 t).
Qed.

Lemma table_at_Ok s t l : (page_table_pool (mm s)).[t] = Some l -> table_at t s = Ok (l, s).
Proof. unfold table_at. by intros ->. Qed.

Lemma pte_at_Ok s t n e : pte_of (mm s) t n = Some e -> pte_at t n s = Ok (e, s).
Proof.
  intros (l & Hl & Hn)%bind_Some. unfold pte_at. rewrite (bind_Ok _ _ _ _ _ (table_at_Ok _ _ _ Hl)).
  by rewrite Hn.
Qed.

Lemma upd_pte_spec s t n f e : pte_of (mm s) t n = Some e ->
  exists s', upd_pte t n f s = Ok (tt, s') /\ pte_write s s' t n (f e).
Proof.
  intros (l & Hl & Hn)%bind_Some. unfold upd_pte. rewrite (bind_Ok _ _ _ _ _ (table_at_Ok _ _ _ Hl)).
  rewrite (bind_lift _ _ _ _ Hn). pose proof (aset_Some _ _ (f e) (aget_Some _ _ _ Hn)) as Ea.
  rewrite (bind_lift _ _ _ _ Ea). destruct (put_table_spec s t l (<[Z.to_nat n := f e]> l) Hl) as (s' & E & Heq & Hp & Hs).
  exists s'. split; [exact E|]. split; [done| |apply Hs; by rewrite length_insert].
  intros u k. rewrite Hp. destruct (decide (u = t)) as [->|].
  - rewrite (aset_lookup _ _ _ _ k Ea). case_decide as Hk; [by rewrite decide_True by done|].
    rewrite decide_False by naive_solver. unfold pte_of. by rewrite Hl.
  - by rewrite decide_False by naive_solver.
Qed.

(** From [s] to [s'], the entry [d] of the directory of the task [i] becomes [e]. *)
Record pde_write (s s' : kstate) (i d : Z) (e : pde_t) : Prop := {
  dw_mm : mm s' = mm s;
  dw_only : memory_only i s s';
  dw_pde j k : pde_of (pcb s') j k = if decide (j = i /\ k = d) then Some e else pde_of (pcb s) j k;
  dw_sizes : vm_sizes s -> vm_sizes s'
}.

Lemma put_pde_spec s i d e0 e : pde_of (pcb s) i d = Some e0 ->
  exists s', put_pde i d e s = Ok (tt, s') /\ pde_write s s' i d e /\ current_running s' = current_running s.
Proof.
  intros (b & Hb & Hd)%bind_Some. unfold put_pde. rewrite (bind_Ok _ _ _ _ _ (pcb_at_Ok _ _ _ Hb)).
  pose proof (aset_Some _ _ e (aget_Some _ _ _ Hd)) as Ea. rewrite (bind_lift _ _ _ _ Ea).
  rewrite (upd_pcb_Ok i b) by done. eexists. split; [reflexivity|]. split; [|done]. split; [done| | |].
  - by apply memory_only_dir.
  - intros j k. unfold pde_of. cbn. rewrite (aget_upd_pcb _ i j b) by done.
    destruct (decide (j = i)) as [->|].
    + cbn. rewrite (aset_lookup _ _ _ _ k Ea), Hb. cbn. case_decide; [by rewrite decide_True by done|].
      by rewrite decide_False by naive_solver.
    + by rewrite decide_False by naive_solver.
  - intros [H1 H2 H3 H4 H5 H6]. split; cbn; try done. intros j bj. rewrite (aget_upd_pcb _ i j b) by done.
    case_decide; [|apply H3]. intros [= <-]. cbn. rewrite length_insert. by apply (H3 i).
Qed.

(** ** Their effect on the invariant *)

(** Frames taken before are taken after, for the same pages. *)
Definition same_owners (m m' : mm_state) (frames frames' : list Z) : Prop :=
  forall g, g + 1 ∉ frames ->
    (g + 1 ∉ frames') /\ (pm_pid m').[g] = (pm_pid m).[g] /\ (pm_vpn m').[g] = (pm_vpn m).[g].

Lemma owned_mono m m' frames frames' f i d n :
  same_owners m m' frames frames' ->
  owned m frames f i d n -> owned m' frames' f i d n.
Proof. intros H [Hr Ht Hp Hv]. destruct (H f Ht) as (H1 & H2 & H3). split; [done..|by rewrite H2|by rewrite H3]. Qed.

Lemma entry_ok_mono m m' frames frames' e :
  same_owners m m' frames frames' ->
  entry_ok m frames e -> entry_ok m' frames' e.
Proof. intros H [?|(f & Hf & ?)]; [by left|right]. exists f. split; [by eapply owned_mono|done]. Qed.

(** Steps that change no mapping, allocate tables and frames, and record owners of frames that were
    free. *)
Lemma vm_maps_mono s s' tabs tabs' frames frames' :
  (forall i d, table_of s' i d = table_of s i d) ->
  (forall i d n, frame_at s' i d n = frame_at s i d n) ->
  tlb (mm s') = tlb (mm s) -> tabs' ⊆ tabs ->
  same_owners (mm s) (mm s') frames frames' ->
  vm_maps s tabs frames -> vm_maps s' tabs' frames'.
Proof.
  intros Ht Hf Hb Htabs Hg [H1 H2 H3 H4]. split.
  - intros i d t. rewrite Ht. intros [? ?]%H1. split; [done|set_solver].
  - intros i d j e t. rewrite !Ht. apply H2.
  - intros i d n p. rewrite Hf. intros (f & ? & ?)%H3. exists f. split; [done|by eapply owned_mono].
  - intros k e. rewrite Hb. intros He%H4. by eapply entry_ok_mono.
Qed.

Lemma table_of_ext s s' : (forall i d, pde_of (pcb s') i d = pde_of (pcb s) i d) ->
  forall i d, table_of s' i d = table_of s i d.
Proof. intros H i d. unfold table_of. by rewrite H. Qed.

Lemma frame_at_ext s s' : (forall i d, table_of s' i d = table_of s i d) ->
  (forall t n, pte_of (mm s') t n = pte_of (mm s) t n) ->
  forall i d n, frame_at s' i d n = frame_at s i d n.
Proof.
  intros Ht Hp i d n. unfold frame_at, page_at. rewrite Ht. destruct (table_of s i d); cbn; [|done]. by rewrite Hp.
Qed.

(** The lookup of a page in two steps. *)
Lemma frame_at_table s i d n t : table_of s i d = Some t ->
  frame_at s i d n = (e ← pte_of (mm s) t n; if (pte_valid e =? 0) || (present e =? 0) then None else Some (addr e)).
Proof.
  intros Ht. unfold frame_at, page_at. rewrite Ht. cbn. destruct (pte_of (mm s) t n) as [e|]; cbn; [|done].
  by destruct (pte_valid e =? 0).
Qed.

(** Mapping a page: only that page changes. *)
Lemma frame_at_write s s' t n p c d : pte_write s s' t n (Pte p 1 1) ->
  (forall i e j f u, table_of s i e = Some u -> table_of s j f = Some u -> i = j /\ e = f) ->
  table_of s c d = Some t -> is_Some (pte_of (mm s) t n) ->
  forall i e k, frame_at s' i e k = if decide (i = c /\ e = d /\ k = n) then Some p else frame_at s i e k.
Proof.
  intros [[pl Es] Hp _] Hinj Ht [e0 He0] i e k.
  assert (Htab : forall i e, table_of s' i e = table_of s i e) by (by subst).
  destruct (table_of s i e) as [u|] eqn:Hu.
  - rewrite !(frame_at_table _ i e k u), Hp by (by rewrite ?Htab). case_decide as Hk.
    + destruct Hk as [-> ->]. destruct (Hinj i e c d t Hu Ht) as [-> ->]. by rewrite decide_True.
    + rewrite decide_False; [done|]. intros (-> & -> & ->). apply Hk. split; congruence.
  - unfold frame_at, page_at. rewrite Htab, Hu. cbn. rewrite decide_False; [done|]. intros (-> & -> & _). congruence.
Qed.

(** ** The table of a page *)

Lemma mm_slist_Ok sel put f s r l : f (sel (mm s)) = Some (r, l) ->
  mm_slist sel put f s = Ok (r, set_mm (put l (mm s)) s).
Proof. intros E. unfold mm_slist. rewrite bind_get. by rewrite (bind_lift _ _ _ _ E). Qed.

Lemma table_of_write s s' i d t v : pde_write s s' i d (Pde t v) -> v <> 0 ->
  forall j e, table_of s' j e = if decide (j = i /\ e = d) then Some t else table_of s j e.
Proof.
  intros [_ _ H _] Hv j e. unfold table_of. rewrite H. case_decide; [|done]. cbn. by case_cmp.
Qed.

Lemma page_table_init_lookup l k : (page_table_init l).[k] = (fun e => Pte (addr e) 0 (present e)) <$> l.[k].
Proof. unfold aget, page_table_init. case_decide; [apply list_lookup_fmap|done]. Qed.

Lemma pde_at_Ok s i d e : pde_of (pcb s) i d = Some e -> pde_at i d s = Ok (e, s).
Proof.
  intros (b & Hb & Hd)%bind_Some. unfold pde_at. by rewrite (bind_Ok _ _ _ _ _ (pcb_at_Ok _ _ _ Hb)), Hd.
Qed.

Section find_table.
Context (s : kstate) (tabs frames : list Z) (d : Z).
Hypothesis HV : vm_ok s tabs frames.
Hypothesis Hd : is_Some (pde_of (pcb s) (current_running s) d).
Abbreviation c := (current_running s).

(** What [find_table] promises: the table of [d], nothing else changed. *)
Definition table_found (pool : Z) (s' : kstate) (tabs' : list Z) : Prop :=
  vm_ok s' tabs' frames /\ current_running s' = c /\ memory_only c s s' /\
  table_of s' c d = Some pool /\ tlb (mm s') = tlb (mm s) /\ pm_slist (mm s') = pm_slist (mm s) /\
  (forall j e n, frame_at s' j e n = frame_at s j e n) /\ (forall j e n, page_at s' j e n = page_at s j e n).

Lemma find_table_old t : table_of s c d = Some t -> find_table d s = Ok (t, s) /\ table_found t s tabs.
Proof.
  intros Ht. split; [|by split_and!; try done]. unfold table_of in Ht. unfold find_table. rewrite bind_get.
  apply bind_Some in Ht as (e & He & Ht). rewrite (bind_Ok _ _ _ _ _ (pde_at_Ok _ _ _ _ He)).
  destruct (pde_valid e =? 0); simplify_eq. done.
Qed.

(** Without a table yet: what is left to do. *)
Lemma find_table_new : table_of s c d = None -> exists e, pde_of (pcb s) c d = Some e /\ pde_valid e = 0.
Proof.
  intros Ht. unfold table_of in Ht. destruct Hd as [e He]. exists e. split; [done|].
  rewrite He in Ht. cbn in Ht. by case_cmp.
Qed.

Lemma find_table_panic : table_of s c d = None -> tabs = [] -> find_table d s = Panic "Empty page table pool.".
Proof.
  intros (e & He & Hv)%find_table_new ->. unfold find_table. rewrite bind_get.
  rewrite (bind_Ok _ _ _ _ _ (pde_at_Ok _ _ _ _ He)), Hv. cbn [Z.eqb]. unfold pt_pool_alloc. rewrite bind_assoc.
  erewrite (bind_Ok (mm_slist _ _ _)) by (apply mm_slist_Ok; by eapply slist_alloc_nil, (vo_tabs _ _ _ HV)).
  done.
Qed.

(** The state in which the slot [t] became the table of [d]. *)
Lemma table_installed t tabs' l e s1 s2 s3 s4 l' :
  table_of s c d = None -> tabs = t :: tabs' -> slist_rep l' PAGE_TABLE_POOL_SLIST_SIZE tabs' ->
  s1 = set_mm (set_pt_pool_slist l' (mm s)) s -> pde_write s1 s2 c d e ->
  (page_table_pool (mm s2)).[t - 1] = Some l ->
  (exists p, s3 = set_mm (set_page_table_pool p (mm s2)) s2) ->
  (forall u k, pte_of (mm s3) u k = if decide (u = t - 1) then (page_table_init l).[k] else pte_of (mm s2) u k) ->
  (vm_sizes s2 -> vm_sizes s3) -> pde_write s3 s4 c d (Pde (t - 1) 1) -> table_found (t - 1) s4 tabs'.
Proof.
  intros Hno Htabs Hl' E1 HW2 Hl [p E3] Hp3 Hs3 HW4.
  assert (Hmm : mm s4 = set_page_table_pool p (mm s1)) by (rewrite (dw_mm _ _ _ _ _ HW4), E3; cbn; by rewrite (dw_mm _ _ _ _ _ HW2)).
  assert (Hpte : forall u k, pte_of (mm s4) u k = if decide (u = t - 1)
    then (fun e => Pte (addr e) 0 (present e)) <$> l.[k] else pte_of (mm s) u k).
  { intros u k. rewrite (dw_mm _ _ _ _ _ HW4), Hp3, page_table_init_lookup. case_decide; [done|].
    rewrite (dw_mm _ _ _ _ _ HW2). by subst s1. }
  assert (Htab : forall j k, table_of s4 j k = if decide (j = c /\ k = d) then Some (t - 1) else table_of s j k).
  { intros j k. rewrite (table_of_write _ _ _ _ _ _ HW4) by done. case_decide as Hjk; [done|].
    unfold table_of. rewrite E3. cbn [pcb set_mm]. rewrite (dw_pde _ _ _ _ _ HW2), decide_False by done. by subst s1. }
  assert (Htaken : forall j k u, table_of s j k = Some u -> u <> t - 1 /\ ~ (j = c /\ k = d)).
  { intros j k u Hu. destruct (vm_table _ _ _ (vo_maps _ _ _ HV) _ _ _ Hu) as [_ Hn]. split.
    - intros ->. apply Hn. rewrite Htabs. replace (t - 1 + 1) with t by lia. set_solver.
    - intros [-> ->]. congruence. }
  assert (Hpage : forall j k n, page_at s4 j k n = page_at s j k n).
  { intros j k n. unfold page_at. rewrite Htab. case_decide as Hjk.
    - destruct Hjk as [-> ->]. rewrite Hno. cbn. rewrite Hpte, decide_True by done. by destruct (l.[n]).
    - destruct (table_of s j k) as [u|] eqn:Hu; [|done]. cbn. rewrite Hpte, decide_False; [done|]. by eapply Htaken. }
  assert (Hframe : forall j k n, frame_at s4 j k n = frame_at s j k n) by (intros; unfold frame_at; by rewrite Hpage).
  destruct HV as [Hsz Ht0 Hfr HM]. rewrite Htabs in Ht0.
  pose proof (rep_range _ _ _ Ht0 t ltac:(set_solver)) as Hr. pose proof (rep_nodup _ _ _ Ht0) as [Hnt _]%NoDup_cons.
  unfold PAGE_TABLE_POOL_SLIST_SIZE in Hr. split_and!.
  - split.
    + apply (dw_sizes _ _ _ _ _ HW4), Hs3, (dw_sizes _ _ _ _ _ HW2). subst s1. by destruct Hsz.
    + rewrite Hmm, E1. done.
    + rewrite Hmm, E1. done.
    + destruct HM as [H1 H2 H3 H4]. split.
      * intros j k u. rewrite Htab. case_decide.
        -- intros [= <-]. unfold PAGE_TABLE_POOL_SIZE. split; [lia|]. by replace (t - 1 + 1) with t by lia.
        -- intros [? ?]%H1. split; [done|]. set_solver.
      * intros i k j k' u. rewrite !Htab. repeat case_decide; intros Hu Hu'; simplify_eq; [naive_solver| | |by eapply H2].
        -- by destruct (Htaken _ _ _ Hu').
        -- by destruct (Htaken _ _ _ Hu).
      * intros j k n p'. rewrite Hframe. intros (f & ? & Hf)%H3. exists f. split; [done|].
        eapply owned_mono, Hf. by rewrite Hmm, E1.
      * intros k e'. rewrite Hmm, E1. intros He'%H4. by eapply entry_ok_mono, He'.
  - rewrite (memory_only_current _ _ _ (dw_only _ _ _ _ _ HW4)). subst s3. cbn.
    rewrite (memory_only_current _ _ _ (dw_only _ _ _ _ _ HW2)). by subst s1.
  - transitivity s1; [subst s1; apply memory_only_mm|]. transitivity s2; [apply (dw_only _ _ _ _ _ HW2)|].
    transitivity s3; [subst s3; apply memory_only_mm|]. apply (dw_only _ _ _ _ _ HW4).
  - rewrite Htab. by rewrite decide_True.
  - by rewrite Hmm, E1.
  - rewrite Hmm, E1. done.
  - done.
  - done.
Qed.

Lemma find_table_alloc t tabs' : table_of s c d = None -> tabs = t :: tabs' ->
  exists s', find_table d s = Ok (t - 1, s') /\ table_found (t - 1) s' tabs'.
Proof.
  intros Hno Htb. destruct (find_table_new Hno) as (e & He & Hv). unfold find_table. rewrite bind_get.
  rewrite (bind_Ok _ _ _ _ _ (pde_at_Ok _ _ _ _ He)), Hv. cbn [Z.eqb].
  pose proof HV as [Hsz Htabs Hfr HM]. rewrite Htb in Htabs. destruct (slist_alloc_cons _ _ _ _ Htabs) as (l' & El & Hl').
  pose proof (rep_range _ _ _ Htabs t ltac:(set_solver)) as Hr.
  unfold PAGE_TABLE_POOL_SLIST_SIZE in Hr. unfold pt_pool_alloc. rewrite bind_assoc.
  erewrite (bind_Ok (mm_slist _ _ _)) by (apply mm_slist_Ok; exact El). rewrite bind_ret, s32_id by (unfold is_s32; lia).
  rewrite (proj2 (Z.eqb_neq (t - 1) (-1))) by lia. set (s1 := set_mm _ s).
  destruct (put_pde_spec s1 c d e (Pde (t - 1) 0) He) as (s2 & E2 & HW2 & Hc2).
  rewrite (bind_Ok _ _ _ _ _ E2).
  assert (Hl : is_Some ((page_table_pool (mm s2)).[t - 1])).
  { apply aget_is_Some. rewrite (dw_mm _ _ _ _ _ HW2). cbn. rewrite (vs_pool _ Hsz). unfold PAGE_TABLE_POOL_SIZE. lia. }
  destruct Hl as [l Hl]. rewrite (bind_Ok _ _ _ _ _ (table_at_Ok _ _ _ Hl)).
  destruct (put_table_spec s2 (t - 1) l (page_table_init l) Hl) as (s3 & E3 & [p3 Heq3] & Hp3 & Hs3).
  rewrite (bind_Ok _ _ _ _ _ E3).
  assert (He3 : pde_of (pcb s3) c d = Some (Pde (t - 1) 0)).
  { rewrite Heq3. cbn. rewrite (dw_pde _ _ _ _ _ HW2). by rewrite decide_True. }
  destruct (put_pde_spec s3 c d _ (Pde (t - 1) 1) He3) as (s4 & E4 & HW4 & Hc4). rewrite (bind_Ok _ _ _ _ _ E4).
  exists s4. split; [done|]. apply (table_installed t tabs' l (Pde (t - 1) 0) s1 s2 s3 s4 l'); try done; eauto.
  apply Hs3. unfold page_table_init. by rewrite length_fmap.
Qed.

End find_table.

(** ** Loading the TLB *)

(** The processor raises a refill exception when no entry matches, [random] then naming any entry,
    and an invalid exception when one does. *)
Definition tlb_cause (t : list tlb_entry) (entry_hi random is_refill : Z) : Prop :=
  if is_refill =? 0 then is_Some (tlbp entry_hi t 0)
  else tlbp entry_hi t 0 = None /\ 0 <= random < TLB_ENTRY_NUMBER.

Lemma tlbp_insert hi t i k e :
  tlbp hi t i = None \/ tlbp hi t i = Some k -> i <= k < i + Z.of_nat (length t) ->
  tlb_match hi e = true -> tlbp hi (<[Z.to_nat (k - i) := e]> t) i = Some k.
Proof.
  revert i. induction t as [|a t IH]; intros i H Hk Hm; cbn [length] in Hk; [lia|].
  cbn [tlbp] in H. destruct (decide (k = i)) as [->|Hne].
  - rewrite Z.sub_diag. change (<[Z.to_nat 0 := e]> (a :: t)) with (e :: t). cbn [tlbp]. by rewrite Hm.
  - replace (Z.to_nat (k - i)) with (S (Z.to_nat (k - (i + 1)))) by lia.
    set (n := Z.to_nat _). change (<[S n := e]> (a :: t)) with (a :: <[n := e]> t). cbn [tlbp].
    destruct (tlb_match hi a); [destruct H; congruence|]. apply IH; [done|lia|done].
Qed.

Lemma tlb_write_Ok s k e : 0 <= k < Z.of_nat (length (tlb (mm s))) ->
  tlb_write k e s = Ok (tt, set_mm (set_tlb (<[Z.to_nat k := e]> (tlb (mm s))) (mm s)) s).
Proof. intros H. unfold tlb_write. rewrite bind_get. by rewrite (bind_lift _ _ _ _ (aset_Some _ _ _ H)). Qed.

Lemma vm_ok_tlb_write s tabs frames k e hi : vm_ok s tabs frames -> entry_ok (mm s) frames e ->
  vm_ok (set_mm (set_tlb (<[k := e]> (tlb (mm s))) (mm s)) (set_EntryHi hi s)) tabs frames.
Proof.
  intros [Hsz Ht Hf HM] He. split; [| done | done |].
  - destruct Hsz. split; cbn; try done. by rewrite length_insert.
  - destruct HM as [H1 H2 H3 H4]. split; try done.
    + intros i d n p (f & Hp & Hf')%H3. exists f. split; [done|by eapply owned_mono, Hf'].
    + intros j e'. cbn [mm set_mm set_EntryHi tlb set_tlb]. unfold aget. case_decide; [|done].
      rewrite list_lookup_insert. case_decide; intros Hx; simplify_eq.
      * by eapply entry_ok_mono, He.
      * assert (Hj : (tlb (mm s)).[j] = Some e') by (unfold aget; by rewrite decide_True).
        apply H4 in Hj. by eapply entry_ok_mono, Hj.
Qed.

(** The pair of entries of a frame that is the page's makes the access of the page hit. *)
Lemma entry_hit va asid f t k : is_u32 va -> is_u8 asid -> 0 <= f < PM_SLIST_SIZE - 1 ->
  let hi := Z.lor (Z.land va 0xffffe000) asid in
  tlbp hi t 0 = Some k -> t.[k] = Some (TlbEntry hi (entry_lo (pfn_of f)) (entry_lo (pfn_of f + 1))) ->
  tlb_phys t asid va = Some (pfn_of f * 4096 + Z.land va 0x1fff).
Proof.
  intros Hv Ha Hf hi Hk He. unfold tlb_phys. fold hi. rewrite Hk. cbn [mbind option_bind]. rewrite He.
  cbn [mbind option_bind tlb_lo0 tlb_lo1]. rewrite <- half_offset by done.
  pose proof (pfn_of_eq f Hf) as Hp. unfold PM_SLIST_SIZE in Hf.
  destruct (Z.testbit va 12); rewrite entry_lo_valid, entry_lo_pfn by lia; f_equal; lia.
Qed.

Lemma tlb_match_self va asid : is_u32 va -> is_u8 asid ->
  let hi := Z.lor (Z.land va 0xffffe000) asid in
  forall lo0 lo1, tlb_match hi (TlbEntry hi lo0 lo1) = true.
Proof. intros _ _ hi lo0 lo1. unfold tlb_match. cbn. by rewrite !Z.eqb_refl. Qed.

Section fill.
Context (s : kstate) (tabs frames : list Z) (c va f random is_refill : Z).
Hypothesis HV : vm_ok s tabs frames.
Hypothesis (Hva : is_u32 va) (Hc : is_u8 c).
Hypothesis Hown : owned (mm s) frames f c (page_dir_num va) (page_table_num va).
Abbreviation hi := (Z.lor (Z.land va 0xffffe000) c).

Lemma tlb_fill_spec : tlb_cause (tlb (mm s)) hi random is_refill ->
  exists s', tlb_fill random (pfn_of f) hi is_refill s = Ok (tt, s') /\ vm_ok s' tabs frames /\
    memory_only c s s' /\ (forall j d n, frame_at s' j d n = frame_at s j d n) /\
    EntryHi s' = hi /\ tlb_phys (tlb (mm s')) c va = Some (pfn_of f * 4096 + Z.land va 0x1fff).
Proof.
  intros Hcause. set (e := TlbEntry hi (entry_lo (pfn_of f)) (entry_lo (pfn_of f + 1))).
  assert (Hu : is_u32 hi) by (rewrite entry_hi_page by done; unfold is_u32, is_u8, vpn2 in *; lia).
  assert (He : entry_ok (mm s) frames e).
  { right. exists f. cbn [e tlb_hi tlb_lo0 tlb_lo1]. split; [|done].
    rewrite page_dir_num_eq, page_table_num_eq, entry_hi_page, asid_entry_hi, vpn2_entry_hi by done.
    by rewrite page_dir_num_eq, page_table_num_eq in Hown. }
  assert (Hk : exists k, 0 <= k < Z.of_nat (length (tlb (mm s))) /\
    (tlbp hi (tlb (mm s)) 0 = None \/ tlbp hi (tlb (mm s)) 0 = Some k) /\
    tlb_fill random (pfn_of f) hi is_refill s =
      Ok (tt, set_mm (set_tlb (<[Z.to_nat k := e]> (tlb (mm s))) (mm s)) (set_EntryHi hi s))).
  { pose proof (vs_tlb _ (vo_sizes _ _ _ HV)) as Hl. unfold tlb_fill. rewrite bind_modify. unfold tlb_cause in Hcause.
    destruct (is_refill =? 0); cbn [negb].
    - destruct Hcause as [k Hk]. exists k. pose proof (tlbp_Some _ _ _ _ Hk) as (_ & ek & Hek & _).
      rewrite Z.sub_0_r in Hek. apply aget_Some in Hek. split_and!; [lia|lia|by right|].
      rewrite bind_get. cbn [mm set_EntryHi]. rewrite (bind_lift _ _ _ _ Hk). by rewrite tlb_write_Ok.
    - destruct Hcause as [Hn Hr]. exists random. rewrite Hl. split_and!; [lia|lia|by left|].
      rewrite tlb_write_Ok; [done|]. cbn. by rewrite Hl. }
  destruct Hk as (k & Hr & Hfirst & E). eexists. split; [exact E|]. split_and!.
  - by apply vm_ok_tlb_write.
  - transitivity (set_EntryHi hi s); [apply memory_only_hi|apply memory_only_mm].
  - done.
  - done.
  - cbn [mm set_mm tlb set_tlb]. apply (entry_hit va c f _ k); [done|done|apply Hown| |].
    + pose proof (tlbp_insert hi (tlb (mm s)) 0 k e Hfirst) as Hi. rewrite Z.sub_0_r in Hi. apply Hi; [lia|].
      by apply tlb_match_self.
    + rewrite aget_insert by lia. by rewrite decide_True by lia.
Qed.

End fill.

(** ** Mapping a page *)

Lemma record_owner_spec s f p v : vm_sizes s -> 0 <= f < PM_SLIST_SIZE -> exists s',
  record_owner f p v s = Ok (tt, s') /\
  (exists lp lv, s' = set_mm (set_pm_vpn lv (set_pm_pid lp (mm s))) s) /\ vm_sizes s' /\
  (forall g, (pm_pid (mm s')).[g] = if decide (g = f) then Some (u32 p) else (pm_pid (mm s)).[g]) /\
  (forall g, (pm_vpn (mm s')).[g] = if decide (g = f) then Some v else (pm_vpn (mm s)).[g]).
Proof.
  intros [H1 H2 H3 H4 H5 H6] Hf. unfold record_owner. rewrite bind_get.
  pose proof (aset_Some (pm_pid (mm s)) f (u32 p) ltac:(lia)) as Ep. rewrite (bind_lift _ _ _ _ Ep), bind_modify, bind_get.
  cbn [mm set_mm pm_vpn set_pm_pid].
  pose proof (aset_Some (pm_vpn (mm s)) f v ltac:(lia)) as Ev. rewrite (bind_lift _ _ _ _ Ev).
  eexists. split; [reflexivity|]. cbn. split; [eauto|]. split; [|split].
  - split; cbn; try done; by rewrite length_insert.
  - intros g. by apply aset_lookup.
  - intros g. by apply aset_lookup.
Qed.

Lemma page_base va : is_u32 va ->
  page_dir_num (Z.land va 0xfffff000) = page_dir_num va /\ page_table_num (Z.land va 0xfffff000) = page_table_num va.
Proof.
  intros Hv. unfold page_dir_num, page_table_num. rewrite !Z.shiftr_land, <- Z.land_assoc.
  change (Z.shiftr 0xfffff000 22) with 0x3ff. change (Z.land (Z.shiftr 0xfffff000 13) 0x1ff) with 0x1ff. split; [|done].
  rewrite (land_low _ 10), Z.shiftr_div_pow2 by done. change (2 ^ 22) with 4194304. change (2 ^ 10) with 1024.
  unfold is_u32 in Hv. lia.
Qed.

(** The entry of the page [n] of the table [t] of the task [c] now names its own frame [f]. *)
Lemma vm_ok_pte_write s s' tabs frames c d n t f : vm_ok s tabs frames ->
  pte_write s s' t n (Pte (pfn_of f) 1 1) -> is_Some (pte_of (mm s) t n) ->
  table_of s c d = Some t -> owned (mm s) frames f c d n -> vm_ok s' tabs frames.
Proof.
  intros [Hsz Ht Hf HM] HW He Htab Hown. pose proof HW as [[p ->] Hp Hs]. split; [by apply Hs|done|done|].
  pose proof HM as [H1 H2 H3 H4]. split; try done.
  - intros i e k q. rewrite (frame_at_write _ _ _ _ _ c d HW H2 Htab He). case_decide as Hk.
    + destruct Hk as (-> & -> & ->). intros [= <-]. exists f. split; [done|by eapply owned_mono, Hown].
    + intros (g & ? & Hg)%H3. exists g. split; [done|by eapply owned_mono, Hg].
  - intros k e He'%H4. by eapply entry_ok_mono, He'.
Qed.

Section map.
Context (s : kstate) (tabs frames : list Z) (c va f t random is_refill : Z) (b : pcb_t).
Abbreviation hi := (Z.lor (Z.land va 0xffffe000) c).
Abbreviation d := (page_dir_num va).
Abbreviation n := (page_table_num va).
Hypothesis (Hsz : vm_sizes s) (Htabs : slist_rep (pt_pool_slist (mm s)) PAGE_TABLE_POOL_SLIST_SIZE tabs).
Hypothesis (Hframes : slist_rep (pm_slist (mm s)) PM_SLIST_SIZE frames).
Hypothesis (HM : vm_maps s tabs (f + 1 :: frames)).
Hypothesis (Hf : 0 <= f < PM_SLIST_SIZE - 1) (Hfresh : f + 1 ∉ frames).
Hypothesis (Hva : is_u32 va) (Hc : is_u8 c).
Hypothesis (Hcur : current_running s = c) (Hb : (pcb s).[c] = Some b) (Hpid : pid b = c).
Hypothesis (Htab : table_of s c d = Some t) (Hpte : is_Some (pte_of (mm s) t n)).

Lemma tlb_map_spec : tlb_cause (tlb (mm s)) hi random is_refill ->
  exists s', tlb_map t n va f random hi is_refill s = Ok (tt, s') /\ vm_ok s' tabs frames /\ memory_only c s s' /\
    (forall j e k, frame_at s' j e k = if decide (j = c /\ e = d /\ k = n) then Some (pfn_of f) else frame_at s j e k) /\
    EntryHi s' = hi /\ tlb_phys (tlb (mm s')) c va = Some (pfn_of f * 4096 + Z.land va 0x1fff).
Proof.
  intros Hcause. unfold tlb_map.
  assert (Ep : current_pid s = Ok (c, s)).
  { unfold current_pid. rewrite bind_get, Hcur, (bind_Ok _ _ _ _ _ (pcb_at_Ok _ _ _ Hb)). by rewrite Hpid. }
  rewrite (bind_Ok _ _ _ _ _ Ep).
  destruct (record_owner_spec s f c (Z.land va 0xfffff000) Hsz) as (s1 & E1 & (lp & lv & Eq1) & Hsz1 & Hp1 & Hv1); [lia|].
  rewrite (bind_Ok _ _ _ _ _ E1). destruct Hpte as [e0 He0].
  assert (Hown : owned (mm s1) frames f c d n).
  { split; [done|done| |].
    - rewrite Hp1, decide_True by done. rewrite u32_id; [done|]. unfold is_u8, is_u32 in *. lia.
    - exists (Z.land va 0xfffff000). rewrite Hv1, decide_True by done. split; [done|]. by apply page_base. }
  assert (HV1 : vm_ok s1 tabs frames).
  { split; [done|by subst s1|by subst s1|]. eapply vm_maps_mono, HM; try (by subst s1).
    intros g Hg. rewrite Hp1, Hv1, !decide_False by (intros ->; set_solver). split; [set_solver|done]. }
  assert (He1 : pte_of (mm s1) t n = Some e0) by (by subst s1).
  destruct (upd_pte_spec s1 t n (set_addr (pfn_of f)) e0 He1) as (s2 & E2 & HW2). rewrite (bind_Ok _ _ _ _ _ E2).
  assert (He2 := pw_pte _ _ _ _ _ HW2 t n). rewrite decide_True in He2 by done.
  destruct (upd_pte_spec s2 t n (set_pte_valid 1) _ He2) as (s3 & E3 & HW3). rewrite (bind_Ok _ _ _ _ _ E3).
  assert (He3 := pw_pte _ _ _ _ _ HW3 t n). rewrite decide_True in He3 by done.
  destruct (upd_pte_spec s3 t n (set_present 1) _ He3) as (s4 & E4 & HW4). rewrite (bind_Ok _ _ _ _ _ E4).
  assert (HW : pte_write s1 s4 t n (Pte (pfn_of f) 1 1)) by (eapply pte_write_trans, HW4; by eapply pte_write_trans).
  assert (Htab1 : table_of s1 c d = Some t) by (by subst s1).
  assert (HV4 : vm_ok s4 tabs frames) by (by eapply (vm_ok_pte_write s1 s4 tabs frames c d n t f)).
  destruct (pw_eq _ _ _ _ _ HW) as [p4 Eq4].
  destruct (tlb_fill_spec s4 tabs frames c va f random is_refill HV4 Hva Hc) as (s5 & E5 & HV5 & Ho5 & Hf5 & Hi5 & Hh5).
  - eapply owned_mono, Hown. by subst s4.
  - by rewrite Eq4, Eq1.
  - exists s5. split_and!; [exact E5|done| | |done|done].
    + transitivity s1; [subst s1; apply memory_only_mm|]. transitivity s4; [subst s4; apply memory_only_mm|done].
    + intros j e k. rewrite Hf5. erewrite (frame_at_write s1 s4); [|exact HW|apply (vm_inj _ _ _ (vo_maps _ _ _ HV1))|exact Htab1|by rewrite He1].
      case_decide; [done|]. by subst s1.
Qed.

End map.

(** ** TLB exceptions *)

(** The processor raised a TLB exception at the user address [va] while the task [c] ran. *)
Record fault (s : kstate) (c va random is_refill : Z) : Prop := {
  fa_current : current_running s = c;
  fa_block : exists b, (pcb s).[c] = Some b /\ pid b = c /\ cp0_badvaddr (user_regs_context b) = va;
  fa_asid : is_u8 c;
  fa_va : 0 <= va < USER_STACK_TOP_ADDRESS;
  fa_hi : EntryHi s = Z.lor (Z.land va 0xffffe000) c;
  fa_cause : tlb_cause (tlb (mm s)) (EntryHi s) random is_refill
}.

(** The exception is served without swapping: a table is there or free, and the page is in memory,
    or is used for the first time and a frame is free. *)
Definition served (s : kstate) (c va : Z) : Prop :=
  (table_of s c (page_dir_num va) = None -> slist_is_insufficient (pt_pool_slist (mm s)) = Some false) /\
  (frame_at s c (page_dir_num va) (page_table_num va) = None ->
     page_at s c (page_dir_num va) (page_table_num va) = None /\
     slist_is_insufficient (pm_slist (mm s)) = Some false).

Lemma slist_sufficient l n free : slist_rep l n free -> slist_is_insufficient l = Some false <-> free <> [].
Proof.
  intros H. destruct (chain_head _ _ _ (rep_chain _ _ _ H)) as (n0 & H0 & Hc). unfold slist_is_insufficient.
  rewrite H0. cbn. rewrite Hc. destruct free as [|i free]; [by split|].
  pose proof (rep_range _ _ _ H i ltac:(set_solver)). rewrite (proj2 (Z.eqb_neq i 0)) by lia. done.
Qed.

(** The page of [va] is mapped, the access hits, and no other page changed. *)
Record mapped (s s' : kstate) (c va a : Z) : Prop := {
  ma_phys : phys s' c va = Some a;
  ma_hit : tlb_phys (tlb (mm s')) c va = Some a;
  ma_same : phys s c va = None \/ phys s c va = Some a;
  ma_other j e k : (j, e, k) <> (c, page_dir_num va, page_table_num va) -> frame_at s' j e k = frame_at s j e k;
  ma_hi : EntryHi s' = EntryHi s;
  ma_only : memory_only c s s'
}.

Lemma user_indices va : 0 <= va < USER_STACK_TOP_ADDRESS ->
  is_u32 va /\ 0 <= page_dir_num va < PDE_NUMBER /\ 0 <= page_table_num va < PTE_NUMBER.
Proof.
  unfold USER_STACK_TOP_ADDRESS, PDE_NUMBER, PTE_NUMBER. rewrite page_dir_num_eq, page_table_num_eq.
  unfold is_u32, vpn2. lia.
Qed.

Lemma pde_of_is_Some s i d b : vm_sizes s -> (pcb s).[i] = Some b -> 0 <= d < PDE_NUMBER -> is_Some (pde_of (pcb s) i d).
Proof.
  intros Hsz Hb Hd. unfold pde_of. rewrite Hb. cbn. apply aget_is_Some. by rewrite (vs_dir _ Hsz i b).
Qed.

Lemma pte_of_is_Some s tabs frames i d t n : vm_ok s tabs frames -> table_of s i d = Some t -> 0 <= n < PTE_NUMBER ->
  is_Some (pte_of (mm s) t n).
Proof.
  intros HV Ht Hn. destruct (vm_table _ _ _ (vo_maps _ _ _ HV) _ _ _ Ht) as [Hr _].
  destruct (aget_is_Some (page_table_pool (mm s)) t) as [l Hl]; [by rewrite (vs_pool _ (vo_sizes _ _ _ HV))|].
  unfold pte_of. rewrite Hl. cbn. apply aget_is_Some. by rewrite (vs_table _ (vo_sizes _ _ _ HV) t l).
Qed.

(** The table of the page, found or allocated. *)
Lemma find_table_spec s tabs frames d : vm_ok s tabs frames ->
  is_Some (pde_of (pcb s) (current_running s) d) -> (table_of s (current_running s) d = None -> tabs <> []) ->
  exists t s' tabs', find_table d s = Ok (t, s') /\ table_found s frames d t s' tabs'.
Proof.
  intros HV Hd Hno. destruct (table_of s (current_running s) d) as [t|] eqn:Ht.
  - destruct (find_table_old s tabs frames d HV t Ht) as [E H]. by exists t, s, tabs.
  - destruct tabs as [|t tabs']; [by destruct Hno|].
    destruct (find_table_alloc s (t :: tabs') frames d HV Hd t tabs' Ht eq_refl) as (s' & E & H).
    by exists (t - 1), s', tabs'.
Qed.

Lemma phys_frame s c va p : frame_at s c (page_dir_num va) (page_table_num va) = Some p ->
  phys s c va = Some (p * 4096 + Z.land va 0x1fff).
Proof. unfold phys. by intros ->. Qed.

Section helper.
Context (s : kstate) (tabs frames : list Z) (c va random is_refill : Z) (k : list kframe).
Hypothesis (HV : vm_ok s tabs frames) (HF : fault s c va random is_refill) (HS : served s c va).

(** A page used for the first time, once its table is found. *)
Lemma serve_new s1 tabs1 t e : table_found s frames (page_dir_num va) t s1 tabs1 ->
  pte_of (mm s1) t (page_table_num va) = Some e -> page_at s c (page_dir_num va) (page_table_num va) = None ->
  exists f s2 s' frames', pm_alloc s1 = Ok (f, s2) /\ f <> -1 /\
    tlb_map t (page_table_num va) va f random (EntryHi s) is_refill s2 = Ok (tt, s') /\
    vm_ok s' tabs1 frames' /\ mapped s s' c va (pfn_of f * 4096 + Z.land va 0x1fff).
Proof.
  destruct HF as [Hcur (b & Hb & Hpid & Hbad) Hc Hr Hhi Hcause]. destruct HS as [_ Hfr].
  intros HT He Hpage. unfold table_found in HT. rewrite Hcur in HT. rewrite Hhi in *.
  destruct HT as (HV1 & Hcur1 & Hm1 & Ht1 & Htlb1 & Hpm1 & Hf1 & Hp1).
  assert (Hno : frame_at s c (page_dir_num va) (page_table_num va) = None) by (unfold frame_at; by rewrite Hpage).
  destruct (Hfr Hno) as [_ Hne%(slist_sufficient _ _ _ (vo_frames _ _ _ HV))]. destruct frames as [|g frames']; [done|]. clear Hne Hfr.
  destruct HV1 as [Hsz1 Hta1 Hfr1 HM1]. destruct (slist_alloc_cons _ _ _ _ Hfr1) as (l' & El & Hl').
  pose proof (rep_range _ _ _ Hfr1 g ltac:(set_solver)) as Hg. pose proof (rep_nodup _ _ _ Hfr1) as [Hgn _]%NoDup_cons.
  unfold PM_SLIST_SIZE in Hg. set (s2 := set_mm (set_pm_slist l' (mm s1)) s1).
  assert (E2 : pm_alloc s1 = Ok (g - 1, s2)).
  { unfold pm_alloc. erewrite bind_Ok by (apply mm_slist_Ok; exact El).
    rewrite s32_id by (unfold is_s32; lia). done. }
  destruct Hm1 as [(fd & m1 & hi1 & Eq1 & Hfd)].
  destruct (Hfd b) as [pd Eb]. destruct (user_indices va Hr) as (Hva & _ & _).
  destruct (tlb_map_spec s2 tabs1 frames' c va (g - 1) t random is_refill (fd b)) as (s' & E' & HV' & Hm' & Hf' & Hi' & Hh');
    try done.
  - by destruct Hsz1.
  - replace (g - 1 + 1) with g by lia. destruct HM1 as [H1 H2 H3 H4]. split; try done.
    + intros i d n p (f & ? & Hf)%H3. exists f. split; [done|by eapply owned_mono, Hf].
    + intros i x Hx%H4. by eapply entry_ok_mono, Hx.
  - unfold PM_SLIST_SIZE. lia.
  - by replace (g - 1 + 1) with g by lia.
  - cbn. rewrite Eq1. cbn. rewrite aget_alter, decide_True, Hb by (done || unfold is_u8 in Hc; lia). done.
  - by rewrite Eb.
  - cbn. by rewrite Htlb1.
  - exists (g - 1), s2, s', frames'. split_and!; [done|lia|done|done|]. split.
    + apply phys_frame. by rewrite Hf', decide_True.
    + done.
    + left. unfold phys. by rewrite Hno.
    + intros j e' n Hjn. rewrite Hf', decide_False by naive_solver. apply Hf1.
    + congruence.
    + transitivity s1; [split; eauto 8|]. transitivity s2; [apply memory_only_mm|done].
Qed.

(** A page that is in memory. *)
Lemma serve_present s1 tabs1 t e : table_found s frames (page_dir_num va) t s1 tabs1 ->
  pte_of (mm s1) t (page_table_num va) = Some e -> frame_at s c (page_dir_num va) (page_table_num va) = Some (addr e) ->
  exists s', tlb_load random t (page_table_num va) (EntryHi s) is_refill s1 = Ok (tt, s') /\
    vm_ok s' tabs1 frames /\ mapped s s' c va (addr e * 4096 + Z.land va 0x1fff).
Proof.
  destruct HF as [Hcur _ Hc Hr Hhi Hcause]. intros HT He Hframe. unfold table_found in HT. rewrite Hcur in HT. rewrite Hhi in *.
  destruct HT as (HV1 & Hcur1 & Hm1 & Ht1 & Htlb1 & Hpm1 & Hf1 & Hp1). destruct (user_indices va Hr) as (Hva & _ & _).
  assert (Hframe1 := Hframe). rewrite <- Hf1 in Hframe1.
  destruct (vm_map _ _ _ (vo_maps _ _ _ HV1) _ _ _ _ Hframe1) as (f & Ef & Hown).
  destruct (tlb_fill_spec s1 tabs1 frames c va f random is_refill HV1 Hva Hc Hown) as (s' & E' & HV' & Hm' & Hf' & Hi' & Hh');
    [by rewrite Htlb1|].
  exists s'. unfold tlb_load. rewrite (bind_Ok _ _ _ _ _ (pte_at_Ok _ _ _ _ He)), Ef. split_and!; [done|done|]. split.
  - apply phys_frame. by rewrite Hf', Hframe1, Ef.
  - done.
  - right. apply phys_frame. by rewrite Hframe, Ef.
  - intros j e' n _. by rewrite Hf'.
  - congruence.
  - by transitivity s1.
Qed.

Lemma helper_serves : exists s' tabs' frames' a,
  TLB_exception_helper random is_refill k s = Ok (Return, s') /\ vm_ok s' tabs' frames' /\ mapped s s' c va a.
Proof.
  pose proof HF as [Hcur (b & Hb & Hpid & Hbad) Hc Hr Hhi Hcause]. destruct HS as [Htabs Hfr].
  destruct (user_indices va Hr) as (Hva & Hd & Hn).
  unfold TLB_exception_helper. rewrite bind_get, Hcur, (bind_Ok _ _ _ _ _ (pcb_at_Ok _ _ _ Hb)), bind_get, Hbad.
  destruct (find_table_spec s tabs frames (page_dir_num va) HV) as (t & s1 & tabs1 & E1 & HT);
    [rewrite Hcur; by eapply pde_of_is_Some; [apply HV|..]
    |rewrite Hcur; intros Hno; by apply (slist_sufficient _ _ _ (vo_tabs _ _ _ HV)), Htabs|].
  rewrite (bind_Ok _ _ _ _ _ E1). assert (HT' := HT). unfold table_found in HT'. rewrite Hcur in HT'.
  destruct HT' as (HV1 & _ & _ & Ht1 & _ & _ & _ & Hp1).
  destruct (pte_of_is_Some s1 tabs1 frames c _ t _ HV1 Ht1 Hn) as [e He].
  rewrite (bind_Ok _ _ _ _ _ (pte_at_Ok _ _ _ _ He)).
  assert (Hpage : page_at s c (page_dir_num va) (page_table_num va) = if pte_valid e =? 0 then None else Some e).
  { rewrite <- Hp1. unfold page_at. rewrite Ht1. cbn. by rewrite He. }
  destruct (pte_valid e =? 0) eqn:Hv.
  - destruct (serve_new s1 tabs1 t e HT He Hpage) as (f & s2 & s' & frames' & E2 & Hf & E' & HV' & HM').
    rewrite (bind_Ok _ _ _ _ _ E2), (proj2 (Z.eqb_neq _ _) Hf), (bind_Ok _ _ _ _ _ E'). eauto 8.
  - destruct (present e =? 0) eqn:Hpr.
    { destruct Hfr as [Hfr _]; [unfold frame_at; rewrite Hpage; cbn; by rewrite Hpr|]. congruence. }
    destruct (serve_present s1 tabs1 t e HT He) as (s' & E' & HV' & HM').
    { unfold frame_at. rewrite Hpage. cbn. by rewrite Hpr. }
    rewrite (bind_Ok _ _ _ _ _ E'). eauto 8.
Qed.

End helper.
