(* ===== verification/SchedSpec.v ===== *)
(** What the operations of [Sched] do: each is a change of the lists of the queues, of named fields
    of named blocks, and of nothing else. *)

From S2P Require Import Prelude Slist Kernel Queue Sched.

(** ** Vocabulary *)

(** The first item of [xs] that satisfies [f], with what stands before and after it. *)
Fixpoint split_first (f : Z -> bool) (xs : list Z) : option (list Z * Z * list Z) :=
  match xs with
  | [] => None
  | i :: xs =>
      if f i then Some ([], i, xs)
      else '(l, j, r) ← split_first f xs; Some (i :: l, j, r)
  end.

(** The sleeper [i] is due. *)
Definition due (s : kstate) (i : Z) : bool :=
  match (pcb s).[i] with Some b => awakened_time b <=? time_elapsed s | None => false end.

(** What [do_unblock_one] and [do_unblock_all] do to the block they wake. *)
Definition wake (b : pcb_t) : pcb_t :=
  set_status TASK_READY (set_queue (Some ReadyQueue) (raise_priority (set_wait_time 0 b))).

Fixpoint wake_all (xs : list Z) (P : list pcb_t) : list pcb_t :=
  match xs with [] => P | i :: xs => wake_all xs (alter wake (Z.to_nat i) P) end.

(** [n] runs of an operation. *)
Fixpoint times (n : nat) (m : M unit) : M unit :=
  match n with O => mret tt | S n => m;; times n m end.

Fixpoint sum_of (f : Z -> Z) (xs : list Z) : Z :=
  match xs with [] => 0 | i :: xs => f i + sum_of f xs end.

(** What the choices depend on. *)
Definition keys (b : pcb_t) : Z * Z * Z := (priority b, scheduler_priority b, wait_time b).

(** How far the task [i] is from being picked: the priority the ready tasks have to lose, and the
    tasks that have waited as long. *)
Definition potential (pr wt : Z -> Z) (i : Z) (xs : list Z) : Z :=
  sum_of (fun j => pr j - 1 + b2z (wt i <=? wt j)) xs.

(** The outcome of [do_scheduler] called with [k] left to run, [xs] being ready. *)
Definition scheduled (k : list kframe) (s : kstate) (xs : list Z) (o : result (ctl * kstate)) : Prop :=
  let s1 := set_pcb (alter (set_kernel_context k) (Z.to_nat (current_running s)) (pcb s)) s in
  (xs = [] /\ o = Panic "no task to run.") \/
  exists c b, chosen (sp_of (pcb s)) (wait_of (pcb s)) xs c /\
    (switched_pcbs s1 xs c).[c] = Some b /\ o = Ok (Switch, switched s1 xs c b).

(** ** Moving tasks between queues *)

(** [qrep] is about the blocks and the queues. *)
Lemma qrep_ext s s' Q : pcb s' = pcb s -> queues s' = queues s -> qrep s Q -> qrep s' Q.
Proof. intros E1 E2 [Hq Hl Hn Hd]. split; rewrite ?E1, ?E2; done. Qed.

(** A change of fields that are not links. *)
Lemma qrep_alter s Q i f :
  0 <= i -> (forall b, links (f b) = links b) -> qrep s Q ->
  qrep (set_pcb (alter f (Z.to_nat i) (pcb s)) s) Q.
Proof. intros Hi Hf [Hq Hl Hn Hd]. split; [done| |done|done]. intros q xs HQ. by apply dseg_alter, (Hl q). Qed.

Lemma fmap_alter {A B} (f : A -> B) (g : A -> A) (h : B -> B) n (l : list A) :
  (forall x, f (g x) = h (f x)) -> f <$> alter g n l = alter h n (f <$> l).
Proof.
  intros H. apply list_eq. intros j. destruct (decide (n = j)) as [->|].
  - rewrite list_lookup_fmap, !list_lookup_alter_eq, list_lookup_fmap.
    destruct (l !! j); cbn; [by rewrite H|done].
  - by rewrite list_lookup_fmap, !list_lookup_alter_ne, list_lookup_fmap.
Qed.

Lemma links_only_alter s s' n f :
  (forall b, unlink (f b) = f (unlink b)) -> links_only s s' ->
  links_only (set_pcb (alter f n (pcb s)) s) (set_pcb (alter f n (pcb s')) s').
Proof.
  intros Hf [H1 H2]. split; [done|]. cbn. rewrite !(fmap_alter unlink f f) by done. by rewrite H2.
Qed.

Lemma links_only_is_Some s s' i : links_only s s' -> is_Some ((pcb s).[i]) -> is_Some ((pcb s').[i]).
Proof.
  intros H%(fun H => links_only_lookup s s' i H). destruct ((pcb s).[i]), ((pcb s').[i]); cbn in H; naive_solver.
Qed.

Lemma links_only_current s s' : links_only s s' -> current_running s' = current_running s.
Proof. intros [H _]. exact (f_equal current_running H). Qed.

Lemma unqueued_remove Q q l i r :
  (forall q1 q2 xs ys j, Q !! q1 = Some xs -> Q !! q2 = Some ys -> j ∈ xs -> j ∈ ys -> q1 = q2) ->
  NoDup (l ++ i :: r) -> Q !! q = Some (l ++ i :: r) -> unqueued (<[q := l ++ r]> Q) i.
Proof.
  intros Hd Hnd HQ q' xs. rewrite lookup_insert. case_decide as E; intros Hx Hi; simplify_eq.
  - apply NoDup_app in Hnd as (_ & Hl & Hr). apply NoDup_cons in Hr as [Hr _].
    apply elem_of_app in Hi as [Hi|Hi]; [|done]. by apply (Hl i Hi), elem_of_cons; left.
  - apply E. apply (Hd q q' _ xs i HQ Hx); [set_solver|done].
Qed.

(** Taking [i] out of the queue [q] and appending it to [q']. *)
Lemma move_ok s Q q q' l i r ys :
  qrep s Q -> Q !! q = Some (l ++ i :: r) -> Q !! q' = Some ys -> q <> q' ->
  exists s', (forall B (k : unit -> M B), (queue_remove q i ≫= fun _ => queue_push q' i ≫= k) s = k tt s') /\
    qrep s' (<[q' := ys ++ [i]]> (<[q := l ++ r]> Q)) /\ links_only s s'.
Proof.
  intros HR HQ HQ' Hne.
  destruct (queue_remove_spec s Q q i l r HR HQ) as (s1 & E1 & HR1 & L1).
  assert (Hi : is_Some ((pcb s1).[i])).
  { apply (links_only_is_Some s); [done|]. destruct (qrep_elem s Q q _ i HR HQ) as [b Hb]; [set_solver|eauto]. }
  destruct (queue_push_spec s1 _ q' ys i HR1) as (s2 & E2 & HR2 & L2).
  - by rewrite lookup_insert_ne.
  - apply unqueued_remove; [apply (qrep_disjoint _ _ HR)|by apply (qrep_nodup _ _ HR q)|done].
  - done.
  - exists s2. split; [intros B k; by rewrite (bind_Ok _ _ _ _ _ E1), (bind_Ok _ _ _ _ _ E2)|].
    split; [done|by transitivity s1].
Qed.

(** The moved task's fields, set by [f] and then [g]. *)
Lemma bind_upd_pcb {B} i f (k : unit -> M B) s :
  is_Some ((pcb s).[i]) -> (upd_pcb i f ≫= k) s = k tt (set_pcb (alter f (Z.to_nat i) (pcb s)) s).
Proof. intros H. by apply bind_Ok, upd_pcb_alter. Qed.

Lemma do_wait_moves s Q p q st k l r ys :
  qrep s Q -> Q !! ReadyQueue = Some (l ++ p :: r) -> Q !! q = Some ys -> q <> ReadyQueue ->
  exists s', do_wait p q st k s = do_scheduler k s' /\
    qrep s' (<[q := ys ++ [p]]> (<[ReadyQueue := l ++ r]> Q)) /\
    links_only (set_pcb (alter (fun b => set_status st (set_queue (Some q) b)) (Z.to_nat p) (pcb s)) s) s'.
Proof.
  intros HR HQ HQ' Hne.
  destruct (move_ok s Q ReadyQueue q l p r ys HR HQ HQ') as (s1 & E & HR1 & L1); [done|].
  assert (Hp : is_Some ((pcb s1).[p])).
  { destruct (qrep_elem s Q ReadyQueue _ p HR HQ) as [b Hb]; [set_solver|].
    apply (links_only_is_Some s); eauto. }
  assert (Hp0 : 0 <= p) by (eapply (qrep_nonneg s Q); [done|exact HQ|set_solver]).
  eexists. split.
  { unfold do_wait. rewrite E. rewrite bind_upd_pcb by done. cleanup.
    rewrite bind_upd_pcb by (cleanup; by apply aget_alter_is_Some). cleanup. by rewrite alter_alter. }
  split.
  - by apply (qrep_alter s1).
  - by apply (links_only_alter s s1).
Qed.

(** ** Choosing whom to wake *)

Lemma unblock_loop_spec fuel s pv xs sel mp mw :
  dseg (pcb s) pv xs None -> NoDup xs -> (length xs < fuel)%nat ->
  unblock_loop fuel (first_of xs None) sel mp mw s =
    Ok (pick (prio_at (pcb s)) (wait_of (pcb s)) xs sel mp mw, set_pcb (age xs (pcb s)) s).
Proof.
  revert s pv sel mp mw fuel. induction xs as [|i xs IH]; intros s pv sel mp mw fuel Hseg Hnd Hf;
    destruct fuel as [|fuel]; cbn in Hf; try lia.
  { cbn. unfold mret, M_ret. by destruct s. }
  destruct Hseg as [(b & Hb & Hpv & Hnx) Hseg]. apply NoDup_cons in Hnd as [Hi Hnd].
  assert (Hi0 : 0 <= i) by (apply aget_Some in Hb; lia).
  apply (dseg_alter _ _ _ _ i bump) in Hseg; [|done].
  cbn [unblock_loop first_of]. mstep. cbn [pick age].
  replace (prio_at (pcb s) i) with (priority b) by (unfold prio_at; by rewrite Hb).
  replace (wait_of (pcb s) i) with (wait_time b) by (unfold wait_of; by rewrite Hb).
  assert (Hnext : forall sel mp mw,
    unblock_loop fuel (next (bump b)) sel mp mw (set_pcb (<[Z.to_nat i := bump b]> (pcb s)) s) =
    Ok (pick (prio_at (pcb s)) (wait_of (pcb s)) xs sel mp mw,
        set_pcb (age xs (alter bump (Z.to_nat i) (pcb s))) s)).
  { intros sel1 mp1 mw1. change (next (bump b)) with (next b).
    rewrite Hnx, (insert_alter _ _ b bump Hb), (IH _ (Some i)) by (done || lia).
    cbn [pcb set_pcb]. unfold prio_at. by rewrite (pick_alter (pcb s) i xs _ _ _ priority). }
  repeat (case_match; simplify_eq/=; mrun); apply Hnext.
Qed.

Lemma qrep_age s Q ys :
  (forall i, i ∈ ys -> 0 <= i) -> qrep s Q -> qrep (set_pcb (age ys (pcb s)) s) Q.
Proof.
  intros Hpos HR. revert s HR. induction ys as [|i ys IH]; intros s HR; cbn [age].
  { by destruct s. }
  assert (H : qrep (set_pcb (alter bump (Z.to_nat i) (pcb s)) s) Q) by (apply qrep_alter; [set_solver|done..]).
  apply IH in H; [|set_solver]. exact H.
Qed.

Lemma age_is_Some ys P i : is_Some (P.[i]) -> is_Some ((age ys P).[i]).
Proof. revert P. induction ys as [|j ys IH]; intros P H; cbn; [done|]. by apply IH, aget_alter_is_Some. Qed.

(** [do_unblock_one] on a queue that is not empty. *)
Lemma do_unblock_one_ok s Q q xs ready :
  qrep s Q -> Q !! q = Some xs -> Q !! ReadyQueue = Some ready -> q <> ReadyQueue -> xs <> [] ->
  (forall j, j ∈ xs -> 1 <= prio_at (pcb s) j /\ 0 <= wait_of (pcb s) j) ->
  exists l c r s', xs = l ++ c :: r /\ chosen (prio_at (pcb s)) (wait_of (pcb s)) xs c /\
    do_unblock_one q s = Ok (tt, s') /\
    qrep s' (<[ReadyQueue := ready ++ [c]]> (<[q := l ++ r]> Q)) /\
    links_only (set_pcb (alter wake (Z.to_nat c) (age xs (pcb s))) s) s'.
Proof.
  intros HR HQ HQr Hq Hne Hpos. pose proof (qrep_lookup _ _ _ _ HR HQ) as Hh.
  destruct (pick_chosen (prio_at (pcb s)) (wait_of (pcb s)) xs None Hne Hpos) as (c & Hpick & Hc).
  assert (Hcx : c ∈ xs) by (by eapply chosen_elem).
  destruct (list_elem_of_split _ _ Hcx) as (l & r & E).
  destruct (qrep_elem _ _ _ _ _ HR HQ Hcx) as [b Hb].
  assert (Hc0 : 0 <= c) by (apply aget_Some in Hb; lia).
  exists l, c, r. unfold do_unblock_one.
  rewrite (bind_Ok _ _ _ _ _ (queue_is_empty_spec s Q q xs HR HQ)).
  rewrite bool_decide_eq_false_2 by done. mstep. mstep.
  rewrite (bind_Ok _ _ _ _ _ (unblock_loop_spec (walk_fuel s) s None xs None 1 0 (qrep_links _ _ HR _ _ HQ)
    (qrep_nodup _ _ HR _ _ HQ) ltac:(pose proof (qrep_length _ _ _ _ HR HQ); unfold walk_fuel; lia))).
  rewrite Hpick, bind_deref.
  set (s1 := set_pcb (age xs (pcb s)) s).
  assert (HR1 : qrep s1 Q) by (eapply qrep_age; eauto using qrep_nonneg).
  assert (Hs1 : is_Some ((pcb s1).[c])) by (apply age_is_Some; eauto).
  rewrite bind_upd_pcb by done. rewrite bind_upd_pcb by (by apply aget_alter_is_Some). cleanup. rewrite alter_alter.
  set (s2 := set_pcb _ (set_pcb _ s1)).
  assert (HR2 : qrep s2 Q) by (by apply (qrep_alter s1)). subst xs.
  destruct (move_ok s2 Q q ReadyQueue l c r ready HR2 HQ HQr Hq) as (s3 & E3 & HR3 & L3).
  assert (Hs3 : is_Some ((pcb s3).[c])) by (apply (links_only_is_Some s2); [done|]; by apply aget_alter_is_Some).
  eexists. split; [done|]. split; [done|]. split.
  { rewrite E3. rewrite bind_upd_pcb by done. cleanup.
    rewrite upd_pcb_alter by (cleanup; by apply aget_alter_is_Some). cleanup. by rewrite alter_alter. }
  split; [by apply (qrep_alter s3)|].
  etransitivity; [|apply (links_only_alter s2 s3 _ (fun b => set_status TASK_READY (set_queue (Some ReadyQueue) b))); done].
  unfold s2, s1. cleanup. by rewrite alter_alter.
Qed.

(** ** Waking everybody *)

(** Two inserts at different keys, redone. *)
Lemma insert_twice {A} (Q : gmap qref A) q1 q2 a b c d :
  q1 <> q2 -> <[q1 := c]> (<[q2 := d]> (<[q1 := a]> (<[q2 := b]> Q))) = <[q1 := c]> (<[q2 := d]> Q).
Proof. intros H. apply map_eq. intros k. rewrite !lookup_insert. by repeat case_decide. Qed.

(** [queue_dequeue] and [queue_push]: the first item moves to the end of another queue. *)
Lemma dequeue_push_ok s Q q q' i r ys :
  qrep s Q -> Q !! q = Some (i :: r) -> Q !! q' = Some ys -> q <> q' ->
  exists s', (forall B (k : Z -> M B),
      (queue_dequeue q ≫= fun p => queue_push q' p ≫= fun _ => k p) s = k i s') /\
    qrep s' (<[q' := ys ++ [i]]> (<[q := r]> Q)) /\ links_only s s'.
Proof.
  intros HR HQ HQ' Hne.
  destruct (queue_dequeue_spec s Q q i r HR HQ) as (s1 & E1 & HR1 & L1).
  destruct (queue_push_spec s1 (<[q := r]> Q) q' ys i HR1) as (s2 & E2 & HR2 & L2).
  - by rewrite lookup_insert_ne.
  - apply (unqueued_remove Q q [] i r); [apply (qrep_disjoint _ _ HR)|by apply (qrep_nodup _ _ HR q)|done].
  - apply (links_only_is_Some s); [done|]. destruct (qrep_elem s Q q _ i HR HQ) as [b Hb]; [set_solver|eauto].
  - exists s2. split; [intros B k; by rewrite (bind_Ok _ _ _ _ _ E1), (bind_Ok _ _ _ _ _ E2)|].
    split; [done|by transitivity s1].
Qed.

Lemma links_only_wake_all xs s s' :
  links_only s s' -> links_only (set_pcb (wake_all xs (pcb s)) s) (set_pcb (wake_all xs (pcb s')) s').
Proof.
  revert s s'. induction xs as [|i xs IH]; intros s s' H; cbn [wake_all]; [by destruct s, s'|].
  apply (links_only_alter _ _ (Z.to_nat i) wake) in H; [|done]. by apply IH in H.
Qed.

Lemma unblock_all_loop_ok xs : forall s Q q ready fuel,
  qrep s Q -> Q !! q = Some xs -> Q !! ReadyQueue = Some ready -> q <> ReadyQueue ->
  (length xs < fuel)%nat ->
  exists s', unblock_all_loop fuel q s = Ok (tt, s') /\
    qrep s' (<[ReadyQueue := ready ++ xs]> (<[q := []]> Q)) /\
    links_only (set_pcb (wake_all xs (pcb s)) s) s'.
Proof.
  induction xs as [|i xs IH]; intros s Q q ready fuel HR HQ HQr Hne Hf; destruct fuel as [|fuel];
    cbn in Hf; try lia; cbn [unblock_all_loop];
    rewrite (bind_Ok _ _ _ _ _ (queue_is_empty_spec s Q q _ HR HQ)).
  - rewrite bool_decide_eq_true_2 by done. exists s. split; [done|]. split; [|by destruct s].
    by rewrite app_nil_r, (insert_id Q q []), (insert_id Q ReadyQueue).
  - rewrite bool_decide_eq_false_2 by done.
    assert (Hi0 : 0 <= i) by (eapply (qrep_nonneg s Q); [done|exact HQ|set_solver]).
    destruct (qrep_elem s Q q _ i HR HQ) as [b Hb]; [set_solver|].
    edestruct (dequeue_push_ok s Q q ReadyQueue i xs ready) as (s1 & E1 & HR1 & L1); [done..|].
    rewrite (E1 unit). assert (Hi : is_Some ((pcb s1).[i])) by (apply (links_only_is_Some s); eauto).
    do 4 (rewrite bind_upd_pcb by (cleanup; by repeat apply aget_alter_is_Some); cleanup). rewrite !alter_alter.
    set (s2 := set_pcb _ _).
    assert (HR2 : qrep s2 (<[ReadyQueue := ready ++ [i]]> (<[q := xs]> Q))) by (by apply (qrep_alter s1)).
    assert (HQ2 : <[ReadyQueue := ready ++ [i]]> (<[q := xs]> Q) !! q = Some xs)
      by (by rewrite lookup_insert_ne, lookup_insert_eq).
    destruct (IH s2 _ q (ready ++ [i]) fuel HR2 HQ2) as (s3 & E3 & HR3 & L3); [apply lookup_insert_eq|done|lia|].
    exists s3. split; [exact E3|]. split.
    + by rewrite insert_twice, <- app_assoc in HR3.
    + etransitivity; [|exact L3]. cbn [wake_all].
      apply (links_only_alter _ _ (Z.to_nat i) wake) in L1; [|done].
      by apply (links_only_wake_all xs) in L1.
Qed.

Lemma do_unblock_all_ok s Q q xs ready :
  qrep s Q -> Q !! q = Some xs -> Q !! ReadyQueue = Some ready -> q <> ReadyQueue ->
  exists s', do_unblock_all q s = Ok (tt, s') /\
    qrep s' (<[ReadyQueue := ready ++ xs]> (<[q := []]> Q)) /\
    links_only (set_pcb (wake_all xs (pcb s)) s) s'.
Proof.
  intros HR HQ HQr Hne. unfold do_unblock_all. mstep.
  apply unblock_all_loop_ok; [done..|]. pose proof (qrep_length _ _ _ _ HR HQ). unfold walk_fuel. lia.
Qed.

(** ** Waking sleepers *)

Lemma dseg_next s pv l i r nx fuel :
  dseg (pcb s) pv (l ++ i :: r) nx -> (length l < fuel)%nat ->
  (forall j, j ∈ l -> due s j = false) ->
  check_sleeping_loop fuel (first_of (l ++ i :: r) nx) s =
  check_sleeping_loop (fuel - length l) (Some i) s.
Proof.
  revert pv fuel. induction l as [|j l IH]; intros pv fuel Hseg Hf Hd.
  { by rewrite Nat.sub_0_r. }
  destruct fuel as [|fuel]; [cbn in Hf; lia|].
  destruct Hseg as [(b & Hb & _ & Hnx) Hseg]. cbn [app first_of check_sleeping_loop length].
  pose proof (Hd j ltac:(set_solver)) as Hj. unfold due in Hj. rewrite Hb in Hj.
  mstep. unfold get_ticks. mstep. rewrite Hj. mstep. mstep. rewrite Hnx.
  rewrite (IH (Some j)) by (done || (cbn in Hf; lia) || set_solver). done.
Qed.

Lemma check_sleeping_none s pv xs fuel :
  dseg (pcb s) pv xs None -> (length xs < fuel)%nat -> (forall j, j ∈ xs -> due s j = false) ->
  check_sleeping_loop fuel (first_of xs None) s = Ok (tt, s).
Proof.
  destruct (snoc_case xs) as [->|(l & i & ->)]; intros Hseg Hf Hd.
  { by destruct fuel; [cbn in Hf; lia|]. }
  rewrite length_app in Hf. cbn in Hf.
  rewrite (dseg_next s pv l i [] None fuel) by (done || lia || set_solver).
  destruct (dseg_member _ _ _ _ _ _ Hseg) as (b & Hb & _ & Hnx).
  pose proof (Hd i ltac:(set_solver)) as Hi. unfold due in Hi. rewrite Hb in Hi.
  destruct (fuel - length l)%nat as [|f] eqn:E; [lia|]. cbn [check_sleeping_loop].
  mstep. unfold get_ticks. mstep. rewrite Hi. mstep. mstep. rewrite Hnx. by destruct f; [lia|].
Qed.

Lemma split_first_Some f xs l i r :
  split_first f xs = Some (l, i, r) -> xs = l ++ i :: r /\ f i = true /\ forall j, j ∈ l -> f j = false.
Proof.
  revert l. induction xs as [|j xs IH]; intros l; cbn; [done|].
  destruct (f j) eqn:Hj.
  - intros E. simplify_eq/=. split_and!; [done|done|set_solver].
  - destruct (split_first f xs) as [[[l' k] r']|] eqn:E; cbn; intros E'; simplify_eq.
    destruct (IH l' eq_refl) as (-> & ? & ?). split_and!; [done|done|set_solver].
Qed.

Lemma split_first_None f xs j : split_first f xs = None -> j ∈ xs -> f j = false.
Proof.
  induction xs as [|i xs IH]; cbn; [set_solver|].
  destruct (f i) eqn:Hi; [done|]. destruct (split_first f xs) as [[[? ?] ?]|]; [done|]. set_solver.
Qed.

(** The block that [queue_push] appended is the end of its queue. *)
Lemma qrep_last_next s Q q xs i :
  qrep s Q -> Q !! q = Some (xs ++ [i]) -> exists b, (pcb s).[i] = Some b /\ next b = None.
Proof.
  intros HR HQ. destruct (dseg_member _ _ _ _ _ _ (qrep_links _ _ HR _ _ HQ)) as (b & Hb & _ & Hnx). eauto.
Qed.

(** [check_sleeping]: the first sleeper that is due moves to the ready queue, and the walk ends
    there, since its [next] is then [NULL]. *)
Lemma check_sleeping_ok s Q xs ready :
  qrep s Q -> Q !! SleepQueue = Some xs -> Q !! ReadyQueue = Some ready ->
  is_Some ((pcb s).[current_running s]) ->
  match split_first (due s) xs with
  | None => check_sleeping s = Ok (tt, s)
  | Some (l, i, r) =>
      exists s', check_sleeping s = Ok (tt, s') /\
        qrep s' (<[ReadyQueue := ready ++ [i]]> (<[SleepQueue := l ++ r]> Q)) /\
        links_only (set_pcb (alter (set_status TASK_READY) (Z.to_nat (current_running s))
          (alter (set_queue (Some ReadyQueue)) (Z.to_nat i) (pcb s))) s) s'
  end.
Proof.
  intros HR HQ HQr Hcur. pose proof (qrep_lookup _ _ _ _ HR HQ) as Hq.
  pose proof (qrep_links _ _ HR _ _ HQ) as Hseg. pose proof (qrep_length _ _ _ _ HR HQ) as Hlen.
  unfold check_sleeping. destruct (split_first (due s) xs) as [[[l i] r]|] eqn:Hsp.
  2: { mstep. mstep. apply (check_sleeping_none s None); [done|unfold walk_fuel; lia|].
    intros j. by apply split_first_None. }
  apply split_first_Some in Hsp as (-> & Hi & Hl). mstep. mstep.
  rewrite length_app in Hlen. cbn in Hlen.
  rewrite (dseg_next s None l i r None _ Hseg) by (done || (unfold walk_fuel; lia)).
  destruct (walk_fuel s - length l)%nat as [|[|fuel]] eqn:Ef; [unfold walk_fuel in Ef; lia..|].
  destruct (dseg_member _ _ _ _ _ _ Hseg) as (b & Hb & _ & _). unfold due in Hi. rewrite Hb in Hi.
  assert (Hi0 : 0 <= i) by (apply aget_Some in Hb; lia).
  assert (Hc0 : 0 <= current_running s) by (destruct Hcur as [? ?%aget_Some]; lia).
  cbn [check_sleeping_loop]. mstep. unfold get_ticks. mstep. rewrite Hi.
  destruct (move_ok s Q SleepQueue ReadyQueue l i r ready HR HQ HQr) as (s1 & E1 & HR1 & L1); [done|].
  assert (Hc1 : current_running s1 = current_running s) by (by apply links_only_current).
  assert (Hi1 : is_Some ((pcb s1).[i])) by (apply (links_only_is_Some s); eauto).
  assert (Hcs1 : is_Some ((pcb s1).[current_running s])) by (by apply (links_only_is_Some s)).
  set (s2 := set_pcb (alter (set_status TASK_READY) (Z.to_nat (current_running s))
    (alter (set_queue (Some ReadyQueue)) (Z.to_nat i) (pcb s1))) s1).
  assert (HR2 : qrep s2 (<[ReadyQueue := ready ++ [i]]> (<[SleepQueue := l ++ r]> Q))).
  { apply (qrep_alter s1 _ i (set_queue (Some ReadyQueue))) in HR1; [|done..].
    by apply (qrep_alter _ _ (current_running s) (set_status TASK_READY)) in HR1. }
  destruct (qrep_last_next s2 _ ReadyQueue ready i HR2) as (b2 & Hb2 & Hnx); [apply lookup_insert_eq|].
  exists s2. split; [|split; [done|]].
  - rewrite (bind_Ok _ _ _ tt s2).
    2: { rewrite E1, bind_upd_pcb by done. unfold upd_current. mstep.
         rewrite Hc1, upd_pcb_alter by (by apply aget_alter_is_Some). done. }
    mstep. by rewrite Hnx.
  - apply (links_only_alter _ _ (Z.to_nat i) (set_queue (Some ReadyQueue))) in L1; [|done].
    by apply (links_only_alter _ _ (Z.to_nat (current_running s)) (set_status TASK_READY)) in L1.
Qed.

(** ** Rounds of scheduling *)

Lemma chosen_max pr wt xs c i :
  chosen pr wt xs c -> i ∈ xs -> i <> c -> pr i <= pr c /\ (pr i = pr c -> wt i <= wt c).
Proof.
  unfold chosen, reaches. intros (l & r & -> & Hl & Hr) [Hi|[Hi|Hi]%elem_of_cons]%elem_of_app Hne; [|done|].
  - specialize (Hl i Hi). lia.
  - specialize (Hr i Hi). lia.
Qed.

Lemma sum_of_nonneg f xs : (forall j, j ∈ xs -> 0 <= f j) -> 0 <= sum_of f xs.
Proof. induction xs as [|i xs IH]; intros H; cbn; [done|]. pose proof (H i ltac:(set_solver)). pose proof (IH ltac:(set_solver)). lia. Qed.

Lemma sum_of_le f g xs : (forall j, j ∈ xs -> f j <= g j) -> sum_of f xs <= sum_of g xs.
Proof.
  induction xs as [|i xs IH]; intros H; cbn; [done|].
  pose proof (H i ltac:(set_solver)). pose proof (IH ltac:(set_solver)). lia.
Qed.

Lemma sum_of_lt f g xs c :
  (forall j, j ∈ xs -> f j <= g j) -> c ∈ xs -> f c < g c -> sum_of f xs < sum_of g xs.
Proof.
  intros H (l & r & ->)%list_elem_of_split Hc. induction l as [|i l IH]; cbn.
  - pose proof (sum_of_le f g r ltac:(set_solver)). lia.
  - pose proof (H i ltac:(set_solver)). pose proof (IH ltac:(set_solver)). lia.
Qed.

Lemma sum_of_ge f xs i : (forall j, j ∈ xs -> 0 <= f j) -> i ∈ xs -> f i <= sum_of f xs.
Proof.
  intros H (l & r & ->)%list_elem_of_split. induction l as [|k l IH]; cbn.
  - pose proof (sum_of_nonneg f r ltac:(set_solver)). lia.
  - pose proof (H k ltac:(set_solver)). pose proof (IH ltac:(set_solver)). lia.
Qed.

(** What a call of [scheduler] does to the keys. *)
Lemma switched_keys s Q xs c j :
  qrep s Q -> Q !! ReadyQueue = Some xs -> c ∈ xs -> 0 <= current_running s -> j ∈ xs ->
  sp_of (switched_pcbs s xs c) j =
    (if decide (j = c /\ 1 < sp_of (pcb s) j) then sp_of (pcb s) j - 1 else sp_of (pcb s) j) /\
  wait_of (switched_pcbs s xs c) j = (if decide (j = c) then 0 else s32 (wait_of (pcb s) j + 1)).
Proof.
  intros HR HQ Hc Hcur Hj. destruct (qrep_elem _ _ _ _ _ HR HQ Hj) as [b Hb].
  unfold sp_of, wait_of. rewrite switched_lookup by eauto using qrep_nonneg, qrep_nodup.
  rewrite Hb. cbn [fmap option_fmap option_map]. rewrite (decide_True (P := j ∈ xs)) by done.
  destruct (park_fields (screen_cursor_x s) (screen_cursor_y s) b) as (_ & Esp & Ewt & _).
  destruct (decide (j = current_running s)) as [_|_], (decide (j = c)) as [->|Hjc];
    cbn; rewrite ?Esp, ?Ewt; (split; [|done]); unfold decay; cbn; rewrite ?Esp.
  all: repeat case_decide; repeat case_cmp; cbn; rewrite ?Esp; lia.
Qed.

Lemma qrep_switched s Q xs c b :
  0 <= current_running s -> (forall i, i ∈ xs -> 0 <= i) -> 0 <= c -> qrep s Q -> qrep (switched s xs c b) Q.
Proof.
  intros Hcur Hpos Hc HR.
  apply (qrep_alter s Q (current_running s) (park (screen_cursor_x s) (screen_cursor_y s))) in HR;
    [|done|intros; apply park_fields].
  apply (qrep_age _ _ xs Hpos) in HR. apply (qrep_alter _ _ c dispatch) in HR; [by eapply qrep_ext, HR|done|].
  intros b'. unfold dispatch, decay. by case_cmp.
Qed.

Lemma potential_step s Q xs c i :
  qrep s Q -> Q !! ReadyQueue = Some xs -> chosen (sp_of (pcb s)) (wait_of (pcb s)) xs c ->
  0 <= current_running s -> i ∈ xs -> i <> c ->
  (forall j, j ∈ xs -> 1 <= sp_of (pcb s) j /\ 0 <= wait_of (pcb s) j < 2147483647) ->
  potential (sp_of (switched_pcbs s xs c)) (wait_of (switched_pcbs s xs c)) i xs
    < potential (sp_of (pcb s)) (wait_of (pcb s)) i xs.
Proof.
  intros HR HQ Hc Hcur Hi Hne Hpos. pose proof (chosen_elem _ _ _ _ Hc) as Hcx.
  pose proof (chosen_max _ _ _ _ i Hc Hi Hne) as Hmax.
  assert (Hs : forall j, j ∈ xs -> s32 (wait_of (pcb s) j + 1) = wait_of (pcb s) j + 1).
  { intros j Hj. apply s32_id. specialize (Hpos j Hj). unfold is_s32. lia. }
  destruct (switched_keys s Q xs c i HR HQ Hcx Hcur Hi) as [_ Ei].
  rewrite decide_False, Hs in Ei by done.
  apply (sum_of_lt _ _ _ c); [|done|].
  - intros j Hj. destruct (switched_keys s Q xs c j HR HQ Hcx Hcur Hj) as [-> ->].
    rewrite Ei, (Hs j Hj). pose proof (Hpos i Hi). pose proof (Hpos j Hj).
    repeat case_decide; repeat case_cmp; cbn; lia.
  - destruct (switched_keys s Q xs c c HR HQ Hcx Hcur Hcx) as [-> ->].
    rewrite Ei. pose proof (Hpos i Hi). pose proof (Hpos c Hcx).
    repeat case_decide; repeat case_cmp; cbn; lia.
Qed.

(** A task whose potential is [m] at most is picked within [m] rounds. *)
Lemma times_scheduler_picks m : forall s Q xs i,
  qrep s Q -> Q !! ReadyQueue = Some xs -> i ∈ xs -> is_Some ((pcb s).[current_running s]) ->
  (forall j, j ∈ xs -> 1 <= sp_of (pcb s) j /\ 0 <= wait_of (pcb s) j /\
     wait_of (pcb s) j + Z.of_nat m < 2147483648) ->
  potential (sp_of (pcb s)) (wait_of (pcb s)) i xs <= Z.of_nat m ->
  exists n s', (1 <= n <= m)%nat /\ times n scheduler s = Ok (tt, s') /\ current_running s' = i.
Proof.
  induction m as [|m IH]; intros s Q xs i HR HQ Hi Hcur Hpos Hm.
  { exfalso. pose proof (Hpos i Hi).
    assert (Hge : sp_of (pcb s) i - 1 + b2z (wait_of (pcb s) i <=? wait_of (pcb s) i) <=
      potential (sp_of (pcb s)) (wait_of (pcb s)) i xs).
    { apply (sum_of_ge (fun j => sp_of (pcb s) j - 1 +
        b2z (wait_of (pcb s) i <=? wait_of (pcb s) j))); [|done].
      intros j Hj. pose proof (Hpos j Hj). case_cmp; cbn; lia. }
    rewrite Z.leb_refl in Hge. cbn in *. lia. }
  assert (Hc0 : 0 <= current_running s) by (destruct Hcur as [? ?%aget_Some]; lia).
  destruct (scheduler_ok s Q xs) as (c & b & Hc & Hb & E); [done|done|intros ->; by apply not_elem_of_nil in Hi| |done|].
  { intros j Hj. specialize (Hpos j Hj). lia. }
  pose proof (chosen_elem _ _ _ _ Hc) as Hcx.
  destruct (decide (i = c)) as [->|Hne].
  { exists 1%nat. eexists. split; [lia|]. split; [cbn [times]; by rewrite (bind_Ok _ _ _ _ _ E)|done]. }
  destruct (IH (switched s xs c b) Q xs i) as (n & s' & Hn & E' & Hs'); [|done|done|cbn; eauto| | |].
  - apply qrep_switched; eauto using qrep_nonneg.
  - intros j Hj. destruct (switched_keys s Q xs c j HR HQ Hcx Hc0 Hj) as [E1 E2].
    change (pcb (switched s xs c b)) with (switched_pcbs s xs c). rewrite E1, E2.
    specialize (Hpos j Hj). rewrite s32_id by (unfold is_s32; lia). repeat case_decide; lia.
  - enough (potential (sp_of (switched_pcbs s xs c)) (wait_of (switched_pcbs s xs c)) i xs
      < potential (sp_of (pcb s)) (wait_of (pcb s)) i xs) by (change (pcb (switched s xs c b)) with (switched_pcbs s xs c); lia).
    apply (potential_step s Q); [done..|]. intros j Hj. specialize (Hpos j Hj). lia.
  - exists (S n), s'. split; [lia|]. split; [cbn [times]; by rewrite (bind_Ok _ _ _ _ _ E)|done].
Qed.

(** ** [do_scheduler] *)

Lemma links_only_fmap {A} (f : pcb_t -> A) s s' i :
  (forall b, f (unlink b) = f b) -> links_only s s' -> f <$> (pcb s').[i] = f <$> (pcb s).[i].
Proof.
  intros Hf H%(fun H => links_only_lookup s s' i H).
  destruct ((pcb s').[i]) as [b'|], ((pcb s).[i]) as [b|]; cbn in *; try done.
  apply (inj Some) in H. by rewrite <- (Hf b'), <- (Hf b), H.
Qed.

Lemma alter_fmap {A} (f : pcb_t -> A) (g : pcb_t -> pcb_t) P n i :
  (forall b, f (g b) = f b) -> f <$> (alter g n P).[i] = f <$> P.[i].
Proof.
  intros Hf. unfold aget. case_decide; [|done]. destruct (decide (n = Z.to_nat i)) as [->|].
  - rewrite list_lookup_alter_eq. destruct (P !! Z.to_nat i); cbn; [by rewrite Hf|done].
  - by rewrite list_lookup_alter_ne.
Qed.

(** The keys depend on their field only. *)
Lemma keys_ext P P' i :
  keys <$> P'.[i] =
    keys <$> P.[i] ->
  prio_at P' i = prio_at P i /\ sp_of P' i = sp_of P i /\ wait_of P' i = wait_of P i.
Proof.
  unfold prio_at, sp_of, wait_of.
  destruct (P'.[i]), (P.[i]); cbn; intros E; simplify_eq; split_and!; congruence.
Qed.

Lemma chosen_ext pr wt pr' wt' xs c :
  (forall i, i ∈ xs -> pr i = pr' i /\ wt i = wt' i) -> chosen pr wt xs c -> chosen pr' wt' xs c.
Proof.
  intros H (l & r & -> & Hl & Hr). exists l, r. split; [done|].
  assert (Hc := H c ltac:(set_solver)). destruct Hc as [Ec1 Ec2]. split; intros j Hj.
  - destruct (H j) as [E1 E2]; [set_solver|]. specialize (Hl j Hj). unfold reaches in *. lia.
  - destruct (H j) as [E1 E2]; [set_solver|]. specialize (Hr j Hj). unfold reaches in *. lia.
Qed.

Lemma scheduler_empty s Q : qrep s Q -> Q !! ReadyQueue = Some [] -> scheduler s = Panic "no task to run.".
Proof.
  intros HR HQ. unfold scheduler. by rewrite (bind_Ok _ _ _ _ _ (queue_is_empty_spec s Q _ _ HR HQ)).
Qed.

Lemma do_scheduler_ok s Q xs k :
  qrep s Q -> Q !! ReadyQueue = Some xs ->
  (forall j, j ∈ xs -> 1 <= sp_of (pcb s) j /\ 0 <= wait_of (pcb s) j) ->
  is_Some ((pcb s).[current_running s]) -> scheduled k s xs (do_scheduler k s).
Proof.
  intros HR HQ Hpos Hcur. unfold do_scheduler. rewrite bind_upd_current by done.
  assert (Hc0 : 0 <= current_running s) by (destruct Hcur as [? ?%aget_Some]; lia).
  set (s1 := set_pcb _ _). assert (HR1 : qrep s1 Q) by (by apply (qrep_alter s)).
  assert (Hk : forall i, prio_at (pcb s1) i = prio_at (pcb s) i /\ sp_of (pcb s1) i = sp_of (pcb s) i /\
    wait_of (pcb s1) i = wait_of (pcb s) i) by (intros i; apply keys_ext; by apply alter_fmap).
  destruct (decide (xs = [])) as [->|Hne].
  - left. split; [done|]. cbn. unfold mbind, M_bind. by rewrite (scheduler_empty s1 Q).
  - right. destruct (scheduler_ok s1 Q xs) as (c & b & Hc & Hb & E); [done..| |by apply aget_alter_is_Some|].
    { intros j Hj. destruct (Hk j) as (_ & -> & ->). by apply Hpos. }
    exists c, b. split; [|split; [done|by rewrite (bind_Ok _ _ _ _ _ E)]].
    eapply chosen_ext, Hc. intros i _. by destruct (Hk i) as (_ & -> & ->).
Qed.

(** ** Theorems *)

(** C16. [scheduler] runs the ready task with the largest scheduling priority and, among those, one
    that has waited longest (the last of them in the queue); it ages every ready task by one, resets
    the wait of the chosen one and lowers its priority unless that is one already, swaps the cursor,
    loads the address-space id, and leaves the ready queue and everything else as it was. *)
Theorem scheduler_picks_best (s : kstate) (Q : gmap qref (list Z)) (xs : list Z) :
  qrep s Q -> Q !! ReadyQueue = Some xs -> xs <> [] ->
  (forall j, j ∈ xs -> 1 <= sp_of (pcb s) j /\ 0 <= wait_of (pcb s) j) ->
  is_Some ((pcb s).[current_running s]) ->
  exists l c r b, xs = l ++ c :: r /\
    (forall i, i ∈ l -> sp_of (pcb s) i < sp_of (pcb s) c \/
       (sp_of (pcb s) i = sp_of (pcb s) c /\ wait_of (pcb s) i <= wait_of (pcb s) c)) /\
    (forall i, i ∈ r -> sp_of (pcb s) i < sp_of (pcb s) c \/
       (sp_of (pcb s) i = sp_of (pcb s) c /\ wait_of (pcb s) i < wait_of (pcb s) c)) /\
    (switched_pcbs s xs c).[c] = Some b /\
    scheduler s = Ok (tt, switched s xs c b) /\ qrep (switched s xs c b) Q.
Proof.
  intros HR HQ Hne Hpos Hcur.
  destruct (scheduler_ok s Q xs HR HQ Hne Hpos Hcur) as (c & b & Hc & Hb & E).
  pose proof (qrep_nonneg _ _ _ _ c HR HQ (chosen_elem _ _ _ _ Hc)) as Hc0.
  destruct Hc as (l & r & -> & Hl & Hr). exists l, c, r, b. unfold reaches in *.
  split_and!; [done| | |done|done|].
  - intros i Hi. specialize (Hl i Hi). lia.
  - intros i Hi. specialize (Hr i Hi). lia.
  - apply qrep_switched; [destruct Hcur as [? ?%aget_Some]; lia|eauto using qrep_nonneg|done|done].
Qed.

(** C8. No ready task starves: while the ready queue keeps the same tasks, a task [i] of it is
    running after at most as many calls of [scheduler] as there are ready tasks plus the priority
    they have above one in all. *)
Theorem scheduler_no_starvation (s : kstate) (Q : gmap qref (list Z)) (xs : list Z) (i : Z) :
  let bound := sum_of (fun j => sp_of (pcb s) j - 1) xs + Z.of_nat (length xs) in
  qrep s Q -> Q !! ReadyQueue = Some xs -> i ∈ xs -> is_Some ((pcb s).[current_running s]) ->
  (forall j, j ∈ xs -> 1 <= sp_of (pcb s) j /\ 0 <= wait_of (pcb s) j < 2147483648 - bound) ->
  exists n s', 1 <= Z.of_nat n <= bound /\ times n scheduler s = Ok (tt, s') /\ current_running s' = i.
Proof.
  intros bound HR HQ Hi Hcur Hpos.
  assert (Hb : potential (sp_of (pcb s)) (wait_of (pcb s)) i xs <= bound).
  { unfold potential, bound. clear. induction xs as [|j xs IH]; cbn [sum_of length]; [lia|].
    case_cmp; cbn [b2z] in *; lia. }
  assert (H0 : 0 <= bound).
  { unfold bound. pose proof (sum_of_nonneg (fun j => sp_of (pcb s) j - 1) xs) as Hn.
    enough (0 <= sum_of (fun j => sp_of (pcb s) j - 1) xs) by lia.
    apply Hn. intros j Hj. specialize (Hpos j Hj). lia. }
  destruct (times_scheduler_picks (Z.to_nat bound) s Q xs i HR HQ Hi Hcur) as (n & s' & Hn & E & Hs');
    [|lia|exists n, s'; split; [lia|done]].
  intros j Hj. specialize (Hpos j Hj). lia.
Qed.

(** C35. [do_wait] takes the running task off the ready queue, appends it to the queue it waits on
    with that queue and its new status recorded, saves what it has left to run and schedules among
    the others; when no other task is ready the kernel panics. *)
Theorem do_wait_parks (s : kstate) (Q : gmap qref (list Z)) (q : qref) (st : task_status_t)
    (k : list kframe) (l r ys : list Z) :
  qrep s Q -> Q !! ReadyQueue = Some (l ++ current_running s :: r) -> Q !! q = Some ys ->
  q <> ReadyQueue ->
  (forall j, j ∈ l ++ r -> 1 <= sp_of (pcb s) j /\ 0 <= wait_of (pcb s) j) ->
  exists s1, qrep s1 (<[q := ys ++ [current_running s]]> (<[ReadyQueue := l ++ r]> Q)) /\
    links_only (set_pcb (alter (fun b => set_status st (set_queue (Some q) b))
      (Z.to_nat (current_running s)) (pcb s)) s) s1 /\
    scheduled k s1 (l ++ r) (do_wait (current_running s) q st k s).
Proof.
  intros HR HQ HQ' Hne Hpos.
  destruct (do_wait_moves s Q (current_running s) q st k l r ys HR HQ HQ' Hne) as (s1 & E & HR1 & L1).
  exists s1. split_and!; [done|done|]. rewrite E.
  assert (Hk : forall i, sp_of (pcb s1) i = sp_of (pcb s) i /\ wait_of (pcb s1) i = wait_of (pcb s) i).
  { intros i. apply keys_ext. rewrite (links_only_fmap keys _ _ i (fun _ => eq_refl) L1). by apply alter_fmap. }
  apply (do_scheduler_ok s1 _ (l ++ r) k HR1).
  - by rewrite lookup_insert_ne, lookup_insert_eq.
  - intros j Hj. destruct (Hk j) as [-> ->]. by apply Hpos.
  - rewrite (links_only_current _ _ L1). apply (links_only_is_Some _ _ _ L1). apply aget_alter_is_Some. cbn.
    destruct (qrep_elem s Q ReadyQueue _ (current_running s) HR HQ) as [b Hb]; [set_solver|eauto].
Qed.

(** C36. [do_unblock_one] wakes, of the tasks blocked on a queue, the one of largest priority that
    has waited longest: it moves to the end of the ready queue, ready, its wait reset and its
    scheduling priority raised by one, and the waits of those blocked grow by one; on an empty
    queue nothing happens. *)
Theorem do_unblock_one_wakes_best (s : kstate) (Q : gmap qref (list Z)) (q : qref) (xs ready : list Z) :
  qrep s Q -> Q !! q = Some xs -> Q !! ReadyQueue = Some ready -> q <> ReadyQueue ->
  (forall j, j ∈ xs -> 1 <= prio_at (pcb s) j /\ 0 <= wait_of (pcb s) j) ->
  (xs = [] /\ do_unblock_one q s = Ok (tt, s)) \/
  exists l c r s', xs = l ++ c :: r /\
    (forall i, i ∈ xs -> prio_at (pcb s) i < prio_at (pcb s) c \/
       (prio_at (pcb s) i = prio_at (pcb s) c /\ wait_of (pcb s) i <= wait_of (pcb s) c)) /\
    do_unblock_one q s = Ok (tt, s') /\
    qrep s' (<[ReadyQueue := ready ++ [c]]> (<[q := l ++ r]> Q)) /\
    links_only (set_pcb (alter wake (Z.to_nat c) (age xs (pcb s))) s) s'.
Proof.
  intros HR HQ HQr Hne Hpos. destruct (decide (xs = [])) as [->|Hxs].
  - left. split; [done|]. unfold do_unblock_one.
    by rewrite (bind_Ok _ _ _ _ _ (queue_is_empty_spec s Q q [] HR HQ)).
  - right. destruct (do_unblock_one_ok s Q q xs ready HR HQ HQr Hne Hxs Hpos) as (l & c & r & s' & -> & Hc & H).
    exists l, c, r, s'. split; [done|]. split; [|done]. intros i Hi.
    destruct (decide (i = c)) as [->|Hic]; [lia|]. pose proof (chosen_max _ _ _ _ i Hc Hi Hic). lia.
Qed.

(** [do_unblock_all] wakes every task blocked on a queue, in order: they are appended to the
    ready queue and the blocked queue is left empty. *)
Theorem do_unblock_all_wakes_all (s : kstate) (Q : gmap qref (list Z)) (q : qref) (xs ready : list Z) :
  qrep s Q -> Q !! q = Some xs -> Q !! ReadyQueue = Some ready -> q <> ReadyQueue ->
  exists s', do_unblock_all q s = Ok (tt, s') /\
    qrep s' (<[ReadyQueue := ready ++ xs]> (<[q := []]> Q)) /\
    links_only (set_pcb (wake_all xs (pcb s)) s) s'.
Proof. apply do_unblock_all_ok. Qed.

(** A timer tick wakes at most one sleeper: with no sleeper due [check_sleeping] changes
    nothing; otherwise the first that is due moves to the ready queue, every later one stays asleep
    even if it is due, and the status set to ready is the running task's, not the woken one's. *)
Theorem check_sleeping_wakes_one (s : kstate) (Q : gmap qref (list Z)) (xs ready : list Z) :
  qrep s Q -> Q !! SleepQueue = Some xs -> Q !! ReadyQueue = Some ready ->
  is_Some ((pcb s).[current_running s]) ->
  match split_first (due s) xs with
  | None => check_sleeping s = Ok (tt, s)
  | Some (l, i, r) =>
      exists s', check_sleeping s = Ok (tt, s') /\
        qrep s' (<[ReadyQueue := ready ++ [i]]> (<[SleepQueue := l ++ r]> Q)) /\
        links_only (set_pcb (alter (set_status TASK_READY) (Z.to_nat (current_running s))
          (alter (set_queue (Some ReadyQueue)) (Z.to_nat i) (pcb s))) s) s'
  end.
Proof. apply check_sleeping_ok. Qed.
