(* ===== verification/KernelInv.v ===== *)
(** The invariant of the task table: every live task is in exactly one queue, the one its block
    names, with sane keys; and each operation of [Sched] and [Sync] keeps it, faults never, and
    stops only in the panic of a scheduler without a ready task.

    [kernel_ok K s Q free] is the invariant, [K] bounding the waits and scheduling priorities (they
    grow by a bounded amount in each operation, and overflow is out of reach below [2^31]). It says
    nothing of which task is running; [running s Q] does. *)

From S2P Require Import Prelude Slist Kernel Queue Sched Sync SchedSpec.

(** ** The invariant *)

(** The block of the task [i], which is in the queue [q]. *)
Record block_ok (K : Z) (q : qref) (i : Z) (b : pcb_t) : Prop := {
  bo_queue : queue b = Some q;
  bo_pid : pid b = i;
  bo_priority : 1 <= priority b;
  bo_sp : 1 <= scheduler_priority b <= K;
  bo_wait : 0 <= wait_time b <= K
}.

Record tasks_ok (K : Z) (Q : gmap qref (list Z)) (free : list Z) (P : list pcb_t) : Prop := {
  to_length : length P = 16%nat;
  to_queued q xs i : Q !! q = Some xs -> i ∈ xs ->
    (1 <= i < MAX_TASK_NUM /\ i ∉ free) /\ exists b, P.[i] = Some b /\ block_ok K q i b;
  to_live i : 1 <= i < MAX_TASK_NUM -> i ∉ free -> exists q xs, Q !! q = Some xs /\ i ∈ xs
}.

(** The queues the kernel itself uses exist. *)
Record queues_ok (s : kstate) (Q : gmap qref (list Z)) (free : list Z) : Prop := {
  qo_ready : is_Some (Q !! ReadyQueue);
  qo_sleep : is_Some (Q !! SleepQueue);
  qo_recv : is_Some (Q !! RecvBlockQueue);
  qo_wait i : 1 <= i < MAX_TASK_NUM -> i ∉ free -> is_Some (Q !! WaitQueue i);
  qo_locks i : 0 <= i < MAX_LOCKS_NUM -> is_Some (mutexes s !! Locks i);
  qo_lock_queues l : is_Some (mutexes s !! l) -> is_Some (Q !! LockQueue l);
  qo_sem_queues x : is_Some (semaphores s !! x) -> is_Some (Q !! SemQueue x);
  qo_cond_queues x : is_Some (conditions s !! x) -> is_Some (Q !! CondQueue x);
  qo_barrier_queues x : is_Some (barriers s !! x) -> is_Some (Q !! BarrierQueue x)
}.

Record kernel_ok (K : Z) (s : kstate) (Q : gmap qref (list Z)) (free : list Z) : Prop := {
  ko_qrep : qrep s Q;
  ko_pids : slist_rep (pid_list s) MAX_TASK_NUM free;
  ko_tasks : tasks_ok K Q free (pcb s);
  ko_queues : queues_ok s Q free
}.

(** The running task is ready. *)
Definition running (s : kstate) (Q : gmap qref (list Z)) : Prop :=
  exists xs, Q !! ReadyQueue = Some xs /\ current_running s ∈ xs.

(** Nobody waits for a task that is gone. *)
Definition no_orphans (Q : gmap qref (list Z)) (free : list Z) : Prop :=
  forall i xs, i ∈ free -> Q !! WaitQueue i = Some xs -> xs = [].

(** The synchronisation objects. *)
Definition objects (s : kstate) := (mutexes s, semaphores s, conditions s, barriers s).

(** An outcome: a panic for want of a ready task, which needs [C], or a state that [R] accepts. *)
Definition outcome {A} (C : Prop) (R : A -> kstate -> Prop) (o : result (A * kstate)) : Prop :=
  (C /\ o = Panic "no task to run.") \/ exists x s', o = Ok (x, s') /\ R x s'.

(** ** The task table *)

Lemma block_ok_mono K K' q i b : K <= K' -> block_ok K q i b -> block_ok K' q i b.
Proof. intros HK [? ? ? ? ?]. split; (done || lia). Qed.

(** A change of blocks that keeps each in its queue. *)
Lemma tasks_ok_map K K' Q free P P' :
  length P' = length P ->
  (forall q xs i b, Q !! q = Some xs -> i ∈ xs -> P.[i] = Some b -> block_ok K q i b ->
     exists b', P'.[i] = Some b' /\ block_ok K' q i b') ->
  tasks_ok K Q free P -> tasks_ok K' Q free P'.
Proof.
  intros Hlen Hmap [Hl Hq Hlive]. split; [congruence| |done].
  intros q xs i HQ Hi. destruct (Hq q xs i HQ Hi) as (Hr & b & Hb & Hok). split; [done|]. by eapply Hmap.
Qed.

(** What [block_ok] reads. *)
Definition core (b : pcb_t) : option qref * Z * Z * Z * Z :=
  (queue b, pid b, priority b, scheduler_priority b, wait_time b).

Lemma block_ok_core K q i b b' : core b' = core b -> block_ok K q i b -> block_ok K q i b'.
Proof. unfold core. intros E [? ? ? ? ?]. split; simplify_eq; (congruence || lia). Qed.

Lemma tasks_ok_core K K' Q free P P' :
  K <= K' -> length P' = length P -> (forall i, core <$> P'.[i] = core <$> P.[i]) ->
  tasks_ok K Q free P -> tasks_ok K' Q free P'.
Proof.
  intros HK Hlen Hcore. apply tasks_ok_map; [done|]. intros q xs i b _ _ Hb Hok.
  specialize (Hcore i). rewrite Hb in Hcore. destruct (P'.[i]) as [b'|]; [|done]. apply (inj Some) in Hcore.
  exists b'. split; [done|]. eapply block_ok_mono, block_ok_core; done.
Qed.

(** Moving one task: [f] records the new queue. *)
Lemma tasks_ok_move K K' Q free P q q' l i r ys f :
  K <= K' -> Q !! q = Some (l ++ i :: r) -> Q !! q' = Some ys -> q <> q' ->
  NoDup (l ++ i :: r) -> (i ∉ ys) -> (forall q2 xs, Q !! q2 = Some xs -> i ∈ xs -> q2 = q) ->
  (forall b, block_ok K q i b -> block_ok K' q' i (f b)) ->
  tasks_ok K Q free P ->
  tasks_ok K' (<[q' := ys ++ [i]]> (<[q := l ++ r]> Q)) free (alter f (Z.to_nat i) P).
Proof.
  intros HK HQ HQ' Hne Hnd Hiys Huniq Hf [Hl Hq Hlive].
  destruct (Hq q _ i HQ) as (Hr & b & Hb & Hok); [set_solver|].
  assert (Hlr : i ∉ l ++ r).
  { apply NoDup_app in Hnd as (_ & Hdl & [Hir _]%NoDup_cons). intros [Hi|Hi]%elem_of_app; [|done].
    apply (Hdl i Hi). set_solver. }
  assert (Hget : forall j b', P.[j] = Some b' -> j <> i -> (alter f (Z.to_nat i) P).[j] = Some b').
  { intros j b' Hj Hji. rewrite aget_alter, decide_False by (done || lia). done. }
  split; [by rewrite length_alter| |].
  - intros q2 xs j. rewrite !lookup_insert. repeat case_decide; intros Hx Hj; simplify_eq.
    + apply elem_of_app in Hj as [Hj|Hj].
      * destruct (Hq q2 ys j HQ' Hj) as (? & b' & Hb' & Hok'). split; [done|].
        exists b'. split; [apply Hget; [done|set_solver]|by eapply block_ok_mono].
      * apply list_elem_of_singleton in Hj as ->. split; [done|]. exists (f b).
        rewrite aget_alter, decide_True, Hb by (done || lia). split; [done|auto].
    + destruct (Hq q2 _ j HQ) as (? & b' & Hb' & Hok'); [set_solver|]. split; [done|].
      exists b'. split; [apply Hget; [done|set_solver]|by eapply block_ok_mono].
    + destruct (Hq q2 _ j Hx Hj) as (? & b' & Hb' & Hok'). split; [done|].
      exists b'. split; [|by eapply block_ok_mono]. apply Hget; [done|]. intros ->.
      by apply (Huniq q2 xs) in Hj.
  - intros j Hj Hjf. destruct (decide (j = i)) as [->|Hji].
    { exists q', (ys ++ [i]). rewrite lookup_insert_eq. split; [done|set_solver]. }
    destruct (Hlive j Hj Hjf) as (q2 & xs & Hx & Hjx).
    destruct (decide (q2 = q')) as [->|]; [|destruct (decide (q2 = q)) as [->|]].
    + exists q', (ys ++ [i]). rewrite lookup_insert_eq. simplify_eq. split; [done|set_solver].
    + exists q, (l ++ r). rewrite lookup_insert_ne, lookup_insert_eq by done. simplify_eq. split; [done|set_solver].
    + exists q2, xs. by rewrite !lookup_insert_ne.
Qed.

(** ** What the operations of the scheduler leave alone *)

(** The two states have the same running task, process ids, synchronisation objects, and [pid]
    fields. *)
Record same_objects (s s' : kstate) : Prop := {
  so_current : current_running s' = current_running s;
  so_pids : pid_list s' = pid_list s;
  so_mutexes : mutexes s' = mutexes s;
  so_semaphores : semaphores s' = semaphores s;
  so_conditions : conditions s' = conditions s;
  so_barriers : barriers s' = barriers s;
  so_pid i : pid <$> (pcb s').[i] = pid <$> (pcb s).[i]
}.

#[global] Instance same_objects_preorder : PreOrder same_objects.
Proof.
  split; [done|]. intros s1 s2 s3 [] []. split; [congruence..|]. intros i. etransitivity; eauto.
Qed.

(** From [Q] to [Q'] tasks only moved to the ready queue. *)
Record woken (Q Q' : gmap qref (list Z)) : Prop := {
  wk_dom q : is_Some (Q !! q) -> is_Some (Q' !! q);
  wk_ready xs : Q !! ReadyQueue = Some xs -> exists ys, Q' !! ReadyQueue = Some (xs ++ ys);
  wk_other q ys : q <> ReadyQueue -> Q' !! q = Some ys -> exists xs, Q !! q = Some xs /\ ys ⊆ xs
}.

(** From [Q] to [Q'], the tasks [ws] leave the queue [q], of which [rest] stays, for the end of the ready
    queue, and are ready in [s']. *)
Record wakes (s' : kstate) (Q Q' : gmap qref (list Z)) (q : qref) (ws rest : list Z) : Prop := {
  wa_ready xs : Q !! ReadyQueue = Some xs -> Q' !! ReadyQueue = Some (xs ++ ws);
  wa_rest : Q' !! q = Some rest;
  wa_blocks i : i ∈ ws -> exists b, (pcb s').[i] = Some b /\ status b = TASK_READY /\ queue b = Some ReadyQueue;
  wa_other q2 : q2 <> q -> q2 <> ReadyQueue -> Q' !! q2 = Q !! q2
}.

Lemma wakes_nobody s Q q : Q !! q = Some [] -> wakes s Q Q q [] [].
Proof. intros HQ. split; [intros xs ->; by rewrite app_nil_r|done|set_solver|done]. Qed.

#[global] Instance woken_preorder : PreOrder woken.
Proof.
  split.
  - intros Q. split; [done| |].
    + intros xs HQ. exists []. by rewrite app_nil_r.
    + intros q ys _ HQ. by exists ys.
  - intros Q1 Q2 Q3 [A1 B1 C1] [A2 B2 C2]. split; [auto| |].
    + intros xs (ys & (zs & ->)%B2)%B1. exists (ys ++ zs). by rewrite app_assoc.
    + intros q ys Hq (xs & (zs & ? & ?)%C1 & ?)%C2; [|done|done]. exists zs. split; [done|set_solver].
Qed.

Lemma links_only_objects s s' : links_only s s' -> same_objects s s'.
Proof.
  intros HL. pose proof HL as [H _]. split;
    [exact (f_equal current_running H)|exact (f_equal pid_list H)|exact (f_equal mutexes H)
    |exact (f_equal semaphores H)|exact (f_equal conditions H)|exact (f_equal barriers H)|].
  intros i. by apply links_only_fmap.
Qed.

(** What the block of a task that has just been woken says *)
Lemma woken_block P s s' i b : P.[i] = Some (wake b) -> links_only (set_pcb P s) s' ->
  exists b', (pcb s').[i] = Some b' /\ status b' = TASK_READY /\ queue b' = Some ReadyQueue.
Proof.
  intros Hb HL. pose proof (links_only_fmap (fun b => (status b, queue b)) _ _ i (fun _ => eq_refl) HL) as E. cbn [pcb set_pcb] in E.
  rewrite Hb in E. destruct ((pcb s').[i]) as [b'|]; [|done]. injection E as E1 E2. by exists b'.
Qed.

Lemma same_objects_pcb s s' P :
  (forall i, pid <$> P.[i] = pid <$> (pcb s).[i]) -> links_only (set_pcb P s) s' -> same_objects s s'.
Proof. intros Hp HL. transitivity (set_pcb P s); [by split|by apply links_only_objects]. Qed.

Lemma age_fmap {A} (f : pcb_t -> A) xs P i :
  (forall b, f (bump b) = f b) -> f <$> (age xs P).[i] = f <$> P.[i].
Proof. intros Hf. revert P. induction xs as [|j xs IH]; intros P; cbn; [done|]. by rewrite IH, alter_fmap. Qed.

Lemma wake_all_fmap {A} (f : pcb_t -> A) xs P i :
  (forall b, f (wake b) = f b) -> f <$> (wake_all xs P).[i] = f <$> P.[i].
Proof. intros Hf. revert P. induction xs as [|j xs IH]; intros P; cbn; [done|]. by rewrite IH, alter_fmap. Qed.

Lemma length_links_only s s' : links_only s s' -> length (pcb s') = length (pcb s).
Proof. intros [_ H]. apply (f_equal length) in H. by rewrite !length_fmap in H. Qed.

Lemma queues_ok_mono s s' Q Q' free :
  same_objects s s' -> (forall q, is_Some (Q !! q) -> is_Some (Q' !! q)) ->
  queues_ok s Q free -> queues_ok s' Q' free.
Proof.
  intros [_ _ E1 E2 E3 E4 _] Hdom []. split; rewrite ?E1, ?E2, ?E3, ?E4; eauto.
Qed.

(** Assembling the invariant after an operation of the scheduler. *)
Lemma kernel_ok_change K K' s s' Q Q' free P :
  kernel_ok K s Q free -> qrep s' Q' -> links_only (set_pcb P s) s' ->
  (forall q, is_Some (Q !! q) -> is_Some (Q' !! q)) ->
  tasks_ok K' Q' free P -> kernel_ok K' s' Q' free.
Proof.
  intros [_ Hp _ Hq] HR HL Hdom HT.
  pose proof (links_only_objects _ _ HL) as Hs. split; [done| | |].
  - by rewrite (so_pids _ _ Hs).
  - eapply tasks_ok_core, HT; [done|by apply (length_links_only (set_pcb P s))|].
    intros i. by apply (links_only_fmap core (set_pcb P s)).
  - by apply (queues_ok_mono (set_pcb P s) s' Q Q'); [..|by destruct Hq].
Qed.

Lemma dom_insert (Q : gmap qref (list Z)) q xs q2 : is_Some (Q !! q2) -> is_Some (<[q := xs]> Q !! q2).
Proof. rewrite lookup_insert. case_decide; [eauto|done]. Qed.

Lemma woken_move (Q : gmap qref (list Z)) q l i r ready :
  Q !! q = Some (l ++ i :: r) -> Q !! ReadyQueue = Some ready -> q <> ReadyQueue ->
  woken Q (<[ReadyQueue := ready ++ [i]]> (<[q := l ++ r]> Q)).
Proof.
  intros HQ HQr Hne. split.
  - intros q2 Hq2. by apply dom_insert, dom_insert.
  - intros xs H. simplify_eq. exists [i]. by rewrite lookup_insert_eq.
  - intros q2 ys Hq2. rewrite lookup_insert_ne, lookup_insert by done. case_decide; intros Hy; simplify_eq.
    + exists (l ++ i :: r). split; [done|set_solver].
    + by exists ys.
Qed.

(** ** The blocks the operations write *)

Lemma block_ok_bump K q i b : K + 1 < 2147483648 -> block_ok K q i b -> block_ok (K + 1) q i (bump b).
Proof.
  intros HK [? ? ? ? ?]. split; cbn; try (done || lia). rewrite s32_id; unfold is_s32; lia.
Qed.

Lemma block_ok_park K q i x y b : block_ok K q i b -> block_ok K q i (park x y b).
Proof. apply block_ok_core. unfold park, core. cbn. by destruct (status b). Qed.

Lemma block_ok_dispatch K q i b : block_ok K q i b -> block_ok K q i (dispatch b).
Proof. intros [? ? ? ? ?]. unfold dispatch, decay. case_cmp; split; cbn; (done || lia). Qed.

Lemma block_ok_wake K q i b :
  K + 1 < 2147483648 -> block_ok K q i b -> block_ok (K + 1) ReadyQueue i (wake b).
Proof.
  intros HK [? ? ? ? ?]. split; cbn; try (done || lia). rewrite s32_id; unfold is_s32; lia.
Qed.

Lemma block_ok_requeue K q q' i b : block_ok K q i b -> block_ok K q' i (set_queue (Some q') b).
Proof. intros [? ? ? ? ?]. by split. Qed.

Lemma length_age xs P : length (age xs P) = length P.
Proof. revert P. induction xs as [|i xs IH]; intros P; cbn; [done|]. by rewrite IH, length_alter. Qed.

Lemma length_switched_pcbs s xs c : length (switched_pcbs s xs c) = length (pcb s).
Proof. unfold switched_pcbs. by rewrite length_alter, length_age, length_alter. Qed.

Section moves.
Context (K : Z) (s : kstate) (Q : gmap qref (list Z)) (free : list Z).
Hypothesis (HK : kernel_ok K s Q free).

Lemma ko_keys q xs : Q !! q = Some xs ->
  forall j, j ∈ xs -> 1 <= sp_of (pcb s) j /\ 1 <= prio_at (pcb s) j /\ 0 <= wait_of (pcb s) j.
Proof.
  intros HQ j Hj. destruct (to_queued _ _ _ _ (ko_tasks _ _ _ _ HK) q xs j HQ Hj) as (_ & b & Hb & []).
  unfold sp_of, prio_at, wait_of. rewrite Hb. lia.
Qed.

(** The premises of [tasks_ok_move] that hold of any queued task. *)
Lemma move_facts q l i r :
  Q !! q = Some (l ++ i :: r) -> NoDup (l ++ i :: r) /\
  (forall q' ys, Q !! q' = Some ys -> q <> q' -> i ∉ ys) /\
  (forall q2 xs, Q !! q2 = Some xs -> i ∈ xs -> q2 = q).
Proof.
  intros HQ. pose proof (ko_qrep _ _ _ _ HK) as HR. split; [by apply (qrep_nodup _ _ HR q)|]. split.
  - intros q' ys HQ' Hne Hi. apply Hne. apply (qrep_disjoint _ _ HR q q' _ ys i HQ HQ'); [set_solver|done].
  - intros q2 xs Hx Hi. apply (qrep_disjoint _ _ HR q2 q xs _ i Hx HQ Hi). set_solver.
Qed.

Lemma tasks_ok_age q xs :
  K + 1 < 2147483648 -> Q !! q = Some xs -> tasks_ok (K + 1) Q free (age xs (pcb s)).
Proof.
  intros Hb HQ. pose proof (ko_qrep _ _ _ _ HK) as HR.
  eapply tasks_ok_map, (ko_tasks _ _ _ _ HK).
  - apply length_age.
  - intros q2 ys i b HQ2 Hi Hb2 Hok. rewrite age_lookup by eauto using qrep_nodup, qrep_nonneg.
    rewrite Hb2. case_decide; cbn; eexists; (split; [done|]); [by apply block_ok_bump|].
    eapply block_ok_mono; [|done]. lia.
Qed.

(** [do_unblock_one] *)
Lemma kernel_ok_unblock_one q :
  K + 2 < 2147483648 -> is_Some (Q !! q) -> q <> ReadyQueue ->
  exists s' Q', do_unblock_one q s = Ok (tt, s') /\ kernel_ok (K + 2) s' Q' free /\
    same_objects s s' /\ woken Q Q' /\
    (forall xs, Q !! q = Some xs -> exists ws rest, wakes s' Q Q' q ws rest /\
      match xs with
      | [] => ws = [] /\ rest = [] /\ s' = s
      | _ => exists l c r, xs = l ++ c :: r /\ chosen (prio_at (pcb s)) (wait_of (pcb s)) xs c /\ ws = [c] /\ rest = l ++ r
      end).
Proof.
  intros Hb [xs HQ] Hne. pose proof (ko_qrep _ _ _ _ HK) as HR.
  destruct (qo_ready _ _ _ (ko_queues _ _ _ _ HK)) as [ready HQr].
  destruct (decide (xs = [])) as [->|Hxs].
  { exists s, Q. split; [|split; [|split_and!; [done|done|]]].
    3: { intros xs Hx. simplify_eq. exists [], []. split; [by apply wakes_nobody|done]. }
    - unfold do_unblock_one. by rewrite (bind_Ok _ _ _ _ _ (queue_is_empty_spec s Q q [] HR HQ)).
    - destruct HK as [? ? HT ?]. split; [done..| |done]. eapply tasks_ok_core, HT; (done || lia). }
  destruct (do_unblock_one_ok s Q q xs ready HR HQ HQr Hne Hxs) as (l & c & r & s' & -> & Hc & E & HR' & HL).
  { intros j Hj. pose proof (ko_keys q _ HQ j Hj). lia. }
  destruct (move_facts q l c r HQ) as (Hnd & Hny & Hu).
  exists s', (<[ReadyQueue := ready ++ [c]]> (<[q := l ++ r]> Q)). split; [done|].
  assert (Hs : same_objects s s').
  { apply (same_objects_pcb _ _ _) in HL; [done|]. intros j. rewrite alter_fmap by done. by apply age_fmap. }
  split; [|split_and!; [done|by apply woken_move|]].
  2: { intros xs Hx. simplify_eq. exists [c], (l ++ r). split; [|by destruct l as [|z l]; [exists [], c, r|exists (z :: l), c, r]].
    assert (Hc0 : 0 <= c) by (eapply (qrep_nonneg s Q); [done|exact HQ|set_solver]).
    destruct (qrep_elem s Q q _ c HR HQ) as [b0 Hb0]; [set_solver|].
    destruct (age_is_Some (l ++ c :: r) (pcb s) c) as [b1 Hb1]; [by exists b0|].
    split; [intros zs Hzs; simplify_eq; by rewrite lookup_insert_eq|by rewrite lookup_insert_ne, lookup_insert_eq| |intros q2 H1 H2; by rewrite !lookup_insert_ne].
    intros i ->%list_elem_of_singleton. eapply (woken_block _ s s' c b1), HL. by rewrite aget_alter, decide_True, Hb1. }
  eapply kernel_ok_change; [done|done|exact HL|intros q2 Hq2; by apply dom_insert, dom_insert|].
  apply (tasks_ok_move (K + 1)); [lia|done..|by eapply Hny|done| |by apply (tasks_ok_age q); [lia|]].
  intros b. replace (K + 2) with (K + 1 + 1) by lia. apply block_ok_wake. lia.
Qed.

End moves.

Lemma wake_all_lookup xs P j :
  NoDup xs -> (forall i, i ∈ xs -> 0 <= i) ->
  (wake_all xs P).[j] = if decide (j ∈ xs) then wake <$> P.[j] else P.[j].
Proof.
  revert P. induction xs as [|i xs IH]; intros P Hnd Hpos; cbn [wake_all].
  - rewrite decide_False by set_solver. done.
  - apply NoDup_cons in Hnd as [Hi Hnd]. rewrite IH by (done || set_solver).
    rewrite aget_alter by (apply Hpos; set_solver).
    destruct (decide (j = i)) as [->|].
    + by rewrite decide_False, decide_True by set_solver.
    + destruct (decide (j ∈ xs)); [rewrite decide_True by set_solver|rewrite decide_False by set_solver]; done.
Qed.

Lemma length_wake_all xs P : length (wake_all xs P) = length P.
Proof. revert P. induction xs as [|i xs IH]; intros P; cbn; [done|]. by rewrite IH, length_alter. Qed.

Lemma woken_all (Q : gmap qref (list Z)) q xs ready :
  Q !! q = Some xs -> Q !! ReadyQueue = Some ready -> q <> ReadyQueue ->
  woken Q (<[ReadyQueue := ready ++ xs]> (<[q := []]> Q)).
Proof.
  intros HQ HQr Hne. split.
  - intros q2 Hq2. by apply dom_insert, dom_insert.
  - intros zs Hz. simplify_eq. exists xs. by rewrite lookup_insert_eq.
  - intros q2 ys Hq2. rewrite lookup_insert_ne, lookup_insert by done. case_decide; intros Hy; simplify_eq.
    + exists xs. split; [done|set_solver].
    + by exists ys.
Qed.

Section moves_all.
Context (K : Z) (s : kstate) (Q : gmap qref (list Z)) (free : list Z).
Hypothesis (HK : kernel_ok K s Q free).

Lemma tasks_ok_wake_all q xs ready :
  K + 1 < 2147483648 -> Q !! q = Some xs -> Q !! ReadyQueue = Some ready -> q <> ReadyQueue ->
  tasks_ok (K + 1) (<[ReadyQueue := ready ++ xs]> (<[q := []]> Q)) free (wake_all xs (pcb s)).
Proof.
  intros Hb HQ HQr Hne. pose proof (ko_qrep _ _ _ _ HK) as HR.
  destruct (ko_tasks _ _ _ _ HK) as [Hl Hq Hlive].
  assert (Hget : forall j, (wake_all xs (pcb s)).[j] = if decide (j ∈ xs) then wake <$> (pcb s).[j] else (pcb s).[j])
    by (intros j; apply wake_all_lookup; eauto using qrep_nodup, qrep_nonneg).
  assert (Hother : forall q2 zs j, Q !! q2 = Some zs -> q2 <> q -> j ∈ zs ->
    (1 <= j < MAX_TASK_NUM /\ j ∉ free) /\
    exists b, (wake_all xs (pcb s)).[j] = Some b /\ block_ok (K + 1) q2 j b).
  { intros q2 zs j Hz Hq2 Hj. destruct (Hq q2 zs j Hz Hj) as (? & b & Hb' & Hok). split; [done|].
    exists b. rewrite Hget, decide_False; [split; [done|eapply block_ok_mono, Hok; lia]|].
    intros Hjx. apply Hq2. by apply (qrep_disjoint _ _ HR q2 q zs xs j). }
  split; [by rewrite length_wake_all| |].
  - intros q2 zs j. rewrite !lookup_insert. repeat case_decide; intros Hz Hj; simplify_eq; [|set_solver|eauto].
    apply elem_of_app in Hj as [Hj|Hj]; [by apply (Hother ReadyQueue ready)|].
    destruct (Hq q xs j HQ Hj) as (? & b & Hb' & Hok). split; [done|].
    exists (wake b). rewrite Hget, decide_True, Hb' by done. split; [done|]. by apply (block_ok_wake K q).
  - intros j Hj Hjf. destruct (Hlive j Hj Hjf) as (q2 & zs & Hz & Hjz).
    destruct (decide (q2 = ReadyQueue)) as [->|]; [|destruct (decide (q2 = q)) as [->|]].
    + exists ReadyQueue, (ready ++ xs). rewrite lookup_insert_eq. simplify_eq. split; [done|set_solver].
    + exists ReadyQueue, (ready ++ xs). rewrite lookup_insert_eq. simplify_eq. split; [done|set_solver].
    + exists q2, zs. by rewrite !lookup_insert_ne.
Qed.

(** [do_unblock_all] *)
Lemma kernel_ok_unblock_all q :
  K + 1 < 2147483648 -> is_Some (Q !! q) -> q <> ReadyQueue ->
  exists s' Q', do_unblock_all q s = Ok (tt, s') /\ kernel_ok (K + 1) s' Q' free /\
    same_objects s s' /\ woken Q Q' /\ forall xs, Q !! q = Some xs -> wakes s' Q Q' q xs [].
Proof.
  intros Hb [xs HQ] Hne. pose proof (ko_qrep _ _ _ _ HK) as HR.
  destruct (qo_ready _ _ _ (ko_queues _ _ _ _ HK)) as [ready HQr].
  destruct (do_unblock_all_ok s Q q xs ready HR HQ HQr Hne) as (s' & E & HR' & HL).
  exists s', (<[ReadyQueue := ready ++ xs]> (<[q := []]> Q)). split; [done|].
  assert (Hs : same_objects s s').
  { apply (same_objects_pcb _ _ _) in HL; [done|]. intros j. by apply wake_all_fmap. }
  split; [|split_and!; [done|by apply woken_all|]].
  2: { intros zs Hz. simplify_eq. split; [intros ? ?; simplify_eq; by rewrite lookup_insert_eq|
      by rewrite lookup_insert_ne, lookup_insert_eq| |intros q2 H1 H2; by rewrite !lookup_insert_ne].
    intros i Hi. destruct (qrep_elem s Q q _ i HR HQ Hi) as [b0 Hb0]. eapply (woken_block _ s s' i b0), HL.
    rewrite wake_all_lookup by eauto using qrep_nodup, qrep_nonneg. by rewrite decide_True, Hb0. }
  eapply kernel_ok_change; [done|done|exact HL|intros q2 Hq2; by apply dom_insert, dom_insert|].
  by apply tasks_ok_wake_all.
Qed.

(** [check_sleeping] *)
Lemma kernel_ok_check_sleeping :
  is_Some ((pcb s).[current_running s]) ->
  exists s' Q', check_sleeping s = Ok (tt, s') /\ kernel_ok K s' Q' free /\
    same_objects s s' /\ woken Q Q' /\ (Q !! SleepQueue = Some [] -> Q' = Q).
Proof.
  intros Hcur. pose proof (ko_qrep _ _ _ _ HK) as HR.
  destruct (qo_ready _ _ _ (ko_queues _ _ _ _ HK)) as [ready HQr].
  destruct (qo_sleep _ _ _ (ko_queues _ _ _ _ HK)) as [xs HQ].
  pose proof (check_sleeping_ok s Q xs ready HR HQ HQr Hcur) as Hok.
  destruct (split_first (due s) xs) as [[[l i] r]|] eqn:Hsp; [|exists s, Q; by split_and!].
  apply split_first_Some in Hsp as (-> & _). destruct Hok as (s' & E & HR' & HL).
  destruct (move_facts K s Q free HK SleepQueue l i r HQ) as (Hnd & Hny & Hu).
  exists s', (<[ReadyQueue := ready ++ [i]]> (<[SleepQueue := l ++ r]> Q)). split; [done|].
  assert (Hs : same_objects s s').
  { apply (same_objects_pcb _ _ _) in HL; [done|]. intros j. by rewrite !alter_fmap. }
  split; [|split; [done|split; [by apply woken_move|rewrite HQ; by intros [= [_ [=]]%app_eq_nil]]]].
  eapply kernel_ok_change; [done|done|exact HL|intros q2 Hq2; by apply dom_insert, dom_insert|].
  eapply (tasks_ok_core K K); [done| | |
    by eapply (tasks_ok_move K K _ _ _ SleepQueue ReadyQueue l i r ready (set_queue (Some ReadyQueue)));
      [..|by eapply ko_tasks]; eauto using block_ok_requeue].
  - by rewrite !length_alter.
  - intros j. by apply alter_fmap.
Qed.

(** [do_scheduler] *)
Lemma kernel_ok_do_scheduler k :
  K + 1 < 2147483648 -> is_Some ((pcb s).[current_running s]) ->
  outcome (Q !! ReadyQueue = Some [])
    (fun c s' => c = Switch /\ kernel_ok (K + 1) s' Q free /\ running s' Q /\ objects s' = objects s)
    (do_scheduler k s).
Proof.
  intros Hb Hcur. pose proof (ko_qrep _ _ _ _ HK) as HR.
  destruct (qo_ready _ _ _ (ko_queues _ _ _ _ HK)) as [xs HQ].
  assert (Hc0 : 0 <= current_running s) by (destruct Hcur as [? ?%aget_Some]; lia).
  assert (Hpos : forall j, j ∈ xs -> 1 <= sp_of (pcb s) j /\ 0 <= wait_of (pcb s) j).
  { intros j Hj. pose proof (ko_keys K s Q free HK _ _ HQ j Hj). lia. }
  destruct (do_scheduler_ok s Q xs k HR HQ Hpos Hcur) as [[-> E]|(c & b & Hc & Hb' & E)]; [by left|].
  pose proof (chosen_elem _ _ _ _ Hc) as Hcx. right. rewrite E.
  do 2 eexists. split; [done|]. split; [done|]. split; [|by split; [exists xs|]].
  set (s1 := set_pcb (alter (set_kernel_context k) (Z.to_nat (current_running s)) (pcb s)) s) in *.
  assert (HR1 : qrep s1 Q) by (by apply (qrep_alter s)).
  split; [apply qrep_switched; eauto using qrep_nonneg|by apply HK| |].
  2: { by destruct (ko_queues _ _ _ _ HK). }
  assert (HT : tasks_ok K Q free (pcb s1)).
  { apply (tasks_ok_core K K Q free (pcb s)); [done|apply length_alter|intros i; by apply alter_fmap|by apply HK]. }
  eapply tasks_ok_map, HT.
  - apply length_switched_pcbs.
  - intros q ys i b0 HQ2 Hi Hb0 Hok. change (pcb (switched s1 xs c b)) with (switched_pcbs s1 xs c).
    rewrite switched_lookup by eauto using qrep_nodup, qrep_nonneg. rewrite Hb0. cbn. eexists. split; [done|].
    match goal with |- context [if decide (i ∈ xs) then bump ?x else _] => set (b1 := x) end.
    assert (Hok1 : block_ok K q i b1) by (unfold b1; case_decide; [by apply block_ok_park|done]).
    clearbody b1.
    assert (Hok2 : block_ok (K + 1) q i (if decide (i ∈ xs) then bump b1 else b1)).
    { case_decide; [by apply block_ok_bump|]. eapply block_ok_mono; [|done]. lia. }
    destruct (decide (i = c)); [by apply block_ok_dispatch|done].
Qed.


End moves_all.

Lemma outcome_mono {A} (C C' : Prop) (R R' : A -> kstate -> Prop) o :
  (forall x s, R x s -> R' x s) -> (C -> C') -> outcome C R o -> outcome C' R' o.
Proof. intros H HC [[Hc ->]|(x & s & -> & HR)]; [left; auto|right; eauto]. Qed.

(** [do_wait] of the running task *)
Lemma kernel_ok_do_wait K s Q free q st k :
  kernel_ok K s Q free -> K + 1 < 2147483648 -> running s Q -> is_Some (Q !! q) -> q <> ReadyQueue ->
  outcome (Q !! ReadyQueue = Some [current_running s])
    (fun c s' => exists Q', c = Switch /\ kernel_ok (K + 1) s' Q' free /\ running s' Q' /\
      objects s' = objects s /\ (forall ys, Q !! q = Some ys -> Q' !! q = Some (ys ++ [current_running s])) /\
      forall q2 ys, q2 <> q -> q2 <> ReadyQueue -> Q' !! q2 = Some ys -> Q !! q2 = Some ys)
    (do_wait (current_running s) q st k s).
Proof.
  intros HK Hb (xs & HQ & (l & r & ->)%list_elem_of_split) [ys HQ'] Hne.
  pose proof (ko_qrep _ _ _ _ HK) as HR.
  destruct (do_wait_moves s Q (current_running s) q st k l r ys HR HQ HQ' Hne) as (s1 & E & HR1 & HL).
  destruct (move_facts K s Q free HK ReadyQueue l _ r HQ) as (Hnd & Hny & Hu).
  set (Q' := <[q := ys ++ [current_running s]]> (<[ReadyQueue := l ++ r]> Q)) in *.
  assert (HK1 : kernel_ok K s1 Q' free).
  { eapply kernel_ok_change; [done|done|exact HL|intros q2 Hq2; by apply dom_insert, dom_insert|].
    apply (tasks_ok_move K K); [done|done|done|done|done|by eapply Hny|done| |by eapply ko_tasks].
    intros b. by intros [? ? ? ? ?]; split. }
  rewrite E. destruct (to_queued _ _ _ _ (ko_tasks _ _ _ _ HK1) q (ys ++ [current_running s]) (current_running s))
    as (_ & b1 & Hb1 & _); [apply lookup_insert_eq|set_solver|].
  eapply outcome_mono; [| |apply (kernel_ok_do_scheduler K s1 Q' free HK1 k Hb)].
  - intros c s' (-> & HK' & Hrun & Ho). exists Q'. split_and!; [done..| | |].
    + rewrite Ho. pose proof (links_only_objects _ _ HL) as [_ _ E1 E2 E3 E4 _]. unfold objects. cbn in *. congruence.
    + intros zs Hz. simplify_eq. apply lookup_insert_eq.
    + intros q2 zs Hq2 Hr2. unfold Q'. by rewrite !lookup_insert_ne.
  - unfold Q'. rewrite lookup_insert_ne, lookup_insert_eq by done. by intros [= [-> ->]%app_eq_nil].
  - rewrite (links_only_current _ _ HL). eauto.
Qed.

(** ** Updates that the invariant does not see *)

Lemma kernel_ok_upd K s Q free i f :
  (forall b, links (f b) = links b) -> (forall b, core (f b) = core b) -> 0 <= i ->
  kernel_ok K s Q free -> kernel_ok K (set_pcb (alter f (Z.to_nat i) (pcb s)) s) Q free.
Proof.
  intros Hl Hc Hi [HR Hp HT Hq]. split; [by apply qrep_alter|done| |by destruct Hq].
  apply (tasks_ok_core K K Q free (pcb s)); [done|apply length_alter|intros j; by apply alter_fmap|done].
Qed.

Lemma running_block K s Q free : kernel_ok K s Q free -> running s Q -> is_Some ((pcb s).[current_running s]).
Proof. intros HK (xs & HQ & Hi). destruct (qrep_elem _ _ _ _ _ (ko_qrep _ _ _ _ HK) HQ Hi) as [b Hb]. eauto. Qed.

Lemma running_pid K s Q free b :
  kernel_ok K s Q free -> running s Q -> (pcb s).[current_running s] = Some b -> pid b = current_running s.
Proof.
  intros HK (xs & HQ & Hi) Hb. destruct (to_queued _ _ _ _ (ko_tasks _ _ _ _ HK) _ _ _ HQ Hi) as (_ & b' & Hb' & Hok).
  rewrite Hb in Hb'. simplify_eq. by destruct Hok.
Qed.

Lemma kernel_ok_mono K K' s Q free : K <= K' -> kernel_ok K s Q free -> kernel_ok K' s Q free.
Proof.
  intros HK [HR Hp HT Hq]. split; [done|done| |done]. by apply (tasks_ok_core K K' Q free (pcb s)).
Qed.

(** ** Birth *)

Lemma on_pid_list_Ok f s r l : f (pid_list s) = Some (r, l) -> on_pid_list f s = Ok (r, set_pid_list l s).
Proof. intros E. unfold on_pid_list. rewrite bind_get, E. done. Qed.

Lemma tasks_ok_new K Q i free P ready f :
  tasks_ok K Q (i :: free) P -> Q !! ReadyQueue = Some ready -> i ∉ free -> 1 <= i < MAX_TASK_NUM ->
  (forall xs, Q !! WaitQueue i = Some xs -> xs = []) ->
  (forall b, P.[i] = Some b -> block_ok K ReadyQueue i (f b)) ->
  tasks_ok K (<[WaitQueue i := []]> (<[ReadyQueue := ready ++ [i]]> Q)) free (alter f (Z.to_nat i) P).
Proof.
  intros [Hl Hq Hlive] HQr Hif Hi Hw Hf. split; [by rewrite length_alter| |].
  - intros q xs j. rewrite !lookup_insert. intros Hx Hj.
    destruct (decide (j = i)) as [->|Hji].
    { assert (Hqr : q = ReadyQueue).
      { repeat case_decide; simplify_eq; [set_solver|done|].
        destruct (Hq q xs i Hx Hj) as ((_ & Hn) & _). set_solver. }
      subst q. split; [done|]. destruct (aget_is_Some P i) as [b Hb]; [unfold MAX_TASK_NUM in Hi; lia|].
      exists (f b). rewrite aget_alter, decide_True, Hb by (done || lia). auto. }
    assert (Hold : exists ys, Q !! q = Some ys /\ j ∈ ys).
    { repeat case_decide; simplify_eq; [set_solver|exists ready; split; [done|set_solver]|eauto]. }
    destruct Hold as (ys & HQ & Hjy). destruct (Hq q ys j HQ Hjy) as ((? & ?) & b & Hb & Hok).
    split; [set_solver|]. exists b. by rewrite aget_alter, decide_False by (done || lia).
  - intros j Hj Hjf. destruct (decide (j = i)) as [->|Hji].
    { exists ReadyQueue, (ready ++ [i]). rewrite lookup_insert_ne, lookup_insert_eq by done. split; [done|set_solver]. }
    destruct (Hlive j Hj) as (q & xs & HQ & Hjx); [set_solver|].
    destruct (decide (q = WaitQueue i)) as [->|]; [rewrite (Hw xs HQ) in Hjx; set_solver|].
    destruct (decide (q = ReadyQueue)) as [->|].
    + simplify_eq. exists ReadyQueue, (ready ++ [i]). rewrite lookup_insert_ne, lookup_insert_eq by done.
      split; [done|set_solver].
    + exists q, xs. by rewrite !lookup_insert_ne.
Qed.

(** The block [init_pcb] leaves. *)
Definition new_pcb (i : Z) (task : task_info_t) (b : pcb_t) : pcb_t :=
  let b := fill_pcb i task b in
  let b := set_cursor_y 0 (set_cursor_x 0 (set_status TASK_READY (set_queue (Some ReadyQueue) b))) in
  set_page_dir (page_dir_init (page_dir b)) b.

Lemma fill_pcb_links i task b : links (fill_pcb i task b) = links b.
Proof. done. Qed.

Lemma unlink_fill_pcb i task b : unlink (fill_pcb i task b) = fill_pcb i task (unlink b).
Proof. done. Qed.

(** [init_pcb] with a process id to give *)
Lemma init_pcb_ok K s Q i free task ready :
  kernel_ok K s Q (i :: free) -> Q !! ReadyQueue = Some ready ->
  exists s' l', init_pcb task s = Ok (tt, s') /\
    slist_rep l' MAX_TASK_NUM free /\
    qrep s' (<[WaitQueue i := []]> (<[ReadyQueue := ready ++ [i]]> Q)) /\
    links_only (set_pcb (alter (new_pcb i task) (Z.to_nat i) (pcb s)) (set_pid_list l' s)) s'.
Proof.
  intros [HR Hp HT Hq] HQr.
  destruct (slist_alloc_cons _ _ _ _ Hp) as (l' & El & Hp').
  assert (Hi : 1 <= i < MAX_TASK_NUM) by (apply (rep_range _ _ _ Hp); set_solver).
  destruct (aget_is_Some (pcb s) i) as [b Hb]; [rewrite (to_length _ _ _ _ HT); unfold MAX_TASK_NUM in Hi; lia|].
  set (s2 := set_pcb (alter (fill_pcb i task) (Z.to_nat i) (pcb s)) (set_pid_list l' s)).
  assert (HR2 : qrep s2 Q).
  { eapply (qrep_ext (set_pcb (alter (fill_pcb i task) (Z.to_nat i) (pcb s)) s)); [done..|].
    apply qrep_alter; [lia|done|done]. }
  assert (Hb2 : is_Some ((pcb s2).[i])) by (apply aget_alter_is_Some; eauto).
  destruct (queue_push_spec s2 Q ReadyQueue ready i HR2 HQr) as (s3 & E3 & HR3 & L3); [|done|].
  { intros q xs HQ Hx. destruct (to_queued _ _ _ _ HT q xs i HQ Hx) as ((_ & Hn) & _). set_solver. }
  assert (Hb3 : is_Some ((pcb s3).[i])) by (by apply (links_only_is_Some s2)).
  set (g := fun b => set_cursor_y 0 (set_cursor_x 0 (set_status TASK_READY (set_queue (Some ReadyQueue) b)))).
  set (s4 := set_pcb (alter g (Z.to_nat i) (pcb s3)) s3).
  assert (HR4 : qrep s4 (<[ReadyQueue := ready ++ [i]]> Q)) by (apply (qrep_alter s3); [lia|done|done]).
  destruct (queue_init_spec s4 _ (WaitQueue i) HR4) as (s5 & E5 & HR5 & L5).
  assert (Hb5 : is_Some ((pcb s5).[i])) by (apply (links_only_is_Some s4); [done|]; by apply aget_alter_is_Some).
  set (h := fun b => set_page_dir (page_dir_init (page_dir b)) b).
  exists (set_pcb (alter h (Z.to_nat i) (pcb s5)) s5), l'. split; [|split; [done|split]].
  - unfold init_pcb, pid_alloc. rewrite (bind_Ok _ _ _ _ _ (on_pid_list_Ok _ s _ _ El)).
    rewrite (proj2 (Z.eqb_neq i 0)) by lia. rewrite bind_upd_pcb by (cleanup; eauto).
    rewrite (bind_Ok _ _ _ _ _ E3). do 4 (rewrite bind_upd_pcb by (cleanup; by repeat apply aget_alter_is_Some); cleanup).
    rewrite !alter_alter. fold g. fold s4. rewrite (bind_Ok _ _ _ _ _ E5). by rewrite upd_pcb_alter.
  - apply qrep_alter; [lia|done|done].
  - apply (links_only_alter _ _ (Z.to_nat i) g) in L3; [|done]. cbn [pcb set_pcb] in L3.
    assert (L : links_only (set_pcb (alter g (Z.to_nat i) (pcb s2)) s2) s5) by (by etransitivity).
    apply (links_only_alter _ _ (Z.to_nat i) h) in L; [|done]. unfold s2 in L. cbn [pcb set_pcb] in L.
    by rewrite !alter_alter in L.
Qed.

Lemma block_ok_new K i task b :
  1 <= ti_priority task <= K -> block_ok K ReadyQueue i (new_pcb i task b).
Proof. intros H. unfold new_pcb, fill_pcb. split; cbn; (done || lia). Qed.

Lemma kernel_ok_syscall_return K s Q free v :
  kernel_ok K s Q free -> is_Some ((pcb s).[current_running s]) ->
  exists s', syscall_return v s = Ok (tt, s') /\ kernel_ok K s' Q free /\ same_objects s s'.
Proof.
  intros HK Hc. assert (0 <= current_running s) by (destruct Hc as [? ?%aget_Some]; lia).
  eexists. split; [by apply upd_pcb_alter|]. split; [by apply kernel_ok_upd|].
  split; [done..|]. intros i. by apply alter_fmap.
Qed.

(** With a process id to give, the new task is at the end of the ready queue, and its block is [new_pcb]. *)
Lemma kernel_ok_spawn K s Q i free ready task :
  kernel_ok K s Q (i :: free) -> no_orphans Q (i :: free) -> Q !! ReadyQueue = Some ready -> 1 <= ti_priority task <= K ->
  exists s' l', init_pcb task s = Ok (tt, s') /\
    kernel_ok K s' (<[WaitQueue i := []]> (<[ReadyQueue := ready ++ [i]]> Q)) free /\
    no_orphans (<[WaitQueue i := []]> (<[ReadyQueue := ready ++ [i]]> Q)) free /\
    links_only (set_pcb (alter (new_pcb i task) (Z.to_nat i) (pcb s)) (set_pid_list l' s)) s'.
Proof.
  intros HK Hno HQr Ht. destruct (init_pcb_ok K s Q i free task ready HK HQr) as (s' & l' & E & Hp' & HR' & HL).
  pose proof HK as [_ Hp HT Hq].
  assert (Hi : 1 <= i < MAX_TASK_NUM) by (apply (rep_range _ _ _ Hp); set_solver).
  pose proof (rep_nodup _ _ _ Hp) as [Hif _]%NoDup_cons. exists s', l'.
  split; [done|]. pose proof (links_only_objects _ _ HL) as Hs. split; [split|split; [|done]].
  - done.
  - by rewrite (so_pids _ _ Hs).
  - eapply (tasks_ok_core K K _ _ (alter (new_pcb i task) (Z.to_nat i) (pcb s)));
      [done|by apply (length_links_only _ _ HL)|intros j; by apply (links_only_fmap core _ _ j (fun _ => eq_refl) HL)|].
    apply tasks_ok_new; [done|done|done|done| |intros b _; by apply block_ok_new].
    intros xs. apply Hno. set_solver.
  - destruct Hs as [_ _ E1 E2 E3 E4 _]. cbn in E1, E2, E3, E4. destruct Hq as [A1 A2 A9 A3 A4 A5 A6 A7 A8].
    split; rewrite ?E1, ?E2, ?E3, ?E4; intros; try (apply dom_insert, dom_insert; by eauto); [|by eauto].
    destruct (decide (i0 = i)) as [->|]; [by rewrite lookup_insert_eq; eauto|].
    apply dom_insert, dom_insert, A3; [done|set_solver].
  - intros j xs Hj. rewrite lookup_insert. case_decide as Hji; intros HQ; simplify_eq; [done|].
    rewrite lookup_insert_ne in HQ by done. apply (Hno j); [set_solver|done].
Qed.

Lemma kernel_ok_init_pcb K s Q free task :
  kernel_ok K s Q free -> no_orphans Q free -> is_Some ((pcb s).[current_running s]) ->
  1 <= ti_priority task <= K ->
  exists s' Q' free', init_pcb task s = Ok (tt, s') /\ kernel_ok K s' Q' free' /\ no_orphans Q' free' /\
    current_running s' = current_running s /\
    (forall xs, Q !! ReadyQueue = Some xs -> exists ys, Q' !! ReadyQueue = Some (xs ++ ys)).
Proof.
  intros HK Hno Hc Ht. destruct free as [|i free].
  { destruct (kernel_ok_syscall_return K s Q [] 0 HK Hc) as (s' & E & HK' & Hs).
    exists s', Q, []. split; [|split_and!; [done|done|by apply so_current|]].
    - unfold init_pcb, pid_alloc.
      rewrite (bind_Ok _ _ _ _ _ (on_pid_list_Ok _ s _ _ (slist_alloc_nil _ _ (ko_pids _ _ _ _ HK)))).
      by destruct s.
    - intros xs HQ. exists []. by rewrite app_nil_r. }
  destruct (qo_ready _ _ _ (ko_queues _ _ _ _ HK)) as [ready HQr].
  destruct (kernel_ok_spawn K s Q i free ready task HK Hno HQr Ht) as (s' & l' & E & HK' & Hno' & HL).
  eexists s', _, free. split_and!; [done|exact HK'|done|by rewrite (so_current _ _ (links_only_objects _ _ HL))|].
  intros xs HQ. simplify_eq. exists [i]. by rewrite lookup_insert_ne, lookup_insert_eq.
Qed.

(** ** Death *)

(** [kill], its process id given back and its block taken out of its queue *)
Lemma kernel_ok_remove K s Q free i l' q :
  kernel_ok K s Q free -> slist_rep l' MAX_TASK_NUM (i :: free) ->
  1 <= i < MAX_TASK_NUM -> i ∉ free -> (exists b, (pcb s).[i] = Some b /\ queue b = Some q) ->
  exists x s' Q', queue_remove q i (set_pid_list l' s) = Ok (x, s') /\ kernel_ok K s' Q' (i :: free) /\
    current_running s' = current_running s /\ (forall j, pid <$> (pcb s').[j] = pid <$> (pcb s).[j]) /\
    (forall q2, is_Some (Q !! q2) -> is_Some (Q' !! q2)) /\
    (forall q2 ys, Q' !! q2 = Some ys -> exists xs, Q !! q2 = Some xs /\ ys ⊆ xs) /\
    (running s Q -> current_running s <> i -> running s' Q') /\
    (forall xs, Q !! ReadyQueue = Some xs -> Q' !! ReadyQueue = Some [] -> xs ⊆ [i]).
Proof.
  intros HK Hp' Hi Hif (b & Hb & Hbq). pose proof HK as [HR Hp HT Hq].
  destruct (to_live _ _ _ _ HT i Hi Hif) as (q' & xs & HQ & Hix).
  assert (q' = q) as ->.
  { destruct (to_queued _ _ _ _ HT _ _ _ HQ Hix) as (_ & b' & Hb' & Hok). simplify_eq.
    pose proof (bo_queue _ _ _ _ Hok). congruence. }
  destruct (list_elem_of_split _ _ Hix) as (l & r & ->).
  assert (HR1 : qrep (set_pid_list l' s) Q) by (by apply (qrep_ext s)).
  destruct (queue_remove_spec (set_pid_list l' s) Q q i l r HR1 HQ) as (s' & E & HR' & HL).
  destruct (move_facts K s Q free HK q l i r HQ) as (Hnd & Hny & Hu).
  assert (Hlr : i ∉ l ++ r).
  { apply NoDup_app in Hnd as (_ & Hdl & [Hir _]%NoDup_cons). intros [Hil|Hil]%elem_of_app; [|done].
    apply (Hdl i Hil). set_solver. }
  pose proof (links_only_objects _ _ HL) as Hs.
  assert (Hold : forall q2 ys, <[q := l ++ r]> Q !! q2 = Some ys ->
    (i ∉ ys) /\ exists xs, Q !! q2 = Some xs /\ ys ⊆ xs).
  { intros q2 ys. rewrite lookup_insert. case_decide as Hd; intros Hy; simplify_eq.
    - split; [done|]. eexists. split; [done|set_solver].
    - split; [|by exists ys]. intros Hiy. apply Hd. symmetry. by eapply Hu. }
  assert (Hlen : length (pcb s') = 16%nat) by (rewrite (length_links_only _ _ HL); by apply HT).
  eexists _, s', (<[q := l ++ r]> Q). split; [done|]. split; [split|split_and!].
  - done.
  - by rewrite (so_pids _ _ Hs).
  - eapply (tasks_ok_core K K _ _ (pcb s)); [done|by apply (length_links_only _ _ HL)|
      intros j; by apply (links_only_fmap core _ _ j (fun _ => eq_refl) HL)|].
    split; [by apply HT| |].
    + intros q2 ys j HQ2 Hj. destruct (Hold _ _ HQ2) as (Hiy & zs & Hz & Hsub).
      destruct (to_queued _ _ _ _ HT q2 zs j Hz) as ((? & ?) & ?); [set_solver|]. split; [|done]. set_solver.
    + intros j Hj Hjf. destruct (to_live _ _ _ _ HT j Hj) as (q2 & zs & Hz & Hjz); [set_solver|].
      destruct (decide (q2 = q)) as [->|]; [|exists q2, zs; by rewrite lookup_insert_ne].
      exists q, (l ++ r). rewrite lookup_insert_eq. simplify_eq. split; [done|set_solver].
  - destruct Hs as [_ _ E1 E2 E3 E4 _]. cbn in E1, E2, E3, E4. destruct Hq as [A1 A2 A9 A3 A4 A5 A6 A7 A8].
    split; rewrite ?E1, ?E2, ?E3, ?E4; intros; try (apply dom_insert; eauto); [|by eauto]. apply A3; [done|set_solver].
  - apply (so_current _ _ Hs).
  - apply (so_pid _ _ Hs).
  - intros q2. apply dom_insert.
  - intros q2 ys HQ2. by apply Hold.
  - intros (zs & Hz & Hcz) Hne. unfold running. rewrite (so_current _ _ Hs). cbn [current_running set_pid_list].
    destruct (decide (q = ReadyQueue)) as [->|]; [|exists zs; by rewrite lookup_insert_ne].
    exists (l ++ r). rewrite lookup_insert_eq. simplify_eq. split; [done|set_solver].
  - intros zs Hz. rewrite lookup_insert. case_decide as Hq2; [|intros Hz'; simplify_eq; set_solver].
    subst q. rewrite HQ in Hz. by intros [= [-> ->]%app_eq_nil]; simplify_eq.
Qed.

(** *** Synchronisation objects *)

Lemma kernel_ok_put_mutex K s Q free l v :
  is_Some (Q !! LockQueue l) -> kernel_ok K s Q free ->
  kernel_ok K (set_mutexes (<[l := v]> (mutexes s)) s) Q free.
Proof.
  intros Hl [HR Hp HT [A1 A2 A9 A3 A4 A5 A6 A7 A8]]. split; [by apply (qrep_ext s)|done|done|]. split; cbn; try done.
  - intros i Hi. rewrite lookup_insert. case_decide; eauto.
  - intros l'. rewrite lookup_insert. case_decide; subst; eauto.
Qed.

Lemma kernel_ok_put_semaphore K s Q free x v :
  is_Some (Q !! SemQueue x) -> kernel_ok K s Q free ->
  kernel_ok K (set_semaphores (<[x := v]> (semaphores s)) s) Q free.
Proof.
  intros Hl [HR Hp HT [A1 A2 A9 A3 A4 A5 A6 A7 A8]]. split; [by apply (qrep_ext s)|done|done|]. split; cbn; try done.
  intros x'. rewrite lookup_insert. case_decide; subst; eauto.
Qed.

Lemma kernel_ok_put_condition K s Q free x v :
  is_Some (Q !! CondQueue x) -> kernel_ok K s Q free ->
  kernel_ok K (set_conditions (<[x := v]> (conditions s)) s) Q free.
Proof.
  intros Hl [HR Hp HT [A1 A2 A9 A3 A4 A5 A6 A7 A8]]. split; [by apply (qrep_ext s)|done|done|]. split; cbn; try done.
  intros x'. rewrite lookup_insert. case_decide; subst; eauto.
Qed.

Lemma kernel_ok_put_barrier K s Q free x v :
  is_Some (Q !! BarrierQueue x) -> kernel_ok K s Q free ->
  kernel_ok K (set_barriers (<[x := v]> (barriers s)) s) Q free.
Proof.
  intros Hl [HR Hp HT [A1 A2 A9 A3 A4 A5 A6 A7 A8]]. split; [by apply (qrep_ext s)|done|done|]. split; cbn; try done.
  intros x'. rewrite lookup_insert. case_decide; subst; eauto.
Qed.

Lemma mutex_at_Ok l v s : mutexes s !! l = Some v -> mutex_at l s = Ok (v, s).
Proof. unfold mutex_at. by intros ->. Qed.

Lemma kernel_ok_kill_locks pid n : forall i K s Q free,
  kernel_ok K s Q free -> 1 <= pid < MAX_TASK_NUM -> 0 <= i -> i + Z.of_nat n <= MAX_LOCKS_NUM ->
  K + 2 * Z.of_nat n < 2147483648 ->
  exists s' Q', kill_locks_loop n i pid s = Ok (tt, s') /\ kernel_ok (K + 2 * Z.of_nat n) s' Q' free /\
    woken Q Q' /\ current_running s' = current_running s /\
    (forall j, Kernel.pid <$> (pcb s').[j] = Kernel.pid <$> (pcb s).[j]).
Proof.
  induction n as [|n IH]; intros i K s Q free HK Hpid Hi Hin Hb.
  { exists s, Q. rewrite Z.add_0_r. split_and!; done. }
  cbn [kill_locks_loop].
  destruct (aget_is_Some (pcb s) pid) as [b Hb0].
  { rewrite (to_length _ _ _ _ (ko_tasks _ _ _ _ HK)). unfold MAX_TASK_NUM in Hpid. lia. }
  mstep. case_cmp.
  2: { exists s, Q. split; [done|]. split_and!; [|done..]. eapply kernel_ok_mono, HK. lia. }
  pose proof (ko_queues _ _ _ _ HK) as Hq.
  destruct (qo_locks _ _ _ Hq i) as [m Hm]; [lia|]. rewrite (bind_Ok _ _ _ _ _ (mutex_at_Ok _ _ _ Hm)).
  case_cmp.
  2: { rewrite bind_ret. destruct (IH (i + 1) K s Q free) as (s' & Q' & E & HK' & Hw & Hc & Hp); [done|done|lia..|].
    exists s', Q'. split; [done|]. split_and!; try done. eapply kernel_ok_mono, HK'. lia. }
  assert (HLQ : is_Some (Q !! LockQueue (Locks i))) by (eapply qo_lock_queues; eauto).
  destruct (kernel_ok_unblock_one K s Q free HK (LockQueue (Locks i))) as (s1 & Q1 & E1 & HK1 & Hs1 & Hw1 & _);
    [lia|done|done|].
  set (f := fun b => set_lock_num (lock_num b - 1) b).
  assert (Hp1 : is_Some ((pcb s1).[pid])).
  { apply aget_is_Some. rewrite (to_length _ _ _ _ (ko_tasks _ _ _ _ HK1)). unfold MAX_TASK_NUM in Hpid. lia. }
  set (s2 := set_pcb (alter f (Z.to_nat pid) (pcb s1)) s1).
  assert (HK2 : kernel_ok (K + 2) s2 Q1 free) by (apply kernel_ok_upd; (done || lia)).
  set (s3 := set_mutexes (<[Locks i := Mutex UNLOCKED 0]> (mutexes s2)) s2).
  assert (HK3 : kernel_ok (K + 2) s3 Q1 free) by (apply kernel_ok_put_mutex; [by apply Hw1|done]).
  destruct (IH (i + 1) (K + 2) s3 Q1 free) as (s' & Q' & E & HK' & Hw & Hc & Hp); [done|done|lia..|].
  exists s', Q'. split; [|split_and!].
  - rewrite bind_assoc, (bind_Ok _ _ _ _ _ E1), bind_assoc, bind_upd_pcb by done. exact E.
  - eapply kernel_ok_mono, HK'. lia.
  - by transitivity Q1.
  - rewrite Hc. apply (so_current _ _ Hs1).
  - intros j. rewrite Hp. cbn. rewrite alter_fmap by done. apply (so_pid _ _ Hs1).
Qed.

(** ** The invariant of a kernel that runs *)

Definition kinv (K : Z) (s : kstate) : Prop :=
  exists Q free, kernel_ok K s Q free /\ no_orphans Q free /\ running s Q.

Lemma kinv_mono K K' s : K <= K' -> kinv K s -> kinv K' s.
Proof. intros HK (Q & free & H & ?). exists Q, free. split; [by eapply kernel_ok_mono|done]. Qed.

Lemma outcome_Ok {A} C (R : A -> kstate -> Prop) x s' : R x s' -> outcome C R (Ok (x, s')).
Proof. right. eauto. Qed.

Lemma outcome_never {A} C (R : A -> kstate -> Prop) o : outcome False R o -> outcome C R o.
Proof. by apply outcome_mono. Qed.

Lemma kinv_syscall_return K s v {A} (x : A) :
  kinv K s -> outcome False (fun _ s' => kinv K s') ((syscall_return v;; mret x) s).
Proof.
  intros (Q & free & HK & Hno & Hrun).
  destruct (kernel_ok_syscall_return K s Q free v HK) as (s' & E & HK' & Hs); [by eapply running_block|].
  rewrite (bind_Ok _ _ _ _ _ E). apply outcome_Ok. exists Q, free. split_and!; [done|done|].
  unfold running. by rewrite (so_current _ _ Hs).
Qed.

(** The running task stays ready when tasks are woken. *)
Lemma running_woken s s' Q Q' :
  woken Q Q' -> current_running s' = current_running s -> running s Q -> running s' Q'.
Proof.
  intros Hw Hc (xs & HQ & Hi). destruct (wk_ready _ _ Hw xs HQ) as [ys HQ']. exists (xs ++ ys).
  rewrite Hc. split; [done|set_solver].
Qed.

Lemma no_orphans_woken Q Q' free : woken Q Q' -> no_orphans Q free -> no_orphans Q' free.
Proof.
  intros Hw Hno i ys Hi HQ'. destruct (wk_other _ _ Hw (WaitQueue i) ys) as (xs & HQ & Hsub); [done|done|].
  rewrite (Hno i xs Hi HQ) in Hsub. by apply list_nil_subseteq.
Qed.

Lemma wk_empty Q Q' : woken Q Q' -> Q' !! ReadyQueue = Some [] -> is_Some (Q !! ReadyQueue) -> Q !! ReadyQueue = Some [].
Proof. intros Hw E [xs HQ]. destruct (wk_ready _ _ Hw xs HQ) as [ys HQ']. rewrite HQ' in E. by injection E as [-> ->]%app_eq_nil. Qed.

Lemma subset_singleton (xs : list Z) c i : c ∈ xs -> NoDup xs -> xs ⊆ [i] -> xs = [c].
Proof.
  intros Hc Hnd Hsub. assert (c = i) as -> by (specialize (Hsub c Hc); set_solver).
  destruct xs as [|x [|y xs]]; [set_solver| |].
  - assert (x = i) as -> by (specialize (Hsub x); set_solver). done.
  - apply NoDup_cons in Hnd as [Hx _]. assert (x = i /\ y = i) as [-> ->] by (split; [specialize (Hsub x)|specialize (Hsub y)]; set_solver). set_solver.
Qed.

(** The running task is the only one that is ready. *)
Definition alone (s : kstate) : Prop :=
  queues s !! ReadyQueue = Some (Queue (Some (current_running s)) (Some (current_running s))).

Lemma alone_list s Q : qrep s Q -> running s Q -> alone s <-> Q !! ReadyQueue = Some [current_running s].
Proof.
  intros HR (xs & HQ & Hc). unfold alone. rewrite (qrep_lookup _ _ _ _ HR HQ), HQ. split; [|by intros [= ->]].
  intros [= Hf Hl]. f_equal. pose proof (qrep_nodup _ _ HR ReadyQueue _ HQ) as Hnd.
  destruct (snoc_case xs) as [->|(l & i & ->)]; [set_solver|]. rewrite last_of_snoc in Hl. injection Hl as ->.
  destruct l as [|j l]; [done|]. cbn in Hf. injection Hf as ->. apply NoDup_cons in Hnd as [Hn _]. set_solver.
Qed.

Lemma sole_woken Q Q' c : woken Q Q' -> (exists xs, Q !! ReadyQueue = Some xs /\ c ∈ xs) ->
  Q' !! ReadyQueue = Some [c] -> Q !! ReadyQueue = Some [c].
Proof.
  intros Hw (xs & HQ & Hx). destruct (wk_ready _ _ Hw xs HQ) as [ys ->]. rewrite HQ. intros [= E].
  apply app_eq_unit in E as [[-> ->]|[-> ->]]; [set_solver|done].
Qed.

Lemma alone_woken s s' Q Q' : qrep s Q -> qrep s' Q' -> woken Q Q' -> current_running s' = current_running s -> running s Q ->
  alone s' -> alone s.
Proof.
  intros HR HR' Hw Hc Hrun. rewrite (alone_list s Q), (alone_list s' Q') by (done || by eapply running_woken).
  rewrite Hc. by apply sole_woken.
Qed.

(** [kill] of a live task other than 1, from the point where its process id is given back *)
Lemma kinv_kill_live K s Q free i l' k :
  kernel_ok K s Q free -> no_orphans Q free -> running s Q -> K + 40 < 2147483648 ->
  1 <= i < MAX_TASK_NUM -> i ∉ free -> slist_rep l' MAX_TASK_NUM (i :: free) ->
  outcome (Q !! ReadyQueue = Some [current_running s]) (fun _ s' => kinv (K + 40) s')
    ((b ← pcb_at i;
      q ← lift (queue b);
      queue_remove q i;;
      kill_locks_loop (Z.to_nat MAX_LOCKS_NUM) 0 i;;
      do_unblock_all (WaitQueue i);;
      c ← get current_running;
      cb ← pcb_at c;
      if pid cb =? i then do_scheduler (KKillReturn :: k)
      else syscall_return 1;; mret Return) (set_pid_list l' s)).
Proof.
  intros HK Hno Hrun Hb Hi Hif Hp'.
  destruct (to_live _ _ _ _ (ko_tasks _ _ _ _ HK) i Hi Hif) as (q & xs & HQ & Hix).
  destruct (to_queued _ _ _ _ (ko_tasks _ _ _ _ HK) _ _ _ HQ Hix) as (_ & b & Hbi & Hok).
  assert (Hbq : queue b = Some q) by (by destruct Hok).
  destruct (kernel_ok_remove K s Q free i l' q HK Hp' Hi Hif) as
    (x & s1 & Q1 & E1 & HK1 & Hc1 & Hpid1 & Hdom1 & Hsub1 & Hrun1 & Halone); [by exists b|].
  erewrite bind_Ok by (apply pcb_at_Ok; exact Hbi). rewrite Hbq. cbn [lift]. rewrite bind_ret, (bind_Ok _ _ _ _ _ E1).
  destruct (kernel_ok_kill_locks i (Z.to_nat MAX_LOCKS_NUM) 0 K s1 Q1 (i :: free) HK1) as
    (s2 & Q2 & E2 & HK2 & Hw2 & Hc2 & Hpid2); [done|done|unfold MAX_LOCKS_NUM; lia..|].
  rewrite (Z2Nat.id MAX_LOCKS_NUM) in HK2 by done. rewrite (bind_Ok _ _ _ _ _ E2).
  assert (HWi : is_Some (Q2 !! WaitQueue i)).
  { apply Hw2, Hdom1. by apply (qo_wait _ _ _ (ko_queues _ _ _ _ HK)). }
  destruct (kernel_ok_unblock_all _ s2 Q2 (i :: free) HK2 (WaitQueue i)) as
    (s3 & Q3 & E3 & HK3 & Hs3 & Hw3 & Hall); [unfold MAX_LOCKS_NUM; lia|done|done|].
  destruct HWi as [ws HWi]. pose proof (wa_rest _ _ _ _ _ _ (Hall ws HWi)) as Hempty.
  rewrite (bind_Ok _ _ _ _ _ E3), bind_get.
  assert (Hno3 : no_orphans Q3 (i :: free)).
  { intros j ys [->|Hj]%elem_of_cons HQ3; [congruence|].
    assert (Hno1 : no_orphans Q1 free).
    { intros j' zs Hj' Hz. destruct (Hsub1 _ _ Hz) as (zs' & Hz' & Hs').
      rewrite (Hno j' zs' Hj' Hz') in Hs'. by apply list_nil_subseteq. }
    eapply (no_orphans_woken Q1 Q3 free); [by etransitivity|done|done|done]. }
  assert (Hc3 : current_running s3 = current_running s) by (rewrite (so_current _ _ Hs3); congruence).
  destruct (running_block _ _ _ _ HK Hrun) as [cb0 Hcb0].
  pose proof (running_pid _ _ _ _ _ HK Hrun Hcb0) as Hpidc.
  assert (Hp3 : pid <$> (pcb s3).[current_running s] = Some (current_running s)).
  { by rewrite (so_pid _ _ Hs3), Hpid2, Hpid1, Hcb0, <- Hpidc. }
  rewrite Hc3. destruct ((pcb s3).[current_running s]) as [cb|] eqn:Hcb; [|done].
  apply (inj Some) in Hp3. erewrite bind_Ok by (apply pcb_at_Ok; exact Hcb). rewrite Hp3. case_cmp.
  - eapply outcome_mono; [| |apply (kernel_ok_do_scheduler _ _ _ _ HK3); [unfold MAX_LOCKS_NUM; lia|rewrite Hc3; eauto]].
    + intros c s' (_ & HK4 & Hrun4 & _). exists Q3, (i :: free). split; [|done]. eapply kernel_ok_mono, HK4. unfold MAX_LOCKS_NUM. lia.
    + intros Hnil. destruct Hrun as (ready & HQr & Hcr). apply (wk_empty Q1 Q3) in Hnil; [|by transitivity Q2|by apply Hdom1].
      rewrite HQr. f_equal. apply (subset_singleton _ _ i); [done|by apply (qrep_nodup _ _ (ko_qrep _ _ _ _ HK) ReadyQueue)|by apply Halone].
  - apply outcome_never, kinv_syscall_return. exists Q3, (i :: free). split; [eapply kernel_ok_mono, HK3; unfold MAX_LOCKS_NUM; lia|]. split; [done|].
    apply (running_woken s1 s3 Q1 Q3); [by transitivity Q2|congruence|by apply Hrun1].
Qed.

Lemma kinv_kill K s i k :
  kinv K s -> K + 40 < 2147483648 -> outcome (alone s) (fun _ s' => kinv (K + 40) s') (kill i k s).
Proof.
  intros Hinv Hb. pose proof Hinv as (Q & free & HK & Hno & Hrun). unfold kill, pid_free.
  assert (Hret : forall s', kinv K s' ->
    outcome (alone s) (fun _ s' => kinv (K + 40) s') ((syscall_return 0;; mret Return) s')).
  { intros s' H'. eapply outcome_mono; [| |apply (kinv_syscall_return K s' 0 Return H')]; [|by intros []].
    intros ? s''. apply kinv_mono. lia. }
  pose proof (ko_pids _ _ _ _ HK) as Hp. case_cmp; [rewrite bind_ret; by apply Hret|].
  destruct (decide (1 <= i < MAX_TASK_NUM /\ i ∉ free)) as [[Hi Hif]|Hbad].
  - destruct (slist_free_ok _ _ _ _ Hp Hi Hif) as (l' & E & Hp').
    rewrite bind_assoc, (bind_Ok _ _ _ _ _ (on_pid_list_Ok _ s _ _ E)), bind_ret.
    eapply outcome_mono; [| |by apply (kinv_kill_live K s Q free)]; [done|]. by apply alone_list; [apply HK|].
  - rewrite bind_assoc, (bind_Ok _ _ _ _ _ (on_pid_list_Ok _ s _ _ (slist_free_refused _ _ _ _ Hp Hbad))), bind_ret.
    apply Hret. by destruct s.
Qed.
