(* ===== verification/Trap.v ===== *)
(** Entering the kernel: the interrupts of [kernel/exception/irq.c], the dispatch of the system
    calls of the task and synchronisation components in [kernel/exception/syscall.c], the waiting
    for packets of [drivers/mac.c], and the initialisation of the task table in [init/main.c].

    [trap] runs a handler to its end or to the next [do_scheduler]; [resume] runs one frame of the
    task that has been picked. A machine alternates between the two: [step_by_trap] and [step_by_frame]. *)

From S2P Require Import Prelude Slist Kernel Queue Sched Sync.

(** ** Waiting for packets, [drivers/mac.c] *)

Definition do_wait_recv_package (k : list kframe) : M ctl :=
  c ← get current_running;
  do_wait c RecvBlockQueue TASK_BLOCKED k.

(** [des0] is the first word of the last receive descriptor. *)
Definition check_recv (des0 : Z) : M unit :=
  empty ← queue_is_empty RecvBlockQueue;
  if (empty : bool) then mret tt
  else if Z.shiftr des0 31 =? 0 then do_unblock_one RecvBlockQueue else mret tt.

(** ** Interrupts *)

(** The queue's part of [irq_mac]; [System.irq_mac] acknowledges the interrupt to the device too. *)
Definition irq_mac : M unit :=
  empty ← queue_is_empty RecvBlockQueue;
  if negb empty then do_unblock_one RecvBlockQueue else mret tt.

Definition irq_ip3_helper (int1_sr : Z) : M unit :=
  if Z.testbit int1_sr 3 then irq_mac else panic "unknown ip3.".

(** [set_timer] programs the coprocessor; it has no counterpart in the state. *)
Definition irq_timer (k : list kframe) : M ctl :=
  modify (fun s => set_time_elapsed (u32 (time_elapsed s + 1)) s);;
  check_sleeping;;
  do_scheduler k.

(** [int1_sr] is the interrupt controller's status register. *)
Definition interrupt_helper (int1_sr : Z) (k : list kframe) : M ctl :=
  c ← get current_running;
  b ← pcb_at c;
  let cause := cp0_cause (user_regs_context b) in
  if negb (Z.land cause 0x8000 =? 0) then irq_timer k
  else if negb (Z.land cause 0x0800 =? 0) then irq_ip3_helper int1_sr;; mret Return
  else panic "unknown interrupt.".

(** ** System calls

    The calls of the task and synchronisation components, with their arguments decoded. *)

Inductive syscall :=
  | SYSCALL_SPAWN (task : task_info_t)
  | SYSCALL_KILL (pid : Z)
  | SYSCALL_EXIT
  | SYSCALL_WAIT (pid : Z)
  | SYSCALL_SLEEP (time : Z)
  | SYSCALL_GETPID
  | SYSCALL_MUTEX_LOCK_INIT (lock : lockref)
  | SYSCALL_MUTEX_LOCK_ACQUIRE (lock : lockref)
  | SYSCALL_MUTEX_LOCK_RELEASE (lock : lockref)
  | SYSCALL_SEMAPHORE_INIT (x : semref) (value : Z)
  | SYSCALL_SEMAPHORE_UP (x : semref)
  | SYSCALL_SEMAPHORE_DOWN (x : semref)
  | SYSCALL_COND_INIT (x : Z)
  | SYSCALL_COND_WAIT (x : Z) (lock : lockref)
  | SYSCALL_COND_SIGNAL (x : Z)
  | SYSCALL_COND_BROADCAST (x : Z)
  | SYSCALL_BARRIER_INIT (x g : Z)
  | SYSCALL_BARRIER_WAIT (x : Z)
  | SYSCALL_WAIT_RECV.

(** A handler that comes back to its caller. *)
Definition returning (m : M unit) : M ctl := m;; mret Return.

Definition do_syscall (c : syscall) (k : list kframe) : M ctl :=
  match c with
  | SYSCALL_SPAWN task => returning (init_pcb task)
  | SYSCALL_KILL pid => kill pid k
  | SYSCALL_EXIT => exit k
  | SYSCALL_WAIT pid => wait pid k
  | SYSCALL_SLEEP time => do_sleep time k
  | SYSCALL_GETPID => returning do_getpid
  | SYSCALL_MUTEX_LOCK_INIT lock => returning (do_mutex_lock_init lock)
  | SYSCALL_MUTEX_LOCK_ACQUIRE lock => do_mutex_lock_acquire lock k
  | SYSCALL_MUTEX_LOCK_RELEASE lock => returning (do_mutex_lock_release lock)
  | SYSCALL_SEMAPHORE_INIT x value => returning (do_semaphore_init x value)
  | SYSCALL_SEMAPHORE_UP x => returning (do_semaphore_up x)
  | SYSCALL_SEMAPHORE_DOWN x => do_semaphore_down x k
  | SYSCALL_COND_INIT x => returning (do_condition_init x)
  | SYSCALL_COND_WAIT x lock => do_condition_wait x lock k
  | SYSCALL_COND_SIGNAL x => returning (do_condition_signal x)
  | SYSCALL_COND_BROADCAST x => returning (do_condition_broadcast x)
  | SYSCALL_BARRIER_INIT x g => returning (do_barrier_init x g)
  | SYSCALL_BARRIER_WAIT x => do_barrier_wait x k
  | SYSCALL_WAIT_RECV => do_wait_recv_package k
  end.

(** [cp0_epc += 4]: return behind the [syscall] instruction *)
Definition skip_instruction (b : pcb_t) : pcb_t :=
  let u := user_regs_context b in
  set_user_regs_context (set_cp0_epc (u32 (cp0_epc u + 4)) u) b.

Definition system_call_helper (c : syscall) (k : list kframe) : M ctl :=
  upd_current skip_instruction;;
  do_syscall c k.

(** ** The kernel as a machine *)

Inductive trap := Interrupt (cause int1_sr : Z) | SystemCall (c : syscall).

Definition save_cause (cause : Z) (b : pcb_t) : pcb_t :=
  set_user_regs_context (set_cp0_cause cause (user_regs_context b)) b.

(** [exception_handler] saves the context (of which [interrupt_helper] reads the cause), calls a
    helper and goes on at [exception_handler_exit]. *)
Definition handle (t : trap) : M ctl :=
  match t with
  | Interrupt cause int1_sr =>
      upd_current (save_cause cause);;
      interrupt_helper int1_sr [KHandlerReturn; KExceptionExit]
  | SystemCall c => system_call_helper c [KHandlerReturn; KExceptionExit]
  end.

(** What the processor runs: a user program, or the frames [k] of the current task. *)
Inductive mode := User | KernelFrames (k : list kframe).

Definition mode_of (k : list kframe) : mode := match k with [] => User | _ => KernelFrames k end.

(** What runs after a handler or a frame: on a switch, the saved frames of the task picked. *)
Definition next_mode (c : ctl) (k : list kframe) (s : kstate) : option mode :=
  match c with
  | Return => Some (mode_of k)
  | Switch => b ← (pcb s).[current_running s]; Some (mode_of (kernel_context b))
  end.

Definition step_by_trap (t : trap) (s : kstate) (next : mode * kstate) : Prop :=
  exists c, handle t s = Ok (c, snd next) /\ next_mode c [] (snd next) = Some (fst next).

Definition step_by_frame (fr : kframe) (k : list kframe) (s : kstate) (next : mode * kstate) : Prop :=
  exists c, resume_sync fr k s = Ok (c, snd next) /\ next_mode c k (snd next) = Some (fst next).

(** ** The first tasks, [init_task] of [init/main.c] *)

Definition main_pcb (b : pcb_t) : pcb_t :=
  let b := set_pid 0 b in
  let b := set_name "main" b in
  let b := set_type KERNEL_PROCESS b in
  let b := set_lock_num 0 b in
  let b := set_user_stack_size 0x1000 b in
  let b := set_kernel_stack_size KERNEL_STACK_SIZE b in
  set_kernel_sp KERNEL_STACK_TOP_ADDRESS b.

Definition init_pid_list : M unit :=
  l ← get pid_list;
  l ← lift (slist_init l MAX_TASK_NUM);
  modify (set_pid_list l).

Definition init_task (info_shell info_io_proc : task_info_t) : M unit :=
  queue_init ReadyQueue;;
  queue_init SleepQueue;;
  upd_pcb 0 main_pcb;;
  modify (set_current_running 0);;
  upd_pcb 0 (set_status TASK_RUNNING);;
  upd_pcb 0 (set_cursor_x 0);;
  upd_pcb 0 (set_cursor_y 0);;
  queue_init (WaitQueue 0);;
  init_pid_list;;
  init_pcb info_shell;;
  init_pcb info_io_proc.
