(* ===== verification/Safety.v ===== *)
(** Safety of the kernel's handlers: from a state that satisfies the invariant of [KernelInv], any
    interrupt or system call whose objects exist ends without a fault and without running out of
    fuel, in a state that satisfies the invariant again, or in the scheduler's panic. *)

From S2P Require Import Prelude Slist Kernel Queue Sched Sync SchedSpec KernelInv Trap.

(** ** What a caller must respect *)

(** A queue that may be initialised: it does not exist or holds nobody. *)
Definition idle_queue (s : kstate) (q : qref) : Prop :=
  queues s !! q = None \/ queues s !! q = Some (Queue None None).

Definition call_ok (K : Z) (s : kstate) (c : syscall) : Prop :=
  match c with
  | SYSCALL_SPAWN task => 1 <= ti_priority task <= K
  | SYSCALL_MUTEX_LOCK_INIT l => idle_queue s (LockQueue l)
  | SYSCALL_MUTEX_LOCK_ACQUIRE l | SYSCALL_MUTEX_LOCK_RELEASE l => is_Some (mutexes s !! l)
  | SYSCALL_SEMAPHORE_INIT x _ => idle_queue s (SemQueue x)
  | SYSCALL_SEMAPHORE_UP x | SYSCALL_SEMAPHORE_DOWN x => is_Some (semaphores s !! x)
  | SYSCALL_COND_INIT x => idle_queue s (CondQueue x)
  | SYSCALL_COND_WAIT x l => is_Some (conditions s !! x) /\ is_Some (mutexes s !! l)
  | SYSCALL_COND_SIGNAL x | SYSCALL_COND_BROADCAST x => is_Some (conditions s !! x)
  | SYSCALL_BARRIER_INIT x _ => idle_queue s (BarrierQueue x)
  | SYSCALL_BARRIER_WAIT x => is_Some (barriers s !! x)
  | _ => True
  end.

(** The timer and the network card are the only devices that interrupt. *)
Definition trap_ok (K : Z) (s : kstate) (t : trap) : Prop :=
  match t with
  | Interrupt cause int1_sr =>
      Z.land cause 0x8000 <> 0 \/ (Z.land cause 0x0800 <> 0 /\ Z.testbit int1_sr 3 = true)
  | SystemCall c => call_ok K s c
  end.

(** The calls that can give up the processor: their task waits, or ends *)
Definition may_wait (c : syscall) : bool :=
  match c with
  | SYSCALL_KILL _ | SYSCALL_EXIT | SYSCALL_WAIT _ | SYSCALL_SLEEP _ | SYSCALL_MUTEX_LOCK_ACQUIRE _ | SYSCALL_SEMAPHORE_DOWN _
  | SYSCALL_COND_WAIT _ _ | SYSCALL_BARRIER_WAIT _ | SYSCALL_WAIT_RECV => true
  | _ => false
  end.

(** The locks a frame names exist; the frames of swapping are not there in the runs of [Run]. *)
Definition frame_ok (s : kstate) (fr : kframe) : Prop :=
  match fr with
  | KMutexAcquireLoop l | KConditionWait l => is_Some (mutexes s !! l)
  | KExceptionExit | KHandlerReturn | KKillReturn => True
  | KSwapOut _ | KSwapInAlloc _ _ _ _ | KSwapInDone _ _ _ _ _ | KTlbAlloc _ _ _ _ _ | KTlbFill _ _ _ _ => False
  end.

(** ** The parts of the invariant, in terms of the state alone *)

Lemma qrep_is_Some s Q q : qrep s Q -> is_Some (queues s !! q) <-> is_Some (Q !! q).
Proof. intros [-> _ _ _]. by rewrite lookup_fmap, fmap_is_Some. Qed.

(** The invariant reads these parts of the state only. *)
Lemma kernel_ok_ext K s s' Q free : kernel_ok K s Q free -> pcb s' = pcb s -> queues s' = queues s -> pid_list s' = pid_list s ->
  mutexes s' = mutexes s -> semaphores s' = semaphores s -> conditions s' = conditions s -> barriers s' = barriers s ->
  kernel_ok K s' Q free.
Proof.
  intros [HR Hp HT Hq] E1 E2 E3 E5 E6 E7 E8. split.
  - by apply (qrep_ext s).
  - by rewrite E3.
  - by rewrite E1.
  - destruct Hq. split; by rewrite ?E5, ?E6, ?E7, ?E8.
Qed.

(** Initialising a queue that holds nobody. *)
Lemma kernel_ok_queue_init K s Q free q :
  kernel_ok K s Q free -> idle_queue s q ->
  kernel_ok K (set_queues (<[q := Queue None None]> (queues s)) s) (<[q := []]> Q) free.
Proof.
  intros [HR Hp HT Hq] Hidle. destruct (queue_init_spec s Q q HR) as (s' & E & HR' & _).
  assert (Hq0 : forall ys, Q !! q = Some ys -> ys = []).
  { intros ys HQ. pose proof (qrep_lookup _ _ _ _ HR HQ) as HL.
    destruct Hidle as [Hn|Hn]; rewrite Hn in HL; simplify_eq. by destruct ys. }
  split.
  - by injection E as <-.
  - done.
  - destruct HT as [Hl Hqd Hlive]. split; [done| |].
    + intros q2 ys i. rewrite lookup_insert. case_decide; intros HQ Hi; simplify_eq; [set_solver|eauto].
    + intros i Hi Hif. destruct (Hlive i Hi Hif) as (q2 & ys & HQ & Hiy). exists q2, ys.
      rewrite lookup_insert_ne; [done|]. intros <-. rewrite (Hq0 ys HQ) in Hiy. set_solver.
  - destruct Hq. split; cbn; intros; try (apply dom_insert); eauto.
Qed.

Lemma no_orphans_queue_init (Q : gmap qref (list Z)) free q : no_orphans Q free -> no_orphans (<[q := []]> Q) free.
Proof. intros Hno i ys Hi. rewrite lookup_insert. case_decide; intros HQ; simplify_eq; [done|eauto]. Qed.

Section kinv.
Context (K : Z) (s : kstate).
Hypothesis (HI : kinv K s).

Lemma kinv_block : is_Some ((pcb s).[current_running s]).
Proof. destruct HI as (Q & free & HK & _ & Hrun). by eapply running_block. Qed.

Lemma kinv_current : 0 <= current_running s.
Proof. destruct kinv_block as [? ?%aget_Some]. lia. Qed.

Lemma kinv_current_pid : current_pid s = Ok (current_running s, s).
Proof.
  destruct kinv_block as [b Hb]. destruct HI as (Q & free & HK & _ & Hrun).
  unfold current_pid. rewrite bind_get. erewrite bind_Ok by (apply pcb_at_Ok; exact Hb).
  by rewrite (running_pid _ _ _ _ _ HK Hrun Hb).
Qed.

Lemma kinv_queue q :
  match q with
  | ReadyQueue | SleepQueue | RecvBlockQueue => True
  | LockQueue l => is_Some (mutexes s !! l)
  | SemQueue x => is_Some (semaphores s !! x)
  | CondQueue x => is_Some (conditions s !! x)
  | BarrierQueue x => is_Some (barriers s !! x)
  | WaitQueue _ => False
  end -> is_Some (queues s !! q).
Proof.
  destruct HI as (Q & free & [HR _ _ []] & _). intros H. apply (qrep_is_Some s Q q HR).
  destruct q; (done || eauto).
Qed.

(** An update of a block that the invariant does not see. *)
Lemma kinv_upd i f :
  (forall b, links (f b) = links b) -> (forall b, core (f b) = core b) -> 0 <= i ->
  kinv K (set_pcb (alter f (Z.to_nat i) (pcb s)) s).
Proof.
  intros Hl Hc Hi. destruct HI as (Q & free & HK & Hno & Hrun). exists Q, free.
  split; [by apply kernel_ok_upd|done].
Qed.

Lemma kinv_ext s' : pcb s' = pcb s -> queues s' = queues s -> pid_list s' = pid_list s ->
  current_running s' = current_running s -> mutexes s' = mutexes s -> semaphores s' = semaphores s ->
  conditions s' = conditions s -> barriers s' = barriers s -> kinv K s'.
Proof.
  intros E1 E2 E3 E4 E5 E6 E7 E8. destruct HI as (Q & free & HK & Hno & Hrun).
  exists Q, free. split; [by apply (kernel_ok_ext K s)|]. split; [done|]. unfold running. by rewrite E4.
Qed.

Lemma kinv_put_mutex l v : is_Some (queues s !! LockQueue l) -> kinv K (set_mutexes (<[l := v]> (mutexes s)) s).
Proof.
  destruct HI as (Q & free & HK & Hno & Hrun). intros Hl%(qrep_is_Some s Q _ (ko_qrep _ _ _ _ HK)).
  exists Q, free. split; [by apply kernel_ok_put_mutex|done].
Qed.

Lemma kinv_put_semaphore x v :
  is_Some (queues s !! SemQueue x) -> kinv K (set_semaphores (<[x := v]> (semaphores s)) s).
Proof.
  destruct HI as (Q & free & HK & Hno & Hrun). intros Hl%(qrep_is_Some s Q _ (ko_qrep _ _ _ _ HK)).
  exists Q, free. split; [by apply kernel_ok_put_semaphore|done].
Qed.

Lemma kinv_put_condition x v :
  is_Some (queues s !! CondQueue x) -> kinv K (set_conditions (<[x := v]> (conditions s)) s).
Proof.
  destruct HI as (Q & free & HK & Hno & Hrun). intros Hl%(qrep_is_Some s Q _ (ko_qrep _ _ _ _ HK)).
  exists Q, free. split; [by apply kernel_ok_put_condition|done].
Qed.

Lemma kinv_put_barrier x v :
  is_Some (queues s !! BarrierQueue x) -> kinv K (set_barriers (<[x := v]> (barriers s)) s).
Proof.
  destruct HI as (Q & free & HK & Hno & Hrun). intros Hl%(qrep_is_Some s Q _ (ko_qrep _ _ _ _ HK)).
  exists Q, free. split; [by apply kernel_ok_put_barrier|done].
Qed.

Lemma kinv_queue_init q :
  idle_queue s q -> q <> ReadyQueue ->
  kinv K (set_queues (<[q := Queue None None]> (queues s)) s) /\
  is_Some (<[q := Queue None None]> (queues s) !! q).
Proof.
  intros Hidle Hne. rewrite lookup_insert_eq. split; [|eauto].
  destruct HI as (Q & free & HK & Hno & xs & HQr & Hcx).
  exists (<[q := []]> Q), free. split_and!; [by apply kernel_ok_queue_init|by apply no_orphans_queue_init|].
  exists xs. by rewrite lookup_insert_ne.
Qed.

Lemma kinv_unblock_one q :
  K + 2 < 2147483648 -> is_Some (queues s !! q) -> q <> ReadyQueue ->
  exists s', do_unblock_one q s = Ok (tt, s') /\ kinv (K + 2) s' /\ same_objects s s' /\ (alone s' -> alone s).
Proof.
  intros Hb Hq Hne. destruct HI as (Q & free & HK & Hno & Hrun).
  apply (qrep_is_Some s Q q (ko_qrep _ _ _ _ HK)) in Hq.
  destruct (kernel_ok_unblock_one K s Q free HK q Hb Hq Hne) as (s' & Q' & E & HK' & Hs & Hw & _).
  exists s'. split_and!; [done| |done|].
  - exists Q', free. split_and!; [done|by eapply no_orphans_woken|]. by apply (running_woken s s' Q Q'); [|apply (so_current _ _ Hs)|].
  - by apply (alone_woken s s' Q Q'); [apply HK|apply HK'| |apply (so_current _ _ Hs)|].
Qed.

Lemma kinv_unblock_all q :
  K + 1 < 2147483648 -> is_Some (queues s !! q) -> q <> ReadyQueue ->
  exists s', do_unblock_all q s = Ok (tt, s') /\ kinv (K + 1) s' /\ same_objects s s' /\ (alone s' -> alone s).
Proof.
  intros Hb Hq Hne. destruct HI as (Q & free & HK & Hno & Hrun).
  apply (qrep_is_Some s Q q (ko_qrep _ _ _ _ HK)) in Hq.
  destruct (kernel_ok_unblock_all K s Q free HK q Hb Hq Hne) as (s' & Q' & E & HK' & Hs & Hw & _).
  exists s'. split_and!; [done| |done|].
  - exists Q', free. split_and!; [done|by eapply no_orphans_woken|]. by apply (running_woken s s' Q Q'); [|apply (so_current _ _ Hs)|].
  - by apply (alone_woken s s' Q Q'); [apply HK|apply HK'| |apply (so_current _ _ Hs)|].
Qed.

Lemma kinv_do_wait q st k :
  K + 1 < 2147483648 -> is_Some (queues s !! q) -> q <> ReadyQueue -> (forall i, q <> WaitQueue i) ->
  outcome (alone s) (fun _ s' => kinv (K + 1) s') (do_wait (current_running s) q st k s).
Proof.
  intros Hb Hq Hne Hnw. destruct HI as (Q & free & HK & Hno & Hrun).
  apply (qrep_is_Some s Q q (ko_qrep _ _ _ _ HK)) in Hq.
  eapply outcome_mono; [| |apply (kernel_ok_do_wait K s Q free q st k HK Hb Hrun Hq Hne)].
  - intros c s' (Q' & _ & HK' & Hrun' & _ & _ & Hsame). exists Q', free. split_and!; [done| |done].
    intros i xs Hi HQ'. apply (Hno i xs Hi). by apply Hsame.
  - by apply alone_list; [apply HK|].
Qed.

End kinv.

(** ** The handlers

    [safe K m s]: [m] run from [s] re-establishes the invariant, or stops in the panic of the
    scheduler, the running task being the only one that was ready. [never_stops K m s]: it does the first. *)

Definition safe {A} (K : Z) (m : M A) (s : kstate) : Prop :=
  outcome (alone s) (fun _ s' => kinv (K + 40) s') (m s).

(** [s] has the ready tasks of [s1]. *)
Ltac ready_as s1 := match goal with |- outcome (alone _) ?R ?o => change (outcome (alone s1) R o) end.

Definition never_stops {A} (K : Z) (m : M A) (s : kstate) : Prop :=
  outcome False (fun _ s' => kinv (K + 40) s') (m s).

Lemma never_stops_safe {A} K (m : M A) s : never_stops K m s -> safe K m s.
Proof. apply outcome_never. Qed.

Lemma outcome_kinv {A} C K K' (o : result (A * kstate)) :
  K <= K' -> outcome C (fun _ s' => kinv K s') o -> outcome C (fun _ s' => kinv K' s') o.
Proof. intros HK. apply outcome_mono; [|done]. intros ? s'. by apply kinv_mono. Qed.

Lemma never_stops_returning K m s : never_stops K m s -> never_stops K (returning m) s.
Proof.
  unfold never_stops, returning. intros [[[] _]|([] & s' & E & H)].
  right. exists Return, s'. by rewrite (bind_Ok _ _ _ _ _ E).
Qed.

Lemma never_stops_Ok {A} K (m : M A) s x s' : m s = Ok (x, s') -> kinv (K + 40) s' -> never_stops K m s.
Proof. unfold never_stops. intros -> H. by apply outcome_Ok. Qed.

Section handlers.
Context (K : Z) (s : kstate).
Hypothesis (HI : kinv K s) (HK : K + 40 < 2147483648).

Lemma init_pcb_never_stops task : 1 <= ti_priority task <= K -> never_stops K (init_pcb task) s.
Proof.
  intros Ht. destruct HI as (Q & free & Hok & Hno & Hrun).
  destruct (kernel_ok_init_pcb K s Q free task Hok Hno) as (s' & Q' & free' & E & HK' & Hno' & Hc & Hr);
    [by eapply running_block|done|].
  eapply never_stops_Ok; [done|]. exists Q', free'. split_and!; [eapply kernel_ok_mono, HK'; lia|done|].
  destruct Hrun as (xs & HQ & Hx). destruct (Hr xs HQ) as [ys HQ']. exists (xs ++ ys).
  rewrite Hc. split; [done|set_solver].
Qed.

Lemma safe_exit k : safe K (exit k) s.
Proof.
  unfold safe, exit. rewrite bind_get. destruct (kinv_block K s HI) as [b Hb].
  erewrite bind_Ok by (apply pcb_at_Ok; exact Hb). by apply kinv_kill.
Qed.

Lemma safe_wait i k : safe K (wait i k) s.
Proof.
  unfold safe, wait. pose proof HI as (Q & free & Hok & Hno & Hrun).
  destruct (running_block _ _ _ _ Hok Hrun) as [b Hb]. pose proof (running_pid _ _ _ _ _ Hok Hrun Hb) as Hpid.
  unfold pid_is_valid. rewrite bind_assoc, bind_get.
  rewrite (slist_is_valid_rep _ _ _ i (ko_pids _ _ _ _ Hok)). cbn [lift]. rewrite bind_ret, bind_get.
  erewrite bind_Ok by (apply pcb_at_Ok; exact Hb). rewrite Hpid. case_bool_decide as Hv; cbn [b2z Z.eqb orb].
  2: { eapply outcome_kinv; [|by apply outcome_never, kinv_syscall_return]. lia. }
  case_cmp; [eapply outcome_kinv; [|by apply outcome_never, kinv_syscall_return]; lia|].
  destruct (kernel_ok_syscall_return K s Q free 1 Hok) as (s1 & E1 & Hok1 & Hs1); [eauto|].
  rewrite (bind_Ok _ _ _ _ _ E1). rewrite <- (so_current _ _ Hs1).
  eapply outcome_mono; [| |apply (kernel_ok_do_wait K s1 Q free (WaitQueue i))].
  - intros c s' (Q' & _ & HK' & Hrun' & _ & _ & Hsame). exists Q', free. split_and!; [eapply kernel_ok_mono, HK'; lia| |done].
    intros j xs Hj HQ'. apply (Hno j xs Hj). apply Hsame; [|done|done]. intros [= ->]. by apply Hv.
  - rewrite (so_current _ _ Hs1). by apply alone_list; [apply Hok|].
  - done.
  - lia.
  - unfold running. rewrite (so_current _ _ Hs1). exact Hrun.
  - apply (qo_wait _ _ _ (ko_queues _ _ _ _ Hok)); apply Hv.
  - done.
Qed.

(** A step that updates the running task's block and goes on. *)
Lemma safe_upd_current {A} f (m : unit -> M A) :
  (forall b, links (f b) = links b) -> (forall b, core (f b) = core b) ->
  (kinv K (set_pcb (alter f (Z.to_nat (current_running s)) (pcb s)) s) ->
    safe K (m tt) (set_pcb (alter f (Z.to_nat (current_running s)) (pcb s)) s)) ->
  safe K (upd_current f ≫= m) s.
Proof.
  intros Hl Hc Hm. unfold safe. rewrite bind_upd_current by (by eapply kinv_block).
  apply Hm, kinv_upd; [done..|by eapply kinv_current].
Qed.

Lemma safe_do_wait q st k :
  is_Some (queues s !! q) -> q <> ReadyQueue -> (forall i, q <> WaitQueue i) ->
  safe K (c ← get current_running; do_wait c q st k) s.
Proof.
  intros Hq Hne Hnw. unfold safe. rewrite bind_get. apply (outcome_kinv _ (K + 1)); [lia|]. apply kinv_do_wait; [done|lia|done..].
Qed.

Lemma safe_take_lock l : is_Some (queues s !! LockQueue l) -> safe K (take_lock l;; mret Return) s.
Proof.
  intros Hl. unfold safe, take_lock, add_lock_num. rewrite bind_assoc. rewrite bind_upd_current by (by eapply kinv_block).
  set (s1 := set_pcb _ s). assert (H1 : kinv K s1) by (apply kinv_upd; [done..|by eapply kinv_current]).
  rewrite bind_assoc, (bind_Ok _ _ _ _ _ (kinv_current_pid K s1 H1)). unfold put_mutex.
  rewrite bind_modify. apply outcome_Ok. apply (kinv_mono K); [lia|]. by apply kinv_put_mutex.
Qed.

Lemma safe_mutex_acquire_loop l k : is_Some (mutexes s !! l) -> safe K (mutex_acquire_loop l k) s.
Proof.
  intros [m Hm]. assert (Hq : is_Some (queues s !! LockQueue l)) by (eapply (kinv_queue K s HI (LockQueue l)); eauto).
  unfold safe, mutex_acquire_loop. rewrite (bind_Ok _ _ _ _ _ (mutex_at_Ok _ _ _ Hm)).
  destruct (lstatus m); [by apply safe_take_lock|by apply safe_do_wait].
Qed.

Lemma safe_mutex_lock_acquire l k : is_Some (mutexes s !! l) -> safe K (do_mutex_lock_acquire l k) s.
Proof.
  intros Hl. pose proof Hl as [m Hm]. unfold safe, do_mutex_lock_acquire.
  rewrite (bind_Ok _ _ _ _ _ (mutex_at_Ok _ _ _ Hm)), (bind_Ok _ _ _ _ _ (kinv_current_pid K s HI)).
  case_cmp; [|by apply safe_mutex_acquire_loop]. apply outcome_Ok. eapply kinv_mono, HI. lia.
Qed.

(** [do_mutex_lock_release] never stops. *)
Lemma mutex_lock_release_ok l :
  is_Some (mutexes s !! l) ->
  exists s', do_mutex_lock_release l s = Ok (tt, s') /\ kinv (K + 2) s' /\
    current_running s' = current_running s /\ semaphores s' = semaphores s /\
    conditions s' = conditions s /\ barriers s' = barriers s /\ (alone s' -> alone s) /\
    (forall l', is_Some (mutexes s !! l') -> is_Some (mutexes s' !! l')).
Proof.
  intros Hl. pose proof Hl as [m Hm]. unfold do_mutex_lock_release.
  rewrite (bind_Ok _ _ _ _ _ (mutex_at_Ok _ _ _ Hm)), (bind_Ok _ _ _ _ _ (kinv_current_pid K s HI)).
  case_cmp; cbn [negb].
  2: { exists s. split_and!; try done. eapply kinv_mono, HI. lia. }
  destruct (kinv_unblock_one K s HI (LockQueue l)) as (s1 & E1 & H1 & Hs1 & Ha1);
    [lia|by apply (kinv_queue K s HI (LockQueue l))|done|].
  rewrite (bind_Ok _ _ _ _ _ E1). unfold add_lock_num.
  rewrite bind_upd_current by (by eapply kinv_block). set (s2 := set_pcb _ s1).
  assert (H2 : kinv (K + 2) s2) by (apply kinv_upd; [done..|by eapply kinv_current]).
  assert (Hl2 : is_Some (mutexes s2 !! l)) by (unfold s2; cbn; by rewrite (so_mutexes _ _ Hs1)).
  eexists. split; [reflexivity|]. destruct Hs1 as [E2 _ E3 E4 E5 E6 _]. split_and!; [|done..|exact Ha1|].
  - apply (kinv_put_mutex _ s2 H2). by apply (kinv_queue _ s2 H2 (LockQueue l)).
  - intros l' Hl'. cbn. rewrite lookup_insert, E3. case_decide; eauto.
Qed.

Lemma mutex_lock_release_never_stops l : is_Some (mutexes s !! l) -> never_stops K (do_mutex_lock_release l) s.
Proof.
  intros Hl. destruct (mutex_lock_release_ok l Hl) as (s' & E & H' & _).
  eapply never_stops_Ok; [done|]. eapply kinv_mono, H'. lia.
Qed.

Lemma unblock_one_never_stops q : is_Some (queues s !! q) -> q <> ReadyQueue -> never_stops K (do_unblock_one q) s.
Proof.
  intros Hq Hne. destruct (kinv_unblock_one K s HI q) as (s' & E & H' & _); [lia|done|done|].
  eapply never_stops_Ok; [done|]. eapply kinv_mono, H'. lia.
Qed.

Lemma unblock_all_never_stops q : is_Some (queues s !! q) -> q <> ReadyQueue -> never_stops K (do_unblock_all q) s.
Proof.
  intros Hq Hne. destruct (kinv_unblock_all K s HI q) as (s' & E & H' & _); [lia|done|done|].
  eapply never_stops_Ok; [done|]. eapply kinv_mono, H'. lia.
Qed.

End handlers.

(** *** The synchronisation calls *)

Section sync_handlers.
Context (K : Z) (s : kstate).
Hypothesis (HI : kinv K s) (HK : K + 40 < 2147483648).

Lemma semaphore_at_Ok x v s1 : semaphores s1 !! x = Some v -> semaphore_at x s1 = Ok (v, s1).
Proof. unfold semaphore_at. by intros ->. Qed.

Lemma condition_at_Ok x v s1 : conditions s1 !! x = Some v -> condition_at x s1 = Ok (v, s1).
Proof. unfold condition_at. by intros ->. Qed.

Lemma barrier_at_Ok x v s1 : barriers s1 !! x = Some v -> barrier_at x s1 = Ok (v, s1).
Proof. unfold barrier_at. by intros ->. Qed.

(** Initialising an object: its record, then its queue. *)
Lemma object_init_never_stops q f :
  idle_queue s q -> q <> ReadyQueue ->
  (forall s', kinv K s' -> is_Some (queues s' !! q) -> kinv K (f s')) ->
  (forall s', set_queues (<[q := Queue None None]> (queues (f s'))) (f s') =
     f (set_queues (<[q := Queue None None]> (queues s')) s')) ->
  never_stops K (modify f;; queue_init q) s.
Proof.
  intros Hidle Hne Hf Hcomm. destruct (kinv_queue_init K s HI q Hidle Hne) as [H1 H2].
  eapply never_stops_Ok; [reflexivity|]. rewrite Hcomm. apply (kinv_mono K); [lia|]. by apply Hf.
Qed.

Lemma semaphore_up_never_stops x : is_Some (semaphores s !! x) -> never_stops K (do_semaphore_up x) s.
Proof.
  intros Hx. pose proof Hx as [v Hv]. pose proof (kinv_queue K s HI (SemQueue x) Hx) as Hq.
  unfold never_stops, do_semaphore_up, put_semaphore. rewrite (bind_Ok _ _ _ _ _ (semaphore_at_Ok _ _ _ Hv)), bind_modify.
  set (s1 := set_semaphores _ s). assert (H1 : kinv K s1) by (by apply kinv_put_semaphore).
  rewrite (bind_Ok _ _ _ _ _ (semaphore_at_Ok x (s32 (v + 1)) s1 (lookup_insert_eq _ _ _))).
  case_cmp; [by apply unblock_one_never_stops|]. apply outcome_Ok. eapply kinv_mono, H1. lia.
Qed.

Lemma safe_semaphore_down x k : is_Some (semaphores s !! x) -> safe K (do_semaphore_down x k) s.
Proof.
  intros Hx. pose proof Hx as [v Hv]. pose proof (kinv_queue K s HI (SemQueue x) Hx) as Hq.
  unfold safe, do_semaphore_down, put_semaphore. rewrite (bind_Ok _ _ _ _ _ (semaphore_at_Ok _ _ _ Hv)), bind_modify.
  set (s1 := set_semaphores _ s). assert (H1 : kinv K s1) by (by apply kinv_put_semaphore).
  rewrite (bind_Ok _ _ _ _ _ (semaphore_at_Ok x (s32 (v - 1)) s1 (lookup_insert_eq _ _ _))).
  ready_as s1. case_cmp; [by apply safe_do_wait|]. apply outcome_Ok. eapply kinv_mono, H1. lia.
Qed.

Lemma condition_signal_never_stops x : is_Some (conditions s !! x) -> never_stops K (do_condition_signal x) s.
Proof.
  intros Hx. pose proof Hx as [v Hv]. pose proof (kinv_queue K s HI (CondQueue x) Hx) as Hq.
  unfold never_stops, do_condition_signal, put_condition. rewrite (bind_Ok _ _ _ _ _ (condition_at_Ok _ _ _ Hv)).
  case_cmp; [rewrite bind_modify; set (s1 := set_conditions _ s)|apply outcome_Ok; eapply kinv_mono, HI; lia].
  apply unblock_one_never_stops; [by apply kinv_put_condition|done|done|done].
Qed.

Lemma condition_broadcast_never_stops x : is_Some (conditions s !! x) -> never_stops K (do_condition_broadcast x) s.
Proof.
  intros Hx. pose proof Hx as [v Hv]. pose proof (kinv_queue K s HI (CondQueue x) Hx) as Hq.
  unfold never_stops, do_condition_broadcast, put_condition. rewrite (bind_Ok _ _ _ _ _ (condition_at_Ok _ _ _ Hv)).
  case_cmp; [rewrite bind_modify; set (s1 := set_conditions _ s)|apply outcome_Ok; eapply kinv_mono, HI; lia].
  apply unblock_all_never_stops; [by apply kinv_put_condition|done|done|done].
Qed.

Lemma safe_condition_wait x l k :
  is_Some (conditions s !! x) -> is_Some (mutexes s !! l) -> safe K (do_condition_wait x l k) s.
Proof.
  intros Hx Hl. pose proof Hx as [v Hv]. pose proof (kinv_queue K s HI (CondQueue x) Hx) as Hq.
  unfold safe, do_condition_wait, put_condition. rewrite (bind_Ok _ _ _ _ _ (condition_at_Ok _ _ _ Hv)), bind_modify.
  set (s1 := set_conditions _ s). assert (H1 : kinv K s1) by (by apply kinv_put_condition).
  destruct (mutex_lock_release_ok K s1 H1 HK l Hl) as (s2 & E2 & H2 & Ec & Es & Econd & _ & Ha & _).
  rewrite (bind_Ok _ _ _ _ _ E2), bind_get. apply (outcome_kinv _ (K + 2 + 1)); [lia|].
  eapply outcome_mono; [|exact Ha|apply kinv_do_wait; [done|lia| |done|done]]; [done|].
  apply (kinv_queue _ s2 H2 (CondQueue x)). rewrite Econd. cbn. rewrite lookup_insert_eq. eauto.
Qed.

Lemma safe_barrier_wait x k : is_Some (barriers s !! x) -> safe K (do_barrier_wait x k) s.
Proof.
  intros Hx. pose proof Hx as [v Hv]. pose proof (kinv_queue K s HI (BarrierQueue x) Hx) as Hq.
  unfold safe, do_barrier_wait, put_barrier. rewrite (bind_Ok _ _ _ _ _ (barrier_at_Ok _ _ _ Hv)), bind_modify.
  set (s1 := set_barriers _ s). assert (H1 : kinv K s1) by (by apply kinv_put_barrier).
  rewrite (bind_Ok _ _ _ _ _ (barrier_at_Ok x _ s1 (lookup_insert_eq _ _ _))).
  ready_as s1. case_cmp; [|by apply safe_do_wait]. rewrite bind_modify. set (s2 := set_barriers _ s1).
  assert (H2 : kinv K s2) by (by apply kinv_put_barrier).
  ready_as s2. apply never_stops_safe, never_stops_returning. by apply unblock_all_never_stops.
Qed.

End sync_handlers.

(** *** The timer

    A tick starts the first task too, when the running task is [main], in no queue. *)
Lemma irq_timer_ok K s Q free k :
  kernel_ok K s Q free -> no_orphans Q free -> is_Some ((pcb s).[current_running s]) ->
  K + 40 < 2147483648 -> Q !! ReadyQueue <> Some [] ->
  outcome False (fun c s' => kinv (K + 40) s' /\ c = Switch /\ (Q !! SleepQueue = Some [] -> running s' Q)) (irq_timer k s).
Proof.
  intros Hok Hno Hcur Hb Hne. unfold irq_timer. rewrite bind_modify. set (s1 := set_time_elapsed _ s).
  assert (Hok1 : kernel_ok K s1 Q free).
  { destruct Hok as [HR Hp HT Hq]. split; [by apply (qrep_ext s)|done|done|by destruct Hq]. }
  destruct (kernel_ok_check_sleeping K s1 Q free Hok1 Hcur) as (s2 & Q2 & E2 & Hok2 & Hs2 & Hw2 & Hsame).
  rewrite (bind_Ok _ _ _ _ _ E2).
  assert (Hcur2 : is_Some ((pcb s2).[current_running s2])).
  { rewrite (so_current _ _ Hs2). apply (fmap_is_Some pid). rewrite (so_pid _ _ Hs2). by apply fmap_is_Some. }
  eapply outcome_mono; [| |apply (kernel_ok_do_scheduler K s2 Q2 free Hok2 k); [lia|done]].
  - intros c s' (-> & Hok' & Hrun' & _). split_and!; [|done|by intros <-%Hsame]. exists Q2, free.
    split_and!; [eapply kernel_ok_mono, Hok'; lia| |done]. by eapply no_orphans_woken.
  - intros Hnil. apply Hne. apply (wk_empty Q Q2); [done|done|apply (qo_ready _ _ _ (ko_queues _ _ _ _ Hok))].
Qed.

(** *** Dispatch *)

Section dispatch.
Context (K : Z) (s : kstate).
Hypothesis (HI : kinv K s) (HK : K + 40 < 2147483648).

Lemma getpid_never_stops : never_stops K do_getpid s.
Proof.
  destruct (kinv_block K s HI) as [b Hb]. unfold never_stops, do_getpid. rewrite bind_get.
  erewrite bind_Ok by (apply pcb_at_Ok; exact Hb). apply (outcome_kinv _ K); [lia|].
  pose proof (kinv_syscall_return K s (pid b) tt HI) as [E|([] & s' & E & H)].
  - destruct E as [[] _].
  - right. unfold mbind, M_bind in E. destruct (syscall_return (pid b) s) as [[[] ?]| | |]; simplify_eq. eauto.
Qed.

Lemma safe_do_sleep n k : safe K (do_sleep n k) s.
Proof.
  unfold safe, do_sleep, get_ticks. rewrite bind_get. apply safe_upd_current; [done|done|done|].
  intros H1. apply safe_do_wait; [done|done| |done|done]. by apply (kinv_queue K _ H1 SleepQueue).
Qed.

(** A call that can wait stops only the only ready task; the others never stop. *)
Lemma do_syscall_safe c k : call_ok K s c -> outcome (may_wait c = true /\ alone s) (fun _ s' => kinv (K + 40) s') (do_syscall c k s).
Proof.
  assert (Hn : forall m, never_stops K m s -> outcome (false = true /\ alone s) (fun _ s' => kinv (K + 40) s') (returning m s))
    by (intros; by apply outcome_never, never_stops_returning).
  assert (Hs : forall m : M ctl, safe K m s -> outcome (true = true /\ alone s) (fun _ s' => kinv (K + 40) s') (m s))
    by (intros m; by apply outcome_mono).
  intros Hc. destruct c; cbn [do_syscall call_ok may_wait] in *; (apply Hn || apply Hs).
  - by apply init_pcb_never_stops.
  - by apply kinv_kill.
  - by apply safe_exit.
  - by apply safe_wait.
  - apply safe_do_sleep.
  - apply getpid_never_stops.
  - apply object_init_never_stops; [done|done|done| |done]. intros s' H Hq. by apply kinv_put_mutex.
  - by apply safe_mutex_lock_acquire.
  - by apply mutex_lock_release_never_stops.
  - apply object_init_never_stops; [done|done|done| |done]. intros s' H Hq. by apply kinv_put_semaphore.
  - by apply semaphore_up_never_stops.
  - by apply safe_semaphore_down.
  - apply object_init_never_stops; [done|done|done| |done]. intros s' H Hq. by apply kinv_put_condition.
  - destruct Hc. by apply safe_condition_wait.
  - by apply condition_signal_never_stops.
  - by apply condition_broadcast_never_stops.
  - apply object_init_never_stops; [done|done|done| |done]. intros s' H Hq. by apply kinv_put_barrier.
  - by apply safe_barrier_wait.
  - apply (safe_do_wait K s HI HK RecvBlockQueue TASK_BLOCKED k); [|done|done].
    by apply (kinv_queue K s HI RecvBlockQueue).
Qed.

Lemma irq_timer_never_stops k : never_stops K (irq_timer k) s.
Proof.
  destruct HI as (Q & free & Hok & Hno & Hrun).
  eapply outcome_mono; [| |apply (irq_timer_ok K s Q free k Hok Hno); [by eapply running_block|done|]]; [by intros c s' (? & _)|done|].
  destruct Hrun as (xs & -> & Hx). intros [= ->]. set_solver.
Qed.

Lemma irq_mac_never_stops : never_stops K irq_mac s.
Proof.
  pose proof (kinv_queue K s HI RecvBlockQueue I) as Hq. unfold never_stops, irq_mac.
  destruct Hq as [r Hr]. unfold queue_is_empty. rewrite bind_assoc.
  rewrite (bind_Ok _ _ _ _ _ (queue_at_Ok _ _ _ Hr)), bind_ret.
  destruct (negb _); [|apply outcome_Ok; eapply kinv_mono, HI; lia].
  destruct (kinv_unblock_one K s HI RecvBlockQueue) as (s' & E & H' & _); [lia|by eauto|done|]. rewrite E.
  apply outcome_Ok. eapply kinv_mono, H'. lia.
Qed.

End dispatch.

(** The interrupts of the two devices always find a task to run. *)
Lemma interrupt_never_stops K s cause sr :
  kinv K s -> K + 40 < 2147483648 -> trap_ok K s (Interrupt cause sr) -> never_stops K (handle (Interrupt cause sr)) s.
Proof.
  intros HI HK Ht. unfold never_stops. cbn [handle trap_ok] in *. rewrite bind_upd_current by (by eapply kinv_block). set (s1 := set_pcb _ s).
  assert (H1 : kinv K s1) by (apply kinv_upd; [done..|by eapply kinv_current]). destruct (kinv_block K s HI) as [b Hb].
  assert (Hb1 : (pcb s1).[current_running s1] = Some (save_cause cause b)).
  { unfold s1. cbn. rewrite aget_alter, decide_True, Hb by (done || by eapply kinv_current). done. }
  unfold interrupt_helper. rewrite bind_get. erewrite bind_Ok by (apply pcb_at_Ok; exact Hb1).
  cbn [save_cause user_regs_context set_user_regs_context cp0_cause set_cp0_cause].
  destruct (Z.eqb_spec (Z.land cause 0x8000) 0) as [E|E]; cbn [negb]; [|by apply irq_timer_never_stops].
  destruct Ht as [?|[Hm Hsr]]; [done|].
  destruct (Z.eqb_spec (Z.land cause 0x0800) 0) as [E'|E']; cbn [negb]; [done|].
  unfold irq_ip3_helper. rewrite Hsr. destruct (irq_mac_never_stops K s1 H1 HK) as [[[] _]|([] & s' & E1 & H')].
  unfold returning. rewrite (bind_Ok _ _ _ _ _ E1). by apply outcome_Ok.
Qed.

(** What makes a trap or a frame end in the panic of the scheduler: a call that can wait or end its task, or a
    frame that takes a lock, of the only ready task *)
Definition stops (t : trap) (s : kstate) : Prop :=
  match t with Interrupt _ _ => False | SystemCall c => may_wait c = true /\ alone s end.

Definition stalls (fr : kframe) (s : kstate) : Prop :=
  match fr with KMutexAcquireLoop _ | KConditionWait _ => alone s | _ => False end.

(** The interrupts, and any system call *)
Lemma handle_safe_lemma K s t :
  kinv K s -> K + 40 < 2147483648 -> trap_ok K s t -> outcome (stops t s) (fun _ s' => kinv (K + 40) s') (handle t s).
Proof.
  intros HI HK Ht. destruct t as [cause sr|c]; [by apply interrupt_never_stops|]. cbn [handle trap_ok stops] in *.
  unfold system_call_helper. rewrite bind_upd_current by (by eapply kinv_block). set (s1 := set_pcb _ s).
  assert (H1 : kinv K s1) by (apply kinv_upd; [done..|by eapply kinv_current]).
  change (alone s) with (alone s1). apply do_syscall_safe; [done|done|]. by destruct c.
Qed.

Lemma resume_safe_lemma K s fr k :
  kinv K s -> K + 40 < 2147483648 -> frame_ok s fr -> outcome (stalls fr s) (fun _ s' => kinv (K + 40) s') (resume_sync fr k s).
Proof.
  intros HI HK Hf. destruct fr; cbn [resume_sync frame_ok stalls] in *;
    try (apply outcome_Ok; eapply kinv_mono, HI; lia); try done.
  - apply (outcome_kinv _ K); [lia|]. by apply outcome_never, kinv_syscall_return.
  - by apply safe_mutex_acquire_loop.
  - by apply safe_mutex_lock_acquire.
Qed.
