(* ===== verification/Keeps.v ===== *)
(** What the handlers keep: a small program logic for relations between the state before and after.

    [keeps P R m]: from a state in [P], if [m] succeeds, the new state is related to the old one by
    [R]. The class [Frame P R] lists the elementary updates every operation of the scheduler is made
    of; an instance of it says that [R] holds across each of them, and the lemmas of this file carry
    [R] across the operations. Two instances follow: the owner of a lock of a task changes in no
    operation of the scheduler, and the frames that the tasks have left to run name locks that
    exist. *)

From S2P Require Import Prelude Slist Kernel Queue Sched Sync Trap Safety.

(** ** Inverting a run *)

Lemma bind_inv {A B} (m : M A) (f : A -> M B) s x s' :
  (m ≫= f) s = Ok (x, s') -> exists y s1, m s = Ok (y, s1) /\ f y s1 = Ok (x, s').
Proof. unfold mbind, M_bind. destruct (m s) as [[y s1]| | |]; try done. eauto. Qed.

Lemma upd_current_inv f s x s' : upd_current f s = Ok (x, s') -> exists b, (pcb s).[current_running s] = Some b /\
  s' = set_pcb (<[Z.to_nat (current_running s) := f b]> (pcb s)) s.
Proof.
  intros E. unfold upd_current, upd_pcb, pcb_at, mbind, M_bind, get in E.
  destruct ((pcb s).[current_running s]) as [b|]; [|done]. injection E as _ <-. eauto.
Qed.

(** ** The logic *)

Definition keeps {A} (P : kstate -> Prop) (R : kstate -> kstate -> Prop) (m : M A) : Prop :=
  forall s x s', P s -> m s = Ok (x, s') -> R s s'.

(** An update of a block as the scheduler makes them: the saved context stays, or is that of a new
    task; the page directory stays, or is emptied; the saved registers stay as many. *)
Definition plain_update (b b' : pcb_t) : Prop :=
  (kernel_context b' = kernel_context b \/ kernel_context b' = [KExceptionExit]) /\
  (page_dir b' = page_dir b \/ page_dir b' = page_dir_init (page_dir b)) /\
  length (regs (user_regs_context b')) = length (regs (user_regs_context b)).

Class Frame (P : kstate -> Prop) (R : kstate -> kstate -> Prop) := {
  frame_refl s : R s s;
  frame_trans s1 s2 s3 : R s1 s2 -> R s2 s3 -> R s1 s3;
  frame_stable s s' : P s -> R s s' -> P s';
  frame_block s i b b' : (pcb s).[i] = Some b ->
    plain_update b b' -> R s (set_pcb (<[Z.to_nat i := b']> (pcb s)) s);
  frame_queues s v : R s (set_queues v s);
  frame_pids s v : R s (set_pid_list v s);
  frame_time s v : R s (set_time_elapsed v s);
  frame_semaphores s v : R s (set_semaphores v s);
  frame_conditions s v : R s (set_conditions v s);
  frame_barriers s v : R s (set_barriers v s)
}.

(** The registers of the running task, which only [scheduler] writes; [SwitchFrame] is what the other
    operations need to know of it. *)
Class Registers (R : kstate -> kstate -> Prop) := {
  frame_current s v : R s (set_current_running v s);
  frame_x s v : R s (set_screen_cursor_x v s);
  frame_y s v : R s (set_screen_cursor_y v s);
  frame_EntryHi s v : R s (set_EntryHi v s)
}.

Class SwitchFrame (P : kstate -> Prop) (R : kstate -> kstate -> Prop) := keeps_scheduler : keeps P R scheduler.

Create HintDb keeps.

Section rules.
Context {P : kstate -> Prop} {R : kstate -> kstate -> Prop} `{!Frame P R}.

Lemma keeps_bind {A B} (m : M A) (f : A -> M B) :
  keeps P R m -> (forall x, keeps P R (f x)) -> keeps P R (m ≫= f).
Proof.
  intros Hm Hf s x s' HP E. unfold mbind, M_bind in E. destruct (m s) as [[y s1]| | |] eqn:E1; try done.
  pose proof (Hm _ _ _ HP E1) as H1. eapply frame_trans; [exact H1|]. eapply Hf; [|exact E].
  by eapply frame_stable.
Qed.

Lemma keeps_ret {A} (x : A) : keeps P R (mret x).
Proof. intros s y s' _ E. injection E as _ <-. apply frame_refl. Qed.

Lemma keeps_get {A} (f : kstate -> A) : keeps P R (get f).
Proof. intros s y s' _ E. injection E as _ <-. apply frame_refl. Qed.

Lemma keeps_lift {A} (f : kstate -> option A) : keeps P R (fun s => lift (f s) s).
Proof. intros s y s' _ E. destruct (f s); [|done]. injection E as _ <-. apply frame_refl. Qed.

Lemma keeps_lift_const {A} (o : option A) : keeps P R (lift o).
Proof. apply (keeps_lift (fun _ => o)). Qed.

Lemma keeps_no_fuel {A} : keeps P R (@no_fuel A).
Proof. by intros s x s' _ E. Qed.

Lemma keeps_panic {A} msg : keeps P R (@panic A msg).
Proof. by intros s x s' _ E. Qed.

Lemma keeps_modify (f : kstate -> kstate) : (forall s, R s (f s)) -> keeps P R (modify f).
Proof. intros Hf s x s' _ E. injection E as _ <-. apply Hf. Qed.

Lemma keeps_pcb_at i : keeps P R (pcb_at i).
Proof. apply keeps_lift. Qed.

Lemma keeps_queue_at q : keeps P R (queue_at q).
Proof. apply keeps_lift. Qed.

Lemma keeps_upd_pcb i f : (forall b, plain_update b (f b)) -> keeps P R (upd_pcb i f).
Proof.
  intros Hf s x s' _ E. unfold upd_pcb, pcb_at, mbind, M_bind in E.
  destruct ((pcb s).[i]) as [b|] eqn:Hb; [|done]. injection E as _ <-. by apply (frame_block s i b).
Qed.

Lemma keeps_put_queue q v : keeps P R (put_queue q v).
Proof. apply keeps_modify. intros s. apply frame_queues. Qed.

Lemma keeps_put_semaphore x v : keeps P R (put_semaphore x v).
Proof. apply keeps_modify. intros s. apply frame_semaphores. Qed.

Lemma keeps_put_condition x v : keeps P R (put_condition x v).
Proof. apply keeps_modify. intros s. apply frame_conditions. Qed.

Lemma keeps_put_barrier x v : keeps P R (put_barrier x v).
Proof. apply keeps_modify. intros s. apply frame_barriers. Qed.

End rules.

#[export] Hint Resolve keeps_ret keeps_get keeps_lift_const keeps_no_fuel keeps_panic keeps_pcb_at
  keeps_queue_at keeps_put_queue keeps_put_semaphore keeps_put_condition keeps_put_barrier : keeps.

Ltac solve_plain := split; [|split];
  solve [by left | by right | left; by repeat case_match | reflexivity | apply length_insert | by repeat case_match].

(** Decompose an operation into its elementary updates. *)
Ltac keeps_step :=
  lazymatch goal with
  | |- keeps _ _ (mbind _ _) => apply keeps_bind; [|intros ?]
  | |- keeps _ _ (upd_pcb _ _) =>
      apply keeps_upd_pcb; intros ?; solve_plain
  | |- keeps _ _ (modify _) =>
      apply keeps_modify; intros ?;
      solve [apply frame_current | apply frame_pids | apply frame_time | apply frame_x | apply frame_y
            | apply frame_EntryHi]
  | _ => first [solve [auto with keeps typeclass_instances nocore] | progress cbn beta zeta | case_match]
  end.

Ltac keeps_tac := repeat keeps_step.

(** ** The operations *)

Section operations.
Context {P : kstate -> Prop} {R : kstate -> kstate -> Prop} `{!Frame P R}.

Lemma keeps_set_head q v : keeps P R (set_head q v).
Proof. unfold set_head. keeps_tac. Qed.

Lemma keeps_set_tail q v : keeps P R (set_tail q v).
Proof. unfold set_tail. keeps_tac. Qed.

Lemma keeps_deref p : keeps P R (deref p).
Proof. apply keeps_lift_const. Qed.

Hint Resolve keeps_set_head keeps_set_tail keeps_deref : keeps.

Lemma keeps_queue_is_empty q : keeps P R (queue_is_empty q).
Proof. unfold queue_is_empty. keeps_tac. Qed.

Lemma keeps_queue_push q i : keeps P R (queue_push q i).
Proof. unfold queue_push. keeps_tac. Qed.

Lemma keeps_queue_dequeue q : keeps P R (queue_dequeue q).
Proof. unfold queue_dequeue. keeps_tac. Qed.

Lemma keeps_queue_remove q i : keeps P R (queue_remove q i).
Proof. unfold queue_remove. keeps_tac. Qed.

Lemma keeps_queue_init q : keeps P R (queue_init q).
Proof. unfold queue_init. keeps_tac. Qed.

Lemma keeps_upd_current f :
  (forall b, kernel_context (f b) = kernel_context b /\ page_dir (f b) = page_dir b /\
    length (regs (user_regs_context (f b))) = length (regs (user_regs_context b))) ->
  keeps P R (upd_current f).
Proof.
  intros Hf. unfold upd_current. apply keeps_bind; [auto with keeps|intros i].
  apply keeps_upd_pcb. intros b. destruct (Hf b) as (? & ? & ?). split; [by left|split; [by left|done]].
Qed.

Hint Resolve keeps_queue_is_empty keeps_queue_push keeps_queue_dequeue keeps_queue_remove keeps_queue_init : keeps.

Lemma keeps_syscall_return v : keeps P R (syscall_return v).
Proof. apply keeps_upd_current. intros b. split_and!; [done|done|apply length_insert]. Qed.

Lemma keeps_current_pid : keeps P R current_pid.
Proof. unfold current_pid. keeps_tac. Qed.

Hint Resolve keeps_syscall_return keeps_current_pid : keeps.

Lemma keeps_unblock_loop fuel p sel mp mw : keeps P R (unblock_loop fuel p sel mp mw).
Proof. revert p sel mp mw. induction fuel; intros; cbn [unblock_loop]; keeps_tac. Qed.

Hint Resolve keeps_unblock_loop : keeps.

Lemma keeps_do_unblock_one q : keeps P R (do_unblock_one q).
Proof. unfold do_unblock_one. keeps_tac. Qed.

Lemma keeps_unblock_all_loop fuel q : keeps P R (unblock_all_loop fuel q).
Proof. induction fuel; cbn [unblock_all_loop]; keeps_tac. Qed.

Hint Resolve keeps_do_unblock_one keeps_unblock_all_loop : keeps.

Lemma keeps_do_unblock_all q : keeps P R (do_unblock_all q).
Proof. unfold do_unblock_all. keeps_tac. Qed.

Lemma keeps_check_sleeping_loop fuel p : keeps P R (check_sleeping_loop fuel p).
Proof. revert p. induction fuel; intros; cbn [check_sleeping_loop]; unfold get_ticks, upd_current; keeps_tac. Qed.

Hint Resolve keeps_do_unblock_all keeps_check_sleeping_loop : keeps.

Lemma keeps_check_sleeping : keeps P R check_sleeping.
Proof. unfold check_sleeping. keeps_tac. Qed.

Lemma keeps_on_pid_list f : keeps P R (on_pid_list f).
Proof. unfold on_pid_list. keeps_tac. Qed.

Hint Resolve keeps_check_sleeping keeps_on_pid_list : keeps.

Lemma keeps_init_pcb task : keeps P R (init_pcb task).
Proof. unfold init_pcb, pid_alloc. keeps_tac. Qed.

Lemma keeps_mutex_at l : keeps P R (mutex_at l).
Proof. apply keeps_lift. Qed.

End operations.

#[export] Hint Resolve keeps_set_head keeps_set_tail keeps_deref keeps_queue_is_empty keeps_queue_push
  keeps_queue_dequeue keeps_queue_remove keeps_queue_init keeps_syscall_return keeps_current_pid
  keeps_do_unblock_one keeps_do_unblock_all keeps_check_sleeping keeps_on_pid_list
  keeps_init_pcb keeps_mutex_at : keeps.

Section registers.
Context {P : kstate -> Prop} {R : kstate -> kstate -> Prop} `{!Frame P R} `{!Registers R}.

Lemma keeps_scheduler_loop fuel p mp mw : keeps P R (scheduler_loop fuel p mp mw).
Proof. revert p mp mw. induction fuel; intros; cbn [scheduler_loop]; keeps_tac. Qed.

Hint Resolve keeps_scheduler_loop : keeps.

#[export] Instance registers_switch : SwitchFrame P R.
Proof. unfold SwitchFrame, scheduler, upd_current. keeps_tac. Qed.

End registers.

(** The lock a call names. *)
Definition lock_arg (c : syscall) : option lockref :=
  match c with
  | SYSCALL_MUTEX_LOCK_INIT l | SYSCALL_MUTEX_LOCK_ACQUIRE l | SYSCALL_MUTEX_LOCK_RELEASE l
  | SYSCALL_COND_WAIT _ l => Some l
  | _ => None
  end.

(** The lock a call may have to wait for. *)
Definition block_arg (c : syscall) : option lockref :=
  match c with
  | SYSCALL_MUTEX_LOCK_ACQUIRE l | SYSCALL_COND_WAIT _ l => Some l
  | _ => None
  end.

Lemma keeps_weaken {A} (P P' : kstate -> Prop) R (m : M A) :
  (forall s, P s -> P' s) -> keeps P' R m -> keeps P R m.
Proof. intros HP Hm s x s' Hs. by apply Hm, HP. Qed.

(** The operations that switch tasks or write locks: [ctx k], saving [k] is within [R]; [mtx l],
    writing the lock [l] is. *)
Section switching.
Context {P : kstate -> Prop} {R : kstate -> kstate -> Prop} `{!Frame P R} `{!SwitchFrame P R}.

Definition ctx (k : list kframe) : Prop := keeps P R (upd_current (set_kernel_context k)).

Definition mtx (l : lockref) : Prop := forall v, keeps P R (put_mutex l v).

Lemma keeps_do_scheduler k : ctx k -> keeps P R (do_scheduler k).
Proof. intros Hk. unfold do_scheduler. apply keeps_bind; [exact Hk|intros ?].
  apply keeps_bind; [apply keeps_scheduler|intros ?]. keeps_tac. Qed.

Lemma keeps_do_wait p q st k : ctx k -> keeps P R (do_wait p q st k).
Proof.
  intros Hk. unfold do_wait. do 4 (apply keeps_bind; [by keeps_tac|intros ?]). by apply keeps_do_scheduler.
Qed.

Lemma keeps_current_wait q st k : ctx k -> keeps P R (c ← get current_running; do_wait c q st k).
Proof. intros Hk. apply keeps_bind; [by keeps_tac|intros ?]. by apply keeps_do_wait. Qed.

Lemma keeps_do_sleep n k : ctx k -> keeps P R (do_sleep n k).
Proof.
  intros Hk. unfold do_sleep, get_ticks. apply keeps_bind; [by keeps_tac|intros ?].
  apply keeps_bind; [by apply keeps_upd_current|intros ?]. by apply keeps_current_wait.
Qed.

Lemma keeps_irq_timer k : ctx k -> keeps P R (irq_timer k).
Proof.
  intros Hk. unfold irq_timer. apply keeps_bind; [by keeps_tac|intros ?].
  apply keeps_bind; [by keeps_tac|intros ?]. by apply keeps_do_scheduler.
Qed.

Lemma keeps_wait i k : ctx k -> keeps P R (wait i k).
Proof.
  intros Hk. unfold wait, pid_is_valid. do 3 (apply keeps_bind; [by keeps_tac|intros ?]).
  case_match; [by keeps_tac|]. apply keeps_bind; [by keeps_tac|intros ?]. by apply keeps_do_wait.
Qed.

Lemma keeps_kill_locks_loop n i j : (forall i, mtx (Locks i)) -> keeps P R (kill_locks_loop n i j).
Proof.
  intros Hm. revert i. induction n as [|n IH]; intros i; cbn [kill_locks_loop]; [by keeps_tac|].
  apply keeps_bind; [by keeps_tac|intros b]. case_match; [|by keeps_tac].
  apply keeps_bind; [by keeps_tac|intros m]. apply keeps_bind; [|by intros; apply IH].
  case_match; [|by keeps_tac]. apply keeps_bind; [by keeps_tac|intros ?].
  apply keeps_bind; [by keeps_tac|intros ?]. apply Hm.
Qed.

Lemma keeps_kill i k : ctx (KKillReturn :: k) -> (forall i, mtx (Locks i)) -> keeps P R (kill i k).
Proof.
  intros Hk Hm. unfold kill, pid_free. apply keeps_bind; [by keeps_tac|intros ?]. case_match; [by keeps_tac|].
  do 3 (apply keeps_bind; [by keeps_tac|intros ?]). apply keeps_bind; [by apply keeps_kill_locks_loop|intros ?].
  do 3 (apply keeps_bind; [by keeps_tac|intros ?]). case_match; [by apply keeps_do_scheduler|by keeps_tac].
Qed.

Lemma keeps_exit k : ctx (KKillReturn :: k) -> (forall i, mtx (Locks i)) -> keeps P R (exit k).
Proof.
  intros Hk Hm. unfold exit. do 2 (apply keeps_bind; [by keeps_tac|intros ?]). by apply keeps_kill.
Qed.

Lemma keeps_add_lock_num n : keeps P R (add_lock_num n).
Proof. by apply keeps_upd_current. Qed.

Lemma keeps_mutex_acquire_loop l k :
  ctx (KMutexAcquireLoop l :: k) -> mtx l -> keeps P R (mutex_acquire_loop l k).
Proof.
  intros Hk Hm. unfold mutex_acquire_loop. apply keeps_bind; [by keeps_tac|intros m].
  case_match; [|by apply keeps_current_wait]. apply keeps_bind; [|intros ?; by keeps_tac].
  unfold take_lock. apply keeps_bind; [apply keeps_add_lock_num|intros ?].
  apply keeps_bind; [by keeps_tac|intros ?]. apply Hm.
Qed.

Lemma keeps_do_mutex_lock_acquire l k :
  ctx (KMutexAcquireLoop l :: k) -> mtx l -> keeps P R (do_mutex_lock_acquire l k).
Proof.
  intros Hk Hm. unfold do_mutex_lock_acquire. do 2 (apply keeps_bind; [by keeps_tac|intros ?]).
  case_match; [by keeps_tac|by apply keeps_mutex_acquire_loop].
Qed.

Lemma keeps_do_mutex_lock_release l : mtx l -> keeps P R (do_mutex_lock_release l).
Proof.
  intros Hm. unfold do_mutex_lock_release. do 2 (apply keeps_bind; [by keeps_tac|intros ?]).
  case_match; [by keeps_tac|]. apply keeps_bind; [by keeps_tac|intros ?].
  apply keeps_bind; [apply keeps_add_lock_num|intros ?]. apply Hm.
Qed.

Lemma keeps_do_mutex_lock_init l : mtx l -> keeps P R (do_mutex_lock_init l).
Proof. intros Hm. unfold do_mutex_lock_init. apply keeps_bind; [apply Hm|intros ?]. keeps_tac. Qed.

Lemma keeps_do_condition_wait x l k :
  ctx (KConditionWait l :: k) -> mtx l -> keeps P R (do_condition_wait x l k).
Proof.
  intros Hk Hm. unfold do_condition_wait, condition_at.
  apply keeps_bind; [apply keeps_lift|intros ?]. apply keeps_bind; [by keeps_tac|intros ?].
  apply keeps_bind; [by apply keeps_do_mutex_lock_release|intros ?]. by apply keeps_current_wait.
Qed.

Lemma keeps_returning m : keeps P R m -> keeps P R (returning m).
Proof. intros Hm. apply keeps_bind; [done|intros ?]. keeps_tac. Qed.

(** Every system call. *)
Lemma keeps_do_syscall c k :
  ctx k -> ctx (KKillReturn :: k) ->
  (forall l, block_arg c = Some l -> ctx (KMutexAcquireLoop l :: k) /\ ctx (KConditionWait l :: k)) ->
  (forall l, lock_arg c = Some l -> mtx l) ->
  (forall i, mtx (Locks i)) -> keeps P R (do_syscall c k).
Proof.
  intros Hk Hkk Hl Hl3 Hm. destruct c; cbn [do_syscall]; try apply keeps_returning;
    try (destruct (Hl lock eq_refl) as (Hl1 & Hl2)); try specialize (Hl3 lock eq_refl).
  - by keeps_tac.
  - by apply keeps_kill.
  - by apply keeps_exit.
  - by apply keeps_wait.
  - by apply keeps_do_sleep.
  - unfold do_getpid. by keeps_tac.
  - by apply keeps_do_mutex_lock_init.
  - by apply keeps_do_mutex_lock_acquire.
  - by apply keeps_do_mutex_lock_release.
  - unfold do_semaphore_init. by keeps_tac.
  - unfold do_semaphore_up, semaphore_at. repeat (apply keeps_bind; [first [apply keeps_lift|by keeps_tac]|intros ?]). by keeps_tac.
  - unfold do_semaphore_down, semaphore_at. do 3 (apply keeps_bind; [first [apply keeps_lift|by keeps_tac]|intros ?]).
    case_match; [by apply keeps_current_wait|by keeps_tac].
  - unfold do_condition_init. by keeps_tac.
  - by apply keeps_do_condition_wait.
  - unfold do_condition_signal, condition_at. apply keeps_bind; [apply keeps_lift|intros ?]. by keeps_tac.
  - unfold do_condition_broadcast, condition_at. apply keeps_bind; [apply keeps_lift|intros ?]. by keeps_tac.
  - unfold do_barrier_init. by keeps_tac.
  - unfold do_barrier_wait, barrier_at. do 3 (apply keeps_bind; [first [apply keeps_lift|by keeps_tac]|intros ?]).
    case_match; [by keeps_tac|by apply keeps_current_wait].
  - unfold do_wait_recv_package. by apply keeps_current_wait.
Qed.

Lemma keeps_interrupt_helper sr k : ctx k -> keeps P R (interrupt_helper sr k).
Proof.
  intros Hk. unfold interrupt_helper. do 2 (apply keeps_bind; [by keeps_tac|intros ?]).
  case_match; [by apply keeps_irq_timer|]. case_match; [|by keeps_tac].
  apply keeps_bind; [|intros ?; by keeps_tac]. unfold irq_ip3_helper, irq_mac. by keeps_tac.
Qed.

End switching.

(** A relation that survives the saving of any context and the writing of any lock survives every
    trap and every resumed frame. *)
Section everything.
Context {P : kstate -> Prop} {R : kstate -> kstate -> Prop} `{!Frame P R} `{!SwitchFrame P R}.
Hypothesis (Hctx : forall k, ctx (P := P) (R := R) k) (Hmtx : forall l, mtx (P := P) (R := R) l).

Lemma keeps_any_trap t : keeps P R (handle t).
Proof.
  destruct t as [cause sr|c]; cbn [handle].
  - apply keeps_bind; [by apply keeps_upd_current|intros _]. by apply keeps_interrupt_helper.
  - apply keeps_bind; [by apply keeps_upd_current|intros _]. apply keeps_do_syscall; auto.
Qed.

Lemma keeps_any_frame fr k : keeps P R (resume_sync fr k).
Proof.
  destruct fr; cbn [resume_sync]; try apply keeps_ret; try by intros s x s'.
  - apply keeps_bind; [apply keeps_syscall_return|intros _; apply keeps_ret].
  - by apply keeps_mutex_acquire_loop.
  - by apply keeps_do_mutex_lock_acquire.
Qed.

End everything.
