(* ===== verification/Run.v ===== *)
(** The kernel as it runs: from boot, through any sequence of traps and resumed frames.

    [config_ok] is the invariant of a running machine: that of [KernelInv], and that every frame
    left to run, of the current task or saved in a block, names a lock that exists. *)

From S2P Require Import Prelude Slist Kernel Queue Sched Sync SchedSpec KernelInv Trap Safety Keeps.

(** ** Configurations *)

Definition frames_ok (s : kstate) : Prop :=
  forall i b, (pcb s).[i] = Some b -> Forall (frame_ok s) (kernel_context b).

Definition mode_frames (m : mode) : list kframe := match m with User => [] | KernelFrames k => k end.

Definition config_ok (K : Z) (c : mode * kstate) : Prop :=
  kinv K (snd c) /\ frames_ok (snd c) /\ Forall (frame_ok (snd c)) (mode_frames (fst c)).

(** Steps in which programs respect [call_ok] and only the two devices interrupt; [P] bounds the
    priorities of the tasks that are spawned. *)
Inductive good_step (P : Z) : mode * kstate -> mode * kstate -> Prop :=
  | good_trap t s c : trap_ok P s t -> step_by_trap t s c -> good_step P (User, s) c
  | good_frame fr k s c : step_by_frame fr k s c -> good_step P (KernelFrames (fr :: k), s) c.

Inductive steps (P : Z) : nat -> mode * kstate -> mode * kstate -> Prop :=
  | steps_none c : steps P 0 c c
  | steps_more n c1 c2 c3 : good_step P c1 c2 -> steps P n c2 c3 -> steps P (S n) c1 c3.

(** [main] after [init_task] and [init_mutex_locks], with [.bss] zeroed. *)
Record bss (s : kstate) : Prop := {
  bss_pcb : length (pcb s) = 16%nat;
  bss_pid_list : length (pid_list s) = 16%nat;
  bss_contexts i b : (pcb s).[i] = Some b -> kernel_context b = [];
  bss_empty q r : queues s !! q = Some r -> r = Queue None None;
  bss_recv : is_Some (queues s !! RecvBlockQueue);
  bss_locks i : 0 <= i < MAX_LOCKS_NUM -> is_Some (mutexes s !! Locks i);
  bss_lock_queues l : is_Some (mutexes s !! l) -> is_Some (queues s !! LockQueue l);
  bss_semaphores x : is_Some (semaphores s !! x) -> is_Some (queues s !! SemQueue x);
  bss_conditions x : is_Some (conditions s !! x) -> is_Some (queues s !! CondQueue x);
  bss_barriers x : is_Some (barriers s !! x) -> is_Some (queues s !! BarrierQueue x)
}.

(** ** Frames name locks that exist *)

Definition frames_kept (s s' : kstate) : Prop :=
  (forall l, is_Some (mutexes s !! l) -> is_Some (mutexes s' !! l)) /\ (frames_ok s -> frames_ok s').

Lemma frame_ok_mono s s' fr :
  (forall l, is_Some (mutexes s !! l) -> is_Some (mutexes s' !! l)) -> frame_ok s fr -> frame_ok s' fr.
Proof. intros H. destruct fr; cbn; auto. Qed.

#[global] Instance frames_frame (fs : list kframe) : Frame (fun s => Forall (frame_ok s) fs) frames_kept.
Proof.
  split; try by (intros; split).
  - intros s1 s2 s3 [A1 B1] [A2 B2]. split; auto.
  - intros s s' HF [Hm _]. eapply Forall_impl; [exact HF|]. intros fr. by apply frame_ok_mono.
  - intros s i b b' Hb [Hk _]. split; [done|]. intros HF j bj. cbn. rewrite (aget_upd_pcb _ i j b) by done.
    case_decide; intros E; simplify_eq.
    + destruct Hk as [->| ->]; [by eapply Forall_impl; [by apply (HF i b)|by destruct x]|by repeat constructor].
    + eapply Forall_impl; [by apply (HF j bj)|]. by intros [].
Qed.

#[global] Instance frames_registers : Registers frames_kept.
Proof. by split. Qed.

Lemma ctx_frames fs k :
  (forall s, Forall (frame_ok s) fs -> Forall (frame_ok s) k) ->
  keeps (fun s => Forall (frame_ok s) fs) frames_kept (upd_current (set_kernel_context k)).
Proof.
  intros Hk s x s' HP E. unfold upd_current in E. rewrite bind_get in E.
  unfold upd_pcb, pcb_at, mbind, M_bind in E. destruct ((pcb s).[current_running s]) as [b|] eqn:Hb; [|done].
  injection E as _ <-. split; [done|]. intros HF j bj. cbn.
  rewrite (aget_upd_pcb _ _ j b) by done. case_decide; intros E; simplify_eq.
  - eapply Forall_impl; [by apply Hk|]. by intros [].
  - eapply Forall_impl; [by apply (HF j bj)|]. by intros [].
Qed.

Lemma mtx_frames fs l v : keeps (fun s => Forall (frame_ok s) fs) frames_kept (put_mutex l v).
Proof.
  intros s x s' _ E. injection E as _ <-.
  assert (Hm : forall l', is_Some (mutexes s !! l') -> is_Some (<[l := v]> (mutexes s) !! l')).
  { intros l' H. rewrite lookup_insert. case_decide; eauto. }
  split; [done|]. intros HF i b Hb. eapply Forall_impl; [by apply (HF i b)|]. intros fr. by apply frame_ok_mono.
Qed.

Definition trap_frames (t : trap) : list kframe :=
  match t with
  | SystemCall c => match block_arg c with Some l => [KConditionWait l] | None => [] end
  | _ => []
  end.

Lemma keeps_handle t : keeps (fun s => Forall (frame_ok s) (trap_frames t)) frames_kept (handle t).
Proof.
  destruct t as [cause sr|c]; cbn [handle].
  - apply keeps_bind; [by apply keeps_upd_current|intros _].
    apply keeps_interrupt_helper. apply ctx_frames. intros s _. by repeat constructor.
  - apply keeps_bind; [by apply keeps_upd_current|intros _].
    apply keeps_do_syscall; [| | |intros l _ v; by apply mtx_frames|intros i v; by apply mtx_frames].
    + apply ctx_frames. intros s _. by repeat constructor.
    + apply ctx_frames. intros s _. by repeat constructor.
    + intros l Hl. cbn [trap_frames]. rewrite Hl.
      split; apply ctx_frames; intros s HF%Forall_inv; by repeat constructor.
Qed.

Lemma keeps_resume fr k : keeps (fun s => Forall (frame_ok s) (fr :: k)) frames_kept (resume_sync fr k).
Proof.
  destruct fr; cbn [resume_sync]; try apply keeps_ret; try by intros s x s'.
  - apply keeps_bind; [apply keeps_syscall_return|intros _; apply keeps_ret].
  - apply keeps_mutex_acquire_loop; [|intros v; by apply mtx_frames]. by apply ctx_frames.
  - apply keeps_do_mutex_lock_acquire; [|intros v; by apply mtx_frames]. apply ctx_frames.
    intros s [? ?]%Forall_cons. by apply Forall_cons.
Qed.

(** ** A step from a good configuration *)

Lemma trap_ok_frames K s t : trap_ok K s t -> Forall (frame_ok s) (trap_frames t).
Proof.
  destruct t as [|c]; cbn [trap_ok trap_frames]; [by constructor|].
  destruct c; cbn; intros H; repeat constructor; cbn; (done || apply H).
Qed.

Lemma trap_ok_mono K K' s t : K <= K' -> trap_ok K s t -> trap_ok K' s t.
Proof. intros HK. destruct t as [|c]; [done|]. destruct c; cbn; try done. lia. Qed.

Lemma mode_of_frames k : mode_frames (mode_of k) = k.
Proof. by destruct k. Qed.

(** The new mode's frames are good. *)
Lemma next_mode_ok c k s m :
  frames_ok s -> Forall (frame_ok s) k -> next_mode c k s = Some m -> Forall (frame_ok s) (mode_frames m).
Proof.
  intros HF Hk. destruct c; cbn; [intros [= <-]; by rewrite mode_of_frames|].
  destruct ((pcb s).[current_running s]) as [b|] eqn:Hb; cbn; [|done].
  intros [= <-]. rewrite mode_of_frames. by apply (HF (current_running s) b).
Qed.

Lemma next_mode_is_Some K c k s : kinv K s -> is_Some (next_mode c k s).
Proof.
  intros HI. destruct c; cbn; [eauto|]. destruct (kinv_block K s HI) as [b ->]. cbn. eauto.
Qed.

Lemma trap_config K s t :
  config_ok K (User, s) -> K + 40 < 2147483648 -> trap_ok K s t ->
  ((stops t s /\ handle t s = Panic "no task to run.") \/ exists c, step_by_trap t s c) /\
  (forall c, step_by_trap t s c -> config_ok (K + 40) c).
Proof.
  intros (HI & HF & _) HK Ht. cbn in HI, HF. pose proof (handle_safe_lemma K s t HI HK Ht) as Hs. split.
  - destruct Hs as [|(c & s' & E & HI')]; [by left|right].
    destruct (next_mode_is_Some (K + 40) c [] s' HI') as [m Hm]. by exists (m, s'), c.
  - intros [m s'] (c & E & Hm). cbn in E, Hm.
    destruct Hs as [[_ E']|(c' & s'' & E' & HI')]; rewrite E in E'; simplify_eq.
    destruct (keeps_handle t s c' s'' (trap_ok_frames _ _ _ Ht) E) as [_ HF'].
    split_and!; [done|by apply HF'|]. by apply (next_mode_ok c' []); [apply HF'| |].
Qed.

Lemma frame_config K s fr k :
  config_ok K (KernelFrames (fr :: k), s) -> K + 40 < 2147483648 ->
  ((stalls fr s /\ resume_sync fr k s = Panic "no task to run.") \/ exists c, step_by_frame fr k s c) /\
  (forall c, step_by_frame fr k s c -> config_ok (K + 40) c).
Proof.
  intros (HI & HF & Hk) HK. cbn in HI, HF, Hk. pose proof (Forall_inv Hk) as Hfr.
  pose proof (resume_safe_lemma K s fr k HI HK Hfr) as Hs. split.
  - destruct Hs as [|(c & s' & E & HI')]; [by left|right].
    destruct (next_mode_is_Some (K + 40) c k s' HI') as [m Hm]. by exists (m, s'), c.
  - intros [m s'] (c & E & Hm). cbn in E, Hm.
    destruct Hs as [[_ E']|(c' & s'' & E' & HI')]; rewrite E in E'; simplify_eq.
    destruct (keeps_resume fr k s c' s'' Hk E) as [Hmt HF'].
    split_and!; [done|by apply HF'|]. apply (next_mode_ok c' k s''); [by apply HF'| |done].
    eapply Forall_impl; [by eapply Forall_inv_tail|]. intros fr'. by apply frame_ok_mono.
Qed.

Lemma steps_config P n : forall K c c',
  steps P n c c' -> config_ok K c -> P <= K -> K + 40 * Z.of_nat n < 2147483648 ->
  config_ok (K + 40 * Z.of_nat n) c'.
Proof.
  induction n as [|n IH]; intros K c c' Hs Hc HP HK; inversion Hs as [|? ? c1 ? Hstep Hrest]; subst.
  { by rewrite Z.add_0_r. }
  replace (K + 40 * Z.of_nat (S n)) with (K + 40 + 40 * Z.of_nat n) in * by lia.
  apply (IH (K + 40) c1); [done| |lia|lia].
  destruct Hstep as [t s c1 Ht Hst|fr k s c1 Hst].
  - apply (trap_config K s t); [done|lia|by eapply trap_ok_mono|done].
  - by apply (frame_config K s fr k); [|lia|].
Qed.

(** ** Boot *)

(** The locks are free afterwards, and the queues other than theirs are as they were. *)
Lemma kernel_ok_init_locks n : forall K s Q free i,
  kernel_ok K s Q free -> no_orphans Q free -> 0 <= i ->
  (forall j, i <= j < i + Z.of_nat n -> idle_queue s (LockQueue (Locks j))) ->
  exists s' Q', init_mutex_locks_loop n i s = Ok (tt, s') /\ kernel_ok K s' Q' free /\ no_orphans Q' free /\
    current_running s' = current_running s /\ pcb s' = pcb s /\
    (forall q, (forall j, q <> LockQueue (Locks j)) -> Q' !! q = Q !! q) /\
    (forall j, mutexes s' !! Locks j = if decide (i <= j < i + Z.of_nat n) then Some (Mutex UNLOCKED 0) else mutexes s !! Locks j).
Proof.
  induction n as [|n IH]; intros K s Q free i HK Hno Hi Hidle; cbn [init_mutex_locks_loop].
  { exists s, Q. split_and!; try done. intros j. by rewrite decide_False by lia. }
  assert (H0 : idle_queue s (LockQueue (Locks i))) by (apply Hidle; lia).
  pose proof (kernel_ok_queue_init K s Q free _ HK H0) as HK1.
  apply (kernel_ok_put_mutex K _ _ free (Locks i) (Mutex UNLOCKED 0)) in HK1;
    [|by rewrite lookup_insert_eq; eauto].
  set (s1 := set_mutexes _ (set_queues _ s)) in HK1.
  assert (E1 : do_mutex_lock_init (Locks i) s = Ok (tt, s1)) by done.
  destruct (IH K s1 _ free (i + 1) HK1) as (s' & Q' & E & HK' & Hno' & Hc & Hp & Hq & Hm);
    [by apply no_orphans_queue_init|lia| |].
  - intros j Hj. unfold idle_queue, s1. cbn. rewrite lookup_insert_ne by (intros [= ->]; lia). apply Hidle. lia.
  - exists s', Q'. rewrite (bind_Ok _ _ _ _ _ E1). split_and!; try done.
    + intros q Hne. rewrite (Hq q Hne). by rewrite lookup_insert_ne.
    + intros j. rewrite Hm. unfold s1. cbn. destruct (decide (j = i)) as [->|Hji].
      * rewrite decide_False by lia. by rewrite decide_True, lookup_insert_eq by lia.
      * rewrite lookup_insert_ne by congruence. destruct (decide (i + 1 <= j < _)), (decide (i <= j < _)); (done || lia).
Qed.

(** Empty queues represent themselves. *)
Lemma qrep_empty s Q :
  queues s = queue_of <$> Q -> (forall q xs, Q !! q = Some xs -> xs = []) -> qrep s Q.
Proof.
  intros Hq HQ. split; [done| | |].
  - intros q xs H. by rewrite (HQ q xs H).
  - intros q xs H. rewrite (HQ q xs H). constructor.
  - intros q q' xs xs' i H _ Hi. rewrite (HQ q xs H) in Hi. by apply not_elem_of_nil in Hi.
Qed.

Lemma elem_of_pids i : 1 <= i < MAX_TASK_NUM -> i ∈ range 1 15.
Proof. intros Hi. apply elem_of_range. unfold MAX_TASK_NUM in Hi. lia. Qed.

(** A table without tasks. *)
Lemma tasks_ok_empty K Q P :
  length P = 16%nat -> (forall q xs, Q !! q = Some xs -> xs = []) -> tasks_ok K Q (range 1 15) P.
Proof.
  intros HP HQ. split; [done| |].
  - intros q xs i H Hi. rewrite (HQ q xs H) in Hi. by apply not_elem_of_nil in Hi.
  - intros i Hi Hn. by destruct (Hn (elem_of_pids i Hi)).
Qed.

(** [.bss] holds empty queues. *)
Lemma bss_queues s : bss s -> exists Q : gmap qref (list Z),
  queues s = queue_of <$> Q /\ (forall q xs, Q !! q = Some xs -> xs = []).
Proof.
  intros H. exists ((fun _ => []) <$> queues s). split.
  - apply map_eq. intros q. rewrite !lookup_fmap. destruct (queues s !! q) as [r|] eqn:E; [|done].
    cbn. by rewrite (bss_empty s H q r E).
  - intros q xs. rewrite lookup_fmap. destruct (queues s !! q); cbn; intros; by simplify_eq.
Qed.

(** What [init_task] does to the block of [main]. *)
Definition boot_pcb (b : pcb_t) : pcb_t := set_cursor_y 0 (set_cursor_x 0 (set_status TASK_RUNNING (main_pcb b))).

(** The state in which [init_task] calls [init_pcb] first. *)
Definition boot_state (l : list node) (s : kstate) : kstate :=
  set_pid_list l (set_queues (<[WaitQueue 0 := Queue None None]> (<[SleepQueue := Queue None None]>
    (<[ReadyQueue := Queue None None]> (queues s)))) (set_current_running 0
    (set_pcb (alter boot_pcb (Z.to_nat 0) (pcb s)) s))).

Lemma init_task_prefix s l a b :
  is_Some ((pcb s).[0]) -> slist_init (pid_list s) MAX_TASK_NUM = Some l ->
  init_task a b s = (init_pcb a;; init_pcb b) (boot_state l s).
Proof.
  intros H0 El. unfold init_task, init_pid_list, queue_init, put_queue. rewrite !bind_modify.
  rewrite bind_upd_pcb by (cleanup; eauto). rewrite bind_modify.
  do 3 (rewrite bind_upd_pcb by (cleanup; repeat apply aget_alter_is_Some; eauto); cleanup).
  rewrite bind_modify. rewrite bind_assoc, bind_get, bind_assoc. cleanup. rewrite El. cbn [lift]. rewrite bind_ret.
  rewrite bind_modify. rewrite !alter_alter. reflexivity.
Qed.

Lemma boot_state_ok s : bss s ->
  exists l Q, slist_init (pid_list s) MAX_TASK_NUM = Some l /\ kernel_ok 1 (boot_state l s) Q (range 1 15) /\
    (forall q xs, Q !! q = Some xs -> xs = []).
Proof.
  intros H. destruct (bss_queues s H) as (Q0 & Hq0 & HQ0).
  destruct (slist_init_rep (pid_list s) MAX_TASK_NUM) as (l & El & Hrep); [done|by rewrite (bss_pid_list s H)|].
  set (Q := <[WaitQueue 0 := []]> (<[SleepQueue := []]> (<[ReadyQueue := []]> Q0))). exists l, Q.
  assert (HQ : forall q xs, Q !! q = Some xs -> xs = []).
  { intros q xs. unfold Q. rewrite !lookup_insert. repeat case_decide; intros; simplify_eq; try done. by eapply HQ0. }
  assert (Hdom : forall q, is_Some (queues s !! q) -> is_Some (Q !! q)).
  { intros q Hs. do 3 apply dom_insert. by rewrite Hq0, lookup_fmap, fmap_is_Some in Hs. }
  destruct H as [Hp Hl _ He Hr Hlk Hlq Hsq Hcq Hbq]. split; [done|]. split; [split|done].
  - apply qrep_empty; [|done]. unfold Q. cbn. by rewrite !fmap_insert, Hq0.
  - exact Hrep.
  - apply tasks_ok_empty; [cbn; by rewrite length_alter|done].
  - split; cbn; eauto.
    + unfold Q. rewrite !lookup_insert_ne, lookup_insert_eq by done. eauto.
    + unfold Q. rewrite lookup_insert_ne, lookup_insert_eq by done. eauto.
    + intros i Hi Hn. by destruct (Hn (elem_of_pids i Hi)).
Qed.

(** The task [i] is ready to run for the first time, as [task] says. *)
Definition task_ready (s : kstate) (i : Z) (task : task_info_t) : Prop := exists b, (pcb s).[i] = Some b /\
  pid b = i /\ name b = ti_name task /\ type b = ti_type task /\ priority b = ti_priority task /\
  status b = TASK_READY /\ queue b = Some ReadyQueue /\
  cp0_epc (user_regs_context b) = entry_point task /\ kernel_context b = [KExceptionExit].

Lemma task_ready_new s s' i task : is_Some ((pcb s).[i]) -> links_only (set_pcb (alter (new_pcb i task) (Z.to_nat i) (pcb s)) s) s' -> task_ready s' i task.
Proof.
  intros [b Hb] HL. set (f := fun b => (pid b, name b, type b, priority b, status b, queue b, user_regs_context b, kernel_context b)).
  pose proof (links_only_fmap f _ _ i (fun _ => eq_refl) HL) as E. cbn [pcb set_pcb] in E.
  assert (Hi : 0 <= i) by (apply aget_Some in Hb; lia). rewrite aget_alter, decide_True, Hb in E by done. unfold task_ready.
  destruct ((pcb s').[i]) as [b'|]; [|done]. exists b'. unfold f in E. cbn in E. injection E as -> -> -> -> -> -> E ->. by rewrite E.
Qed.

Lemma task_ready_same s s' i task : links_only s s' -> task_ready s i task -> task_ready s' i task.
Proof.
  intros HL (b & Hb & H). set (f := fun b => (pid b, name b, type b, priority b, status b, queue b, user_regs_context b, kernel_context b)).
  pose proof (links_only_fmap f _ _ i (fun _ => eq_refl) HL) as E. rewrite Hb in E. unfold task_ready.
  destruct ((pcb s').[i]) as [b'|]; [|done]. exists b'. unfold f in E. injection E as -> -> -> -> -> -> E ->. by rewrite E.
Qed.

Lemma task_ready_blocks s s' i task : (pcb s').[i] = (pcb s).[i] -> task_ready s i task -> task_ready s' i task.
Proof. unfold task_ready. by intros ->. Qed.

(** [main] runs; the tasks 1 and 2 are ready, in this order; nobody sleeps. *)
Definition two_ready (s : kstate) (Q : gmap qref (list Z)) (a b : task_info_t) : Prop :=
  Q !! ReadyQueue = Some [1; 2] /\ Q !! SleepQueue = Some [] /\ task_ready s 1 a /\ task_ready s 2 b.

(** Two tasks are spawned; the queues of the locks stay empty. *)
Lemma boot_spawn K s Q free a b :
  kernel_ok K s Q (1 :: 2 :: free) -> no_orphans Q (1 :: 2 :: free) -> is_Some ((pcb s).[current_running s]) ->
  (forall q xs, Q !! q = Some xs -> xs = []) -> 1 <= ti_priority a <= K -> 1 <= ti_priority b <= K ->
  exists s' Q', (init_pcb a;; init_pcb b) s = Ok (tt, s') /\ kernel_ok K s' Q' free /\
    no_orphans Q' free /\ is_Some ((pcb s').[current_running s']) /\ two_ready s' Q' a b /\
    current_running s' = current_running s /\ forall j, idle_queue s' (LockQueue (Locks j)).
Proof.
  intros HK Hno Hc HQ Ha Hb. destruct (qo_ready _ _ _ (ko_queues _ _ _ _ HK)) as [ready HQr]. rewrite (HQ _ _ HQr) in HQr.
  destruct (qo_sleep _ _ _ (ko_queues _ _ _ _ HK)) as [ys HQs]. rewrite (HQ _ _ HQs) in HQs.
  destruct (kernel_ok_spawn K s Q 1 (2 :: free) [] a HK Hno HQr Ha) as (s1 & l1 & E1 & HK1 & Hno1 & HL1).
  set (Q1 := <[WaitQueue 1 := []]> (<[ReadyQueue := [] ++ [1]]> Q)) in *.
  assert (HQr1 : Q1 !! ReadyQueue = Some [1]) by (unfold Q1; by rewrite lookup_insert_ne, lookup_insert_eq).
  destruct (kernel_ok_spawn K s1 Q1 2 free [1] b HK1 Hno1 HQr1 Hb) as (s2 & l2 & E2 & HK2 & Hno2 & HL2).
  set (Q2 := <[WaitQueue 2 := []]> (<[ReadyQueue := [1] ++ [2]]> Q1)) in *. exists s2, Q2.
  assert (Hlen : forall K s Q free, kernel_ok K s Q free -> length (pcb s) = 16%nat) by (intros ???? []; by eapply to_length).
  assert (Hget : forall i s, length (pcb s) = 16%nat -> 0 <= i < 16 -> is_Some ((pcb s).[i])).
  { intros i s0 Hl Hi. apply aget_is_Some. lia. }
  assert (Hcur : current_running s2 = current_running s).
  { rewrite (links_only_current _ _ HL2). cbn. by rewrite (links_only_current _ _ HL1). }
  split; [by rewrite (bind_Ok _ _ _ _ _ E1)|]. split_and!; [done|done| | |done|].
  - rewrite Hcur. destruct Hc as [? Hc%aget_Some]. rewrite (Hlen _ _ _ _ HK) in Hc. apply Hget; [by eapply Hlen|lia].
  - split_and!.
    + unfold Q2. by rewrite lookup_insert_ne, lookup_insert_eq.
    + unfold Q2, Q1. by rewrite !lookup_insert_ne.
    + apply (task_ready_same _ _ _ _ HL2). apply (task_ready_blocks s1).
      * cbn. by rewrite aget_alter, decide_False.
      * apply (task_ready_new (set_pid_list l1 s) _ 1); [apply (Hget 1 s); [by eapply Hlen|lia]|exact HL1].
    + apply (task_ready_new (set_pid_list l2 s1) _ 2); [apply (Hget 2 s1); [by eapply Hlen|lia]|exact HL2].
  - intros j. destruct HK2 as [[Hqs _ _ _] _ _ _]. unfold idle_queue. rewrite Hqs, lookup_fmap. unfold Q2, Q1. rewrite !lookup_insert_ne by done.
    destruct (Q !! LockQueue (Locks j)) as [ys'|] eqn:Ey; [right|by left]. by rewrite (HQ _ _ Ey).
Qed.

Definition boot (info_shell info_io_proc : task_info_t) : M unit :=
  init_task info_shell info_io_proc;;
  init_mutex_locks.

Lemma keeps_init_locks n i :
  keeps (fun s => Forall (frame_ok s) []) frames_kept (init_mutex_locks_loop n i).
Proof.
  revert i. induction n as [|n IH]; intros i; cbn [init_mutex_locks_loop]; [apply keeps_ret|].
  apply keeps_bind; [|intros _; apply IH]. apply keeps_do_mutex_lock_init. intros v. apply mtx_frames.
Qed.

Lemma init_task_ok P s a b :
  bss s -> 1 <= ti_priority a <= P -> 1 <= ti_priority b <= P ->
  exists s1 Q, init_task a b s = Ok (tt, s1) /\ kernel_ok P s1 Q (range 3 13) /\ no_orphans Q (range 3 13) /\
    is_Some ((pcb s1).[current_running s1]) /\ frames_ok s1 /\ current_running s1 = 0 /\ two_ready s1 Q a b /\
    forall j, idle_queue s1 (LockQueue (Locks j)).
Proof.
  intros Hbss Ha Hb. destruct (boot_state_ok s Hbss) as (l & Q & El & HK & HQ).
  assert (H0 : is_Some ((pcb s).[0])) by (apply aget_is_Some; rewrite (bss_pcb s Hbss); lia).
  apply (kernel_ok_mono 1 P) in HK; [|lia]. change (range 1 15) with (1 :: 2 :: range 3 13) in HK.
  destruct (boot_spawn P (boot_state l s) Q (range 3 13) a b HK) as (s1 & Q1 & E1 & HK1 & Hno1 & Hc1 & H2 & Hc2 & Hi1);
    [by intros i xs _ Hx; eapply HQ|cbn; by apply aget_alter_is_Some|done..|].
  exists s1, Q1. split_and!; [by rewrite (init_task_prefix s l a b H0 El)|done|done|done| |by rewrite Hc2|done|done].
  assert (HF : frames_ok (boot_state l s)).
  { intros i bi. cbn. rewrite aget_alter by done. intros Hi.
    assert (Hn : kernel_context bi = []); [|by rewrite Hn].
    case_decide; [|by eapply bss_contexts]. destruct ((pcb s).[i]) as [b0|] eqn:Eb; simplify_eq/=.
    by apply (bss_contexts s Hbss _ _ Eb). }
  assert (H1 : frames_kept (boot_state l s) s1).
  { eapply (keeps_bind (P := fun s => Forall (frame_ok s) []));
      [apply keeps_init_pcb|intros ?; apply keeps_init_pcb| |exact E1]. done. }
  by apply H1.
Qed.

(** All locks of the kernel are free. *)
Definition locks_free (s : kstate) : Prop := forall j, 0 <= j < MAX_LOCKS_NUM -> mutexes s !! Locks j = Some (Mutex UNLOCKED 0).

Lemma init_locks_ok P s Q free a b : kernel_ok P s Q free -> no_orphans Q free -> two_ready s Q a b ->
  (forall j, idle_queue s (LockQueue (Locks j))) ->
  exists s2 Q2, init_mutex_locks s = Ok (tt, s2) /\ kernel_ok P s2 Q2 free /\ no_orphans Q2 free /\ two_ready s2 Q2 a b /\ locks_free s2 /\
    current_running s2 = current_running s /\ pcb s2 = pcb s /\ (frames_ok s -> frames_ok s2).
Proof.
  intros HK Hno (Hr & Hsl & H1 & H2) Hi. destruct (kernel_ok_init_locks (Z.to_nat MAX_LOCKS_NUM) P s Q free 0 HK Hno) as
    (s2 & Q2 & E2 & HK2 & Hno2 & Hc2 & Hp2 & Hq2 & Hm2); [lia|by intros j _|].
  exists s2, Q2. split_and!; try done.
  - split_and!; [by rewrite Hq2|by rewrite Hq2|..]; (eapply task_ready_blocks; [|done]; by rewrite Hp2).
  - intros j Hj. by rewrite Hm2, decide_True by lia.
  - intros HF. by apply (keeps_init_locks _ _ _ _ _ (Forall_nil_2 _) E2).
Qed.

Lemma boot_ok P s a b :
  bss s -> 1 <= ti_priority a <= P -> 1 <= ti_priority b <= P ->
  exists s1 Q free, boot a b s = Ok (tt, s1) /\ kernel_ok P s1 Q free /\ no_orphans Q free /\ two_ready s1 Q a b /\
    is_Some ((pcb s1).[current_running s1]) /\ frames_ok s1 /\ current_running s1 = 0.
Proof.
  intros Hbss Ha Hb. destruct (init_task_ok P s a b Hbss Ha Hb) as (s1 & Q & E1 & HK & Hno & Hc & HF & Hc0 & H2 & Hi).
  destruct (init_locks_ok P s1 Q _ a b HK Hno H2 Hi) as (s2 & Q2 & E2 & HK2 & Hno2 & H2' & _ & Hc2 & Hp2 & HF2).
  exists s2, Q2, (range 3 13). split_and!; [|done|done|done|by rewrite Hc2, Hp2|by apply HF2|congruence].
  unfold boot. by rewrite (bind_Ok _ _ _ _ _ E1).
Qed.

(** A task that has not run yet keeps its only frame while others are saved and picked. *)
Definition unstarted (i : Z) (s : kstate) : Prop := exists b, (pcb s).[i] = Some b /\ kernel_context b = [KExceptionExit].

#[global] Instance unstarted_frame i : Frame (fun _ => True) (fun s s' => unstarted i s -> unstarted i s').
Proof.
  split; try done; try by auto.
  intros s j b b' Hb [Hk _] (bi & Hbi & Hi). unfold unstarted. cbn. rewrite (aget_upd_pcb _ _ _ b) by done. case_decide; [|eauto].
  subst i. rewrite Hb in Hbi. injection Hbi as <-. exists b'. split; [done|]. by destruct Hk as [->| ->].
Qed.

#[global] Instance unstarted_registers i : Registers (fun s s' => unstarted i s -> unstarted i s').
Proof. by split. Qed.

#[local] Instance current_frame : Frame (fun _ => True) (fun s s' => current_running s' = current_running s).
Proof. split; intros; cbn in *; congruence. Qed.

Lemma timer_unstarted i cause sr s c s' : current_running s <> i -> Z.land cause 0x8000 <> 0 ->
  handle (Interrupt cause sr) s = Ok (c, s') -> unstarted i s -> unstarted i s'.
Proof.
  intros Hne Hcause E. cbn [handle] in E. apply bind_inv in E as ([] & s1 & E1 & E).
  assert (H1 : current_running s1 = current_running s /\ (unstarted i s -> unstarted i s1) /\
    exists b, (pcb s1).[current_running s1] = Some b /\ cp0_cause (user_regs_context b) = cause).
  { pose proof (keeps_upd_current (P := fun _ => True) (R := fun s s' => unstarted i s -> unstarted i s') (save_cause cause) ltac:(done) s tt s1 I E1) as H.
    apply upd_current_inv in E1 as (b & Hb & ->). split; [done|]. split; [done|]. cbn. rewrite (aget_upd_pcb _ _ _ b), decide_True by done. by eexists. }
  destruct H1 as (Ec1 & H1 & b & Hb & Hcb). unfold interrupt_helper in E. rewrite bind_get, (bind_Ok _ _ _ _ _ (pcb_at_Ok _ _ _ Hb)), Hcb in E.
  destruct (Z.eqb_spec (Z.land cause 0x8000) 0); [done|]. cbn [negb] in E. unfold irq_timer in E. rewrite bind_modify in E. set (s2 := set_time_elapsed _ s1) in E.
  apply bind_inv in E as ([] & s3 & E3 & E). unfold do_scheduler in E. apply bind_inv in E as ([] & s4 & E4 & E). apply bind_inv in E as ([] & s5 & E5 & E).
  injection E as _ <-. intros Hi. apply (keeps_scheduler (P := fun _ => True) (R := fun s s' => unstarted i s -> unstarted i s') s4 tt s5 I E5).
  assert (H3 : unstarted i s3).
  { apply (keeps_check_sleeping (P := fun _ => True) (R := fun s s' => unstarted i s -> unstarted i s') s2 tt s3 I E3). by apply H1. }
  pose proof (keeps_check_sleeping (P := fun _ => True) (R := fun s s' => current_running s' = current_running s) s2 tt s3 I E3) as Ec3.
  apply upd_current_inv in E4 as (b4 & Hb4 & ->). destruct H3 as (b3 & Hb3 & Hk). exists b3. split; [|done]. cbn.
  rewrite (aget_upd_pcb _ _ _ b4), decide_False; [done| |done]. intros Hi3. apply Hne. rewrite Hi3, Ec3. exact (eq_sym Ec1).
Qed.

(** The first timer interrupt takes the processor from [main] and gives it to one of the two tasks. *)
Lemma first_interrupt P cause int1_sr s Q free a b :
  kernel_ok P s Q free -> no_orphans Q free -> is_Some ((pcb s).[current_running s]) -> frames_ok s -> current_running s = 0 ->
  two_ready s Q a b -> P + 40 < 2147483648 -> Z.land cause 0x8000 <> 0 ->
  exists s', handle (Interrupt cause int1_sr) s = Ok (Switch, s') /\ (current_running s' = 1 \/ current_running s' = 2) /\
    next_mode Switch [] s' = Some (KernelFrames [KExceptionExit]) /\ config_ok (P + 40) (KernelFrames [KExceptionExit], s').
Proof.
  intros HK Hno [b0 Hb0] HF Hc0 (HQr & HQs & H1 & H2) HP Hcause.
  set (s1 := set_pcb (alter (save_cause cause) (Z.to_nat (current_running s)) (pcb s)) s).
  assert (Hl : 0 <= current_running s) by lia.
  assert (HK1 : kernel_ok P s1 Q free) by (by apply kernel_ok_upd).
  assert (Hb1 : (pcb s1).[current_running s1] = Some (save_cause cause b0)).
  { unfold s1. cbn. by rewrite aget_alter, decide_True, Hb0. }
  assert (Eh : handle (Interrupt cause int1_sr) s = irq_timer [KHandlerReturn; KExceptionExit] s1).
  { cbn [handle]. rewrite bind_upd_current by by eexists. unfold interrupt_helper. rewrite bind_get, (bind_Ok _ _ _ _ _ (pcb_at_Ok _ _ _ Hb1)).
    cbn [save_cause user_regs_context set_user_regs_context cp0_cause set_cp0_cause]. by destruct (Z.eqb_spec (Z.land cause 0x8000) 0). }
  destruct (irq_timer_ok P s1 Q free [KHandlerReturn; KExceptionExit] HK1 Hno) as [[[] _]|(c & s' & E & HI & -> & Hrun)]; [by eexists|done|by rewrite HQr|].
  rewrite <- Eh in E. destruct (Hrun HQs) as (xs & Exs & Hin). rewrite HQr in Exs. injection Exs as <-.
  assert (Hcur : current_running s' = 1 \/ current_running s' = 2) by set_solver.
  assert (Hm : next_mode Switch [] s' = Some (KernelFrames [KExceptionExit])).
  { assert (Hu : forall i, current_running s' = i -> 1 <= i -> unstarted i s -> next_mode Switch [] s' = Some (KernelFrames [KExceptionExit])).
    { intros i Hi H' Hun. destruct (timer_unstarted i cause int1_sr s Switch s') as (b' & Hb' & Hk); [lia|done..|].
      unfold next_mode. rewrite Hi, Hb'. cbn. by rewrite Hk. }
    destruct H1 as (b1 & ? & ? & ? & ? & ? & ? & ? & ? & ?), H2 as (b2 & ? & ? & ? & ? & ? & ? & ? & ? & ?).
    destruct Hcur as [Hi|Hi]; eapply Hu; try exact Hi; try lia; eexists; eauto. }
  exists s'. split_and!; [done..|]. split_and!; [done| |].
  - by destruct (keeps_handle (Interrupt cause int1_sr) s Switch s' (Forall_nil_2 _) E) as [_ HF']; apply HF'.
  - repeat constructor.
Qed.


(** ** Theorems *)

(** C3. The kernel never faults. From a configuration that satisfies the invariant (every live
    task in exactly the queue its block names, sane keys, process ids in step with the table, every
    saved frame naming a lock that exists), after any number of traps and resumed frames in any
    order, the invariant holds again, and the next trap or frame ends (no fault, no loop) in a next
    configuration or in the scheduler's panic, the latter only in a call that can wait or end its task ([may_wait]) or
    in a frame that takes a lock, of the only task that is ready, and in no interrupt. Programs may spawn, kill, wait, sleep and use locks,
    semaphores, conditions and barriers as they like, but must initialise an object before using it
    and not initialise one on which a task waits. *)
Theorem kernel_never_faults (K n : Z) (c : mode * kstate) (m : mode) (s : kstate) :
  config_ok K c -> 0 <= n -> K + 40 * n + 40 < 2147483648 -> steps K (Z.to_nat n) c (m, s) ->
  config_ok (K + 40 * n) (m, s) /\
  match m with
  | User => forall t, trap_ok K s t ->
      (stops t s /\ handle t s = Panic "no task to run.") \/ exists c', step_by_trap t s c'
  | KernelFrames [] => True
  | KernelFrames (fr :: k) =>
      (stalls fr s /\ resume_sync fr k s = Panic "no task to run.") \/ exists c', step_by_frame fr k s c'
  end.
Proof.
  intros Hc Hn HK Hs. pose proof (steps_config K _ K c (m, s) Hs Hc) as Hok.
  rewrite Z2Nat.id in Hok by done. specialize (Hok ltac:(lia) ltac:(lia)). split; [done|].
  destruct m as [|[|fr k]]; [|done|].
  - intros t Ht. apply (trap_config (K + 40 * n) s t Hok); [lia|]. eapply trap_ok_mono, Ht. lia.
  - apply (frame_config (K + 40 * n) s fr k Hok). lia.
Qed.

(** Boot establishes the invariant: from zeroed memory, [init_task] and [init_mutex_locks]
    succeed, and the first timer interrupt, which takes the processor from [main] for ever, gives it to
    the first task or to the second, in a configuration that satisfies the invariant. *)
Theorem boot_establishes_invariant (P cause int1_sr : Z) (s : kstate) (a b : task_info_t) :
  bss s -> 1 <= ti_priority a <= P -> 1 <= ti_priority b <= P -> P + 40 < 2147483648 ->
  Z.land cause 0x8000 <> 0 ->
  exists s1 s2, boot a b s = Ok (tt, s1) /\ step_by_trap (Interrupt cause int1_sr) s1 (KernelFrames [KExceptionExit], s2) /\
    (current_running s2 = 1 \/ current_running s2 = 2) /\ config_ok (P + 40) (KernelFrames [KExceptionExit], s2).
Proof.
  intros Hbss Ha Hb HP Hcause.
  destruct (boot_ok P s a b Hbss Ha Hb) as (s1 & Q & free & E & HK & Hno & H2 & Hc & HF & H0).
  destruct (first_interrupt P cause int1_sr s1 Q free a b HK Hno Hc HF H0 H2 HP Hcause) as (s2 & E2 & Hcur & Hm & Hok).
  exists s1, s2. split_and!; [done| |done|done]. by exists Switch.
Qed.
