(* ===== verification/SyncSpec.v ===== *)
(** What the synchronisation objects of [Sync] promise: a lock has one holder and passes only from
    its holder to whom finds it free; a semaphore's value and a condition's count say how many tasks
    wait; a barrier holds its tasks until the last one arrives. *)

From S2P Require Import Prelude Slist Kernel Queue Sched Sync SchedSpec KernelInv Trap Safety Keeps Run.

(** ** Vocabulary *)

(** The lock [l] between two states, [p] running: it stays as it is, [p] takes it while it is free,
    or [p], its holder, releases it. *)
Inductive lock_change (p : Z) (l : lockref) (s s' : kstate) : Prop :=
  | lock_same : mutexes s' !! l = mutexes s !! l -> lock_change p l s s'
  | lock_taken m : mutexes s !! l = Some m -> lstatus m = UNLOCKED ->
      mutexes s' !! l = Some (Mutex LOCKED p) -> lock_change p l s s'
  | lock_released m : mutexes s !! l = Some m -> owner m = p ->
      mutexes s' !! l = Some (Mutex UNLOCKED 0) -> lock_change p l s s'.

(** The semaphore [x] counts: below zero, its value is the number of tasks waiting. *)
Definition semaphore_counts (s : kstate) (Q : gmap qref (list Z)) (x : semref) : Prop :=
  exists v xs, semaphores s !! x = Some v /\ Q !! SemQueue x = Some xs /\
    Z.of_nat (length xs) = Z.max 0 (- v).

Definition condition_counts (s : kstate) (Q : gmap qref (list Z)) (x : Z) : Prop :=
  exists v xs, conditions s !! x = Some v /\ Q !! CondQueue x = Some xs /\ Z.of_nat (length xs) = v.

(** The barrier [x] holds as many tasks as have arrived, fewer than its goal. *)
Definition barrier_counts (s : kstate) (Q : gmap qref (list Z)) (x : Z) : Prop :=
  exists b xs, barriers s !! x = Some b /\ Q !! BarrierQueue x = Some xs /\
    Z.of_nat (length xs) = arrived b /\ arrived b < goal b.

(** Of the tasks [xs] waiting in [q], the best, if there is any, leaves it for the end of the ready queue. *)
Definition one_woken (s s' : kstate) (Q Q' : gmap qref (list Z)) (q : qref) (xs : list Z) : Prop :=
  match xs with
  | [] => Q' = Q /\ pcb s' = pcb s
  | _ => exists l c r, xs = l ++ c :: r /\ chosen (prio_at (pcb s)) (wait_of (pcb s)) xs c /\ wakes s' Q Q' q [c] (l ++ r)
  end.

(** The running task has joined the tasks waiting in [q]. *)
Definition one_parked (s : kstate) (Q Q' : gmap qref (list Z)) (q : qref) : Prop :=
  forall xs, Q !! q = Some xs -> Q' !! q = Some (xs ++ [current_running s]).

(** The lock [l] is free if the running task held it. *)
Definition one_released (s s' : kstate) (l : lockref) : Prop :=
  forall m, mutexes s !! l = Some m -> mutexes s' !! l = Some (if owner m =? current_running s then Mutex UNLOCKED 0 else m).

(** ** Locks *)

#[global] Instance lock_frame (l : lockref) :
  Frame (fun _ => True) (fun s s' => mutexes s' !! l = mutexes s !! l).
Proof. split; intros; cbn in *; congruence. Qed.

#[global] Instance lock_registers (l : lockref) : Registers (fun s s' => mutexes s' !! l = mutexes s !! l).
Proof. by split. Qed.

Lemma ctx_lock l k : ctx (P := fun _ => True) (R := fun s s' => mutexes s' !! l = mutexes s !! l) k.
Proof.
  intros s x s' _ E. unfold upd_current in E. rewrite bind_get in E.
  unfold upd_pcb, pcb_at, mbind, M_bind in E. destruct ((pcb s).[current_running s]); [|done].
  by injection E as _ <-.
Qed.

Lemma mtx_lock l l' : l' <> l -> mtx (P := fun _ => True) (R := fun s s' => mutexes s' !! l = mutexes s !! l) l'.
Proof. intros Hne v s x s' _ E. injection E as _ <-. cbn. by rewrite lookup_insert_ne. Qed.

Section lock.
Context (K : Z) (s : kstate) (l : lockref).
Hypothesis (HI : kinv K s) (HK : K + 40 < 2147483648).

Lemma take_lock_change k s' x :
  is_Some (queues s !! LockQueue l) -> take_lock l s = Ok (x, s') -> k = current_running s ->
  mutexes s' !! l = Some (Mutex LOCKED k) /\ current_running s' = k.
Proof.
  intros Hq E ->. unfold take_lock, add_lock_num in E. rewrite bind_upd_current in E by (by eapply kinv_block).
  set (s1 := set_pcb _ s) in E. assert (H1 : kinv K s1) by (apply kinv_upd; [done..|by eapply kinv_current]).
  rewrite (bind_Ok _ _ _ _ _ (kinv_current_pid K s1 H1)) in E. injection E as _ <-. cbn. split; [apply lookup_insert_eq|done].
Qed.

Lemma acquire_loop_change k c s' :
  mutex_acquire_loop l k s = Ok (c, s') -> lock_change (current_running s) l s s'.
Proof.
  intros E. unfold mutex_acquire_loop in E. destruct (mutexes s !! l) as [m|] eqn:Hm.
  2: { unfold mbind, M_bind, mutex_at in E. by rewrite Hm in E. }
  rewrite (bind_Ok _ _ _ _ _ (mutex_at_Ok _ _ _ Hm)) in E.
  assert (Hq : is_Some (queues s !! LockQueue l)) by (eapply (kinv_queue K s HI (LockQueue l)); eauto).
  destruct (lstatus m) eqn:Hst.
  - unfold mbind at 1, M_bind in E. destruct (take_lock l s) as [[[] s1]| | |] eqn:Et; try done.
    injection E as _ <-. eapply lock_taken; [done|done|]. by eapply take_lock_change in Et as [Ht _].
  - apply lock_same. apply (keeps_current_wait (P := fun _ => True)
      (R := fun s s' => mutexes s' !! l = mutexes s !! l) _ _ _ (ctx_lock l _) _ _ _ I E).
Qed.

Lemma acquire_change k c s' :
  do_mutex_lock_acquire l k s = Ok (c, s') -> lock_change (current_running s) l s s'.
Proof.
  intros E. unfold do_mutex_lock_acquire in E. destruct (mutexes s !! l) as [m|] eqn:Hm.
  2: { unfold mbind, M_bind, mutex_at in E. by rewrite Hm in E. }
  rewrite (bind_Ok _ _ _ _ _ (mutex_at_Ok _ _ _ Hm)), (bind_Ok _ _ _ _ _ (kinv_current_pid K s HI)) in E.
  case_cmp; [injection E as _ <-; by apply lock_same|by eapply acquire_loop_change].
Qed.

Lemma release_change x s' :
  do_mutex_lock_release l s = Ok (x, s') -> lock_change (current_running s) l s s'.
Proof.
  intros E. unfold do_mutex_lock_release in E. destruct (mutexes s !! l) as [m|] eqn:Hm.
  2: { unfold mbind, M_bind, mutex_at in E. by rewrite Hm in E. }
  rewrite (bind_Ok _ _ _ _ _ (mutex_at_Ok _ _ _ Hm)), (bind_Ok _ _ _ _ _ (kinv_current_pid K s HI)) in E.
  case_cmp; cbn [negb] in E; [|injection E as _ <-; by apply lock_same].
  eapply lock_released; [done|done|]. unfold mbind, M_bind in E.
  destruct (do_unblock_one (LockQueue l) s) as [[? s1]| | |]; try done.
  destruct (add_lock_num (-1) s1) as [[? s2]| | |]; try done. injection E as _ <-. apply lookup_insert_eq.
Qed.

End lock.

Lemma same_mutexes_change p l s s1 s' :
  mutexes s !! l = mutexes s1 !! l -> lock_change p l s1 s' -> lock_change p l s s'.
Proof.
  intros E [H|m H1 H2 H3|m H1 H2 H3]; [apply lock_same|eapply lock_taken|eapply lock_released]; rewrite ?E; done.
Qed.

Lemma change_same_mutexes p l s s1 s' :
  mutexes s' !! l = mutexes s1 !! l -> lock_change p l s s1 -> lock_change p l s s'.
Proof.
  intros E [H|m H1 H2 H3|m H1 H2 H3]; [apply lock_same|eapply lock_taken|eapply lock_released]; rewrite ?E; done.
Qed.

Lemma condition_wait_change K s x l k c s' :
  kinv K s -> is_Some (queues s !! CondQueue x) ->
  do_condition_wait x l k s = Ok (c, s') -> lock_change (current_running s) l s s'.
Proof.
  intros HI Hx E. unfold do_condition_wait, condition_at, put_condition in E.
  unfold mbind at 1, M_bind in E. destruct (conditions s !! x) as [v|]; [|done]. cbn [lift mret M_ret] in E.
  rewrite bind_modify in E. set (s1 := set_conditions _ s) in E.
  assert (H1 : kinv K s1) by (by apply kinv_put_condition).
  unfold mbind at 1, M_bind in E. destruct (do_mutex_lock_release l s1) as [[u s2]| | |] eqn:E2; try done.
  pose proof (release_change K s1 l H1 u s2 E2) as Hc.
  apply (same_mutexes_change _ _ _ s1); [done|]. eapply change_same_mutexes, Hc.
  apply (keeps_current_wait (P := fun _ => True)
    (R := fun s s' => mutexes s' !! l = mutexes s !! l) _ _ _ (ctx_lock l _) _ _ _ I E).
Qed.

(** A call that does not name the lock [l] of a task leaves it alone. *)
Lemma syscall_other_lock c k a :
  lock_arg c <> Some (UserLock a) ->
  keeps (fun _ => True) (fun s s' => mutexes s' !! UserLock a = mutexes s !! UserLock a) (do_syscall c k).
Proof.
  intros Hc. apply keeps_do_syscall; try (apply ctx_lock).
  - intros l _. split; apply ctx_lock.
  - intros l Hl. apply mtx_lock. congruence.
  - intros i. by apply mtx_lock.
Qed.

Lemma handle_lock_change K s t a c s' :
  kinv K s -> trap_ok K s t -> t <> SystemCall (SYSCALL_MUTEX_LOCK_INIT (UserLock a)) ->
  handle t s = Ok (c, s') -> lock_change (current_running s) (UserLock a) s s'.
Proof.
  intros HI Ht Hinit E. destruct t as [cause sr|call]; cbn [handle] in E.
  { apply lock_same. revert E. apply (keeps_bind (P := fun _ => True)
      (R := fun s s' => mutexes s' !! UserLock a = mutexes s !! UserLock a)); [by apply keeps_upd_current| |done].
    intros _. apply keeps_interrupt_helper, ctx_lock. }
  unfold system_call_helper in E. rewrite bind_upd_current in E by (by eapply kinv_block).
  set (s1 := set_pcb _ s) in E. assert (H1 : kinv K s1) by (apply kinv_upd; [done..|by eapply kinv_current]).
  apply (same_mutexes_change _ _ _ s1); [done|]. change (current_running s) with (current_running s1).
  destruct (decide (lock_arg call = Some (UserLock a))) as [Hl|Hl].
  2: { apply lock_same. by apply (syscall_other_lock call _ a Hl _ _ _ I E). }
  destruct call; simplify_eq/=.
  - exact (acquire_change K s1 (UserLock a) H1 _ _ _ E).
  - unfold returning, mbind, M_bind in E.
    destruct (do_mutex_lock_release (UserLock a) s1) as [[u s2]| | |] eqn:E2; try done. injection E as _ <-.
    exact (release_change K s1 (UserLock a) H1 _ _ E2).
  - assert (Hx : is_Some (queues s1 !! CondQueue x)) by (apply (kinv_queue K s1 H1 (CondQueue x)); apply Ht).
    exact (condition_wait_change K s1 x (UserLock a) _ _ _ H1 Hx E).
Qed.

Lemma resume_lock_change K s fr k a c s' :
  kinv K s -> resume_sync fr k s = Ok (c, s') -> lock_change (current_running s) (UserLock a) s s'.
Proof.
  intros HI E. destruct fr; cbn [resume_sync] in E; try done; try (injection E as _ <-; by apply lock_same).
  - apply lock_same. revert E. apply (keeps_bind (P := fun _ => True)
      (R := fun s s' => mutexes s' !! UserLock a = mutexes s !! UserLock a));
      [apply keeps_syscall_return|intros _; apply keeps_ret|done].
  - destruct (decide (l = UserLock a)) as [->|Hne]; [by eapply acquire_loop_change|]. apply lock_same.
    apply (keeps_mutex_acquire_loop (P := fun _ => True) (R := fun s s' => mutexes s' !! UserLock a = mutexes s !! UserLock a)
      l k (ctx_lock _ _) (mtx_lock _ _ Hne) _ _ _ I E).
  - destruct (decide (l = UserLock a)) as [->|Hne]; [by eapply acquire_change|]. apply lock_same.
    apply (keeps_do_mutex_lock_acquire (P := fun _ => True) (R := fun s s' => mutexes s' !! UserLock a = mutexes s !! UserLock a)
      l k (ctx_lock _ _) (mtx_lock _ _ Hne) _ _ _ I E).
Qed.

(** ** Counting *)

Section counts.
Context (K : Z) (s : kstate) (Q : gmap qref (list Z)) (free : list Z).
Hypothesis (HK : kernel_ok K s Q free) (Hrun : running s Q) (Hb : K + 40 < 2147483648).

(** A queue holds 16 tasks at most. *)
Lemma queue_bound q xs : Q !! q = Some xs -> Z.of_nat (length xs) <= 16.
Proof.
  intros HQ. pose proof (qrep_length _ _ _ _ (ko_qrep _ _ _ _ HK) HQ).
  rewrite (to_length _ _ _ _ (ko_tasks _ _ _ _ HK)) in H. lia.
Qed.

Lemma semaphore_up_counts x v :
  semaphore_counts s Q x -> semaphores s !! x = Some v -> v < 2147483647 ->
  exists s' Q', do_semaphore_up x s = Ok (tt, s') /\ kernel_ok (K + 2) s' Q' free /\ running s' Q' /\
    semaphores s' !! x = Some (v + 1) /\ semaphore_counts s' Q' x /\
    forall xs, Q !! SemQueue x = Some xs -> one_woken s s' Q Q' (SemQueue x) xs.
Proof.
  intros (v' & xs & Hv' & HQ & Hlen) Hv Hmax. rewrite Hv in Hv'. injection Hv' as <-. pose proof (queue_bound _ _ HQ) as Hx.
  set (s1 := set_semaphores (<[x := v + 1]> (semaphores s)) s).
  assert (HK1 : kernel_ok K s1 Q free) by (apply kernel_ok_put_semaphore; eauto).
  assert (Hv1 : semaphores s1 !! x = Some (v + 1)) by apply lookup_insert_eq.
  assert (E : do_semaphore_up x s = (if v + 1 <=? 0 then do_unblock_one (SemQueue x) else mret tt) s1).
  { unfold do_semaphore_up, put_semaphore. rewrite (bind_Ok _ _ _ _ _ (semaphore_at_Ok _ _ _ Hv)), bind_modify.
    rewrite s32_id by (unfold is_s32; lia). fold s1. by rewrite (bind_Ok _ _ _ _ _ (semaphore_at_Ok _ _ _ Hv1)). }
  rewrite E. destruct (Z.leb_spec (v + 1) 0) as [Hneg|Hpos].
  - destruct (kernel_ok_unblock_one K s1 Q free HK1 (SemQueue x)) as (s' & Q' & E' & HK' & Hs & Hw & Hq);
      [lia|by eauto|done|]. destruct (Hq xs HQ) as (ws & ys & Hwk & Hxs). destruct xs as [|x0 xs]; [cbn in Hlen; lia|].
    destruct Hxs as (l & c & r & Ex & Hch & -> & ->).
    exists s', Q'. split; [done|]. split; [done|]. split; [by apply (running_woken s1 s' Q Q' Hw); [apply Hs|]|].
    assert (Hv2 : semaphores s' !! x = Some (v + 1)) by (by rewrite (so_semaphores _ _ Hs)).
    split; [done|]. split.
    + exists (v + 1), (l ++ r). split_and!; [done|by apply Hwk|]. rewrite Ex in Hlen. rewrite length_app in *. cbn in Hlen. lia.
    + intros zs Hz. rewrite HQ in Hz. injection Hz as <-. by exists l, c, r.
  - assert (Hnil : xs = []) by (destruct xs; [done|cbn in Hlen; lia]). subst xs.
    exists s1, Q. split_and!; [done|eapply kernel_ok_mono, HK1; lia|done|done| |].
    + exists (v + 1), []. split_and!; [done|done|cbn; lia].
    + intros zs Hz. rewrite HQ in Hz. by injection Hz as <-.
Qed.

Lemma semaphore_down_counts x v k :
  semaphore_counts s Q x -> semaphores s !! x = Some v -> v <= 2147483647 ->
  if 0 <? v then
    exists s', do_semaphore_down x k s = Ok (Return, s') /\ kernel_ok K s' Q free /\ running s' Q /\
      semaphores s' !! x = Some (v - 1) /\ semaphore_counts s' Q x
  else outcome (Q !! ReadyQueue = Some [current_running s]) (fun c s' => exists Q', c = Switch /\
      kernel_ok (K + 1) s' Q' free /\ running s' Q' /\ semaphores s' !! x = Some (v - 1) /\ semaphore_counts s' Q' x /\
      one_parked s Q Q' (SemQueue x)) (do_semaphore_down x k s).
Proof.
  intros (v' & xs & Hv' & HQ & Hlen) Hv Hmax. rewrite Hv in Hv'. injection Hv' as <-.
  pose proof (queue_bound _ _ HQ) as Hx.
  set (s1 := set_semaphores (<[x := v - 1]> (semaphores s)) s).
  assert (HK1 : kernel_ok K s1 Q free) by (apply kernel_ok_put_semaphore; eauto).
  assert (Hv1 : semaphores s1 !! x = Some (v - 1)) by apply lookup_insert_eq.
  assert (E : do_semaphore_down x k s = (if v - 1 <? 0 then
      (c ← get current_running; do_wait c (SemQueue x) TASK_BLOCKED k) else mret Return) s1).
  { unfold do_semaphore_down, put_semaphore. rewrite (bind_Ok _ _ _ _ _ (semaphore_at_Ok _ _ _ Hv)), bind_modify.
    rewrite s32_id by (unfold is_s32; lia). fold s1. by rewrite (bind_Ok _ _ _ _ _ (semaphore_at_Ok _ _ _ Hv1)). }
  rewrite E. destruct (Z.ltb_spec 0 v), (Z.ltb_spec (v - 1) 0); try lia.
  - exists s1. split_and!; [done|done|done|done|]. exists (v - 1), xs. split_and!; [done|done|lia].
  - rewrite bind_get. eapply outcome_mono; [| |apply (kernel_ok_do_wait K s1 Q free (SemQueue x)); [done|lia|done|by eauto|done]]; [|done].
    intros c s' (Q' & -> & HK' & Hrun' & Ho & HQ' & _). exists Q'.
    assert (Hv2 : semaphores s' !! x = Some (v - 1)).
    { unfold objects in Ho. injection Ho as _ E2 _ _. by rewrite E2. }
    split_and!; [done|done|done|done| |exact HQ']. exists (v - 1), (xs ++ [current_running s1]).
    split_and!; [done|by apply HQ'|]. rewrite length_app. cbn. lia.
Qed.

(** [do_mutex_lock_release] touches no queue but the lock's and the ready queue. *)
Lemma release_exact l :
  is_Some (mutexes s !! l) ->
  exists s' Q', do_mutex_lock_release l s = Ok (tt, s') /\ kernel_ok (K + 2) s' Q' free /\ running s' Q' /\
    conditions s' = conditions s /\ current_running s' = current_running s /\
    woken Q Q' /\ one_released s s' l /\ (forall q, q <> LockQueue l -> q <> ReadyQueue -> Q' !! q = Q !! q).
Proof.
  intros Hl. pose proof Hl as [m Hm]. unfold do_mutex_lock_release.
  destruct (running_block _ _ _ _ HK Hrun) as [b Hb0]. pose proof (running_pid _ _ _ _ _ HK Hrun Hb0) as Hpid.
  assert (Hcp : current_pid s = Ok (current_running s, s)).
  { unfold current_pid. rewrite bind_get. erewrite bind_Ok by (apply pcb_at_Ok; exact Hb0). by rewrite Hpid. }
  rewrite (bind_Ok _ _ _ _ _ (mutex_at_Ok _ _ _ Hm)), (bind_Ok _ _ _ _ _ Hcp). case_cmp; cbn [negb].
  2: { exists s, Q. split_and!; try done; [eapply kernel_ok_mono, HK; lia|]. intros m' Hm'. simplify_eq. rewrite Hm. by case_cmp. }
  assert (HLQ : is_Some (Q !! LockQueue l)) by (by apply (qo_lock_queues _ _ _ (ko_queues _ _ _ _ HK))).
  destruct (kernel_ok_unblock_one K s Q free HK (LockQueue l)) as (s1 & Q1 & E1 & HK1 & Hs1 & Hw1 & Hq);
    [lia|done|done|].
  pose proof (running_woken s s1 Q Q1 Hw1 (so_current _ _ Hs1) Hrun) as Hrun1.
  rewrite (bind_Ok _ _ _ _ _ E1). unfold add_lock_num.
  rewrite bind_upd_current by (by eapply running_block).
  eexists _, Q1. split; [reflexivity|]. split_and!; [|done|apply Hs1|apply Hs1|done| |].
  2: { intros m' Hm'. simplify_eq. cbn. rewrite lookup_insert_eq. by case_cmp. }
  2: { destruct HLQ as [ys HLQ]. destruct (Hq ys HLQ) as (ws & rest & Hwk & _). apply Hwk. }
  apply kernel_ok_put_mutex; [by apply Hw1|]. apply kernel_ok_upd; [done|done| |done].
  destruct (running_block _ _ _ _ HK1 Hrun1) as [? ?%aget_Some]. lia.
Qed.

End counts.

Section counts2.
Context (K : Z) (s : kstate) (Q : gmap qref (list Z)) (free : list Z).
Hypothesis (HK : kernel_ok K s Q free) (Hrun : running s Q) (Hb : K + 40 < 2147483648).

Lemma condition_wait_counts x v l k :
  condition_counts s Q x -> conditions s !! x = Some v -> is_Some (mutexes s !! l) ->
  outcome (Q !! ReadyQueue = Some [current_running s]) (fun c s' => exists Q', c = Switch /\
      kernel_ok (K + 3) s' Q' free /\ running s' Q' /\ conditions s' !! x = Some (v + 1) /\ condition_counts s' Q' x /\
      one_parked s Q Q' (CondQueue x) /\ one_released s s' l) (do_condition_wait x l k s).
Proof.
  intros (v' & xs & Hv' & HQ & Hlen) Hv Hl. rewrite Hv in Hv'. injection Hv' as <-.
  pose proof (queue_bound K s Q free HK _ _ HQ) as Hx.
  set (s1 := set_conditions (<[x := v + 1]> (conditions s)) s).
  assert (HK1 : kernel_ok K s1 Q free) by (apply kernel_ok_put_condition; eauto).
  destruct (release_exact K s1 Q free HK1 Hrun Hb l Hl) as (s2 & Q2 & E2 & HK2 & Hrun2 & Hc2 & Hcur2 & Hw2 & Hl2 & Hoth).
  assert (E : do_condition_wait x l k s =
    do_wait (current_running s2) (CondQueue x) TASK_BLOCKED (KConditionWait l :: k) s2).
  { unfold do_condition_wait, put_condition. rewrite (bind_Ok _ _ _ _ _ (condition_at_Ok _ _ _ Hv)), bind_modify.
    rewrite s32_id by (unfold is_s32; lia). fold s1. by rewrite (bind_Ok _ _ _ _ _ E2), bind_get. }
  assert (HQ2 : Q2 !! CondQueue x = Some xs) by (by rewrite Hoth).
  rewrite E. eapply outcome_mono; [| |apply (kernel_ok_do_wait (K + 2) s2 Q2 free (CondQueue x)); [done|lia|done|by eauto|done]].
  2: { rewrite Hcur2. intros H. by apply (sole_woken Q Q2 _ Hw2 Hrun). }
  intros c s' (Q' & -> & HK' & Hrun' & Ho & HQ' & _). exists Q'.
  assert (Hv2 : conditions s' !! x = Some (v + 1)).
  { unfold objects in Ho. injection Ho as _ _ E3 _. rewrite E3, Hc2. apply lookup_insert_eq. }
  split_and!; [done|by replace (K + 3) with (K + 2 + 1) by lia|done|done| | |].
  - exists (v + 1), (xs ++ [current_running s2]). split_and!; [done|by apply HQ'|]. rewrite length_app. cbn. lia.
  - intros zs Hz. rewrite HQ in Hz. injection Hz as <-. rewrite (HQ' xs HQ2), Hcur2. done.
  - unfold objects in Ho. injection Ho as Em _ _ _. intros m Hm. rewrite Em. by apply Hl2.
Qed.

Lemma condition_signal_counts x v :
  condition_counts s Q x -> conditions s !! x = Some v ->
  exists s' Q', do_condition_signal x s = Ok (tt, s') /\ kernel_ok (K + 2) s' Q' free /\ running s' Q' /\
    conditions s' !! x = Some (Z.max 0 (v - 1)) /\ condition_counts s' Q' x /\
    forall xs, Q !! CondQueue x = Some xs -> one_woken s s' Q Q' (CondQueue x) xs.
Proof.
  intros (v' & xs & Hv' & HQ & Hlen) Hv. rewrite Hv in Hv'. injection Hv' as <-.
  unfold do_condition_signal. rewrite (bind_Ok _ _ _ _ _ (condition_at_Ok _ _ _ Hv)). case_cmp.
  2: { exists s, Q. rewrite Z.max_l by lia. assert (v = 0) as -> by lia.
    split_and!; [done|eapply kernel_ok_mono, HK; lia|done|done|by exists 0, xs|].
    intros zs Hz. rewrite HQ in Hz. injection Hz as <-. by destruct xs. }
  unfold put_condition. rewrite bind_modify. set (s1 := set_conditions _ s).
  assert (HK1 : kernel_ok K s1 Q free) by (apply kernel_ok_put_condition; eauto).
  destruct (kernel_ok_unblock_one K s1 Q free HK1 (CondQueue x)) as (s' & Q' & E' & HK' & Hs & Hw & Hq);
    [lia|by eauto|done|]. destruct (Hq xs HQ) as (ws & ys & Hwk & Hxs). destruct xs as [|x0 xs]; [cbn in Hlen; lia|].
  destruct Hxs as (l & c & r & Ex & Hch & -> & ->).
  assert (Hv2 : conditions s' !! x = Some (v - 1)) by (rewrite (so_conditions _ _ Hs); apply lookup_insert_eq).
  exists s', Q'. rewrite Z.max_r by lia. split_and!; [done|done|by apply (running_woken s1 s' Q Q' Hw); [apply Hs|]|done| |].
  - exists (v - 1), (l ++ r). split_and!; [done|by apply Hwk|]. rewrite Ex in Hlen. rewrite length_app in *. cbn in Hlen. lia.
  - intros zs Hz. rewrite HQ in Hz. injection Hz as <-. by exists l, c, r.
Qed.

Lemma condition_broadcast_counts x v :
  condition_counts s Q x -> conditions s !! x = Some v ->
  exists s' Q', do_condition_broadcast x s = Ok (tt, s') /\ kernel_ok (K + 1) s' Q' free /\ running s' Q' /\
    conditions s' !! x = Some 0 /\ condition_counts s' Q' x /\
    forall xs, Q !! CondQueue x = Some xs -> wakes s' Q Q' (CondQueue x) xs [].
Proof.
  intros (v' & xs & Hv' & HQ & Hlen) Hv. rewrite Hv in Hv'. injection Hv' as <-.
  unfold do_condition_broadcast. rewrite (bind_Ok _ _ _ _ _ (condition_at_Ok _ _ _ Hv)). case_cmp.
  2: { exists s, Q. assert (v = 0) as -> by lia. assert (xs = []) as -> by (destruct xs; [done|cbn in Hlen; lia]).
    split_and!; [done|eapply kernel_ok_mono, HK; lia|done|done|by exists 0, []|].
    intros zs Hz. rewrite HQ in Hz. injection Hz as <-. by apply wakes_nobody. }
  unfold put_condition. rewrite bind_modify. set (s1 := set_conditions _ s).
  assert (HK1 : kernel_ok K s1 Q free) by (apply kernel_ok_put_condition; eauto).
  destruct (kernel_ok_unblock_all K s1 Q free HK1 (CondQueue x)) as (s' & Q' & E' & HK' & Hs & Hw & Hq);
    [lia|by eauto|done|].
  assert (Hv2 : conditions s' !! x = Some 0) by (rewrite (so_conditions _ _ Hs); apply lookup_insert_eq).
  exists s', Q'. split_and!; [done|done|by apply (running_woken s1 s' Q Q' Hw); [apply Hs|]|done| |done].
  exists 0, []. split_and!; [done|by apply (Hq xs HQ)|done].
Qed.

(** The last task to arrive opens the barrier; any other waits. *)
Lemma barrier_wait_counts x b k :
  barrier_counts s Q x -> barriers s !! x = Some b -> goal b <= 2147483647 ->
  if arrived b + 1 =? goal b then
    exists s' Q', do_barrier_wait x k s = Ok (Return, s') /\ kernel_ok (K + 1) s' Q' free /\ running s' Q' /\
      barriers s' !! x = Some (Barrier (goal b) 0) /\
      forall xs, Q !! BarrierQueue x = Some xs -> wakes s' Q Q' (BarrierQueue x) xs []
  else outcome (Q !! ReadyQueue = Some [current_running s]) (fun c s' => exists Q', c = Switch /\
      kernel_ok (K + 1) s' Q' free /\ running s' Q' /\ barriers s' !! x = Some (Barrier (goal b) (arrived b + 1)) /\
      barrier_counts s' Q' x /\ one_parked s Q Q' (BarrierQueue x)) (do_barrier_wait x k s).
Proof.
  intros (b' & xs & Hv' & HQ & Hlen & Hlt) Hv Hg. rewrite Hv in Hv'. injection Hv' as <-.
  pose proof (queue_bound K s Q free HK _ _ HQ) as Hx.
  set (s1 := set_barriers (<[x := Barrier (goal b) (arrived b + 1)]> (barriers s)) s).
  assert (HK1 : kernel_ok K s1 Q free) by (apply kernel_ok_put_barrier; eauto).
  assert (Hv1 : barriers s1 !! x = Some (Barrier (goal b) (arrived b + 1))) by apply lookup_insert_eq.
  assert (E : do_barrier_wait x k s = (if arrived b + 1 =? goal b then
      put_barrier x (Barrier (goal b) 0);; do_unblock_all (BarrierQueue x);; mret Return
      else (c ← get current_running; do_wait c (BarrierQueue x) TASK_WAITING k)) s1).
  { unfold do_barrier_wait. rewrite (bind_Ok _ _ _ _ _ (barrier_at_Ok _ _ _ Hv)).
    rewrite s32_id by (unfold is_s32; lia). rewrite (bind_Ok _ _ _ tt s1) by done.
    by rewrite (bind_Ok _ _ _ _ _ (barrier_at_Ok _ _ _ Hv1)). }
  rewrite E. case_cmp.
  - unfold put_barrier. rewrite bind_modify. set (s2 := set_barriers _ s1).
    assert (HK2 : kernel_ok K s2 Q free) by (apply kernel_ok_put_barrier; eauto).
    destruct (kernel_ok_unblock_all K s2 Q free HK2 (BarrierQueue x)) as (s' & Q' & E' & HK' & Hs & Hw & Hq);
      [lia|by eauto|done|]. exists s', Q'. rewrite (bind_Ok _ _ _ _ _ E').
    split_and!; [done|done|by apply (running_woken s2 s' Q Q' Hw); [apply Hs|]| |exact Hq].
    rewrite (so_barriers _ _ Hs). apply lookup_insert_eq.
  - rewrite bind_get. eapply outcome_mono; [| |apply (kernel_ok_do_wait K s1 Q free (BarrierQueue x)); [done|lia|done|by eauto|done]]; [|done].
    intros c s' (Q' & -> & HK' & Hrun' & Ho & HQ' & _). exists Q'.
    assert (Hv2 : barriers s' !! x = Some (Barrier (goal b) (arrived b + 1))).
    { unfold objects in Ho. injection Ho as _ _ _ E2. by rewrite E2. }
    split_and!; [done|done|done|done| |exact HQ']. eexists _, (xs ++ [current_running s1]).
    split_and!; [done|by apply HQ'| |cbn; lia]. rewrite length_app. cbn. lia.
Qed.

End counts2.

(** ** Theorems *)

(** C9. Mutual exclusion. In any trap or resumed frame, a lock of a task, unless it is initialised
    again, stays as it is, or is taken by the running task while it is free, or is released by the
    running task, its owner. No other task, and no death of a task, changes it. *)
Theorem mutex_mutual_exclusion (K a : Z) (s s' : kstate) (m m' : mode) :
  config_ok K (m, s) ->
  match m with
  | User => exists t, trap_ok K s t /\ t <> SystemCall (SYSCALL_MUTEX_LOCK_INIT (UserLock a)) /\
      step_by_trap t s (m', s')
  | KernelFrames [] => False
  | KernelFrames (fr :: k) => step_by_frame fr k s (m', s')
  end ->
  lock_change (current_running s) (UserLock a) s s'.
Proof.
  intros (HI & _ & _). destruct m as [|[|fr k]]; [|done|].
  - intros (t & Ht & Hinit & c & E & _). by apply (handle_lock_change K s t a c s').
  - intros (c & E & _). by apply (resume_lock_change K s fr k a c s').
Qed.

(** Who asks for a lock that is held by another does not return: [do_mutex_lock_acquire], and
    its loop when it is resumed, come back only to the holder of the lock. *)
Theorem mutex_acquire_returns_to_owner (K : Z) (s s' : kstate) (l : lockref) (k : list kframe) (m : mutex_lock_t) :
  kinv K s -> mutexes s !! l = Some m ->
  do_mutex_lock_acquire l k s = Ok (Return, s') ->
  current_running s' = current_running s /\
  ((owner m = current_running s /\ s' = s) \/
   (owner m <> current_running s /\ lstatus m = UNLOCKED /\
    mutexes s' !! l = Some (Mutex LOCKED (current_running s)))).
Proof.
  intros HI Hm E. unfold do_mutex_lock_acquire in E.
  rewrite (bind_Ok _ _ _ _ _ (mutex_at_Ok _ _ _ Hm)), (bind_Ok _ _ _ _ _ (kinv_current_pid K s HI)) in E.
  case_cmp; [injection E as <-; split; [done|by left]|].
  unfold mutex_acquire_loop in E. rewrite (bind_Ok _ _ _ _ _ (mutex_at_Ok _ _ _ Hm)) in E.
  assert (Hq : is_Some (queues s !! LockQueue l)) by (eapply (kinv_queue K s HI (LockQueue l)); eauto).
  destruct (lstatus m) eqn:Hst.
  - unfold mbind at 1, M_bind in E. destruct (take_lock l s) as [[[] s1]| | |] eqn:Et; try done.
    injection E as <-. destruct (take_lock_change K s l HI _ s1 tt Hq Et eq_refl) as [Hl Hc]. split; [done|by right].
  - exfalso. rewrite bind_get in E. unfold do_wait, do_scheduler, mbind, M_bind in E. by repeat case_match; simplify_eq.
Qed.

(** C32. The value of a semaphore counts: below zero it is minus the number of tasks waiting. Both
    operations keep this; [up] adds one and, if tasks wait, moves the best of them, ready, to the end of the
    ready queue, and touches no other queue; it never blocks. [down] takes one, and exactly when the value was not positive
    its caller joins the queue of the semaphore and another task runs, or, if it is the only one ready, the scheduler panics. *)
Theorem semaphore_counts_waiters (K v : Z) (s : kstate) (Q : gmap qref (list Z)) (free : list Z)
    (x : semref) (k : list kframe) :
  kernel_ok K s Q free -> running s Q -> K + 40 < 2147483648 ->
  semaphore_counts s Q x -> semaphores s !! x = Some v -> v < 2147483647 ->
  (exists s' Q', do_semaphore_up x s = Ok (tt, s') /\ kernel_ok (K + 2) s' Q' free /\ running s' Q' /\
    semaphores s' !! x = Some (v + 1) /\ semaphore_counts s' Q' x /\
    forall xs, Q !! SemQueue x = Some xs -> one_woken s s' Q Q' (SemQueue x) xs) /\
  (if 0 <? v then
    exists s', do_semaphore_down x k s = Ok (Return, s') /\ kernel_ok K s' Q free /\ running s' Q /\
      semaphores s' !! x = Some (v - 1) /\ semaphore_counts s' Q x
   else outcome (Q !! ReadyQueue = Some [current_running s]) (fun c s' => exists Q', c = Switch /\
      kernel_ok (K + 1) s' Q' free /\ running s' Q' /\ semaphores s' !! x = Some (v - 1) /\ semaphore_counts s' Q' x /\
      one_parked s Q Q' (SemQueue x)) (do_semaphore_down x k s)).
Proof.
  intros HK Hrun Hb Hc Hv Hmax. split.
  - by apply (semaphore_up_counts K s Q free HK Hrun Hb x v).
  - apply (semaphore_down_counts K s Q free HK Hrun Hb); [done|done|lia].
Qed.

(** C33. The count of a condition is the number of tasks waiting on it: [wait] releases the lock, if
    its caller holds it, and puts the caller into the queue of the condition, adding one; [signal] moves the best
    waiter, if there is one, to the ready queue; [broadcast] moves them all, in their order. *)
Theorem condition_counts_waiters (K v : Z) (s : kstate) (Q : gmap qref (list Z)) (free : list Z)
    (x : Z) (l : lockref) (k : list kframe) :
  kernel_ok K s Q free -> running s Q -> K + 40 < 2147483648 ->
  condition_counts s Q x -> conditions s !! x = Some v -> is_Some (mutexes s !! l) ->
  outcome (Q !! ReadyQueue = Some [current_running s]) (fun c s' => exists Q', c = Switch /\
      kernel_ok (K + 3) s' Q' free /\ running s' Q' /\ conditions s' !! x = Some (v + 1) /\ condition_counts s' Q' x /\
      one_parked s Q Q' (CondQueue x) /\ one_released s s' l) (do_condition_wait x l k s) /\
  (exists s' Q', do_condition_signal x s = Ok (tt, s') /\ kernel_ok (K + 2) s' Q' free /\ running s' Q' /\
    conditions s' !! x = Some (Z.max 0 (v - 1)) /\ condition_counts s' Q' x /\
    forall xs, Q !! CondQueue x = Some xs -> one_woken s s' Q Q' (CondQueue x) xs) /\
  (exists s' Q', do_condition_broadcast x s = Ok (tt, s') /\ kernel_ok (K + 1) s' Q' free /\ running s' Q' /\
    conditions s' !! x = Some 0 /\ condition_counts s' Q' x /\
    forall xs, Q !! CondQueue x = Some xs -> wakes s' Q Q' (CondQueue x) xs []).
Proof.
  intros HK Hrun Hb Hc Hv Hl. split_and!.
  - by apply (condition_wait_counts K s Q free HK Hrun Hb).
  - by apply (condition_signal_counts K s Q free HK Hrun Hb x v).
  - by apply (condition_broadcast_counts K s Q free HK Hrun Hb x v).
Qed.

(** C34. A barrier of goal [g] holds the tasks that arrive, as many as it counts, in its queue, until the [g]-th:
    that one passes, moves all the others, ready and in the order in which they came, to the end of the ready queue
    (and touches no third queue) and leaves the barrier empty for the next round. *)
Theorem barrier_opens_at_goal (K : Z) (s : kstate) (Q : gmap qref (list Z)) (free : list Z)
    (x : Z) (b : barrier_t) (k : list kframe) :
  kernel_ok K s Q free -> running s Q -> K + 40 < 2147483648 ->
  barrier_counts s Q x -> barriers s !! x = Some b -> goal b <= 2147483647 ->
  if arrived b + 1 =? goal b then
    exists s' Q', do_barrier_wait x k s = Ok (Return, s') /\ kernel_ok (K + 1) s' Q' free /\ running s' Q' /\
      barriers s' !! x = Some (Barrier (goal b) 0) /\
      forall xs, Q !! BarrierQueue x = Some xs -> wakes s' Q Q' (BarrierQueue x) xs []
  else outcome (Q !! ReadyQueue = Some [current_running s]) (fun c s' => exists Q', c = Switch /\
      kernel_ok (K + 1) s' Q' free /\ running s' Q' /\ barriers s' !! x = Some (Barrier (goal b) (arrived b + 1)) /\
      barrier_counts s' Q' x /\ one_parked s Q Q' (BarrierQueue x)) (do_barrier_wait x k s).
Proof. intros HK Hrun Hb Hc Hv Hg. by apply (barrier_wait_counts K s Q free HK Hrun Hb). Qed.

(** The death of a task releases none of its locks: [kill] leaves every lock of a task as it
    was, held by the dead task if it held it (it releases only the kernel's own [locks], which no
    system call reaches). *)
Theorem kill_keeps_user_locks (pid a : Z) (k : list kframe) (s s' : kstate) (c : ctl) :
  kill pid k s = Ok (c, s') -> mutexes s' !! UserLock a = mutexes s !! UserLock a.
Proof.
  intros E. apply (keeps_kill (P := fun _ => True)
    (R := fun s s' => mutexes s' !! UserLock a = mutexes s !! UserLock a) pid k (ctx_lock _ _)
    (fun i => mtx_lock (UserLock a) (Locks i) ltac:(done)) s c s' I E).
Qed.
