(* ===== verification/Isolation.v ===== *)
(** Virtual memory in the running kernel: the invariant of [MemorySpec] along the runs of [Run],
    with TLB exceptions between the traps.

    The two instances of [Frame] here say that no trap touches the memory tables, apart from the
    page directory of a new task, which is emptied, and that the processor's address-space id is
    always that of the running task. *)

From S2P Require Import Prelude Slist Kernel Queue Sched Sync Memory MemorySpec.
From S2P Require Import SchedSpec KernelInv Trap Safety Keeps Run.

(** ** What traps keep of the memory tables *)

Record dirs_kept (s s' : kstate) : Prop := {
  dk_mm : mm s' = mm s;
  dk_dir i b' : (pcb s').[i] = Some b' -> exists b, (pcb s).[i] = Some b /\
    (page_dir b' = page_dir b \/ page_dir b' = page_dir_init (page_dir b))
}.

Lemma page_dir_init_twice pd : page_dir_init (page_dir_init pd) = page_dir_init pd.
Proof. unfold page_dir_init. by rewrite <- list_fmap_compose. Qed.

Lemma dirs_kept_block s i b b' : (pcb s).[i] = Some b ->
  (page_dir b' = page_dir b \/ page_dir b' = page_dir_init (page_dir b)) ->
  dirs_kept s (set_pcb (<[Z.to_nat i := b']> (pcb s)) s).
Proof.
  intros Hb Hd. split; [done|]. intros j bj. cbn. rewrite (aget_upd_pcb _ i j b) by done.
  case_decide; intros; simplify_eq; eauto.
Qed.

#[global] Instance dirs_frame : Frame (fun _ => True) dirs_kept.
Proof.
  split; try by (intros; split; cbn; eauto).
  - intros s1 s2 s3 [E1 H1] [E2 H2]. split; [congruence|]. intros i b3 (b2 & (b1 & ? & Hd1)%H1 & Hd2)%H2.
    exists b1. split; [done|]. destruct Hd1 as [F1|F1], Hd2 as [F2|F2];
      rewrite F1, ?page_dir_init_twice in F2; eauto.
  - intros s i b b' Hb (_ & Hd & _). by apply (dirs_kept_block s i b).
Qed.

#[global] Instance dirs_registers : Registers dirs_kept.
Proof. split; split; cbn; eauto. Qed.

Lemma ctx_dirs k : ctx (P := fun _ => True) (R := dirs_kept) k.
Proof.
  intros s x s' _ E. unfold upd_current, upd_pcb, pcb_at, mbind, M_bind, get in E.
  destruct ((pcb s).[current_running s]) as [b|] eqn:Hb; [|done]. injection E as _ <-.
  apply (dirs_kept_block s _ b); [done|by left].
Qed.

Lemma mtx_dirs l : mtx (P := fun _ => True) (R := dirs_kept) l.
Proof. intros v s x s' _ E. injection E as _ <-. split; cbn; eauto. Qed.

Lemma page_dir_init_invalid pd d e : (page_dir_init pd).[d] = Some e -> pde_valid e = 0.
Proof.
  unfold aget, page_dir_init. case_decide; [|done]. rewrite list_lookup_fmap.
  destruct (pd !! Z.to_nat d); [|done]. by intros [= <-].
Qed.

Lemma table_of_kept s s' i d t : dirs_kept s s' -> table_of s' i d = Some t -> table_of s i d = Some t.
Proof.
  intros [_ Hd]. unfold table_of, pde_of. intros (e & (b' & Hb' & He)%bind_Some & Hv)%bind_Some.
  destruct (Hd i b' Hb') as (b & Hb & [E|E]); rewrite Hb; cbn.
  - by rewrite <- E, He.
  - rewrite E in He. by rewrite (page_dir_init_invalid _ _ _ He) in Hv.
Qed.

Lemma frame_at_kept s s' i d n p : dirs_kept s s' -> frame_at s' i d n = Some p -> frame_at s i d n = Some p.
Proof.
  intros H. unfold frame_at, page_at. intros (e & (t & Ht & He)%bind_Some & Hp)%bind_Some.
  rewrite (table_of_kept _ _ _ _ _ H Ht). cbn. rewrite <- (dk_mm _ _ H), He. exact Hp.
Qed.

(** The invariant of virtual memory survives every trap. *)
Lemma vm_ok_kept s s' tabs frames : dirs_kept s s' -> vm_ok s tabs frames -> vm_ok s' tabs frames.
Proof.
  intros H [[] Ht Hf [H1 H2 H3 H4]]. pose proof (dk_mm _ _ H) as E. split; rewrite ?E; [| done | done |].
  - split; rewrite ?E; try done. intros i b' Hb'. destruct (dk_dir _ _ H i b' Hb') as (b & Hb & [->| ->]);
      [eauto|]. unfold page_dir_init. rewrite length_fmap. eauto.
  - split; rewrite ?E.
    + intros i d t Hi. eapply H1, table_of_kept; done.
    + intros i d j e t Hi Hj. eapply H2; by eapply table_of_kept.
    + intros i d n p Hp. by eapply H3, frame_at_kept.
    + done.
Qed.

(** ** The address-space id *)

(** What runs before a switch leaves the running task and its id alone. *)
Definition quiet (s s' : kstate) : Prop := EntryHi s' = EntryHi s /\ current_running s' = current_running s.

#[global] Instance quiet_frame : Frame (fun _ => True) quiet.
Proof. split; try by (intros; split). intros s1 s2 s3 [] []. split; congruence. Qed.

Lemma mtx_quiet l : mtx (P := fun _ => True) (R := quiet) l.
Proof. by intros v s x s' _ [= _ <-]. Qed.

Lemma ctx_quiet k : ctx (P := fun _ => True) (R := quiet) k.
Proof.
  intros s x s' _ E. unfold upd_current, upd_pcb, pcb_at, mbind, M_bind, get in E.
  destruct ((pcb s).[current_running s]); [|done]. by injection E as _ <-.
Qed.

(** [scheduler] has just set the id. *)
Definition asid_fresh (s : kstate) : Prop :=
  exists b, (pcb s).[current_running s] = Some b /\ EntryHi s = u32 (pid b).

Definition asid_post (m : M ctl) : Prop :=
  forall s c s', m s = Ok (c, s') -> match c with Return => quiet s s' | Switch => asid_fresh s' end.

(** One step of a run that succeeded. *)
Ltac inv_step H :=
  apply bind_inv in H; let y := fresh "y" in let s1 := fresh "s" in let E := fresh "E" in
  destruct H as (y & s1 & E & H).

Lemma scheduler_asid s x s' : scheduler s = Ok (x, s') -> asid_fresh s'.
Proof.
  unfold scheduler. intros H. inv_step H. destruct y; [done|]. do 10 inv_step H.
  match type of H with _ ?t = _ => revert H; generalize t end. intros t H. rewrite bind_get in H.
  apply bind_inv in H as (b & t1 & Eb & H). unfold pcb_at in Eb.
  destruct ((pcb t).[current_running t]) as [b0|] eqn:Hb; [|done]. injection Eb as <- <-.
  rewrite !bind_modify in H. inv_step H. destruct (upd_current_inv _ _ _ _ E10) as (b1 & Hb1 & ->). cbn in Hb1.
  rewrite Hb in Hb1. injection Hb1 as <-. injection H as _ <-. exists (set_status TASK_RUNNING b0). cbn.
  split; [by rewrite (aget_upd_eq _ _ b0)|done].
Qed.

Lemma post_scheduler k : asid_post (do_scheduler k).
Proof.
  intros s c s' H. unfold do_scheduler in H. inv_step H. inv_step H. injection H as <- <-. by eapply scheduler_asid.
Qed.

Lemma post_bind {A} (m : M A) (f : A -> M ctl) :
  keeps (fun _ => True) quiet m -> (forall x, asid_post (f x)) -> asid_post (m ≫= f).
Proof.
  intros Hm Hf s c s' H. inv_step H. pose proof (Hm _ _ _ I E) as [E1 E2]. pose proof (Hf _ _ _ _ H) as Hp.
  destruct c; [|done]. destruct Hp. split; congruence.
Qed.

Lemma post_return : asid_post (mret Return).
Proof. by intros s c s' [= <- <-]. Qed.

Lemma post_returning m : keeps (fun _ => True) quiet m -> asid_post (returning m).
Proof. intros Hm. apply post_bind; [done|intros _; apply post_return]. Qed.

Create HintDb asid.
#[local] Hint Resolve post_return post_scheduler : asid.

Ltac post_tac :=
  repeat (first [solve [auto with asid nocore] | apply post_bind; [solve [keeps_tac | apply keeps_lift | by apply keeps_upd_current]|intros ?] | progress cbn beta zeta | case_match]).

Lemma post_do_wait p q st k : asid_post (do_wait p q st k).
Proof. unfold do_wait. post_tac. Qed.

#[local] Hint Resolve post_do_wait : asid.

Lemma post_kill i k : asid_post (kill i k).
Proof.
  unfold kill, pid_free. apply post_bind; [by keeps_tac|intros ?]. case_match; [post_tac|].
  do 3 (apply post_bind; [by keeps_tac|intros ?]).
  apply post_bind; [apply keeps_kill_locks_loop; intros ?; apply mtx_quiet|intros ?]. post_tac.
Qed.

Lemma post_take_lock l : asid_post (take_lock l;; mret Return).
Proof.
  apply post_bind; [|intros _; apply post_return]. unfold take_lock.
  apply keeps_bind; [apply keeps_add_lock_num|intros _]. apply keeps_bind; [by keeps_tac|intros ?]. apply mtx_quiet.
Qed.

Lemma post_mutex_acquire_loop l k : asid_post (mutex_acquire_loop l k).
Proof. unfold mutex_acquire_loop. apply post_bind; [by keeps_tac|intros m]. case_match; [apply post_take_lock|post_tac]. Qed.

#[local] Hint Resolve post_kill post_mutex_acquire_loop : asid.

Lemma post_do_mutex_lock_acquire l k : asid_post (do_mutex_lock_acquire l k).
Proof. unfold do_mutex_lock_acquire. post_tac. Qed.

#[local] Hint Resolve post_do_mutex_lock_acquire : asid.

Lemma quiet_release l : keeps (fun _ => True) quiet (do_mutex_lock_release l).
Proof. apply keeps_do_mutex_lock_release, mtx_quiet. Qed.

Ltac quiet_tac :=
  repeat (first [solve [keeps_tac | apply keeps_lift | by apply keeps_upd_current | apply mtx_quiet | apply quiet_release]
                | apply keeps_bind; [|intros ?] | case_match]).

Lemma post_do_syscall c k : asid_post (do_syscall c k).
Proof.
  destruct c; cbn [do_syscall]; try (apply post_returning).
  - quiet_tac.
  - post_tac.
  - unfold exit. post_tac.
  - unfold wait, pid_is_valid. post_tac.
  - unfold do_sleep, get_ticks. post_tac.
  - unfold do_getpid. quiet_tac.
  - unfold do_mutex_lock_init. quiet_tac.
  - apply post_do_mutex_lock_acquire.
  - apply quiet_release.
  - unfold do_semaphore_init. quiet_tac.
  - unfold do_semaphore_up, semaphore_at. quiet_tac.
  - unfold do_semaphore_down, semaphore_at. post_tac.
  - unfold do_condition_init. quiet_tac.
  - unfold do_condition_wait, condition_at. apply post_bind; [apply keeps_lift|intros ?].
    apply post_bind; [quiet_tac|intros ?]. apply post_bind; [apply quiet_release|intros ?]. post_tac.
  - unfold do_condition_signal, condition_at. quiet_tac.
  - unfold do_condition_broadcast, condition_at. quiet_tac.
  - unfold do_barrier_init. quiet_tac.
  - unfold do_barrier_wait, barrier_at. post_tac.
  - unfold do_wait_recv_package. post_tac.
Qed.

Lemma post_handle t : asid_post (handle t).
Proof.
  destruct t as [cause sr|c]; cbn [handle].
  - apply post_bind; [by apply keeps_upd_current|intros _]. unfold interrupt_helper, irq_timer, irq_ip3_helper, irq_mac.
    do 2 (apply post_bind; [quiet_tac|intros ?]). case_match; [post_tac|]. case_match; [|by intros s c s'].
    apply post_bind; [quiet_tac|intros ?]. apply post_return.
  - apply post_bind; [by apply keeps_upd_current|intros _]. apply post_do_syscall.
Qed.

Lemma post_resume fr k : asid_post (resume_sync fr k).
Proof.
  destruct fr; cbn [resume_sync]; try apply post_return; try by intros s c s'.
  - apply post_bind; [apply keeps_syscall_return|intros _; apply post_return].
  - apply post_mutex_acquire_loop.
  - apply post_do_mutex_lock_acquire.
Qed.

(** ** The machine with TLB exceptions *)

Definition asid_ok (s : kstate) : Prop := Z.land (EntryHi s) 0xff = current_running s.

(** A TLB exception: the processor puts the page in [EntryHi] and the address in [BadVAddr], which
    [exception_handler] saves. *)
Definition raise_tlb (va : Z) (s : kstate) : kstate :=
  set_EntryHi (Z.lor (Z.land va 0xffffe000) (Z.land (EntryHi s) 0xff))
    (set_pcb (alter (fun b => set_user_regs_context (set_cp0_badvaddr va (user_regs_context b)) b)
      (Z.to_nat (current_running s)) (pcb s)) s).

(** Runs of traps, resumed frames and TLB exceptions that need no swapping. *)
Inductive vm_step (P : Z) : mode * kstate -> mode * kstate -> Prop :=
  | vm_trap c c' : good_step P c c' -> vm_step P c c'
  | vm_fault s s' va random is_refill :
      0 <= va < USER_STACK_TOP_ADDRESS ->
      tlb_cause (tlb (mm s)) (EntryHi (raise_tlb va s)) random is_refill ->
      served s (current_running s) va ->
      TLB_exception_helper random is_refill [KExceptionExit] (raise_tlb va s) = Ok (Return, s') ->
      vm_step P (User, s) (User, s').

Inductive vm_steps (P : Z) : nat -> mode * kstate -> mode * kstate -> Prop :=
  | vm_steps_none c : vm_steps P 0 c c
  | vm_steps_more n c1 c2 c3 : vm_step P c1 c2 -> vm_steps P n c2 c3 -> vm_steps P (S n) c1 c3.

Definition vm_config (K : Z) (c : mode * kstate) : Prop :=
  config_ok K c /\ asid_ok (snd c) /\ exists tabs frames, vm_ok (snd c) tabs frames.

(** An access of the task [i] at [va] that reaches the physical address [a], by the TLB or by the
    page tables. *)
Definition reaches (s : kstate) (i va a : Z) : Prop :=
  tlb_phys (tlb (mm s)) i va = Some a \/ phys s i va = Some a.

Lemma current_small K s : kinv K s -> 0 <= current_running s < 16.
Proof.
  intros HI. destruct (kinv_block K s HI) as [b Hb]. destruct HI as (Q & free & HK & _).
  pose proof (aget_Some _ _ _ Hb) as H. destruct HK as [_ _ [Hl _ _] _]. lia.
Qed.

Lemma asid_fresh_ok K s : kinv K s -> asid_fresh s -> asid_ok s.
Proof.
  intros HI (b & Hb & E). pose proof (current_small K s HI) as Hr. destruct HI as (Q & free & HK & _ & Hrun).
  unfold asid_ok. rewrite E, (running_pid _ _ _ _ _ HK Hrun Hb), u32_id by (unfold is_u32; lia).
  rewrite (land_low _ 8) by done. change (2 ^ 8) with 256. by apply Z.mod_small; lia.
Qed.

Lemma asid_quiet s s' : quiet s s' -> asid_ok s -> asid_ok s'.
Proof. intros [E1 E2]. unfold asid_ok. by rewrite E1, E2. Qed.

Lemma good_step_vm K P c c' : good_step P c c' -> vm_config K c -> P <= K -> K + 40 < 2147483648 -> vm_config (K + 40) c'.
Proof.
  intros H (HC & Ha & tabs & frames & HV) HP HK. destruct H as [t s c' Ht Hs|fr k s c' Hs].
  - destruct (trap_config K s t HC HK) as [_ H]; [by eapply trap_ok_mono, Ht|]. pose proof (H _ Hs) as HC'.
    destruct Hs as (c & E & _). split; [done|]. split.
    + pose proof (post_handle t _ _ _ E) as Hp. destruct c; [by eapply asid_quiet|by eapply asid_fresh_ok; [apply HC'|]].
    + exists tabs, frames. eapply vm_ok_kept, HV. eapply keeps_any_trap; [apply ctx_dirs|apply mtx_dirs|exact I|exact E].
  - destruct (frame_config K s fr k HC HK) as [_ H]. pose proof (H _ Hs) as HC'.
    destruct Hs as (c & E & _). split; [done|]. split.
    + pose proof (post_resume fr k _ _ _ E) as Hp. destruct c; [by eapply asid_quiet|by eapply asid_fresh_ok; [apply HC'|]].
    + exists tabs, frames. eapply vm_ok_kept, HV. eapply keeps_any_frame; [apply ctx_dirs|apply mtx_dirs|exact I|exact E].
Qed.

(** A TLB exception keeps the rest of the kernel's invariant. *)
Lemma kinv_memory_only K s s' : kinv K s -> memory_only (current_running s) s s' -> kinv K s'.
Proof.
  intros HI [(f & m & h & -> & Hf)].
  eapply (kinv_ext K (set_pcb (alter f (Z.to_nat (current_running s)) (pcb s)) s)); try done.
  apply kinv_upd; [done| | |by eapply kinv_current]; intros b; by destruct (Hf b) as [pd ->].
Qed.

Lemma frames_ok_alter s s' c f :
  mutexes s' = mutexes s -> pcb s' = alter f (Z.to_nat c) (pcb s) ->
  (forall b, kernel_context (f b) = kernel_context b) -> frames_ok s -> frames_ok s'.
Proof.
  intros Em Ep Hk HF i b'. rewrite Ep. intros Hb'. pose proof (alter_fmap kernel_context f (pcb s) (Z.to_nat c) i Hk) as E.
  rewrite Hb' in E. destruct ((pcb s).[i]) as [b|] eqn:Hb; [|done]. injection E as ->.
  eapply Forall_impl; [by eapply HF|]. intros fr. apply frame_ok_mono. by rewrite Em.
Qed.

Lemma config_memory_only K s s' : config_ok K (User, s) -> memory_only (current_running s) s s' -> config_ok K (User, s').
Proof.
  intros (HI & HF & _) Hm. split; [by eapply kinv_memory_only|]. split; [|constructor].
  destruct Hm as [(f & m & h & -> & Hf)]. eapply (frames_ok_alter s _ (current_running s) f); try done.
  intros b. by destruct (Hf b) as [pd ->].
Qed.

Lemma config_raise K s va : config_ok K (User, s) -> config_ok K (User, raise_tlb va s).
Proof.
  intros (HI & HF & _). split; [|split; [|constructor]].
  - unfold raise_tlb. cbn [snd]. set (g := fun b => set_user_regs_context _ b).
    eapply (kinv_ext K (set_pcb (alter g (Z.to_nat (current_running s)) (pcb s)) s)); try done.
    apply kinv_upd; [done|by intros []|by intros []|by eapply kinv_current].
  - by eapply (frames_ok_alter s _ (current_running s)).
Qed.

Lemma vm_ok_raise s tabs frames va : vm_ok s tabs frames -> vm_ok (raise_tlb va s) tabs frames.
Proof.
  apply vm_ok_kept. split; [done|]. intros i b'. unfold raise_tlb. cbn [pcb set_EntryHi set_pcb].
  set (g := fun b => set_user_regs_context _ b). intros Hb'. pose proof (alter_fmap page_dir g (pcb s) (Z.to_nat (current_running s)) i (fun b => eq_refl)) as E.
  rewrite Hb' in E. destruct ((pcb s).[i]) as [b|]; [|done]. injection E as E. eauto.
Qed.

Lemma table_of_raise s va i d : table_of (raise_tlb va s) i d = table_of s i d.
Proof.
  unfold table_of, pde_of, raise_tlb. cbn [pcb set_EntryHi set_pcb]. set (g := fun b => set_user_regs_context _ b).
  pose proof (alter_fmap page_dir g (pcb s) (Z.to_nat (current_running s)) i (fun b => eq_refl)) as E.
  destruct ((alter g _ (pcb s)).[i]), ((pcb s).[i]); simplify_eq/=; congruence.
Qed.

Lemma served_raise s va c : served s c va -> served (raise_tlb va s) c va.
Proof. unfold served, frame_at, page_at. rewrite !table_of_raise. done. Qed.

(** The exception that the processor raises satisfies [fault]. *)
Lemma fault_raise K s va random is_refill :
  config_ok K (User, s) -> asid_ok s -> 0 <= va < USER_STACK_TOP_ADDRESS ->
  tlb_cause (tlb (mm s)) (EntryHi (raise_tlb va s)) random is_refill ->
  fault (raise_tlb va s) (current_running s) va random is_refill.
Proof.
  intros (HI & _) Ha Hva Hcause. pose proof (current_small K s HI) as Hr. destruct (kinv_block K s HI) as [b Hb].
  split; [done| | |done| |done].
  - eexists. unfold raise_tlb. cbn [pcb set_EntryHi set_pcb]. rewrite aget_alter, decide_True, Hb by lia. cbn.
    split; [done|]. split; [|done]. destruct HI as (Q & free & HK & _ & Hrun). exact (running_pid _ _ _ _ _ HK Hrun Hb).
  - unfold is_u8. cbn in *. lia.
  - unfold raise_tlb. cbn [EntryHi set_EntryHi]. by rewrite Ha.
Qed.

(** A TLB exception in a good configuration that needs no swapping. *)
Lemma fault_config K s va random is_refill k :
  vm_config K (User, s) -> 0 <= va < USER_STACK_TOP_ADDRESS ->
  tlb_cause (tlb (mm s)) (EntryHi (raise_tlb va s)) random is_refill -> served s (current_running s) va ->
  exists s' a, TLB_exception_helper random is_refill k (raise_tlb va s) = Ok (Return, s') /\
    mapped (raise_tlb va s) s' (current_running s) va a /\ vm_config K (User, s').
Proof.
  intros (HC & Ha & tabs & frames & HV) Hva Hcause Hs.
  pose proof (fault_raise K s va random is_refill HC Ha Hva Hcause) as HF.
  destruct (helper_serves (raise_tlb va s) tabs frames (current_running s) va random is_refill k) as
    (s' & tabs' & frames' & a & E & HV' & HM); [by apply vm_ok_raise|done|by apply served_raise|].
  exists s', a. split; [done|]. split; [done|]. split; [|split; [|eauto]].
  - eapply (config_memory_only K (raise_tlb va s)); [by apply config_raise|apply HM].
  - cbn. unfold asid_ok. rewrite (ma_hi _ _ _ _ _ HM), (memory_only_current _ _ _ (ma_only _ _ _ _ _ HM)).
    destruct HF as [_ _ Hu _ -> _]. destruct (user_indices va Hva) as (Hv & _).
    rewrite entry_hi_page by done. rewrite asid_entry_hi by done. done.
Qed.

Lemma vm_step_config K P c c' :
  vm_step P c c' -> vm_config K c -> P <= K -> K + 40 < 2147483648 -> vm_config (K + 40) c'.
Proof.
  intros H HC HP HK. destruct H as [c c' H|s s' va random is_refill Hva Hcause Hs E]; [by eapply good_step_vm|].
  destruct (fault_config K s va random is_refill [KExceptionExit] HC Hva Hcause Hs) as (s1 & a & E1 & _ & H).
  rewrite E in E1. injection E1 as <-. destruct H as ((HI & HF) & ?). split; [split; [|done]|done].
  eapply kinv_mono; [|done]. lia.
Qed.

Lemma vm_steps_config P n : forall K c c',
  vm_steps P n c c' -> vm_config K c -> P <= K -> K + 40 * Z.of_nat n < 2147483648 ->
  vm_config (K + 40 * Z.of_nat n) c'.
Proof.
  induction n as [|n IH]; intros K c c' H HC HP HK; inversion H; subst.
  - by rewrite Z.mul_0_r, Z.add_0_r.
  - replace (K + 40 * Z.of_nat (S n)) with (K + 40 + 40 * Z.of_nat n) by lia.
    eapply IH; [done|eapply vm_step_config; [done..|lia]|lia|lia].
Qed.

(** ** Initialisation *)

Lemma init_TLB_loop_spec n : forall i s, 0 <= i -> i + Z.of_nat n = Z.of_nat (length (tlb (mm s))) ->
  (forall k e, 0 <= k < i -> (tlb (mm s)).[k] = Some e -> e = TlbEntry 0x80000000 0 0) ->
  exists t, init_TLB_loop n i s = Ok (tt, set_mm (set_tlb t (mm s)) s) /\ length t = length (tlb (mm s)) /\
    forall k e, t.[k] = Some e -> e = TlbEntry 0x80000000 0 0.
Proof.
  induction n as [|n IH]; intros i s Hi Hn Hz.
  - exists (tlb (mm s)). split; [by destruct s as [? ? ? ? ? ? ? ? ? ? ? ? []]|]. split; [done|].
    intros k e He. apply (Hz k); [|done]. apply aget_Some in He. lia.
  - cbn [init_TLB_loop]. rewrite (bind_Ok _ _ _ _ _ (tlb_write_Ok s i _ ltac:(lia))). set (s1 := set_mm _ s).
    destruct (IH (i + 1) s1) as (t & E & Hl & Ht); [lia|cbn; rewrite length_insert; lia| |].
    + intros k e Hk. cbn. rewrite aget_insert by lia. case_decide; [by intros [= <-]|]. intros He. apply (Hz k); [lia|done].
    + exists t. split; [by rewrite E|]. split; [|done]. rewrite Hl. cbn. by rewrite length_insert.
Qed.

Lemma init_slist_Ok sel put n s : Z.of_nat (length (sel (mm s))) = n -> 1 <= n ->
  exists l, init_slist sel put n s = Ok (tt, set_mm (put l (mm s)) s) /\ slist_rep l n (range 1 (Z.to_nat (n - 1))).
Proof.
  intros Hl Hn. destruct (slist_init_rep (sel (mm s)) n Hn Hl) as (l & E & Hr). exists l. split; [|done].
  unfold init_slist. rewrite bind_get. by rewrite (bind_lift _ _ _ _ E).
Qed.

(** [init_memory], its effect on the rest of the state included. *)
Lemma init_memory_spec (s : kstate) :
  vm_sizes s -> (forall i d e, pde_of (pcb s) i d = Some e -> pde_valid e = 0) ->
  Z.of_nat (length (pm_slist (mm s))) = PM_SLIST_SIZE ->
  Z.of_nat (length (pt_pool_slist (mm s))) = PAGE_TABLE_POOL_SLIST_SIZE ->
  Z.of_nat (length (swap_area_slist (mm s))) = SWAP_AREA_SIZE ->
  exists m, init_memory s = Ok (tt, set_mm m (set_EntryHi 0x80000000 s)) /\
    vm_ok (set_mm m (set_EntryHi 0x80000000 s)) (range 1 20) (range 1 2048) /\
    slist_rep (swap_area_slist m) SWAP_AREA_SIZE (range 1 1024) /\
    forall k e, (tlb m).[k] = Some e -> e = TlbEntry 0x80000000 0 0.
Proof.
  intros Hsz Hd Hpm Hpt Hsw. unfold init_memory, init_TLB. rewrite bind_assoc, bind_modify.
  destruct (init_TLB_loop_spec (Z.to_nat TLB_ENTRY_NUMBER) 0 (set_EntryHi 0x80000000 s)) as (t & E & Hl & Ht);
    [done|cbn; by rewrite (vs_tlb _ Hsz)|lia|]. rewrite (bind_Ok _ _ _ _ _ E). set (s1 := set_mm _ _).
  destruct (init_slist_Ok pm_slist set_pm_slist PM_SLIST_SIZE s1) as (l1 & E1 & H1); [done|done|].
  rewrite (bind_Ok _ _ _ _ _ E1). set (s2 := set_mm _ s1).
  destruct (init_slist_Ok pt_pool_slist set_pt_pool_slist PAGE_TABLE_POOL_SLIST_SIZE s2) as (l2 & E2 & H2); [done|done|].
  rewrite (bind_Ok _ _ _ _ _ E2). set (s3 := set_mm _ s2).
  destruct (init_slist_Ok swap_area_slist set_swap_area_slist SWAP_AREA_SIZE s3) as (l3 & E3 & H3); [done|done|].
  exists (set_swap_area_slist l3 (mm s3)). split; [exact E3|]. split; [|split; [exact H3|exact Ht]].
  assert (Hno : forall i d, table_of s i d = None).
  { intros i d. unfold table_of. destruct (pde_of (pcb s) i d) as [e|] eqn:He; [|done]. cbn. by rewrite (Hd _ _ _ He). }
  change (set_mm _ _) with (set_mm (set_swap_area_slist l3 (mm s3)) s3). set (s4 := set_mm _ s3). assert (Hno4 : forall i d, table_of s4 i d = None) by exact Hno.
  split; [|exact H2|exact H1|].
  - destruct Hsz. split; cbn in *; try done. by rewrite Hl.
  - split.
    + intros i d x Hx. by rewrite Hno4 in Hx.
    + intros i d j e x Hx. by rewrite Hno4 in Hx.
    + intros i d n p Hp. unfold frame_at, page_at in Hp. by rewrite Hno4 in Hp.
    + intros k e He. left. by rewrite (Ht k e He).
Qed.

(** Whenever two accesses reach the same byte, they are the same task's at the same address. *)
Definition isolated (s : kstate) : Prop :=
  forall i j va vb a, is_u8 i -> is_u8 j -> is_u32 va -> is_u32 vb ->
    reaches s i va a -> reaches s j vb a -> i = j /\ va = vb /\ PM_BASE <= a < 2 * PM_BASE.

Lemma vm_config_isolated K m s : vm_config K (m, s) -> isolated s.
Proof.
  intros H. destruct H as (_ & _ & tabs & frames & HV). cbn [snd] in HV. intros i j va vb a Hi Hj Hva Hvb Ha Hb.
  assert (Ho : forall k vk, is_u8 k -> is_u32 vk -> reaches s k vk a -> exists f,
    owned (mm s) frames f k (page_dir_num vk) (page_table_num vk) /\ a = pfn_of f * 4096 + Z.land vk 0x1fff).
  { intros k vk Hk Hvk [Hr|Hr]; [by eapply tlb_phys_owned|by eapply phys_owned]. }
  destruct (Ho i va Hi Hva Ha) as (f & Hf & E1). destruct (Ho j vb Hj Hvb Hb) as (g & Hg & E2).
  destruct (owned_inj (mm s) frames f g i j va vb Hva Hvb Hf Hg) as [-> ->]; [congruence|].
  split_and!; [done|done|rewrite E1; by eapply owned_range..].
Qed.

(** ** Theorems *)

(** C4. Memory isolation. Along every run of traps, resumed frames and TLB exceptions that need no
    swapping, in any order, the invariant of the kernel and of its page tables holds; and whenever
    two accesses reach the same byte of physical memory, be it by the TLB or by the page tables,
    they are the same task's at the same address. The byte is in the 16 MB above the kernel. *)
Theorem memory_isolated (K n : Z) (c : mode * kstate) (m : mode) (s : kstate) :
  vm_config K c -> 0 <= n -> K + 40 * n < 2147483648 -> vm_steps K (Z.to_nat n) c (m, s) ->
  vm_config (K + 40 * n) (m, s) /\
  forall i j va vb a, is_u8 i -> is_u8 j -> is_u32 va -> is_u32 vb ->
    reaches s i va a -> reaches s j vb a -> i = j /\ va = vb /\ PM_BASE <= a < 2 * PM_BASE.
Proof.
  intros HC Hn HK Hs. pose proof (vm_steps_config K _ K c (m, s) Hs HC) as H.
  rewrite Z2Nat.id in H by done. specialize (H ltac:(lia) ltac:(lia)). split; [done|].
  by apply (vm_config_isolated _ _ _ H).
Qed.

(** C15. A TLB exception maps the page that caused it: unless the page is swapped out, or a table or
    frame is wanted and none is free, the handler ends, in the user program, with the page mapped
    where it was or in a new frame, an entry in the TLB with which the access now hits, every other
    page of every task where it was, and the invariant. *)
Theorem tlb_exception_maps_page (K va random is_refill : Z) (s : kstate) (k : list kframe) :
  vm_config K (User, s) -> 0 <= va < USER_STACK_TOP_ADDRESS ->
  tlb_cause (tlb (mm s)) (EntryHi (raise_tlb va s)) random is_refill ->
  served s (current_running s) va ->
  exists s' a, TLB_exception_helper random is_refill k (raise_tlb va s) = Ok (Return, s') /\
    mapped (raise_tlb va s) s' (current_running s) va a /\ vm_config K (User, s').
Proof. intros. by apply fault_config. Qed.

(** Without a free page table, a TLB exception in a region that has none panics. *)
Theorem tlb_exception_panics_without_table (K va random is_refill : Z) (s : kstate) (k : list kframe) :
  vm_config K (User, s) -> 0 <= va < USER_STACK_TOP_ADDRESS ->
  table_of s (current_running s) (page_dir_num va) = None ->
  slist_is_insufficient (pt_pool_slist (mm s)) = Some true ->
  TLB_exception_helper random is_refill k (raise_tlb va s) = Panic "Empty page table pool.".
Proof.
  intros (HC & Ha & tabs & frames & HV) Hva Ht Hf. cbn [snd] in HV. apply (vm_ok_raise _ _ _ va) in HV.
  rewrite <- (table_of_raise s va) in Ht. change (pt_pool_slist (mm s)) with (pt_pool_slist (mm (raise_tlb va s))) in Hf.
  change (current_running s) with (current_running (raise_tlb va s)) in Ht.
  destruct (kinv_block K (raise_tlb va s)) as [b Hb]; [by apply (config_raise K s va)|].
  set (s0 := raise_tlb va s) in *. destruct (user_indices va Hva) as (_ & Hd & _).
  assert (Hbad : cp0_badvaddr (user_regs_context b) = va).
  { unfold s0, raise_tlb in Hb. cbn [pcb set_EntryHi set_pcb current_running] in Hb.
    rewrite aget_alter, decide_True in Hb by (done || by apply (current_small K s), HC).
    destruct ((pcb s).[current_running s]); [|done]. by injection Hb as <-. }
  unfold TLB_exception_helper. rewrite bind_get, (bind_Ok _ _ _ _ _ (pcb_at_Ok _ _ _ Hb)), bind_get, Hbad.
  unfold mbind, M_bind. rewrite (find_table_panic s0 tabs frames (page_dir_num va) HV); [done| |done|].
  - eapply pde_of_is_Some; [apply HV|exact Hb|done].
  - destruct tabs as [|t tabs]; [done|]. pose proof (slist_sufficient _ _ _ (vo_tabs _ _ _ HV)) as [_ H].
    rewrite H in Hf; done.
Qed.

(** [init_memory] establishes the invariant of virtual memory: with the arrays of [memory.c] in
    place and no directory in use, every table and frame ends free and every TLB entry invalid. *)
Theorem init_memory_establishes (s : kstate) :
  vm_sizes s -> (forall i d e, pde_of (pcb s) i d = Some e -> pde_valid e = 0) ->
  Z.of_nat (length (pm_slist (mm s))) = PM_SLIST_SIZE ->
  Z.of_nat (length (pt_pool_slist (mm s))) = PAGE_TABLE_POOL_SLIST_SIZE ->
  Z.of_nat (length (swap_area_slist (mm s))) = SWAP_AREA_SIZE ->
  exists s', init_memory s = Ok (tt, s') /\ vm_ok s' (range 1 20) (range 1 2048) /\
    slist_rep (swap_area_slist (mm s')) SWAP_AREA_SIZE (range 1 1024).
Proof.
  intros Hsz Hd Hpm Hpt Hsw. destruct (init_memory_spec s Hsz Hd Hpm Hpt Hsw) as (m & E & HV & Hs & _). eauto.
Qed.

(** C40. [swap_area_alloc] hands out the 8 KB of the swap area that belong to the first free number, the [i]-th for number [i],
    so that no two places overlap, all within the area and aligned to sectors; nothing but the pool changes, and
    [swap_area_free] of that address gives just that number back. But when all are taken, [swap_area_alloc] does not fail: it
    returns the address 8 KB below the swap area, among the sectors reserved for the kernel. *)
Theorem swap_area_bounds (s : kstate) (free : list Z) :
  slist_rep (swap_area_slist (mm s)) SWAP_AREA_SIZE free ->
  match free with
  | [] => swap_area_alloc s = Ok (SWAP_AREA_BASE - SWAP_AREA_UINT_SIZE, s)
  | i :: free' => let a := 0x700200 + 8192 * (i - 1) in exists l l',
      let s1 := set_mm (set_swap_area_slist l (mm s)) s in
      swap_area_alloc s = Ok (a, s1) /\ 0x700200 <= a /\ a + 8192 <= 0xf00200 /\ a mod 512 = 0 /\
      slist_rep l SWAP_AREA_SIZE free' /\
      swap_area_free a s1 = Ok (1, set_mm (set_swap_area_slist l' (mm s1)) s1) /\ slist_rep l' SWAP_AREA_SIZE free
  end.
Proof.
  intros H. unfold swap_area_alloc. destruct free as [|i free].
  - erewrite bind_Ok by (apply mm_slist_Ok; by eapply slist_alloc_nil). cbn. by destruct s as [? ? ? ? ? ? ? ? ? ? ? ? []].
  - destruct (slist_alloc_cons _ _ _ _ H) as (l & E & Hl). erewrite bind_Ok by (apply mm_slist_Ok; exact E).
    pose proof (rep_range _ _ _ H i ltac:(set_solver)) as Hr. pose proof (rep_nodup _ _ _ H) as [Hi _]%NoDup_cons.
    unfold SWAP_AREA_SIZE in Hr. unfold SWAP_AREA_BASE, SWAP_AREA_UINT_SIZE in *. rewrite u32_id by (unfold is_u32; lia).
    destruct (slist_free_ok l SWAP_AREA_SIZE free i Hl) as (l' & E' & Hl'); [unfold SWAP_AREA_SIZE; lia|done|].
    cbv zeta. replace (0x700200 + 8192 * (i - 1)) with (0x700200 + (i - 1) * 0x2000) by lia. set (s1 := set_mm (set_swap_area_slist l (mm s)) s).
    exists l, l'. split; [reflexivity|]. split_and!; [lia|lia| |exact Hl| |exact Hl'].
    + replace (0x700200 + (i - 1) * 0x2000) with ((0x3801 + (i - 1) * 16) * 512) by lia. by rewrite Z.mod_mul.
    + unfold swap_area_free, SWAP_AREA_BASE, SWAP_AREA_UINT_SIZE. apply mm_slist_Ok. cbn [swap_area_slist mm set_mm set_swap_area_slist].
      replace (0x700200 + (i - 1) * 0x2000 - 0x700200) with ((i - 1) * 0x2000) by lia.
      rewrite (u32_id ((i - 1) * 0x2000)), Z.div_mul, s32_u32, s32_id by (done || unfold is_u32, is_s32; lia).
      by replace (i - 1 + 1) with i by lia.
Qed.

(** The death of a task gives back none of its memory: [kill] leaves the tables, the frames and
    the TLB as they were, entries of the dead task included. *)
Theorem kill_keeps_memory (pid : Z) (k : list kframe) (s s' : kstate) (c : ctl) :
  kill pid k s = Ok (c, s') -> mm s' = mm s.
Proof.
  intros E. apply (dk_mm s s'). eapply (keeps_kill (P := fun _ => True)); [apply ctx_dirs|intros i; apply mtx_dirs|exact I|exact E].
Qed.
