(* ===== verification/Example.v ===== *)
(** A small running kernel: the concrete states at which theorems about queues, scheduling and
    synchronisation are instantiated, and a decision procedure for [qrep] on such states. *)

From S2P Require Import Prelude Slist Kernel Queue Sched Sync SchedSpec KernelInv Trap Safety Run.

(** ** Deciding the representation of queues *)

Fixpoint dsegb (P : list pcb_t) (pv : ptr) (xs : list Z) (nx : ptr) : bool :=
  match xs with
  | [] => true
  | i :: xs =>
      match P.[i] with
      | None => false
      | Some p => bool_decide (prev p = pv) && bool_decide (next p = first_of xs nx)
      end && dsegb P (Some i) xs nx
  end.

Definition qrepb (s : kstate) (Q : gmap qref (list Z)) : bool :=
  bool_decide (queues s = queue_of <$> Q) &&
  bool_decide (map_Forall (fun _ xs => dsegb (pcb s) None xs None = true /\ NoDup xs) Q) &&
  bool_decide (map_Forall (fun q xs =>
    map_Forall (fun q' xs' => q = q' \/ Forall (fun i => i ∉ xs') xs) Q) Q).

(** ** The state *)

(** A block with what the examples look at. *)
Definition example_pcb (pd pri sp wt at_ : Z) (st : task_status_t) (q : option qref) (pv nx : ptr) : pcb_t :=
  Pcb [KHandlerReturn] 0 (RegsContext (replicate 32 0) 0 0 0 0 0 0) 8192 8192 pv nx pd pri sp wt at_
    "task" USER_PROCESS st 0 q [] 0 0.

(** Seven tasks: 2, 1 and 3 ready (1 running), 4 asleep, 5 waiting on a semaphore, 6 on a condition,
    7 at a barrier; slots 8 to 15 free. *)
Definition example_pcbs : list pcb_t :=
  [ example_pcb 0 0 0 0 0 TASK_EXITED None None None;
    example_pcb 1 2 2 0 0 TASK_RUNNING (Some ReadyQueue) (Some 2) (Some 3);
    example_pcb 2 1 1 4 0 TASK_READY (Some ReadyQueue) None (Some 1);
    example_pcb 3 2 2 1 0 TASK_READY (Some ReadyQueue) (Some 1) None;
    example_pcb 4 3 3 0 7 TASK_SLEEPING (Some SleepQueue) None None;
    example_pcb 5 1 1 0 0 TASK_BLOCKED (Some (SemQueue (UserSem 80))) None None;
    example_pcb 6 1 1 0 0 TASK_BLOCKED (Some (CondQueue 160)) None None;
    example_pcb 7 1 1 0 0 TASK_WAITING (Some (BarrierQueue 240)) None None ] ++
  replicate 8 (example_pcb 0 0 0 0 0 TASK_EXITED None None None).

Definition example_Q : gmap qref (list Z) :=
  list_to_map ([(ReadyQueue, [2; 1; 3]); (SleepQueue, [4]); (RecvBlockQueue, []);
      (SemQueue (UserSem 80), [5]); (CondQueue 160, [6]); (BarrierQueue 240, [7]);
      (LockQueue (UserLock 320), [])] ++
    ((fun i => (WaitQueue i, [])) <$> [1; 2; 3; 4; 5; 6; 7]) ++
    ((fun i => (LockQueue (Locks (Z.of_nat i)), [])) <$> seq 0 16)).

Definition example_free : list Z := [8; 9; 10; 11; 12; 13; 14; 15].

Definition example_pid_list : list node :=
  Node 1 8 :: ((fun i => Node 1 (Z.of_nat i)) <$> seq 2 7) ++ ((fun i => Node 0 (Z.of_nat i)) <$> (seq 9 7 ++ [0%nat])).

Definition example_mm : mm_state :=
  MmState [] [] [] [] [] [] (IoTask IO_TASK_READ 0 0 0) [].

(** The lock 320 is held by task 3. *)
Definition example : kstate :=
  KState example_pcbs 1 (queue_of <$> example_Q) example_pid_list 9
    (<[UserLock 320 := Mutex LOCKED 3]>
      (list_to_map ((fun i => (Locks (Z.of_nat i), Mutex UNLOCKED 0)) <$> seq 0 16)))
    {[UserSem 80 := -1]} {[160 := 1]} {[240 := Barrier 2 1]} 0 0 1 example_mm.

(** ** Lemmas *)

Lemma dsegb_sound P pv xs nx : dsegb P pv xs nx = true -> dseg P pv xs nx.
Proof.
  revert pv. induction xs as [|i xs IH]; intros pv; cbn; [done|].
  destruct (P.[i]) as [p|]; [|done].
  intros ((H1 & H2)%andb_prop & H3)%andb_prop. apply bool_decide_eq_true in H1, H2.
  split; [by exists p|by apply IH].
Qed.

Lemma qrepb_sound s Q : qrepb s Q = true -> qrep s Q.
Proof.
  unfold qrepb. intros ((H1 & H2)%andb_prop & H3)%andb_prop.
  apply bool_decide_eq_true in H1, H2, H3. split; [done|..].
  - intros q xs HQ. by apply dsegb_sound, (H2 q xs HQ).
  - intros q xs HQ. by apply (H2 q xs HQ).
  - intros q q' xs xs' i HQ HQ' Hi Hi'. destruct (H3 q xs HQ q' xs' HQ') as [|HF]; [done|].
    rewrite Forall_forall in HF. by destruct (HF i Hi).
Qed.

Lemma example_qrep : qrep example example_Q.
Proof. apply qrepb_sound. vm_compute. reflexivity. Qed.

Definition block_okb (K : Z) (free : list Z) (P : list pcb_t) (q : qref) (i : Z) : bool :=
  bool_decide (1 <= i < MAX_TASK_NUM) && bool_decide (i ∉ free) &&
  match P.[i] with
  | None => false
  | Some b =>
      bool_decide (queue b = Some q) && bool_decide (pid b = i) && (1 <=? priority b) &&
      (1 <=? scheduler_priority b) && (scheduler_priority b <=? K) && (0 <=? wait_time b) && (wait_time b <=? K)
  end.

Lemma block_okb_sound K free P q i :
  block_okb K free P q i = true ->
  (1 <= i < MAX_TASK_NUM /\ i ∉ free) /\ exists b, P.[i] = Some b /\ block_ok K q i b.
Proof.
  unfold block_okb. intros ((H1 & H2)%andb_prop & H3)%andb_prop. apply bool_decide_eq_true in H1, H2.
  split; [done|]. destruct (P.[i]) as [b|]; [|done]. exists b. split; [done|].
  repeat (apply andb_prop in H3 as [H3 ?]). repeat match goal with H : bool_decide _ = true |- _ => apply bool_decide_eq_true in H end.
  split; (done || lia).
Qed.

Lemma example_pids : slist_rep (pid_list example) MAX_TASK_NUM example_free.
Proof.
  destruct (slist_init_rep (replicate 16 (Node 0 0)) 16) as (l & E & H); [lia|done|].
  change (range 1 (Z.to_nat (16 - 1))) with ([1; 2; 3; 4; 5; 6; 7] ++ example_free) in H.
  vm_compute in E. injection E as <-.
  do 7 (let E' := fresh in let H' := fresh in
    destruct (slist_alloc_cons _ _ _ _ H) as (? & E' & H'); vm_compute in E'; injection E' as <-; clear H; rename H' into H).
  exact H.
Qed.

Lemma example_ok : kernel_ok 4 example example_Q example_free.
Proof.
  split; [apply example_qrep|apply example_pids| |].
  - split; [done| |].
    + assert (H : bool_decide (map_Forall (fun q xs =>
        Forall (fun i => block_okb 4 example_free example_pcbs q i = true) xs) example_Q) = true)
        by (vm_compute; reflexivity).
      apply bool_decide_eq_true in H. intros q xs i HQ Hi. apply block_okb_sound.
      specialize (H q xs HQ). rewrite Forall_forall in H. by apply H.
    + intros i Hi Hf. unfold MAX_TASK_NUM in Hi.
      assert (i = 1 \/ i = 2 \/ i = 3 \/ i = 4 \/ i = 5 \/ i = 6 \/ i = 7) as Hc.
      { destruct (decide (i < 8)); [lia|]. exfalso. apply Hf. apply list_elem_of_In. cbn. lia. }
      destruct Hc as [->|[->|[->|[->|[->|[->| ->]]]]]].
      all: first [exists ReadyQueue, [2; 1; 3]; split; [vm_compute; reflexivity|set_solver]
        | exists SleepQueue, [4]; split; [vm_compute; reflexivity|set_solver]
        | exists (SemQueue (UserSem 80)), [5]; split; [vm_compute; reflexivity|set_solver]
        | exists (CondQueue 160), [6]; split; [vm_compute; reflexivity|set_solver]
        | exists (BarrierQueue 240), [7]; split; [vm_compute; reflexivity|set_solver]].
  - assert (Hw : bool_decide (Forall (fun i => is_Some (example_Q !! WaitQueue i)) [1;2;3;4;5;6;7]) = true)
      by (vm_compute; reflexivity).
    assert (Hl : bool_decide (map_Forall (fun l _ => is_Some (example_Q !! LockQueue l)) (mutexes example)) = true)
      by (vm_compute; reflexivity).
    assert (Hk : bool_decide (Forall (fun i => is_Some (mutexes example !! Locks (Z.of_nat i))) (seq 0 16)) = true)
      by (vm_compute; reflexivity).
    apply bool_decide_eq_true in Hw, Hl, Hk. rewrite Forall_forall in Hw. rewrite Forall_forall in Hk.
    split; try (vm_compute; eauto; fail).
    + intros i Hi Hf. apply Hw. apply list_elem_of_In. unfold MAX_TASK_NUM in Hi.
      destruct (decide (i < 8)); [cbn; lia|]. exfalso. apply Hf. apply list_elem_of_In. cbn. lia.
    + intros i Hi. replace i with (Z.of_nat (Z.to_nat i)) by lia. apply Hk. apply elem_of_seq.
      unfold MAX_LOCKS_NUM in Hi. lia.
    + intros l [m Hm]. by apply (Hl l m).
    + intros x [v Hv]. unfold example in Hv. cbn [semaphores conditions barriers] in Hv. apply lookup_singleton_Some in Hv as [<- _]. vm_compute. eauto.
    + intros x [v Hv]. unfold example in Hv. cbn [semaphores conditions barriers] in Hv. apply lookup_singleton_Some in Hv as [<- _]. vm_compute. eauto.
    + intros x [v Hv]. unfold example in Hv. cbn [semaphores conditions barriers] in Hv. apply lookup_singleton_Some in Hv as [<- _]. vm_compute. eauto.
Qed.

Lemma example_running : running example example_Q.
Proof. exists [2; 1; 3]. split; [vm_compute; reflexivity|set_solver]. Qed.

Lemma example_kinv : kinv 4 example.
Proof.
  exists example_Q, example_free. split; [exact example_ok|]. split; [|exact example_running].
  assert (H : bool_decide (Forall (fun i => example_Q !! WaitQueue i = None) example_free) = true)
    by (vm_compute; reflexivity).
  apply bool_decide_eq_true in H. rewrite Forall_forall in H. intros i xs Hi HQ. rewrite (H i Hi) in HQ. done.
Qed.

Lemma example_config : config_ok 4 (User, example).
Proof.
  split; [exact example_kinv|]. split; [|constructor].
  assert (H : bool_decide (Forall (fun b => kernel_context b = [KHandlerReturn]) example_pcbs) = true)
    by (vm_compute; reflexivity).
  apply bool_decide_eq_true in H. rewrite Forall_forall in H. intros i b Hb.
  rewrite H; [by repeat constructor|]. unfold aget in Hb. case_decide; [|done]. by eapply list_elem_of_lookup_2.
Qed.
