(* ===== verification/VmExample.v ===== *)
(** The running kernel of [Example] with virtual memory initialised, and the theorems of [Isolation]
    applied to it. *)

From S2P Require Import Prelude Slist Kernel Queue Sched Sync Memory MemorySpec.
From S2P Require Import SchedSpec KernelInv Trap Safety Keeps Run Isolation Example.

(** ** The state *)

Definition empty_dir : list pde_t := replicate 512 (Pde 0 0).

Definition raw_mm : mm_state :=
  MmState (replicate 20 (replicate 512 (Pte 0 0 0))) (replicate 21 (Node 0 0)) (replicate 2049 (Node 0 0))
    (replicate 2049 0) (replicate 2049 0) (replicate 1025 (Node 0 0)) (IoTask IO_TASK_READ 0 0 0)
    (replicate 32 (TlbEntry 0 0 0)).

(** Directories for the first [n] blocks. *)
Fixpoint with_dirs (n : nat) (P : list pcb_t) : list pcb_t :=
  match n with O => P | S n => alter (set_page_dir empty_dir) n (with_dirs n P) end.

Definition give_dirs (n : nat) (s : kstate) : kstate := set_pcb (with_dirs n (pcb s)) s.

(** [s] with tables of their size for the memory *)
Definition with_memory (s : kstate) : kstate := set_mm raw_mm (give_dirs 16 s).

Definition vm_raw : kstate := with_memory example.

Definition vm_example : kstate :=
  match init_memory vm_raw with Ok (_, s) => set_EntryHi 1 s | _ => vm_raw end.

(** ** It satisfies the invariant *)

Lemma give_dirs_config n s : config_ok 4 (User, s) -> config_ok 4 (User, give_dirs n s).
Proof.
  intros H. induction n as [|n (HI & HF & _)]; [by destruct s|]. cbn [snd] in *. split; [|split; [|constructor]].
  - pose proof (kinv_upd 4 (give_dirs n s) HI (Z.of_nat n) (set_page_dir empty_dir)) as H1.
    rewrite Nat2Z.id in H1. apply H1; [by intros []|by intros []|lia].
  - eapply (frames_ok_alter (give_dirs n s) _ (Z.of_nat n) (set_page_dir empty_dir)); [done| |by intros []|done].
    by rewrite Nat2Z.id.
Qed.

Lemma with_dirs_dir n P i b : (with_dirs n P).[i] = Some b -> 0 <= i < Z.of_nat n -> page_dir b = empty_dir.
Proof.
  revert b. induction n as [|n IH]; intros b Hb Hi; [lia|]. cbn [with_dirs] in Hb.
  rewrite <- (Nat2Z.id n) in Hb at 1. rewrite aget_alter in Hb by lia. case_decide.
  - destruct ((with_dirs n P).[i]); [|done]. by injection Hb as <-.
  - apply IH; [done|lia].
Qed.

Lemma length_with_dirs n P : length (with_dirs n P) = length P.
Proof. induction n; [done|]. cbn [with_dirs]. by rewrite length_alter. Qed.

Lemma with_memory_dir s i b : length (pcb s) = 16%nat -> (pcb (with_memory s)).[i] = Some b -> page_dir b = empty_dir.
Proof.
  intros Hl. unfold with_memory, give_dirs. cbn [pcb set_mm set_pcb]. intros Hb. apply (with_dirs_dir 16 (pcb s) i b Hb).
  apply aget_Some in Hb. by rewrite length_with_dirs, Hl in Hb.
Qed.

Lemma with_memory_sizes s : length (pcb s) = 16%nat -> vm_sizes (with_memory s).
Proof.
  intros Hp. split; try (vm_compute; reflexivity).
  - intros t l. unfold aget. case_decide; [|done]. intros Hl%list_elem_of_lookup_2.
    change (l ∈ replicate 20 (replicate 512 (Pte 0 0 0))) in Hl. apply elem_of_replicate in Hl as [-> _]. vm_compute. reflexivity.
  - intros i b Hb. rewrite (with_memory_dir s i b Hp Hb). vm_compute. reflexivity.
Qed.

Lemma with_memory_empty s : length (pcb s) = 16%nat -> forall i d e, pde_of (pcb (with_memory s)) i d = Some e -> pde_valid e = 0.
Proof.
  intros Hp i d e (b & Hb & Hd)%bind_Some. rewrite (with_memory_dir s i b Hp Hb) in Hd. unfold aget in Hd. case_decide; [|done].
  apply list_elem_of_lookup_2, elem_of_replicate in Hd as [-> _]. done.
Qed.

Lemma vm_raw_sizes : vm_sizes vm_raw.
Proof. by apply with_memory_sizes. Qed.

Lemma vm_raw_empty i d e : pde_of (pcb vm_raw) i d = Some e -> pde_valid e = 0.
Proof. by apply with_memory_empty. Qed.

Lemma vm_example_ok : exists m, vm_example = set_mm m (set_EntryHi 1 vm_raw) /\
  vm_ok vm_example (range 1 20) (range 1 2048) /\
  slist_rep (swap_area_slist m) SWAP_AREA_SIZE (range 1 1024) /\
  forall k e, (tlb m).[k] = Some e -> e = TlbEntry 0x80000000 0 0.
Proof.
  destruct (init_memory_spec vm_raw vm_raw_sizes vm_raw_empty) as (m & E & HV & Hs & Ht); [vm_compute; reflexivity..|].
  assert (Hm : vm_example = set_mm m (set_EntryHi 1 vm_raw)) by (unfold vm_example; by rewrite E).
  exists m. split; [done|]. split_and!; [|done|done]. rewrite Hm. eapply vm_ok_kept, HV. split; [done|]. intros i b Hb. by exists b; auto.
Qed.

#[global] Opaque vm_example.

Lemma vm_example_config : vm_config 4 (User, vm_example).
Proof.
  destruct vm_example_ok as (m & E & HV & _). split; [|split; [by rewrite E|eauto]].
  destruct (give_dirs_config 16 example example_config) as (HI & HF & _).
  split; [|split; [|constructor]]; cbn [snd] in *; rewrite E.
  - by eapply (kinv_ext 4 (give_dirs 16 example)).
  - intros i b Hb. eapply Forall_impl; [by apply (HF i b)|]. by intros [].
Qed.

(** A TLB exception at 0x1000 in task 1, which has no page yet. *)
Lemma vm_example_cause : tlb_cause (tlb (mm vm_example)) (EntryHi (raise_tlb 0x1000 vm_example)) 3 1.
Proof.
  destruct vm_example_ok as (m & E & _ & _ & Ht). rewrite E. clear E. unfold tlb_cause.
  rewrite (proj2 (Z.eqb_neq 1 0)) by lia. split; [|unfold TLB_ENTRY_NUMBER; lia].
  cbn [mm set_mm tlb]. destruct (tlbp _ (tlb m) 0) as [k|] eqn:Hk; [|done].
  apply tlbp_Some in Hk as (_ & e & He & Hm). apply Ht in He as ->. vm_compute in Hm. done.
Qed.

Lemma vm_example_no_table i d : table_of vm_example i d = None.
Proof.
  destruct vm_example_ok as (m & E & _). rewrite E. unfold table_of. cbn [pcb set_mm set_EntryHi].
  destruct (pde_of (pcb vm_raw) i d) as [e|] eqn:He; [|done]. cbn. by rewrite (vm_raw_empty i d e He).
Qed.

Lemma vm_example_served : served vm_example (current_running vm_example) 0x1000.
Proof.
  destruct vm_example_ok as (m & E & HV & _). split; intros _.
  - by apply (slist_sufficient _ _ _ (vo_tabs _ _ _ HV)).
  - split; [unfold page_at; by rewrite vm_example_no_table|]. by apply (slist_sufficient _ _ _ (vo_frames _ _ _ HV)).
Qed.

(** A pool of which every slot is taken. *)
Lemma slist_rep_full n : (1 <= n)%nat -> slist_rep (replicate n (Node 1 0)) (Z.of_nat n) [].
Proof.
  intros Hn. assert (Hg : forall i nd, (replicate n (Node 1 0)).[i] = Some nd -> nd = Node 1 0).
  { intros i nd. unfold aget. case_decide; [|done]. by intros [? _]%lookup_replicate. }
  split; [by rewrite length_replicate|lia|constructor|set_solver| |].
  - intros i nd _ Hi. rewrite (Hg i nd Hi). by rewrite bool_decide_eq_true_2 by set_solver.
  - destruct (aget_is_Some (replicate n (Node 1 0)) 0) as [nd Hnd]; [rewrite length_replicate; lia|].
    exists nd. split; [done|]. by rewrite (Hg _ _ Hnd).
Qed.

Definition vm_full : kstate := set_mm (set_pt_pool_slist (replicate 21 (Node 1 0)) (mm vm_example)) vm_example.

Lemma table_of_set_mm s m i d : table_of (set_mm m s) i d = table_of s i d.
Proof. done. Qed.

Lemma full_config s l : vm_config 4 (User, s) -> slist_rep l PAGE_TABLE_POOL_SLIST_SIZE [] ->
  vm_config 4 (User, set_mm (set_pt_pool_slist l (mm s)) s).
Proof.
  intros (((Q & free & [HR Hp HT Hq] & Hno & Hrun) & HF & _) & Ha & tabs & frames & [[] Ht Hf HM]) Hl. cbn [snd] in *.
  split; [split; [|split; [exact HF|constructor]]|split; [exact Ha|]].
  - exists Q, free. split; [split; [by apply (qrep_ext s)|done|done|by destruct Hq]|done].
  - exists [], frames. cbn [snd]. split; [by split|exact Hl|exact Hf|].
    eapply vm_maps_mono, HM; try done; set_solver.
Qed.

Lemma vm_full_config : vm_config 4 (User, vm_full).
Proof. apply full_config; [exact vm_example_config|]. apply (slist_rep_full 21). lia. Qed.

(** ** Witnesses *)

Lemma memory_isolated_witness : exists s, vm_steps 4 1 (User, vm_example) (User, s) /\ vm_config (4 + 40 * 1) (User, s).
Proof.
  destruct (fault_config 4 vm_example 0x1000 3 1 [KExceptionExit] vm_example_config) as (s & a & E & _ & _);
    [done|exact vm_example_cause|exact vm_example_served|].
  assert (H : vm_steps 4 1 (User, vm_example) (User, s)).
  { econstructor; [|constructor]. eapply vm_fault; [|exact vm_example_cause|exact vm_example_served|exact E]. unfold USER_STACK_TOP_ADDRESS. lia. }
  exists s. split; [exact H|]. apply (memory_isolated 4 1 (User, vm_example) User s vm_example_config); [lia|lia|].
  change (Z.to_nat 1) with 1%nat. exact H.
Defined.

Lemma tlb_exception_maps_page_witness : exists s' a,
  TLB_exception_helper 3 1 [KExceptionExit] (raise_tlb 0x1000 vm_example) = Ok (Return, s') /\
  mapped (raise_tlb 0x1000 vm_example) s' (current_running vm_example) 0x1000 a /\ vm_config 4 (User, s').
Proof.
  apply (tlb_exception_maps_page 4 0x1000 3 1 vm_example [KExceptionExit] vm_example_config);
    [done|exact vm_example_cause|exact vm_example_served].
Defined.

Lemma tlb_exception_panics_witness :
  TLB_exception_helper 3 1 [KExceptionExit] (raise_tlb 0x1000 vm_full) = Panic "Empty page table pool.".
Proof.
  apply (tlb_exception_panics_without_table 4 0x1000 3 1 vm_full [KExceptionExit] vm_full_config);
    [done|unfold vm_full; rewrite table_of_set_mm; apply vm_example_no_table|reflexivity].
Defined.

Lemma init_memory_establishes_witness : exists s', init_memory vm_raw = Ok (tt, s') /\
  vm_ok s' (range 1 20) (range 1 2048) /\ slist_rep (swap_area_slist (mm s')) SWAP_AREA_SIZE (range 1 1024).
Proof. apply (init_memory_establishes vm_raw vm_raw_sizes vm_raw_empty); vm_compute; reflexivity. Defined.

Definition swap_full : kstate := set_mm (set_swap_area_slist (replicate 1025 (Node 1 0)) raw_mm) example.

Lemma swap_full_rep : slist_rep (swap_area_slist (mm swap_full)) SWAP_AREA_SIZE [].
Proof. apply (slist_rep_full 1025). lia. Qed.
