(* ===== verification/IoProc.v ===== *)
(** The process [io_proc], [kernel/software/io_proc.c], which moves the pages of tasks between memory and
    the swap area of the card, and what becomes of the bytes of a page that is swapped out and in again.

    [swap_out] and [swap_in] of [Memory] leave a request in [io_task], count the semaphore [io_tasks] up and
    wait at [io_done]. The process takes requests in a loop; [io_point] says where it stands in it. What it
    does between two system calls is [transfer], on a [store]: the card with its driver, and the
    physical memory. *)

From S2P Require Import Prelude Slist CString Sdcard Kernel Queue Sched Sync Memory MemorySpec SchedSpec KernelInv Trap Safety Keeps Isolation Example VmExample.

#[local] Ltac Zify.zify_post_hook ::= Z.to_euclidean_division_equations.

(** ** The process *)

(** [ram] is the memory by physical addresses. *)
Record store (B : Type) := Store { card : sd B; ram : list Z }.
Arguments Store {B}.
Arguments card {B}.
Arguments ram {B}.

(** The address a pointer into the unmapped segments stands for *)
Definition physical (a : Z) : Z := Z.land a 0x1fffffff.

Section process.
Context {B : Type} `{!BlockDev B}.

Definition transfer (t : io_task_t) (w : store B) : option (store B) :=
  let buffer := physical (io_buffer t) in
  match io_type t with
  | IO_TASK_WRITE =>
      c ← sdwrite (card w) (drop (Z.to_nat buffer) (ram w)) (io_base t) (io_n t);
      Some (Store c (ram w))
  | IO_TASK_READ =>
      r ← sdread (card w) (io_base t) (io_n t);
      m ← splice (ram w) buffer r;
      Some (Store (card w) m)
  end.

(** Where [sw_io_proc] stands: at one of its system calls, or between two of them, about to move the bytes *)
Inductive io_point := Init_tasks | Init_done | Init_free | Down_tasks | Moving | Up_done.

Definition io_call (p : io_point) : option syscall :=
  match p with
  | Init_tasks => Some (SYSCALL_SEMAPHORE_INIT IoTasks 0)
  | Init_done => Some (SYSCALL_SEMAPHORE_INIT IoDone 0)
  | Init_free => Some (SYSCALL_SEMAPHORE_INIT FreeIoTasks 1)
  | Down_tasks => Some (SYSCALL_SEMAPHORE_DOWN IoTasks)
  | Moving => None
  | Up_done => Some (SYSCALL_SEMAPHORE_UP IoDone)
  end.

Definition io_next (p : io_point) : io_point :=
  match p with
  | Init_tasks => Init_done
  | Init_done => Init_free
  | Init_free => Down_tasks
  | Down_tasks => Moving
  | Moving => Up_done
  | Up_done => Down_tasks
  end.

(** The process at work, while it is the running task: its next step, with the rest of the machine *)
Inductive sw_io_proc : (io_point * (mode * kstate) * store B) -> (io_point * (mode * kstate) * store B) -> Prop :=
  | io_traps p c s next w : io_call p = Some c -> step_by_trap (SystemCall c) s next ->
      sw_io_proc (p, (User, s), w) (io_next p, next, w)
  | io_moves s w w' : transfer (io_task (mm s)) w = Some w' ->
      sw_io_proc (Moving, (User, s), w) (io_next Moving, (User, s), w').

End process.

(** ** Pages

    A frame of memory and a place of the swap area hold 8 KB each. *)

Definition frame_base (i : Z) : Z := PM_BASE + i * PM_SCHE_SIZE.
Definition place_base (a : Z) : Z := SWAP_AREA_BASE + a * SWAP_AREA_UINT_SIZE.

Definition is_frame (i : Z) : Prop := 0 <= i < PM_SLIST_SIZE - 1.
Definition is_place (a : Z) : Prop := 0 <= a < SWAP_AREA_SIZE - 1.

(** The request [swap_out] or [swap_in] makes for a frame and a place *)
Definition request (r : io_task_type_t * Z * Z) : io_task_t :=
  let '(ty, i, a) := r in IoTask ty (buffer_of i) (place_base a) SWAP_AREA_UINT_SIZE.

Definition in_range (r : io_task_type_t * Z * Z) : Prop := let '(ty, i, a) := r in is_frame i /\ is_place a.

(** What moving pages means: the contents of the frames and of the places *)
Definition pages : Type := (Z -> option (list Z)) * (Z -> option (list Z)).

Definition move (r : io_task_type_t * Z * Z) (p : pages) : pages :=
  let '(ty, i, a) := r in
  match ty with
  | IO_TASK_WRITE => (fst p, fun b => if decide (b = a) then fst p i else snd p b)
  | IO_TASK_READ => (fun j => if decide (j = i) then snd p a else fst p j, snd p)
  end.

Lemma frame_address i : is_frame i -> frame_base i = u32 (frame_base i) /\ 0x1000000 <= frame_base i /\ frame_base i + 0x2000 <= 0x2000000.
Proof. unfold is_frame, frame_base, PM_BASE, PM_SCHE_SIZE, PM_SLIST_SIZE, u32. lia. Qed.

Lemma place_address a : is_place a -> 0x700200 <= place_base a /\ place_base a + 0x2000 <= 0xf00200 /\ place_base a mod 512 = 0.
Proof. unfold is_place, place_base, SWAP_AREA_BASE, SWAP_AREA_SIZE, SWAP_AREA_UINT_SIZE. lia. Qed.

(** The pointer [buffer] leads to the frame. *)
Lemma physical_buffer i : is_frame i -> physical (buffer_of i) = frame_base i.
Proof.
  intros Hi. destruct (frame_address i Hi) as (E & H1 & H2). unfold physical, buffer_of. fold (frame_base i).
  rewrite <- E, Z.land_lor_distr_l. change (Z.land 0xa0000000 0x1fffffff) with 0. rewrite Z.lor_0_r.
  change 0x1fffffff with (Z.ones 29). rewrite Z.land_ones by done. apply Z.mod_small. lia.
Qed.

Section pages.
Context {B : Type} `{!BlockDev B}.
Implicit Types (w : store B).

Definition store_ok w : Prop :=
  length (indexbuf (card w)) = 512%nat /\ bytes_ok (ram w) /\ 0x2000000 <= Z.of_nat (length (ram w)).

Definition frame_of w (i : Z) : option (list Z) := slice (ram w) (frame_base i) PM_SCHE_SIZE.
Definition place_of w (a : Z) : option (list Z) := sdread (card w) (place_base a) SWAP_AREA_UINT_SIZE.

(** A transfer to the card: the bytes of the place become those of the frame. *)
Lemma transfer_write w i a : store_ok w -> is_frame i -> is_place a -> exists w',
  transfer (request (IO_TASK_WRITE, i, a)) w = Some w' /\ store_ok w' /\ ram w' = ram w /\
  forall p, 0 <= p -> byte_at (dev (card w')) p =
    if decide (place_base a <= p < place_base a + 0x2000) then (ram w).[frame_base i + (p - place_base a)] else byte_at (dev (card w)) p.
Proof.
  intros (Hi1 & Hb & Hl) Hi Ha. destruct (frame_address i Hi) as (_ & F1 & F2). destruct (place_address a Ha) as (P1 & P2 & P3).
  unfold transfer, request, sdwrite. cbn [io_buffer io_type io_base io_n]. rewrite physical_buffer by done.
  set (d := drop (Z.to_nat (frame_base i)) (ram w)). change (u32 SWAP_AREA_UINT_SIZE) with (512 * Z.of_nat 16).
  destruct (sdwrite_loop_spec (Z.to_nat (512 * Z.of_nat 16)) (card w) d (place_base a) 16) as (c & E & Hc & Hg);
    [lia|lia|exact P3|lia|exact Hi1|subst d; rewrite length_drop; lia|by apply Forall_drop|].
  rewrite E. exists (Store c (ram w)). split; [done|]. split; [by split_and!|]. split; [done|]. cbn [card]. intros p Hp. rewrite Hg by done.
  change (512 * Z.of_nat 16) with 0x2000. case_decide as Hd; [|done]. subst d. unfold aget. rewrite !decide_True by lia.
  rewrite lookup_drop. f_equal. lia.
Qed.

(** A transfer from the card: the bytes of the frame become those of the place. *)
Lemma transfer_read w i a : store_ok w -> is_frame i -> is_place a -> exists w',
  transfer (request (IO_TASK_READ, i, a)) w = Some w' /\ store_ok w' /\ card w' = card w /\ length (ram w') = length (ram w) /\
  forall p, (ram w').[p] =
    if decide (frame_base i <= p < frame_base i + 0x2000) then byte_at (dev (card w)) (place_base a + (p - frame_base i)) else (ram w).[p].
Proof.
  intros (Hi1 & Hb & Hl) Hi Ha. destruct (frame_address i Hi) as (_ & F1 & F2). destruct (place_address a Ha) as (P1 & P2 & P3).
  unfold transfer, request, sdread. cbn [io_buffer io_type io_base io_n]. rewrite physical_buffer by done.
  change (u32 SWAP_AREA_UINT_SIZE) with 0x2000.
  destruct (sdread_loop_spec (Z.to_nat 0x2000) (card w) (place_base a) 0x2000) as (r & E & Hr & Hg); [unfold is_u32; lia|lia|].
  rewrite E. cbn [mbind option_bind].
  assert (Hs : is_Some (splice (ram w) (frame_base i) r)) by (unfold splice; rewrite decide_True by lia; eauto).
  destruct Hs as [m Hm]. rewrite Hm. cbn [mbind option_bind]. pose proof (splice_length _ _ _ _ Hm) as Hml.
  assert (Hgm : forall p, m.[p] = if decide (frame_base i <= p < frame_base i + 0x2000) then byte_at (dev (card w)) (place_base a + (p - frame_base i)) else (ram w).[p]).
  { intros p. rewrite (splice_lookup _ _ _ _ p Hm), Hr. case_decide; [|done]. rewrite Hg by lia. f_equal. apply u32_id. unfold is_u32. lia. }
  exists (Store (card w) m). split; [done|]. split; [|by split_and!]. split; [done|]. cbn [ram]. split; [|lia].
  apply Forall_lookup. intros n x Hx. specialize (Hgm (Z.of_nat n)). rewrite aget_nat, Hx in Hgm. case_decide.
  - symmetry in Hgm. by eapply byte_at_u8.
  - by eapply (Forall_aget is_u8 (ram w)).
Qed.

(** The requests served one after the other *)
Fixpoint transfers (rs : list (io_task_type_t * Z * Z)) w : option (store B) :=
  match rs with
  | [] => Some w
  | r :: rs => w ← transfer (request r) w; transfers rs w
  end.

Definition moves (rs : list (io_task_type_t * Z * Z)) (p : pages) : pages := fold_left (fun p r => move r p) rs p.

(** The frames and places hold the pages of [p]. *)
Definition agree w (p : pages) : Prop :=
  (forall i, is_frame i -> frame_of w i = fst p i) /\ (forall a, is_place a -> place_of w a = snd p a).

(** The bytes that belong to no page *)
Definition untouched w w' : Prop :=
  (forall p, 0 <= p -> ~ (0x700200 <= p < 0xf00200) -> byte_at (dev (card w')) p = byte_at (dev (card w)) p) /\
  (forall p, ~ (0x1000000 <= p < 0x2000000) -> (ram w').[p] = (ram w).[p]).

Lemma place_bytes w a : is_place a -> exists r, place_of w a = Some r /\ Z.of_nat (length r) = 8192 /\
  forall j, 0 <= j < 8192 -> r.[j] = byte_at (dev (card w)) (place_base a + j).
Proof.
  intros Ha. destruct (place_address a Ha) as (P1 & P2 & P3). unfold place_of, sdread. change (u32 SWAP_AREA_UINT_SIZE) with 8192.
  destruct (sdread_loop_spec (Z.to_nat 8192) (card w) (place_base a) 8192) as (r & E & Hr & Hg); [unfold is_u32; lia|lia|].
  exists r. split; [done|]. split; [lia|]. intros j Hj. rewrite Hg by done. f_equal. apply u32_id. unfold is_u32. lia.
Qed.

Lemma frame_bytes w i : store_ok w -> is_frame i -> exists r, frame_of w i = Some r /\ Z.of_nat (length r) = 8192 /\
  forall j, 0 <= j < 8192 -> r.[j] = (ram w).[frame_base i + j].
Proof.
  intros (_ & _ & Hl) Hi. destruct (frame_address i Hi) as (_ & F1 & F2).
  assert (Hs : is_Some (frame_of w i)) by (unfold frame_of, slice, PM_SCHE_SIZE; rewrite decide_True by lia; eauto).
  destruct Hs as [r Hr]. exists r. split; [done|]. unfold frame_of in Hr. pose proof (slice_length _ _ _ _ Hr) as Hlr.
  unfold PM_SCHE_SIZE in Hlr. split; [lia|]. intros j Hj. rewrite (slice_lookup _ _ _ _ j Hr). by rewrite decide_True.
Qed.

(** The contents of a page are not to be computed when two of them are compared. *)
#[local] Strategy 100 [frame_of place_of].

(** Two pages with the same bytes *)
Lemma page_ext (o o' : option (list Z)) (f g : Z -> option Z) :
  (exists r, o = Some r /\ Z.of_nat (length r) = 8192 /\ forall j, 0 <= j < 8192 -> r.[j] = f j) ->
  (exists r, o' = Some r /\ Z.of_nat (length r) = 8192 /\ forall j, 0 <= j < 8192 -> r.[j] = g j) ->
  (forall j, 0 <= j < 8192 -> f j = g j) -> o = o'.
Proof.
  intros (r & -> & Hr & Hf) (r' & -> & Hr' & Hg) H. f_equal. apply list_eq_aget; [lia|].
  intros j Hj. rewrite Hr in Hj. rewrite Hf, Hg by lia. apply H. lia.
Qed.

(** Different pages lie apart. *)
Lemma place_apart a b : a <> b -> place_base a + 0x2000 <= place_base b \/ place_base b + 0x2000 <= place_base a.
Proof. unfold place_base, SWAP_AREA_BASE, SWAP_AREA_UINT_SIZE. lia. Qed.

Lemma frame_apart i j : i <> j -> frame_base i + 0x2000 <= frame_base j \/ frame_base j + 0x2000 <= frame_base i.
Proof. unfold frame_base, PM_BASE, PM_SCHE_SIZE. lia. Qed.

Lemma agree_refl w : agree w (frame_of w, place_of w).
Proof. split; intros x _; reflexivity. Qed.

Lemma frames_equal w w' i j : store_ok w -> store_ok w' -> is_frame i -> is_frame j ->
  (forall k, 0 <= k < 8192 -> (ram w).[frame_base i + k] = (ram w').[frame_base j + k]) -> frame_of w i = frame_of w' j.
Proof. intros Hw Hw' Hi Hj. by apply page_ext; apply frame_bytes. Qed.

Lemma places_equal w w' a b : is_place a -> is_place b ->
  (forall k, 0 <= k < 8192 -> byte_at (dev (card w)) (place_base a + k) = byte_at (dev (card w')) (place_base b + k)) ->
  place_of w a = place_of w' b.
Proof. intros Ha Hb. by apply page_ext; apply place_bytes. Qed.

Lemma frame_is_place w w' i a : store_ok w -> is_frame i -> is_place a ->
  (forall k, 0 <= k < 8192 -> (ram w).[frame_base i + k] = byte_at (dev (card w')) (place_base a + k)) -> frame_of w i = place_of w' a.
Proof. intros Hw Hi Ha. apply page_ext; [by apply frame_bytes|by apply place_bytes]. Qed.

(** What a transfer does to the pages, and that it does nothing else *)
Lemma write_moves w p i a : store_ok w -> is_frame i -> is_place a -> agree w p -> exists w',
  transfer (request (IO_TASK_WRITE, i, a)) w = Some w' /\ store_ok w' /\ agree w' (move (IO_TASK_WRITE, i, a) p) /\ untouched w w'.
Proof.
  intros Hw Hi Ha [Hf Hp]. destruct (frame_address i Hi) as (_ & F1 & F2). destruct (place_address a Ha) as (P1 & P2 & P3).
  destruct (transfer_write w i a Hw Hi Ha) as (w' & E & Hw' & Er & Hg). exists w'. split; [exact E|]. split; [exact Hw'|].
  split; [split|split; [|by rewrite Er]].
  - intros j Hj. cbn [move fst snd]. rewrite <- Hf by done. by apply frames_equal; rewrite ?Er.
  - intros b Hb. destruct (place_address b Hb) as (Q1 & Q2 & Q3). cbn [move fst snd]. case_decide as Hd.
    + subst b. rewrite <- Hf by done. symmetry. apply frame_is_place; [done..|]. intros k Hk.
      rewrite Hg, decide_True by lia. f_equal. lia.
    + rewrite <- Hp by done. apply places_equal; [done..|]. intros k Hk. pose proof (place_apart a b).
      by rewrite Hg, decide_False by lia.
  - intros q Hq0 Hq. by rewrite Hg, decide_False by lia.
Qed.

Lemma read_moves w p i a : store_ok w -> is_frame i -> is_place a -> agree w p -> exists w',
  transfer (request (IO_TASK_READ, i, a)) w = Some w' /\ store_ok w' /\ agree w' (move (IO_TASK_READ, i, a) p) /\ untouched w w'.
Proof.
  intros Hw Hi Ha [Hf Hp]. destruct (frame_address i Hi) as (_ & F1 & F2). destruct (place_address a Ha) as (P1 & P2 & P3).
  destruct (transfer_read w i a Hw Hi Ha) as (w' & E & Hw' & Ec & _ & Hg). exists w'. split; [exact E|]. split; [exact Hw'|].
  split; [split|split; [by rewrite Ec|]].
  - intros j Hj. destruct (frame_address j Hj) as (_ & J1 & J2). cbn [move fst snd]. case_decide as Hd.
    + subst j. rewrite <- Hp by done. apply frame_is_place; [done..|]. intros k Hk. rewrite Hg, decide_True by lia. f_equal. lia.
    + rewrite <- Hf by done. apply frames_equal; [done..|]. intros k Hk. pose proof (frame_apart i j).
      by rewrite Hg, decide_False by lia.
  - intros b Hb. cbn [move fst snd]. rewrite <- Hp by done. by apply places_equal; rewrite ?Ec.
  - intros q Hq. by rewrite Hg, decide_False by lia.
Qed.

Lemma transfer_moves w p r : store_ok w -> in_range r -> agree w p -> exists w',
  transfer (request r) w = Some w' /\ store_ok w' /\ agree w' (move r p) /\ untouched w w'.
Proof. intros Hw Hr Hp. destruct r as [[[] i] a], Hr as [Hi Ha]; [by apply read_moves|by apply write_moves]. Qed.

Lemma transfers_move rs : forall w p, store_ok w -> Forall in_range rs -> agree w p -> exists w',
  transfers rs w = Some w' /\ store_ok w' /\ agree w' (moves rs p) /\ untouched w w'.
Proof.
  induction rs as [|r rs IH]; intros w p Hw Hrs Hp; cbn [transfers moves fold_left]; [by exists w|].
  apply Forall_cons in Hrs as [Hr Hrs]. destruct (transfer_moves w p r Hw Hr Hp) as (w1 & E1 & Hw1 & Hp1 & U1 & V1).
  rewrite E1. cbn [mbind option_bind]. destruct (IH w1 _ Hw1 Hrs Hp1) as (w2 & E2 & Hw2 & Hp2 & U2 & V2).
  exists w2. split; [done|]. split; [done|]. split; [exact Hp2|]. split.
  - intros q Hq0 Hq. by rewrite U2, U1.
  - intros q Hq. by rewrite V2, V1.
Qed.

End pages.

#[local] Strategy 100 [frame_of place_of].

(** ** The requests

    Waiting, waking and switching leave the memory state alone. *)

Definition same_mm (s s' : kstate) : Prop := mm s' = mm s.

#[global] Instance mm_frame : Frame (fun _ => True) same_mm.
Proof. split; try by intros. intros s1 s2 s3. unfold same_mm. congruence. Qed.

#[global] Instance mm_registers : Registers same_mm.
Proof. by split. Qed.

Lemma ctx_mm k : ctx (P := fun _ => True) (R := same_mm) k.
Proof. intros s x s' _ E. apply upd_current_inv in E as (b & _ & ->). done. Qed.

Lemma mtx_mm l : mtx (P := fun _ => True) (R := same_mm) l.
Proof. by intros v s x s' _ [= _ <-]. Qed.

Lemma keeps_trap_mm t : keeps (fun _ => True) same_mm (handle t).
Proof. apply keeps_any_trap; [apply ctx_mm|apply mtx_mm]. Qed.

Lemma semaphore_up_mm x s u s' : do_semaphore_up x s = Ok (u, s') -> mm s' = mm s.
Proof.
  intros E. assert (H : keeps (fun _ => True) same_mm (do_syscall (SYSCALL_SEMAPHORE_UP x) [])).
  { apply keeps_do_syscall; auto using ctx_mm, mtx_mm. }
  apply (H s Return s' I). cbn [do_syscall]. unfold returning. by rewrite (bind_Ok _ _ _ _ _ E).
Qed.

Lemma semaphore_down_mm x k s u s' : do_semaphore_down x k s = Ok (u, s') -> mm s' = mm s.
Proof.
  intros E. assert (H : keeps (fun _ => True) same_mm (do_syscall (SYSCALL_SEMAPHORE_DOWN x) k)).
  { apply keeps_do_syscall; auto using ctx_mm, mtx_mm. }
  exact (H s u s' I E).
Qed.

Lemma swap_out_end_mm v s u s' : swap_out_end v s = Ok (u, s') -> mm s' = mm s.
Proof.
  intros E. assert (H : keeps (fun _ => True) same_mm (swap_out_end v)) by (unfold swap_out_end; keeps_tac). exact (H s u s' I E).
Qed.

Lemma start_io_spec ty b a s u s' : start_io ty b a s = Ok (u, s') ->
  mm s' = set_io_task (IoTask ty b a SWAP_AREA_UINT_SIZE) (mm s).
Proof. unfold start_io. rewrite bind_modify. by intros ->%semaphore_up_mm. Qed.

(** *** [swap_out] *)

Lemma mm_slist_inv sel put f s r s' : mm_slist sel put f s = Ok (r, s') ->
  exists l, f (sel (mm s)) = Some (r, l) /\ s' = set_mm (put l (mm s)) s.
Proof.
  unfold mm_slist. rewrite bind_get. destruct (f (sel (mm s))) as [[x l]|]; [|done]. intros [= <- <-]. eauto.
Qed.

Lemma set_TLB_invalid_pool hi s u s' : set_TLB_invalid hi s = Ok (u, s') -> page_table_pool (mm s') = page_table_pool (mm s).
Proof.
  unfold set_TLB_invalid. rewrite bind_modify, bind_get. destruct (tlbp _ _ _); [|by intros [= _ <-]].
  unfold tlb_write. rewrite bind_get. destruct (aset _ _ _); [|done]. by intros [= _ <-].
Qed.

Lemma upd_pte_inv t n f s u s' : upd_pte t n f s = Ok (u, s') -> exists e, pte_of (mm s) t n = Some e /\ pcb s' = pcb s /\
  forall t' n', pte_of (mm s') t' n' = if decide (t' = t /\ n' = n) then Some (f e) else pte_of (mm s) t' n'.
Proof.
  intros E. assert (Hs : is_Some (pte_of (mm s) t n)).
  { unfold upd_pte, table_at, pte_of in *. destruct ((page_table_pool (mm s)).[t]) as [l|] eqn:El; [|by apply bind_inv in E as (? & ? & ? & ?); rewrite El in *].
    cbn. apply bind_inv in E as (l' & s1 & E1 & E). rewrite El in E1. injection E1 as <- <-. destruct (l.[n]); [eauto|done]. }
  destruct Hs as [e He]. exists e. split; [done|]. destruct (upd_pte_spec s t n f e He) as (s1 & E1 & [Hp Hw _]).
  rewrite E1 in E. injection E as _ <-. split; [by destruct Hp as [p ->]|exact Hw].
Qed.

(** The frame [swap_scheduler] picks, and the entry of the page tables that maps it *)
Definition victim (s : kstate) : Z := 2 + u32 (time_elapsed s * TIME_SLICE) mod (PM_SLIST_SIZE - 3).

Definition entry_of (s : kstate) (i : Z) : option (Z * Z) :=
  pid ← (pm_pid (mm s)).[i];
  vpn ← (pm_vpn (mm s)).[i];
  d ← pde_of (pcb s) (Z.land pid 0xff) (Z.shiftr vpn 22);
  Some (pool_num d, Z.land (Z.shiftr vpn 13) 0x1ff).

Lemma victim_frame s : is_frame (victim s).
Proof. unfold is_frame, victim, PM_SLIST_SIZE. pose proof (Z.mod_pos_bound (u32 (time_elapsed s * TIME_SLICE)) 2046). lia. Qed.

Lemma pde_at_inv i d s e s' : pde_at i d s = Ok (e, s') -> pde_of (pcb s) i d = Some e /\ s' = s.
Proof.
  unfold pde_at, pcb_at, pde_of, lift, mbind, M_bind. destruct ((pcb s).[i]) as [b|]; [|done]. cbn.
  destruct ((page_dir b).[d]); [|done]. by intros [= <- <-].
Qed.

Lemma lift_inv {A} (o : option A) s x s' : lift o s = Ok (x, s') -> o = Some x /\ s' = s.
Proof. unfold lift. destruct o; [|done]. by intros [= <- <-]. Qed.

Lemma detach_mm c v s u s' :
  (if c =? v then mret tt else b ← pcb_at v; q ← lift (queue b); queue_remove q v;; mret tt) s = Ok (u, s') -> mm s' = mm s.
Proof.
  intros E. assert (H : keeps (fun _ => True) same_mm (if c =? v then mret tt else b ← pcb_at v; q ← lift (queue b); queue_remove q v;; mret tt)) by keeps_tac.
  exact (H s u s' I E).
Qed.

(** From the request on, [swap_out] does not touch the memory state again. *)
Lemma swap_out_tail i base v k s c s' :
  (start_io IO_TASK_WRITE (buffer_of i) base;;
   r ← do_semaphore_down IoDone (KSwapOut v :: k);
   match r with Switch => mret Switch | Return => swap_out_end v;; mret Return end) s = Ok (c, s') ->
  mm s' = set_io_task (IoTask IO_TASK_WRITE (buffer_of i) base SWAP_AREA_UINT_SIZE) (mm s).
Proof.
  intros E. inv_step E. apply start_io_spec in E0 as <-. inv_step E. apply semaphore_down_mm in E0 as <-.
  destruct y0; [|by injection E as _ <-]. inv_step E. injection E as _ <-. by eapply swap_out_end_mm.
Qed.

Lemma swap_out_spec k s c s' p free : swap_out k s = Ok (c, s') -> slist_rep (swap_area_slist (mm s)) SWAP_AREA_SIZE (p :: free) ->
  exists pool ptn e, entry_of s (victim s) = Some (pool, ptn) /\ pte_of (mm s) pool ptn = Some e /\
    io_task (mm s') = request (IO_TASK_WRITE, victim s, p - 1) /\
    forall t n, pte_of (mm s') t n = if decide (t = pool /\ n = ptn) then Some (Pte (place_base (p - 1)) (pte_valid e) 0) else pte_of (mm s) t n.
Proof.
  intros E Hp. destruct (slist_alloc_cons _ _ _ _ Hp) as (l & Hl & _).
  assert (Hb : u32 (place_base (p - 1)) = place_base (p - 1)).
  { apply u32_id. pose proof (rep_range _ _ _ Hp p ltac:(set_solver)). unfold place_base, is_u32, SWAP_AREA_BASE, SWAP_AREA_UINT_SIZE, SWAP_AREA_SIZE in *. lia. }
  unfold swap_out in E. inv_step E. unfold swap_scheduler, get_timer, get_ticks in E0. rewrite !bind_assoc, !bind_get, !bind_ret in E0.
  injection E0 as <- <-. fold (victim s) in E. rewrite bind_get in E. inv_step E. apply lift_inv in E0 as [Epid ->].
  rewrite bind_get in E. inv_step E. apply lift_inv in E0 as [Evpn ->]. inv_step E. apply pde_at_inv in E0 as [Ed ->].
  inv_step E. apply mm_slist_inv in E0 as (l1 & _ & ->). inv_step E. unfold swap_area_alloc in E0. inv_step E0.
  apply mm_slist_inv in E1 as (l2 & E2 & ->). cbn [mm set_mm swap_area_slist set_pm_slist] in E2. rewrite Hl in E2. injection E2 as <- <-.
  injection E0 as <- <-. fold (place_base (p - 1)) in E. rewrite Hb in E.
  inv_step E. apply upd_pte_inv in E0 as (e & He & _ & Hw1). inv_step E. apply upd_pte_inv in E0 as (e1 & He1 & _ & Hw2).
  inv_step E. apply set_TLB_invalid_pool in E0. rewrite bind_get in E. inv_step E. apply detach_mm in E1. apply swap_out_tail in E.
  assert (Hpt : forall t n, pte_of (mm s') t n = pte_of (mm s1) t n).
  { intros t n. unfold pte_of. rewrite E, E1. cbn. by rewrite E0. }
  exists (pool_num y1), (Z.land (Z.shiftr y0 13) 0x1ff), e. unfold entry_of. rewrite Epid, Evpn. cbn [mbind option_bind]. rewrite Ed.
  split_and!; [done|exact He|by rewrite E|]. intros t n. rewrite Hpt, Hw2. case_decide as Hd.
  - rewrite Hw1, decide_True in He1 by done. by injection He1 as <-.
  - by rewrite Hw1, decide_False.
Qed.

(** *** [swap_in] *)

Lemma swap_in_spec pool ptn va k s c s' e j frames : swap_in pool ptn va k s = Ok (c, s') ->
  pte_of (mm s) pool ptn = Some e -> slist_rep (pm_slist (mm s)) PM_SLIST_SIZE (j :: frames) ->
  c = Switch -> io_task (mm s') = IoTask IO_TASK_READ (buffer_of (j - 1)) (addr e) SWAP_AREA_UINT_SIZE /\
    forall t n, pte_of (mm s') t n = pte_of (mm s) t n.
Proof.
  intros E He Hj ->. destruct (slist_alloc_cons _ _ _ _ Hj) as (l & Hl & _). pose proof (rep_range _ _ _ Hj j ltac:(set_solver)) as Hr.
  unfold PM_SLIST_SIZE in Hr. unfold swap_in in E. rewrite (bind_Ok _ _ _ _ _ (pte_at_Ok _ _ _ _ He)) in E.
  unfold pm_alloc in E. rewrite bind_assoc, (bind_Ok _ _ _ _ _ (mm_slist_Ok _ _ _ _ _ _ Hl)), bind_ret in E.
  rewrite s32_id in E by (unfold is_s32; lia). rewrite (proj2 (Z.eqb_neq _ _)) in E by lia. unfold swap_in_read in E.
  inv_step E. apply start_io_spec in E0. inv_step E. apply semaphore_down_mm in E1. destruct y0; [by inv_step E|].
  injection E as <-. rewrite E1, E0. done.
Qed.

Lemma record_owner_pool i v n s u s' : record_owner i v n s = Ok (u, s') -> page_table_pool (mm s') = page_table_pool (mm s).
Proof.
  unfold record_owner. rewrite bind_get. intros E. inv_step E. apply lift_inv in E0 as [_ ->]. rewrite bind_modify, bind_get in E.
  inv_step E. apply lift_inv in E0 as [_ ->]. by injection E as _ <-.
Qed.

Lemma current_pid_inv s p s' : current_pid s = Ok (p, s') -> s' = s.
Proof.
  unfold current_pid. rewrite bind_get. intros E. inv_step E. unfold pcb_at in E0. apply lift_inv in E0 as [_ ->]. by injection E as _ <-.
Qed.

(** After the wait the entry maps the frame. *)
Lemma swap_in_end_maps pool ptn va a j s u s' : swap_in_end pool ptn va a j s = Ok (u, s') ->
  exists e, pte_of (mm s) pool ptn = Some e /\ pte_of (mm s') pool ptn = Some (Pte (pfn_of j) (pte_valid e) 1).
Proof.
  unfold swap_in_end, swap_area_free. intros E. inv_step E. apply mm_slist_inv in E0 as (l & _ & ->).
  inv_step E. apply upd_pte_inv in E0 as (e & He & _ & Hw1). inv_step E. apply upd_pte_inv in E0 as (e1 & He1 & _ & Hw2).
  exists e. split; [exact He|]. rewrite Hw1, decide_True in He1 by done. injection He1 as <-.
  inv_step E. apply current_pid_inv in E0 as ->. apply record_owner_pool in E.
  unfold pte_of. rewrite E. fold (pte_of (mm s1) pool ptn). by rewrite Hw2, decide_True.
Qed.

(** ** Turns of the process *)

Section turns.
Context (K : Z) (s : kstate).
Hypothesis (HI : kinv K s) (HK : K + 40 < 2147483648).

(** Entering the kernel by a system call *)
Definition entered : kstate := set_pcb (alter skip_instruction (Z.to_nat (current_running s)) (pcb s)) s.

Lemma handle_entered c : handle (SystemCall c) s = do_syscall c [KHandlerReturn; KExceptionExit] entered /\ kinv K entered.
Proof.
  split; [|by apply kinv_upd; [..|by eapply kinv_current]].
  cbn [handle]. unfold system_call_helper. by rewrite bind_upd_current by (by eapply kinv_block).
Qed.

(** A down that does not wait *)
Lemma down_goes_on x v : semaphores s !! x = Some v -> 0 < v < 2147483648 -> exists s',
  step_by_trap (SystemCall (SYSCALL_SEMAPHORE_DOWN x)) s (User, s') /\ kinv K s' /\ mm s' = mm s /\
  current_running s' = current_running s /\ semaphores s' = <[x := v - 1]> (semaphores s).
Proof.
  intros Hv Hpos. destruct (handle_entered (SYSCALL_SEMAPHORE_DOWN x)) as [E HE].
  exists (set_semaphores (<[x := v - 1]> (semaphores s)) entered). split; [|split_and!; try done].
  - exists Return. split; [|done]. rewrite E. cbn [do_syscall snd]. unfold do_semaphore_down, put_semaphore.
    rewrite (bind_Ok _ _ _ _ _ (semaphore_at_Ok x v entered Hv)), bind_modify, s32_id by (unfold is_s32; lia).
    set (s1 := set_semaphores _ _). rewrite (bind_Ok _ _ _ _ _ (semaphore_at_Ok x (v - 1) s1 (lookup_insert_eq _ _ _))).
    by rewrite (proj2 (Z.ltb_ge _ _)) by lia.
  - apply (kinv_put_semaphore K entered HE x). exact (kinv_queue K s HI (SemQueue x) (mk_is_Some _ _ Hv)).
Qed.

(** An up never waits. *)
Lemma up_goes_on x v : semaphores s !! x = Some v -> exists s',
  step_by_trap (SystemCall (SYSCALL_SEMAPHORE_UP x)) s (User, s') /\ kinv (K + 2) s' /\ mm s' = mm s /\
  current_running s' = current_running s /\ semaphores s' = <[x := s32 (v + 1)]> (semaphores s).
Proof.
  intros Hv. destruct (handle_entered (SYSCALL_SEMAPHORE_UP x)) as [E HE].
  set (s1 := set_semaphores (<[x := s32 (v + 1)]> (semaphores s)) entered).
  assert (H1 : kinv K s1) by exact (kinv_put_semaphore K entered HE x _ (kinv_queue K s HI (SemQueue x) (mk_is_Some _ _ Hv))).
  assert (Hd : do_semaphore_up x entered = (if s32 (v + 1) <=? 0 then do_unblock_one (SemQueue x) else mret tt) s1).
  { unfold do_semaphore_up, put_semaphore. rewrite (bind_Ok _ _ _ _ _ (semaphore_at_Ok x v entered Hv)), bind_modify. fold s1.
    by rewrite (bind_Ok _ _ _ _ _ (semaphore_at_Ok x (s32 (v + 1)) s1 (lookup_insert_eq _ _ _))). }
  assert (Hq : is_Some (queues s1 !! SemQueue x)) by exact (kinv_queue K s HI (SemQueue x) (mk_is_Some _ _ Hv)).
  assert (Hs : exists s', do_semaphore_up x entered = Ok (tt, s') /\ kinv (K + 2) s' /\ same_objects s1 s').
  { rewrite Hd. case_cmp; [destruct (kinv_unblock_one K s1 H1 (SemQueue x)) as (s' & ? & ? & ? & _); [lia|done|done|eauto]|].
    exists s1. split_and!; [done|by apply (kinv_mono K); [lia|]|done]. }
  destruct Hs as (s' & Ed & HI' & Hso). exists s'. split_and!; [|done|by rewrite (semaphore_up_mm _ _ _ _ Ed)
    |by rewrite (so_current _ _ Hso)|by rewrite (so_semaphores _ _ Hso)].
  exists Return. split; [|done]. rewrite E. cbn [do_syscall snd]. unfold returning. by rewrite (bind_Ok _ _ _ _ _ Ed).
Qed.

End turns.

(** ** The life of a page *)

Definition writes_to (a : Z) (r : io_task_type_t * Z * Z) : Prop := let '(ty, _, b) := r in ty = IO_TASK_WRITE /\ b = a.

Lemma moves_place rs a : forall p, Forall (fun r => ~ writes_to a r) rs -> snd (moves rs p) a = snd p a.
Proof.
  induction rs as [|[[[] i] b] rs IH]; intros p Hrs; [done|apply Forall_cons in Hrs as [Hr Hrs]..];
    cbn [moves fold_left]; fold (moves rs); rewrite IH by done; [done|].
  cbn. rewrite decide_False; [done|]. intros ->. by apply Hr.
Qed.

Section life.
Context {B : Type} `{!BlockDev B}.
Implicit Types (w : store B).

(** C13. When [io_proc] serves requests, of any number and in any order, for frames of memory and places of
    the swap area, every request succeeds, the frames and the places hold afterwards what moving
    whole pages between them gives, and no other byte of memory or of the card changes: the file
    system and the kernel on the same card are safe from swapping. *)
Theorem io_proc_moves_pages (rs : list (io_task_type_t * Z * Z)) (w : store B) :
  store_ok w -> Forall in_range rs -> exists w', transfers rs w = Some w' /\ store_ok w' /\
    agree w' (moves rs (frame_of w, place_of w)) /\ untouched w w'.
Proof. intros Hw Hrs. exact (transfers_move rs w _ Hw Hrs (agree_refl w)). Qed.

(** C5. A page comes back from the swap area as it left. [swap_out] has been called, in [s0]; it leaves a
    request for [io_proc], and the entry of the page says it is at the place reserved for it.
    Whatever other pages are moved after that, when [swap_in] has been called for the page, in [s2],
    with the entry still as it was, and [io_proc] has served that request too, the frame reserved for
    the page holds the bytes the page had; and when the task goes on behind its wait, the entry maps that
    frame. *)
Theorem page_survives_swapping (w : store B) (s0 s1 s2 s3 s4 s5 : kstate) (k k' : list kframe) (c : ctl)
    (p j pool ptn va : Z) (free frames : list Z) (rs : list (io_task_type_t * Z * Z)) :
  store_ok w -> slist_rep (swap_area_slist (mm s0)) SWAP_AREA_SIZE (p :: free) ->
  swap_out k s0 = Ok (c, s1) -> entry_of s0 (victim s0) = Some (pool, ptn) ->
  Forall in_range rs -> Forall (fun r => ~ writes_to (p - 1) r) rs ->
  pte_of (mm s2) pool ptn = pte_of (mm s1) pool ptn -> slist_rep (pm_slist (mm s2)) PM_SLIST_SIZE (j :: frames) ->
  swap_in pool ptn va k' s2 = Ok (Switch, s3) ->
  mm s4 = mm s3 -> resume_swap (KSwapInDone pool ptn va (place_base (p - 1)) (j - 1)) k' s4 = Ok (Return, s5) ->
  exists w1 w2 w3, transfer (io_task (mm s1)) w = Some w1 /\ transfers rs w1 = Some w2 /\ transfer (io_task (mm s3)) w2 = Some w3 /\
    frame_of w3 (j - 1) = frame_of w (victim s0) /\
    exists e, pte_of (mm s1) pool ptn = Some (Pte (place_base (p - 1)) (pte_valid e) 0) /\
      pte_of (mm s5) pool ptn = Some (Pte (pfn_of (j - 1)) (pte_valid e) 1).
Proof.
  intros Hw Hfree Hout Hent Hrs Hrp Hpte Hfr Hin Hmm Hres.
  destruct (swap_out_spec _ _ _ _ _ _ Hout Hfree) as (pool' & ptn' & e & Hent' & He & Hreq & Hp1).
  rewrite Hent in Hent'. injection Hent' as <- <-.
  assert (Ep1 : pte_of (mm s1) pool ptn = Some (Pte (place_base (p - 1)) (pte_valid e) 0)) by by rewrite Hp1, decide_True.
  assert (Ep2 := Hpte). rewrite Ep1 in Ep2. destruct (swap_in_spec _ _ _ _ _ _ _ _ _ _ Hin Ep2 Hfr eq_refl) as (Hreq3 & Hp3).
  pose proof (rep_range _ _ _ Hfree p ltac:(set_solver)) as Rp. pose proof (rep_range _ _ _ Hfr j ltac:(set_solver)) as Rj.
  assert (Ip : is_place (p - 1)) by (unfold is_place; lia). assert (Ij : is_frame (j - 1)) by (unfold is_frame; lia).
  destruct (write_moves w (frame_of w, place_of w) (victim s0) (p - 1) Hw (victim_frame s0) Ip (agree_refl w)) as (w1 & E1 & Hw1 & A1 & _).
  destruct (transfers_move rs w1 _ Hw1 Hrs A1) as (w2 & E2 & Hw2 & A2 & _).
  destruct (read_moves w2 _ (j - 1) (p - 1) Hw2 Ij Ip A2) as (w3 & E3 & _ & [A3 _] & _).
  exists w1, w2, w3. rewrite Hreq, Hreq3. split; [exact E1|]. split; [exact E2|]. split; [exact E3|]. split.
  - rewrite A3 by done. cbn [move fst]. rewrite decide_True by done. rewrite moves_place by done. cbn [move snd fst]. by rewrite decide_True.
  - exists e. split; [done|]. cbn [resume_swap] in Hres. inv_step Hres. injection Hres as <-.
    destruct (swap_in_end_maps _ _ _ _ _ _ _ _ E) as (e' & He' & ->). rewrite Hmm in He'. rewrite Hp3, Ep2 in He'.
    by injection He' as <-.
Qed.

(** C14. With a request pending, [io_proc] goes round its loop once without waiting: it takes the
    request, moves the bytes and counts [io_done] up, which wakes a task that waits there; it is then where
    it was, with one request less to serve, the invariant of the task table holds and the memory
    tables are unchanged. *)
Theorem io_proc_serves (K v d : Z) (s : kstate) (w w' : store B) :
  kinv K s -> K + 40 < 2147483648 -> semaphores s !! IoTasks = Some v -> 0 < v < 2147483648 ->
  semaphores s !! IoDone = Some d -> transfer (io_task (mm s)) w = Some w' ->
  exists s', star sw_io_proc (Down_tasks, (User, s), w) (Down_tasks, (User, s'), w') /\ kinv (K + 2) s' /\ mm s' = mm s /\
    current_running s' = current_running s /\
    semaphores s' = <[IoDone := s32 (d + 1)]> (<[IoTasks := v - 1]> (semaphores s)).
Proof.
  intros HI HK Hv Hpos Hd Hw. destruct (down_goes_on K s HI IoTasks v Hv Hpos) as (s1 & E1 & HI1 & Em1 & Ec1 & Es1).
  assert (Hd1 : semaphores s1 !! IoDone = Some d) by by rewrite Es1, lookup_insert_ne.
  destruct (up_goes_on K s1 HI1 HK IoDone d Hd1) as (s2 & E2 & HI2 & Em2 & Ec2 & Es2).
  exists s2. split; [|split_and!; [done|congruence|congruence|by rewrite Es2, Es1]].
  eapply star_step; [exact (io_traps Down_tasks _ s _ w eq_refl E1)|].
  eapply star_step; [apply io_moves; by rewrite Em1|]. apply star_one. exact (io_traps Up_done _ s1 _ w' eq_refl E2).
Qed.

(** [io_task] holds one request. When a second task asks before [io_proc] has run (the semaphore that
    was to prevent this, [free_io_tasks], is commented out), the process serves the second request twice and
    the page of the first is never written to its place. *)
Theorem swap_request_lost (w : store B) (s0 s1 s2 s3 : kstate) (i j a b : Z) (u u' : unit) :
  store_ok w -> is_frame j -> is_place a -> is_place b -> a <> b ->
  start_io IO_TASK_WRITE (buffer_of i) (place_base a) s0 = Ok (u, s1) -> mm s2 = mm s1 ->
  start_io IO_TASK_WRITE (buffer_of j) (place_base b) s2 = Ok (u', s3) ->
  exists w1 w2, transfer (io_task (mm s3)) w = Some w1 /\ transfer (io_task (mm s3)) w1 = Some w2 /\ place_of w2 a = place_of w a.
Proof.
  intros Hw Hj Ha Hb Hab _ _ E. apply start_io_spec in E.
  assert (Er : io_task (mm s3) = request (IO_TASK_WRITE, j, b)) by (rewrite E; reflexivity). rewrite Er.
  destruct (write_moves w _ j b Hw Hj Hb (agree_refl w)) as (w1 & E1 & Hw1 & A1 & _).
  destruct (write_moves w1 _ j b Hw1 Hj Hb A1) as (w2 & E2 & _ & [_ A2] & _).
  exists w1, w2. split; [exact E1|]. split; [exact E2|]. rewrite (A2 a Ha). cbn [move fst snd]. rewrite !decide_False by done. reflexivity.
Qed.

End life.

(** ** An example

    The page at address 0 of task 1 is in the frame that will be picked. *)

Definition with_io (s : kstate) : kstate :=
  set_semaphores (<[IoTasks := 0]> (<[IoDone := 0]> (semaphores s)))
    (set_queues (<[SemQueue IoTasks := Queue None None]> (<[SemQueue IoDone := Queue None None]> (queues s))) s).

(** A pool as [slist_init] leaves it *)
Definition fresh_pool (n : Z) : list node :=
  (fun i => Node (if i =? 0 then 1 else 0) (if i =? n - 1 then 0 else i + 1)) <$> range 0 (Z.to_nat n).

Definition swap_memory : mm_state :=
  set_swap_area_slist (fresh_pool SWAP_AREA_SIZE) (set_pm_slist (fresh_pool PM_SLIST_SIZE)
    (set_pt_pool_slist (fresh_pool PAGE_TABLE_POOL_SLIST_SIZE) (set_tlb (replicate 32 (TlbEntry 0x80000000 0 0)) raw_mm))).

Definition swap_base : kstate := with_io (set_mm swap_memory (set_EntryHi 1 vm_raw)).

Definition swap_start : kstate :=
  match (put_pde 1 0 (Pde 0 1);; upd_pte 0 0 (fun _ => Pte (pfn_of 92) 1 1);; record_owner 92 1 0) swap_base with
  | Ok (_, s) => s
  | _ => swap_base
  end.

Definition after {A} (m : M A) (s : kstate) : kstate := match m s with Ok (_, s) => s | _ => s end.

(** [swap_out] waits; another task, running then, calls [swap_in] for the page; it waits too. *)
Definition swap_waiting : kstate := after (swap_out [KExceptionExit]) swap_start.
Definition swap_again : kstate := after (swap_in 0 0 0 []) swap_waiting.
Definition swap_done : kstate := after (resume_swap (KSwapInDone 0 0 0 (place_base 0) 0) []) swap_again.

Lemma after_Ok {A} (m : M A) s x : (match m s with Ok (y, _) => Some y | _ => None end) = Some x -> m s = Ok (x, after m s).
Proof. unfold after. destruct (m s) as [[y s']| | |]; try done. by intros [= ->]. Qed.

Lemma swap_waiting_ok : swap_out [KExceptionExit] swap_start = Ok (Switch, swap_waiting).
Proof. unfold swap_waiting. apply (after_Ok (swap_out [KExceptionExit]) swap_start Switch). vm_compute. reflexivity. Qed.

Lemma swap_again_ok : swap_in 0 0 0 [] swap_waiting = Ok (Switch, swap_again).
Proof. unfold swap_again. apply (after_Ok (swap_in 0 0 0 []) swap_waiting Switch). vm_compute. reflexivity. Qed.

Lemma swap_done_ok : resume_swap (KSwapInDone 0 0 0 (place_base 0) 0) [] swap_again = Ok (Return, swap_done).
Proof.
  unfold swap_done. apply (after_Ok (resume_swap (KSwapInDone 0 0 0 (place_base 0) 0) []) swap_again Return). vm_compute. reflexivity.
Qed.

Lemma range_lookup k : forall a (j : nat), (j < k)%nat -> range a k !! j = Some (a + Z.of_nat j).
Proof.
  induction k as [|k IH]; intros a j Hj; [lia|]. destruct j as [|j]; cbn [range lookup list_lookup]; [f_equal; lia|].
  rewrite IH by lia. f_equal. lia.
Qed.

Lemma length_range a k : length (range a k) = k.
Proof. revert a. induction k as [|k IH]; intros a; cbn; [done|by rewrite IH]. Qed.

Lemma fresh_pool_at n j : 0 <= j < n -> (fresh_pool n).[j] = Some (Node (if j =? 0 then 1 else 0) (if j =? n - 1 then 0 else j + 1)).
Proof.
  intros Hj. unfold fresh_pool, aget. rewrite decide_True, list_lookup_fmap, range_lookup by lia. cbn [fmap option_fmap option_map].
  by rewrite Z2Nat.id, Z.add_0_l by lia.
Qed.

Lemma fresh_pool_rep n : 1 <= n -> slist_rep (fresh_pool n) n (range 1 (Z.to_nat (n - 1))).
Proof.
  intros Hn. assert (El : Z.of_nat (length (fresh_pool n)) = n) by (unfold fresh_pool; rewrite length_fmap, length_range; lia).
  split; [exact El|exact Hn|apply NoDup_range| | |].
  - intros i. rewrite elem_of_range. lia.
  - intros i nd Hi Hnd. pose proof (aget_Some _ _ _ Hnd) as Hr. rewrite fresh_pool_at in Hnd by lia. injection Hnd as <-. cbn.
    rewrite (proj2 (Z.eqb_neq i 0)) by lia. rewrite bool_decide_eq_false_2; [done|]. rewrite elem_of_range. lia.
  - apply (chain_range (fresh_pool n) 0).
    + intros j Hj. rewrite fresh_pool_at by lia. eexists. split; [done|]. cbn. by rewrite (proj2 (Z.eqb_neq j (n - 1))) by lia.
    + rewrite fresh_pool_at by lia. eexists. split; [reflexivity|]. cbn [cursor]. destruct (Z.eqb_spec (0 + Z.of_nat (Z.to_nat (n - 1))) (n - 1)); lia.
Qed.

Lemma swap_pool (s : kstate) (sel : mm_state -> list node) (n : Z) : 1 <= n -> sel (mm s) = fresh_pool n ->
  slist_rep (sel (mm s)) n (range 1 (Z.to_nat (n - 1))).
Proof. intros Hn ->. by apply fresh_pool_rep. Qed.

(** A card and a memory full of zeros *)
Definition blank_store : store memcard := Store empty_card (replicate (Z.to_nat 0x2000000) 0).

Lemma blank_store_ok : store_ok blank_store.
Proof.
  split; [reflexivity|]. unfold blank_store. cbn [ram]. split; [apply Forall_replicate; unfold is_u8; lia|].
  rewrite length_replicate. lia.
Qed.

(** The process of the example, with the request of a task pending *)
Definition io_start : kstate :=
  set_mm (set_io_task (request (IO_TASK_WRITE, 5, 7)) (mm example))
    (set_semaphores (<[IoTasks := 1]> (<[IoDone := 0]> (semaphores example)))
      (set_queues (<[SemQueue IoTasks := Queue None None]> (<[SemQueue IoDone := Queue None None]> (queues example))) example)).

Lemma io_start_kinv : kinv 4 io_start.
Proof.
  destruct example_config as (H0 & _ & _). cbn [snd] in H0.
  destruct (kinv_queue_init 4 example H0 (SemQueue IoDone)) as [H1 Q1]; [left; vm_compute; reflexivity|done|].
  destruct (kinv_queue_init 4 _ H1 (SemQueue IoTasks)) as [H2 Q2]; [left; vm_compute; reflexivity|done|].
  pose proof (kinv_put_semaphore 4 _ H2 IoDone 0 ltac:(done)) as H3.
  pose proof (kinv_put_semaphore 4 _ H3 IoTasks 1 ltac:(done)) as H4.
  by apply (kinv_ext 4 _ H4).
Qed.

Lemma io_proc_moves_pages_witness : exists w', transfers [(IO_TASK_WRITE, 5, 7); (IO_TASK_READ, 9, 7)] blank_store = Some w' /\
  store_ok w' /\ agree w' (moves [(IO_TASK_WRITE, 5, 7); (IO_TASK_READ, 9, 7)] (frame_of blank_store, place_of blank_store)) /\
  untouched blank_store w'.
Proof. apply io_proc_moves_pages; [exact blank_store_ok|]. repeat (apply Forall_cons_2; [by split|]). by apply Forall_nil_2. Defined.

Lemma page_survives_swapping_witness : exists w1 w2 w3,
  transfer (io_task (mm swap_waiting)) blank_store = Some w1 /\ transfers [(IO_TASK_READ, 3, 8)] w1 = Some w2 /\
  transfer (io_task (mm swap_again)) w2 = Some w3 /\ frame_of w3 0 = frame_of blank_store (victim swap_start) /\
  exists e, pte_of (mm swap_waiting) 0 0 = Some (Pte (place_base 0) (pte_valid e) 0) /\
    pte_of (mm swap_done) 0 0 = Some (Pte (pfn_of 0) (pte_valid e) 1).
Proof.
  apply (page_survives_swapping blank_store swap_start swap_waiting swap_waiting swap_again swap_again swap_done
    [KExceptionExit] [] Switch 1 1 0 0 0 (range 2 1023) (range 2 2047) [(IO_TASK_READ, 3, 8)]).
  - exact blank_store_ok.
  - apply (swap_pool swap_start swap_area_slist SWAP_AREA_SIZE); [done|vm_compute; reflexivity].
  - exact swap_waiting_ok.
  - vm_compute. reflexivity.
  - apply Forall_cons_2; [by split|by apply Forall_nil_2].
  - apply Forall_cons_2; [by intros [? _]|by apply Forall_nil_2].
  - reflexivity.
  - apply (swap_pool swap_waiting pm_slist PM_SLIST_SIZE); [done|vm_compute; reflexivity].
  - exact swap_again_ok.
  - reflexivity.
  - exact swap_done_ok.
Defined.

Lemma io_proc_serves_witness : exists w' s',
  star sw_io_proc (Down_tasks, (User, io_start), blank_store) (Down_tasks, (User, s'), w') /\ kinv (4 + 2) s' /\ mm s' = mm io_start /\
  current_running s' = current_running io_start /\
  semaphores s' = <[IoDone := s32 (0 + 1)]> (<[IoTasks := 1 - 1]> (semaphores io_start)).
Proof.
  destruct (transfer_write blank_store 5 7 blank_store_ok) as (w' & E & _); [done|done|].
  assert (Er : io_task (mm io_start) = request (IO_TASK_WRITE, 5, 7)) by reflexivity. rewrite <- Er in E.
  exists w'. apply (io_proc_serves 4 1 0 io_start blank_store w' io_start_kinv); [lia|vm_compute; reflexivity|lia|vm_compute; reflexivity|exact E].
Defined.

Lemma swap_request_lost_witness : exists w1 w2,
  transfer (request (IO_TASK_WRITE, 6, 1)) blank_store = Some w1 /\ transfer (request (IO_TASK_WRITE, 6, 1)) w1 = Some w2 /\
  place_of w2 0 = place_of blank_store 0.
Proof.
  set (s1 := after (start_io IO_TASK_WRITE (buffer_of 5) (place_base 0)) io_start).
  assert (E1 : start_io IO_TASK_WRITE (buffer_of 5) (place_base 0) io_start = Ok (tt, s1)) by (apply after_Ok; vm_compute; reflexivity).
  set (s2 := after (start_io IO_TASK_WRITE (buffer_of 6) (place_base 1)) s1).
  assert (E2 : start_io IO_TASK_WRITE (buffer_of 6) (place_base 1) s1 = Ok (tt, s2)) by (apply after_Ok; vm_compute; reflexivity).
  assert (Er : io_task (mm s2) = request (IO_TASK_WRITE, 6, 1)) by (by rewrite (start_io_spec _ _ _ _ _ _ E2)). rewrite <- Er.
  apply (swap_request_lost blank_store io_start s1 s1 s2 5 6 0 1 tt tt blank_store_ok); [done|done|done|done|exact E1|reflexivity|exact E2].
Defined.

(** A fresh swap area, and one with no place left *)
Lemma swap_area_bounds_witness : (exists l l', let s1 := set_mm (set_swap_area_slist l (mm swap_start)) swap_start in
    swap_area_alloc swap_start = Ok (0x700200, s1) /\ slist_rep l SWAP_AREA_SIZE (range 2 1023) /\
    swap_area_free 0x700200 s1 = Ok (1, set_mm (set_swap_area_slist l' (mm s1)) s1) /\ slist_rep l' SWAP_AREA_SIZE (range 1 1024)) /\
  swap_area_alloc swap_full = Ok (SWAP_AREA_BASE - SWAP_AREA_UINT_SIZE, swap_full).
Proof.
  split; [|exact (swap_area_bounds swap_full [] swap_full_rep)].
  assert (H : slist_rep (swap_area_slist (mm swap_start)) SWAP_AREA_SIZE (1 :: range 2 1023)).
  { apply (swap_pool swap_start swap_area_slist SWAP_AREA_SIZE); [done|vm_compute; reflexivity]. }
  destruct (swap_area_bounds swap_start (1 :: range 2 1023) H) as (l & l' & E & _ & _ & _ & Hl & E' & Hl').
  exists l, l'. split; [exact E|]. split; [exact Hl|]. split; [exact E'|exact Hl'].
Defined.
