(* ===== verification/Witnesses.v ===== *)
(** The theorems applied: each lemma instantiates one theorem at a concrete input at which its
    hypotheses hold. *)

From S2P Require Import Prelude Slist Kernel Queue Sched Sync SchedSpec KernelInv Trap Safety Keeps Run SyncSpec Isolation Example.

(** ** [Slist] *)

Lemma slist_no_double_alloc_witness : Free 1 ∈ [Alloc; Free 1; Free 9].
Proof.
  destruct (slist_init_rep (replicate 4 (Node 7 7)) 4) as (l0 & E0 & Hrep); [lia|done|].
  vm_compute in E0. injection E0 as <-.
  eapply (slist_no_double_alloc 4 1 _ _ _ _ _ _ _ Hrep); [vm_compute; reflexivity|done|vm_compute; reflexivity..].
Defined.

(** ** [Queue] *)

Lemma queue_refines_lists_witness :
  exists s', qexec (Remove ReadyQueue 1) example = Ok (Some 3, s') /\
    qrep s' (<[ReadyQueue := [2] ++ [3]]> example_Q) /\ links_only example s'.
Proof.
  apply (queue_refines_lists example example_Q); [exact example_qrep|].
  apply (spec_remove example example_Q ReadyQueue [2] 1 [3]). vm_compute. reflexivity.
Defined.

Lemma queue_push_increasingly_sorted_witness :
  exists s' ys, qrep s' (<[SleepQueue := ys]> example_Q) /\ ys ≡ₚ [8; 4] /\
    StronglySorted (fun a b => prio_of s' b <= prio_of s' a) ys.
Proof.
  assert (Hu : unqueued example_Q 8).
  { assert (H : bool_decide (map_Forall (fun _ xs => 8 ∉ xs) example_Q) = true) by (vm_compute; reflexivity).
    apply bool_decide_eq_true in H. intros q xs HQ. exact (H q xs HQ). }
  destruct (aget_is_Some (pcb example) 8) as [p Hp]; [done|].
  destruct (queue_push_increasingly_spec example example_Q SleepQueue 8 p example_qrep Hu Hp [4])
    as (s' & E & _); [vm_compute; reflexivity|].
  exists s'. apply (queue_push_increasingly_sorted example s' example_Q SleepQueue [4] 8 example_qrep);
    [vm_compute; reflexivity|exact Hu|by exists p|repeat constructor|exact E].
Defined.

(** ** [Sched] *)

(** The ready tasks of the example have positive priorities and waits not negative. *)
Ltac ready_keys := intros j Hj; repeat (apply elem_of_cons in Hj as [->|Hj]; [vm_compute; intuition (discriminate || congruence)|]);
  by apply not_elem_of_nil in Hj.

Lemma scheduler_picks_best_witness :
  exists l c r b, [2; 1; 3] = l ++ c :: r /\
    (forall i, i ∈ l -> sp_of example_pcbs i < sp_of example_pcbs c \/
       (sp_of example_pcbs i = sp_of example_pcbs c /\ wait_of example_pcbs i <= wait_of example_pcbs c)) /\
    (forall i, i ∈ r -> sp_of example_pcbs i < sp_of example_pcbs c \/
       (sp_of example_pcbs i = sp_of example_pcbs c /\ wait_of example_pcbs i < wait_of example_pcbs c)) /\
    (switched_pcbs example [2; 1; 3] c).[c] = Some b /\
    scheduler example = Ok (tt, switched example [2; 1; 3] c b) /\
    qrep (switched example [2; 1; 3] c b) example_Q.
Proof.
  apply (scheduler_picks_best example example_Q [2; 1; 3] example_qrep);
    [vm_compute; reflexivity|done|ready_keys|vm_compute; eauto].
Defined.

Lemma scheduler_no_starvation_witness :
  exists n s', 1 <= Z.of_nat n <= 5 /\ times n scheduler example = Ok (tt, s') /\ current_running s' = 2.
Proof.
  apply (scheduler_no_starvation example example_Q [2; 1; 3] 2 example_qrep);
    [vm_compute; reflexivity|set_solver|vm_compute; eauto|ready_keys].
Defined.

Lemma do_wait_parks_witness :
  exists s1, qrep s1 (<[SleepQueue := [4; 1]]> (<[ReadyQueue := [2; 3]]> example_Q)) /\
    links_only (set_pcb (alter (fun b => set_status TASK_SLEEPING (set_queue (Some SleepQueue) b)) 1%nat
      (pcb example)) example) s1 /\
    scheduled [] s1 [2; 3] (do_wait 1 SleepQueue TASK_SLEEPING [] example).
Proof.
  apply (do_wait_parks example example_Q SleepQueue TASK_SLEEPING [] [2] [3] [4] example_qrep);
    [vm_compute; reflexivity..|done|ready_keys].
Defined.

Lemma do_unblock_one_wakes_best_witness :
  ([4] = [] /\ do_unblock_one SleepQueue example = Ok (tt, example)) \/
  exists l c r s', [4] = l ++ c :: r /\
    (forall i, i ∈ [4] -> prio_at (pcb example) i < prio_at (pcb example) c \/
       (prio_at (pcb example) i = prio_at (pcb example) c /\ wait_of (pcb example) i <= wait_of (pcb example) c)) /\
    do_unblock_one SleepQueue example = Ok (tt, s') /\
    qrep s' (<[ReadyQueue := [2; 1; 3] ++ [c]]> (<[SleepQueue := l ++ r]> example_Q)) /\
    links_only (set_pcb (alter wake (Z.to_nat c) (age [4] (pcb example))) example) s'.
Proof.
  apply (do_unblock_one_wakes_best example example_Q SleepQueue [4] [2; 1; 3] example_qrep);
    [vm_compute; reflexivity..|done|ready_keys].
Defined.

Lemma do_unblock_all_wakes_all_witness :
  exists s', do_unblock_all SleepQueue example = Ok (tt, s') /\
    qrep s' (<[ReadyQueue := [2; 1; 3; 4]]> (<[SleepQueue := []]> example_Q)) /\
    links_only (set_pcb (wake_all [4] (pcb example)) example) s'.
Proof.
  apply (do_unblock_all_wakes_all example example_Q SleepQueue [4] [2; 1; 3] example_qrep);
    [vm_compute; reflexivity..|done].
Defined.

Lemma check_sleeping_wakes_one_witness :
  exists s', check_sleeping example = Ok (tt, s') /\
    qrep s' (<[ReadyQueue := [2; 1; 3; 4]]> (<[SleepQueue := []]> example_Q)) /\
    links_only (set_pcb (alter (set_status TASK_READY) 1%nat
      (alter (set_queue (Some ReadyQueue)) 4%nat (pcb example))) example) s'.
Proof.
  apply (check_sleeping_wakes_one example example_Q [4] [2; 1; 3] example_qrep);
    [vm_compute; reflexivity..|vm_compute; eauto].
Defined.

(** ** [Run] *)

(** The state an operation leaves, when it returns. *)
Definition state_after (o : result (ctl * kstate)) : kstate := match o with Ok (_, s) => s | _ => example end.

Definition returns (o : result (ctl * kstate)) : bool := match o with Ok (Return, _) => true | _ => false end.

Lemma returns_Ok o : returns o = true -> o = Ok (Return, state_after o).
Proof. by destruct o as [[[] s]| | |]. Qed.

Definition after_getpid : kstate := state_after (handle (SystemCall SYSCALL_GETPID) example).

Lemma after_getpid_step : step_by_trap (SystemCall SYSCALL_GETPID) example (User, after_getpid).
Proof. exists Return. split; [apply returns_Ok; vm_compute; reflexivity|done]. Qed.

Lemma kernel_never_faults_witness :
  config_ok (4 + 40 * 1) (User, after_getpid) /\
  forall t, trap_ok 4 after_getpid t ->
    (stops t after_getpid /\ handle t after_getpid = Panic "no task to run.") \/ exists c', step_by_trap t after_getpid c'.
Proof.
  apply (kernel_never_faults 4 1 (User, example) User after_getpid); [exact example_config|lia|lia|].
  eapply steps_more; [|apply steps_none]. apply (good_trap 4 (SystemCall SYSCALL_GETPID)); [done|].
  exact after_getpid_step.
Defined.

(** Zeroed memory. *)
Definition zeroed : kstate :=
  KState (replicate 16 (Pcb [] 0 (RegsContext (replicate 32 0) 0 0 0 0 0 0) 0 0 None None 0 0 0 0 0 "" KERNEL_PROCESS
      TASK_BLOCKED 0 None [] 0 0)) 0
    (list_to_map ((RecvBlockQueue, Queue None None) ::
      ((fun i => (LockQueue (Locks (Z.of_nat i)), Queue None None)) <$> seq 0 16)))
    (replicate 16 (Node 0 0)) 0
    (list_to_map ((fun i => (Locks (Z.of_nat i), Mutex UNLOCKED 0)) <$> seq 0 16)) ∅ ∅ ∅ 0 0 0 example_mm.

Lemma zeroed_bss : bss zeroed.
Proof.
  assert (He : bool_decide (map_Forall (fun _ r => r = Queue None None) (queues zeroed)) = true)
    by (vm_compute; reflexivity).
  assert (Hl : bool_decide (map_Forall (fun l _ => is_Some (queues zeroed !! LockQueue l)) (mutexes zeroed)) = true)
    by (vm_compute; reflexivity).
  assert (Hk : bool_decide (Forall (fun i => is_Some (mutexes zeroed !! Locks (Z.of_nat i))) (seq 0 16)) = true)
    by (vm_compute; reflexivity).
  apply bool_decide_eq_true in He, Hl, Hk. rewrite Forall_forall in Hk.
  split; try done; try (by intros x [v Hv]).
  - intros i b Hb. unfold aget in Hb. case_decide; [|done]. by apply lookup_replicate in Hb as [-> _].
  - intros i Hi. replace i with (Z.of_nat (Z.to_nat i)) by lia. apply Hk. apply elem_of_seq.
    unfold MAX_LOCKS_NUM in Hi. lia.
  - intros l [m Hm]. by apply (Hl l m).
Qed.

Lemma boot_establishes_invariant_witness :
  let shell := TaskInfo 0x1000 USER_PROCESS 1 "shell" in
  let io_proc := TaskInfo 0x2000 USER_PROCESS 1 "io_proc" in
  exists s1 s2, boot shell io_proc zeroed = Ok (tt, s1) /\ step_by_trap (Interrupt 0x8000 0) s1 (KernelFrames [KExceptionExit], s2) /\
    (current_running s2 = 1 \/ current_running s2 = 2) /\ config_ok (1 + 40) (KernelFrames [KExceptionExit], s2).
Proof.
  apply (boot_establishes_invariant 1 0x8000 0 zeroed); [exact zeroed_bss|cbn; lia|cbn; lia|lia|done].
Defined.

(** ** [SyncSpec] *)

Lemma mutex_mutual_exclusion_witness : lock_change 1 (UserLock 320) example after_getpid.
Proof.
  apply (mutex_mutual_exclusion 4 320 example after_getpid User User); [exact example_config|].
  exists (SystemCall SYSCALL_GETPID). split_and!; [done|done|exact after_getpid_step].
Defined.

Definition after_acquire : kstate := state_after (do_mutex_lock_acquire (Locks 0) [] example).

Lemma mutex_acquire_returns_to_owner_witness :
  current_running after_acquire = 1 /\
  ((0 = 1 /\ after_acquire = example) \/
   (0 <> 1 /\ UNLOCKED = UNLOCKED /\ mutexes after_acquire !! Locks 0 = Some (Mutex LOCKED 1))).
Proof.
  apply (mutex_acquire_returns_to_owner 4 example after_acquire (Locks 0) [] (Mutex UNLOCKED 0));
    [exact example_kinv|vm_compute; reflexivity|apply returns_Ok; vm_compute; reflexivity].
Defined.

Lemma semaphore_counts_waiters_witness :
  (exists s' Q', do_semaphore_up (UserSem 80) example = Ok (tt, s') /\ kernel_ok (4 + 2) s' Q' example_free /\
    running s' Q' /\ semaphores s' !! UserSem 80 = Some (-1 + 1) /\ semaphore_counts s' Q' (UserSem 80) /\
    forall xs, example_Q !! SemQueue (UserSem 80) = Some xs -> one_woken example s' example_Q Q' (SemQueue (UserSem 80)) xs) /\
  outcome (example_Q !! ReadyQueue = Some [1]) (fun c s' => exists Q', c = Switch /\ kernel_ok (4 + 1) s' Q' example_free /\
      running s' Q' /\ semaphores s' !! UserSem 80 = Some (-1 - 1) /\ semaphore_counts s' Q' (UserSem 80) /\
      one_parked example example_Q Q' (SemQueue (UserSem 80)))
    (do_semaphore_down (UserSem 80) [] example).
Proof.
  apply (semaphore_counts_waiters 4 (-1) example example_Q example_free (UserSem 80) []);
    [exact example_ok|exact example_running|lia| |vm_compute; reflexivity|lia].
  exists (-1), [5]. split_and!; vm_compute; reflexivity.
Defined.

Lemma condition_counts_waiters_witness :
  outcome (example_Q !! ReadyQueue = Some [1]) (fun c s' => exists Q', c = Switch /\ kernel_ok (4 + 3) s' Q' example_free /\
      running s' Q' /\ conditions s' !! 160 = Some (1 + 1) /\ condition_counts s' Q' 160 /\
      one_parked example example_Q Q' (CondQueue 160) /\ one_released example s' (UserLock 320))
    (do_condition_wait 160 (UserLock 320) [] example) /\
  (exists s' Q', do_condition_signal 160 example = Ok (tt, s') /\ kernel_ok (4 + 2) s' Q' example_free /\
    running s' Q' /\ conditions s' !! 160 = Some (Z.max 0 (1 - 1)) /\ condition_counts s' Q' 160 /\
    forall xs, example_Q !! CondQueue 160 = Some xs -> one_woken example s' example_Q Q' (CondQueue 160) xs) /\
  (exists s' Q', do_condition_broadcast 160 example = Ok (tt, s') /\ kernel_ok (4 + 1) s' Q' example_free /\
    running s' Q' /\ conditions s' !! 160 = Some 0 /\ condition_counts s' Q' 160 /\
    forall xs, example_Q !! CondQueue 160 = Some xs -> wakes s' example_Q Q' (CondQueue 160) xs []).
Proof.
  apply (condition_counts_waiters 4 1 example example_Q example_free 160 (UserLock 320) []);
    [exact example_ok|exact example_running|lia| |vm_compute; reflexivity|vm_compute; eauto].
  exists 1, [6]. split_and!; vm_compute; reflexivity.
Defined.

Lemma barrier_opens_at_goal_witness :
  exists s' Q', do_barrier_wait 240 [] example = Ok (Return, s') /\ kernel_ok (4 + 1) s' Q' example_free /\
    running s' Q' /\ barriers s' !! 240 = Some (Barrier 2 0) /\
    forall xs, example_Q !! BarrierQueue 240 = Some xs -> wakes s' example_Q Q' (BarrierQueue 240) xs [].
Proof.
  apply (barrier_opens_at_goal 4 example example_Q example_free 240 (Barrier 2 1) []);
    [exact example_ok|exact example_running|lia| |vm_compute; reflexivity|cbn; lia].
  exists (Barrier 2 1), [7]. split_and!; vm_compute; reflexivity.
Defined.

Definition after_kill : kstate := state_after (kill 3 [] example).

Lemma kill_keeps_user_locks_witness : mutexes after_kill !! UserLock 320 = mutexes example !! UserLock 320.
Proof. apply (kill_keeps_user_locks 3 320 [] example after_kill Return).
  apply returns_Ok. vm_compute. reflexivity.
Defined.

Lemma kill_keeps_memory_witness : mm after_kill = mm example.
Proof. apply (kill_keeps_memory 3 [] example after_kill Return). apply returns_Ok. vm_compute. reflexivity. Defined.
