(* ===== verification/Syscalls.v ===== *)
(** The interface of system calls: their numbers ([include/exception/syscall.h]), the functions a
    task calls ([kernel/exception/syscall.c], from [sys_getpid] on), the registers they leave, and the
    dispatch of [system_call_helper] on these registers.

    An address passed to the kernel is a number; what it points to in the model, the kernel's name for
    a lock, a semaphore, a condition or a barrier and the contents of a [task_info_t], is given by the
    functions [task_at], [lock_at] and [sem_at]. *)

From S2P Require Import Prelude Kernel Sched Trap Example Witnesses.

(** ** Numbers *)

Definition IGNORE : Z := 0.
Definition NR_SHOW_PROCESS : Z := 0.
Definition NR_SPAWN : Z := 1.
Definition NR_KILL : Z := 2.
Definition NR_EXIT : Z := 3.
Definition NR_WAIT : Z := 4.
Definition NR_SLEEP : Z := 5.
Definition NR_GETPID : Z := 6.
Definition NR_BLOCK : Z := 10.
Definition NR_UNBLOCK_ONE : Z := 11.
Definition NR_UNBLOCK_ALL : Z := 12.
Definition NR_WRITE : Z := 20.
Definition NR_READ : Z := 21.
Definition NR_CURSOR : Z := 22.
Definition NR_REFLUSH : Z := 23.
Definition NR_CLEAR : Z := 24.
Definition NR_MUTEX_LOCK_INIT : Z := 30.
Definition NR_MUTEX_LOCK_ACQUIRE : Z := 31.
Definition NR_MUTEX_LOCK_RELEASE : Z := 32.
Definition NR_SEMAPHORE_INIT : Z := 33.
Definition NR_SEMAPHORE_UP : Z := 34.
Definition NR_SEMAPHORE_DOWN : Z := 35.
Definition NR_COND_INIT : Z := 36.
Definition NR_COND_WAIT : Z := 37.
Definition NR_COND_SIGNAL : Z := 38.
Definition NR_COND_BROADCAST : Z := 39.
Definition NR_BARRIER_INIT : Z := 40.
Definition NR_BARRIER_WAIT : Z := 41.
Definition NR_INIT_MAC : Z := 50.
Definition NR_NET_SEND : Z := 51.
Definition NR_NET_RECV : Z := 52.
Definition NR_WAIT_RECV : Z := 53.
Definition NR_MKFS : Z := 60.
Definition NR_MOUNT : Z := 61.
Definition NR_STATFS : Z := 62.
Definition NR_GET_DIR_NAME : Z := 63.
Definition NR_MKDIR : Z := 64.
Definition NR_RMDIR : Z := 65.
Definition NR_LS : Z := 66.
Definition NR_CD : Z := 67.
Definition NR_TOUCH : Z := 68.
Definition NR_FOPEN : Z := 70.
Definition NR_FCLOSE : Z := 71.
Definition NR_FREAD : Z := 72.
Definition NR_FWRITE : Z := 73.
Definition NR_FSEEK : Z := 74.

(** ** The calling side *)

(** Registers 4 to 7, as the assembly function [invoke_syscall] finds and leaves them. *)
Definition invoke_syscall (fn arg1 arg2 arg3 : Z) : list Z := [fn; arg1; arg2; arg3].

Definition sys_getpid : list Z :=
  invoke_syscall NR_GETPID IGNORE IGNORE IGNORE.

Definition barrier_init (barrier goal : Z) : list Z :=
  invoke_syscall NR_BARRIER_INIT (u32 barrier) (u32 goal) IGNORE.

Definition barrier_wait (barrier : Z) : list Z :=
  invoke_syscall NR_BARRIER_WAIT (u32 barrier) IGNORE IGNORE.

Definition condition_init (condition : Z) : list Z :=
  invoke_syscall NR_COND_INIT (u32 condition) IGNORE IGNORE.

Definition condition_wait (condition lock : Z) : list Z :=
  invoke_syscall NR_COND_WAIT (u32 condition) (u32 lock) IGNORE.

Definition condition_signal (condition : Z) : list Z :=
  invoke_syscall NR_COND_SIGNAL (u32 condition) IGNORE IGNORE.

Definition condition_broadcast (condition : Z) : list Z :=
  invoke_syscall NR_COND_BROADCAST (u32 condition) IGNORE IGNORE.

Definition semaphore_init (s value : Z) : list Z :=
  invoke_syscall NR_SEMAPHORE_INIT (u32 s) (u32 value) IGNORE.

Definition semaphore_up (s : Z) : list Z :=
  invoke_syscall NR_SEMAPHORE_UP (u32 s) IGNORE IGNORE.

Definition semaphore_down (s : Z) : list Z :=
  invoke_syscall NR_SEMAPHORE_DOWN (u32 s) IGNORE IGNORE.

Definition sys_spawn (task : Z) : list Z :=
  invoke_syscall NR_SPAWN (u32 task) IGNORE IGNORE.

Definition sys_kill (pid : Z) : list Z :=
  invoke_syscall NR_KILL (u32 pid) IGNORE IGNORE.

Definition sys_exit : list Z :=
  invoke_syscall NR_EXIT IGNORE IGNORE IGNORE.

Definition sys_wait (pid : Z) : list Z :=
  invoke_syscall NR_WAIT (u32 pid) IGNORE IGNORE.

Definition sys_clear (line1 line2 : Z) : list Z :=
  invoke_syscall NR_CLEAR (u32 line1) (u32 line2) IGNORE.

Definition sys_show_process : list Z :=
  invoke_syscall NR_SHOW_PROCESS IGNORE IGNORE IGNORE.

Definition sys_sleep (time : Z) : list Z :=
  invoke_syscall NR_SLEEP (u32 time) IGNORE IGNORE.

Definition sys_block (queue : Z) : list Z :=
  invoke_syscall NR_BLOCK (u32 queue) IGNORE IGNORE.

Definition sys_unblock_one (queue : Z) : list Z :=
  invoke_syscall NR_UNBLOCK_ONE (u32 queue) IGNORE IGNORE.

Definition sys_unblock_all (queue : Z) : list Z :=
  invoke_syscall NR_UNBLOCK_ALL (u32 queue) IGNORE IGNORE.

Definition sys_write (buff : Z) : list Z :=
  invoke_syscall NR_WRITE (u32 buff) IGNORE IGNORE.

Definition sys_read : list Z :=
  invoke_syscall NR_READ IGNORE IGNORE IGNORE.

Definition sys_reflush : list Z :=
  invoke_syscall NR_REFLUSH IGNORE IGNORE IGNORE.

Definition sys_move_cursor (x y : Z) : list Z :=
  invoke_syscall NR_CURSOR (u32 x) (u32 y) IGNORE.

Definition mutex_lock_init (lock : Z) : list Z :=
  invoke_syscall NR_MUTEX_LOCK_INIT (u32 lock) IGNORE IGNORE.

Definition mutex_lock_acquire (lock : Z) : list Z :=
  invoke_syscall NR_MUTEX_LOCK_ACQUIRE (u32 lock) IGNORE IGNORE.

Definition mutex_lock_release (lock : Z) : list Z :=
  invoke_syscall NR_MUTEX_LOCK_RELEASE (u32 lock) IGNORE IGNORE.

Definition sys_init_mac : list Z :=
  invoke_syscall NR_INIT_MAC IGNORE IGNORE IGNORE.

Definition sys_net_send : list Z :=
  invoke_syscall NR_NET_SEND IGNORE IGNORE IGNORE.

Definition sys_net_recv (buffer : Z) : list Z :=
  invoke_syscall NR_NET_RECV IGNORE IGNORE IGNORE.

Definition sys_net_wait_recv : list Z :=
  invoke_syscall NR_WAIT_RECV IGNORE IGNORE IGNORE.

Definition sys_mkfs : list Z :=
  invoke_syscall NR_MKFS IGNORE IGNORE IGNORE.

Definition sys_mount : list Z :=
  invoke_syscall NR_MOUNT IGNORE IGNORE IGNORE.

Definition sys_statfs : list Z :=
  invoke_syscall NR_STATFS IGNORE IGNORE IGNORE.

Definition sys_get_curr_dir_name : list Z :=
  invoke_syscall NR_GET_DIR_NAME IGNORE IGNORE IGNORE.

Definition sys_mkdir (s : Z) : list Z :=
  invoke_syscall NR_MKDIR (u32 s) IGNORE IGNORE.

Definition sys_rmdir (s : Z) : list Z :=
  invoke_syscall NR_RMDIR (u32 s) IGNORE IGNORE.

Definition sys_ls : list Z :=
  invoke_syscall NR_LS IGNORE IGNORE IGNORE.

Definition sys_cd (s : Z) : list Z :=
  invoke_syscall NR_CD (u32 s) IGNORE IGNORE.

Definition sys_touch (s : Z) : list Z :=
  invoke_syscall NR_TOUCH (u32 s) IGNORE IGNORE.

Definition sys_fopen (s access : Z) : list Z :=
  invoke_syscall NR_FOPEN (u32 s) (u32 access) IGNORE.

Definition sys_fclose (fd : Z) : list Z :=
  invoke_syscall NR_FCLOSE (u32 fd) IGNORE IGNORE.

Definition sys_fread (fd buf size : Z) : list Z :=
  invoke_syscall NR_FREAD (u32 fd) (u32 buf) (u32 size).

Definition sys_fwrite (fd buf size : Z) : list Z :=
  invoke_syscall NR_FWRITE (u32 fd) (u32 buf) (u32 size).

Definition sys_fseek (fd offset : Z) : list Z :=
  invoke_syscall NR_FSEEK (u32 fd) (u32 offset) IGNORE.

(** ** The kernel's side *)

(** The handler a call reaches, with its arguments as C converts them *)
Inductive call :=
  | Kernel_call (c : Trap.syscall)
  | Show_process
  | Screen_write (buff : Z) | Read_uart_ch | Screen_move_cursor (x y : Z) | Screen_reflush | Screen_clear (line1 line2 : Z)
  | Do_init_mac | Do_net_send | Do_net_recv
  | Mkfs | Mount | Statfs | Get_curr_dir_name | Mkdir (s : Z) | Rmdir (s : Z) | Ls | Cd (s : Z) | Touch (s : Z)
  | Fopen (s access : Z) | Fclose (fd : Z) | Fread (fd buf size : Z) | Fwrite (fd buf size : Z) | Fseek (fd offset : Z).

Section dispatch.
Context (task_at : Z -> task_info_t) (lock_at : Z -> lockref) (sem_at : Z -> semref).

(** The [switch] of [system_call_helper]; [None] is its [default]. *)
Definition dispatch_call (fn arg1 arg2 arg3 : Z) : option call :=
  let k c := Some (Kernel_call c) in
  if fn =? NR_SHOW_PROCESS then Some Show_process
  else if fn =? NR_SPAWN then k (SYSCALL_SPAWN (task_at (u32 arg1)))
  else if fn =? NR_KILL then k (SYSCALL_KILL (s32 arg1))
  else if fn =? NR_EXIT then k SYSCALL_EXIT
  else if fn =? NR_WAIT then k (SYSCALL_WAIT (s32 arg1))
  else if fn =? NR_SLEEP then k (SYSCALL_SLEEP (s32 arg1))
  else if fn =? NR_GETPID then k SYSCALL_GETPID
  else if fn =? NR_WRITE then Some (Screen_write (u32 arg1))
  else if fn =? NR_READ then Some Read_uart_ch
  else if fn =? NR_CURSOR then Some (Screen_move_cursor (s32 arg1) (s32 arg2))
  else if fn =? NR_REFLUSH then Some Screen_reflush
  else if fn =? NR_CLEAR then Some (Screen_clear (s32 arg1) (s32 arg2))
  else if fn =? NR_MUTEX_LOCK_INIT then k (SYSCALL_MUTEX_LOCK_INIT (lock_at (u32 arg1)))
  else if fn =? NR_MUTEX_LOCK_ACQUIRE then k (SYSCALL_MUTEX_LOCK_ACQUIRE (lock_at (u32 arg1)))
  else if fn =? NR_MUTEX_LOCK_RELEASE then k (SYSCALL_MUTEX_LOCK_RELEASE (lock_at (u32 arg1)))
  else if fn =? NR_SEMAPHORE_INIT then k (SYSCALL_SEMAPHORE_INIT (sem_at (u32 arg1)) (s32 arg2))
  else if fn =? NR_SEMAPHORE_UP then k (SYSCALL_SEMAPHORE_UP (sem_at (u32 arg1)))
  else if fn =? NR_SEMAPHORE_DOWN then k (SYSCALL_SEMAPHORE_DOWN (sem_at (u32 arg1)))
  else if fn =? NR_COND_INIT then k (SYSCALL_COND_INIT (u32 arg1))
  else if fn =? NR_COND_WAIT then k (SYSCALL_COND_WAIT (u32 arg1) (lock_at (u32 arg2)))
  else if fn =? NR_COND_SIGNAL then k (SYSCALL_COND_SIGNAL (u32 arg1))
  else if fn =? NR_COND_BROADCAST then k (SYSCALL_COND_BROADCAST (u32 arg1))
  else if fn =? NR_BARRIER_INIT then k (SYSCALL_BARRIER_INIT (u32 arg1) (s32 arg2))
  else if fn =? NR_BARRIER_WAIT then k (SYSCALL_BARRIER_WAIT (u32 arg1))
  else if fn =? NR_INIT_MAC then Some Do_init_mac
  else if fn =? NR_NET_SEND then Some Do_net_send
  else if fn =? NR_NET_RECV then Some Do_net_recv
  else if fn =? NR_WAIT_RECV then k SYSCALL_WAIT_RECV
  else if fn =? NR_MKFS then Some Mkfs
  else if fn =? NR_MOUNT then Some Mount
  else if fn =? NR_STATFS then Some Statfs
  else if fn =? NR_GET_DIR_NAME then Some Get_curr_dir_name
  else if fn =? NR_MKDIR then Some (Mkdir (u32 arg1))
  else if fn =? NR_RMDIR then Some (Rmdir (u32 arg1))
  else if fn =? NR_LS then Some Ls
  else if fn =? NR_CD then Some (Cd (u32 arg1))
  else if fn =? NR_TOUCH then Some (Touch (u32 arg1))
  else if fn =? NR_FOPEN then Some (Fopen (u32 arg1) (s32 arg2))
  else if fn =? NR_FCLOSE then Some (Fclose (s32 arg1))
  else if fn =? NR_FREAD then Some (Fread (s32 arg1) (u32 arg2) (u32 arg3))
  else if fn =? NR_FWRITE then Some (Fwrite (s32 arg1) (u32 arg2) (u32 arg3))
  else if fn =? NR_FSEEK then Some (Fseek (s32 arg1) (u32 arg2))
  else None.

(** [system_call_helper] from the registers of the task. [others] are the handlers of the screen, the
    network and the file system, which may change the task's result register. *)
Definition system_call (others : call -> M unit) (k : list kframe) : M ctl :=
  c ← get current_running;
  b ← pcb_at c;
  let r := regs (user_regs_context b) in
  fn ← lift (r.[4]);
  arg1 ← lift (r.[5]);
  arg2 ← lift (r.[6]);
  arg3 ← lift (r.[7]);
  match dispatch_call (s32 fn) (s32 arg1) (s32 arg2) (s32 arg3) with
  | None => panic "unknown syscall."
  | Some (Kernel_call c) => system_call_helper c k
  | Some c => upd_current skip_instruction;; others c;; mret Return
  end.

End dispatch.

(** ** From the call to the handler *)

(** The functions a task calls, applied to addresses or unsigned numbers [a] and [b] and to integers
    [i] and [j], and the handler each must reach *)
Definition call_table (task_at : Z -> task_info_t) (lock_at : Z -> lockref) (sem_at : Z -> semref) (a b i j : Z) :
    list (list Z * option call) := [
    (sys_show_process, Some Show_process);
    (sys_spawn a, Some (Kernel_call (SYSCALL_SPAWN (task_at a))));
    (sys_kill i, Some (Kernel_call (SYSCALL_KILL i)));
    (sys_exit, Some (Kernel_call SYSCALL_EXIT));
    (sys_wait i, Some (Kernel_call (SYSCALL_WAIT i)));
    (sys_sleep a, Some (Kernel_call (SYSCALL_SLEEP (s32 a))));
    (sys_getpid, Some (Kernel_call SYSCALL_GETPID));
    (sys_write a, Some (Screen_write a));
    (sys_read, Some Read_uart_ch);
    (sys_move_cursor i j, Some (Screen_move_cursor i j));
    (sys_reflush, Some Screen_reflush);
    (sys_clear i j, Some (Screen_clear i j));
    (mutex_lock_init a, Some (Kernel_call (SYSCALL_MUTEX_LOCK_INIT (lock_at a))));
    (mutex_lock_acquire a, Some (Kernel_call (SYSCALL_MUTEX_LOCK_ACQUIRE (lock_at a))));
    (mutex_lock_release a, Some (Kernel_call (SYSCALL_MUTEX_LOCK_RELEASE (lock_at a))));
    (semaphore_init a i, Some (Kernel_call (SYSCALL_SEMAPHORE_INIT (sem_at a) i)));
    (semaphore_up a, Some (Kernel_call (SYSCALL_SEMAPHORE_UP (sem_at a))));
    (semaphore_down a, Some (Kernel_call (SYSCALL_SEMAPHORE_DOWN (sem_at a))));
    (condition_init a, Some (Kernel_call (SYSCALL_COND_INIT a)));
    (condition_wait a b, Some (Kernel_call (SYSCALL_COND_WAIT a (lock_at b))));
    (condition_signal a, Some (Kernel_call (SYSCALL_COND_SIGNAL a)));
    (condition_broadcast a, Some (Kernel_call (SYSCALL_COND_BROADCAST a)));
    (barrier_init a i, Some (Kernel_call (SYSCALL_BARRIER_INIT a i)));
    (barrier_wait a, Some (Kernel_call (SYSCALL_BARRIER_WAIT a)));
    (sys_init_mac, Some Do_init_mac);
    (sys_net_send, Some Do_net_send);
    (sys_net_recv a, Some Do_net_recv);
    (sys_net_wait_recv, Some (Kernel_call SYSCALL_WAIT_RECV));
    (sys_mkfs, Some Mkfs);
    (sys_mount, Some Mount);
    (sys_statfs, Some Statfs);
    (sys_get_curr_dir_name, Some Get_curr_dir_name);
    (sys_mkdir a, Some (Mkdir a));
    (sys_rmdir a, Some (Rmdir a));
    (sys_ls, Some Ls);
    (sys_cd a, Some (Cd a));
    (sys_touch a, Some (Touch a));
    (sys_fopen a i, Some (Fopen a i));
    (sys_fclose i, Some (Fclose i));
    (sys_fread i a b, Some (Fread i a b));
    (sys_fwrite i a b, Some (Fwrite i a b));
    (sys_fseek i a, Some (Fseek i a));
    (sys_block a, None);
    (sys_unblock_one a, None);
    (sys_unblock_all a, None)].

(** The state in which the running task has executed [syscall] with these registers *)
Definition called (r : list Z) (s : kstate) : Prop :=
  exists p, (pcb s).[current_running s] = Some p /\ take 4 (drop 4 (regs (user_regs_context p))) = r.

Lemma s32_small z : is_s32 z -> s32 (u32 z) = z.
Proof. intros H. rewrite s32_u32. by apply s32_id. Qed.

Lemma called_regs s fn x y z : called [fn; x; y; z] s -> exists p, (pcb s).[current_running s] = Some p /\
  (regs (user_regs_context p)).[4] = Some fn /\ (regs (user_regs_context p)).[5] = Some x /\
  (regs (user_regs_context p)).[6] = Some y /\ (regs (user_regs_context p)).[7] = Some z.
Proof.
  intros (p & Hp & E). exists p. split; [done|]. set (l := regs (user_regs_context p)) in *.
  assert (H : forall n : nat, (n < 4)%nat -> l.[4 + Z.of_nat n] = [fn; x; y; z] !! n).
  { intros n Hn. rewrite <- E, lookup_take_lt, lookup_drop by done. unfold aget. rewrite decide_True by lia. f_equal. lia. }
  split_and!; [apply (H 0%nat)|apply (H 1%nat)|apply (H 2%nat)|apply (H 3%nat)]; lia.
Qed.

Definition dispatched task_at lock_at sem_at (p : list Z * option call) : Prop :=
  match fst p with [fn; x; y; z] => dispatch_call task_at lock_at sem_at (s32 fn) (s32 x) (s32 y) (s32 z) = snd p | _ => False end.

Lemma call_table_dispatched task_at lock_at sem_at a b i j : is_u32 a -> is_u32 b -> is_s32 i -> is_s32 j ->
  Forall (dispatched task_at lock_at sem_at) (call_table task_at lock_at sem_at a b i j).
Proof.
  intros Ha Hb Hi Hj.
  assert (Ea : u32 (s32 (u32 a)) = a) by by rewrite u32_s32, u32_u32, u32_id.
  assert (Eb : u32 (s32 (u32 b)) = b) by by rewrite u32_s32, u32_u32, u32_id.
  assert (Ei : s32 (s32 (u32 i)) = i) by by rewrite s32_s32, s32_small.
  assert (Ej : s32 (s32 (u32 j)) = j) by by rewrite s32_s32, s32_small.
  assert (Es : s32 (s32 (u32 a)) = s32 a) by by rewrite s32_s32, s32_u32.
  repeat apply Forall_cons_2; [..|apply Forall_nil_2];
    cbv -[u32 s32]; rewrite ?Ea, ?Eb, ?Ei, ?Ej, ?Es; done.
Qed.

(** C27. Whatever function a task calls, on addresses or unsigned numbers and on
    integers of 32 bits, the kernel enters the handler the function is named after, with the same
    arguments, the integers converted to 32 bits on both sides of the trap keeping their values; the
    calls the model of scheduling and synchronisation handles are the trap [SystemCall] of
    [Trap.handle], the others run behind the return address already advanced, and the three functions
    on queues, whose numbers have no case, stop the kernel with [panic]. *)
Theorem system_calls_reach_handlers task_at lock_at sem_at others (a b i j : Z) (r : list Z) (h : option call) (s : kstate)
    (Ha : is_u32 a) (Hb : is_u32 b) (Hi : is_s32 i) (Hj : is_s32 j)
    (Hin : (r, h) ∈ call_table task_at lock_at sem_at a b i j) (Hs : called r s) :
  system_call task_at lock_at sem_at others [KHandlerReturn; KExceptionExit] s =
    match h with
    | None => panic "unknown syscall." s
    | Some (Kernel_call c) => handle (SystemCall c) s
    | Some c => (upd_current skip_instruction;; others c;; mret Return) s
    end.
Proof.
  pose proof (call_table_dispatched task_at lock_at sem_at a b i j Ha Hb Hi Hj) as Ht.
  rewrite Forall_forall in Ht. specialize (Ht _ Hin). unfold dispatched in Ht. cbn in Ht.
  destruct r as [|fn [|x [|y [|z [|]]]]]; try done.
  destruct (called_regs s fn x y z Hs) as (p & Hp & E1 & E2 & E3 & E4).
  unfold system_call. rewrite bind_get, (bind_Ok _ _ _ _ _ (pcb_at_Ok _ _ _ Hp)).
  rewrite E1, E2, E3, E4. unfold lift. rewrite !bind_ret, Ht. by destruct h as [[]|].
Qed.

(** ** A call *)

(** The running task of [s] with [r] in its registers 4 to 7 *)
Definition with_call (r : list Z) (s : kstate) : kstate :=
  set_pcb (alter (fun p => set_user_regs_context (set_regs (replicate 4 0 ++ r ++ replicate 24 0) (user_regs_context p)) p)
    (Z.to_nat (current_running s)) (pcb s)) s.

Lemma system_calls_reach_handlers_witness :
  called (sys_kill 3) (with_call (sys_kill 3) example) /\
  returns (system_call (fun _ => TaskInfo 0 USER_PROCESS 1 "task") UserLock UserSem (fun _ => mret tt)
    [KHandlerReturn; KExceptionExit] (with_call (sys_kill 3) example)) = true.
Proof.
  assert (Hs : called (sys_kill 3) (with_call (sys_kill 3) example)) by (eexists; split; reflexivity).
  split; [done|].
  rewrite (system_calls_reach_handlers _ UserLock UserSem _ 0 0 3 0 (sys_kill 3) (Some (Kernel_call (SYSCALL_KILL 3)))).
  - vm_compute. reflexivity.
  - done.
  - done.
  - done.
  - done.
  - apply list_elem_of_further, list_elem_of_further, list_elem_of_here.
  - exact Hs.
Defined.
