(* ===== verification/System.v ===== *)
(** The whole kernel: one state for scheduling, memory, files, screen and network, the handlers of all
    system calls, the entry of exceptions in [arch/mips/kernel/asm.S], and [_start] of [init/main.c].

    The parts are those of the other files. What they share in C they share here: the position of the
    cursor is [screen_cursor_x] and [screen_cursor_y] of the kernel's state, which the scheduler saves
    with a task; the result of a file operation is register 2 of the running task; what the file
    system prints goes to the screen. [space] is the memory each task reaches, as bytes by
    address; [text] the words of the kernel's own segments, by address. *)

From S2P Require Import Prelude Slist CString Printk Layout Sdcard Fs Mac Screen Kernel Queue Sched Sync Memory Trap Syscalls.

Record system (D : Type) := System {
  kern : kstate;
  filesys : fs D;
  scr : screen;
  netdev : net;
  space : Z -> list Z;
  text : gmap Z Z
}.
Arguments System {D}.
Arguments kern {D}.
Arguments filesys {D}.
Arguments scr {D}.
Arguments netdev {D}.
Arguments space {D}.
Arguments text {D}.

(** What is outside of this state: the arrays on the stack of the print functions, [bf] and [buff]; the
    structures on the stack that the operations of the file system do not initialise, [sb], [inode],
    [dir] and the byte [after]; the address of [current_dir.name]; the byte [read_uart_ch] gets from the
    port, 0 if there is none; the parameters of [Mac]; what addresses stand for; the labels of
    [asm.S], the addresses of three functions and of the blocks in [pcb], and the two tasks started first. *)
Record outside := Outside {
  bf : list Z; buff : list Z;
  sb : super_block_t; inode : list inode_t; dir : dir_t; after : Z; dir_name_addr : Z;
  uart : Z;
  device : list io -> Z -> Z; tdesc_addr : Z; rdesc_addr : Z; reset_fuel : nat;
  task_at : Z -> task_info_t; lock_at : Z -> lockref; sem_at : Z -> semref;
  exception_handler_begin : Z; exception_handler_end : Z; TLB_refill_handler_begin : Z; TLB_refill_handler_end : Z;
  sys_move_cursor_addr : Z; printf_addr : Z; sys_exit_addr : Z; pcb_addr : Z -> Z;
  info_shell : task_info_t; info_io_proc : task_info_t
}.

(** ** The monad *)

Definition Sys (D A : Type) : Type := system D -> result (A * system D).

#[global] Instance Sys_ret D : MRet (Sys D) := fun A x s => Ok (x, s).

#[global] Instance Sys_bind D : MBind (Sys D) := fun A B f m s =>
  match m s with
  | Ok (x, s) => f x s
  | Fault => Fault
  | Panic msg => Panic msg
  | OutOfFuel => OutOfFuel
  end.

Section code.
Context {D : Type} `{!SdCard D}.
Implicit Types (w : system D).

Definition set_kern (v : kstate) w : system D := System v (filesys w) (scr w) (netdev w) (space w) (text w).
Definition set_filesys (v : fs D) w : system D := System (kern w) v (scr w) (netdev w) (space w) (text w).
Definition set_scr (v : screen) w : system D := System (kern w) (filesys w) v (netdev w) (space w) (text w).
Definition set_netdev (v : net) w : system D := System (kern w) (filesys w) (scr w) v (space w) (text w).
Definition set_space (v : Z -> list Z) w : system D := System (kern w) (filesys w) (scr w) (netdev w) v (text w).
Definition set_text (v : gmap Z Z) w : system D := System (kern w) (filesys w) (scr w) (netdev w) (space w) v.

(** An operation of one of the parts *)
Definition on {X A} (part : system D -> X) (put : X -> system D -> system D) (m : X -> result (A * X)) : Sys D A := fun w =>
  match m (part w) with
  | Ok (x, v) => Ok (x, put v w)
  | Fault => Fault
  | Panic msg => Panic msg
  | OutOfFuel => OutOfFuel
  end.

Definition on_kernel {A} (m : M A) : Sys D A := on kern set_kern m.

Definition on_network {A} (m : N A) : Sys D A := on netdev set_netdev m.

(** The screen with the cursor of the kernel's state, and the cursor put back *)
Definition screen_of w : screen := set_cursor (screen_cursor_x (kern w)) (screen_cursor_y (kern w)) (scr w).

Definition put_screen (v : screen) w : system D :=
  set_scr v (set_kern (set_screen_cursor_y (cur_y v) (set_screen_cursor_x (cur_x v) (kern w))) w).

Definition on_screen (f : screen -> result screen) : Sys D unit :=
  on screen_of put_screen (fun s => match f s with Ok s => Ok (tt, s) | Fault => Fault | Panic msg => Panic msg | OutOfFuel => OutOfFuel end).

(** Register [i] of the running task *)
Definition register (i : Z) : Sys D Z :=
  on_kernel (c ← get current_running; b ← pcb_at c; lift ((regs (user_regs_context b)).[i])).

(** Register 2, which is there in every block *)
Definition result_register : Sys D Z :=
  on_kernel (c ← get current_running; b ← pcb_at c; mret (default 0 ((regs (user_regs_context b)).[2]))).

(** The memory of the running task, from the address [a] on; writing to it *)
Definition user (a : Z) : Sys D (list Z) := fun w => Ok (drop (Z.to_nat a) (space w (current_running (kern w))), w).

Definition store_user (a : Z) (r : list Z) : Sys D unit := fun w =>
  let c := current_running (kern w) in
  match splice (space w c) a r with
  | Some m => Ok (tt, set_space (fun p => if p =? c then m else space w p) w)
  | None => Fault
  end.

(** ** Handlers, with what is outside of the state *)

Context (o : outside).

(** A format of the file system, whose line ends are written as in C *)
Fixpoint unescape (s : list Z) : list Z :=
  match s with
  | [] => [0]
  | 92 :: 110 :: s => 10 :: unescape s
  | c :: s => c :: unescape s
  end.

Definition message (s : string) : list Z := unescape (str s).

Fixpoint print_all (ms : list (string * list parg)) : Sys D unit :=
  match ms with
  | [] => mret tt
  | (fmt, va) :: ms => on_screen (printks (bf o) (buff o) (message fmt) va);; print_all ms
  end.

Definition set_console (v : list (string * list parg)) (f : fs D) : fs D := Fs.set_console v f.

(** An operation of the file system: its result register is the running task's, its messages go to
    the screen. *)
Definition on_files {A} (m : F D A) : Sys D A :=
  v ← result_register;
  x ← on filesys set_filesys (fun f => m (set_regs2 v (set_console [] f)));
  r ← on filesys set_filesys (fun f => Ok (regs2 f, f));
  ms ← on filesys set_filesys (fun f => Ok (reverse (console f), set_console [] f));
  on_kernel (upd_current (set_reg 2 r));;
  print_all ms;;
  mret x.

Fixpoint print_rows (rows : list (Z * Z * string * string)) : Sys D unit :=
  match rows with
  | [] => mret tt
  | (i, pid, status, name) :: rows =>
      on_screen (printks (bf o) (buff o) (str "[%03d]  %03d         %s         %s" ++ [10; 0])
        [Int i; Int pid; Str (lit status); Str (lit name)]);;
      (if i + 1 >? 15 then on_screen (printks (bf o) (buff o) (str "..." ++ [10; 0]) []) else mret tt);;
      print_rows rows
  end.

Definition handler (c : call) : Sys D unit :=
  match c with
  | Kernel_call _ => mret tt
  | Show_process =>
      on_screen (printks (bf o) (buff o) (str "[Process Table]" ++ [10; 0]) []);;
      on_screen (printks (bf o) (buff o) (str "       PID         STATUS                NAME" ++ [10; 0]) []);;
      rows ← on_kernel show_process;
      print_rows rows
  | Screen_write a => s ← user a; on_screen (screen_write s)
  | Read_uart_ch => on_kernel (upd_current (set_reg 2 (u32 (schar (uart o)))))
  | Screen_move_cursor x y => on_screen (fun s => Ok (screen_move_cursor x y s))
  | Screen_reflush => on_screen (screen_reflush (bf o) (buff o))
  | Screen_clear line1 line2 => on_screen (screen_clear (bf o) (buff o) line1 line2)
  | Do_init_mac => on_network (do_init_mac (device o) (reset_fuel o))
  | Do_net_send => on_network (do_net_send (device o) (tdesc_addr o))
  | Do_net_recv => on_network (do_net_recv (device o) (rdesc_addr o))
  | Mkfs => on_files (mkfs (sb o) (inode o) (dir o))
  | Mount => on_files mount
  | Statfs => on_files statfs
  | Get_curr_dir_name => on_files (get_curr_dir_name (dir_name_addr o))
  | Mkdir s => s ← user s; on_files (mkdir (after o) (dir o) s)
  | Rmdir s => s ← user s; on_files (rmdir s)
  | Ls => on_files ls
  | Cd a => s ← user a; s ← on_files (cd s); store_user a s
  | Touch s => s ← user s; on_files (touch (after o) s)
  | Fopen s access => s ← user s; on_files (fopen s access)
  | Fclose fd => on_files (fclose fd)
  | Fread fd buf size => r ← on_files (fread fd size); store_user buf r
  | Fwrite fd buf size => b ← user buf; on_files (fwrite fd b size)
  | Fseek fd offset => on_files (fseek fd offset)
  end.

Definition system_call_helper (k : list kframe) : Sys D ctl :=
  fn ← register 4;
  arg1 ← register 5;
  arg2 ← register 6;
  arg3 ← register 7;
  match dispatch_call (task_at o) (lock_at o) (sem_at o) (s32 fn) (s32 arg1) (s32 arg2) (s32 arg3) with
  | None => on_kernel (panic "unknown syscall.")
  | Some (Kernel_call c) => on_kernel (Trap.system_call_helper c k)
  | Some c => on_kernel (upd_current skip_instruction);; handler c;; mret Return
  end.

(** ** Interrupts

    As in [Trap], with what [irq_mac] says to the network device. *)

Definition irq_mac : Sys D unit :=
  on_kernel (
    empty ← queue_is_empty RecvBlockQueue;
    if negb empty then do_unblock_one RecvBlockQueue else mret tt);;
  on_network (clear_dma_interrupt (device o)).

Definition irq_ip3_helper (int1_sr : Z) : Sys D unit :=
  if Z.testbit int1_sr 3 then irq_mac else on_kernel (panic "unknown ip3.").

Definition interrupt_helper (int1_sr : Z) (k : list kframe) : Sys D ctl :=
  cause ← on_kernel (c ← get current_running; b ← pcb_at c; mret (cp0_cause (user_regs_context b)));
  if negb (Z.land cause 0x8000 =? 0) then on_kernel (irq_timer k)
  else if negb (Z.land cause 0x0800 =? 0) then irq_ip3_helper int1_sr;; mret Return
  else on_kernel (panic "unknown interrupt.").

(** ** Exceptions

    What the processor holds when an exception is taken *)
Record context := Ctx { x_regs : list Z; x_status : Z; x_cause : Z; x_epc : Z; x_badvaddr : Z; x_hi : Z; x_lo : Z }.

(** [SAVE_REGS_CONTEXT(USER)]: registers 0, 26 and 27 are not saved. *)
Definition save_context (e : context) (b : pcb_t) : pcb_t :=
  let old := regs (user_regs_context b) in
  set_user_regs_context (RegsContext (take 1 old ++ take 25 (drop 1 (x_regs e)) ++ take 2 (drop 26 old) ++ take 4 (drop 28 (x_regs e)))
    (x_status e) (x_cause e) (x_epc e) (x_badvaddr e) (x_hi e) (x_lo e)) b.

(** [USER], the place of the user context in a block *)
Definition USER : Z := 152.

(** [RESTORE_REGS_CONTEXT(USER)], on a processor whose state is [e]: register 26 (k0) holds [block], the address of the
    running task's block, plus [USER]; through register 27 (k1) EPC, HI and LO go, in this order. *)
Definition restore_context (block : Z) (b : pcb_t) (e : context) : context :=
  let u := user_regs_context b in
  let k0 := u32 (block + USER) in
  let k1 := lo u in
  Ctx (take 1 (x_regs e) ++ take 25 (drop 1 (regs u)) ++ [k0; k1] ++ take 4 (drop 28 (regs u)))
    (x_status e) (x_cause e) (cp0_epc u) (x_badvaddr e) (hi u) (lo u).

Definition panic_asm (number : Z) : M ctl := if number =? 0 then panic "Unknown exception." else panic "Error in asm.".

Definition exception_handler (random int1_sr : Z) (e : context) : Sys D ctl :=
  on_kernel (upd_current (save_context e));;
  on_screen (screen_reflush (bf o) (buff o));;
  let code := Z.shiftr (Z.land (x_cause e) 0x7c) 2 in
  if code =? 0 then interrupt_helper int1_sr [KHandlerReturn; KExceptionExit]
  else if code =? 8 then system_call_helper [KHandlerReturn; KExceptionExit]
  else if (code =? 2) || (code =? 3) then on_kernel (TLB_exception_helper random 0 [KExceptionExit])
  else on_kernel (panic_asm 0).

Definition TLB_refill_handler (random : Z) (e : context) : Sys D ctl :=
  on_kernel (upd_current (save_context e));;
  on_kernel (TLB_exception_helper random 1 [KExceptionExit]).

(** The stack pointer with which the handlers start, from the kernel context of the running task *)
Definition kernel_stack : Sys D Z := on_kernel (c ← get current_running; b ← pcb_at c; mret (kernel_sp b)).

(** The processor's state behind [eret], when the running task goes on. [sp] is the stack pointer with
    which the handler gets here: it is where the task's next exception will start its stack. *)
Definition exception_handler_exit (sp : Z) (e : context) : Sys D context :=
  on_kernel (upd_current (set_kernel_sp sp));;
  on_kernel (c ← get current_running; b ← pcb_at c; mret (restore_context (pcb_addr o c) b e)).

(** ** [init/main.c] *)

(** [while(position < finish) *(destination++) = *(position++);] *)
Fixpoint copy_code (fuel : nat) (position finish destination : Z) (t : gmap Z Z) : result (gmap Z Z) :=
  if position <? finish then
    match fuel with
    | O => OutOfFuel
    | Datatypes.S fuel =>
        match t !! position with
        | Some v => copy_code fuel (u32 (position + 4)) finish (u32 (destination + 4)) (<[destination := v]> t)
        | None => Fault
        end
    end
  else Ok t.

Definition on_text (f : gmap Z Z -> result (gmap Z Z)) : Sys D unit :=
  on text set_text (fun t => match f t with Ok t => Ok (tt, t) | Fault => Fault | Panic msg => Panic msg | OutOfFuel => OutOfFuel end).

(** [set_timer] programs the coprocessor; it has no counterpart in the state. *)
Definition init_exception : Sys D unit :=
  let b := exception_handler_begin o in let e := exception_handler_end o in
  on_text (copy_code (Z.to_nat (e - b)) b e 0x80000180);;
  let b := TLB_refill_handler_begin o in let e := TLB_refill_handler_end o in
  on_text (copy_code (Z.to_nat (e - b)) b e 0x80000000).

Definition OUTSIDE_CALL_BASE : Z := 0xa0fde000.

Definition init_outside_call : Sys D unit :=
  on_text (fun t => Ok (<[OUTSIDE_CALL_BASE + 8 := sys_exit_addr o]> (<[OUTSIDE_CALL_BASE + 4 := printf_addr o]>
    (<[OUTSIDE_CALL_BASE := sys_move_cursor_addr o]> t)))).

(** Up to [enable_interrupt_public] and the endless loop. [printstr] is the firmware function behind
    [port_write]; [asm_start] and [init_syscall] have nothing to do in this state. *)
Definition _start : Sys D unit :=
  on_screen (port_write (str "Hello, OS!" ++ [10; 0]));;
  on_screen (Screen.printk (bf o) (buff o) (str "> [INIT] Asm_start succeeded." ++ [10; 0]) []);;
  init_exception;;
  on_screen (Screen.printk (bf o) (buff o) (str "> [INIT] Interrupt processing initialization succeeded." ++ [10; 0]) []);;
  on_screen (Screen.printk (bf o) (buff o) (str "> [INIT] System call initialization successfully." ++ [10; 0]) []);;
  on_kernel init_memory;;
  on_screen (Screen.printk (bf o) (buff o) (str "> [INIT] Virtual memory initialization succeeded." ++ [10; 0]) []);;
  on_screen (init_screen (bf o) (buff o));;
  on_screen (vt100_set_color (bf o) (buff o) 36);;
  on_kernel (init_task (info_shell o) (info_io_proc o));;
  on_screen (printks (bf o) (buff o) (str "> [INIT] Init task succeeded." ++ [10; 0]) []);;
  init_outside_call;;
  on_screen (printks (bf o) (buff o) (str "> [INIT] Init outside call succeeded." ++ [10; 0]) []);;
  on_kernel init_mutex_locks;;
  on_files (init_file_system (sb o) (inode o) (dir o));;
  on_screen (screen_clear (bf o) (buff o) 0 (SCREEN_HEIGHT - 1)).

End code.
