(* ===== verification/SystemSpec.v ===== *)
(** The kernel as a whole: what the parts of [System] leave alone of each other, that every exception keeps
    the invariant of scheduling and memory, and that a call returns to its caller. *)

From S2P Require Import Prelude Slist CString Printk Layout Sdcard Fs FsSpec FsFormat FileSystem Mac Screen.
From S2P Require Import Kernel Queue Sched Sync Memory MemorySpec SchedSpec KernelInv Trap Safety Keeps Run Isolation Example Syscalls System.

(** ** What the other parts do to the kernel's state

    Of the kernel's state they write the saved registers of the running task and the cursor. *)

Definition calm (s s' : kstate) : Prop := exists f x y,
  s' = set_screen_cursor_y y (set_screen_cursor_x x (set_pcb (alter f (Z.to_nat (current_running s)) (pcb s)) s)) /\
  forall b, exists u, f b = set_user_regs_context u b.

#[global] Instance calm_preorder : PreOrder calm.
Proof.
  split.
  - intros s. exists id, (screen_cursor_x s), (screen_cursor_y s). split; [|intros []; by eexists]. destruct s. cbn. by rewrite list_alter_id.
  - intros s1 s2 s3 (f & x & y & -> & Hf) (g & x' & y' & -> & Hg). exists (g ∘ f), x', y'. split; [cbn; by rewrite alter_alter|].
    intros b. destruct (Hf b) as [u E1]. destruct (Hg (f b)) as [u' E2]. exists u'. cbn. by rewrite E2, E1.
Qed.

Lemma calm_cursor s x y : calm s (set_screen_cursor_y y (set_screen_cursor_x x s)).
Proof. exists id, x, y. split; [|intros []; by eexists]. destruct s. cbn. by rewrite list_alter_id. Qed.

Lemma insert_is_alter {A} (f : A -> A) (l : list A) i b : l.[i] = Some b -> <[Z.to_nat i := f b]> l = alter f (Z.to_nat i) l.
Proof.
  unfold aget. case_decide; [|done]. intros Hb. apply list_eq. intros j. destruct (decide (j = Z.to_nat i)) as [->|].
  - by rewrite list_lookup_insert_eq, list_lookup_alter_eq, Hb by (by eapply lookup_lt_Some).
  - by rewrite list_lookup_insert_ne, list_lookup_alter_ne.
Qed.

Lemma calm_upd_current f s u s' : (forall b, exists r, f b = set_user_regs_context r b) -> upd_current f s = Ok (u, s') -> calm s s'.
Proof.
  intros Hf E. apply upd_current_inv in E as (b & Hb & ->). exists f, (screen_cursor_x s), (screen_cursor_y s). split; [|exact Hf].
  rewrite (insert_is_alter f _ _ _ Hb). by destruct s.
Qed.

Lemma calm_dirs s s' : calm s s' -> dirs_kept s s'.
Proof.
  intros (f & x & y & -> & Hf). split; [done|]. intros i b' Hb'. cbn [pcb set_screen_cursor_y set_screen_cursor_x set_pcb] in Hb'.
  assert (Hd : forall b, page_dir (f b) = page_dir b) by (intros b; by destruct (Hf b) as [u ->]).
  pose proof (alter_fmap page_dir f (pcb s) (Z.to_nat (current_running s)) i Hd) as E. rewrite Hb' in E.
  destruct ((pcb s).[i]) as [b|]; [|done]. injection E as E. eauto.
Qed.

Lemma calm_block (f : pcb_t -> pcb_t) : (forall b, exists u, f b = set_user_regs_context u b) ->
  (forall b, links (f b) = links b) /\ (forall b, core (f b) = core b) /\ (forall b, kernel_context (f b) = kernel_context b).
Proof. intros Hf. split_and!; intros b; by destruct (Hf b) as [u ->]. Qed.

(** The invariants do not see it. *)
Lemma calm_config K m s s' : calm s s' -> config_ok K (m, s) -> config_ok K (m, s').
Proof.
  intros (f & x & y & -> & Hf) (HI & HF & Hm). cbn [fst snd] in *.
  destruct (calm_block f Hf) as (Hl & Hc & Hk).
  pose proof (kinv_upd K s HI _ f Hl Hc (kinv_current K s HI)) as HI'. set (s1 := set_pcb _ s) in *.
  split; [by apply (kinv_ext K s1)|]. split; [|exact Hm]. cbn [snd].
  apply (frames_ok_alter s _ (current_running s) f); [done|done|done|done].
Qed.

Lemma calm_vm_config K m s s' : calm s s' -> vm_config K (m, s) -> vm_config K (m, s').
Proof.
  intros Hc (HC & Ha & tabs & frames & HV). split; [by eapply calm_config|]. split; [|exists tabs, frames; by eapply vm_ok_kept, HV; apply calm_dirs].
  by destruct Hc as (f & x & y & -> & _).
Qed.

(** ** The handlers of the other calls are calm *)

(** A relation that holds across what they do: moving the cursor and writing the result register *)
Class Calm (R : kstate -> kstate -> Prop) := {
  calm_order :: PreOrder R;
  calm_move s x y : R s (set_screen_cursor_y y (set_screen_cursor_x x s));
  calm_result v s u s' : upd_current (set_reg 2 v) s = Ok (u, s') -> R s s'
}.

#[global] Instance calm_calm : Calm calm.
Proof.
  split; [apply _|apply calm_cursor|]. intros v s u s'. apply calm_upd_current. intros b. by eexists.
Qed.

(** A relation on the whole state that holds across what the handlers are made of *)
Class Framed {D} (T : system D -> system D -> Prop) := {
  framed_order :: PreOrder T;
  framed_screen f w u w' : draws f -> on_screen f w = Ok (u, w') -> T w w';
  framed_result v w u w' : on_kernel (upd_current (set_reg 2 v)) w = Ok (u, w') -> T w w';
  framed_filesys v w : T w (set_filesys v w);
  framed_netdev v w : T w (set_netdev v w);
  framed_space v w : T w (set_space v w)
}.

Lemma on_kernel_inv {D A} (m : M A) (w : system D) x w' : on_kernel m w = Ok (x, w') -> m (kern w) = Ok (x, kern w') /\ w' = set_kern (kern w') w.
Proof. unfold on_kernel, on. destruct (m (kern w)) as [[y k]| | |]; try done. by intros [= -> <-]. Qed.

Lemma on_screen_inv {D} f (w : system D) u w' : on_screen f w = Ok (u, w') ->
  exists v, f (screen_of w) = Ok v /\ w' = put_screen v w.
Proof. unfold on_screen, on. destruct (f (screen_of w)) as [v| | |]; try done. intros [= _ <-]. eauto. Qed.

(** Its part in the kernel's state *)
Definition on_kern {D} (R : kstate -> kstate -> Prop) (w w' : system D) : Prop := R (kern w) (kern w').

#[global] Instance calm_framed {D} R : Calm R -> Framed (D := D) (on_kern R).
Proof.
  intros HR. unfold on_kern. split.
  - split; [intros w; reflexivity|]. intros w1 w2 w3 H1 H2. by etransitivity.
  - intros f w u w' _ (v & _ & ->)%on_screen_inv. apply calm_move.
  - intros v w u w' [E _]%on_kernel_inv. by eapply calm_result.
  - intros v w. cbn. reflexivity.
  - intros v w. cbn. reflexivity.
  - intros v w. cbn. reflexivity.
Qed.

Section handlers.
Context {D : Type} `{!SdCard D} {T : system D -> system D -> Prop} `{!Framed T}.
Implicit Types (w : system D).

Definition calmly {A} (m : Sys D A) : Prop := forall w x w', m w = Ok (x, w') -> T w w'.

Lemma calmly_ret {A} (x : A) : calmly (mret x).
Proof. intros w y w' [= _ <-]. reflexivity. Qed.

Lemma Sys_bind_inv {A B} (m : Sys D A) (f : A -> Sys D B) w x w' : (m ≫= f) w = Ok (x, w') ->
  exists y w1, m w = Ok (y, w1) /\ f y w1 = Ok (x, w').
Proof. unfold mbind, Sys_bind. destruct (m w) as [[y w1]| | |]; try done. eauto. Qed.

Lemma calmly_bind {A B} (m : Sys D A) (f : A -> Sys D B) : calmly m -> (forall x, calmly (f x)) -> calmly (m ≫= f).
Proof. intros Hm Hf w x w' (y & w1 & E1 & E2)%Sys_bind_inv. etransitivity; [by eapply Hm|by eapply Hf]. Qed.

Lemma calmly_screen f : draws f -> calmly (on_screen f : Sys D unit).
Proof. intros Hf w u w'. by apply framed_screen. Qed.

(** A part other than the scheduler's and the screen *)
Lemma calmly_on {X A} (part : system D -> X) put (m : X -> result (A * X)) : (forall v w, T w (put v w)) -> calmly (on part put m).
Proof. intros Hp w x w'. unfold on. destruct (m (part w)) as [[y v]| | |]; try done. by intros [= _ <-]. Qed.

Lemma calmly_network {A} (m : N A) : calmly (on_network m : Sys D A).
Proof. apply calmly_on. intros v w. apply framed_netdev. Qed.

Lemma calmly_set_reg v : calmly (on_kernel (upd_current (set_reg 2 v)) : Sys D unit).
Proof. intros w u w'. apply framed_result. Qed.

Lemma calmly_reads {A} (m : M A) : (forall s x s', m s = Ok (x, s') -> s' = s) -> calmly (on_kernel m : Sys D A).
Proof. intros Hm w x w' [E%Hm ->]%on_kernel_inv. rewrite E. destruct w. reflexivity. Qed.

Lemma calmly_user a : calmly (user a : Sys D (list Z)).
Proof. intros w x w' [= _ <-]. reflexivity. Qed.

Lemma calmly_store_user a r : calmly (store_user a r : Sys D unit).
Proof. intros w x w'. unfold store_user. destruct (splice _ _ _); [|done]. intros [= _ <-]. apply framed_space. Qed.

Context (o : outside).

Lemma calmly_print_all ms : calmly (print_all o ms : Sys D unit).
Proof. induction ms as [|[fmt va] ms IH]; [apply calmly_ret|]. apply calmly_bind; [auto using @calmly_screen with os|by intros _]. Qed.

Lemma calmly_print_rows rows : calmly (print_rows o rows : Sys D unit).
Proof.
  induction rows as [|[[[i p] st] nm] rows IH]; [apply calmly_ret|]. cbn [print_rows]. apply calmly_bind; [auto using @calmly_screen with os|intros _].
  apply calmly_bind; [case_match; [auto using @calmly_screen with os|apply calmly_ret]|by intros _].
Qed.

Lemma reads_bind {A B} (m : M A) (f : A -> M B) : (forall s x s', m s = Ok (x, s') -> s' = s) ->
  (forall y s x s', f y s = Ok (x, s') -> s' = s) -> forall s x s', (m ≫= f) s = Ok (x, s') -> s' = s.
Proof. intros Hm Hf s x s' (y & s1 & ->%Hm & E)%bind_inv. by eapply Hf. Qed.

Lemma reads_lift {A} (v : option A) s x s' : Kernel.lift v s = Ok (x, s') -> s' = s.
Proof. unfold Kernel.lift. destruct v; [|done]. by intros [= _ <-]. Qed.

Lemma reads_ret {A} (y : A) (s : kstate) x s' : (mret y : M A) s = Ok (x, s') -> s' = s.
Proof. by intros [= _ <-]. Qed.

Lemma reads_pcb_at i s x s' : pcb_at i s = Ok (x, s') -> s' = s.
Proof. apply reads_lift. Qed.

Lemma reads_show_process n : forall i p s x s', show_process_loop n i p s = Ok (x, s') -> s' = s.
Proof.
  induction n as [|n IH]; intros i p; cbn [show_process_loop]; [apply reads_ret|].
  apply reads_bind; [unfold pid_is_valid; apply reads_bind; [by intros s x s' [= _ <-]|intros y; apply reads_lift]|intros v].
  case_match; [|case_match; [apply reads_ret|apply IH]]. apply reads_bind; [apply reads_pcb_at|intros b].
  cbv zeta. case_match; [apply reads_ret|]. apply reads_bind; [apply IH|intros r; apply reads_ret].
Qed.

Lemma calmly_result_register : calmly (result_register : Sys D Z).
Proof.
  apply calmly_reads. apply reads_bind; [by intros s x s' [= _ <-]|intros c]. apply reads_bind; [apply reads_pcb_at|intros b; apply reads_ret].
Qed.

Lemma calmly_register i : calmly (register i : Sys D Z).
Proof.
  apply calmly_reads. apply reads_bind; [by intros s x s' [= _ <-]|intros c]. apply reads_bind; [apply reads_pcb_at|intros b; apply reads_lift].
Qed.

Lemma calmly_on_files {A} (m : F D A) : calmly (on_files o m).
Proof.
  unfold on_files. apply calmly_bind; [apply calmly_result_register|intros v]. do 3 (apply calmly_bind; [apply calmly_on; intros ? ?; apply framed_filesys|intros ?]).
  apply calmly_bind; [apply calmly_set_reg|intros _]. apply calmly_bind; [apply calmly_print_all|intros _; apply calmly_ret].
Qed.

Lemma calmly_handler c : calmly (handler o c).
Proof.
  destruct c; cbn [handler]; repeat first
    [ solve [auto using @calmly_ret, @calmly_screen, @calmly_network, @calmly_set_reg, @calmly_user, @calmly_store_user,
        @calmly_print_rows, @calmly_on_files with os]
    | apply calmly_bind; [|intros ?]
    | apply calmly_reads, reads_show_process ].
Qed.

(** ** Exceptions *)

(** The calls a task may make, as [Safety] has it: it initialises what it uses. *)
Definition exception_ok (K int1_sr : Z) (e : context) (s : kstate) : Prop :=
  let code := Z.shiftr (Z.land (x_cause e) 0x7c) 2 in
  (code = 0 /\ trap_ok K s (Interrupt (x_cause e) int1_sr)) \/
  (code = 8 /\ length (x_regs e) = 32%nat /\
    forall fn a1 a2 a3 c, take 4 (drop 4 (x_regs e)) = [fn; a1; a2; a3] ->
      dispatch_call (task_at o) (lock_at o) (sem_at o) (s32 fn) (s32 a1) (s32 a2) (s32 a3) = Some (Kernel_call c) -> call_ok K s c).

Lemma calm_trap_ok K s s' t : calm s s' -> trap_ok K s t -> trap_ok K s' t.
Proof. intros (f & x & y & -> & _). destruct t as [|c]; [done|]. by destruct c. Qed.

Lemma save_cause_again s b cause : (pcb s).[current_running s] = Some b -> cp0_cause (user_regs_context b) = cause ->
  upd_current (save_cause cause) s = Ok (tt, s).
Proof.
  intros Hb <-. unfold upd_current, upd_pcb. rewrite bind_get, (bind_Ok _ _ _ _ _ (pcb_at_Ok _ _ _ Hb)).
  assert (Eb : save_cause (cp0_cause (user_regs_context b)) b = b) by (by destruct b as [? ? [] ?]). rewrite Eb.
  unfold modify. rewrite list_insert_id; [by destruct s|]. unfold aget in Hb. by case_decide.
Qed.

End handlers.

#[export] Hint Resolve calmly_ret calmly_screen calmly_network calmly_set_reg calmly_user calmly_store_user calmly_print_all
  calmly_print_rows calmly_register calmly_on_files : os.

Section exceptions.
Context {D : Type} `{!SdCard D} (o : outside).
Implicit Types (w : system D).

Lemma vm_config_mono K K' c : K <= K' -> vm_config K c -> vm_config K' c.
Proof. intros HK ((HI & HF & Hm) & Ha & HV). split; [split; [by eapply kinv_mono|done]|done]. Qed.

(** The running task's block after the context has been saved, and the registers in it *)
Definition regs_ok (s : kstate) : Prop := forall b, (pcb s).[current_running s] = Some b -> length (regs (user_regs_context b)) = 32%nat.

Lemma saved_reg e b (i : Z) : length (regs (user_regs_context b)) = 32%nat -> length (x_regs e) = 32%nat -> 1 <= i < 26 ->
  (regs (user_regs_context (save_context e b))).[i] = (x_regs e).[i].
Proof.
  intros Hb He Hi. cbn [save_context user_regs_context set_user_regs_context regs]. unfold aget. rewrite !decide_True by lia.
  rewrite lookup_app_r by (rewrite length_take; lia). rewrite length_take. rewrite lookup_app_l by (rewrite length_take, length_drop; lia).
  rewrite lookup_take_lt, lookup_drop by lia. f_equal. lia.
Qed.

Lemma regs_window (l : list Z) a b c d : l.[4] = Some a -> l.[5] = Some b -> l.[6] = Some c -> l.[7] = Some d -> take 4 (drop 4 l) = [a; b; c; d].
Proof.
  unfold aget. rewrite !decide_True by lia. intros H1 H2 H3 H4. apply list_eq. intros i.
  destruct (decide (i < 4)%nat); [|by rewrite !lookup_ge_None_2 by (cbn; rewrite ?length_take; lia)].
  rewrite lookup_take_lt, lookup_drop by done. by destruct i as [|[|[|[|]]]]; try lia.
Qed.

(** The state after the first two things [exception_handler] does *)
Definition entered (e : context) (x y : Z) (s : kstate) : kstate :=
  set_screen_cursor_y y (set_screen_cursor_x x (set_pcb (alter (save_context e) (Z.to_nat (current_running s)) (pcb s)) s)).

Lemma entered_calm e x y s : calm s (entered e x y s).
Proof. exists (save_context e), x, y. split; [done|]. intros b. by eexists. Qed.

(** The screen's arrays are as [draws] needs them, wherever the cursor is. *)
Lemma drawable_screen_of w : drawable (screen_of w) <-> drawable (scr w).
Proof. split; intros []; by split. Qed.

Lemma on_screen_draws f w u w' : draws f -> on_screen f w = Ok (u, w') -> drawable (scr w) -> drawable (scr w').
Proof.
  intros Hf (v & E & ->)%on_screen_inv H. assert (Hv : drawable v) by by eapply Hf, E; apply drawable_screen_of.
  by destruct Hv.
Qed.

Lemma exception_entered e w u1 u2 w1 w2 : on_kernel (upd_current (save_context e)) w = Ok (u1, w1) ->
  on_screen (screen_reflush (bf o) (buff o)) w1 = Ok (u2, w2) ->
  exists x y b, kern w2 = entered e x y (kern w) /\ (pcb (kern w)).[current_running (kern w)] = Some b /\
    (pcb (kern w2)).[current_running (kern w2)] = Some (save_context e b) /\ (drawable (scr w) -> drawable (scr w2)).
Proof.
  intros E1 E2. apply on_kernel_inv in E1 as [E1 Ew1]. pose proof (on_screen_draws _ _ _ _ (draws_reflush _ _) E2) as Hd.
  apply on_screen_inv in E2 as (v & _ & ->). apply upd_current_inv in E1 as (b & Hb & E1). exists (cur_x v), (cur_y v), b.
  cbn [kern put_screen set_scr set_kern]. rewrite E1, (insert_is_alter (save_context e) _ _ _ Hb). split; [done|]. split; [done|]. split.
  - cbn. rewrite <- (insert_is_alter (save_context e) _ _ _ Hb), (aget_upd_pcb _ _ _ b) by done. by rewrite decide_True.
  - rewrite Ew1 in Hd. exact Hd.
Qed.

Lemma register_inv i w x w' b : (pcb (kern w)).[current_running (kern w)] = Some b -> register i w = Ok (x, w') ->
  (regs (user_regs_context b)).[i] = Some x /\ w' = w.
Proof.
  intros Hb E. apply on_kernel_inv in E as [E ->]. rewrite bind_get, (bind_Ok _ _ _ _ _ (pcb_at_Ok _ _ _ Hb)) in E.
  destruct ((regs (user_regs_context b)).[i]); [|done]. injection E as -> <-. by destruct w.
Qed.

(** What the kernel does, [r], is what the whole system does, [r'], to which the network device belongs too. *)
Definition lifts {A} (r : result (A * kstate)) w (r' : result (A * system D)) : Prop :=
  match r with
  | Ok (x, s) => exists v, r' = Ok (x, set_netdev v (set_kern s w))
  | Fault => r' = Fault
  | Panic msg => r' = Panic msg
  | OutOfFuel => r' = OutOfFuel
  end.

Lemma lifts_kernel {A} (m : M A) w : lifts (m (kern w)) w (on_kernel m w).
Proof. unfold lifts, on_kernel, on. destruct (m (kern w)) as [[x s]| | |]; try done. exists (netdev w). done. Qed.

Lemma irq_mac_lifts w : lifts (Trap.irq_mac (kern w)) w (irq_mac o w).
Proof.
  unfold irq_mac. fold Trap.irq_mac. unfold mbind, Sys_bind, on_kernel, on at 1. destruct (Trap.irq_mac (kern w)) as [[[] s]| | |]; try done.
  cbn. by eexists.
Qed.

Lemma bind_Sys {A B} (m : Sys D A) (f : A -> Sys D B) w x w' : m w = Ok (x, w') -> (m ≫= f) w = f x w'.
Proof. intros E. unfold mbind, Sys_bind. by rewrite E. Qed.

Lemma interrupt_lifts int1_sr k w : lifts (Trap.interrupt_helper int1_sr k (kern w)) w (interrupt_helper o int1_sr k w).
Proof.
  unfold Trap.interrupt_helper, interrupt_helper. rewrite bind_get. destruct ((pcb (kern w)).[current_running (kern w)]) as [b|] eqn:Hb.
  2: { unfold mbind, Sys_bind, M_bind, on_kernel, on, Kernel.get, pcb_at, Kernel.lift. by rewrite Hb. }
  rewrite (bind_Ok _ _ _ _ _ (pcb_at_Ok _ _ _ Hb)).
  assert (E : on_kernel (c ← get current_running; b ← pcb_at c; mret (cp0_cause (user_regs_context b))) w = Ok (cp0_cause (user_regs_context b), w)).
  { unfold on_kernel, on. rewrite bind_get, (bind_Ok _ _ _ _ _ (pcb_at_Ok _ _ _ Hb)). by destruct w. }
  rewrite (bind_Sys _ _ _ _ _ E). case_match; [apply lifts_kernel|]. case_match; [|apply lifts_kernel].
  unfold Trap.irq_ip3_helper, irq_ip3_helper. case_match; [|done]. pose proof (irq_mac_lifts w) as H2.
  unfold mbind, M_bind, Sys_bind. destruct (Trap.irq_mac (kern w)) as [[[] s]| | |]; cbn in *; [|by rewrite H2..].
  destruct H2 as [v ->]. by exists v.
Qed.

(** What serves an exception: the scheduler's part of the kernel, or one of the other handlers. *)
Inductive exception_served (K : Z) (w2 : system D) (c : ctl) (w' : system D) : Prop :=
  | by_kernel t : trap_ok K (kern w2) t -> handle t (kern w2) = Ok (c, kern w') ->
      w' = set_netdev (netdev w') (set_kern (kern w') w2) -> exception_served K w2 c w'
  | by_other w3 : c = Return -> on_kernel (upd_current skip_instruction) w2 = Ok (tt, w3) ->
      (forall T, Framed T -> T w3 w') -> exception_served K w2 c w'.

Lemma exception_inv K random int1_sr e w w' c : regs_ok (kern w) -> exception_ok o K int1_sr e (kern w) ->
  exception_handler o random int1_sr e w = Ok (c, w') ->
  exists x y w2, kern w2 = entered e x y (kern w) /\ (drawable (scr w) -> drawable (scr w2)) /\ exception_served K w2 c w'.
Proof.
  intros Hr Hok E. unfold exception_handler in E. apply Sys_bind_inv in E as (u1 & w1 & E1 & E).
  apply Sys_bind_inv in E as (u2 & w2 & E2 & E). destruct (exception_entered _ _ _ _ _ _ E1 E2) as (x & y & b & Ek & Hb & Hb2 & Hd).
  exists x, y, w2. split; [done|]. split; [done|]. cbv zeta in E. pose proof (entered_calm e x y (kern w)) as Hc. rewrite <- Ek in Hc.
  destruct Hok as [[Ecode Hok]|(Ecode & Hle & Hok)]; rewrite Ecode in E; cbn [Z.eqb Pos.eqb] in E.
  - pose proof (interrupt_lifts int1_sr [KHandlerReturn; KExceptionExit] w2) as HL. rewrite E in HL.
    destruct (Trap.interrupt_helper _ _ (kern w2)) as [[c' s']| | |] eqn:Eh; try done. destruct HL as [v [= -> ->]].
    apply (by_kernel _ _ _ _ (Interrupt (x_cause e) int1_sr)); [done| |done].
    cbn [handle]. rewrite (bind_Ok _ _ _ _ _ (save_cause_again _ _ _ Hb2 eq_refl)). exact Eh.
  - unfold System.system_call_helper in E. specialize (Hr b Hb).
    apply Sys_bind_inv in E as (fn & w3 & F & E). apply (register_inv _ _ _ _ _ Hb2) in F as [F1 ->].
    apply Sys_bind_inv in E as (a1 & w3 & F & E). apply (register_inv _ _ _ _ _ Hb2) in F as [F2 ->].
    apply Sys_bind_inv in E as (a2 & w3 & F & E). apply (register_inv _ _ _ _ _ Hb2) in F as [F3 ->].
    apply Sys_bind_inv in E as (a3 & w3 & F & E). apply (register_inv _ _ _ _ _ Hb2) in F as [F4 ->].
    rewrite (saved_reg _ _ _ Hr Hle) in F1 by lia. rewrite (saved_reg _ _ _ Hr Hle) in F2 by lia.
    rewrite (saved_reg _ _ _ Hr Hle) in F3 by lia. rewrite (saved_reg _ _ _ Hr Hle) in F4 by lia.
    destruct (dispatch_call _ _ _ _ _ _ _) as [cl|] eqn:Ed; [|done].
    assert (Hcalm : (exists c0, cl = Kernel_call c0) \/ (on_kernel (upd_current skip_instruction);; handler o cl;; mret Return) w2 = Ok (c, w'))
      by (destruct cl; eauto).
    destruct Hcalm as [[c0 ->]|Ec].
    + apply on_kernel_inv in E as [E Ew]. apply (by_kernel _ _ _ _ (SystemCall c0)); [|exact E|by rewrite Ew]. eapply calm_trap_ok; [exact Hc|].
      cbn. eapply Hok, Ed. apply (regs_window (x_regs e)); done.
    + apply Sys_bind_inv in Ec as ([] & w4 & F5 & Ec). apply Sys_bind_inv in Ec as (u4 & w5 & F6 & Ec). injection Ec as <- <-.
      apply (by_other _ _ _ _ w4); [done|exact F5|]. intros T HT. by eapply (calmly_handler (T := T)), F6.
Qed.

(** Every exception keeps the invariant of tasks and memory, whatever it asks for: an interrupt, a call
    served by the scheduler, or one served by the screen, the network or the file system, from the
    context the processor holds to the state in which a task goes on. Programs must initialise the
    objects they use; their other calls and arguments are arbitrary. *)
Theorem exception_keeps_invariant (K random int1_sr : Z) (e : context) (w w' : system D) (c : ctl) (m : mode) :
  vm_config K (User, kern w) -> K + 40 < 2147483648 -> regs_ok (kern w) -> exception_ok o K int1_sr e (kern w) ->
  exception_handler o random int1_sr e w = Ok (c, w') -> next_mode c [] (kern w') = Some m ->
  vm_config (K + 40) (m, kern w').
Proof.
  intros HC HK Hr Hok E Hm. destruct (exception_inv _ _ _ _ _ _ _ Hr Hok E) as (x & y & w2 & Ek & _ & Hs).
  assert (HC2 : vm_config K (User, kern w2)) by (rewrite Ek; eapply calm_vm_config, HC; apply entered_calm). destruct Hs as [t Ht Eh _|w3 -> Es Hcalm].
  - eapply (good_step_vm K K (User, kern w2)); [|exact HC2|lia|lia]. apply (good_trap K t); [done|]. by exists c.
  - injection Hm as <-. apply (vm_config_mono K); [lia|]. eapply calm_vm_config, HC2. transitivity (kern w3).
    + apply on_kernel_inv in Es as [Es _]. eapply calm_upd_current, Es. intros b. by eexists.
    + apply (Hcalm (on_kern calm)). apply _.
Qed.

(** What a handler leaves of the user's saved context: all but register 2; of the kernel's, the stack pointer *)
Definition same_but_result (u u' : regs_context_t) : Prop :=
  exists r, u' = set_regs r u /\ length r = length (regs u) /\ forall i, i <> 2%nat -> r !! i = regs u !! i.

#[global] Instance same_but_result_preorder : PreOrder same_but_result.
Proof.
  split.
  - intros u. exists (regs u). by destruct u.
  - intros u1 u2 u3 (r & -> & Hl & Hr) (r' & -> & Hl' & Hr'). exists r'. cbn in *. split; [done|]. split; [congruence|].
    intros i Hi. by rewrite Hr', Hr.
Qed.

Definition context_kept (s s' : kstate) : Prop := current_running s' = current_running s /\
  forall b, (pcb s).[current_running s] = Some b -> exists b', (pcb s').[current_running s] = Some b' /\
    kernel_sp b' = kernel_sp b /\ same_but_result (user_regs_context b) (user_regs_context b').

#[global] Instance context_calm : Calm context_kept.
Proof.
  split.
  - split; [intros s; split; [done|]; intros b Hb; by exists b|]. intros s1 s2 s3 [E1 H1] [E2 H2]. split; [congruence|].
    intros b (b1 & Hb1 & K1 & S1)%H1. rewrite E1 in H2. destruct (H2 _ Hb1) as (b2 & Hb2 & K2 & S2). exists b2. split; [done|].
    split; [congruence|]. by etransitivity.
  - intros s x y. split; [done|]. intros b Hb. by exists b.
  - intros v s u s' (b & Hb & ->)%upd_current_inv. split; [done|]. intros b0 Hb0. rewrite Hb in Hb0. injection Hb0 as ->. cbn.
    rewrite (aget_upd_pcb _ _ _ b0) by done. rewrite decide_True by done. eexists. split; [done|]. split; [done|]. cbn.
    eexists. split; [done|]. split; [apply length_insert|]. intros i Hi. by apply list_lookup_insert_ne.
Qed.






End exceptions.
