(* ===== verification/Start.v ===== *)
(** The start of the machine: [_start] of [init/main.c], from zeroed memory to the loop of [main], through all
    the parts it sets up: the vectors, the memory tables, the screen, the first two tasks, the locks
    and the file system.

    The proof is a walk over the code with [wp], the weakest precondition of a total computation. *)

From S2P Require Import Prelude Slist CString Printk Layout Sdcard Fs FsSpec FsFormat FileSystem Mac Screen Kernel Queue Sched Sync.
From S2P Require Import Memory MemorySpec SchedSpec KernelInv Trap Safety Keeps Run Isolation Syscalls System SystemSpec.

#[local] Existing Instance result_bind.

(** ** Weakest preconditions *)

Section wp.
Context {D : Type} `{!SdCard D}.
Implicit Types (w : system D).

Definition wp {A} (m : Sys D A) (Q : A -> system D -> Prop) w : Prop :=
  match m w with Ok (x, w') => Q x w' | _ => False end.

Lemma wp_Ok {A} (m : Sys D A) Q w : wp m Q w <-> exists x w', m w = Ok (x, w') /\ Q x w'.
Proof. unfold wp. split; [|by intros (x & w' & -> & H)]. destruct (m w) as [[x w']| | |]; try done. eauto. Qed.

Lemma wp_bind {A B} (m : Sys D A) (f : A -> Sys D B) Q w : wp m (fun x => wp (f x) Q) w -> wp (m ≫= f) Q w.
Proof. unfold wp, mbind, Sys_bind. by destruct (m w) as [[x w']| | |]. Qed.

Lemma wp_mono {A} (m : Sys D A) (Q Q' : A -> system D -> Prop) w : wp m Q w -> (forall x w', Q x w' -> Q' x w') -> wp m Q' w.
Proof. unfold wp. destruct (m w) as [[x w']| | |]; auto. Qed.

Lemma wp_kernel {A} (m : M A) (Q : A -> system D -> Prop) w x s : m (kern w) = Ok (x, s) -> Q x (set_kern s w) -> wp (on_kernel m) Q w.
Proof. unfold wp, on_kernel, on. by intros ->. Qed.

Lemma wp_text f (Q : unit -> system D -> Prop) w t : f (text w) = Ok t -> Q tt (set_text t w) -> wp (on_text f) Q w.
Proof. unfold wp, on_text, on. by intros ->. Qed.
End wp.

(** ** The screen *)

(** The buffers have their size, and the cursor is on the screen. *)
Record usable (v : screen) : Prop := {
  us_new : length (new_screen v) = 2100%nat;
  us_old : length (old_screen v) = 2100%nat;
  us_bytes : bytes_ok (new_screen v);
  us_x : 0 <= cur_x v < 75;
  us_y : 0 <= cur_y v < 27
}.

Lemma usable_shows v : usable v -> exists t, shows_text v t.
Proof.
  intros [Hn Ho Hb Hx Hy]. exists (Text (Z.to_nat (cur_x v)) (Z.to_nat (cur_y v)) ((fun i => take 75 (drop (i * 75) (new_screen v))) <$> seq 0 28)).
  split; cbn [tx ty lines]; [lia..|done|done|]. intros i j Hi Hj. rewrite list_lookup_fmap, lookup_seq_lt by done. cbn.
  by rewrite lookup_take_lt, lookup_drop.
Qed.

Lemma shows_usable v t : shows_text v t -> length (old_screen v) = 2100%nat -> usable v.
Proof. intros [[Ex ?] [Ey ?] ? ? ?] ?. split; (done || lia). Qed.

(** The text a format and its arguments stand for *)
Definition message_ok (fmt : list Z) (va : list parg) : Prop :=
  bytes_ok fmt /\ Forall parg_ok va /\ exists out, Printk.formatted fmt va = Some out /\ bytes_ok out /\ 0 ∉ out.

(** Whether it is, for messages without strings among the arguments *)
Definition message_check (fmt : list Z) (va : list parg) : bool :=
  let bytes := forallb (fun c => (0 <=? c) && (c <? 256)) in
  match Printk.formatted fmt va with Some out => bytes fmt && bytes out && forallb (fun c => negb (c =? 0)) out | None => false end.

Lemma message_check_ok fmt va : message_check fmt va = true -> Forall parg_ok va -> message_ok fmt va.
Proof.
  unfold message_check. destruct (Printk.formatted fmt va) as [out|] eqn:E; [|done]. intros [[H1 H2]%andb_prop H3]%andb_prop Hva.
  assert (Hb : forall x, forallb (fun c => (0 <=? c) && (c <? 256)) x = true -> bytes_ok x).
  { intros x Hx. apply Forall_forall. intros c Hc%list_elem_of_In. rewrite forallb_forall in Hx. specialize (Hx c Hc). unfold is_u8. lia. }
  split; [auto|]. split; [done|]. exists out. split; [done|]. split; [auto|]. intros H0%list_elem_of_In.
  rewrite forallb_forall in H3. by specialize (H3 0 H0).
Qed.

(** A literal message *)
Ltac message := apply message_check_ok; [vm_compute; reflexivity|by repeat constructor].

Definition tame (f : screen -> result screen) : Prop := forall v, usable v -> exists v', f v = Ok v' /\ usable v'.

Lemma tame_bind (f g : screen -> result screen) : tame f -> tame g -> tame (fun v => v ← f v; g v).
Proof. intros Hf Hg v (v1 & -> & Hv)%Hf. by apply Hg. Qed.

Lemma usable_send v x : usable v -> usable (send x v).
Proof. intros []. by split. Qed.

Lemma tame_port_write buff : is_Some (cstr buff) -> tame (port_write buff).
Proof. intros [x Hx] v Hv. unfold port_write. rewrite Hx. eexists. split; [done|]. by apply usable_send. Qed.

Section tame.
Context (bf l : list Z) (Hbf : bf_ok bf) (Hl : (256 <= length l)%nat) (Hlb : bytes_ok l).

Lemma print_buff_message fmt va : message_ok fmt va -> exists buff x, print_buff bf l fmt va = Ok buff /\ bytes_ok buff /\ cstr buff = Some x.
Proof.
  intros (Hf & Hva & out & Ho & Hb & H0). eexists _, _. split; [by apply print_buff_spec|]. split.
  - apply Forall_app. split; [by apply Forall_take|]. apply Forall_cons. split; [done|by apply Forall_drop].
  - apply cstr_of. intros Hin. apply H0. by eapply elem_of_take in Hin as (i & Hi%list_elem_of_lookup_2 & _).
Qed.

Lemma tame_printk fmt va : message_ok fmt va -> tame (printk bf l fmt va).
Proof.
  intros H. destruct (print_buff_message fmt va H) as (b & x & E & _ & Hx). unfold printk. rewrite E. cbn [mbind result_bind].
  apply tame_port_write. eauto.
Qed.

Lemma tame_reflush : tame (screen_reflush bf l).
Proof. intros v [Hn Ho Hb Hx Hy]. rewrite screen_reflush_spec by done. eexists. split; [done|]. by split. Qed.

Lemma tame_printks fmt va : message_ok fmt va -> tame (printks bf l fmt va).
Proof.
  intros H. destruct (print_buff_message fmt va H) as (b & x & E & Hb & Hx). intros v Hv. unfold Screen.printks. rewrite E. cbn [mbind result_bind].
  destruct (usable_shows v Hv) as [t Ht]. destruct (screen_write_spec v t b x Ht Hb Hx) as (v1 & -> & H1 & Eo & _). cbn [mbind result_bind].
  apply tame_reflush. eapply shows_usable; [done|]. rewrite Eo. apply Hv.
Qed.

Lemma clear_usable v : usable v -> exists v', screen_clear bf l 0 (SCREEN_HEIGHT - 1) v = Ok v' /\ usable v' /\
  new_screen v' = replicate 2100 32 /\ old_screen v' = replicate 2100 32.
Proof.
  intros [Hn Ho Hb Hx Hy]. rewrite screen_clear_spec by done. eexists. split; [done|]. cbn [new_screen old_screen]. split; [|done].
  split; cbn [new_screen old_screen cur_x cur_y]; [apply length_replicate|apply length_replicate|by apply Forall_replicate|done|done].
Qed.

Lemma tame_clear : tame (screen_clear bf l 0 (SCREEN_HEIGHT - 1)).
Proof. intros v Hv. destruct (clear_usable v Hv) as (v' & ? & ? & _). eauto. Qed.

Lemma tame_init_screen : tame (init_screen bf l).
Proof.
  apply tame_bind; [|apply tame_clear]. apply tame_printk. message.
Qed.
End tame.

Section screened.
Context {D : Type} `{!SdCard D}.
Implicit Types (w : system D).

(** What an operation of the screen leaves of the rest *)
Record screened w w' : Prop := {
  sc_kern : exists x y, kern w' = set_screen_cursor_y y (set_screen_cursor_x x (kern w));
  sc_filesys : filesys w' = filesys w;
  sc_netdev : netdev w' = netdev w;
  sc_space : space w' = space w;
  sc_text : text w' = text w
}.

#[global] Instance screened_preorder : PreOrder screened.
Proof.
  split.
  - intros w. split; try done. exists (screen_cursor_x (kern w)), (screen_cursor_y (kern w)). by destruct (kern w).
  - intros w1 w2 w3 [(x & y & E) ? ? ? ?] [(x' & y' & E') ? ? ? ?]. split; [|congruence..]. exists x', y'. by rewrite E', E.
Qed.

Definition can_print w : Prop := usable (screen_of w).

Lemma screen_of_put v w : screen_of (put_screen v w) = v.
Proof. by destruct v. Qed.

Lemma wp_screen f w (Q : unit -> system D -> Prop) : tame f -> can_print w ->
  (forall w', screened w w' -> can_print w' -> Q tt w') -> wp (on_screen f) Q w.
Proof.
  intros Hf Hw HQ. destruct (Hf _ Hw) as (v & E & Hv). unfold wp, on_screen, on. rewrite E. apply HQ.
  - split; try done. by exists (cur_x v), (cur_y v).
  - unfold can_print. by rewrite screen_of_put.
Qed.

Lemma wp_screen_bind f (m : Sys D unit) w (Q : unit -> system D -> Prop) : tame f -> can_print w ->
  (forall w', screened w w' -> can_print w' -> wp m Q w') -> wp (on_screen f;; m) Q w.
Proof. intros Hf Hw HQ. apply wp_bind. by apply wp_screen. Qed.
End screened.

(** ** The vectors *)

Lemma copy_code_spec n : forall fuel p d t, (n * 4 <= fuel)%nat -> 0 <= p -> 0 <= d -> p + 4 * Z.of_nat n < 4294967296 -> d + 4 * Z.of_nat n <= p ->
  (forall k, 0 <= k < Z.of_nat n -> is_Some (t !! (p + 4 * k))) ->
  exists t', copy_code fuel p (p + 4 * Z.of_nat n) d t = Ok t' /\
    (forall k, 0 <= k < Z.of_nat n -> t' !! (d + 4 * k) = t !! (p + 4 * k)) /\
    forall a, ~ d <= a < d + 4 * Z.of_nat n -> t' !! a = t !! a.
Proof.
  induction n as [|n IH]; intros fuel p d t Hf Hp Hd Hb Hdp Hw.
  - exists t. replace (p + 4 * Z.of_nat 0) with p by lia.
    split; [destruct fuel; cbn [copy_code]; by rewrite Z.ltb_irrefl|]. split; [lia|done].
  - destruct fuel as [|fuel]; [lia|]. cbn [copy_code]. rewrite (proj2 (Z.ltb_lt _ _)) by lia.
    destruct (Hw 0 ltac:(lia)) as [v Hv]. replace (p + 4 * 0) with p in Hv by lia. rewrite Hv, !u32_id by (unfold is_u32; lia).
    destruct (IH fuel (p + 4) (d + 4) (<[d := v]> t)) as (t' & E & Hc & Ho); [lia..| |].
    + intros k Hk. rewrite lookup_insert_ne by lia. specialize (Hw (k + 1) ltac:(lia)). by replace (p + 4 + 4 * k) with (p + 4 * (k + 1)) by lia.
    + exists t'. replace (p + 4 * Z.of_nat (S n)) with (p + 4 + 4 * Z.of_nat n) by lia. split; [done|]. split.
      * intros k Hk. destruct (decide (k = 0)) as [->|].
        -- rewrite Ho by lia. replace (d + 4 * 0) with d by lia. rewrite lookup_insert_eq. replace (p + 4 * 0) with p by lia. done.
        -- specialize (Hc (k - 1) ltac:(lia)). replace (d + 4 * k) with (d + 4 + 4 * (k - 1)) by lia. rewrite Hc, lookup_insert_ne by lia.
           f_equal. lia.
      * intros a Ha. rewrite Ho by lia. by rewrite lookup_insert_ne by lia.
Qed.

(** The vectors: what [init_exception] copies, and where. *)
Definition copied (t t' : gmap Z Z) (b e d : Z) : Prop := forall k, 0 <= k -> b + 4 * k < e -> t' !! (d + 4 * k) = t !! (b + 4 * k).

(** The handlers lie beyond the first page and fit between the vectors. *)
Record handler_at (t : gmap Z Z) (b e room : Z) : Prop := {
  ha_low : 0x80001000 <= b <= e;
  ha_room : e - b <= room;
  ha_high : e < OUTSIDE_CALL_BASE;
  ha_aligned : (e - b) mod 4 = 0;
  ha_words k : 0 <= k -> b + 4 * k < e -> is_Some (t !! (b + 4 * k))
}.

Lemma copy_handler t b e d room : handler_at t b e room -> 0 <= d -> d + room <= 0x80001000 ->
  exists t', copy_code (Z.to_nat (e - b)) b e d t = Ok t' /\ copied t t' b e d /\ forall a, ~ d <= a < d + room -> t' !! a = t !! a.
Proof.
  intros [Hl Hr Hh Ha Hw] Hd Hroom. unfold OUTSIDE_CALL_BASE in Hh. apply Z.mod_divide in Ha as [n Hn]; [|done].
  destruct (copy_code_spec (Z.to_nat n) (Z.to_nat (e - b)) b d t) as (t' & E & Hc & Ho); [lia..| |].
  - intros k Hk. apply Hw; lia.
  - replace (b + 4 * Z.of_nat (Z.to_nat n)) with e in E by lia. exists t'. split; [done|]. split.
    + intros k Hk Hke. apply Hc. lia.
    + intros a Hna. apply Ho. lia.
Qed.

(** ** The scheduler's part *)

(** What the operations of the start keep of the memory tables, the processor's address space and the
    cursor *)
Record boot_frame (s s' : kstate) : Prop := {
  bt_dirs : dirs_kept s s';
  bt_hi : EntryHi s' = EntryHi s;
  bt_x : screen_cursor_x s' = screen_cursor_x s;
  bt_y : screen_cursor_y s' = screen_cursor_y s
}.

#[global] Instance boot_frame_frame : Frame (fun _ => True) boot_frame.
Proof.
  split; try by (intros; split; try done; split; cbn; eauto).
  - intros s1 s2 s3 [D1 H1 X1 Y1] [D2 H2 X2 Y2]. split; [|congruence..]. by eapply (frame_trans (P := fun _ => True)).
  - intros s i b b' Hb (_ & Hd & _). split; try done. by apply (dirs_kept_block s i b).
Qed.

Lemma init_task_frame a b s s' : bss s -> init_task a b s = Ok (tt, s') -> boot_frame s s'.
Proof.
  intros Hbss E. destruct (boot_state_ok s Hbss) as (l & Q & El & _).
  rewrite (init_task_prefix s l a b) in E by (done || (apply aget_is_Some; rewrite (bss_pcb s Hbss); lia)).
  eapply (frame_trans (P := fun _ => True) _ (boot_state l s)).
  - split; try done. split; [done|]. intros i b'. cbn. rewrite aget_alter by done. case_decide; [|eauto].
    destruct ((pcb s).[i]) as [b0|]; [|done]. intros [= <-]. exists b0. split; [done|by left].
  - eapply (keeps_bind (P := fun _ => True)); [apply keeps_init_pcb|intros ?; apply keeps_init_pcb|done|exact E].
Qed.

Lemma keeps_init_locks_loop n i : keeps (fun _ => True) boot_frame (init_mutex_locks_loop n i).
Proof.
  revert i. induction n as [|n IH]; intros i; cbn [init_mutex_locks_loop]; [apply keeps_ret|].
  apply keeps_bind; [|intros _; apply IH]. apply keeps_do_mutex_lock_init. intros v. apply keeps_modify. intros s. split; try done.
  split; cbn; eauto.
Qed.

Lemma init_locks_frame s s' : init_mutex_locks s = Ok (tt, s') -> boot_frame s s'.
Proof. unfold init_mutex_locks. intros E. exact (keeps_init_locks_loop (Z.to_nat MAX_LOCKS_NUM) 0 s tt s' I E). Qed.

(** What is established step by step: memory and tasks; [main] runs, the task [a] as number 1 and the task [b] as
    number 2 are ready to run for the first time. *)
Record tasks_up (P : Z) (a b : task_info_t) (s : kstate) : Prop := {
  tu_kernel : exists Q free, kernel_ok P s Q free /\ no_orphans Q free /\ two_ready s Q a b;
  tu_main : current_running s = 0 /\ is_Some ((pcb s).[current_running s]);
  tu_frames : frames_ok s;
  tu_asid : asid_ok s;
  tu_memory : vm_ok s (range 1 20) (range 1 2048)
}.

Lemma task_ready_alter f s i task : 0 <= current_running s -> current_running s <> i -> task_ready s i task ->
  task_ready (set_pcb (alter f (Z.to_nat (current_running s)) (pcb s)) s) i task.
Proof. intros Hc Hi. apply task_ready_blocks. cbn. by rewrite aget_alter, decide_False. Qed.

Lemma tasks_up_calm P a b s s' : calm s s' -> tasks_up P a b s -> tasks_up P a b s'.
Proof.
  intros Hcalm [(Q & free & HK & Hno & HQr & HQs & H1 & H2) [Hc0 Hc] HF Ha HV]. pose proof (calm_dirs _ _ Hcalm) as Hd.
  destruct Hcalm as (f & x & y & -> & Hf). destruct (calm_block f Hf) as (Hl & Hco & Hk).
  split.
  - exists Q, free. split; [by apply (kernel_ok_ext P (set_pcb (alter f (Z.to_nat (current_running s)) (pcb s)) s)); [apply kernel_ok_upd; try lia|..]|].
    split; [done|]. split; [done|]. split; [done|].
    split; (eapply task_ready_blocks; [|apply (task_ready_alter f s); [lia|by rewrite Hc0|eassumption]]); done.
  - split; [done|]. cbn. by apply aget_alter_is_Some.
  - by apply (frames_ok_alter s _ (current_running s) f).
  - done.
  - by eapply vm_ok_kept.
Qed.

Lemma locks_free_calm s s' : calm s s' -> locks_free s -> locks_free s'.
Proof. by intros (f & x & y & -> & _). Qed.

(** ** The file system's part: its messages *)

Definition said (m : string * list parg) : Prop := message_ok (message (fst m)) (snd m).

Section says.
Context {D : Type} `{!SdCard D}.

Definition says {A} (m : F D A) : Prop := forall s x s', m s = Ok (x, s') -> exists ms, console s' = ms ++ console s /\ Forall said ms.

Lemma says_bind {A B} (m : F D A) (f : A -> F D B) : says m -> (forall x, says (f x)) -> says (m ≫= f).
Proof.
  intros Hm Hf s x s' E. unfold mbind, F_bind in E. destruct (m s) as [[y s1]| | |] eqn:E1; try done.
  destruct (Hm _ _ _ E1) as (ms1 & C1 & F1). destruct (Hf _ _ _ _ E) as (ms2 & C2 & F2).
  exists (ms2 ++ ms1). split; [by rewrite C2, C1, app_assoc|]. by apply Forall_app.
Qed.

Lemma says_nothing {A} (m : F D A) : (forall s x s', m s = Ok (x, s') -> console s' = console s) -> says m.
Proof. intros Hm s x s' E%Hm. by exists []. Qed.

Lemma says_lift {A} (v : option A) : says (Fs.lift v).
Proof. apply says_nothing. intros s x s'. unfold Fs.lift. destruct v; [|done]. by intros [= _ <-]. Qed.

Lemma says_modify f : (forall s, console (f s) = console s) -> says (Fs.modify f).
Proof. intros Hf. apply says_nothing. intros s x s' [= _ <-]. apply Hf. Qed.

Lemma says_get {A} (f : fs D -> A) : says (Fs.get f).
Proof. apply says_nothing. by intros s x s' [= _ <-]. Qed.

Lemma says_sdread {A} (L : layout A) a : says (sdread_as L a).
Proof. apply says_nothing. by intros s x s' [= _ <-]. Qed.

Lemma says_sdwrite {A} (L : layout A) x a : says (sdwrite_as L x a).
Proof. apply says_nothing. by intros s y s' [= _ <-]. Qed.

Lemma says_printks fmt va : message_ok (message fmt) va -> says (Fs.printks fmt va).
Proof. intros H s x s' [= _ <-]. exists [(fmt, va)]. split; [done|]. by constructor. Qed.

Lemma says_mkfs_smap n b : forall a, says (mkfs_smap n b a).
Proof.
  induction n as [|n IH]; intros a; cbn [mkfs_smap]; [by apply says_nothing; intros s x s' [= _ <-]|].
  apply says_bind; [apply says_sdwrite|by intros _].
Qed.

Local Ltac says_step :=
  lazymatch goal with
  | |- says (mbind _ _) => apply says_bind; [|intros ?]
  | |- says (sdread_as _ _) => apply says_sdread
  | |- says (sdwrite_as _ _ _) => apply says_sdwrite
  | |- says (mkfs_smap _ _ _) => apply says_mkfs_smap
  | |- says (Fs.lift _) => apply says_lift
  | |- says (Fs.get _) => apply says_get
  | |- says (Fs.modify _) => apply says_modify; intros ?; reflexivity
  | |- says (Fs.printks _ _) => apply says_printks; message
  | _ => progress cbv zeta
  end.

Lemma says_mkfs b inode d : says (mkfs b inode d).
Proof. unfold mkfs. repeat says_step. Qed.

Lemma says_mount : says mount.
Proof. unfold mount. repeat says_step. Qed.

Lemma says_init_file_system b inode d : says (init_file_system b inode d).
Proof.
  unfold init_file_system. apply says_bind; [by apply says_nothing; intros s x s'; vm_compute; intros [= _ <-]|intros _]. repeat says_step.
  case_match; [apply says_mkfs|apply says_mount].
Qed.

(** The memory of the file system agrees with what is on the card. *)
Record mounted (s : fs D) : Prop := {
  md_super_block : super_block s = dec super_block_l (sector s FS_BASE);
  md_dir : current_dir s = dec dir_l (sector s DARRAY_ADDR) /\ current_dir_pointer s = DARRAY_ADDR;
  md_imap : imap s = dec (words_l 128) (sector s IMAP_ADDR);
  md_smap : smap s = dec (words_l 128) (sector s SMAP_ADDR) /\ smap_index s = 0
}.

Lemma mount_mounts s : exists s', mount s = Ok (tt, s') /\ mounted s' /\ disk s' = disk s /\ fd_array_slist s' = fd_array_slist s.
Proof.
  unfold mount, Fs.printks. rewrite fs_bind_modify.
  rewrite (fs_bind_Ok _ _ _ _ _ (sdread_as_Ok _ _ FS_BASE ltac:(by vm_compute))), fs_bind_modify, (fs_bind_Ok _ _ _ _ _ (sdread_as_Ok _ _ DARRAY_ADDR ltac:(by vm_compute))), !fs_bind_modify.
  rewrite (fs_bind_Ok _ _ _ _ _ (sdread_as_Ok _ _ IMAP_ADDR ltac:(by vm_compute))), !fs_bind_modify, (fs_bind_Ok _ _ _ _ _ (sdread_as_Ok _ _ SMAP_ADDR ltac:(by vm_compute))), fs_bind_modify.
  eexists. split; [reflexivity|]. split; [by split|done].
Qed.

(** After [init_file_system]: no file is open; a card with the magic number is as it was, and mounted;
    another is formatted, and the memory of the file system as it was. *)
Definition has_magic (s : fs D) : Prop := (sb_reserved (dec super_block_l (sector s FS_BASE))).[78] = Some MAGIC_NUMBER.

Record files_up (s s' : fs D) : Prop := {
  fu_open : slist_rep (fd_array_slist s') 65 (range 1 64);
  fu_mounted : has_magic s -> disk s' = disk s /\ mounted s';
  fu_formatted : ~ has_magic s -> formatted s' /\ super_block s' = super_block s /\ current_dir s' = current_dir s /\
    current_dir_pointer s' = current_dir_pointer s
}.

(** Registers and messages do not matter. *)
Lemma files_up_console s s' v ms : files_up (set_regs2 v (set_console [] s)) s' -> files_up s (Fs.set_console ms s').
Proof.
  intros [Ho Hm Hf]. split; [done| |].
  - intros H. destruct (Hm H) as [Hd []]. split; [exact Hd|]. by split.
  - intros H. destruct (Hf H) as ([] & Hf'). split; [by split|exact Hf'].
Qed.

Lemma init_file_system_up s b inode d : card_ok (disk s) -> wf super_block_l b -> wf inodes_l inode -> wf dir_l d ->
  length (fd_array_slist s) = 65%nat -> exists s', init_file_system b inode d s = Ok (tt, s') /\ files_up s s'.
Proof.
  intros Hc Hb Hi Hd Hl. destruct (slist_init_rep (fd_array_slist s) 65) as (l & El & Hrep); [lia|lia|].
  rewrite (init_file_system_steps s b inode d l Hl El).
  assert (Hr : length (sb_reserved (dec super_block_l (sector s FS_BASE))) = 118%nat) by apply dec_arr_length.
  destruct (aget_is_Some (sb_reserved (dec super_block_l (sector s FS_BASE))) 78) as [v Hv]; [lia|]. rewrite Hv.
  cbn [default from_option id]. destruct (Z.eqb_spec v MAGIC_NUMBER) as [->|Hne]; cbn [negb].
  - destruct (mount_mounts (set_fd_array_slist l s)) as (s' & E & Hm & Hdk & Hsl). exists s'. split; [done|].
    split; [by rewrite Hsl|done|]. by intros H.
  - destruct (mkfs_formats (set_fd_array_slist l s) b inode d Hc Hb Hi Hd) as (s' & E & Hf & (E1 & E2 & E3 & _ & _ & _ & _ & E4 & _)).
    exists s'. split; [done|]. split; [by rewrite E4| |done]. unfold has_magic. rewrite Hv. intros [= H]. done.
Qed.
End says.

(** ** The whole *)

Section start.
Context {D : Type} `{!SdCard D} (o : outside) (P : Z).
Implicit Types (w : system D).

(** What is outside of the state is as C has it: arrays and structures of their size and type, and two
    tasks with a priority. *)
Record outside_ok : Prop := {
  oo_bf : bf_ok (bf o);
  oo_buff : (256 <= length (buff o))%nat /\ bytes_ok (buff o);
  oo_sb : wf super_block_l (sb o);
  oo_inode : wf inodes_l (inode o);
  oo_dir : wf dir_l (dir o);
  oo_shell : 1 <= ti_priority (info_shell o) <= P;
  oo_io_proc : 1 <= ti_priority (info_io_proc o) <= P
}.

(** Zeroed memory, with the tables of the memory of their size *)
Record memory_reset (s : kstate) : Prop := {
  mr_bss : bss s;
  mr_sizes : vm_sizes s;
  mr_dirs i d e : pde_of (pcb s) i d = Some e -> pde_valid e = 0;
  mr_frames : Z.of_nat (length (pm_slist (mm s))) = PM_SLIST_SIZE;
  mr_tables : Z.of_nat (length (pt_pool_slist (mm s))) = PAGE_TABLE_POOL_SLIST_SIZE;
  mr_swap : Z.of_nat (length (swap_area_slist (mm s))) = SWAP_AREA_SIZE
}.

(** The memory at the start: [.bss], the arrays of their size, a card, and the handlers in memory. *)
Record at_reset w : Prop := {
  rs_memory : memory_reset (kern w);
  rs_cursor : screen_cursor_x (kern w) = 0 /\ screen_cursor_y (kern w) = 0;
  rs_screen : length (new_screen (scr w)) = 2100%nat /\ length (old_screen (scr w)) = 2100%nat /\ bytes_ok (new_screen (scr w));
  rs_card : card_ok (disk (filesys w));
  rs_fds : length (fd_array_slist (filesys w)) = 65%nat;
  rs_exception : handler_at (text w) (exception_handler_begin o) (exception_handler_end o) 0xe80;
  rs_refill : handler_at (text w) (TLB_refill_handler_begin o) (TLB_refill_handler_end o) 0x180
}.

Definition vectors_up (t t' : gmap Z Z) : Prop :=
  copied t t' (exception_handler_begin o) (exception_handler_end o) 0x80000180 /\
  copied t t' (TLB_refill_handler_begin o) (TLB_refill_handler_end o) 0x80000000.

(** The machine in the loop of [main] *)
Record machine_up w w' : Prop := {
  up_tasks : tasks_up P (info_shell o) (info_io_proc o) (kern w');
  up_locks : locks_free (kern w');
  up_cursor : can_print w';
  up_screen : new_screen (scr w') = replicate 2100 32 /\ old_screen (scr w') = replicate 2100 32;
  up_files : files_up (filesys w) (filesys w');
  up_vectors : vectors_up (text w) (text w');
  up_calls : text w' !! OUTSIDE_CALL_BASE = Some (sys_move_cursor_addr o) /\
    text w' !! (OUTSIDE_CALL_BASE + 4) = Some (printf_addr o) /\ text w' !! (OUTSIDE_CALL_BASE + 8) = Some (sys_exit_addr o)
}.

Context (Ho : outside_ok).

Local Ltac tame :=
  let Hl := fresh in pose proof (oo_buff Ho) as [Hl ?];
  lazymatch goal with
  | |- tame (port_write _) => apply tame_port_write; by eexists
  | |- tame (init_screen _ _) => by apply tame_init_screen; [apply (oo_bf Ho)|..]
  | |- tame (Screen.printk _ _ _ _) => apply tame_printk; [apply (oo_bf Ho)|done|done|message]
  | |- tame (vt100_set_color _ _ _) => apply tame_printk; [apply (oo_bf Ho)|done|done|message]
  | |- tame (Screen.printks _ _ _ _) => apply tame_printks; [apply (oo_bf Ho)|done|done|message]
  end.

Lemma upd_current_ok f s : is_Some ((pcb s).[current_running s]) -> exists s', upd_current f s = Ok (tt, s').
Proof. intros [b Hb]. unfold upd_current, upd_pcb. rewrite bind_get, (bind_Ok _ _ _ _ _ (pcb_at_Ok _ _ _ Hb)). by eexists. Qed.

Lemma wp_init_exception w w0 (Q : unit -> system D -> Prop) : at_reset w0 -> text w = text w0 ->
  (forall t, vectors_up (text w0) t -> Q tt (set_text t w)) -> wp (init_exception o) Q w.
Proof.
  intros Hr Et HQ. pose proof (rs_exception _ Hr) as HE. pose proof (rs_refill _ Hr) as HT. rewrite <- Et in HE, HT, HQ.
  destruct (copy_handler _ _ _ 0x80000180 _ HE) as (t1 & E1 & C1 & O1); [lia|lia|].
  assert (H2 : handler_at t1 (TLB_refill_handler_begin o) (TLB_refill_handler_end o) 0x180).
  { destruct HT as [? ? ? ? Hw]. split; try done. intros k Hk Hke. rewrite O1 by lia. by apply Hw. }
  destruct (copy_handler _ _ _ 0x80000000 _ H2) as (t2 & E2 & C2 & O2); [lia|lia|].
  unfold init_exception. cbv zeta. apply wp_bind. eapply wp_text; [exact E1|]. eapply wp_text; [exact E2|]. apply HQ.
  pose proof (ha_low _ _ _ _ HE). pose proof (ha_room _ _ _ _ HE). pose proof (ha_low _ _ _ _ H2). split.
  - intros k Hk Hke. rewrite O2 by lia. by apply C1.
  - intros k Hk Hke. rewrite C2 by done. by apply O1; lia.
Qed.

Lemma vectors_up_insert w t a v : at_reset w -> 0x80001000 <= a -> vectors_up (text w) t -> vectors_up (text w) (<[a := v]> t).
Proof.
  intros Hr Ha [H1 H2]. pose proof (ha_room _ _ _ _ (rs_exception _ Hr)). pose proof (ha_room _ _ _ _ (rs_refill _ Hr)).
  split; intros k Hk Hke; (rewrite lookup_insert_ne by lia); auto.
Qed.

Lemma wp_print_all ms : Forall said ms -> forall w (Q : unit -> system D -> Prop), can_print w ->
  (forall w', screened w w' -> can_print w' -> Q tt w') -> wp (print_all o ms) Q w.
Proof.
  induction 1 as [|[fmt va] ms Hm _ IH]; intros w Q Hw HQ; [by apply HQ|]. cbn [print_all]. pose proof (oo_buff Ho) as [Hl Hb].
  apply wp_screen_bind; [by apply tame_printks; [apply (oo_bf Ho)|..]|done|]. intros w1 S1 C1. apply IH; [done|]. intros w2 S2 C2.
  apply HQ; [by etransitivity|done].
Qed.

(** The file system is set up: the running task's register and the screen apart, nothing else changes. *)
Lemma wp_init_files w (Q : unit -> system D -> Prop) : is_Some ((pcb (kern w)).[current_running (kern w)]) -> can_print w ->
  card_ok (disk (filesys w)) -> length (fd_array_slist (filesys w)) = 65%nat ->
  (forall w', calm (kern w) (kern w') -> can_print w' -> files_up (filesys w) (filesys w') -> text w' = text w -> Q tt w') ->
  wp (on_files o (init_file_system (sb o) (inode o) (dir o))) Q w.
Proof.
  intros [b Hb] Hw Hc Hl HQ. unfold on_files, result_register. apply wp_bind.
  eapply wp_kernel; [rewrite bind_get, (bind_Ok _ _ _ _ _ (pcb_at_Ok _ _ _ Hb)); reflexivity|]. set (v := default 0 _).
  destruct (init_file_system_up (set_regs2 v (set_console [] (filesys w))) (sb o) (inode o) (dir o)) as (f & E & Hf);
    [exact Hc|apply (oo_sb Ho)|apply (oo_inode Ho)|apply (oo_dir Ho)|exact Hl|].
  destruct (says_init_file_system _ _ _ _ _ _ E) as (ms & Ems & Hms). cbn [console set_regs2] in Ems. 
  apply wp_bind. unfold wp at 1, on. cbn [filesys set_kern]. unfold set_console in E |- *. rewrite E.
  do 2 (apply wp_bind; unfold wp at 1, on; cbn [filesys set_filesys set_kern]).
  apply wp_bind. destruct (upd_current_ok (set_reg 2 (regs2 f)) (kern w)) as [s E2]; [by eexists|].
  eapply wp_kernel; [exact E2|].
  apply wp_bind. apply wp_print_all.
  - rewrite Ems. apply Forall_reverse. by rewrite app_nil_r.
  - apply upd_current_inv in E2 as (? & _ & ->). exact Hw.
  - intros w' [(x & y & Ek) Efs _ _ Et] Hp. apply HQ; [|done| |done].
    + transitivity s; [by eapply calm_upd_current, E2; intros ?; eexists|]. rewrite Ek. apply calm_cursor.
    + rewrite Efs. by eapply files_up_console.
Qed.

Lemma memory_reset_cursor s x y : memory_reset s -> memory_reset (set_screen_cursor_y y (set_screen_cursor_x x s)).
Proof. intros [[] [] Hd Hf Ht Hs]. split; [by split|by split|exact Hd|exact Hf|exact Ht|exact Hs]. Qed.

Lemma memory_reset_screened w w' : screened w w' -> memory_reset (kern w) -> memory_reset (kern w').
Proof. intros [(x & y & ->) _ _ _ _]. apply memory_reset_cursor. Qed.

Lemma init_memory_up s : memory_reset s -> exists s', init_memory s = Ok (tt, s') /\ bss s' /\ vm_ok s' (range 1 20) (range 1 2048) /\
  EntryHi s' = 0x80000000 /\ screen_cursor_x s' = screen_cursor_x s /\ screen_cursor_y s' = screen_cursor_y s.
Proof.
  intros [Hbss Hsz Hd Hf Ht Hs]. destruct (init_memory_spec s Hsz Hd Hf Ht Hs) as (m & E & HV & _).
  exists (set_mm m (set_EntryHi 0x80000000 s)). split; [exact E|]. split; [by destruct Hbss; split|]. split; [exact HV|]. split; [reflexivity|].
  split; reflexivity.
Qed.

Lemma init_task_up s : bss s -> vm_ok s (range 1 20) (range 1 2048) -> EntryHi s = 0x80000000 ->
  exists s', init_task (info_shell o) (info_io_proc o) s = Ok (tt, s') /\ tasks_up P (info_shell o) (info_io_proc o) s' /\ boot_frame s s' /\
    forall j, idle_queue s' (LockQueue (Locks j)).
Proof.
  intros Hbss HV Hhi. destruct (init_task_ok P s (info_shell o) (info_io_proc o) Hbss (oo_shell Ho) (oo_io_proc Ho))
    as (s' & Q & E & HK & Hno & Hc & HF & Hc0 & H2 & Hidle).
  pose proof (init_task_frame _ _ _ _ Hbss E) as Hf. exists s'. split; [done|]. split; [|done]. split; [by eauto|done|done| |].
  - unfold asid_ok. by rewrite (bt_hi _ _ Hf), Hhi, Hc0.
  - eapply vm_ok_kept, HV. apply Hf.
Qed.

Lemma init_locks_up s a b : tasks_up P a b s -> (forall j, idle_queue s (LockQueue (Locks j))) ->
  exists s', init_mutex_locks s = Ok (tt, s') /\ tasks_up P a b s' /\ locks_free s' /\ boot_frame s s'.
Proof.
  intros [(Q & free & HK & Hno & H2) [Hc0 Hc] HF Ha HV] Hidle.
  destruct (init_locks_ok P s Q free a b HK Hno H2 Hidle) as (s' & Q' & E & HK' & Hno' & H2' & Hlk & Ec & Ep & HF').
  pose proof (init_locks_frame _ _ E) as Hf. exists s'. split; [done|]. split; [|done]. split; [by eauto|by rewrite Ec, Ep|auto| |].
  - unfold asid_ok. by rewrite (bt_hi _ _ Hf), Ec.
  - eapply vm_ok_kept, HV. apply Hf.
Qed.

Lemma can_print_kernel w s : can_print w -> screen_cursor_x s = screen_cursor_x (kern w) -> screen_cursor_y s = screen_cursor_y (kern w) ->
  can_print (set_kern s w).
Proof. intros H Ex Ey. unfold can_print, screen_of. cbn [kern set_kern scr]. by rewrite Ex, Ey. Qed.

(** The first interrupt of the timer takes the processor from [main] and gives it to one of the two tasks. *)
Lemma main_interrupted s cause int1_sr a b : tasks_up P a b s -> P + 40 < 2147483648 -> Z.land cause 0x8000 <> 0 ->
  exists s', handle (Interrupt cause int1_sr) s = Ok (Switch, s') /\ (current_running s' = 1 \/ current_running s' = 2) /\
    next_mode Switch [] s' = Some (KernelFrames [KExceptionExit]) /\ vm_config (P + 40) (KernelFrames [KExceptionExit], s').
Proof.
  intros [(Q & free & HK & Hno & H2) [Hc0 Hc] HF Ha HV] HP Hcause.
  destruct (first_interrupt P cause int1_sr s Q free a b HK Hno Hc HF Hc0 H2 HP Hcause) as (s' & E & Hcur & Hm & HC').
  exists s'. split; [done|]. split; [done|]. split; [done|]. split; [done|]. cbn [fst snd] in *. split.
  - pose proof (post_handle _ _ _ _ E) as Hp. by eapply asid_fresh_ok; [apply HC'|].
  - exists (range 1 20), (range 1 2048). eapply vm_ok_kept, HV. eapply keeps_any_trap; [apply ctx_dirs|apply mtx_dirs|exact I|exact E].
Qed.

(** From the memory to the loop of [main], the screen set up *)
Lemma start_tasks w w0 : bss (kern w) -> vm_ok (kern w) (range 1 20) (range 1 2048) -> EntryHi (kern w) = 0x80000000 -> can_print w ->
  at_reset w0 -> filesys w = filesys w0 ->
  vectors_up (text w0) (text w) ->
  wp (on_kernel (init_task (info_shell o) (info_io_proc o));;
      on_screen (Screen.printks (bf o) (buff o) (str "> [INIT] Init task succeeded." ++ [10; 0]) []);;
      init_outside_call o;;
      on_screen (Screen.printks (bf o) (buff o) (str "> [INIT] Init outside call succeeded." ++ [10; 0]) []);;
      on_kernel init_mutex_locks;;
      on_files o (init_file_system (sb o) (inode o) (dir o));;
      on_screen (screen_clear (bf o) (buff o) 0 (SCREEN_HEIGHT - 1))) (fun _ => machine_up w0) w.
Proof.
  intros Hbss HV Hhi Hw Hr Efs Hvec. destruct (init_task_up (kern w) Hbss HV Hhi) as (s1 & E1 & T1 & F1 & Hidle).
  apply wp_bind. eapply wp_kernel; [exact E1|]. apply wp_screen_bind; [tame|apply can_print_kernel; [done|apply F1..]|].
  intros w2 S2 C2. unfold init_outside_call. apply wp_bind. eapply wp_text; [reflexivity|].
  apply wp_screen_bind; [tame|exact C2|]. intros w3 S3 C3.
  assert (H3 : calm s1 (kern w3)).
  { destruct (sc_kern _ _ S3) as (x3 & y3 & ->), (sc_kern _ _ S2) as (x2 & y2 & E2). cbn [kern set_text]. rewrite E2.
    etransitivity; apply calm_cursor. }
  assert (Hidle3 : forall j, idle_queue (kern w3) (LockQueue (Locks j))) by (destruct H3 as (f & x & y & -> & _); exact Hidle).
  destruct (init_locks_up (kern w3) _ _ (tasks_up_calm _ _ _ _ _ H3 T1) Hidle3) as (s4 & E4 & T4 & L4 & F4).
  apply wp_bind. eapply wp_kernel; [exact E4|].
  assert (Ef : filesys (set_kern s4 w3) = filesys w0) by (rewrite <- Efs; cbn; rewrite (sc_filesys _ _ S3); cbn; by rewrite (sc_filesys _ _ S2)).
  apply wp_bind. apply wp_init_files; [apply (tu_main _ _ _ _ T4)|apply can_print_kernel; [exact C3|apply F4..]|rewrite Ef; apply (rs_card _ Hr)|rewrite Ef; apply (rs_fds _ Hr)|].
  rewrite Ef. intros w5 Hcalm C5 Hf5 Et5.
  assert (Et : text w5 = <[OUTSIDE_CALL_BASE + 8 := sys_exit_addr o]> (<[OUTSIDE_CALL_BASE + 4 := printf_addr o]>
    (<[OUTSIDE_CALL_BASE := sys_move_cursor_addr o]> (text w)))).
  { rewrite Et5. cbn. rewrite (sc_text _ _ S3). cbn. by rewrite (sc_text _ _ S2). }
  pose proof (oo_buff Ho) as [Hl Hlb]. destruct (clear_usable (bf o) (buff o) (oo_bf Ho) Hl (screen_of w5) C5) as (v & Ev & Hv & Hn & Hold).
  unfold wp, on_screen, on. rewrite Ev. split; cbn [kern filesys scr text put_screen set_scr set_kern].
  - eapply tasks_up_calm, T4. etransitivity; [exact Hcalm|apply calm_cursor].
  - eapply locks_free_calm, L4. etransitivity; [exact Hcalm|apply calm_cursor].
  - unfold can_print. by rewrite screen_of_put.
  - done.
  - exact Hf5.
  - rewrite Et. by repeat apply vectors_up_insert.
  - rewrite Et. by rewrite !lookup_insert.
Qed.

(** [_start], step by step *)
Lemma start_up w : at_reset w -> wp (_start o) (fun _ => machine_up w) w.
Proof.
  intros Hr. assert (C0 : can_print w).
  { destruct (rs_cursor _ Hr) as [Ex Ey], (rs_screen _ Hr) as (? & ? & ?). unfold can_print, screen_of. rewrite Ex, Ey. split; cbn; (done || lia). }
  unfold _start. apply wp_screen_bind; [tame|done|intros w1 S1 C1]. apply wp_screen_bind; [tame|done|intros w2 S2 C2].
  assert (S02 : screened w w2) by (by transitivity w1). clear C1 S1 S2.
  apply wp_bind. apply (wp_init_exception _ w); [done|by apply sc_text|]. intros t Hvec.
  apply wp_screen_bind; [tame|done|intros w3 S3 C3]. apply wp_screen_bind; [tame|done|intros w4 S4 C4].
  assert (S24 : screened (set_text t w2) w4) by (by transitivity w3). clear C3 S3 S4.
  assert (H4 : memory_reset (kern w4)).
  { apply (memory_reset_screened _ _ S24), (memory_reset_screened w w2 S02), Hr. }
  destruct (init_memory_up (kern w4) H4) as (s & Em & Hbss & HV & Hhi & Ex & Ey). apply wp_bind. eapply wp_kernel; [exact Em|].
  apply wp_screen_bind; [tame|by apply can_print_kernel|intros w5 S5 C5]. apply wp_screen_bind; [tame|done|intros w6 S6 C6].
  apply wp_screen_bind; [tame|done|intros w7 S7 C7].
  assert (S47 : screened (set_kern s w4) w7) by (transitivity w5; [done|]; by transitivity w6).
  destruct (sc_kern _ _ S47) as (x & y & E7). apply start_tasks; [| | |exact C7|exact Hr| |].
  - rewrite E7. by destruct Hbss; split.
  - rewrite E7. eapply vm_ok_kept, HV. split; [done|]. cbn. eauto.
  - by rewrite E7.
  - rewrite (sc_filesys _ _ S47). cbn. rewrite (sc_filesys _ _ S24). cbn. by apply sc_filesys.
  - rewrite (sc_text _ _ S47). cbn. by rewrite (sc_text _ _ S24).
Qed.

(** C2. [_start] brings the machine up. From zeroed memory, with whatever lies on the stack and on the card,
    it ends without a fault, with the vectors holding the words of the two handlers and the three
    addresses at [OUTSIDE_CALL_BASE]; the memory tables empty and the TLB invalid; [main] running, the ready queue holding
    task 1, which is the shell, and task 2, which is [io_proc], each ready to run for the first time from its entry point, nobody
    sleeping, and all locks of the kernel free; a card with the magic number mounted as it is, another one
    formatted; the screen and its buffer blank. The first interrupt of the timer then takes the
    processor from [main] and gives it to the shell or to [io_proc], which goes to its program, with the invariant of tasks and memory established. *)
Theorem start_brings_up w : at_reset w ->
  exists w', _start o w = Ok (tt, w') /\ machine_up w w' /\
    (P + 40 < 2147483648 -> forall cause int1_sr, Z.land cause 0x8000 <> 0 ->
      exists s', step_by_trap (Interrupt cause int1_sr) (kern w') (KernelFrames [KExceptionExit], s') /\
        (current_running s' = 1 \/ current_running s' = 2) /\ vm_config (P + 40) (KernelFrames [KExceptionExit], s')).
Proof.
  intros Hr. destruct (proj1 (wp_Ok _ _ _) (start_up w Hr)) as ([] & w' & E & Hup). exists w'. split; [done|]. split; [done|].
  intros HP cause int1_sr Hc. destruct (main_interrupted (kern w') cause int1_sr _ _ (up_tasks _ _ Hup) HP Hc) as (s' & E' & Hcur & Hm & HC).
  exists s'. split; [by exists Switch|done].
Qed.
End start.
