(* ===== verification/Machine.v ===== *)
(** The machine at work: runs of the whole system, from one exception to the next, with what every part of it
    keeps along them. *)

From S2P Require Import Prelude Slist CString Printk Layout Sdcard Fs Mac Screen Kernel Queue Sched Sync.
From S2P Require Import Memory MemorySpec SchedSpec KernelInv Trap Safety Keeps Run Isolation Syscalls System SystemSpec Start.

(** ** The saved registers stay 32 *)

Definition regs_kept (s s' : kstate) : Prop := forall i b', (pcb s').[i] = Some b' ->
  exists b, (pcb s).[i] = Some b /\ length (regs (user_regs_context b')) = length (regs (user_regs_context b)).

Lemma regs_kept_same s s' : pcb s' = pcb s -> regs_kept s s'.
Proof. intros E i b. rewrite E. eauto. Qed.

Lemma regs_kept_alter f c s s' : pcb s' = alter f c (pcb s) ->
  (forall b, length (regs (user_regs_context (f b))) = length (regs (user_regs_context b))) -> regs_kept s s'.
Proof.
  intros E Hf i b'. rewrite E. intros Hb'.
  pose proof (alter_fmap (fun b => length (regs (user_regs_context b))) f (pcb s) c i Hf) as El. rewrite Hb' in El.
  destruct ((pcb s).[i]) as [b|]; [|done]. injection El as El. eauto.
Qed.

Lemma regs_kept_block s i b b' : (pcb s).[i] = Some b -> length (regs (user_regs_context b')) = length (regs (user_regs_context b)) ->
  regs_kept s (set_pcb (<[Z.to_nat i := b']> (pcb s)) s).
Proof.
  intros Hb Hl j bj. cbn. rewrite (aget_upd_pcb _ i j b) by done. case_decide; intros; simplify_eq; eauto.
Qed.

#[global] Instance regs_kept_preorder : PreOrder regs_kept.
Proof.
  split; [intros s i b Hb; eauto|]. intros s1 s2 s3 H1 H2 i b3 (b2 & (b1 & Hb1 & E1)%H1 & E2)%H2. exists b1. split; [done|congruence].
Qed.

#[global] Instance regs_frame : Frame (fun _ => True) regs_kept.
Proof.
  split; try by (intros; apply regs_kept_same).
  - intros s1 s2 s3 H1 H2. by transitivity s2.
  - done.
  - intros s i b b' Hb (_ & _ & Hl). by apply (regs_kept_block s i b).
Qed.

#[global] Instance regs_registers : Registers regs_kept.
Proof. split; intros; by apply regs_kept_same. Qed.

Lemma ctx_regs k : ctx (P := fun _ => True) (R := regs_kept) k.
Proof. intros s x s' _ (b & Hb & ->)%upd_current_inv. by apply (regs_kept_block s _ b). Qed.

Lemma mtx_regs l : mtx (P := fun _ => True) (R := regs_kept) l.
Proof. intros v s x s' _ [= _ <-]. by apply regs_kept_same. Qed.

#[global] Instance regs_calm : Calm regs_kept.
Proof.
  split; [apply _|intros; by apply regs_kept_same|]. intros v s u s' (b & Hb & ->)%upd_current_inv.
  apply (regs_kept_block s _ b); [done|]. apply length_insert.
Qed.

(** [regs] is an array of 32 words. *)
Definition regs_all (s : kstate) : Prop := forall i b, (pcb s).[i] = Some b -> length (regs (user_regs_context b)) = 32%nat.

Lemma regs_all_kept s s' : regs_kept s s' -> regs_all s -> regs_all s'.
Proof. intros H Ha i b' (b & Hb & ->)%H. eauto. Qed.

Lemma regs_all_alter f s : (forall b, length (regs (user_regs_context b)) = 32%nat -> length (regs (user_regs_context (f b))) = 32%nat) ->
  0 <= current_running s -> regs_all s -> regs_all (set_pcb (alter f (Z.to_nat (current_running s)) (pcb s)) s).
Proof.
  intros Hf Hc Ha i b'. cbn. rewrite aget_alter by done. case_decide; [|by apply Ha].
  destruct ((pcb s).[i]) as [b|] eqn:Hb; [|done]. intros [= <-]. by eapply Hf, Ha.
Qed.

Lemma regs_all_save e s : length (x_regs e) = 32%nat -> 0 <= current_running s -> regs_all s ->
  regs_all (set_pcb (alter (save_context e) (Z.to_nat (current_running s)) (pcb s)) s).
Proof.
  intros He. apply regs_all_alter. intros b Hb. cbn [save_context user_regs_context set_user_regs_context regs].
  rewrite !length_app, !length_take, !length_drop. lia.
Qed.

Lemma regs_all_entered e x y s : length (x_regs e) = 32%nat -> 0 <= current_running s -> regs_all s -> regs_all (entered e x y s).
Proof. apply regs_all_save. Qed.

Lemma regs_all_ok s : regs_all s -> regs_ok s.
Proof. intros H b. apply H. Qed.

Lemma regs_kept_memory_only c s s' : memory_only c s s' -> regs_kept s s'.
Proof.
  intros [(f & m & hi & -> & Hf)]. eapply (regs_kept_alter f (Z.to_nat c)); [done|]. intros b. by destruct (Hf b) as [pd ->].
Qed.

(** ** TLB exceptions

    The processor sets [EntryHi] before the handler runs. *)

Definition tlb_hi (va : Z) (s : kstate) : Z := Z.lor (Z.land va 0xffffe000) (Z.land (EntryHi s) 0xff).

Definition saved (e : context) (s : kstate) : kstate := set_pcb (alter (save_context e) (Z.to_nat (current_running s)) (pcb s)) s.

Lemma saved_calm e s : calm s (saved e s).
Proof. exists (save_context e), (screen_cursor_x s), (screen_cursor_y s). split; [by destruct s|]. intros b. by eexists. Qed.

(** With the context saved, this is the exception of [Isolation]. *)
Lemma raise_saved e s : saved e (set_EntryHi (tlb_hi (x_badvaddr e) s) s) = raise_tlb (x_badvaddr e) (saved e s).
Proof.
  unfold raise_tlb, saved, tlb_hi. cbn [pcb current_running EntryHi set_pcb set_EntryHi]. rewrite alter_alter.
  destruct s. unfold set_pcb, set_EntryHi. cbn. done.
Qed.

Lemma raise_entered e x y s : entered e x y (set_EntryHi (tlb_hi (x_badvaddr e) s) s) = raise_tlb (x_badvaddr e) (entered e x y s).
Proof.
  unfold entered. change (set_pcb (alter _ _ _) (set_EntryHi ?h s)) with (saved e (set_EntryHi h s)). rewrite raise_saved. done.
Qed.

Lemma calm_served s s' c va : calm s s' -> served s c va -> served s' c va.
Proof.
  intros H. assert (E : forall i d, table_of s' i d = table_of s i d).
  { intros i d. destruct H as (f & x & y & -> & Hf). unfold table_of, pde_of. cbn [pcb set_screen_cursor_y set_screen_cursor_x set_pcb].
    pose proof (alter_fmap page_dir f (pcb s) (Z.to_nat (current_running s)) i ltac:(intros b; by destruct (Hf b) as [u ->])) as E.
    destruct ((alter f _ (pcb s)).[i]), ((pcb s).[i]); simplify_eq/=; congruence. }
  pose proof (dk_mm _ _ (calm_dirs _ _ H)) as Em. unfold served, frame_at, page_at. by rewrite !E, Em.
Qed.

Lemma kernel_TLB_exception K e s s3 random is_refill k :
  calm s s3 -> vm_config K (User, s) -> 0 <= x_badvaddr e < USER_STACK_TOP_ADDRESS ->
  tlb_cause (tlb (mm s)) (tlb_hi (x_badvaddr e) s) random is_refill -> served s (current_running s) (x_badvaddr e) -> regs_all s3 ->
  exists s' a, TLB_exception_helper random is_refill k (raise_tlb (x_badvaddr e) s3) = Ok (Return, s') /\
    phys s' (current_running s) (x_badvaddr e) = Some a /\ current_running s' = current_running s /\ vm_config K (User, s') /\ regs_all s'.
Proof.
  intros Hc HC Hva Hcause Hs Hr. pose proof (calm_vm_config _ _ _ _ Hc HC) as HC3. apply (calm_served _ _ _ _ Hc) in Hs.
  assert (Ec : current_running s3 = current_running s /\ mm s3 = mm s /\ EntryHi s3 = EntryHi s) by by destruct Hc as (f & x & y & -> & _).
  destruct Ec as (Ec & Em & Eh). rewrite <- Ec in Hs |- *. unfold tlb_hi in Hcause. rewrite <- Em, <- Eh in Hcause.
  destruct (fault_config K s3 (x_badvaddr e) random is_refill k HC3 Hva Hcause Hs) as (s' & a & E & HM & HC').
  exists s', a. split_and!; [exact E|apply HM|apply (memory_only_current _ _ _ (ma_only _ _ _ _ _ HM))|exact HC'|]. eapply regs_all_kept, Hr. transitivity (raise_tlb (x_badvaddr e) s3).
  - by eapply (regs_kept_alter (fun b => set_user_regs_context _ b)); [reflexivity|].
  - eapply regs_kept_memory_only, (ma_only _ _ _ _ _ HM).
Qed.

Section machine.
Context {D : Type} `{!SdCard D}.
Implicit Types (w : system D) (o : outside) (e : context).

(** What every part keeps *)
Record in_order (K : Z) (m : mode) w : Prop := {
  io_kernel : vm_config K (m, kern w);
  io_regs : regs_all (kern w);
  io_screen : drawable (scr w)
}.

Lemma in_order_mono K K' m w : K <= K' -> in_order K m w -> in_order K' m w.
Proof. intros HK [HC Hr Hd]. split; [by eapply vm_config_mono|done|done]. Qed.

(** What the entry of an exception needs: a running task, its 32 registers, the screen *)
Record enterable w : Prop := {
  en_current : 0 <= current_running (kern w);
  en_block : is_Some ((pcb (kern w)).[current_running (kern w)]);
  en_regs : regs_all (kern w);
  en_screen : drawable (scr w)
}.

Lemma in_order_enterable K m w : in_order K m w -> enterable w.
Proof.
  intros [((HI & _) & _) Hr Hd]. split; [by eapply current_small in HI as []| |done|done]. destruct (kinv_block K _ HI) as [b Hb]. by exists b.
Qed.

(** A TLB exception that needs no swapping *)
Record tlb_fault w e (random is_refill : Z) : Prop := {
  tf_va : 0 <= x_badvaddr e < USER_STACK_TOP_ADDRESS;
  tf_regs : length (x_regs e) = 32%nat;
  tf_cause : tlb_cause (tlb (mm (kern w))) (tlb_hi (x_badvaddr e) (kern w)) random is_refill;
  tf_served : served (kern w) (current_running (kern w)) (x_badvaddr e)
}.

Definition tlb_raised e w : system D := set_kern (set_EntryHi (tlb_hi (x_badvaddr e) (kern w)) (kern w)) w.

Lemma save_ok e w : is_Some ((pcb (kern w)).[current_running (kern w)]) ->
  on_kernel (upd_current (save_context e)) w = Ok (tt, set_kern (saved e (kern w)) w).
Proof.
  intros [b Hb]. unfold on_kernel, on, upd_current, upd_pcb. rewrite bind_get, (bind_Ok _ _ _ _ _ (pcb_at_Ok _ _ _ Hb)).
  cbn. by rewrite (insert_is_alter _ _ _ _ Hb).
Qed.

(** The stack of the print functions *)
Definition printer o : Prop := bf_ok (bf o) /\ (256 <= length (buff o))%nat.

Lemma printer_of_ok o P : outside_ok o P -> printer o.
Proof. intros H. split; [apply (oo_bf _ _ H)|apply (oo_buff _ _ H)]. Qed.

Lemma reflush_ok o w : printer o -> drawable (scr w) -> exists v, on_screen (screen_reflush (bf o) (buff o)) w = Ok (tt, put_screen v w) /\
  cur_x v = screen_cursor_x (kern w) /\ cur_y v = screen_cursor_y (kern w) /\ drawable v.
Proof.
  intros [Hbf Hl] Hd. destruct (Hd) as [Hn Ho Hb]. unfold on_screen, on.
  pose proof (screen_reflush_spec (bf o) (buff o) Hbf Hl (screen_of w) Hn Ho Hb) as E. rewrite E.
  eexists. split; [reflexivity|]. split; [done|]. split; [done|]. split; done.
Qed.

(** ** One exception *)

(** A relation that holds if the arrays of the screen stay as they must be *)
Definition stays_drawable w w' : Prop := drawable (scr w) -> drawable (scr w').

#[local] Instance drawable_framed : Framed stays_drawable.
Proof.
  unfold stays_drawable. split.
  - split; [by intros w|]. intros w1 w2 w3. auto.
  - intros f w u w' Hf E. by apply (on_screen_draws f w u).
  - intros v w u w' [_ ->]%on_kernel_inv. done.
  - done.
  - done.
  - done.
Qed.

Lemma exception_in_order o K random int1_sr e w w' c m :
  in_order K User w -> K + 40 < 2147483648 -> length (x_regs e) = 32%nat -> exception_ok o K int1_sr e (kern w) ->
  exception_handler o random int1_sr e w = Ok (c, w') -> next_mode c [] (kern w') = Some m -> in_order (K + 40) m w'.
Proof.
  intros Hio HK He Hok E Hm. pose proof (en_current _ (in_order_enterable _ _ _ Hio)) as Hcur. destruct Hio as [HC Hr Hd].
  split; [by eapply (exception_keeps_invariant o K random int1_sr e w w' c m); [|..]; eauto using regs_all_ok| |].
  all: destruct (exception_inv _ _ _ _ _ _ _ _ (regs_all_ok _ Hr) Hok E) as (x & y & w2 & Ek & Hd2 & Hs).
  - assert (H2 : regs_all (kern w2)) by (rewrite Ek; by apply regs_all_entered). eapply regs_all_kept, H2. destruct Hs as [t _ Eh _|w3 _ Es Hcalm].
    + eapply keeps_any_trap; [apply ctx_regs|apply mtx_regs|exact I|exact Eh].
    + transitivity (kern w3); [|apply (Hcalm (on_kern regs_kept)); apply _]. apply on_kernel_inv in Es as [Es _].
      apply upd_current_inv in Es as (b & Hb & ->). by apply (regs_kept_block _ _ b).
  - destruct Hs as [t _ _ ->|w3 _ Es Hcalm]; [by apply Hd2|]. apply (Hcalm stays_drawable); [apply _|].
    apply on_kernel_inv in Es as [_ ->]. by apply Hd2.
Qed.

(** The block of the running task once the context is saved *)
Lemma saved_block e x y s b : 0 <= current_running s -> (pcb s).[current_running s] = Some b ->
  (pcb (entered e x y s)).[current_running s] = Some (save_context e b).
Proof. intros Hc Hb. cbn. by rewrite aget_alter, decide_True, Hb. Qed.

Lemma enter_ok o e w : printer o -> enterable w ->
  exists w2 x y, kern w2 = entered e x y (kern w) /\ drawable (scr w2) /\
    forall random int1_sr, exception_handler o random int1_sr e w =
      (let code := Z.shiftr (Z.land (x_cause e) 0x7c) 2 in
       if code =? 0 then System.interrupt_helper o int1_sr [KHandlerReturn; KExceptionExit]
       else if code =? 8 then System.system_call_helper o [KHandlerReturn; KExceptionExit]
       else if (code =? 2) || (code =? 3) then on_kernel (TLB_exception_helper random 0 [KExceptionExit])
       else on_kernel (panic_asm 0)) w2.
Proof.
  intros Hp [Hc Hb _ Hd]. destruct (reflush_ok o (set_kern (saved e (kern w)) w) Hp Hd) as (v & E & _ & _ & Hv).
  exists (put_screen v (set_kern (saved e (kern w)) w)), (cur_x v), (cur_y v). split; [done|]. split; [by destruct Hv|].
  intros random int1_sr. unfold exception_handler, mbind, Sys_bind. rewrite (save_ok e w Hb), E. done.
Qed.

(** The exceptions the scheduler serves: interrupts, and the calls that reach it *)
Definition to_scheduler o (K int1_sr : Z) e (s : kstate) (t : trap) : Prop :=
  let code := Z.shiftr (Z.land (x_cause e) 0x7c) 2 in trap_ok K s t /\
  match t with
  | Interrupt cause sr => code = 0 /\ cause = x_cause e /\ sr = int1_sr
  | SystemCall c => code = 8 /\ exists fn a1 a2 a3, take 4 (drop 4 (x_regs e)) = [fn; a1; a2; a3] /\
      dispatch_call (task_at o) (lock_at o) (sem_at o) (s32 fn) (s32 a1) (s32 a2) (s32 a3) = Some (Kernel_call c)
  end.

Lemma register_ok w b i x : (pcb (kern w)).[current_running (kern w)] = Some b -> (regs (user_regs_context b)).[i] = Some x ->
  register i w = Ok (x, w).
Proof.
  intros Hb Hx. unfold register, on_kernel, on. rewrite bind_get, (bind_Ok _ _ _ _ _ (pcb_at_Ok _ _ _ Hb)). unfold Kernel.lift. rewrite Hx.
  by destruct w.
Qed.

Lemma window_reg (l : list Z) xs (n : nat) x : take 4 (drop 4 l) = xs -> xs !! n = Some x -> l.[4 + Z.of_nat n] = Some x.
Proof.
  intros <- Hx. replace (4 + Z.of_nat n) with (Z.of_nat (4 + n)) by lia. rewrite aget_nat. rewrite <- lookup_drop.
  by apply lookup_take_Some in Hx as [Hx _].
Qed.

(** What the handler then does is what [Trap.handle] does. *)
Lemma handler_handles o K random int1_sr e w t : enterable w -> printer o -> length (x_regs e) = 32%nat ->
  to_scheduler o K int1_sr e (kern w) t ->
  exists w2, calm (kern w) (kern w2) /\ regs_all (kern w2) /\ drawable (scr w2) /\ lifts (handle t (kern w2)) w2 (exception_handler o random int1_sr e w).
Proof.
  intros Hw Hp He [Ht Htr]. destruct (enter_ok o e w Hp Hw) as (w2 & x & y & Ek & Hd2 & E). destruct Hw as [Hc [b Hb] Hr _].
  pose proof (saved_block e x y _ _ Hc Hb) as Hb2. change (current_running (kern w)) with (current_running (entered e x y (kern w))) in Hb2.
  rewrite <- Ek in Hb2. pose proof (Hr _ _ Hb) as Hl. exists w2. split; [rewrite Ek; apply entered_calm|].
  split; [rewrite Ek; by apply regs_all_entered|]. split; [exact Hd2|]. rewrite E. cbv zeta. destruct t as [cause sr|c].
  - destruct Htr as (-> & -> & ->). cbn [Z.eqb handle].
    rewrite (bind_Ok _ _ _ _ _ (save_cause_again _ _ _ Hb2 eq_refl)). apply interrupt_lifts.
  - destruct Htr as (-> & fn & a1 & a2 & a3 & Hreg & Hd). cbn [Z.eqb Pos.eqb]. unfold System.system_call_helper.
    assert (Hreg4 : forall n z, [fn; a1; a2; a3] !! n = Some z -> register (4 + Z.of_nat n) w2 = Ok (z, w2)).
    { intros n z Hn. apply (register_ok _ _ _ _ Hb2). pose proof (lookup_lt_Some _ _ _ Hn) as Hlt. cbn in Hlt.
      rewrite saved_reg by (done || lia). by apply (window_reg _ _ _ _ Hreg). }
    rewrite (bind_Sys _ _ _ _ _ (Hreg4 0%nat fn eq_refl)), (bind_Sys _ _ _ _ _ (Hreg4 1%nat a1 eq_refl)),
      (bind_Sys _ _ _ _ _ (Hreg4 2%nat a2 eq_refl)), (bind_Sys _ _ _ _ _ (Hreg4 3%nat a3 eq_refl)), Hd. apply lifts_kernel.
Qed.

(** The outcomes there are: the machine goes on, or the scheduler finds no task, which needs [C]. *)
Definition goes_on (C : Prop) (r : result (ctl * system D)) : Prop :=
  (C /\ r = Panic "no task to run.") \/ exists c w', r = Ok (c, w') /\ is_Some (next_mode c [] (kern w')).

Lemma lifts_goes_on C t w r : (C /\ handle t (kern w) = Panic "no task to run.") \/ (exists c, step_by_trap t (kern w) c) ->
  lifts (handle t (kern w)) w r -> goes_on C r.
Proof.
  intros [[HC ->]|([m s'] & c & -> & Hm)]; cbn [lifts]; [by left|]. intros [v ->]. right. eexists _, _. split; [done|]. by exists m.
Qed.

(** Whether the scheduler would stop depends on the queues only. *)
Lemma calm_stops t s s' : calm s s' -> stops t s' -> stops t s.
Proof. by intros (f & x & y & -> & _). Qed.

Lemma exception_goes_on o K random int1_sr e w t : in_order K User w -> K + 40 < 2147483648 -> printer o -> length (x_regs e) = 32%nat ->
  to_scheduler o K int1_sr e (kern w) t -> goes_on (stops t (kern w)) (exception_handler o random int1_sr e w).
Proof.
  intros Hio HK Hp He Ht. destruct (handler_handles o K random int1_sr e w t (in_order_enterable _ _ _ Hio) Hp He Ht) as (w2 & Hc & _ & _ & HL).
  destruct (calm_vm_config _ _ _ _ Hc (io_kernel _ _ _ Hio)) as [HC2 _]. eapply lifts_goes_on, HL.
  destruct (trap_config K (kern w2) t HC2 HK) as [[[Hs E]|Hs] _]; [by eapply calm_trap_ok, Ht|left|by right]. split; [by eapply calm_stops|done].
Qed.

(** A TLB exception through its vector and through the refill vector. The page of the access is mapped
    when it is over. *)
Definition page_mapped K e w (m : mode) w' : Prop :=
  m = User /\ in_order K User w' /\ current_running (kern w') = current_running (kern w) /\
  is_Some (phys (kern w') (current_running (kern w)) (x_badvaddr e)).

Lemma TLB_helper_in_order K random is_refill k e w w2 :
  in_order K User w -> tlb_fault w e random is_refill -> calm (kern w) (kern w2) -> regs_all (kern w2) -> drawable (scr w2) ->
  exists w', on_kernel (TLB_exception_helper random is_refill k) (set_kern (raise_tlb (x_badvaddr e) (kern w2)) w2) = Ok (Return, w') /\
    page_mapped K e w User w'.
Proof.
  intros [HC _ _] [Hva _ Hcause Hs] Hc Hr Hd.
  destruct (kernel_TLB_exception K e _ _ random is_refill k Hc HC Hva Hcause Hs Hr) as (s' & a & E & Ha & Ec & HC' & Hr').
  unfold on_kernel, on. cbn [kern set_kern]. rewrite E. eexists. split; [done|]. split; [done|]. split; [by split|]. split; [done|by exists a].
Qed.

Lemma tlb_exception_served o K random int1_sr e w : in_order K User w -> printer o ->
  Z.shiftr (Z.land (x_cause e) 0x7c) 2 = 2 \/ Z.shiftr (Z.land (x_cause e) 0x7c) 2 = 3 -> tlb_fault w e random 0 ->
  exists w', exception_handler o random int1_sr e (tlb_raised e w) = Ok (Return, w') /\ page_mapped K e w User w'.
Proof.
  intros Hio Hp Hcode Hf. pose proof (in_order_enterable _ _ _ Hio) as [Hc Hb Hr Hd0].
  destruct (enter_ok o e (tlb_raised e w) Hp) as (w2 & x & y & Ek & Hd & ->); [by split|].
  cbn [kern tlb_raised set_kern] in Ek. rewrite raise_entered in Ek.
  destruct (TLB_helper_in_order K random 0 [KExceptionExit] e w (set_kern (entered e x y (kern w)) w2) Hio Hf) as (w' & E & Hm);
    [apply entered_calm|by apply regs_all_entered; [apply Hf| |apply Hio]|done|].
  exists w'. split; [|done]. cbv zeta. cbn [kern set_kern] in E. rewrite <- Ek in E.
  replace (set_kern (kern w2) _) with w2 in E by by destruct w2. by destruct Hcode as [-> | ->].
Qed.

Lemma tlb_refill_served K random e w : in_order K User w -> tlb_fault w e random 1 ->
  exists w', TLB_refill_handler random e (tlb_raised e w) = Ok (Return, w') /\ page_mapped K e w User w'.
Proof.
  intros Hio Hf. pose proof (in_order_enterable _ _ _ Hio) as [Hc Hb _ _]. unfold TLB_refill_handler.
  rewrite (bind_Sys _ _ _ _ _ (save_ok e (tlb_raised e w) Hb)). cbn [kern tlb_raised set_kern]. rewrite raise_saved.
  apply (TLB_helper_in_order K random 1 [KExceptionExit] e w (set_kern (saved e (kern w)) w) Hio Hf);
    [apply saved_calm|by apply regs_all_save; [apply Hf| |apply Hio]|apply Hio].
Qed.

(** ** Runs

    A step is an exception, from the user program to where the handler leaves; what a task does when
    it gets the processor back in the kernel; or a user program writing its memory. What is outside of the
    state may be another thing each time. *)
Inductive machine_step (P : Z) : mode * system D -> mode * system D -> Prop :=
  | by_exception o random int1_sr e w c w' m :
      printer o -> length (x_regs e) = 32%nat -> exception_ok o P int1_sr e (kern w) ->
      exception_handler o random int1_sr e w = Ok (c, w') -> next_mode c [] (kern w') = Some m ->
      machine_step P (User, w) (m, w')
  | by_tlb_exception o random int1_sr e w c w' m :
      printer o -> Z.shiftr (Z.land (x_cause e) 0x7c) 2 = 2 \/ Z.shiftr (Z.land (x_cause e) 0x7c) 2 = 3 -> tlb_fault w e random 0 ->
      exception_handler o random int1_sr e (tlb_raised e w) = Ok (c, w') -> next_mode c [] (kern w') = Some m ->
      machine_step P (User, w) (m, w')
  | by_tlb_refill random e w c w' m :
      tlb_fault w e random 1 ->
      TLB_refill_handler random e (tlb_raised e w) = Ok (c, w') -> next_mode c [] (kern w') = Some m ->
      machine_step P (User, w) (m, w')
  | by_frame fr k w m s : step_by_frame fr k (kern w) (m, s) -> machine_step P (KernelFrames (fr :: k), w) (m, set_kern s w)
  | by_program mem w :
      machine_step P (User, w) (User, set_space (fun p => if p =? current_running (kern w) then mem else space w p) w).

Inductive machine_steps (P : Z) : nat -> mode * system D -> mode * system D -> Prop :=
  | machine_steps_none c : machine_steps P 0 c c
  | machine_steps_more n c1 c2 c3 : machine_step P c1 c2 -> machine_steps P n c2 c3 -> machine_steps P (S n) c1 c3.

Lemma exception_ok_mono o K K' int1_sr e s : K <= K' -> exception_ok o K int1_sr e s -> exception_ok o K' int1_sr e s.
Proof.
  intros HK [[Hcode H]|(Hcode & He & H)]; [left|right]; (split; [done|]).
  - by eapply trap_ok_mono.
  - split; [done|]. intros fn a1 a2 a3 c Hreg Hd. apply (trap_ok_mono K K' s (SystemCall c) HK). by eapply H.
Qed.

Lemma machine_step_in_order P K m w m' w' : machine_step P (m, w) (m', w') -> in_order K m w -> P <= K -> K + 40 < 2147483648 ->
  in_order (K + 40) m' w'.
Proof.
  intros H Hio HP HK. inversion H as [o random sr e w0 c w1 m1 Hp He Hok E Hm|o random sr e w0 c w1 m1 Hp Hcode Hf E Hm|random e w0 c w1 m1 Hf E Hm|fr k w0 m1 s Hs|mem w0]; subst.
  - by eapply exception_in_order, Hm; [..|by eapply exception_ok_mono, Hok|].
  - destruct (tlb_exception_served o K random sr e w Hio Hp Hcode Hf) as (w1 & E1 & _ & Hio' & _). rewrite E in E1. injection E1 as -> ->.
    injection Hm as <-. eapply in_order_mono, Hio'. lia.
  - destruct (tlb_refill_served K random e w Hio Hf) as (w1 & E1 & _ & Hio' & _). rewrite E in E1. injection E1 as -> ->.
    injection Hm as <-. eapply in_order_mono, Hio'. lia.
  - destruct Hio as [HC Hr Hd]. split; [|  |done].
    + by eapply (good_step_vm K P (KernelFrames (fr :: k), kern w)); [apply good_frame|..].
    + eapply regs_all_kept, Hr. destruct Hs as (c & E & _). eapply keeps_any_frame; [apply ctx_regs|apply mtx_regs|exact I|exact E].
  - eapply (in_order_mono K); [lia|]. by destruct Hio.
Qed.

Lemma machine_steps_in_order P n : forall K m w m' w', machine_steps P n (m, w) (m', w') -> in_order K m w -> P <= K ->
  K + 40 * Z.of_nat n < 2147483648 -> in_order (K + 40 * Z.of_nat n) m' w'.
Proof.
  induction n as [|n IH]; intros K m w m' w' H HC HP HK; inversion H as [|? ? [m1 w1]]; subst.
  - by rewrite Z.mul_0_r, Z.add_0_r.
  - replace (K + 40 * Z.of_nat (S n)) with (K + 40 + 40 * Z.of_nat n) by lia.
    eapply IH; [done|eapply machine_step_in_order; [done..|lia]|lia|lia].
Qed.

(** ** From the reset *)

Lemma regs_init_task a b : keeps (fun _ => True) regs_kept (init_task a b).
Proof. unfold init_task, init_pid_list. keeps_tac. Qed.

Lemma regs_init_locks n i : keeps (fun _ => True) regs_kept (init_mutex_locks_loop n i).
Proof.
  revert i. induction n as [|n IH]; intros i; cbn [init_mutex_locks_loop]; [apply keeps_ret|].
  apply keeps_bind; [apply keeps_do_mutex_lock_init, mtx_regs|by intros _].
Qed.

Lemma regs_set_mm m : keeps (fun _ => True) regs_kept (modify (fun s => set_mm (m s) s)).
Proof. apply keeps_modify. intros s. by apply regs_kept_same. Qed.

Lemma regs_init_slist sel put n : keeps (fun _ => True) regs_kept (init_slist sel put n).
Proof. unfold init_slist. apply keeps_bind; [apply keeps_get|intros l]. apply keeps_bind; [apply keeps_lift_const|intros l']. apply regs_set_mm. Qed.

Lemma regs_init_TLB_loop n : forall i, keeps (fun _ => True) regs_kept (init_TLB_loop n i).
Proof.
  induction n as [|n IH]; intros i; cbn [init_TLB_loop]; [apply keeps_ret|]. apply keeps_bind; [unfold tlb_write|by intros _].
  apply keeps_bind; [apply keeps_get|intros t]. apply keeps_bind; [apply keeps_lift_const|intros t']. apply regs_set_mm.
Qed.

Lemma regs_init_memory : keeps (fun _ => True) regs_kept init_memory.
Proof.
  apply keeps_bind; [apply keeps_bind; [|intros _; apply regs_init_TLB_loop]|intros _].
  - apply keeps_modify. intros s. by apply regs_kept_same.
  - apply keeps_bind; [apply regs_init_slist|intros _]. apply keeps_bind; [apply regs_init_slist|intros _]. apply regs_init_slist.
Qed.

Lemma calmly_kernel {A} (m : M A) : keeps (fun _ => True) regs_kept m -> calmly (T := on_kern regs_kept) (on_kernel m : Sys D A).
Proof. intros Hm w x w' [E _]%on_kernel_inv. by eapply Hm. Qed.

Lemma start_keeps_regs o : calmly (T := on_kern regs_kept) (_start o : Sys D unit).
Proof.
  assert (Ht : forall f, calmly (T := on_kern regs_kept) (on_text f : Sys D unit)).
  { intros f. apply calmly_on. intros v w. unfold on_kern. cbn. reflexivity. }
  assert (Hs : forall f, draws f -> calmly (T := on_kern regs_kept) (on_screen f : Sys D unit)) by (intros f; apply calmly_screen).
  unfold _start, init_exception, init_outside_call. cbv zeta.
  repeat lazymatch goal with
  | |- calmly (mbind _ _) => apply calmly_bind; [|intros _]
  | |- calmly (on_text _) => apply Ht
  | |- calmly (on_files _ _) => apply calmly_on_files
  | |- calmly (on_kernel init_memory) => apply calmly_kernel, regs_init_memory
  | |- calmly (on_kernel (init_task _ _)) => apply calmly_kernel, regs_init_task
  | |- calmly (on_kernel init_mutex_locks) => apply calmly_kernel, regs_init_locks
  | |- calmly (on_screen _) => apply Hs; try solve [auto with os nocore]
  end.
  all: unfold init_screen, vt100_set_color, vt100_hidden_cursor; try apply draws_bind; auto with os.
Qed.

(** The interrupt of the timer that takes the processor from [main] *)
Lemma first_exception o K random int1_sr e w a b :
  tasks_up K a b (kern w) -> enterable w -> K + 40 < 2147483648 -> printer o -> length (x_regs e) = 32%nat ->
  Z.shiftr (Z.land (x_cause e) 0x7c) 2 = 0 -> Z.land (x_cause e) 0x8000 <> 0 ->
  exists w', exception_handler o random int1_sr e w = Ok (Switch, w') /\ (current_running (kern w') = 1 \/ current_running (kern w') = 2) /\
    next_mode Switch [] (kern w') = Some (KernelFrames [KExceptionExit]) /\ in_order (K + 40) (KernelFrames [KExceptionExit]) w'.
Proof.
  intros HT Hw HK Hp He Hcode Hcause. set (t := Interrupt (x_cause e) int1_sr).
  destruct (handler_handles o K random int1_sr e w t Hw Hp He) as (w2 & Hc & Hr & Hd & HL); [split; [by left|done]|].
  destruct (main_interrupted K (kern w2) (x_cause e) int1_sr a b (tasks_up_calm _ _ _ _ _ Hc HT) HK Hcause) as (s' & E & Hcur & Hm & HC).
  unfold t in HL. rewrite E in HL. destruct HL as [v HL]. eexists. split; [exact HL|]. split; [exact Hcur|]. split; [exact Hm|]. split.
  - exact HC.
  - eapply regs_all_kept, Hr. eapply keeps_any_trap; [apply ctx_regs|apply mtx_regs|exact I|exact E].
  - exact Hd.
Qed.

Lemma started_enterable o P w0 w1 : machine_up o P w0 w1 -> regs_all (kern w1) -> enterable w1.
Proof.
  intros Hup Hr. destruct (tu_main _ _ _ _ (up_tasks _ _ _ _ Hup)) as [Hc Hb]. split; [lia|done|done|].
  destruct (up_screen _ _ _ _ Hup) as [E1 E2]. split; rewrite ?E1, ?E2; [apply length_replicate..|by apply Forall_replicate].
Qed.

(** What the machine does next: the exceptions of the scheduler and of the memory are served, a task in the
    kernel goes on. The only other outcome is that there is no task to run: in a call that can wait or end its task, or when a task
    goes on in the kernel to take a lock, of the only task that is ready; never in an interrupt. *)
Definition next_served (P : Z) (m : mode) w : Prop :=
  match m with
  | User =>
      (forall o random int1_sr e t, printer o -> length (x_regs e) = 32%nat -> to_scheduler o P int1_sr e (kern w) t ->
        goes_on (stops t (kern w)) (exception_handler o random int1_sr e w)) /\
      (forall o random int1_sr e, printer o -> Z.shiftr (Z.land (x_cause e) 0x7c) 2 = 2 \/ Z.shiftr (Z.land (x_cause e) 0x7c) 2 = 3 ->
        tlb_fault w e random 0 ->
        exists w', exception_handler o random int1_sr e (tlb_raised e w) = Ok (Return, w') /\
          is_Some (phys (kern w') (current_running (kern w)) (x_badvaddr e))) /\
      (forall random e, tlb_fault w e random 1 ->
        exists w', TLB_refill_handler random e (tlb_raised e w) = Ok (Return, w') /\
          is_Some (phys (kern w') (current_running (kern w)) (x_badvaddr e)))
  | KernelFrames [] => True
  | KernelFrames (fr :: k) =>
      (stalls fr (kern w) /\ resume_sync fr k (kern w) = Panic "no task to run.") \/ exists c, step_by_frame fr k (kern w) c
  end.

Lemma in_order_next P K m w : in_order K m w -> P <= K -> K + 40 < 2147483648 -> next_served P m w.
Proof.
  intros Hio HP HK. destruct m as [|[|fr k]]; [split; [|split]|done|].
  - intros o random int1_sr e t Hp He [Ht Htr]. apply (exception_goes_on o K _ _ _ _ t); try done. split; [by eapply trap_ok_mono|done].
  - intros o random int1_sr e Hp Hcode Hf. destruct (tlb_exception_served o K random int1_sr e w Hio Hp Hcode Hf) as (w' & E & _ & _ & _ & Hm). eauto.
  - intros random e Hf. destruct (tlb_refill_served K random e w Hio Hf) as (w' & E & _ & _ & _ & Hm). eauto.
  - destruct (io_kernel _ _ _ Hio) as [HC _]. by apply (frame_config K (kern w) fr k HC).
Qed.

(** C1. The whole machine, from the reset on. [_start] ends; the first interrupt of the timer gives the processor to
    the shell or to [io_proc] (tasks 1 and 2), which leaves the kernel for its program; and
    after any run of exceptions, resumed kernel frames and user programs at work, in any order (interrupts, all
    system calls, TLB exceptions that need no swapping), the invariants of the tasks, of the memory, of the
    saved contexts and of the screen hold, no two accesses of different tasks or addresses reach the
    same byte, and what comes next is served: an interrupt or a TLB exception ends, the last with the page mapped,
    and so does a call of the scheduler, and a task in the kernel goes on, unless the running task is the only one that is ready and
    makes a call that can wait or end it, or takes a lock, where the scheduler may panic. Programs must initialise the objects
    they use; their calls and arguments are arbitrary otherwise. *)
Theorem machine_stays_in_order o (P n : Z) w0 :
  outside_ok o P -> at_reset o w0 -> regs_all (kern w0) -> 0 <= n -> P + 40 * (n + 2) < 2147483648 ->
  exists w1, _start o w0 = Ok (tt, w1) /\
  forall o1 random int1_sr e, printer o1 -> length (x_regs e) = 32%nat ->
    Z.shiftr (Z.land (x_cause e) 0x7c) 2 = 0 -> Z.land (x_cause e) 0x8000 <> 0 ->
    exists w2, exception_handler o1 random int1_sr e w1 = Ok (Switch, w2) /\
      (current_running (kern w2) = 1 \/ current_running (kern w2) = 2) /\
      next_mode Switch [] (kern w2) = Some (KernelFrames [KExceptionExit]) /\
      forall m w, machine_steps P (Z.to_nat n) (KernelFrames [KExceptionExit], w2) (m, w) ->
        in_order (P + 40 * (n + 1)) m w /\ isolated (kern w) /\ next_served P m w.
Proof.
  intros Ho Hreset Hr0 Hn HP. destruct (proj1 (wp_Ok _ _ _) (start_up o P Ho w0 Hreset)) as ([] & w1 & E1 & Hup).
  exists w1. split; [exact E1|]. intros o1 random int1_sr e Hp He Hcode Hcause.
  assert (Hr1 : regs_all (kern w1)) by (eapply regs_all_kept, Hr0; by eapply (start_keeps_regs o)).
  destruct (first_exception o1 P random int1_sr e w1 _ _ (up_tasks _ _ _ _ Hup) (started_enterable _ _ _ _ Hup Hr1) ltac:(lia) Hp He Hcode Hcause)
    as (w2 & E2 & Hcur & Hm & Hio).
  exists w2. split; [exact E2|]. split; [exact Hcur|]. split; [exact Hm|]. intros m w Hs.
  apply (machine_steps_in_order _ _ (P + 40)) in Hs; [|done|lia|lia].
  replace (P + 40 + 40 * Z.of_nat (Z.to_nat n)) with (P + 40 * (n + 1)) in Hs by lia.
  split; [exact Hs|]. split; [by eapply vm_config_isolated, Hs|]. apply (in_order_next P (P + 40 * (n + 1))); [done|lia|lia].
Qed.
End machine.
