(* ===== verification/SystemExample.v ===== *)
(** The theorems about the whole kernel, applied: zeroed memory with an empty card, and the running kernel of
    [VmExample] with a system call and with a call of the screen. *)

From S2P Require Import Prelude Slist CString Printk Layout Sdcard Fs FsSpec FsFormat FileSystem Mac Screen Kernel Queue Sched Sync.
From S2P Require Import Memory MemorySpec SchedSpec KernelInv Trap Safety Keeps Run Isolation Example VmExample Witnesses.
From S2P Require Import Syscalls System SystemSpec Start Machine.

(** ** The machine *)

Definition example_outside : outside :=
  Outside (replicate 24 0) (replicate 256 0) zero_super_block (replicate 8 zero_inode) zero_dir 0 0x80ff0000 0
    (fun _ _ => 0) 0x80ff1000 0x80ff2000 1
    (fun a => TaskInfo a USER_PROCESS 1 "task") UserLock UserSem
    0x80001000 0x80001010 0x80001010 0x80001018 0x80002000 0x80003000 0x80004000 (fun i => 0x80010000 + 512 * i)
    (TaskInfo 0x1000 USER_PROCESS 1 "shell") (TaskInfo 0x2000 USER_PROCESS 1 "io_proc").

(** The words of the two handlers *)
Definition example_text : gmap Z Z := list_to_map ((fun i => (0x80001000 + 4 * Z.of_nat i, 100 + Z.of_nat i)) <$> seq 0 6).

Definition zero_screen : screen := Screen 0 0 (replicate 2100 0) (replicate 2100 0) [].

Definition example_system (s : kstate) : system (sd memcard) :=
  System s zero_fs zero_screen (Net [] [] []) (fun _ => []) example_text.

Lemma example_outside_ok : outside_ok example_outside 1.
Proof.
  split.
  - split; [|reflexivity]. by apply Forall_replicate.
  - split; [cbn; lia|]. by apply Forall_replicate.
  - exact zero_super_block_wf.
  - exact zero_inodes_wf.
  - exact zero_dir_wf.
  - cbn. lia.
  - cbn. lia.
Qed.

Lemma example_handlers b e room : 0x80001000 <= b -> b <= e -> e <= 0x80001018 -> (e - b) mod 4 = 0 -> b mod 4 = 0 -> e - b <= room ->
  handler_at example_text b e room.
Proof.
  intros Hb Hbe He Ha Hb4 Hr. split; [lia|done|unfold OUTSIDE_CALL_BASE; lia|done|]. intros k Hk Hke.
  assert (Hw : bool_decide (Forall (fun i => is_Some (example_text !! (0x80001000 + 4 * i))) (seqZ 0 6)) = true) by (vm_compute; reflexivity).
  apply bool_decide_eq_true in Hw. rewrite Forall_seqZ in Hw. apply Z.mod_divide in Hb4 as [n ->]; [|done].
  specialize (Hw (n + k - 0x20000400) ltac:(lia)). by replace (n * 4 + 4 * k) with (0x80001000 + 4 * (n + k - 0x20000400)) by lia.
Qed.

(** ** The start *)

Lemma with_dirs_field {A} (g : pcb_t -> A) n P i b : (forall d b, g (set_page_dir d b) = g b) -> (with_dirs n P).[i] = Some b ->
  exists b0, P.[i] = Some b0 /\ g b = g b0.
Proof.
  intros Hg. revert b. induction n as [|n IH]; intros b; cbn [with_dirs]; [eauto|]. intros Hb.
  pose proof (alter_fmap g (set_page_dir empty_dir) (with_dirs n P) n i (Hg empty_dir)) as E. rewrite Hb in E. cbn in E.
  destruct ((with_dirs n P).[i]) as [b1|]; [|done]. destruct (IH b1 eq_refl) as (b0 & ? & ?). exists b0. split; [done|]. cbn in E. congruence.
Qed.

Lemma with_memory_field {A} (g : pcb_t -> A) s i b : (forall d b, g (set_page_dir d b) = g b) -> (pcb (with_memory s)).[i] = Some b ->
  exists b0, (pcb s).[i] = Some b0 /\ g b = g b0.
Proof. apply with_dirs_field. Qed.

Lemma reset_memory : memory_reset (with_memory zeroed).
Proof.
  pose proof zeroed_bss as [].
  split; [|by apply with_memory_sizes|by apply with_memory_empty|vm_compute; reflexivity..].
  split; try done. intros i b (b0 & Hb & ->)%(with_memory_field kernel_context); [eauto|done].
Qed.

Lemma reset_system : at_reset example_outside (example_system (with_memory zeroed)).
Proof.
  split.
  - exact reset_memory.
  - done.
  - split; [reflexivity|]. split; [reflexivity|]. by apply Forall_replicate.
  - reflexivity.
  - reflexivity.
  - by apply example_handlers.
  - by apply example_handlers.
Qed.

Lemma start_brings_up_witness : exists w', _start example_outside (example_system (with_memory zeroed)) = Ok (tt, w') /\
  machine_up example_outside 1 (example_system (with_memory zeroed)) w' /\
  exists s', step_by_trap (Interrupt 0x8000 0) (kern w') (KernelFrames [KExceptionExit], s') /\
    (current_running s' = 1 \/ current_running s' = 2) /\ vm_config (1 + 40) (KernelFrames [KExceptionExit], s').
Proof.
  destruct (start_brings_up example_outside 1 example_outside_ok (example_system (with_memory zeroed)) reset_system) as (w' & E & Hup & Hint).
  exists w'. split; [exact E|]. split; [exact Hup|]. apply Hint; [lia|done].
Defined.

(** ** Runs *)

Definition timer_context : context := Ctx (replicate 32 0) 0x8001 0x8000 0x1000 0 11 12.

Lemma reset_regs : regs_all (with_memory zeroed).
Proof.
  intros i b (b0 & Hb & ->)%(with_memory_field (fun b => length (regs (user_regs_context b)))); [|done].
  unfold aget in Hb. case_decide; [|done]. by apply list_elem_of_lookup_2, elem_of_replicate in Hb as [-> _].
Qed.

Lemma example_printer : printer example_outside.
Proof. apply (printer_of_ok example_outside 1 example_outside_ok). Qed.

Lemma leaves_kernel P (w : system (sd memcard)) : machine_step P (KernelFrames [KExceptionExit], w) (User, set_kern (kern w) w).
Proof. apply (by_frame P KExceptionExit [] w User (kern w)). exists Return. split; reflexivity. Qed.

Lemma works P mem (w : system (sd memcard)) :
  machine_steps P 2 (KernelFrames [KExceptionExit], w)
    (User, set_space (fun p => if p =? current_running (kern w) then mem else space w p) (set_kern (kern w) w)).
Proof. eapply machine_steps_more; [apply leaves_kernel|]. eapply machine_steps_more; [apply (by_program P mem)|apply machine_steps_none]. Qed.

(** The start, the first interrupt, the way of the first task to its program, and that program at work *)
Lemma machine_stays_in_order_witness : exists w1 w2 w, _start example_outside (example_system (with_memory zeroed)) = Ok (tt, w1) /\
  exception_handler example_outside 3 0 timer_context w1 = Ok (Switch, w2) /\ (current_running (kern w2) = 1 \/ current_running (kern w2) = 2) /\
  machine_steps 1 2 (KernelFrames [KExceptionExit], w2) (User, w) /\ space w (current_running (kern w2)) = [1; 2; 3] /\
  in_order 121 User w /\ isolated (kern w) /\ next_served 1 User w.
Proof.
  destruct (machine_stays_in_order example_outside 1 2 (example_system (with_memory zeroed)) example_outside_ok reset_system reset_regs)
    as (w1 & E & H); [lia|lia|].
  destruct (H example_outside 3 0 timer_context example_printer eq_refl eq_refl) as (w2 & E2 & Hcur & _ & Hrun); [discriminate|].
  pose proof (works 1 [1; 2; 3] w2) as Hs. set (w := set_space _ _) in Hs.
  exists w1, w2, w. split; [exact E|]. split; [exact E2|]. split; [exact Hcur|]. split; [exact Hs|].
  split; [unfold w; cbn [space set_space]; rewrite Z.eqb_refl; reflexivity|]. exact (Hrun User w Hs).
Defined.

(** ** Calls *)

(** A call with its number in register 4 and its arguments in registers 5 to 7 *)
Definition call_regs (fn a1 a2 a3 : Z) : list Z := [0; 1; 2; 3; fn; a1; a2; a3] ++ replicate 24 7.

Definition call_context (fn a1 a2 a3 : Z) : context := Ctx (call_regs fn a1 a2 a3) 0x8001 0x20 0x1000 0 11 12.

Definition succeeds {A B} (r : result (A * B)) (x : A -> bool) : bool := match r with Ok (a, _) => x a | _ => false end.

Lemma succeeds_Ok {A B} (r : result (A * B)) x : succeeds r x = true -> exists a b, r = Ok (a, b) /\ x a = true.
Proof. destruct r as [[a b]| | |]; try done. eauto. Qed.

Definition is_return (c : ctl) : bool := match c with Return => true | Switch => false end.

(** [getpid], with the memory set up *)
Lemma getpid_served : exists w', exception_handler example_outside 3 0 (call_context NR_GETPID 0 0 0) (example_system vm_example) = Ok (Return, w').
Proof.
  assert (Hr : succeeds (exception_handler example_outside 3 0 (call_context NR_GETPID 0 0 0) (example_system vm_example)) is_return = true).
  { destruct vm_example_ok as (m & -> & _). vm_compute. reflexivity. }
  apply succeeds_Ok in Hr as ([] & w' & E & Hr); [eauto|discriminate Hr].
Qed.

Lemma getpid_ok : exception_ok example_outside 4 0 (call_context NR_GETPID 0 0 0) vm_example.
Proof.
  right. split; [reflexivity|]. split; [reflexivity|]. intros fn a1 a2 a3 c Hreg Hc. injection Hreg as <- <- <- <-.
  vm_compute in Hc. injection Hc as <-. exact I.
Qed.

(** A run: the call, then the program at work *)
Lemma machine_runs : exists w', machine_steps 4 2 (User, example_system vm_example) (User, w').
Proof.
  destruct getpid_served as (w & E). eexists. eapply machine_steps_more; [|eapply machine_steps_more; [apply (by_program 4 [1; 2; 3])|apply machine_steps_none]].
  eapply (by_exception 4 example_outside 3 0 (call_context NR_GETPID 0 0 0)); [exact example_printer|reflexivity|exact getpid_ok|exact E|reflexivity].
Qed.

